(* ===== verification/_CoqProject ===== *)
-Q . S2P
Prelude.v
PyFloat.v
Dict.v
Struct.v
Crc.v
PyText.v
PyStr.v
Json.v
JsonFuel.v
Base64.v
Sha256.v
Crypto.v
Constants.v
Packet.v
Messages.v
Errors.v
State.v
Models.v
Value.v
Discovery.v
Backend.v
MemoryBackend.v
Terminal.v
AgentServer.v
AgentInvariant.v
AgentSafety.v
AgentTransfer.v
AgentMap.v
UdpBackend.v
UdpSafety.v
UdpDeadline.v
Link.v
Exchange.v
ReliableLink.v
Retry.v
ScreenWire.v
Remote.v
Files.v
Linux.v
LinuxFiles.v
SettledFiles.v
LinuxShell.v
SmallKernel.v
LinuxInvariant.v
Simulator.v
Runtime.v
Server.v
RuntimeSafety.v
ServerSafety.v
EndToEnd.v
Transferred.v
Permissions.v
Configured.v
Session.v
RepositoryTests.v
E2e.v
DosboxE2e.v
TsrE2e.v
CheckDocs.v
