(* ===== verification/Prelude.v ===== *)
(** * DOS MCP: a verified model of the bridge

    DOS MCP lets a host computer operate a DOS machine: an MCP server on the
    host (src/src/dos_mcp/server.py) drives a [Backend] (backend.py), the UDP
    backend (backends/udp.py) speaks a small authenticated datagram protocol
    (protocol/), and an agent answers it: the DOS program under src/dos, or the
    Python agent (agent_server.py) around a Linux terminal
    (backends/linux.py, terminal.py).  Targets are named in the environment or
    announce themselves on the network (runtime.py, discovery.py).  This
    development models the Python program end to end: from a tool call down to
    the bytes of a datagram, and from there up to the operations of the machine
    behind the agent.

    ** How Python is modelled

    [Prelude.v] (this file): integers are [Z]; [bytes] are lists of
    [Byte.byte]; a [str] is the list of its code points; an exception is its
    class and its text ([exn]); a call that may raise returns a [result], and
    the order of the source's checks is the order of the binds.  [IntEnum] is
    the interface of the source's enumerations.  [State.v] adds the monad of
    the program's objects ([stateful]): what a method changed before it raised
    stays changed, [catch] is [try ... except]; [keeps], [preserves], [ends]
    and [comes_back] are the judgements the proofs are written in.  A loop that
    never ends is the outcome [Diverges], which is not an exception of the
    program: no [except] and no [finally] sees it ([ends_in] is false of it),
    and whatever would follow does not happen.  [Dict.v] is the
    insertion-ordered [dict] (its oldest entry is evicted first).  The parts of
    the standard library the program relies on are modelled, not assumed:
    [Struct.v] the [struct] module, format strings included; [Crc.v]
    [zlib.crc32]; [Sha256.v] [hashlib.sha256]; [PyText.v] the CP437, ASCII and
    UTF-8 codecs, [str.isdigit], [int] and hexadecimal parsing; [PyStr.v]
    [str.casefold], [repr], [rpartition], [int] and sorting; [Json.v] [json.loads];
    [Base64.v] the strict Base64 of the tools; [PyFloat.v] the binary64
    arithmetic of the clocks; [Files.v] [pathlib] and the file system
    interface.  No axiom is used.

    ** The parts

    - [Crc.v]: protocol/crc.py.
    - [Crypto.v]: protocol/crypto.py (credentials, XTEA session keys, Speck32
      CBC tags).
    - [Constants.v]: protocol/constants.py, a Module per enumeration.
    - [Packet.v]: protocol/packet.py (datagram codec, fragmentation,
      reassembly).
    - [Messages.v]: protocol/messages.py, a Module per payload class; the record
      [WireCodec] and the class [WireLaws] are what the agent and the client use
      of a payload class, [wire_class] enumerates the classes.
    - [Errors.v]: protocol/errors.py.
    - [Models.v], [Backend.v]: models.py and backend.py; [Backend] is a type
      class over the machine's state, [BackendLaws] what every implementation
      promises.  [MemoryBackend.v] is a small instance for the witnesses and
      models no code.
    - [AgentServer.v]: agent_server.py.  The object's attributes are the record
      [UdpAgentServer]; its methods have their names; [operation] is the [try]
      body of [_dispatch]; [handle_request] is [handle_datagram] after
      authentication.  The socket is what its waits end with ([wakeup]: a
      datagram, or the exception [recvfrom] raised) and the list [sent];
      [serve_forever] takes the waits in order, and [serve] is it on datagrams
      only.  The nonce factory, [secrets.randbelow] and the error, if any, that
      [sendto] raises are the [entropy] that comes with a datagram.
    - [AgentInvariant.v], [AgentSafety.v], [AgentTransfer.v]: theorems about it.
    - [Terminal.v]: terminal.py, the class [TerminalBuffer]; cells are assigned
      by Python's indexing ([setitem]).
    - [UdpBackend.v]: backends/udp.py.  The network is the class [Network]: what
      [transmit] returns are the datagrams that reach the socket before the next
      timeout; they wait in [inbox] until [recvfrom] takes them.
      [receive_loop] is the loop of one attempt, [attempts] the loop over the
      retries.  [UdpSafety.v]: what holds on any network.  [UdpDeadline.v]: the
      same exchange with the clock, the deadline of an attempt and the socket's
      timeouts ([timed_exchange]), a refinement of the model without a clock.
    - [Link.v]: client and agent joined by a link that loses, duplicates and
      reorders datagrams as a schedule says.  [Exchange.v]: one request over any
      such link.  [ReliableLink.v]: sessions over a link that delivers
      ([synced]), the handshake and the request on it.  [Retry.v]: a request on a
      link of which only one attempt gets through.  [ScreenWire.v]: a text
      screen from the agent's machine to the client.  [Remote.v]: the client's
      operations against the machine behind the agent.
    - [Value.v]: the [to_dict] methods of models.py and the values they return.
    - [Discovery.v]: discovery.py; the Module [Codec] has the theorems about the
      announcement.
    - [Linux.v]: backends/linux.py over the classes [Files] and [Shell] of the
      kernel's operations.  [LinuxFiles.v] and [LinuxShell.v]: theorems about its
      file transfers and about its shell, under the documented behaviour of the
      kernel ([FilesLaws], [ShellLaws], [DrainLaws]), each with a small kernel that
      has it.
    - [LinuxInvariant.v]: the terminal of a Linux target stays well formed.
      [AgentMap.v]: an agent commutes with maps of its backend; [Restricted] is a
      backend in its good states.  [Simulator.v]: simulator.py, a Linux target
      behind the agent's server.  [SmallKernel.v]: a small kernel for witnesses.
    - [Runtime.v]: runtime.py over the class [Host]; a backend object
      ([backend_object]) belongs to its record and is reached by the record's
      key; the objects no record refers to any more are kept in [dropped], because
      their sockets are still there.  [Server.v]: the tools of server.py.  [RuntimeSafety.v] and
      [ServerSafety.v]: theorems about them.  [EndToEnd.v]: a tool call and the
      disk of the simulated machine.  [Transferred.v]: an upload and a
      download, on a file system whose links stay ([SettledFiles.v]).
      [Permissions.v]: file transfers and the settings that permit them.
      [Session.v]: the calls of a server and its closing at exit.
      [Configured.v]: the JSON table of targets, written, read back and filed.
    - [RepositoryTests.v]: the assertions of the repository's tests, evaluated
      on the model.
    - [E2e.v], [DosboxE2e.v], [TsrE2e.v]: src/tools/dosbox_e2e.py and
      dosbox_tsr_e2e.py, what the two scripts share (the wait for the agent,
      [check], the backend closed at the end) and the checks of each, over the
      class [Bench] of their clock and standard output.  [CheckDocs.v]:
      src/tools/check_docs.py over the class [Docs] of a directory tree.

    ** What the theorems show

    - Packets: encoding and decoding are inverse on well-formed packets, the
      decoder is strict (it accepts only encodings under the key, with at most
      one pad byte) and raises nothing but [PacketError]; fragmentation and
      reassembly are inverse in any order of arrival and reassembly accepts
      complete messages only.
    - Authentication: the tag separates messages that differ in one aligned
      block, session keys separate pairs of nonces, the CRC separates messages
      that differ in two adjacent bytes.
    - Payloads: for every class, round trip, canonical decoding, exact encoder
      domains, [ValueError] as the decoders' only exception.
    - Agent: the invariant [server_ok] in all reachable states for every
      backend; unauthenticated datagrams have no effect; the backend is reached
      only by fresh complete requests; a retransmission is not executed while its
      answer is cached; while screens fit a message, which the simulator's do,
      the loop ends only by returning, by a failure of the socket (in waiting or
      in sending an answer) or in a call of the backend that never returns;
      downloads and uploads deliver exactly the data with its checksum.
    - Client: whatever a network delivers, the object keeps its invariant, a
      response is returned only if it is authentic and answers the request, and
      transfers end in verified data only.  The one exception of a class of its own
      is [OverflowError] for a pause longer than any clock's.
    - Client and agent together: over a link that loses, duplicates and reorders,
      a request is executed at most once and its caller is told what happened or
      times out; it completes as soon as one attempt gets through, whatever the
      earlier ones lost; over a link that delivers, the client's operations refine
      the operations of the machine behind the agent (keys, screens, framebuffers,
      downloads, uploads, errors included) as far as the wire carries them: of a
      screen the size, text, attributes and cursor position, while the cursor's
      visibility is recomputed.  These theorems are about operations that end and a
      link on which the agent's sending does not fail ([returns], [steady]).
    - Linux target: an upload is all or nothing on the file system, a download
      returns the file the path resolves to below the root, byte for byte, keys
      are typed exactly, and a drain reads a bounded amount and ends.
    - Discovery: the announcement decoder accepts exactly the encodings of valid
      announcements; a drain returns exactly the valid ones, in order, each with
      its own reading of the clock.
    - Runtime and tools: resolution finds exactly the target a request can mean;
      in every reachable state a client talks to the address its record shows,
      with the configured key and permissions; a tool call reaches the selected
      target once and no other; the file tools, through runtime, client, link
      and agent, are one file operation of the agent's machine, and Base64
      carries the contents unchanged; over a link that delivers, for a simulated
      machine they read and write
      exactly the file on its disk, and what was uploaded is downloaded again.  A
      table of targets in the environment is exactly the table of the runtime.
      After the closing at exit no discovery socket is open and every client the
      server made has closed its own, also those let go of because their agent
      moved.  In an
      environment that does not permit file transfers, the file tools raise in
      every reachable state and disturb nothing.
    - Terminal: every screen the shell's output can produce is well formed;
      printing, scrolling and erasing are exact on the screen read as a tape; how
      the output is cut into reads does not matter until a read raises; ASCII output never raises.
    - Tools: the documentation check reports exactly the broken local links; an
      end-to-end script whose checks end closes what it connected; text typed in batches arrives once
      and in order.
    - Where the code falls short of its documentation the theorem says so by a
      concrete run: a rejected replay reopens the replay window
      ([AgentSafety.replayed_request_executes_again]), a large screen stops the
      server ([AgentTransfer.large_screen_raises]), the key-request decoder has
      no limits ([Messages.key_request_decode_unbounded]), a digit that is
      not a decimal in a control sequence stops a feed
      ([Terminal.superscript_parameter_raises]), some passphrases are refused
      ([Crypto.credential_key_rejects_int_like_passphrases]), an upload to the
      root itself writes its temporary file beside the root
      ([LinuxFiles.upload_of_root_leaves_it]), an answer the socket refuses stops
      the agent ([AgentMap.agent_survives]), a hidden cursor is seen visible
      ([Remote.remote_capture_screen]).

    ** Bounds and fuel

    Recursion is structural throughout, except [chunks], whose fuel is the
    list's length ([chunks_fuel_ge] shows any larger fuel gives the same), and
    [download_loop], whose fuel is the announced size: every round adds a byte
    or raises.  The loop that reads from the shell has one round for each byte it may
    read and three more ([DRAIN_ROUNDS]); [LinuxShell.drain_ends] shows that it stops
    within them by its own conditions, given a clock that does not go backwards, a
    truthful [select] and reads that do not block ([DrainLaws]).  The loop that writes to the shell has no bound
    in the source: it runs for [write_rounds], a number the kernel class gives, and
    a run that needs more is [Diverges], as is one that never ends; what it does once
    it has ended does not depend on the number.  The JSON
    parser has twice the length of its text and two as fuel, and any more gives
    the same ([JsonFuel.json_loads_enough]).  Typing against the resident agent
    has ten rounds for each character ([TsrE2e.type_all_types]); the wait for an
    agent runs by the clock, for the rounds a law of the clock bounds, and the
    wait for a response for the datagrams that can arrive before its deadline
    ([recv_rounds], [UdpDeadline.timed_exchange_refines]).
    Speck and XTEA run over the source's fixed round counts.  32-bit arithmetic
    is written with the source's masks.

    ** What is not modelled

    The DOS agent itself (C and assembly), the shell scripts of the build, the
    parsing of command lines ([argparse] is the interpreter's), signals and
    logging are outside; of the tests,
    [RepositoryTests.v] evaluates those that need no thread, no event loop and no
    real shell.  So is the MCP framework: it checks a tool's arguments against the
    declared bounds ([Server.accepts]) and prints the result.  Real sockets,
    clocks, processes and threads enter as inputs of the
    models; a tool call holds the server's one lock, so calls do not interleave.
    [json.loads] has no limit on nesting here. *)
From Stdlib Require Export ZArith Lia.
From Stdlib Require Export Strings.Byte.
From stdpp Require Export base tactics list option numbers strings pretty.

(** ** Scopes and basic types

    [bytes] is Python's [bytes]; a Python [str] is the list of its code points;
    [len] is Python's [len], an integer. *)
Declare Scope dos_scope.
Delimit Scope dos_scope with dos.
#[global] Open Scope Z_scope.

Abbreviation bytes := (list byte).
Abbreviation pystr := (list Z).

Definition len {A} (l : list A) : Z := Z.of_nat (length l).

(** A string literal of the source, as code points. *)
Definition py (s : string) : pystr :=
  map (fun a => Z.of_N (Ascii.N_of_ascii a)) (String.list_ascii_of_string s).

(** [str(n)] of an integer. *)
Definition py_int (n : Z) : pystr := py (pretty n).

(** ** Bytes as integers *)
Definition b2z (b : byte) : Z := Z.of_N (Byte.to_N b).

Definition z2b (z : Z) : byte :=
  default x00 (Byte.of_N (Z.to_N (z mod 256))).

Lemma b2z_range b : 0 <= b2z b < 256.
Proof. unfold b2z. pose proof (Byte.to_N_bounded b). lia. Qed.

Lemma b2z_z2b z : b2z (z2b z) = z mod 256.
Proof.
  unfold b2z, z2b. pose proof (Z.mod_pos_bound z 256 ltac:(lia)).
  destruct (Byte.of_N (Z.to_N (z mod 256))) as [b|] eqn:E; simpl.
  - apply Byte.to_of_N in E. rewrite E. lia.
  - apply Byte.of_N_None_iff in E. lia.
Qed.

Lemma z2b_b2z b : z2b (b2z b) = b.
Proof.
  unfold z2b, b2z. pose proof (Byte.to_N_bounded b).
  rewrite Z.mod_small by lia. by rewrite N2Z.id, Byte.of_to_N.
Qed.

Lemma b2z_z2b_small z : 0 <= z < 256 -> b2z (z2b z) = z.
Proof. intros. rewrite b2z_z2b. by apply Z.mod_small. Qed.

Lemma z2b_mod x y : x mod 256 = y mod 256 -> z2b x = z2b y.
Proof. unfold z2b. by intros ->. Qed.

#[export] Instance b2z_inj : Inj (=) (=) b2z.
Proof. intros a b E. by rewrite <- (z2b_b2z a), <- (z2b_b2z b), E. Qed.

#[export] Instance byte_eq_dec : EqDecision byte.
Proof.
  intros a b. destruct (decide (b2z a = b2z b)) as [E|E].
  - left. by apply (inj b2z).
  - right. congruence.
Defined.

(** ** Exceptions and results

    A raised exception is its class and its message ([str(exc)]).  Only the
    classes the code distinguishes by [except] clauses or raises itself are
    listed; [OtherError] stands for any further one a backend may raise.
    [Diverges] is none: it is how a computation that does not return ends here, and
    no handler of the program sees it. *)
Inductive exn_class :=
| ValueError
| PacketError
| UnicodeError
| JSONDecodeError
| StructError
| RuntimeError
| AgentOperationError
| KeyError
| TimeoutError
| OSError
| OverflowError
| IndexError
| AssertionError
| PermissionError
| FileNotFoundError
| FileExistsError
| NotImplementedError
| BlockingIOError
| ProcessLookupError
| TimeoutExpired
| OtherError
| Diverges.

#[export] Instance exn_class_eq_dec : EqDecision exn_class.
Proof. solve_decision. Defined.

Record exn := Exn { exn_cls : exn_class; exn_msg : pystr }.

#[export] Instance exn_eq_dec : EqDecision exn.
Proof. solve_decision. Defined.

Definition diverges (e : exn) : bool := bool_decide (exn_cls e = Diverges).

(** [isinstance(exc, ValueError)]: [PacketError], [UnicodeError] and
    [JSONDecodeError] are subclasses of [ValueError]. *)
Definition is_value_error (c : exn_class) : bool :=
  match c with ValueError | PacketError | UnicodeError | JSONDecodeError => true | _ => false end.

(** [isinstance(exc, OSError)] and [isinstance(exc, RuntimeError)]. *)
Definition is_os_error (c : exn_class) : bool :=
  match c with
  | OSError | TimeoutError | PermissionError | FileNotFoundError | FileExistsError
  | BlockingIOError | ProcessLookupError => true
  | _ => false
  end.
Definition is_runtime_error (c : exn_class) : bool :=
  match c with RuntimeError | AgentOperationError | NotImplementedError => true | _ => false end.

Inductive result (A : Type) :=
| Ok (a : A)
| Err (e : exn).
Arguments Ok {A} a.
Arguments Err {A} e.

#[export] Instance result_eq_dec `{EqDecision A} : EqDecision (result A).
Proof. solve_decision. Defined.

#[export] Instance result_ret : MRet result := fun A a => Ok a.
#[export] Instance result_bind : MBind result := fun A B f m =>
  match m with Ok a => f a | Err e => Err e end.
#[export] Instance result_fmap : FMap result := fun A B f m =>
  match m with Ok a => Ok (f a) | Err e => Err e end.

(** A result that is one: the computation returned or raised. *)
Definition ends_in {A} (r : result A) : bool :=
  match r with Err e => negb (diverges e) | Ok _ => true end.

(** [raise cls(msg)] and [if c: raise cls(msg)]. *)
Definition raise {A} (c : exn_class) (msg : pystr) : result A := Err (Exn c msg).
Definition raise_if (c : bool) (cls : exn_class) (msg : pystr) : result unit :=
  if c then raise cls msg else Ok tt.

Definition is_ok {A} (m : result A) : bool :=
  match m with Ok _ => true | Err _ => false end.

Fixpoint map_result {A B} (f : A -> result B) (l : list A) : result (list B) :=
  match l with
  | [] => Ok []
  | x :: l => y ← f x; ys ← map_result f l; Ok (y :: ys)
  end.

(** A loop that may raise. *)
Fixpoint fold_result {A B} (f : A -> B -> result A) (a : A) (l : list B) : result A :=
  match l with
  | [] => Ok a
  | x :: l => match f a x with Ok a => fold_result f a l | Err e => Err e end
  end.

Lemma fold_result_app {A B} (f : A -> B -> result A) a l k :
  fold_result f a (l ++ k) = fold_result f a l ≫= fun a => fold_result f a k.
Proof. revert a. induction l as [|x l IH]; intros a; simpl; [done|]. by destruct (f a x). Qed.

Lemma bind_Ok {A B} (m : result A) (f : A -> result B) b :
  m ≫= f = Ok b <-> exists a, m = Ok a /\ f a = Ok b.
Proof. destruct m; simpl; split; [eauto | by intros (? & [= ->] & ?) | done | by intros (? & ? & ?)]. Qed.

Lemma Ok_inj {A} (a b : A) : Ok a = Ok b -> a = b.
Proof. by injection 1. Qed.

Lemma fmap_Ok {A B} (m : result A) (f : A -> B) b :
  f <$> m = Ok b <-> exists a, m = Ok a /\ b = f a.
Proof.
  destruct m; simpl; split; [intros [= <-]; eauto | by intros (? & [= ->] & ->) | done
    | by intros (? & ? & ?)].
Qed.

Lemma raise_if_Ok c cls msg u : raise_if c cls msg = Ok u <-> c = false.
Proof. destruct c, u; naive_solver. Qed.

Lemma raise_Ok {A} cls msg (a : A) : raise cls msg = Ok a <-> False.
Proof. naive_solver. Qed.

Lemma map_result_Ok {A B} (f : A -> result B) l l' :
  map_result f l = Ok l' <-> Forall2 (fun x y => f x = Ok y) l l'.
Proof.
  revert l'. induction l as [|x l IH]; intros l'; simpl.
  - split; [intros [= <-]; constructor | by inversion 1].
  - rewrite bind_Ok. setoid_rewrite bind_Ok. split.
    + intros (y & Hy & ys & Hys & [= <-]). constructor; [done|]. by apply IH.
    + inversion 1 as [|? y ? ys Hy Hys]; subst.
      exists y. split; [done|]. exists ys. split; [by apply IH|done].
Qed.

Lemma map_result_pure {A B} (f : A -> result B) (g : A -> B) l :
  Forall (fun x => f x = Ok (g x)) l -> map_result f l = Ok (g <$> l).
Proof. induction 1 as [|x l H _ IH]; simpl; [done|]. by rewrite H, IH. Qed.

(** [raises P m]: if [m] fails, then with an exception whose class satisfies [P]. *)
Definition raises {A} (P : exn_class -> Prop) (m : result A) : Prop :=
  match m with Ok _ => True | Err e => P (exn_cls e) end.

Section Raises.
Context (P : exn_class -> Prop).

Lemma raises_Ok {A} (a : A) : raises P (Ok a).
Proof. done. Qed.
Lemma raises_raise {A} cls msg : P cls -> raises P (@raise A cls msg).
Proof. done. Qed.
Lemma raises_raise_if c cls msg : P cls -> raises P (raise_if c cls msg).
Proof. by destruct c. Qed.
Lemma raises_bind {A B} (m : result A) (f : A -> result B) :
  raises P m -> (forall a, m = Ok a -> raises P (f a)) -> raises P (m ≫= f).
Proof. destruct m; simpl; auto. Qed.
Lemma raises_map_result {A B} (f : A -> result B) l :
  (forall a, a ∈ l -> raises P (f a)) -> raises P (map_result f l).
Proof.
  induction l as [|x l IH]; intros H; cbn [map_result]; [done|].
  apply raises_bind; [apply H; left|]. intros y _.
  apply raises_bind; [|done]. apply IH. intros a Ha. apply H. by right.
Qed.
Lemma raises_Err {A} (m : result A) e : raises P m -> m = Err e -> P (exn_cls e).
Proof. by intros H ->. Qed.
End Raises.

(** ** Tactics

    [inv_ok] takes a hypothesis [m = Ok b] apart down to its guards and the
    values bound on the way; [bool_to_prop] turns boolean guards into
    arithmetic facts; [run_ok] evaluates guards the context decides. *)
Ltac inv_ok_step :=
  match goal with
  | H : Ok _ = Ok _ |- _ => apply Ok_inj in H; try subst
  | H : Err _ = Ok _ |- _ => discriminate H
  | H : Ok _ = Err _ |- _ => discriminate H
  | H : raise _ _ = Ok _ |- _ => discriminate H
  | H : raise_if _ _ _ = Ok _ |- _ => apply raise_if_Ok in H
  | H : _ ≫= _ = Ok _ |- _ =>
      let x := fresh "v" in let E := fresh "E" in
      apply bind_Ok in H as (x & E & H); cbv beta in H
  | H : _ <$> _ = Ok _ |- _ =>
      let x := fresh "v" in let E := fresh "E" in
      apply fmap_Ok in H as (x & E & H)
  end.
Ltac inv_ok := repeat inv_ok_step.

Ltac bool_to_prop :=
  repeat match goal with
  | H : negb _ = true |- _ => apply negb_true_iff in H
  | H : negb _ = false |- _ => apply negb_false_iff in H
  | H : _ || _ = false |- _ => apply orb_false_iff in H as [? ?]
  | H : _ && _ = true |- _ => apply andb_true_iff in H as [? ?]
  | H : bool_decide _ = true |- _ => apply bool_decide_eq_true in H
  | H : bool_decide _ = false |- _ => apply bool_decide_eq_false in H
  end.

Lemma raise_if_false c cls msg : c = false -> raise_if c cls msg = Ok tt.
Proof. by intros ->. Qed.
Lemma raise_if_true c cls msg : c = true -> raise_if c cls msg = raise cls msg.
Proof. by intros ->. Qed.

(** Steps over the guard at the head of a computation, which [tac] shows false. *)
Tactic Notation "pass_guard" tactic3(tac) :=
  lazymatch goal with
  | |- (raise_if ?c _ _ ≫= _) = _ =>
      rewrite (raise_if_false c) by tac; cbn [mbind result_bind]
  end.

(** ** Machine words

    Ranges of the bitwise operations on nonnegative integers below [2 ^ n]. *)
Create HintDb word discriminated.

Lemma word_bits n z :
  0 <= n -> 0 <= z < 2 ^ n <-> 0 <= z /\ forall i, n <= i -> Z.testbit z i = false.
Proof.
  intros Hn. split; intros [H0 H]; (split; [done|]).
  - by apply Z.bounded_iff_bits_nonneg.
  - by apply Z.bounded_iff_bits_nonneg.
Qed.

Lemma lxor_range n a b :
  0 <= n -> 0 <= a < 2 ^ n -> 0 <= b < 2 ^ n -> 0 <= Z.lxor a b < 2 ^ n.
Proof.
  intros Hn [? Ha]%word_bits [? Hb]%word_bits; [|done..]. apply word_bits; [done|].
  split; [by apply Z.lxor_nonneg|]. intros i Hi. by rewrite Z.lxor_spec, Ha, Hb.
Qed.

Lemma lor_range n a b :
  0 <= n -> 0 <= a < 2 ^ n -> 0 <= b < 2 ^ n -> 0 <= Z.lor a b < 2 ^ n.
Proof.
  intros Hn [? Ha]%word_bits [? Hb]%word_bits; [|done..]. apply word_bits; [done|].
  split; [by apply Z.lor_nonneg|]. intros i Hi. by rewrite Z.lor_spec, Ha, Hb.
Qed.

Lemma land_ones_range n a : 0 <= n -> 0 <= Z.land a (Z.ones n) < 2 ^ n.
Proof. intros. rewrite Z.land_ones by done. apply Z.mod_pos_bound. lia. Qed.

(** [x & 0xFFFF] and [x & 0xFFFFFFFF]. *)
Lemma land_mask16 a : Z.land a 65535 = a mod 65536.
Proof. apply (Z.land_ones a 16). lia. Qed.
Lemma land_mask32 a : Z.land a 4294967295 = a mod 4294967296.
Proof. apply (Z.land_ones a 32). lia. Qed.
Lemma land_mask16_range a : 0 <= Z.land a 65535 < 65536.
Proof. rewrite land_mask16. apply Z.mod_pos_bound. lia. Qed.
Lemma land_mask32_range a : 0 <= Z.land a 4294967295 < 4294967296.
Proof. rewrite land_mask32. apply Z.mod_pos_bound. lia. Qed.

#[export] Hint Resolve lxor_range lor_range land_ones_range land_mask16_range
  land_mask32_range b2z_range : word.

(** Cancelling an exclusive-or. *)
Lemma lxor_cancel_r a b c : Z.lxor a c = Z.lxor b c -> a = b.
Proof.
  intros H. apply (f_equal (fun z => Z.lxor z c)) in H.
  by rewrite !Z.lxor_assoc, Z.lxor_nilpotent, !Z.lxor_0_r in H.
Qed.
Lemma lxor_cancel_l a b c : Z.lxor c a = Z.lxor c b -> a = b.
Proof. rewrite !(Z.lxor_comm c). apply lxor_cancel_r. Qed.

(** ** Lists *)
Lemma len_nonneg {A} (l : list A) : 0 <= len l.
Proof. unfold len. lia. Qed.
Lemma len_app {A} (l k : list A) : len (l ++ k) = len l + len k.
Proof. unfold len. rewrite length_app. lia. Qed.
Lemma len_nil_inv {A} (l : list A) : len l = 0 -> l = [].
Proof. destruct l; [done|]. unfold len. simpl. lia. Qed.

Lemma len_fmap {A B} (f : A -> B) l : len (f <$> l) = len l.
Proof. unfold len. by rewrite length_fmap. Qed.

Lemma len_neqb {A} (l : list A) z : len l = z -> negb (len l =? z) = false.
Proof. intros <-. by rewrite Z.eqb_refl. Qed.

Lemma existsb_false_Forall {A} (f : A -> bool) l :
  existsb f l = false <-> Forall (fun x => f x = false) l.
Proof.
  induction l as [|x l IH]; cbn [existsb]; [by split|].
  by rewrite orb_false_iff, IH, Forall_cons.
Qed.

(** Python's [l[a:b]] for [0 <= a]. *)
Definition slice {A} (l : list A) (a b : Z) : list A :=
  take (Z.to_nat b - Z.to_nat a) (drop (Z.to_nat a) l).

(** [l[i]] and [l[i] = x]: a negative index counts from the end, an index out of
    range raises. *)
Definition py_index (n i : Z) : option nat :=
  if (0 <=? i) && (i <? n) then Some (Z.to_nat i)
  else if (- n <=? i) && (i <? 0) then Some (Z.to_nat (i + n))
  else None.

Definition getitem {A} (l : list A) (i : Z) : result A :=
  match py_index (len l) i ≫= fun i => l !! i with
  | Some x => Ok x
  | None => raise IndexError (py "list index out of range")
  end.

Definition setitem {A} (l : list A) (i : Z) (x : A) : result (list A) :=
  match py_index (len l) i with
  | Some i => Ok (<[i := x]> l)
  | None => raise IndexError (py "list assignment index out of range")
  end.

(** [l.pop(0)] *)
Definition pop_first {A} (l : list A) : result (list A) :=
  match l with
  | _ :: l => Ok l
  | [] => raise IndexError (py "pop from empty list")
  end.

Lemma py_index_in n i : 0 <= i < n -> py_index n i = Some (Z.to_nat i).
Proof. intros H. unfold py_index. by replace ((0 <=? i) && (i <? n)) with true by lia. Qed.

Lemma getitem_in {A} (l : list A) i x :
  0 <= i -> l !! Z.to_nat i = Some x -> getitem l i = Ok x.
Proof.
  intros Hi Hx. pose proof (lookup_lt_Some _ _ _ Hx). unfold getitem.
  rewrite py_index_in by (unfold len; lia). simpl. by rewrite Hx.
Qed.

Lemma setitem_in {A} (l : list A) i x :
  0 <= i < len l -> setitem l i x = Ok (<[Z.to_nat i := x]> l).
Proof. intros Hi. unfold setitem. by rewrite py_index_in. Qed.

(** [chunks n l]: [l] cut into pieces of [n] elements. *)
Fixpoint chunks_fuel {A} (fuel n : nat) (l : list A) : list (list A) :=
  match fuel, l with
  | O, _ | _, [] => []
  | S fuel, _ => take n l :: chunks_fuel fuel n (drop n l)
  end.
Definition chunks {A} (n : nat) (l : list A) : list (list A) := chunks_fuel (length l) n l.

Lemma chunks_fuel_ge {A} (f n : nat) (l : list A) :
  (0 < n)%nat -> (length l <= f)%nat -> chunks_fuel f n l = chunks n l.
Proof.
  intros Hn. unfold chunks. revert f l.
  assert (H : forall f g (l : list A), (length l <= f)%nat -> (length l <= g)%nat ->
                chunks_fuel f n l = chunks_fuel g n l).
  { induction f as [|f IH]; intros [|g] [|x l] Hf Hg; simpl in *; try done; try lia.
    f_equal. apply IH; rewrite length_drop; simpl; lia. }
  intros f l Hf. by apply H.
Qed.

Lemma chunks_nil {A} n : chunks n (@nil A) = [].
Proof. done. Qed.

Lemma chunks_app {A} (n : nat) (c l : list A) :
  (0 < n)%nat -> length c = n -> chunks n (c ++ l) = c :: chunks n l.
Proof.
  intros Hn Hc. destruct c as [|x c]; [simpl in Hc; lia|].
  rewrite <- (chunks_fuel_ge (length ((x :: c) ++ l))) by (done || lia).
  cbn [length app chunks_fuel]. change (x :: c ++ l) with ((x :: c) ++ l).
  rewrite <- Hc at 1 2. rewrite take_app_length. f_equal.
  rewrite <- Hc, drop_app_length. apply chunks_fuel_ge; rewrite ?Hc, ?length_app; simpl; lia.
Qed.

Lemma chunks_app_mul {A} (n m : nat) (p l : list A) :
  (0 < n)%nat -> length p = (m * n)%nat -> chunks n (p ++ l) = chunks n p ++ chunks n l.
Proof.
  intros Hn. revert p. induction m as [|m IH]; intros p Hp.
  - destruct p; [done|discriminate].
  - rewrite <- (take_drop n p), <- app_assoc.
    assert (length (take n p) = n) by (rewrite length_take; lia).
    rewrite !(chunks_app n (take n p)) by done.
    rewrite IH by (rewrite length_drop; lia). done.
Qed.

Lemma chunks_lengths {A} (n m : nat) (l : list A) :
  (0 < n)%nat -> length l = (m * n)%nat -> Forall (fun c => length c = n) (chunks n l).
Proof.
  intros Hn. revert l. induction m as [|m IH]; intros l Hl.
  - destruct l; [constructor|discriminate].
  - rewrite <- (take_drop n l).
    rewrite chunks_app by (done || (rewrite length_take; lia)).
    constructor; [rewrite length_take; lia|]. apply IH. rewrite length_drop. lia.
Qed.

Lemma concat_chunks {A} (n : nat) (l : list A) : (0 < n)%nat -> concat (chunks n l) = l.
Proof.
  intros Hn. unfold chunks. assert (H : (length l <= length l)%nat) by done. revert H.
  generalize (length l) at 2 3. intros f. revert l.
  induction f as [|f IH]; intros [|x l] Hf; simpl in *; try done; try lia.
  rewrite IH by (rewrite length_drop; simpl; lia). apply take_drop.
Qed.

(** ** Enumerations

    An [IntEnum] of the source: its members, their values, and the class name
    that the constructor's [ValueError] quotes. *)
Class IntEnum (A : Type) := {
  int_of : A -> Z;
  members : list A;
  enum_name : string }.
#[global] Hint Mode IntEnum ! : typeclass_instances.

Class IntEnumLaws (A : Type) `{IntEnum A} := {
  int_of_inj : forall a b : A, int_of a = int_of b -> a = b;
  members_all : forall a : A, a ∈ members }.

(** [A(value)]: the member with that value, or [ValueError]. *)
Definition enum_of {A} `{IntEnum A} (z : Z) : result A :=
  match List.find (fun a => int_of a =? z) members with
  | Some a => Ok a
  | None => raise ValueError (py_int z ++ py " is not a valid " ++ py (enum_name (A:=A)))
  end.

Section IntEnum.
Context {A : Type} `{IntEnumLaws A}.

Lemma enum_of_Ok z (a : A) : enum_of z = Ok a <-> z = int_of a.
Proof.
  unfold enum_of. destruct (List.find _ _) as [b|] eqn:E.
  - apply List.find_some in E as [_ Hb]. apply Z.eqb_eq in Hb. split.
    + by intros [= ->].
    + intros ->. f_equal. by apply int_of_inj.
  - split; [done|]. intros ->.
    pose proof (List.find_none _ _ E a) as Hn. cbv beta in Hn.
    rewrite Z.eqb_refl in Hn. discriminate Hn.
    apply list_elem_of_In, members_all.
Qed.

Lemma enum_of_int_of (a : A) : enum_of (int_of a) = Ok a.
Proof. by apply enum_of_Ok. Qed.
End IntEnum.

Arguments enum_of A {_} z : assert.
