(* ===== verification/PyFloat.v ===== *)
(** * Binary64 arithmetic

    Python's [float] as the Standard Library's [spec_float] of precision 53: the
    conversion of integers, division, [round(x, 3)] and the difference of two
    clock readings. *)
From Stdlib Require Export Floats.SpecFloat.
From S2P Require Import Prelude.

Definition float_of_int (n : Z) : spec_float := binary_normalize 53 1024 n 0 false.

(** The integer nearest to [m * 2 ^ e], ties to even. *)
Definition nearest_even (m e : Z) : Z :=
  if 0 <=? e then m * 2 ^ e
  else
    let d := 2 ^ (- e) in
    let q := m / d in
    let r := m mod d in
    if (d <? 2 * r) || ((d =? 2 * r) && Z.odd q) then q + 1 else q.

(** [round(x, 3)]: the double nearest to the decimal of three digits nearest to [x]. *)
Definition round3 (x : spec_float) : spec_float :=
  match x with
  | S754_finite s m e =>
      if 0 <=? e then x
      else
        let n := nearest_even (Zpos m * 1000) e in
        SFdiv 53 1024 (float_of_int (if s then - n else n)) (float_of_int 1000)
  | _ => x
  end.

Definition float_zero : spec_float := S754_zero false.

(** [n / d] of two integers below [2 ^ 53]. *)
Definition int_div (n d : Z) : spec_float := SFdiv 53 1024 (float_of_int n) (float_of_int d).
Definition float_add (x y : spec_float) : spec_float := SFadd 53 1024 x y.
Definition float_sub (x y : spec_float) : spec_float := SFsub 53 1024 x y.

(** [max(0.0, x)] *)
Definition at_least_zero (x : spec_float) : spec_float :=
  if SFltb float_zero x then x else float_zero.
