(* ===== verification/Dict.v ===== *)
(** * Insertion-ordered dictionaries

    A Python [dict] with integer keys, where the program depends on the order
    of insertion ([next(iter(d))] is the oldest key): an association list in
    insertion order.  Assigning to a present key keeps its position. *)
From S2P Require Import Prelude.

Abbreviation dict V := (list (Z * V)).

Section Dict.
Context {V : Type}.
Implicit Types (d : dict V) (k : Z) (v : V).

(** [d.get(k)] *)
Fixpoint dict_get k d : option V :=
  match d with
  | [] => None
  | (k', v) :: d => if k' =? k then Some v else dict_get k d
  end.

(** [k in d] *)
Definition dict_mem k d : bool := match dict_get k d with Some _ => true | None => false end.

(** [d[k] = v] *)
Fixpoint dict_set k v d : dict V :=
  match d with
  | [] => [(k, v)]
  | (k', v') :: d => if k' =? k then (k, v) :: d else (k', v') :: dict_set k v d
  end.

(** [d.pop(k, None)] *)
Definition dict_pop k d : dict V := filter (fun p => p.1 <> k) d.

(** [d.pop(next(iter(d)))] *)
Definition dict_pop_first d : dict V := tail d.

Definition dict_keys d : list Z := d.*1.
Definition dict_values d : list V := d.*2.

(** Every dictionary the operations build from the empty one has distinct keys. *)
Definition dict_ok d : Prop := NoDup (dict_keys d).

Lemma dict_get_elem k v d : dict_ok d -> dict_get k d = Some v <-> (k, v) ∈ d.
Proof.
  unfold dict_ok, dict_keys. induction d as [|[k' v'] d IH]; simpl.
  - intros _. split; [done|]. by intros ?%not_elem_of_nil.
  - intros [Hk Hd]%NoDup_cons. destruct (Z.eqb_spec k' k) as [->|Hne].
    + split; [intros [= ->]; left|]. intros [[= ->]|Hin]%elem_of_cons; [done|].
      contradict Hk. by apply (list_elem_of_fmap_2 fst) in Hin.
    + rewrite IH by done. rewrite elem_of_cons. naive_solver.
Qed.

Lemma dict_get_None k d : dict_get k d = None <-> k ∉ dict_keys d.
Proof.
  unfold dict_keys. induction d as [|[k' v'] d IH]; simpl.
  - split; [intros _; apply not_elem_of_nil|done].
  - rewrite not_elem_of_cons. destruct (Z.eqb_spec k' k); naive_solver.
Qed.

Lemma dict_mem_true k d : dict_mem k d = true <-> k ∈ dict_keys d.
Proof.
  unfold dict_mem. pose proof (dict_get_None k d) as H.
  destruct (dict_get k d); destruct (decide (k ∈ dict_keys d)); naive_solver.
Qed.

Lemma dict_get_set_eq k v d : dict_get k (dict_set k v d) = Some v.
Proof.
  induction d as [|[k' v'] d IH]; simpl; [by rewrite Z.eqb_refl|].
  destruct (Z.eqb_spec k' k); simpl; [by rewrite Z.eqb_refl|].
  by destruct (Z.eqb_spec k' k).
Qed.

Lemma dict_get_set_ne k k' v d : k <> k' -> dict_get k' (dict_set k v d) = dict_get k' d.
Proof.
  intros Hne. induction d as [|[k0 v0] d IH]; simpl.
  - by destruct (Z.eqb_spec k k').
  - destruct (Z.eqb_spec k0 k) as [->|]; simpl; [by destruct (Z.eqb_spec k k')|].
    by destruct (Z.eqb_spec k0 k').
Qed.

Lemma dict_set_new k v d : k ∉ dict_keys d -> dict_set k v d = d ++ [(k, v)].
Proof.
  unfold dict_keys. induction d as [|[k' v'] d IH]; simpl; [done|].
  intros [Hne Hd]%not_elem_of_cons. destruct (Z.eqb_spec k' k); [congruence|].
  by rewrite IH.
Qed.

Lemma dict_set_keys k v d :
  dict_keys (dict_set k v d) =
    if decide (k ∈ dict_keys d) then dict_keys d else dict_keys d ++ [k].
Proof.
  unfold dict_keys. induction d as [|[k' v'] d IH]; csimpl; [done|].
  destruct (Z.eqb_spec k' k) as [->|Hne]; csimpl.
  - rewrite decide_True by left. done.
  - rewrite IH. case_decide as H; case_decide as H'; try done.
    + contradict H'. by right.
    + contradict H. apply elem_of_cons in H' as [->|]; done.
Qed.

Lemma dict_set_ok k v d : dict_ok d -> dict_ok (dict_set k v d).
Proof.
  unfold dict_ok. intros H. rewrite dict_set_keys. case_decide; [done|].
  apply NoDup_app. split; [done|]. split; [|apply NoDup_singleton].
  intros x Hx ->%list_elem_of_singleton. done.
Qed.

Lemma dict_keys_pop k d : dict_keys (dict_pop k d) = filter (fun k' => k' <> k) (dict_keys d).
Proof.
  unfold dict_keys, dict_pop. induction d as [|[k' v'] d IH]; [done|].
  rewrite fmap_cons, !filter_cons. cbn [fst]. case_decide; csimpl; by rewrite ?IH.
Qed.

Lemma dict_pop_ok k d : dict_ok d -> dict_ok (dict_pop k d).
Proof. unfold dict_ok. rewrite dict_keys_pop. apply NoDup_filter. Qed.

Lemma dict_get_pop_eq k d : dict_get k (dict_pop k d) = None.
Proof. apply dict_get_None. rewrite dict_keys_pop, list_elem_of_filter. naive_solver. Qed.

Lemma dict_pop_first_ok d : dict_ok d -> dict_ok (dict_pop_first d).
Proof. destruct d; [done|]. unfold dict_ok. simpl. by intros [_ ?]%NoDup_cons. Qed.

(** [{key(x): x for x in values}] *)
Definition dict_of (key : V -> Z) (values : list V) : dict V :=
  foldl (fun d x => dict_set (key x) x d) [] values.

Lemma dict_of_acc_nodup (key : V -> Z) d values :
  NoDup (dict_keys d ++ (key <$> values)) ->
  foldl (fun d x => dict_set (key x) x d) d values = d ++ ((fun x => (key x, x)) <$> values).
Proof.
  revert d. induction values as [|x values IH]; intros d Hnd; csimpl; [by rewrite app_nil_r|].
  rewrite fmap_cons in Hnd. rewrite dict_set_new.
  - rewrite IH; [by rewrite <- app_assoc|].
    unfold dict_keys in *. rewrite fmap_app. simpl. by rewrite <- app_assoc.
  - apply NoDup_app in Hnd as (_ & Hd & _). intros Hx. apply (Hd _ Hx). left.
Qed.

Lemma dict_of_nodup (key : V -> Z) values :
  NoDup (key <$> values) -> dict_of key values = (fun x => (key x, x)) <$> values.
Proof. apply (dict_of_acc_nodup key []). Qed.

Lemma dict_of_keys_incl (key : V -> Z) d values k :
  k ∈ dict_keys (foldl (fun d x => dict_set (key x) x d) d values) <->
  k ∈ dict_keys d \/ k ∈ key <$> values.
Proof.
  revert d. induction values as [|x values IH]; intros d; csimpl.
  - pose proof (not_elem_of_nil k). naive_solver.
  - rewrite IH, dict_set_keys, elem_of_cons. case_decide; [naive_solver|].
    rewrite elem_of_app, list_elem_of_singleton. naive_solver.
Qed.

Lemma dict_of_ok (key : V -> Z) values : dict_ok (dict_of key values).
Proof.
  unfold dict_of. assert (H : dict_ok []) by apply NoDup_nil_2. revert H.
  generalize (@nil (Z * V)). induction values as [|x values IH]; intros d Hd; simpl; [done|].
  by apply IH, dict_set_ok.
Qed.
End Dict.

Create HintDb dict discriminated.
#[export] Hint Resolve dict_set_ok dict_pop_ok dict_pop_first_ok dict_of_ok : dict.
