(* ===== verification/Struct.v ===== *)
(** * Python's [struct] module

    The standard library routine every codec of the program is built on: a
    format string such as ["<2sBBBBHHBBHHI"] is parsed into a list of fields,
    the fields determine the type of the packed tuple ([denote]), and [pack],
    [unpack] and [unpack_from] follow the little-endian standard sizes.
    [struct.error] is [Err] with class [StructError]. *)
From Stdlib Require Import Ascii.
From S2P Require Import Prelude.

(** ** Little-endian integers *)
Section LittleEndian.
Fixpoint le_bytes (n : nat) (z : Z) : bytes :=
  match n with
  | O => []
  | S n => z2b z :: le_bytes n (z / 256)
  end.

Fixpoint le_int (bs : bytes) : Z :=
  match bs with
  | [] => 0
  | b :: bs => b2z b + 256 * le_int bs
  end.

Lemma length_le_bytes n z : length (le_bytes n z) = n.
Proof. revert z. induction n; intros; simpl; auto. Qed.

Lemma le_int_bound bs : 0 <= le_int bs < 256 ^ len bs.
Proof.
  unfold len. induction bs as [|b bs IH]; cbn [le_int length]; [simpl; lia|].
  rewrite Nat2Z.inj_succ, Z.pow_succ_r by lia. pose proof (b2z_range b). lia.
Qed.

Lemma le_int_le_bytes n z : 0 <= z < 256 ^ Z.of_nat n -> le_int (le_bytes n z) = z.
Proof.
  revert z. induction n as [|n IH]; intros z Hz; cbn [le_bytes le_int]; [simpl in Hz; lia|].
  rewrite Nat2Z.inj_succ, Z.pow_succ_r in Hz by lia.
  rewrite IH, b2z_z2b; [pose proof (Z.div_mod z 256); lia|].
  split; [apply Z.div_pos; lia | apply Z.div_lt_upper_bound; lia].
Qed.

Lemma le_bytes_le_int bs n : length bs = n -> le_bytes n (le_int bs) = bs.
Proof.
  revert n. induction bs as [|b bs IH]; intros n <-; simpl; [done|].
  pose proof (b2z_range b).
  assert ((b2z b + 256 * le_int bs) / 256 = le_int bs) as ->.
  { rewrite Z.mul_comm, Z.div_add, Z.div_small by lia. lia. }
  rewrite IH by done. f_equal. rewrite <- (z2b_b2z b) at 2. apply z2b_mod.
  rewrite Z.mul_comm, Z.mod_add by lia. done.
Qed.
End LittleEndian.

(** ** Formats *)
Inductive field := FB | FH | FI | Fh | Fs (n : nat).

Definition field_size (f : field) : nat :=
  match f with FB => 1 | FH => 2 | FI => 4 | Fh => 2 | Fs n => n end.

Definition calcsize (fs : list field) : nat := sum_list_with field_size fs.

Definition field_type (f : field) : Type :=
  match f with Fs _ => bytes | _ => Z end.

(** The tuple a format packs, ended by [tt]. *)
Fixpoint denote (fs : list field) : Type :=
  match fs with [] => unit | f :: fs => field_type f * denote fs end.

(** Tuples in their nested form, as terms and as patterns. *)
Notation "⟨ x , .. , y ⟩" := (pair x .. (pair y tt) ..) (format "⟨ x ,  .. ,  y ⟩").

(** [struct.Struct(format)]: an optional repeat count before each letter; for
    [s] the count is the field's length. *)
Definition repeated (count : option nat) (f : field) : list field :=
  replicate (default 1%nat count) f.

Fixpoint parse_format (count : option nat) (s : list Ascii.ascii) : list field :=
  match s with
  | [] => []
  | c :: s =>
      match c with
      | "B"%char => repeated count FB ++ parse_format None s
      | "H"%char => repeated count FH ++ parse_format None s
      | "I"%char => repeated count FI ++ parse_format None s
      | "h"%char => repeated count Fh ++ parse_format None s
      | "s"%char => Fs (default 1%nat count) :: parse_format None s
      | "<"%char => parse_format None s
      | c =>
          let d := (Ascii.nat_of_ascii c - 48)%nat in
          parse_format (Some (default 0%nat count * 10 + d)%nat) s
      end
  end.

Definition Struct (s : string) : list field :=
  parse_format None (String.list_ascii_of_string s).

(** ** Packing *)
Definition struct_error {A} : result A := raise StructError [].

Definition pack_uint (n : nat) (z : Z) : result bytes :=
  if bool_decide (0 <= z < 256 ^ Z.of_nat n) then Ok (le_bytes n z) else struct_error.

Definition pack_int16 (z : Z) : result bytes :=
  if bool_decide (-32768 <= z < 32768) then Ok (le_bytes 2 (z mod 65536)) else struct_error.

Definition pack_field (f : field) : field_type f -> result bytes :=
  match f with
  | FB => pack_uint 1
  | FH => pack_uint 2
  | FI => pack_uint 4
  | Fh => pack_int16
  | Fs n => fun b => Ok (take n (b ++ replicate n x00))
  end.

Definition unpack_int16 (bs : bytes) : Z :=
  let z := le_int bs in if z <? 32768 then z else z - 65536.

Definition unpack_field (f : field) : bytes -> field_type f :=
  match f with
  | FB | FH | FI => le_int
  | Fh => unpack_int16
  | Fs n => fun b => b
  end.

Fixpoint pack (fs : list field) : denote fs -> result bytes :=
  match fs with
  | [] => fun _ => Ok []
  | f :: fs => fun v => b ← pack_field f v.1; bs ← pack fs v.2; Ok (b ++ bs)
  end.

Fixpoint unpack_raw (fs : list field) : bytes -> denote fs :=
  match fs with
  | [] => fun _ => tt
  | f :: fs => fun b =>
      (unpack_field f (take (field_size f) b), unpack_raw fs (drop (field_size f) b))
  end.

(** [Struct.unpack]: the buffer has exactly the format's size. *)
Definition unpack (fs : list field) (b : bytes) : result (denote fs) :=
  if len b =? Z.of_nat (calcsize fs) then Ok (unpack_raw fs b) else struct_error.

(** [Struct.unpack_from(b, offset)]: the buffer is at least long enough. *)
Definition unpack_from (fs : list field) (b : bytes) (offset : nat) : result (denote fs) :=
  if len b <? Z.of_nat offset + Z.of_nat (calcsize fs) then struct_error
  else Ok (unpack_raw fs (drop offset b)).

(** ** Laws

    [fits] is the range a field accepts without loss: an integer in range, a
    byte string of exactly the declared size. *)
Definition field_fits (f : field) : field_type f -> Prop :=
  match f with
  | FB => fun z => 0 <= z < 256
  | FH => fun z => 0 <= z < 65536
  | FI => fun z => 0 <= z < 4294967296
  | Fh => fun z => -32768 <= z < 32768
  | Fs n => fun b => length b = n
  end.

Fixpoint fits (fs : list field) : denote fs -> Prop :=
  match fs with
  | [] => fun _ => True
  | f :: fs => fun v => field_fits f v.1 /\ fits fs v.2
  end.

(** Formats without byte-string fields: for them [pack] succeeds only on values
    that fit. *)
Definition numeric (fs : list field) : bool :=
  forallb (fun f => match f with Fs _ => false | _ => true end) fs.

Lemma unpack_int16_pack z :
  -32768 <= z < 32768 -> unpack_int16 (le_bytes 2 (z mod 65536)) = z.
Proof.
  intros. unfold unpack_int16.
  pose proof (Z.mod_pos_bound z 65536 ltac:(lia)).
  rewrite le_int_le_bytes by (simpl; lia).
  destruct (Z.ltb_spec (z mod 65536) 32768);
    pose proof (Z.div_mod z 65536 ltac:(lia)); nia.
Qed.

Lemma pack_unpack_int16 b :
  length b = 2%nat ->
  -32768 <= unpack_int16 b < 32768 /\ le_bytes 2 (unpack_int16 b mod 65536) = b.
Proof.
  intros Hb. pose proof (le_int_bound b) as Hr. unfold len in Hr. rewrite Hb in Hr.
  simpl in Hr. unfold unpack_int16.
  assert (Hz : forall z, z mod 65536 = le_int b -> le_bytes 2 (z mod 65536) = b).
  { intros z ->. by apply le_bytes_le_int. }
  destruct (Z.ltb_spec (le_int b) 32768); (split; [lia|]); apply Hz.
  - apply Z.mod_small. lia.
  - replace (le_int b - 65536) with (le_int b + (-1) * 65536) by lia.
    rewrite Z.mod_add by lia. apply Z.mod_small. lia.
Qed.

Lemma pack_uint_Ok n z b :
  pack_uint n z = Ok b -> 0 <= z < 256 ^ Z.of_nat n /\ b = le_bytes n z.
Proof. unfold pack_uint. case_bool_decide; [|done]. by injection 1 as <-. Qed.

Lemma pack_int16_Ok z b :
  pack_int16 z = Ok b -> -32768 <= z < 32768 /\ b = le_bytes 2 (z mod 65536).
Proof. unfold pack_int16. case_bool_decide; [|done]. by injection 1 as <-. Qed.

Lemma pack_field_length f v b : pack_field f v = Ok b -> length b = field_size f.
Proof.
  destruct f; cbn [pack_field field_size]; intros H.
  1-3: by apply pack_uint_Ok in H as [_ ->].
  - by apply pack_int16_Ok in H as [_ ->].
  - injection H as <-. rewrite length_take, length_app, length_replicate. lia.
Qed.

Lemma pack_field_fits f v : field_fits f v -> exists b, pack_field f v = Ok b.
Proof.
  destruct f; cbn [field_fits pack_field]; intros; unfold pack_uint, pack_int16;
    try rewrite bool_decide_eq_true_2 by (simpl; lia); eauto.
Qed.

Lemma pack_field_unpack f v b :
  field_fits f v -> pack_field f v = Ok b -> unpack_field f b = v.
Proof.
  destruct f; cbn [field_fits pack_field unpack_field]; intros Hf H.
  1-3: apply pack_uint_Ok in H as [? ->]; by apply le_int_le_bytes.
  - apply pack_int16_Ok in H as [_ ->]. by apply unpack_int16_pack.
  - injection H as <-. rewrite <- Hf. apply take_app_length.
Qed.

Lemma unpack_field_pack f b :
  length b = field_size f ->
  field_fits f (unpack_field f b) /\ pack_field f (unpack_field f b) = Ok b.
Proof.
  intros Hb. pose proof (le_int_bound b) as Hr. unfold len in Hr. rewrite Hb in Hr.
  destruct f; simpl in *; unfold pack_uint, pack_int16.
  1-3: split; [lia|]; rewrite bool_decide_eq_true_2 by (simpl; lia);
    by rewrite le_bytes_le_int.
  - destruct (pack_unpack_int16 b Hb) as [? ->]. by rewrite bool_decide_eq_true_2.
  - split; [done|]. subst. by rewrite take_app_length.
Qed.

Lemma pack_length fs v b : pack fs v = Ok b -> length b = calcsize fs.
Proof.
  revert v b. induction fs as [|f fs IH]; intros v b H; simpl in H; inv_ok; [done|].
  rewrite length_app. erewrite pack_field_length, IH by eassumption. done.
Qed.

Lemma pack_len fs v b : pack fs v = Ok b -> len b = Z.of_nat (calcsize fs).
Proof. intros H. unfold len. by erewrite pack_length. Qed.

Lemma pack_fits fs v : fits fs v -> exists b, pack fs v = Ok b.
Proof.
  revert v. induction fs as [|f fs IH]; intros v H; simpl; [eauto|].
  destruct H as [(b & ->)%pack_field_fits (bs & Hbs)%IH]. simpl. rewrite Hbs. simpl. eauto.
Qed.

Lemma pack_numeric_fits fs v b : numeric fs = true -> pack fs v = Ok b -> fits fs v.
Proof.
  revert v b. induction fs as [|f fs IH]; intros v b Hn H; simpl in *; [done|].
  inv_ok. apply andb_true_iff in Hn as [Hf Hn]. split; [|by eapply IH].
  destruct f; cbn [pack_field field_fits] in *; try done.
  1-3: by apply pack_uint_Ok in E as [? _].
  by apply pack_int16_Ok in E as [? _].
Qed.

Lemma unpack_raw_pack fs v b rest :
  fits fs v -> pack fs v = Ok b -> unpack_raw fs (b ++ rest) = v.
Proof.
  revert v b. induction fs as [|f fs IH]; intros [] b Hf H; simpl in *; inv_ok; [done|].
  destruct Hf as [Hf Hfs]. pose proof (pack_field_length _ _ _ E) as <-.
  rewrite <- app_assoc, take_app_length, drop_app_length.
  f_equal; [by apply pack_field_unpack | by apply IH].
Qed.

Lemma pack_unpack_raw fs b :
  (calcsize fs <= length b)%nat ->
  fits fs (unpack_raw fs b) /\ pack fs (unpack_raw fs b) = Ok (take (calcsize fs) b).
Proof.
  revert b. induction fs as [|f fs IH]; intros b Hb; simpl in *; [done|].
  destruct (unpack_field_pack f (take (field_size f) b)) as [? ->];
    [rewrite length_take; unfold calcsize in Hb; simpl in Hb; lia|].
  destruct (IH (drop (field_size f) b)) as [? E];
    [rewrite length_drop; unfold calcsize in *; simpl in Hb; lia|].
  split; [done|]. simpl. rewrite E. simpl. by rewrite take_take_drop.
Qed.

Lemma unpack_raw_inj fs b b' :
  length b = calcsize fs -> length b' = calcsize fs ->
  unpack_raw fs b = unpack_raw fs b' -> b = b'.
Proof.
  intros Hb Hb' H.
  destruct (pack_unpack_raw fs b) as [_ E]; [lia|].
  destruct (pack_unpack_raw fs b') as [_ E']; [lia|].
  rewrite take_ge in E, E' by lia. congruence.
Qed.

(** The forms the codecs use. *)
Lemma unpack_pack fs v b : fits fs v -> pack fs v = Ok b -> unpack fs b = Ok v.
Proof.
  intros Hf H. unfold unpack. erewrite pack_len by eassumption. rewrite Z.eqb_refl.
  f_equal. rewrite <- (app_nil_r b). by apply unpack_raw_pack.
Qed.

Lemma unpack_Ok fs b v : unpack fs b = Ok v -> fits fs v /\ pack fs v = Ok b.
Proof.
  unfold unpack. destruct (Z.eqb_spec (len b) (Z.of_nat (calcsize fs))) as [E|];
    [|done]. unfold len in E. intros [= <-].
  destruct (pack_unpack_raw fs b) as [? H]; [lia|]. split; [done|].
  rewrite H, take_ge by lia. done.
Qed.

Lemma unpack_exact fs b : length b = calcsize fs -> unpack fs b = Ok (unpack_raw fs b).
Proof. intros H. unfold unpack, len. by rewrite H, Z.eqb_refl. Qed.

Lemma unpack_from_pack fs v b rest :
  fits fs v -> pack fs v = Ok b -> unpack_from fs (b ++ rest) 0 = Ok v.
Proof.
  intros Hf H. unfold unpack_from, len. rewrite length_app.
  pose proof (pack_length _ _ _ H).
  destruct (Z.ltb_spec (Z.of_nat (length b + length rest)) (Z.of_nat 0 + Z.of_nat (calcsize fs)));
    [lia|]. f_equal. by apply unpack_raw_pack.
Qed.

Lemma unpack_from_Ok fs b off v :
  unpack_from fs b off = Ok v ->
  fits fs v /\ pack fs v = Ok (take (calcsize fs) (drop off b)) /\
  (off + calcsize fs <= length b)%nat.
Proof.
  unfold unpack_from. destruct (Z.ltb_spec (len b) (Z.of_nat off + Z.of_nat (calcsize fs)))
    as [|E]; [done|]. unfold len in E. intros [= <-].
  destruct (pack_unpack_raw fs (drop off b)); [rewrite length_drop; lia|].
  repeat split; try done. lia.
Qed.

Lemma unpack_from_size fs b off :
  (off + calcsize fs <= length b)%nat -> exists v, unpack_from fs b off = Ok v.
Proof.
  intros. unfold unpack_from, len.
  destruct (Z.ltb_spec (Z.of_nat (length b)) (Z.of_nat off + Z.of_nat (calcsize fs)));
    [lia|eauto].
Qed.

Lemma pack_inj fs v w b :
  numeric fs = true -> pack fs v = Ok b -> pack fs w = Ok b -> v = w.
Proof.
  intros Hn Hv Hw.
  pose proof (unpack_pack fs v b (pack_numeric_fits _ _ _ Hn Hv) Hv).
  pose proof (unpack_pack fs w b (pack_numeric_fits _ _ _ Hn Hw) Hw). congruence.
Qed.

(** Concatenated formats pack to concatenated bytes. *)
Fixpoint dapp (fs gs : list field) : denote fs -> denote gs -> denote (fs ++ gs) :=
  match fs with
  | [] => fun _ w => w
  | f :: fs => fun v w => (v.1, dapp fs gs v.2 w)
  end.

Lemma pack_app fs gs v w b c :
  pack fs v = Ok b -> pack gs w = Ok c -> pack (fs ++ gs) (dapp fs gs v w) = Ok (b ++ c).
Proof.
  revert v b. induction fs as [|f fs IH]; intros v b H Hc; cbn [pack] in H; inv_ok; [done|].
  cbn [app pack dapp fst snd]. rewrite E. cbn [mbind result_bind].
  rewrite (IH _ _ E0 Hc). cbn [mbind result_bind]. by rewrite app_assoc.
Qed.

Lemma pack_app_inv fs gs v w b :
  pack (fs ++ gs) (dapp fs gs v w) = Ok b ->
  pack fs v = Ok (take (calcsize fs) b) /\ pack gs w = Ok (drop (calcsize fs) b).
Proof.
  revert v b. induction fs as [|f fs IH]; intros v b H; [done|].
  cbn [app pack dapp fst snd] in *. inv_ok. apply IH in E0 as [E1 E2].
  apply pack_field_length in E as L. rewrite E. cbn [mbind result_bind]. rewrite E1.
  change (calcsize (f :: fs)) with (field_size f + calcsize fs)%nat. rewrite <- L.
  cbn [mbind result_bind]. split.
  - f_equal. rewrite take_app_add. done.
  - rewrite E2. f_equal. by rewrite drop_app_add.
Qed.

Lemma fits_dapp fs gs v w : fits fs v -> fits gs w -> fits (fs ++ gs) (dapp fs gs v w).
Proof.
  induction fs as [|f fs IH]; [done|]. intros [Hf Hv] Hw. split; [done|]. by apply IH.
Qed.

Lemma fits_dapp_inv fs gs v w : fits (fs ++ gs) (dapp fs gs v w) -> fits fs v /\ fits gs w.
Proof.
  induction fs as [|f fs IH]; [done|]. intros [Hf [Hv Hw]%IH]. done.
Qed.

Lemma pack_FH (v : denote [FH]) :
  0 <= (v.1 : Z) < 65536 -> pack [FH] v = Ok (le_bytes 2 v.1).
Proof.
  destruct v as [z []]. cbn [fst]. intros H. cbn [pack pack_field fst snd]. unfold pack_uint.
  rewrite bool_decide_eq_true_2 by (simpl; lia). cbn [mbind result_bind]. by rewrite app_nil_r.
Qed.

Lemma pack_FI (v : denote [FI]) :
  0 <= (v.1 : Z) < 4294967296 -> pack [FI] v = Ok (le_bytes 4 v.1).
Proof.
  destruct v as [z []]. cbn [fst]. intros H. cbn [pack pack_field fst snd]. unfold pack_uint.
  rewrite bool_decide_eq_true_2 by (simpl; lia). cbn [mbind result_bind]. by rewrite app_nil_r.
Qed.

Lemma pack_FH_inv z b : pack [FH] ⟨z⟩ = Ok b -> b = le_bytes 2 z /\ 0 <= z < 65536.
Proof.
  intros H. destruct (pack_numeric_fits [FH] ⟨z⟩ b eq_refl H) as [Hz _]. cbn in Hz.
  rewrite pack_FH in H by done. by apply Ok_inj in H as <-.
Qed.

Lemma pack_FI_inv z b : pack [FI] ⟨z⟩ = Ok b -> b = le_bytes 4 z /\ 0 <= z < 4294967296.
Proof.
  intros H. destruct (pack_numeric_fits [FI] ⟨z⟩ b eq_refl H) as [Hz _]. cbn in Hz.
  rewrite pack_FI in H by done. by apply Ok_inj in H as <-.
Qed.

(** Rewrites the first [pack] of the goal with an equation about the same tuple,
    up to conversion (the formats' types are seen in several convertible forms). *)
Ltac pack_with H :=
  match type of H with
  | _ = ?r =>
      match goal with
      | |- context [pack ?f ?v] =>
          replace (pack f v) with r by (symmetry; exact H); cbn [mbind result_bind]
      end
  end.
