(* ===== verification/Crc.v ===== *)
(** * Checksums

    [crc16_ccitt] of [protocol/crc.py] (the packet and discovery checksum),
    and the standard library's [zlib.crc32], the rolling checksum of file and
    graphics transfers.  The central facts: both checksums of a concatenation
    are computed block by block, and [crc16_ccitt] distinguishes any two
    messages that differ only inside two adjacent bytes. *)
From S2P Require Import Prelude.

(** ** CRC-16/CCITT-FALSE *)

(** One iteration of the inner loop. *)
Definition crc16_bit (crc : Z) : Z :=
  if negb (Z.land crc 0x8000 =? 0)
  then Z.land (Z.lxor (Z.shiftl crc 1) 0x1021) 0xFFFF
  else Z.land (Z.shiftl crc 1) 0xFFFF.

(** One iteration of the outer loop. *)
Definition crc16_byte (crc : Z) (value : byte) : Z :=
  Nat.iter 8 crc16_bit (Z.lxor crc (Z.shiftl (b2z value) 8)).

Definition crc16_ccitt_from (initial : Z) (data : bytes) : Z := foldl crc16_byte initial data.

Definition crc16_ccitt (data : bytes) : Z := crc16_ccitt_from 0xFFFF data.

(** ** [zlib.crc32] *)
Definition crc32_bit (crc : Z) : Z :=
  if negb (Z.land crc 1 =? 0)
  then Z.lxor (Z.shiftr crc 1) 0xEDB88320
  else Z.shiftr crc 1.

Definition crc32_byte (crc : Z) (value : byte) : Z :=
  Nat.iter 8 crc32_bit (Z.lxor crc (b2z value)).

(** [zlib.crc32(data, value)] *)
Definition crc32_from (value : Z) (data : bytes) : Z :=
  Z.lxor (foldl crc32_byte (Z.lxor (Z.land value 0xFFFFFFFF) 0xFFFFFFFF) data) 0xFFFFFFFF.

Definition crc32 (data : bytes) : Z := crc32_from 0 data.

(** ** Ranges *)
Lemma iter_range n (f : Z -> Z) (P : Z -> Prop) z :
  (forall x, P x -> P (f x)) -> P z -> P (Nat.iter n f z).
Proof. intros Hf Hz. induction n; simpl; auto. Qed.

Lemma crc16_bit_range crc : 0 <= crc16_bit crc < 65536.
Proof. unfold crc16_bit. case_match; apply land_mask16_range. Qed.

Lemma crc16_byte_range crc value : 0 <= crc16_byte crc value < 65536.
Proof. apply crc16_bit_range. Qed.

Lemma crc16_from_range crc data : 0 <= crc < 65536 -> 0 <= crc16_ccitt_from crc data < 65536.
Proof.
  unfold crc16_ccitt_from. revert crc.
  induction data as [|b data IH]; intros crc Hc; simpl; [done|].
  apply IH, crc16_byte_range.
Qed.

Lemma crc16_range data : 0 <= crc16_ccitt data < 65536.
Proof. by apply crc16_from_range. Qed.

Lemma crc32_bit_range crc : 0 <= crc < 2 ^ 32 -> 0 <= crc32_bit crc < 2 ^ 32.
Proof.
  intros H. unfold crc32_bit.
  assert (0 <= Z.shiftr crc 1 < 2 ^ 32).
  { rewrite Z.shiftr_div_pow2 by lia. change (2 ^ 1) with 2.
    split; [apply Z.div_pos; lia | apply Z.div_lt_upper_bound; lia]. }
  case_match; [|done]. apply lxor_range; lia.
Qed.

Lemma crc32_loop_range crc data :
  0 <= crc < 2 ^ 32 -> 0 <= foldl crc32_byte crc data < 2 ^ 32.
Proof.
  revert crc. induction data as [|b data IH]; intros crc Hc; simpl; [done|].
  apply IH. apply (iter_range 8 _ (fun z => 0 <= z < 2 ^ 32)); [apply crc32_bit_range|].
  apply lxor_range; [lia|done|]. pose proof (b2z_range b). lia.
Qed.

Lemma crc32_from_range value data : 0 <= crc32_from value data < 2 ^ 32.
Proof.
  apply lxor_range; [lia| |lia]. apply crc32_loop_range, lxor_range; [lia| |lia].
  apply land_mask32_range.
Qed.
#[export] Hint Resolve crc16_range crc16_byte_range crc32_from_range : word.

(** ** Block-wise computation *)
Lemma crc16_from_app crc data1 data2 :
  crc16_ccitt_from crc (data1 ++ data2) = crc16_ccitt_from (crc16_ccitt_from crc data1) data2.
Proof. apply foldl_app. Qed.

Lemma crc16_from_cons crc b data :
  crc16_ccitt_from crc (b :: data) = crc16_ccitt_from (crc16_byte crc b) data.
Proof. done. Qed.

Lemma crc32_from_nil value : 0 <= value < 2 ^ 32 -> crc32_from value [] = value.
Proof.
  intros. unfold crc32_from. simpl. rewrite Z.lxor_assoc, Z.lxor_nilpotent, Z.lxor_0_r.
  rewrite land_mask32. apply Z.mod_small. lia.
Qed.

Lemma crc32_from_app value data1 data2 :
  crc32_from value (data1 ++ data2) = crc32_from (crc32_from value data1) data2.
Proof.
  pose proof (crc32_from_range value data1) as Hr.
  remember (crc32_from value data1) as c eqn:Hc. unfold crc32_from in *.
  rewrite foldl_app. do 2 f_equal. rewrite (land_mask32 c), (Z.mod_small c) by lia.
  subst c. by rewrite Z.lxor_assoc, Z.lxor_nilpotent, Z.lxor_0_r.
Qed.

(** ** Linearity of the CRC-16 register *)
Lemma land_bit15 crc : negb (Z.land crc 0x8000 =? 0) = Z.testbit crc 15.
Proof.
  change 0x8000 with (2 ^ 15).
  destruct (Z.testbit crc 15) eqn:E.
  - apply negb_true_iff, Z.eqb_neq. intros H.
    apply (f_equal (fun z => Z.testbit z 15)) in H.
    by rewrite Z.land_spec, E, Z.pow2_bits_true in H.
  - apply negb_false_iff, Z.eqb_eq, Z.bits_inj'. intros i Hi.
    rewrite Z.land_spec, Z.bits_0, Z.pow2_bits_eqb by lia.
    destruct (Z.eqb_spec 15 i) as [<-|]; [by rewrite E|]. apply andb_false_r.
Qed.

Lemma crc16_bit_eq crc :
  crc16_bit crc =
  Z.lxor (Z.land (Z.shiftl crc 1) 0xFFFF) (if Z.testbit crc 15 then 0x1021 else 0).
Proof.
  unfold crc16_bit. rewrite land_bit15. case_match; [|by rewrite Z.lxor_0_r].
  change 0x1021 with (Z.land 0x1021 0xFFFF) at 2.
  apply Z.bits_inj'. intros i Hi. rewrite !Z.lxor_spec, !Z.land_spec, Z.lxor_spec.
  by destruct (Z.testbit 0xFFFF i); rewrite ?andb_true_r, ?andb_false_r.
Qed.

Lemma crc16_bit_lxor a b :
  crc16_bit (Z.lxor a b) = Z.lxor (crc16_bit a) (crc16_bit b).
Proof.
  rewrite !crc16_bit_eq. rewrite Z.shiftl_lxor, Z.lxor_spec.
  apply Z.bits_inj'. intros i Hi. repeat rewrite ?Z.lxor_spec, ?Z.land_spec.
  destruct (Z.testbit 0xFFFF i), (Z.testbit a 15), (Z.testbit b 15); cbn [xorb];
    rewrite ?Z.bits_0, ?andb_true_r, ?andb_false_r, ?xorb_false_r;
    repeat match goal with |- context [Z.testbit ?z i] => destruct (Z.testbit z i) end;
    done.
Qed.

Lemma crc16_bit_zero d : 0 <= d < 65536 -> crc16_bit d = 0 -> d = 0.
Proof.
  intros Hd. rewrite crc16_bit_eq, land_mask16, Z.shiftl_mul_pow2 by lia.
  change (2 ^ 1) with 2. destruct (Z.testbit d 15) eqn:E; intros H.
  - apply Z.lxor_eq in H. pose proof (Z.div_mod (d * 2) 65536). lia.
  - rewrite Z.lxor_0_r in H.
    assert (d < 2 ^ 15).
    { destruct (Z.lt_ge_cases d (2 ^ 15)) as [|Hge]; [done|].
      assert (d / 2 ^ 15 = 1) as Hq.
      { symmetry. apply (Z.div_unique _ _ _ (d - 2 ^ 15)); lia. }
      rewrite Z.testbit_eqb, Hq in E by lia. discriminate E. }
    rewrite Z.mod_small in H by lia. lia.
Qed.

Definition crc16_shift8 (z : Z) : Z := Nat.iter 8 crc16_bit z.

Lemma crc16_shift8_lxor a b :
  crc16_shift8 (Z.lxor a b) = Z.lxor (crc16_shift8 a) (crc16_shift8 b).
Proof. unfold crc16_shift8. simpl. by rewrite !crc16_bit_lxor. Qed.

Lemma crc16_shift8_zero d : 0 <= d < 65536 -> crc16_shift8 d = 0 -> d = 0.
Proof.
  intros Hd. unfold crc16_shift8. simpl.
  do 7 (intros H; apply crc16_bit_zero in H; [|apply crc16_bit_range]; revert H).
  by apply crc16_bit_zero.
Qed.

Lemma crc16_shift8_inj a b :
  0 <= a < 65536 -> 0 <= b < 65536 -> crc16_shift8 a = crc16_shift8 b -> a = b.
Proof.
  intros Ha Hb H. apply Z.lxor_eq, crc16_shift8_zero; [by apply (lxor_range 16)|].
  by rewrite crc16_shift8_lxor, H, Z.lxor_nilpotent.
Qed.

Lemma crc16_byte_shift8 crc value :
  crc16_byte crc value = crc16_shift8 (Z.lxor crc (Z.shiftl (b2z value) 8)).
Proof. done. Qed.

Lemma shiftl8_range b : 0 <= Z.shiftl (b2z b) 8 < 2 ^ 16.
Proof. rewrite Z.shiftl_mul_pow2 by lia. pose proof (b2z_range b). lia. Qed.

Lemma crc16_byte_inj_crc crc crc' value :
  0 <= crc < 65536 -> 0 <= crc' < 65536 ->
  crc16_byte crc value = crc16_byte crc' value -> crc = crc'.
Proof.
  rewrite !crc16_byte_shift8. intros Hc Hc' H. pose proof (shiftl8_range value).
  apply crc16_shift8_inj in H; [by apply lxor_cancel_r in H | by apply (lxor_range 16)..].
Qed.

Lemma crc16_from_inj data crc crc' :
  0 <= crc < 65536 -> 0 <= crc' < 65536 ->
  crc16_ccitt_from crc data = crc16_ccitt_from crc' data -> crc = crc'.
Proof.
  unfold crc16_ccitt_from. revert crc crc'.
  induction data as [|b data IH]; intros crc crc' Hc Hc' H; simpl in H; [done|].
  apply IH in H; [|apply crc16_byte_range..]. by eapply crc16_byte_inj_crc.
Qed.

(** The register after a difference in one byte still differs in its low byte:
    no difference in the next byte can cancel it. *)
Lemma crc16_shift8_low u : 0 < u < 256 -> Z.land (crc16_shift8 (Z.shiftl u 8)) 255 <> 0.
Proof.
  intros Hu.
  assert (H : forallb (fun u => negb (Z.land (crc16_shift8 (Z.shiftl u 8)) 255 =? 0))
                (seqZ 1 255) = true) by (vm_compute; reflexivity).
  rewrite forallb_forall in H. specialize (H u).
  rewrite <- list_elem_of_In, elem_of_seqZ in H.
  specialize (H ltac:(lia)). apply negb_true_iff, Z.eqb_neq in H. done.
Qed.

Lemma crc16_two_bytes_inj crc x y x' y' :
  0 <= crc < 65536 ->
  crc16_byte (crc16_byte crc x) y = crc16_byte (crc16_byte crc x') y' -> x = x' /\ y = y'.
Proof.
  intros Hc H. rewrite (crc16_byte_shift8 _ y), (crc16_byte_shift8 _ y') in H.
  pose proof (shiftl8_range x). pose proof (shiftl8_range x').
  pose proof (shiftl8_range y). pose proof (shiftl8_range y').
  pose proof (crc16_byte_range crc x). pose proof (crc16_byte_range crc x').
  apply crc16_shift8_inj in H; [|by apply (lxor_range 16)..].
  assert (Hd : crc16_shift8 (Z.shiftl (Z.lxor (b2z x) (b2z x')) 8)
               = Z.shiftl (Z.lxor (b2z y) (b2z y')) 8).
  { rewrite !Z.shiftl_lxor, crc16_shift8_lxor.
    apply (f_equal (Z.lxor (Z.lxor (crc16_byte crc x') (Z.shiftl (b2z y) 8)))) in H.
    rewrite !crc16_byte_shift8, !crc16_shift8_lxor in H. revert H.
    generalize (crc16_shift8 crc) (crc16_shift8 (Z.shiftl (b2z x) 8))
      (crc16_shift8 (Z.shiftl (b2z x') 8)) (Z.shiftl (b2z y) 8) (Z.shiftl (b2z y') 8).
    intros c a b s t H. apply Z.bits_inj'. intros i Hi.
    apply (f_equal (fun z => Z.testbit z i)) in H. rewrite !Z.lxor_spec in *.
    destruct (Z.testbit c i), (Z.testbit a i), (Z.testbit b i), (Z.testbit s i),
      (Z.testbit t i); simpl in *; congruence. }
  assert (Hu : Z.lxor (b2z x) (b2z x') = 0).
  { pose proof (lxor_range 8 (b2z x) (b2z x') ltac:(lia) (b2z_range x) (b2z_range x')).
    destruct (decide (Z.lxor (b2z x) (b2z x') = 0)); [done|]. exfalso.
    eapply (crc16_shift8_low (Z.lxor (b2z x) (b2z x'))); [lia|]. rewrite Hd.
    apply Z.bits_inj'. intros i Hi. rewrite Z.land_spec, Z.bits_0.
    destruct (Z.lt_ge_cases i 8); [by rewrite Z.shiftl_spec_low|].
    rewrite (proj2 (proj1 (word_bits 8 255 ltac:(lia)) ltac:(lia))) by done.
    apply andb_false_r. }
  rewrite Hu in Hd. change (crc16_shift8 (Z.shiftl 0 8)) with 0 in Hd.
  symmetry in Hd. apply Z.shiftl_eq_0_iff in Hd; [|lia].
  split; apply (inj b2z); by apply Z.lxor_eq.
Qed.

Lemma crc16_adjacent_inj pre x y x' y' post :
  crc16_ccitt (pre ++ x :: y :: post) = crc16_ccitt (pre ++ x' :: y' :: post) ->
  x = x' /\ y = y'.
Proof.
  unfold crc16_ccitt. rewrite !crc16_from_app.
  pose proof (crc16_from_range 0xFFFF pre ltac:(lia)) as Hr. revert Hr.
  generalize (crc16_ccitt_from 0xFFFF pre). intros crc Hr H. rewrite !crc16_from_cons in H.
  apply crc16_from_inj in H; [|apply crc16_byte_range..].
  by apply crc16_two_bytes_inj in H.
Qed.

(** ** The standard check values *)
Definition ascii_bytes (s : string) : bytes := map z2b (py s).

Example crc16_standard_vector : crc16_ccitt (ascii_bytes "123456789") = 0x29B1.
Proof. vm_compute. reflexivity. Qed.

Example crc32_standard_vector : crc32 (ascii_bytes "123456789") = 0xCBF43926.
Proof. vm_compute. reflexivity. Qed.

(** ** Properties *)

(** CRC-16/CCITT-FALSE as [crc16_ccitt] computes it detects every error
    burst confined to two adjacent bytes: two messages that agree outside two
    adjacent bytes and differ inside them never have the same checksum. *)
Theorem crc16_detects_adjacent_bytes pre x y x' y' post :
  (x, y) <> (x', y') ->
  crc16_ccitt (pre ++ x :: y :: post) <> crc16_ccitt (pre ++ x' :: y' :: post).
Proof.
  intros Hne H. apply crc16_adjacent_inj in H as [-> ->]. done.
Qed.

Lemma crc16_detects_adjacent_bytes_witness :
  crc16_ccitt (ascii_bytes "status" ++ x01 :: x02 :: []) <>
  crc16_ccitt (ascii_bytes "status" ++ x81 :: x03 :: []).
Proof.
  apply (crc16_detects_adjacent_bytes (ascii_bytes "status") x01 x02 x81 x03 []).
  intros H. discriminate H.
Defined.
