(* ===== verification/PyText.v ===== *)
(** * Text: the parts of Python's [str] the program uses

    A [str] is the list of its code points.  This file models the standard
    library's text routines: the CP437 and UTF-8 codecs, ASCII encoding with
    replacement, hexadecimal parsing, [str.isdigit], [int(s)] and whether
    [int(s, 16)] accepts a string.  The character tables are those of
    Unicode 15, the version of Python 3.12. *)
From S2P Require Import Prelude.

(** ** Character classes *)

(** First code points of the runs of ten decimal digits (category Nd). *)
Definition decimal_zeros : list Z :=
  [0x30; 0x660; 0x6F0; 0x7C0; 0x966; 0x9E6; 0xA66; 0xAE6; 0xB66; 0xBE6;
   0xC66; 0xCE6; 0xD66; 0xDE6; 0xE50; 0xED0; 0xF20; 0x1040; 0x1090; 0x17E0;
   0x1810; 0x1946; 0x19D0; 0x1A80; 0x1A90; 0x1B50; 0x1BB0; 0x1C40; 0x1C50; 0xA620;
   0xA8D0; 0xA900; 0xA9D0; 0xA9F0; 0xAA50; 0xABF0; 0xFF10; 0x104A0; 0x10D30; 0x11066;
   0x110F0; 0x11136; 0x111D0; 0x112F0; 0x11450; 0x114D0; 0x11650; 0x116C0; 0x11730; 0x118E0;
   0x11950; 0x11C50; 0x11D50; 0x11DA0; 0x11F50; 0x16A60; 0x16AC0; 0x16B50; 0x1D7CE; 0x1D7D8;
   0x1D7E2; 0x1D7EC; 0x1D7F6; 0x1E140; 0x1E2F0; 0x1E4F0; 0x1E950; 0x1FBF0].

(** Code points for which [str.isdigit] holds and that are not decimals
    (superscripts, circled digits, ...). *)
Definition other_digits : list (Z * Z) :=
  [(0xB2, 0xB3); (0xB9, 0xB9); (0x1369, 0x1371); (0x19DA, 0x19DA); (0x2070, 0x2070);
   (0x2074, 0x2079); (0x2080, 0x2089); (0x2460, 0x2468); (0x2474, 0x247C); (0x2488, 0x2490);
   (0x24EA, 0x24EA); (0x24F5, 0x24FD); (0x24FF, 0x24FF); (0x2776, 0x277E); (0x2780, 0x2788);
   (0x278A, 0x2792); (0x10A40, 0x10A43); (0x10E60, 0x10E68); (0x11052, 0x1105A); (0x1F100, 0x1F10A)].

Definition spaces : list Z :=
  [0x9; 0xA; 0xB; 0xC; 0xD; 0x1C; 0x1D; 0x1E; 0x1F; 0x20;
   0x85; 0xA0; 0x1680; 0x2000; 0x2001; 0x2002; 0x2003; 0x2004; 0x2005; 0x2006;
   0x2007; 0x2008; 0x2009; 0x200A; 0x2028; 0x2029; 0x202F; 0x205F; 0x3000].

Definition in_range (lo hi c : Z) : bool := (lo <=? c) && (c <=? hi).

(** [unicodedata.decimal(c)] *)
Definition decimal_value (c : Z) : option Z :=
  match List.find (fun z => in_range z (z + 9) c) decimal_zeros with
  | Some z => Some (c - z)
  | None => None
  end.

Definition is_decimal (c : Z) : bool :=
  match decimal_value c with Some _ => true | None => false end.
Definition char_isdigit (c : Z) : bool :=
  is_decimal c || existsb (fun p => in_range p.1 p.2 c) other_digits.
Definition char_isspace (c : Z) : bool := existsb (Z.eqb c) spaces.

(** [s.isdigit()]: nonempty, all characters digits. *)
Definition isdigit (s : pystr) : bool :=
  negb (len s =? 0) && forallb char_isdigit s.

(** ** The CP437 codec *)
Definition cp437_table : list Z :=
  [0x0; 0x1; 0x2; 0x3; 0x4; 0x5; 0x6; 0x7; 0x8; 0x9; 0xA; 0xB;
   0xC; 0xD; 0xE; 0xF; 0x10; 0x11; 0x12; 0x13; 0x14; 0x15; 0x16; 0x17;
   0x18; 0x19; 0x1A; 0x1B; 0x1C; 0x1D; 0x1E; 0x1F; 0x20; 0x21; 0x22; 0x23;
   0x24; 0x25; 0x26; 0x27; 0x28; 0x29; 0x2A; 0x2B; 0x2C; 0x2D; 0x2E; 0x2F;
   0x30; 0x31; 0x32; 0x33; 0x34; 0x35; 0x36; 0x37; 0x38; 0x39; 0x3A; 0x3B;
   0x3C; 0x3D; 0x3E; 0x3F; 0x40; 0x41; 0x42; 0x43; 0x44; 0x45; 0x46; 0x47;
   0x48; 0x49; 0x4A; 0x4B; 0x4C; 0x4D; 0x4E; 0x4F; 0x50; 0x51; 0x52; 0x53;
   0x54; 0x55; 0x56; 0x57; 0x58; 0x59; 0x5A; 0x5B; 0x5C; 0x5D; 0x5E; 0x5F;
   0x60; 0x61; 0x62; 0x63; 0x64; 0x65; 0x66; 0x67; 0x68; 0x69; 0x6A; 0x6B;
   0x6C; 0x6D; 0x6E; 0x6F; 0x70; 0x71; 0x72; 0x73; 0x74; 0x75; 0x76; 0x77;
   0x78; 0x79; 0x7A; 0x7B; 0x7C; 0x7D; 0x7E; 0x7F; 0xC7; 0xFC; 0xE9; 0xE2;
   0xE4; 0xE0; 0xE5; 0xE7; 0xEA; 0xEB; 0xE8; 0xEF; 0xEE; 0xEC; 0xC4; 0xC5;
   0xC9; 0xE6; 0xC6; 0xF4; 0xF6; 0xF2; 0xFB; 0xF9; 0xFF; 0xD6; 0xDC; 0xA2;
   0xA3; 0xA5; 0x20A7; 0x192; 0xE1; 0xED; 0xF3; 0xFA; 0xF1; 0xD1; 0xAA; 0xBA;
   0xBF; 0x2310; 0xAC; 0xBD; 0xBC; 0xA1; 0xAB; 0xBB; 0x2591; 0x2592; 0x2593; 0x2502;
   0x2524; 0x2561; 0x2562; 0x2556; 0x2555; 0x2563; 0x2551; 0x2557; 0x255D; 0x255C; 0x255B; 0x2510;
   0x2514; 0x2534; 0x252C; 0x251C; 0x2500; 0x253C; 0x255E; 0x255F; 0x255A; 0x2554; 0x2569; 0x2566;
   0x2560; 0x2550; 0x256C; 0x2567; 0x2568; 0x2564; 0x2565; 0x2559; 0x2558; 0x2552; 0x2553; 0x256B;
   0x256A; 0x2518; 0x250C; 0x2588; 0x2584; 0x258C; 0x2590; 0x2580; 0x3B1; 0xDF; 0x393; 0x3C0;
   0x3A3; 0x3C3; 0xB5; 0x3C4; 0x3A6; 0x398; 0x3A9; 0x3B4; 0x221E; 0x3C6; 0x3B5; 0x2229;
   0x2261; 0xB1; 0x2265; 0x2264; 0x2320; 0x2321; 0xF7; 0x2248; 0xB0; 0x2219; 0xB7; 0x221A;
   0x207F; 0xB2; 0x25A0; 0xA0].

(** [bytes.decode("cp437")] *)
Definition cp437_decode (data : bytes) : pystr :=
  (fun b => nth (Z.to_nat (b2z b)) cp437_table 0) <$> data.

(** The table inverted: each character with its byte. *)
Definition cp437_bytes : list (Z * byte) :=
  Eval vm_compute in zip cp437_table (z2b <$> seqZ 0 256).

Definition cp437_encode_char (c : Z) : option byte :=
  match List.find (fun p => p.1 =? c) cp437_bytes with
  | Some p => Some p.2
  | None => None
  end.

(** [str.encode("cp437")] *)
Definition cp437_encode (s : pystr) : result bytes :=
  map_result (fun c =>
    match cp437_encode_char c with
    | Some b => Ok b
    | None => raise UnicodeError (py "'charmap' codec can't encode character")
    end) s.

(** [str.encode("cp437", errors="replace")] *)
Definition cp437_encode_replace (s : pystr) : bytes :=
  (fun c => default x3f (cp437_encode_char c)) <$> s.

(** ** ASCII and UTF-8 *)

(** [str.encode("ascii", errors="replace")] *)
Definition ascii_encode_replace (s : pystr) : bytes :=
  (fun c => if in_range 0 127 c then z2b c else x3f) <$> s.

(** [bytes.decode("ascii", errors="replace")] *)
Definition ascii_decode_replace (data : bytes) : pystr :=
  (fun b => if b2z b <? 128 then b2z b else 0xFFFD) <$> data.

(** [str.encode("ascii")] and [bytes.decode("ascii")], strict. *)
Definition ascii_encode (s : pystr) : result bytes :=
  map_result (fun c => if in_range 0 127 c then Ok (z2b c)
                       else raise UnicodeError (py "ordinal not in range(128)")) s.
Definition ascii_decode (data : bytes) : result pystr :=
  map_result (fun b => if b2z b <? 128 then Ok (b2z b)
                       else raise UnicodeError (py "ordinal not in range(128)")) data.

(** UTF-8 of one code point; surrogates cannot be encoded. *)
Definition utf8_encode_char (c : Z) : result bytes :=
  if c <? 0x80 then Ok [z2b c]
  else if c <? 0x800 then Ok [z2b (0xC0 + c / 64); z2b (0x80 + c mod 64)]
  else if in_range 0xD800 0xDFFF c then raise UnicodeError (py "surrogates not allowed")
  else if c <? 0x10000 then
    Ok [z2b (0xE0 + c / 4096); z2b (0x80 + (c / 64) mod 64); z2b (0x80 + c mod 64)]
  else
    Ok [z2b (0xF0 + c / 262144); z2b (0x80 + (c / 4096) mod 64);
        z2b (0x80 + (c / 64) mod 64); z2b (0x80 + c mod 64)].

(** [str.encode()] *)
Definition utf8_encode (s : pystr) : result bytes :=
  bs ← map_result utf8_encode_char s; Ok (concat bs).

(** ** Hexadecimal *)
Definition hex_value (c : Z) : option Z :=
  if in_range 48 57 c then Some (c - 48)
  else if in_range 97 102 c then Some (c - 87)
  else if in_range 65 70 c then Some (c - 55)
  else None.

Definition is_hex_digit (c : Z) : bool :=
  match hex_value c with Some _ => true | None => false end.

(** [bytes.fromhex(s)] of a string of hexadecimal digits (the program checks
    the digits first, so the embedded blanks the routine skips cannot occur). *)
Fixpoint bytes_fromhex (s : pystr) : result bytes :=
  match s with
  | [] => Ok []
  | a :: b :: s =>
      match hex_value a, hex_value b with
      | Some x, Some y => r ← bytes_fromhex s; Ok (z2b (x * 16 + y) :: r)
      | _, _ => raise ValueError (py "non-hexadecimal number found in fromhex() arg")
      end
  | _ => raise ValueError (py "non-hexadecimal number found in fromhex() arg")
  end.

(** [codecs.getincrementaldecoder("utf-8")(errors="replace")], byte by byte: the
    state is the valid beginning of a sequence seen so far; a byte that cannot
    continue it makes one replacement character and is then read afresh. *)
Definition utf8_lead (b : Z) : option (Z * (Z * Z)) :=
  if in_range 0xC2 0xDF b then Some (1, (0x80, 0xBF))
  else if b =? 0xE0 then Some (2, (0xA0, 0xBF))
  else if b =? 0xED then Some (2, (0x80, 0x9F))
  else if in_range 0xE1 0xEF b then Some (2, (0x80, 0xBF))
  else if b =? 0xF0 then Some (3, (0x90, 0xBF))
  else if in_range 0xF1 0xF3 b then Some (3, (0x80, 0xBF))
  else if b =? 0xF4 then Some (3, (0x80, 0x8F))
  else None.

Definition utf8_fresh (b : Z) : pystr * list Z :=
  if b <? 0x80 then ([b], [])
  else match utf8_lead b with Some _ => ([], [b]) | None => ([0xFFFD], []) end.

(** The code point of a complete sequence. *)
Definition utf8_code (seq : list Z) : Z :=
  match seq with
  | lead :: rest =>
      foldl (fun c b => c * 64 + (b - 0x80))
        (lead - match rest with [_] => 0xC0 | [_; _] => 0xE0 | _ => 0xF0 end) rest
  | [] => 0
  end.

(** The decoder keeps the first two bytes of an encoded surrogate (for error
    handlers that accept them) and replaces both once a further byte comes. *)
Definition surrogate_start (seq : list Z) : bool :=
  match seq with [0xED; b] => in_range 0xA0 0xBF b | _ => false end.

Definition utf8_step (pending : list Z) (b : Z) : pystr * list Z :=
  match pending with
  | [] => utf8_fresh b
  | lead :: rest =>
      match utf8_lead lead with
      | None => utf8_fresh b
      | Some (n, (lo, hi)) =>
          let ok := match rest with [] => in_range lo hi b | _ => in_range 0x80 0xBF b end in
          if surrogate_start pending then
            let '(out, seq) := utf8_fresh b in (0xFFFD :: 0xFFFD :: out, seq)
          else if surrogate_start (pending ++ [b]) then ([], pending ++ [b])
          else if ok : bool then
            let seq := pending ++ [b] in
            if len seq =? n + 1 then ([utf8_code seq], []) else ([], seq)
          else let '(out, seq) := utf8_fresh b in (0xFFFD :: out, seq)
      end
  end.

(** [decoder.decode(data)]: the text and the decoder's new state. *)
Fixpoint utf8_decode (pending : list Z) (data : bytes) : pystr * list Z :=
  match data with
  | [] => ([], pending)
  | b :: data =>
      let '(out, pending) := utf8_step pending (b2z b) in
      let '(rest, pending) := utf8_decode pending data in
      (out ++ rest, pending)
  end.

(** [data.hex()] *)
Definition hex_digit (v : Z) : Z := if v <? 10 then 48 + v else 87 + v.
Definition bytes_hex (data : bytes) : pystr :=
  concat ((fun b => [hex_digit (b2z b / 16); hex_digit (b2z b mod 16)]) <$> data).

(** ** [int(s)] and [int(s, 16)] *)

(** [int(part)] of a string of digit characters. *)
Definition int10 (s : pystr) : result Z :=
  ds ← map_result (fun c => match decimal_value c with
                            | Some d => Ok d
                            | None => raise ValueError
                                (py "invalid literal for int() with base 10: '" ++ s ++ py "'")
                            end) s;
  Ok (foldl (fun n d => n * 10 + d) 0 ds).

(** CPython first rewrites non-ASCII blanks to a space, non-ASCII decimals to
    their ASCII digit and any other non-ASCII character to ["?"]. *)
Definition to_ascii_number (c : Z) : Z :=
  if c <? 127 then c
  else if char_isspace c then 32
  else match decimal_value c with Some d => 48 + d | None => 63 end.

Definition c_isspace (c : Z) : bool := in_range 9 13 c || (c =? 32).

Fixpoint drop_spaces (s : pystr) : pystr :=
  match s with
  | c :: s' => if c_isspace c then drop_spaces s' else s
  | [] => []
  end.

(** The digit scanner: [prev_us] tells that the previous character was an
    underscore.  Digits and single inner underscores, then blanks to the end. *)
Fixpoint scan_hex (prev_us any : bool) (s : pystr) : bool :=
  match s with
  | [] => any && negb prev_us
  | c :: s' =>
      if c =? 95 then negb prev_us && scan_hex true any s'
      else if is_hex_digit c then scan_hex false true s'
      else any && negb prev_us && forallb c_isspace s
  end.

Definition skip_sign (s : pystr) : pystr :=
  match s with
  | c :: s' => if (c =? 43) || (c =? 45) then s' else s
  | [] => []
  end.

(** The optional prefix [0x] and the underscore it may be followed by. *)
Definition skip_0x (s : pystr) : pystr :=
  match s with
  | 48 :: c :: s' =>
      if (c =? 120) || (c =? 88)
      then match s' with 95 :: s'' => s'' | _ => s' end
      else s
  | _ => s
  end.

(** Whether [int(s, 16)] returns. *)
Definition int16_ok (s : pystr) : bool :=
  let s := skip_0x (skip_sign (drop_spaces (to_ascii_number <$> s))) in
  match s with
  | 95 :: _ => false
  | _ => scan_hex false false s
  end.

(** ** [str.upper]

    Runs of code points whose upper case lies at a fixed distance ([lo, hi, step,
    distance]), and the characters whose upper case is several characters. *)
Definition upper_runs : list (Z * Z * (Z * Z)) :=
  [(97, 122, (1, -32)); (181, 181, (1, 743)); (224, 246, (1, -32)); (248, 254, (1, -32));
   (255, 255, (1, 121)); (257, 303, (2, -1)); (305, 305, (1, -232)); (307, 311, (2, -1));
   (314, 328, (2, -1)); (331, 375, (2, -1)); (378, 382, (2, -1)); (383, 383, (1, -300));
   (384, 384, (1, 195)); (387, 389, (2, -1)); (392, 392, (1, -1)); (396, 396, (1, -1));
   (402, 402, (1, -1)); (405, 405, (1, 97)); (409, 409, (1, -1)); (410, 410, (1, 163));
   (414, 414, (1, 130)); (417, 421, (2, -1)); (424, 424, (1, -1)); (429, 429, (1, -1));
   (432, 432, (1, -1)); (436, 438, (2, -1)); (441, 441, (1, -1)); (445, 445, (1, -1));
   (447, 447, (1, 56)); (453, 453, (1, -1)); (454, 454, (1, -2)); (456, 456, (1, -1));
   (457, 457, (1, -2)); (459, 459, (1, -1)); (460, 460, (1, -2)); (462, 476, (2, -1));
   (477, 477, (1, -79)); (479, 495, (2, -1)); (498, 498, (1, -1)); (499, 499, (1, -2));
   (501, 501, (1, -1)); (505, 543, (2, -1)); (547, 563, (2, -1)); (572, 572, (1, -1));
   (575, 576, (1, 10815)); (578, 578, (1, -1)); (583, 591, (2, -1)); (592, 592, (1, 10783));
   (593, 593, (1, 10780)); (594, 594, (1, 10782)); (595, 595, (1, -210)); (596, 596, (1, -206));
   (598, 599, (1, -205)); (601, 601, (1, -202)); (603, 603, (1, -203)); (604, 604, (1, 42319));
   (608, 608, (1, -205)); (609, 609, (1, 42315)); (611, 611, (1, -207)); (613, 613, (1, 42280));
   (614, 614, (1, 42308)); (616, 616, (1, -209)); (617, 617, (1, -211)); (618, 618, (1, 42308));
   (619, 619, (1, 10743)); (620, 620, (1, 42305)); (623, 623, (1, -211)); (625, 625, (1, 10749));
   (626, 626, (1, -213)); (629, 629, (1, -214)); (637, 637, (1, 10727)); (640, 640, (1, -218));
   (642, 642, (1, 42307)); (643, 643, (1, -218)); (647, 647, (1, 42282)); (648, 648, (1, -218));
   (649, 649, (1, -69)); (650, 651, (1, -217)); (652, 652, (1, -71)); (658, 658, (1, -219));
   (669, 669, (1, 42261)); (670, 670, (1, 42258)); (837, 837, (1, 84)); (881, 883, (2, -1));
   (887, 887, (1, -1)); (891, 893, (1, 130)); (940, 940, (1, -38)); (941, 943, (1, -37));
   (945, 961, (1, -32)); (962, 962, (1, -31)); (963, 971, (1, -32)); (972, 972, (1, -64));
   (973, 974, (1, -63)); (976, 976, (1, -62)); (977, 977, (1, -57)); (981, 981, (1, -47));
   (982, 982, (1, -54)); (983, 983, (1, -8)); (985, 1007, (2, -1)); (1008, 1008, (1, -86));
   (1009, 1009, (1, -80)); (1010, 1010, (1, 7)); (1011, 1011, (1, -116)); (1013, 1013, (1, -96));
   (1016, 1016, (1, -1)); (1019, 1019, (1, -1)); (1072, 1103, (1, -32)); (1104, 1119, (1, -80));
   (1121, 1153, (2, -1)); (1163, 1215, (2, -1)); (1218, 1230, (2, -1)); (1231, 1231, (1, -15));
   (1233, 1327, (2, -1)); (1377, 1414, (1, -48)); (4304, 4346, (1, 3008));
   (4349, 4351, (1, 3008)); (5112, 5117, (1, -8)); (7296, 7296, (1, -6254));
   (7297, 7297, (1, -6253)); (7298, 7298, (1, -6244)); (7299, 7300, (1, -6242));
   (7301, 7301, (1, -6243)); (7302, 7302, (1, -6236)); (7303, 7303, (1, -6181));
   (7304, 7304, (1, 35266)); (7545, 7545, (1, 35332)); (7549, 7549, (1, 3814));
   (7566, 7566, (1, 35384)); (7681, 7829, (2, -1)); (7835, 7835, (1, -59)); (7841, 7935, (2, -1));
   (7936, 7943, (1, 8)); (7952, 7957, (1, 8)); (7968, 7975, (1, 8)); (7984, 7991, (1, 8));
   (8000, 8005, (1, 8)); (8017, 8023, (2, 8)); (8032, 8039, (1, 8)); (8048, 8049, (1, 74));
   (8050, 8053, (1, 86)); (8054, 8055, (1, 100)); (8056, 8057, (1, 128)); (8058, 8059, (1, 112));
   (8060, 8061, (1, 126)); (8112, 8113, (1, 8)); (8126, 8126, (1, -7205)); (8144, 8145, (1, 8));
   (8160, 8161, (1, 8)); (8165, 8165, (1, 7)); (8526, 8526, (1, -28)); (8560, 8575, (1, -16));
   (8580, 8580, (1, -1)); (9424, 9449, (1, -26)); (11312, 11359, (1, -48));
   (11361, 11361, (1, -1)); (11365, 11365, (1, -10795)); (11366, 11366, (1, -10792));
   (11368, 11372, (2, -1)); (11379, 11379, (1, -1)); (11382, 11382, (1, -1));
   (11393, 11491, (2, -1)); (11500, 11502, (2, -1)); (11507, 11507, (1, -1));
   (11520, 11557, (1, -7264)); (11559, 11559, (1, -7264)); (11565, 11565, (1, -7264));
   (42561, 42605, (2, -1)); (42625, 42651, (2, -1)); (42787, 42799, (2, -1));
   (42803, 42863, (2, -1)); (42874, 42876, (2, -1)); (42879, 42887, (2, -1));
   (42892, 42892, (1, -1)); (42897, 42899, (2, -1)); (42900, 42900, (1, 48));
   (42903, 42921, (2, -1)); (42933, 42947, (2, -1)); (42952, 42954, (2, -1));
   (42961, 42961, (1, -1)); (42967, 42969, (2, -1)); (42998, 42998, (1, -1));
   (43859, 43859, (1, -928)); (43888, 43967, (1, -38864)); (65345, 65370, (1, -32));
   (66600, 66639, (1, -40)); (66776, 66811, (1, -40)); (66967, 67003, (2, -39));
   (66968, 66977, (1, -39)); (66980, 66993, (1, -39)); (66996, 67001, (1, -39));
   (67004, 67004, (1, -39)); (68800, 68850, (1, -64)); (71872, 71903, (1, -32));
   (93792, 93823, (1, -32)); (125218, 125251, (1, -34))].

Definition upper_special : list (Z * pystr) :=
  [(223, [83; 83]); (329, [700; 78]); (496, [74; 780]); (912, [921; 776; 769]);
   (944, [933; 776; 769]); (1415, [1333; 1362]); (7830, [72; 817]); (7831, [84; 776]);
   (7832, [87; 778]); (7833, [89; 778]); (7834, [65; 702]); (8016, [933; 787]);
   (8018, [933; 787; 768]); (8020, [933; 787; 769]); (8022, [933; 787; 834]); (8064, [7944; 921]);
   (8065, [7945; 921]); (8066, [7946; 921]); (8067, [7947; 921]); (8068, [7948; 921]);
   (8069, [7949; 921]); (8070, [7950; 921]); (8071, [7951; 921]); (8072, [7944; 921]);
   (8073, [7945; 921]); (8074, [7946; 921]); (8075, [7947; 921]); (8076, [7948; 921]);
   (8077, [7949; 921]); (8078, [7950; 921]); (8079, [7951; 921]); (8080, [7976; 921]);
   (8081, [7977; 921]); (8082, [7978; 921]); (8083, [7979; 921]); (8084, [7980; 921]);
   (8085, [7981; 921]); (8086, [7982; 921]); (8087, [7983; 921]); (8088, [7976; 921]);
   (8089, [7977; 921]); (8090, [7978; 921]); (8091, [7979; 921]); (8092, [7980; 921]);
   (8093, [7981; 921]); (8094, [7982; 921]); (8095, [7983; 921]); (8096, [8040; 921]);
   (8097, [8041; 921]); (8098, [8042; 921]); (8099, [8043; 921]); (8100, [8044; 921]);
   (8101, [8045; 921]); (8102, [8046; 921]); (8103, [8047; 921]); (8104, [8040; 921]);
   (8105, [8041; 921]); (8106, [8042; 921]); (8107, [8043; 921]); (8108, [8044; 921]);
   (8109, [8045; 921]); (8110, [8046; 921]); (8111, [8047; 921]); (8114, [8122; 921]);
   (8115, [913; 921]); (8116, [902; 921]); (8118, [913; 834]); (8119, [913; 834; 921]);
   (8124, [913; 921]); (8130, [8138; 921]); (8131, [919; 921]); (8132, [905; 921]);
   (8134, [919; 834]); (8135, [919; 834; 921]); (8140, [919; 921]); (8146, [921; 776; 768]);
   (8147, [921; 776; 769]); (8150, [921; 834]); (8151, [921; 776; 834]); (8162, [933; 776; 768]);
   (8163, [933; 776; 769]); (8164, [929; 787]); (8166, [933; 834]); (8167, [933; 776; 834]);
   (8178, [8186; 921]); (8179, [937; 921]); (8180, [911; 921]); (8182, [937; 834]);
   (8183, [937; 834; 921]); (8188, [937; 921]); (64256, [70; 70]); (64257, [70; 73]);
   (64258, [70; 76]); (64259, [70; 70; 73]); (64260, [70; 70; 76]); (64261, [83; 84]);
   (64262, [83; 84]); (64275, [1348; 1350]); (64276, [1348; 1333]); (64277, [1348; 1339]);
   (64278, [1358; 1350]); (64279, [1348; 1341])].

Definition char_upper (c : Z) : pystr :=
  match List.find (fun p => p.1 =? c) upper_special with
  | Some p => p.2
  | None =>
      match List.find (fun r => in_range r.1.1 r.1.2 c && ((c - r.1.1) mod r.2.1 =? 0)) upper_runs with
      | Some r => [c + r.2.2]
      | None => [c]
      end
  end.

Definition upper (s : pystr) : pystr := concat (char_upper <$> s).

(** ** Facts *)
Definition all_bytes : list byte := z2b <$> seqZ 0 256.

Lemma all_bytes_complete b : b ∈ all_bytes.
Proof.
  unfold all_bytes. apply list_elem_of_fmap. exists (b2z b). split; [by rewrite z2b_b2z|].
  apply elem_of_seqZ. pose proof (b2z_range b). lia.
Qed.

(** A decidable property of bytes is proved by evaluating it on all 256. *)
Lemma byte_forall (P : byte -> bool) : forallb P all_bytes = true -> forall b, P b = true.
Proof.
  intros H b. rewrite forallb_forall in H. apply H, list_elem_of_In, all_bytes_complete.
Qed.

Ltac check_all_bytes b :=
  apply (bool_decide_eq_true_1 _); revert b; apply byte_forall; vm_compute; reflexivity.

Lemma cp437_encode_decode data : cp437_encode (cp437_decode data) = Ok data.
Proof.
  unfold cp437_encode, cp437_decode.
  induction data as [|b data IH]; [done|]. rewrite fmap_cons. cbn [map_result].
  assert (Hb : cp437_encode_char (nth (Z.to_nat (b2z b)) cp437_table 0) = Some b).
  { check_all_bytes b. }
  rewrite Hb. cbn [mbind result_bind]. by rewrite IH.
Qed.

Lemma cp437_decode_encode s data : cp437_encode s = Ok data -> cp437_decode data = s.
Proof.
  unfold cp437_encode, cp437_decode. intros H%map_result_Ok.
  induction H as [|c b s data Hc _ IH]; [done|]. rewrite fmap_cons, IH. f_equal.
  unfold cp437_encode_char in Hc. destruct (List.find _ cp437_bytes) as [[c' b']|] eqn:Ef; [|done].
  injection Hc as <-. apply List.find_some in Ef as [Hin Heq]. cbn in Heq |- *.
  assert (Hall : forallb (fun p => nth (Z.to_nat (b2z p.2)) cp437_table 0 =? p.1) cp437_bytes = true)
    by (vm_compute; reflexivity).
  rewrite List.forallb_forall in Hall. specialize (Hall _ Hin). cbn in Hall. lia.
Qed.

Lemma cp437_encode_replace_decode data : cp437_encode_replace (cp437_decode data) = data.
Proof.
  pose proof (cp437_encode_decode data) as H. unfold cp437_encode, cp437_encode_replace in *.
  revert H. generalize (cp437_decode data). intros s. revert data.
  induction s as [|c s IH]; intros data H; cbn [map_result] in H; inv_ok; [done|].
  rewrite fmap_cons. destruct (cp437_encode_char c); inv_ok; simpl. by rewrite (IH _ E0).
Qed.

Lemma length_cp437_encode_replace s : length (cp437_encode_replace s) = length s.
Proof. apply length_fmap. Qed.

Lemma length_cp437_decode data : length (cp437_decode data) = length data.
Proof. apply length_fmap. Qed.

Lemma bytes_fromhex_hex data : bytes_fromhex (bytes_hex data) = Ok data.
Proof.
  unfold bytes_hex. induction data as [|b data IH]; [done|].
  rewrite fmap_cons. cbn [concat app bytes_fromhex].
  assert (H : (match hex_value (hex_digit (b2z b / 16)), hex_value (hex_digit (b2z b mod 16)) with
               | Some x, Some y => Some (z2b (x * 16 + y)) | _, _ => None end) = Some b).
  { check_all_bytes b. }
  do 2 (case_match; [|done]). rewrite IH. simpl. by injection H as ->.
Qed.

Lemma bytes_fromhex_length s data :
  bytes_fromhex s = Ok data -> length s = (2 * length data)%nat.
Proof.
  revert s. induction data as [|d data IH]; intros [|a [|b s]] H; simpl in H; inv_ok; simplify_eq; try done;
    destruct (hex_value a), (hex_value b); inv_ok; simplify_eq; try done.
  simpl. rewrite (IH s) by done. lia.
Qed.

Lemma utf8_encode_app s t bs bt :
  utf8_encode s = Ok bs -> utf8_encode t = Ok bt -> utf8_encode (s ++ t) = Ok (bs ++ bt).
Proof.
  unfold utf8_encode. intros Hs Ht. inv_ok. apply map_result_Ok in E, E0.
  erewrite (proj2 (map_result_Ok _ (s ++ t) (v0 ++ v))); [|by apply Forall2_app].
  simpl. by rewrite concat_app.
Qed.

Lemma decimal_value_range c d : decimal_value c = Some d -> 0 <= d <= 9.
Proof.
  unfold decimal_value. destruct (List.find _ _) as [z|] eqn:E; [|done]. intros [= <-].
  apply List.find_some in E as [_ E]. unfold in_range in E. lia.
Qed.

Lemma int10_nonneg s n : int10 s = Ok n -> 0 <= n.
Proof.
  unfold int10. intros H. inv_ok. apply map_result_Ok in E.
  enough (forall m, 0 <= m -> 0 <= foldl (fun n d => n * 10 + d) m v) as Hfold by (apply Hfold; lia).
  induction E as [|c d s' ds Hd _ IH]; intros m Hm; [done|]. cbn [foldl]. apply IH.
  destruct (decimal_value c) eqn:Ev; [|done]. apply decimal_value_range in Ev. inv_ok. lia.
Qed.

Lemma utf8_decode_app p a b :
  utf8_decode p (a ++ b) =
  ((utf8_decode p a).1 ++ (utf8_decode (utf8_decode p a).2 b).1,
   (utf8_decode (utf8_decode p a).2 b).2).
Proof.
  revert p. induction a as [|x a IH]; intros p; [cbn; by destruct (utf8_decode p b)|].
  cbn [app utf8_decode]. destruct (utf8_step p (b2z x)) as [out q]. rewrite IH.
  destruct (utf8_decode q a) as [s q']. cbn [fst snd].
  by destruct (utf8_decode q' b) as [s' q'']; cbn [fst snd]; rewrite app_assoc.
Qed.

Lemma ascii_decode_Ok data s :
  ascii_decode data = Ok s <-> s = b2z <$> data /\ Forall (fun b => b2z b < 128) data.
Proof.
  unfold ascii_decode. revert s. induction data as [|b data IH]; intros s; cbn [map_result].
  - split; [intros [= <-]; done|]. by intros [-> _].
  - rewrite Forall_cons. destruct (Z.ltb_spec (b2z b) 128) as [Hb|Hb]; cbn [mbind result_bind].
    + rewrite bind_Ok. split.
      * intros (t & [-> Ht]%IH & [= <-]). done.
      * intros [-> [_ Ht]]. exists (b2z <$> data). split; [by apply IH|done].
    + split; [done|]. intros [_ [? _]]. lia.
Qed.

Lemma ascii_encode_Ok s data :
  ascii_encode s = Ok data <-> s = b2z <$> data /\ Forall (fun b => b2z b < 128) data.
Proof.
  unfold ascii_encode. revert data. induction s as [|c s IH]; intros data; cbn [map_result].
  - split; [intros [= <-]; done|]. by destruct data; intros [? _].
  - destruct (in_range 0 127 c) eqn:Ec; unfold in_range in Ec; cbn [mbind result_bind].
    + rewrite bind_Ok. split.
      * intros (t & [-> Ht]%IH & [= <-]). rewrite fmap_cons, b2z_z2b_small by lia.
        split; [done|]. apply Forall_cons. rewrite b2z_z2b_small by lia. split; [lia|done].
      * intros [Hs Hd]. destruct data as [|b data]; [done|]. rewrite fmap_cons in Hs.
        injection Hs as -> ->. exists data. rewrite z2b_b2z. split; [|done].
        apply IH. by apply Forall_cons in Hd as [_ ?].
    + split; [done|]. intros [Hs Hd]. destruct data as [|b data]; [done|].
      injection Hs as -> ->. apply Forall_cons in Hd as [Hb _]. pose proof (b2z_range b). lia.
Qed.
