(* ===== verification/PyStr.v ===== *)
(** * Text: parsing, caseless comparison and [repr]

    The further routines of Python's [str] that the bridge's configuration uses:
    [str.casefold], [repr], [str.rpartition], [int(s)] of an arbitrary string,
    and [sorted] of strings by a key.  The tables are those of Unicode 15. *)
From S2P Require Import Prelude PyText.

(** ** [str.casefold] *)
Definition fold_runs : list (Z * Z * (Z * Z)) :=
  [(65, 90, (1, 32)); (181, 181, (1, 775)); (192, 214, (1, 32)); (216, 222, (1, 32));
   (256, 302, (2, 1)); (306, 310, (2, 1)); (313, 327, (2, 1)); (330, 374, (2, 1));
   (376, 376, (1, -121)); (377, 381, (2, 1)); (383, 383, (1, -268)); (385, 385, (1, 210));
   (386, 388, (2, 1)); (390, 390, (1, 206)); (391, 391, (1, 1)); (393, 394, (1, 205));
   (395, 395, (1, 1)); (398, 398, (1, 79)); (399, 399, (1, 202)); (400, 400, (1, 203));
   (401, 401, (1, 1)); (403, 403, (1, 205)); (404, 404, (1, 207)); (406, 406, (1, 211));
   (407, 407, (1, 209)); (408, 408, (1, 1)); (412, 412, (1, 211)); (413, 413, (1, 213));
   (415, 415, (1, 214)); (416, 420, (2, 1)); (422, 422, (1, 218)); (423, 423, (1, 1));
   (425, 425, (1, 218)); (428, 428, (1, 1)); (430, 430, (1, 218)); (431, 431, (1, 1));
   (433, 434, (1, 217)); (435, 437, (2, 1)); (439, 439, (1, 219)); (440, 440, (1, 1));
   (444, 444, (1, 1)); (452, 452, (1, 2)); (453, 453, (1, 1)); (455, 455, (1, 2));
   (456, 456, (1, 1)); (458, 458, (1, 2)); (459, 475, (2, 1)); (478, 494, (2, 1));
   (497, 497, (1, 2)); (498, 500, (2, 1)); (502, 502, (1, -97)); (503, 503, (1, -56));
   (504, 542, (2, 1)); (544, 544, (1, -130)); (546, 562, (2, 1)); (570, 570, (1, 10795));
   (571, 571, (1, 1)); (573, 573, (1, -163)); (574, 574, (1, 10792)); (577, 577, (1, 1));
   (579, 579, (1, -195)); (580, 580, (1, 69)); (581, 581, (1, 71)); (582, 590, (2, 1));
   (837, 837, (1, 116)); (880, 882, (2, 1)); (886, 886, (1, 1)); (895, 895, (1, 116));
   (902, 902, (1, 38)); (904, 906, (1, 37)); (908, 908, (1, 64)); (910, 911, (1, 63));
   (913, 929, (1, 32)); (931, 939, (1, 32)); (962, 962, (1, 1)); (975, 975, (1, 8));
   (976, 976, (1, -30)); (977, 977, (1, -25)); (981, 981, (1, -15)); (982, 982, (1, -22));
   (984, 1006, (2, 1)); (1008, 1008, (1, -54)); (1009, 1009, (1, -48)); (1012, 1012, (1, -60));
   (1013, 1013, (1, -64)); (1015, 1015, (1, 1)); (1017, 1017, (1, -7)); (1018, 1018, (1, 1));
   (1021, 1023, (1, -130)); (1024, 1039, (1, 80)); (1040, 1071, (1, 32)); (1120, 1152, (2, 1));
   (1162, 1214, (2, 1)); (1216, 1216, (1, 15)); (1217, 1229, (2, 1)); (1232, 1326, (2, 1));
   (1329, 1366, (1, 48)); (4256, 4293, (1, 7264)); (4295, 4295, (1, 7264));
   (4301, 4301, (1, 7264)); (5112, 5117, (1, -8)); (7296, 7296, (1, -6222));
   (7297, 7297, (1, -6221)); (7298, 7298, (1, -6212)); (7299, 7300, (1, -6210));
   (7301, 7301, (1, -6211)); (7302, 7302, (1, -6204)); (7303, 7303, (1, -6180));
   (7304, 7304, (1, 35267)); (7312, 7354, (1, -3008)); (7357, 7359, (1, -3008));
   (7680, 7828, (2, 1)); (7835, 7835, (1, -58)); (7840, 7934, (2, 1)); (7944, 7951, (1, -8));
   (7960, 7965, (1, -8)); (7976, 7983, (1, -8)); (7992, 7999, (1, -8)); (8008, 8013, (1, -8));
   (8025, 8031, (2, -8)); (8040, 8047, (1, -8)); (8120, 8121, (1, -8)); (8122, 8123, (1, -74));
   (8126, 8126, (1, -7173)); (8136, 8139, (1, -86)); (8152, 8153, (1, -8));
   (8154, 8155, (1, -100)); (8168, 8169, (1, -8)); (8170, 8171, (1, -112)); (8172, 8172, (1, -7));
   (8184, 8185, (1, -128)); (8186, 8187, (1, -126)); (8486, 8486, (1, -7517));
   (8490, 8490, (1, -8383)); (8491, 8491, (1, -8262)); (8498, 8498, (1, 28));
   (8544, 8559, (1, 16)); (8579, 8579, (1, 1)); (9398, 9423, (1, 26)); (11264, 11311, (1, 48));
   (11360, 11360, (1, 1)); (11362, 11362, (1, -10743)); (11363, 11363, (1, -3814));
   (11364, 11364, (1, -10727)); (11367, 11371, (2, 1)); (11373, 11373, (1, -10780));
   (11374, 11374, (1, -10749)); (11375, 11375, (1, -10783)); (11376, 11376, (1, -10782));
   (11378, 11378, (1, 1)); (11381, 11381, (1, 1)); (11390, 11391, (1, -10815));
   (11392, 11490, (2, 1)); (11499, 11501, (2, 1)); (11506, 11506, (1, 1)); (42560, 42604, (2, 1));
   (42624, 42650, (2, 1)); (42786, 42798, (2, 1)); (42802, 42862, (2, 1)); (42873, 42875, (2, 1));
   (42877, 42877, (1, -35332)); (42878, 42886, (2, 1)); (42891, 42891, (1, 1));
   (42893, 42893, (1, -42280)); (42896, 42898, (2, 1)); (42902, 42920, (2, 1));
   (42922, 42922, (1, -42308)); (42923, 42923, (1, -42319)); (42924, 42924, (1, -42315));
   (42925, 42925, (1, -42305)); (42926, 42926, (1, -42308)); (42928, 42928, (1, -42258));
   (42929, 42929, (1, -42282)); (42930, 42930, (1, -42261)); (42931, 42931, (1, 928));
   (42932, 42946, (2, 1)); (42948, 42948, (1, -48)); (42949, 42949, (1, -42307));
   (42950, 42950, (1, -35384)); (42951, 42953, (2, 1)); (42960, 42960, (1, 1));
   (42966, 42968, (2, 1)); (42997, 42997, (1, 1)); (43888, 43967, (1, -38864));
   (65313, 65338, (1, 32)); (66560, 66599, (1, 40)); (66736, 66771, (1, 40));
   (66928, 66938, (1, 39)); (66940, 66954, (1, 39)); (66956, 66962, (1, 39));
   (66964, 66965, (1, 39)); (68736, 68786, (1, 64)); (71840, 71871, (1, 32));
   (93760, 93791, (1, 32)); (125184, 125217, (1, 34))].

Definition fold_special : list (Z * pystr) :=
  [(223, [115; 115]); (304, [105; 775]); (329, [700; 110]); (496, [106; 780]);
   (912, [953; 776; 769]); (944, [965; 776; 769]); (1415, [1381; 1410]); (7830, [104; 817]);
   (7831, [116; 776]); (7832, [119; 778]); (7833, [121; 778]); (7834, [97; 702]);
   (7838, [115; 115]); (8016, [965; 787]); (8018, [965; 787; 768]); (8020, [965; 787; 769]);
   (8022, [965; 787; 834]); (8064, [7936; 953]); (8065, [7937; 953]); (8066, [7938; 953]);
   (8067, [7939; 953]); (8068, [7940; 953]); (8069, [7941; 953]); (8070, [7942; 953]);
   (8071, [7943; 953]); (8072, [7936; 953]); (8073, [7937; 953]); (8074, [7938; 953]);
   (8075, [7939; 953]); (8076, [7940; 953]); (8077, [7941; 953]); (8078, [7942; 953]);
   (8079, [7943; 953]); (8080, [7968; 953]); (8081, [7969; 953]); (8082, [7970; 953]);
   (8083, [7971; 953]); (8084, [7972; 953]); (8085, [7973; 953]); (8086, [7974; 953]);
   (8087, [7975; 953]); (8088, [7968; 953]); (8089, [7969; 953]); (8090, [7970; 953]);
   (8091, [7971; 953]); (8092, [7972; 953]); (8093, [7973; 953]); (8094, [7974; 953]);
   (8095, [7975; 953]); (8096, [8032; 953]); (8097, [8033; 953]); (8098, [8034; 953]);
   (8099, [8035; 953]); (8100, [8036; 953]); (8101, [8037; 953]); (8102, [8038; 953]);
   (8103, [8039; 953]); (8104, [8032; 953]); (8105, [8033; 953]); (8106, [8034; 953]);
   (8107, [8035; 953]); (8108, [8036; 953]); (8109, [8037; 953]); (8110, [8038; 953]);
   (8111, [8039; 953]); (8114, [8048; 953]); (8115, [945; 953]); (8116, [940; 953]);
   (8118, [945; 834]); (8119, [945; 834; 953]); (8124, [945; 953]); (8130, [8052; 953]);
   (8131, [951; 953]); (8132, [942; 953]); (8134, [951; 834]); (8135, [951; 834; 953]);
   (8140, [951; 953]); (8146, [953; 776; 768]); (8147, [953; 776; 769]); (8150, [953; 834]);
   (8151, [953; 776; 834]); (8162, [965; 776; 768]); (8163, [965; 776; 769]); (8164, [961; 787]);
   (8166, [965; 834]); (8167, [965; 776; 834]); (8178, [8060; 953]); (8179, [969; 953]);
   (8180, [974; 953]); (8182, [969; 834]); (8183, [969; 834; 953]); (8188, [969; 953]);
   (64256, [102; 102]); (64257, [102; 105]); (64258, [102; 108]); (64259, [102; 102; 105]);
   (64260, [102; 102; 108]); (64261, [115; 116]); (64262, [115; 116]); (64275, [1396; 1398]);
   (64276, [1396; 1381]); (64277, [1396; 1387]); (64278, [1406; 1398]); (64279, [1396; 1389])].

Definition char_casefold (c : Z) : pystr :=
  match List.find (fun p => p.1 =? c) fold_special with
  | Some p => p.2
  | None =>
      match List.find (fun r => in_range r.1.1 r.1.2 c && ((c - r.1.1) mod r.2.1 =? 0)) fold_runs with
      | Some r => [c + r.2.2]
      | None => [c]
      end
  end.

Definition casefold (s : pystr) : pystr := concat (char_casefold <$> s).

(** ** [repr]

    Runs of the code points for which [str.isprintable] fails. *)
Definition nonprintable : list (Z * Z) :=
  [(0, 31); (127, 160); (173, 173); (888, 889); (896, 899); (907, 907); (909, 909); (930, 930);
   (1328, 1328); (1367, 1368); (1419, 1420); (1424, 1424); (1480, 1487); (1515, 1518);
   (1525, 1541); (1564, 1564); (1757, 1757); (1806, 1807); (1867, 1868); (1970, 1983);
   (2043, 2044); (2094, 2095); (2111, 2111); (2140, 2141); (2143, 2143); (2155, 2159);
   (2191, 2199); (2274, 2274); (2436, 2436); (2445, 2446); (2449, 2450); (2473, 2473);
   (2481, 2481); (2483, 2485); (2490, 2491); (2501, 2502); (2505, 2506); (2511, 2518);
   (2520, 2523); (2526, 2526); (2532, 2533); (2559, 2560); (2564, 2564); (2571, 2574);
   (2577, 2578); (2601, 2601); (2609, 2609); (2612, 2612); (2615, 2615); (2618, 2619);
   (2621, 2621); (2627, 2630); (2633, 2634); (2638, 2640); (2642, 2648); (2653, 2653);
   (2655, 2661); (2679, 2688); (2692, 2692); (2702, 2702); (2706, 2706); (2729, 2729);
   (2737, 2737); (2740, 2740); (2746, 2747); (2758, 2758); (2762, 2762); (2766, 2767);
   (2769, 2783); (2788, 2789); (2802, 2808); (2816, 2816); (2820, 2820); (2829, 2830);
   (2833, 2834); (2857, 2857); (2865, 2865); (2868, 2868); (2874, 2875); (2885, 2886);
   (2889, 2890); (2894, 2900); (2904, 2907); (2910, 2910); (2916, 2917); (2936, 2945);
   (2948, 2948); (2955, 2957); (2961, 2961); (2966, 2968); (2971, 2971); (2973, 2973);
   (2976, 2978); (2981, 2983); (2987, 2989); (3002, 3005); (3011, 3013); (3017, 3017);
   (3022, 3023); (3025, 3030); (3032, 3045); (3067, 3071); (3085, 3085); (3089, 3089);
   (3113, 3113); (3130, 3131); (3141, 3141); (3145, 3145); (3150, 3156); (3159, 3159);
   (3163, 3164); (3166, 3167); (3172, 3173); (3184, 3190); (3213, 3213); (3217, 3217);
   (3241, 3241); (3252, 3252); (3258, 3259); (3269, 3269); (3273, 3273); (3278, 3284);
   (3287, 3292); (3295, 3295); (3300, 3301); (3312, 3312); (3316, 3327); (3341, 3341);
   (3345, 3345); (3397, 3397); (3401, 3401); (3408, 3411); (3428, 3429); (3456, 3456);
   (3460, 3460); (3479, 3481); (3506, 3506); (3516, 3516); (3518, 3519); (3527, 3529);
   (3531, 3534); (3541, 3541); (3543, 3543); (3552, 3557); (3568, 3569); (3573, 3584);
   (3643, 3646); (3676, 3712); (3715, 3715); (3717, 3717); (3723, 3723); (3748, 3748);
   (3750, 3750); (3774, 3775); (3781, 3781); (3783, 3783); (3791, 3791); (3802, 3803);
   (3808, 3839); (3912, 3912); (3949, 3952); (3992, 3992); (4029, 4029); (4045, 4045);
   (4059, 4095); (4294, 4294); (4296, 4300); (4302, 4303); (4681, 4681); (4686, 4687);
   (4695, 4695); (4697, 4697); (4702, 4703); (4745, 4745); (4750, 4751); (4785, 4785);
   (4790, 4791); (4799, 4799); (4801, 4801); (4806, 4807); (4823, 4823); (4881, 4881);
   (4886, 4887); (4955, 4956); (4989, 4991); (5018, 5023); (5110, 5111); (5118, 5119);
   (5760, 5760); (5789, 5791); (5881, 5887); (5910, 5918); (5943, 5951); (5972, 5983);
   (5997, 5997); (6001, 6001); (6004, 6015); (6110, 6111); (6122, 6127); (6138, 6143);
   (6158, 6158); (6170, 6175); (6265, 6271); (6315, 6319); (6390, 6399); (6431, 6431);
   (6444, 6447); (6460, 6463); (6465, 6467); (6510, 6511); (6517, 6527); (6572, 6575);
   (6602, 6607); (6619, 6621); (6684, 6685); (6751, 6751); (6781, 6782); (6794, 6799);
   (6810, 6815); (6830, 6831); (6863, 6911); (6989, 6991); (7039, 7039); (7156, 7163);
   (7224, 7226); (7242, 7244); (7305, 7311); (7355, 7356); (7368, 7375); (7419, 7423);
   (7958, 7959); (7966, 7967); (8006, 8007); (8014, 8015); (8024, 8024); (8026, 8026);
   (8028, 8028); (8030, 8030); (8062, 8063); (8117, 8117); (8133, 8133); (8148, 8149);
   (8156, 8156); (8176, 8177); (8181, 8181); (8191, 8207); (8232, 8239); (8287, 8303);
   (8306, 8307); (8335, 8335); (8349, 8351); (8385, 8399); (8433, 8447); (8588, 8591);
   (9255, 9279); (9291, 9311); (11124, 11125); (11158, 11158); (11508, 11512); (11558, 11558);
   (11560, 11564); (11566, 11567); (11624, 11630); (11633, 11646); (11671, 11679); (11687, 11687);
   (11695, 11695); (11703, 11703); (11711, 11711); (11719, 11719); (11727, 11727); (11735, 11735);
   (11743, 11743); (11870, 11903); (11930, 11930); (12020, 12031); (12246, 12271); (12284, 12288);
   (12352, 12352); (12439, 12440); (12544, 12548); (12592, 12592); (12687, 12687); (12772, 12783);
   (12831, 12831); (42125, 42127); (42183, 42191); (42540, 42559); (42744, 42751); (42955, 42959);
   (42962, 42962); (42964, 42964); (42970, 42993); (43053, 43055); (43066, 43071); (43128, 43135);
   (43206, 43213); (43226, 43231); (43348, 43358); (43389, 43391); (43470, 43470); (43482, 43485);
   (43519, 43519); (43575, 43583); (43598, 43599); (43610, 43611); (43715, 43738); (43767, 43776);
   (43783, 43784); (43791, 43792); (43799, 43807); (43815, 43815); (43823, 43823); (43884, 43887);
   (44014, 44015); (44026, 44031); (55204, 55215); (55239, 55242); (55292, 63743); (64110, 64111);
   (64218, 64255); (64263, 64274); (64280, 64284); (64311, 64311); (64317, 64317); (64319, 64319);
   (64322, 64322); (64325, 64325); (64451, 64466); (64912, 64913); (64968, 64974); (64976, 65007);
   (65050, 65055); (65107, 65107); (65127, 65127); (65132, 65135); (65141, 65141); (65277, 65280);
   (65471, 65473); (65480, 65481); (65488, 65489); (65496, 65497); (65501, 65503); (65511, 65511);
   (65519, 65531); (65534, 65535); (65548, 65548); (65575, 65575); (65595, 65595); (65598, 65598);
   (65614, 65615); (65630, 65663); (65787, 65791); (65795, 65798); (65844, 65846); (65935, 65935);
   (65949, 65951); (65953, 65999); (66046, 66175); (66205, 66207); (66257, 66271); (66300, 66303);
   (66340, 66348); (66379, 66383); (66427, 66431); (66462, 66462); (66500, 66503); (66518, 66559);
   (66718, 66719); (66730, 66735); (66772, 66775); (66812, 66815); (66856, 66863); (66916, 66926);
   (66939, 66939); (66955, 66955); (66963, 66963); (66966, 66966); (66978, 66978); (66994, 66994);
   (67002, 67002); (67005, 67071); (67383, 67391); (67414, 67423); (67432, 67455); (67462, 67462);
   (67505, 67505); (67515, 67583); (67590, 67591); (67593, 67593); (67638, 67638); (67641, 67643);
   (67645, 67646); (67670, 67670); (67743, 67750); (67760, 67807); (67827, 67827); (67830, 67834);
   (67868, 67870); (67898, 67902); (67904, 67967); (68024, 68027); (68048, 68049); (68100, 68100);
   (68103, 68107); (68116, 68116); (68120, 68120); (68150, 68151); (68155, 68158); (68169, 68175);
   (68185, 68191); (68256, 68287); (68327, 68330); (68343, 68351); (68406, 68408); (68438, 68439);
   (68467, 68471); (68498, 68504); (68509, 68520); (68528, 68607); (68681, 68735); (68787, 68799);
   (68851, 68857); (68904, 68911); (68922, 69215); (69247, 69247); (69290, 69290); (69294, 69295);
   (69298, 69372); (69416, 69423); (69466, 69487); (69514, 69551); (69580, 69599); (69623, 69631);
   (69710, 69713); (69750, 69758); (69821, 69821); (69827, 69839); (69865, 69871); (69882, 69887);
   (69941, 69941); (69960, 69967); (70007, 70015); (70112, 70112); (70133, 70143); (70162, 70162);
   (70210, 70271); (70279, 70279); (70281, 70281); (70286, 70286); (70302, 70302); (70314, 70319);
   (70379, 70383); (70394, 70399); (70404, 70404); (70413, 70414); (70417, 70418); (70441, 70441);
   (70449, 70449); (70452, 70452); (70458, 70458); (70469, 70470); (70473, 70474); (70478, 70479);
   (70481, 70486); (70488, 70492); (70500, 70501); (70509, 70511); (70517, 70655); (70748, 70748);
   (70754, 70783); (70856, 70863); (70874, 71039); (71094, 71095); (71134, 71167); (71237, 71247);
   (71258, 71263); (71277, 71295); (71354, 71359); (71370, 71423); (71451, 71452); (71468, 71471);
   (71495, 71679); (71740, 71839); (71923, 71934); (71943, 71944); (71946, 71947); (71956, 71956);
   (71959, 71959); (71990, 71990); (71993, 71994); (72007, 72015); (72026, 72095); (72104, 72105);
   (72152, 72153); (72165, 72191); (72264, 72271); (72355, 72367); (72441, 72447); (72458, 72703);
   (72713, 72713); (72759, 72759); (72774, 72783); (72813, 72815); (72848, 72849); (72872, 72872);
   (72887, 72959); (72967, 72967); (72970, 72970); (73015, 73017); (73019, 73019); (73022, 73022);
   (73032, 73039); (73050, 73055); (73062, 73062); (73065, 73065); (73103, 73103); (73106, 73106);
   (73113, 73119); (73130, 73439); (73465, 73471); (73489, 73489); (73531, 73533); (73562, 73647);
   (73649, 73663); (73714, 73726); (74650, 74751); (74863, 74863); (74869, 74879); (75076, 77711);
   (77811, 77823); (78896, 78911); (78934, 82943); (83527, 92159); (92729, 92735); (92767, 92767);
   (92778, 92781); (92863, 92863); (92874, 92879); (92910, 92911); (92918, 92927); (92998, 93007);
   (93018, 93018); (93026, 93026); (93048, 93052); (93072, 93759); (93851, 93951); (94027, 94030);
   (94088, 94094); (94112, 94175); (94181, 94191); (94194, 94207); (100344, 100351);
   (101590, 101631); (101641, 110575); (110580, 110580); (110588, 110588); (110591, 110591);
   (110883, 110897); (110899, 110927); (110931, 110932); (110934, 110947); (110952, 110959);
   (111356, 113663); (113771, 113775); (113789, 113791); (113801, 113807); (113818, 113819);
   (113824, 118527); (118574, 118575); (118599, 118607); (118724, 118783); (119030, 119039);
   (119079, 119080); (119155, 119162); (119275, 119295); (119366, 119487); (119508, 119519);
   (119540, 119551); (119639, 119647); (119673, 119807); (119893, 119893); (119965, 119965);
   (119968, 119969); (119971, 119972); (119975, 119976); (119981, 119981); (119994, 119994);
   (119996, 119996); (120004, 120004); (120070, 120070); (120075, 120076); (120085, 120085);
   (120093, 120093); (120122, 120122); (120127, 120127); (120133, 120133); (120135, 120137);
   (120145, 120145); (120486, 120487); (120780, 120781); (121484, 121498); (121504, 121504);
   (121520, 122623); (122655, 122660); (122667, 122879); (122887, 122887); (122905, 122906);
   (122914, 122914); (122917, 122917); (122923, 122927); (122990, 123022); (123024, 123135);
   (123181, 123183); (123198, 123199); (123210, 123213); (123216, 123535); (123567, 123583);
   (123642, 123646); (123648, 124111); (124154, 124895); (124903, 124903); (124908, 124908);
   (124911, 124911); (124927, 124927); (125125, 125126); (125143, 125183); (125260, 125263);
   (125274, 125277); (125280, 126064); (126133, 126208); (126270, 126463); (126468, 126468);
   (126496, 126496); (126499, 126499); (126501, 126502); (126504, 126504); (126515, 126515);
   (126520, 126520); (126522, 126522); (126524, 126529); (126531, 126534); (126536, 126536);
   (126538, 126538); (126540, 126540); (126544, 126544); (126547, 126547); (126549, 126550);
   (126552, 126552); (126554, 126554); (126556, 126556); (126558, 126558); (126560, 126560);
   (126563, 126563); (126565, 126566); (126571, 126571); (126579, 126579); (126584, 126584);
   (126589, 126589); (126591, 126591); (126602, 126602); (126620, 126624); (126628, 126628);
   (126634, 126634); (126652, 126703); (126706, 126975); (127020, 127023); (127124, 127135);
   (127151, 127152); (127168, 127168); (127184, 127184); (127222, 127231); (127406, 127461);
   (127491, 127503); (127548, 127551); (127561, 127567); (127570, 127583); (127590, 127743);
   (128728, 128731); (128749, 128751); (128765, 128767); (128887, 128890); (128986, 128991);
   (129004, 129007); (129009, 129023); (129036, 129039); (129096, 129103); (129114, 129119);
   (129160, 129167); (129198, 129199); (129202, 129279); (129620, 129631); (129646, 129647);
   (129661, 129663); (129673, 129679); (129726, 129726); (129734, 129741); (129756, 129759);
   (129769, 129775); (129785, 129791); (129939, 129939); (129995, 130031); (130042, 131071);
   (173792, 173823); (177977, 177983); (178206, 178207); (183970, 183983); (191457, 194559);
   (195102, 196607); (201547, 201551); (205744, 917759); (918000, 1114111)].

Definition isprintable (c : Z) : bool := negb (existsb (fun r => in_range r.1 r.2 c) nonprintable).

(** [n] hexadecimal digits of [v]. *)
Fixpoint hex_digits (n : nat) (v : Z) : pystr :=
  match n with
  | O => []
  | S n => hex_digits n (v / 16) ++ [hex_digit (v mod 16)]
  end.

Definition repr_char (quote c : Z) : pystr :=
  if (c =? quote) || (c =? 92) then [92; c]
  else if c =? 9 then py "\t" else if c =? 10 then py "\n" else if c =? 13 then py "\r"
  else if isprintable c then [c]
  else if c <? 0x100 then py "\x" ++ hex_digits 2 c
  else if c <? 0x10000 then py "\u" ++ hex_digits 4 c
  else py "\U" ++ hex_digits 8 c.

(** Double quotes only for a string with apostrophes and no double quotes. *)
Definition repr (s : pystr) : pystr :=
  let quote := if existsb (Z.eqb 39) s && negb (existsb (Z.eqb 34) s) then 34 else 39 in
  [quote] ++ concat (repr_char quote <$> s) ++ [quote].

(** [", ".join(l)] *)
Fixpoint join (sep : pystr) (l : list pystr) : pystr :=
  match l with
  | [] => []
  | [s] => s
  | s :: l => s ++ sep ++ join sep l
  end.

(** [repr] of a list of strings. *)
Definition repr_list (l : list pystr) : pystr := py "[" ++ join (py ", ") (repr <$> l) ++ py "]".

(** The character [c] read off the front. *)
Definition expect (c : Z) (s : pystr) : option pystr :=
  match s with d :: s => if d =? c then Some s else None | [] => None end.

Lemma expect_Some c s t : expect c s = Some t <-> s = c :: t.
Proof.
  destruct s as [|d s]; cbn [expect]; [done|]. destruct (Z.eqb_spec d c) as [->|Hne]; [naive_solver|].
  split; [done|]. by intros [= -> ->].
Qed.

Lemma expect_length c s t : expect c s = Some t -> length s = S (length t).
Proof. by intros ->%expect_Some. Qed.

(** ** [s.rpartition(":")]: before and after the last separator, and whether there is one. *)
Fixpoint rpartition (sep : Z) (s : pystr) : option (pystr * pystr) :=
  match s with
  | [] => None
  | c :: s =>
      match rpartition sep s with
      | Some (before, after) => Some (c :: before, after)
      | None => if c =? sep then Some ([], s) else None
      end
  end.

(** ** [int(s)] *)

(** Digits and single underscores between them, then blanks; with the value and
    the number of digits so far. *)
Fixpoint scan_dec (prev_us : bool) (value digits : Z) (s : pystr) : option (Z * Z) :=
  match s with
  | [] => if prev_us then None else Some (value, digits)
  | c :: s' =>
      if c =? 95 then if prev_us then None else scan_dec true value digits s'
      else if in_range 48 57 c then scan_dec false (value * 10 + (c - 48)) (digits + 1) s'
      else if prev_us || negb (forallb c_isspace s) then None else Some (value, digits)
  end.

Definition int_of_str (s : pystr) : result Z :=
  let t := drop_spaces (to_ascii_number <$> s) in
  match scan_dec true 0 0 (skip_sign t) with
  | None => raise ValueError (py "invalid literal for int() with base 10: " ++ repr s)
  | Some (value, digits) =>
      raise_if (4300 <? digits) ValueError
        (py "Exceeds the limit (4300 digits) for integer string conversion: value has " ++
         py_int digits ++ py " digits; use sys.set_int_max_str_digits() to increase the limit");;
      Ok (match t with 45 :: _ => - value | _ => value end)
  end.

(** ** [sorted(l, key=f)] of strings: stable insertion *)
Fixpoint str_ltb (s t : pystr) : bool :=
  match s, t with
  | _, [] => false
  | [], _ :: _ => true
  | c :: s, d :: t => (c <? d) || ((c =? d) && str_ltb s t)
  end.

Fixpoint insert_by {A} (key : A -> pystr) (x : A) (l : list A) : list A :=
  match l with
  | [] => [x]
  | y :: l' => if str_ltb (key y) (key x) then y :: insert_by key x l' else x :: l
  end.

(** Elements are inserted from the last to the first, each before its equals. *)
Definition sorted_by {A} (key : A -> pystr) (l : list A) : list A := foldr (insert_by key) [] l.

(** ** Checks against the interpreter *)
Example casefold_examples :
  casefold (py "DOS-Box") = py "dos-box" /\ casefold [0xDF; 0x130; 0x3A3] = [115; 115; 105; 0x307; 0x3C3].
Proof. by vm_compute. Qed.

Example repr_examples :
  repr (py "it's") = [34] ++ py "it's" ++ [34] /\ repr [10; 92; 0x7F; 0xE9; 0x200B; 0xE000] =
    py "'\n\\\x7f" ++ [0xE9] ++ py "\u200b\ue000'".
Proof. by vm_compute. Qed.

Example int_examples :
  int_of_str (py " +2_13 ") = Ok 213 /\ int_of_str (py "-0") = Ok 0 /\
  is_ok (int_of_str (py "_1")) = false /\ is_ok (int_of_str (py "1__0")) = false /\
  is_ok (int_of_str (py "1 2")) = false /\ is_ok (int_of_str []) = false /\
  int_of_str [0x661; 0x3000] = Ok 1.
Proof. by vm_compute. Qed.

(** ** Lemmas *)
Lemma rpartition_None sep s : rpartition sep s = None <-> sep ∉ s.
Proof.
  induction s as [|c s IH]; cbn [rpartition]; [split; [intros _; apply not_elem_of_nil|done]|].
  rewrite not_elem_of_cons. destruct (rpartition sep s) as [[a b]|].
  - split; [done|]. intros [_ Hn]. by apply IH in Hn.
  - destruct (Z.eqb_spec c sep) as [->|Hne]; [naive_solver|]. split; [intros _; split; [congruence|by apply IH]|done].
Qed.

Lemma rpartition_Some sep s a b :
  rpartition sep s = Some (a, b) <-> s = a ++ sep :: b /\ sep ∉ b.
Proof.
  revert a. induction s as [|c s IH]; intros a; cbn [rpartition]; [split; [done|]; intros [E _]; by destruct a|].
  destruct (rpartition sep s) as [[a' b']|] eqn:E.
  - split.
    + intros [= <- <-]. destruct (proj1 (IH a') eq_refl) as [-> Hn]. done.
    + intros [Hs Hn]. destruct a as [|d a].
      * injection Hs as -> ->. apply rpartition_None in Hn. congruence.
      * injection Hs as -> ->. assert (Some (a', b') = Some (a, b)) as [= -> ->]; [|done]. by apply IH.
  - apply rpartition_None in E. destruct (Z.eqb_spec c sep) as [->|Hne].
    + split; [by intros [= <- <-]|]. intros [Hs Hn]. destruct a as [|d a]; [by injection Hs as ->|].
      injection Hs as -> ->. exfalso. apply E. rewrite elem_of_app, elem_of_cons. auto.
    + split; [done|]. intros [Hs Hn]. destruct a as [|d a]; [by injection Hs|].
      injection Hs as -> ->. exfalso. apply E. rewrite elem_of_app, elem_of_cons. auto.
Qed.

Lemma insert_by_perm {A} (key : A -> pystr) x l : insert_by key x l ≡ₚ x :: l.
Proof.
  induction l as [|y l IH]; cbn [insert_by]; [done|]. destruct (str_ltb _ _); [|done].
  rewrite IH. apply Permutation_swap.
Qed.

Lemma sorted_by_perm {A} (key : A -> pystr) l : sorted_by key l ≡ₚ l.
Proof. induction l as [|x l IH]; [done|]. cbn. by rewrite insert_by_perm, IH. Qed.

(** ** [int(str(n))] *)
Definition ascii_digit (c : Z) : Prop := 48 <= c <= 57.
Definition digits_value (v : Z) (ds : pystr) : Z := foldl (fun v c => v * 10 + (c - 48)) v ds.

Lemma digits_value_cons v c ds : digits_value v (c :: ds) = digits_value (v * 10 + (c - 48)) ds.
Proof. done. Qed.

Lemma digit_char d :
  (d < 10)%N -> Z.of_N (Ascii.N_of_ascii (pretty.pretty_N_char d)) = 48 + Z.of_N d.
Proof.
  intros Hd. assert (Hall : forallb (fun d => Z.of_N (Ascii.N_of_ascii (pretty.pretty_N_char d)) =? 48 + Z.of_N d)
    [0; 1; 2; 3; 4; 5; 6; 7; 8; 9]%N = true) by reflexivity.
  rewrite forallb_forall in Hall. apply Z.eqb_eq, Hall, list_elem_of_In.
  assert (d = 0 \/ d = 1 \/ d = 2 \/ d = 3 \/ d = 4 \/ d = 5 \/ d = 6 \/ d = 7 \/ d = 8 \/ d = 9)%N
    as Hd' by lia. repeat (destruct Hd' as [->|Hd']; [repeat (left || right)|]). subst. repeat (left || right).
Qed.

Lemma digits_go k : forall n s, (n < 10 ^ k)%N ->
  exists ds, py (pretty.pretty_N_go n s) = ds ++ py s /\ Forall ascii_digit ds /\
    digits_value 0 ds = Z.of_N n /\ (length ds <= N.to_nat k)%nat.
Proof.
  induction k as [|k IH] using N.peano_ind; intros n s Hn.
  { exists []. replace n with 0%N by (cbn in Hn; lia). rewrite pretty.pretty_N_go_0. split_and!; [done..|cbn; lia]. }
  destruct (decide (n = 0)%N) as [->|Hpos].
  { exists []. rewrite pretty.pretty_N_go_0. split_and!; [done..|cbn; lia]. }
  rewrite pretty.pretty_N_go_step by lia. rewrite N.pow_succ_r' in Hn.
  destruct (IH (n / 10)%N (String.String (pretty.pretty_N_char (n mod 10)) s)) as (ds & E & Hd & Hv & Hl).
  { apply N.Div0.div_lt_upper_bound. lia. }
  exists (ds ++ [48 + Z.of_N (n mod 10)]).
  assert (Hm : (n mod 10 < 10)%N) by by apply N.mod_lt. split_and!.
  - rewrite E. change (py (String.String ?c ?s)) with (Z.of_N (Ascii.N_of_ascii c) :: py s).
    rewrite digit_char by done. by rewrite <- app_assoc.
  - apply Forall_app. split; [done|]. constructor; [|done]. unfold ascii_digit. clear -Hm. revert Hm. generalize (n mod 10)%N. lia.
  - unfold digits_value in *. rewrite foldl_snoc, Hv. pose proof (N.div_mod' n 10). lia.
  - rewrite length_app. cbn. lia.
Qed.

Lemma scan_dec_digits ds : forall us v n,
  Forall ascii_digit ds -> (us = true -> ds <> []) ->
  scan_dec us v n ds = Some (digits_value v ds, n + Z.of_nat (length ds)).
Proof.
  induction ds as [|c ds IH]; intros us v n Hd Hus.
  { destruct us; [by destruct Hus|]. cbn. do 2 f_equal. lia. }
  apply Forall_cons in Hd as [Hc Hd]. unfold ascii_digit in Hc. cbn [scan_dec length].
  replace (c =? 95) with false by lia. replace (in_range 48 57 c) with true by (unfold in_range; lia).
  rewrite IH by done. rewrite digits_value_cons. do 2 f_equal. lia.
Qed.

Lemma digits_plain ds :
  Forall ascii_digit ds -> drop_spaces (to_ascii_number <$> ds) = ds /\ skip_sign ds = ds.
Proof.
  intros Hd. assert (E : to_ascii_number <$> ds = ds).
  { induction Hd as [|c ds Hc _ IH]; [done|]. rewrite fmap_cons, IH. f_equal. unfold to_ascii_number, ascii_digit in *.
    by replace (c <? 127) with true by lia. }
  rewrite E. destruct Hd as [|c ds Hc Hd]; [done|]. unfold ascii_digit in Hc. split.
  - cbn [drop_spaces]. unfold c_isspace, in_range.
    by replace ((9 <=? c) && (c <=? 13) || (c =? 32)) with false by lia.
  - assert (c = 48 \/ c = 49 \/ c = 50 \/ c = 51 \/ c = 52 \/ c = 53 \/ c = 54 \/ c = 55 \/ c = 56 \/ c = 57) as Hc' by lia.
    repeat (destruct Hc' as [->|Hc']; [done|]). by subst.
Qed.

Lemma py_int_digits k n : 0 <= n < 10 ^ Z.of_N k -> (1 <= k)%N ->
  exists ds, py_int n = ds /\ Forall ascii_digit ds /\ digits_value 0 ds = n /\ ds <> [] /\ (length ds <= N.to_nat k)%nat.
Proof.
  intros Hn Hk. destruct (decide (n = 0)) as [->|Hpos].
  { exists [48]. split_and!; [done| |done|done|cbn; lia]. repeat constructor; done. }
  destruct n as [|p|p]; [done| |lia].
  destruct (digits_go k (Npos p) ""%string) as (ds & E & Hd & Hv & Hl).
  { apply N2Z.inj_lt. rewrite N2Z.inj_pow. cbn. lia. }
  exists ds. split_and!; [|done..| |done].
  - etransitivity; [|exact (eq_trans E (app_nil_r ds))]. done.
  - intros ->. cbn in Hv. lia.
Qed.

(** A number of up to nine digits is read back. *)
Lemma int_of_py_int n : 0 <= n < 10 ^ 9 -> int_of_str (py_int n) = Ok n.
Proof.
  intros Hn. destruct (py_int_digits 9 n) as (ds & -> & Hd & Hv & Hne & Hl); [done|lia|].
  destruct (digits_plain ds Hd) as [E1 E2]. unfold int_of_str. rewrite E1, E2, scan_dec_digits, Hv by done.
  rewrite raise_if_false by lia. destruct Hd as [|c ds Hc _]; [done|]. unfold ascii_digit in Hc.
  cbn [mbind result_bind]. f_equal.
  assert (c <> 45) by lia. clear -H. repeat case_match; done.
Qed.
