(* ===== verification/Json.v ===== *)
(** * JSON text

    [json.loads] of a string, as the standard library's decoder reads it: its
    extensions ([NaN], [Infinity], lone surrogates) and its limits included.
    Numbers are kept as a constructor without value: the bridge only asks whether
    a value is an object or a string.  Nesting is not limited here, while the
    interpreter gives up on texts nested some thousands deep. *)
From S2P Require Import Prelude PyText.

Inductive json :=
| JNull
| JBool (b : bool)
| JNumber
| JString (s : pystr)
| JArray (l : list json)
| JObject (d : list (pystr * json)).

Definition json_error {A} (msg : string) : result A := raise JSONDecodeError (py msg).

(** ** White space and literals *)
Fixpoint skip_ws (s : pystr) : pystr :=
  match s with
  | c :: s' => if existsb (Z.eqb c) [32; 9; 10; 13] then skip_ws s' else s
  | [] => []
  end.

Fixpoint strip_prefix (p s : pystr) : option pystr :=
  match p, s with
  | [], _ => Some s
  | a :: p, b :: s => if a =? b then strip_prefix p s else None
  | _ :: _, [] => None
  end.

(** The literals of the decoder, with their values. *)
Definition literals : list (pystr * json) :=
  [(py "null", JNull); (py "true", JBool true); (py "false", JBool false);
   (py "NaN", JNumber); (py "Infinity", JNumber); (py "-Infinity", JNumber)].

Definition read_literal (s : pystr) : option (json * pystr) :=
  match List.find (fun l => match strip_prefix l.1 s with Some _ => true | None => false end) literals with
  | Some (p, v) => match strip_prefix p s with Some rest => Some (v, rest) | None => None end
  | None => None
  end.

(** ** Numbers: an optional minus, an integer without leading zeros, an optional
    fraction, an optional exponent *)
Definition is_digit (c : Z) : bool := in_range 48 57 c.

(** The digits at the front, counted, and the rest. *)
Fixpoint read_digits (s : pystr) : Z * pystr :=
  match s with
  | c :: s' => if is_digit c then let '(n, rest) := read_digits s' in (n + 1, rest) else (0, s)
  | [] => (0, [])
  end.

(** An optional part that counts only with at least one digit. *)
Definition read_fraction (s : pystr) : option pystr :=
  match s with
  | 46 :: s => let '(n, rest) := read_digits s in if 0 <? n then Some rest else None
  | _ => None
  end.

Definition read_exponent (s : pystr) : option pystr :=
  match s with
  | c :: s =>
      if (c =? 101) || (c =? 69) then
        let s := match s with d :: s' => if (d =? 43) || (d =? 45) then s' else s | [] => [] end in
        let '(n, rest) := read_digits s in if 0 <? n then Some rest else None
      else None
  | [] => None
  end.

(** An integer of more than 4300 digits cannot be converted: a plain [ValueError]. *)
Definition read_number (s : pystr) : option (result (json * pystr)) :=
  let t := match s with 45 :: s => s | _ => s end in
  match t with
  | [] => None
  | c :: t' =>
      if negb (is_digit c) then None
      else
        let '(n, rest) := if c =? 48 then (1, t') else read_digits t in
        match read_fraction rest, read_exponent (default rest (read_fraction rest)) with
        | None, None =>
            Some (raise_if (4300 <? n) ValueError
                    (py "Exceeds the limit (4300 digits) for integer string conversion");;
                  Ok (JNumber, rest))
        | f, e => Some (Ok (JNumber, default (default rest f) e))
        end
  end.

(** ** Strings *)
Definition hex4 (s : pystr) : option (Z * pystr) :=
  match s with
  | a :: b :: c :: d :: rest =>
      match hex_value a, hex_value b, hex_value c, hex_value d with
      | Some a, Some b, Some c, Some d => Some (((a * 16 + b) * 16 + c) * 16 + d, rest)
      | _, _, _, _ => None
      end
  | _ => None
  end.

(** After [\u]: the code point, a surrogate pair joined. *)
Definition read_unicode (s : pystr) : option (Z * pystr) :=
  match hex4 s with
  | None => None
  | Some (u, rest) =>
      if in_range 0xD800 0xDBFF u then
        match rest with
        | 92 :: 117 :: rest' =>
            match hex4 rest' with
            | Some (v, rest'') =>
                if in_range 0xDC00 0xDFFF v
                then Some (0x10000 + ((u - 0xD800) * 1024 + (v - 0xDC00)), rest'')
                else Some (u, rest)
            | None => Some (u, rest)
            end
        | _ => Some (u, rest)
        end
      else Some (u, rest)
  end.

Definition escapes : list (Z * Z) :=
  [(34, 34); (92, 92); (47, 47); (98, 8); (102, 12); (110, 10); (114, 13); (116, 9)].

(** After the opening quote. *)
Fixpoint scan_string (fuel : nat) (s : pystr) : result (pystr * pystr) :=
  match fuel, s with
  | _, [] => json_error "Unterminated string starting at"
  | O, _ => json_error "Unterminated string starting at"
  | S fuel, c :: s =>
      if c =? 34 then Ok ([], s)
      else if c <=? 0x1F then json_error "Invalid control character at"
      else if c =? 92 then
        match s with
        | [] => json_error "Unterminated string starting at"
        | 117 :: s =>
            match read_unicode s with
            | None => json_error "Invalid \uXXXX escape"
            | Some (u, s) => r ← scan_string fuel s; Ok (u :: r.1, r.2)
            end
        | e :: s =>
            match List.find (fun p => p.1 =? e) escapes with
            | None => json_error "Invalid \escape: "
            | Some (_, v) => r ← scan_string fuel s; Ok (v :: r.1, r.2)
            end
        end
      else r ← scan_string fuel s; Ok (c :: r.1, r.2)
  end.

(** ** Values

    A later value of a key replaces the earlier one, in the earlier one's place. *)
Fixpoint object_set (k : pystr) (v : json) (d : list (pystr * json)) : list (pystr * json) :=
  match d with
  | [] => [(k, v)]
  | (k', v') :: d => if decide (k' = k) then (k, v) :: d else (k', v') :: object_set k v d
  end.

Fixpoint scan_value (fuel : nat) (s : pystr) : result (json * pystr) :=
  match fuel with
  | O => json_error "Expecting value"
  | S fuel =>
      match s with
      | 34 :: s => r ← scan_string (length s) s; Ok (JString r.1, r.2)
      | 123 :: s =>
          match skip_ws s with
          | 125 :: s => Ok (JObject [], s)
          | s => scan_members fuel s []
          end
      | 91 :: s =>
          match skip_ws s with
          | 93 :: s => Ok (JArray [], s)
          | s => scan_elements fuel s []
          end
      | _ =>
          match read_literal s, read_number s with
          | Some r, _ => Ok r
          | None, Some r => r
          | None, None => json_error "Expecting value"
          end
      end
  end
with scan_members (fuel : nat) (s : pystr) (d : list (pystr * json)) : result (json * pystr) :=
  match fuel with
  | O => json_error "Expecting value"
  | S fuel =>
      match s with
      | 34 :: s =>
          key ← scan_string (length s) s;
          match skip_ws key.2 with
          | 58 :: s =>
              v ← scan_value fuel (skip_ws s);
              let d := object_set key.1 v.1 d in
              match skip_ws v.2 with
              | 125 :: s => Ok (JObject d, s)
              | 44 :: s => scan_members fuel (skip_ws s) d
              | _ => json_error "Expecting ',' delimiter"
              end
          | _ => json_error "Expecting ':' delimiter"
          end
      | _ => json_error "Expecting property name enclosed in double quotes"
      end
  end
with scan_elements (fuel : nat) (s : pystr) (l : list json) : result (json * pystr) :=
  match fuel with
  | O => json_error "Expecting value"
  | S fuel =>
      v ← scan_value fuel s;
      let l := l ++ [v.1] in
      match skip_ws v.2 with
      | 93 :: s => Ok (JArray l, s)
      | 44 :: s => scan_elements fuel (skip_ws s) l
      | _ => json_error "Expecting ',' delimiter"
      end
  end.

(** [json.loads(s)].  Every level of nesting and every member uses up one character
    and at most two rounds. *)
Definition json_loads (s : pystr) : result json :=
  raise_if (match s with 0xFEFF :: _ => true | _ => false end) JSONDecodeError
    (py "Unexpected UTF-8 BOM (decode using utf-8-sig)");;
  r ← scan_value (2 * length s + 2) (skip_ws s);
  raise_if (negb (bool_decide (skip_ws r.2 = []))) JSONDecodeError (py "Extra data");;
  Ok r.1.

(** ** Checks against the interpreter *)
Definition quoted (s : string) : pystr := (fun c => if c =? 39 then 34 else c) <$> py s.

Example json_examples :
  json_loads (quoted " {'a' : 'h:1', 'b':[1,-0.5e+3,true,null], 'a':'x'} ") =
    Ok (JObject [(py "a", JString (py "x")); (py "b", JArray [JNumber; JNumber; JBool true; JNull])]) /\
  json_loads (quoted "'\ud83d\ude00\n\u0041\ud800'") = Ok (JString [0x1F600; 10; 65; 0xD800]) /\
  json_loads (quoted "{}") = Ok (JObject []) /\ json_loads (py "-Infinity") = Ok JNumber /\
  Forall (fun s => is_ok (json_loads (quoted s)) = false)
    ["{'a':1,}"; "[1,]"; "{a:1}"; "'a"; "01"; "1 2"; ""; "-"; "+1"; "'\x'"; "{'a' 1}"; "nul"; "1.e3"]%string.
Proof. split_and!; [vm_compute; reflexivity..|]. repeat constructor. Qed.
