(* ===== verification/JsonFuel.v ===== *)
(** * The JSON parser has enough rounds

    Every level of nesting and every member of an object or array consumes a
    character, so the rounds [json_loads] gives its parser are never used up:
    with any larger number it returns the same. *)
From S2P Require Import Prelude PyText PyStr Json.

(** ** What the readers leave is no longer than what they read *)
Definition shrinks (s : pystr) (r : result (json * pystr)) : Prop :=
  forall v, r = Ok v -> (length v.2 <= length s)%nat.

Lemma skip_ws_length s : (length (skip_ws s) <= length s)%nat.
Proof. induction s as [|c s IH]; cbn [skip_ws]; [done|]. destruct (existsb _ _); cbn [length]; lia. Qed.

Lemma strip_prefix_length p s rest : strip_prefix p s = Some rest -> (length rest <= length s)%nat.
Proof.
  revert s. induction p as [|a p IH]; intros [|b s]; cbn [strip_prefix]; try by intros [= <-].
  destruct (a =? b); [|done]. intros Hr%IH. cbn [length]. lia.
Qed.

Lemma read_literal_length s v rest : read_literal s = Some (v, rest) -> (length rest <= length s)%nat.
Proof.
  unfold read_literal. destruct (List.find _ _) as [[p w]|]; [|done].
  destruct (strip_prefix p s) as [r|] eqn:E; [|done]. intros [= _ <-]. by apply strip_prefix_length in E.
Qed.

Lemma read_digits_length s : (length (read_digits s).2 <= length s)%nat.
Proof.
  induction s as [|c s IH]; cbn [read_digits]; [done|]. destruct (is_digit c); [|done].
  destruct (read_digits s) as [n rest]. cbn [snd length] in *. lia.
Qed.

Ltac shrink := cbn [length snd] in *; lia.

Lemma read_fraction_length s rest : read_fraction s = Some rest -> (length rest <= length s)%nat.
Proof.
  unfold read_fraction. repeat (case_match; try done). intros [= <-].
  match goal with E : read_digits ?t = _ |- _ => pose proof (read_digits_length t) as Hl; rewrite E in Hl end.
  shrink.
Qed.

Lemma read_exponent_length s rest : read_exponent s = Some rest -> (length rest <= length s)%nat.
Proof.
  destruct s as [|c s]; cbn [read_exponent]; [done|]. destruct ((c =? 101) || (c =? 69)); [|done]. cbv zeta.
  match goal with |- context [read_digits ?u] =>
    assert (Ht : (length u <= length s)%nat) by (repeat case_match; shrink);
    pose proof (read_digits_length u) as Hl; destruct (read_digits u) as [n r] end.
  destruct (0 <? n); [|done]. intros [= <-]. shrink.
Qed.

Lemma read_number_shrinks s r : read_number s = Some r -> shrinks s r.
Proof.
  unfold read_number.
  assert (Ht : le (length (match s with 45 :: s => s | _ => s end)) (length s)) by (repeat case_match; shrink).
  revert Ht. generalize (match s with 45 :: s => s | _ => s end) as t. intros [|c t] Ht; [done|].
  destruct (negb (is_digit c)); [done|].
  assert (Hd : le (length (if c =? 48 then (1, t) else read_digits (c :: t)).2) (length (c :: t))).
  { destruct (c =? 48); [shrink|]. apply read_digits_length. }
  destruct (if c =? 48 then _ else _) as [n rest]. cbn [snd] in Hd.
  assert (Hf : (length (default rest (read_fraction rest)) <= length rest)%nat).
  { destruct (read_fraction rest) as [f|] eqn:Ef; [|done]. by apply read_fraction_length in Ef. }
  intros Hr v Hv. destruct (read_exponent _) as [e|] eqn:Ee; [apply read_exponent_length in Ee|];
    destruct (read_fraction rest) as [f|]; injection Hr as <-; cbn [default from_option] in *; unfold id in *;
    inv_ok; shrink.
Qed.

Lemma hex4_length s u rest : hex4 s = Some (u, rest) -> (length rest <= length s)%nat.
Proof. unfold hex4. repeat (case_match; try done). intros [= _ <-]. shrink. Qed.

Lemma read_unicode_length s u rest : read_unicode s = Some (u, rest) -> (length rest <= length s)%nat.
Proof.
  unfold read_unicode. destruct (hex4 s) as [[v t]|] eqn:E; [|done]. apply hex4_length in E.
  destruct (in_range _ _ v); [|by intros [= _ <-]].
  repeat (case_match; try by intros [= _ <-]).
  match goal with H : hex4 _ = Some _ |- _ => apply hex4_length in H end.
  intros [= _ <-]. shrink.
Qed.

Lemma scan_string_length fuel s r : scan_string fuel s = Ok r -> (length r.2 <= length s)%nat.
Proof.
  revert s r. induction fuel as [|fuel IH]; intros [|c s] r; cbn [scan_string]; try done.
  destruct (c =? 34); [by intros [= <-]; shrink|]. destruct (c <=? 0x1F); [done|].
  destruct (c =? 92); [|intros Hr; inv_ok; match goal with E : scan_string _ _ = Ok _ |- _ => apply IH in E end; shrink].
  destruct s as [|e s]; [done|].
  assert (Hother : forall t q, le (length t) (length s) ->
    (r ← scan_string fuel t; Ok (q :: r.1, r.2)) = Ok r -> (length r.2 <= length (c :: e :: s))%nat).
  { intros t q Ht Hr. inv_ok. match goal with E : scan_string _ _ = Ok _ |- _ => apply IH in E end. shrink. }
  repeat case_match; try done; apply Hother;
    try match goal with E : read_unicode _ = Some _ |- _ => apply read_unicode_length in E end; shrink.
Qed.

(** ** Values *)
Lemma shrinks_ok s v rest : (length rest <= length s)%nat -> shrinks s (Ok (v, rest)).
Proof. by intros Hl w [= <-]. Qed.

Lemma shrinks_error s msg : shrinks s (json_error msg).
Proof. done. Qed.

Lemma shrinks_weaken s t r : shrinks t r -> (length t <= length s)%nat -> shrinks s r.
Proof. intros Hr Hl v Hv. specialize (Hr v Hv). lia. Qed.

Lemma shrinks_bind {A} (m : result A) s (k : A -> result (json * pystr)) :
  (forall a, m = Ok a -> shrinks s (k a)) -> shrinks s (r ← m; k r).
Proof. intros Hk v Hv. destruct m as [a|]; [|done]. by apply (Hk a). Qed.

Create HintDb shrinking.
#[local] Hint Resolve shrinks_ok shrinks_error : shrinking.

(** ** The parser's steps, with the character looked for as a test *)
(** A match on the first character is settled by that character. *)
Ltac by_chars c :=
  destruct c as [|p|p]; try reflexivity;
  do 8 (try (destruct p as [p|p|]; try reflexivity)).

Lemma scan_value_step fuel s :
  scan_value (S fuel) s =
    match expect 34 s with
    | Some t => r ← scan_string (length t) t; Ok (JString r.1, r.2)
    | None =>
    match expect 123 s with
    | Some t => match expect 125 (skip_ws t) with
                | Some t => Ok (JObject [], t) | None => scan_members fuel (skip_ws t) [] end
    | None =>
    match expect 91 s with
    | Some t => match expect 93 (skip_ws t) with
                | Some t => Ok (JArray [], t) | None => scan_elements fuel (skip_ws t) [] end
    | None => match read_literal s, read_number s with
              | Some r, _ => Ok r | None, Some r => r | None, None => json_error "Expecting value" end
    end end end.
Proof.
  destruct s as [|c s]; [done|]. cbn [expect]. by_chars c.
  - cbn [scan_value Z.eqb Pos.eqb]. destruct (skip_ws s) as [|d t]; [done|]. cbn [expect]. by_chars d.
  - cbn [scan_value Z.eqb Pos.eqb]. destruct (skip_ws s) as [|d t]; [done|]. cbn [expect]. by_chars d.
Qed.

Lemma scan_members_step fuel s d :
  scan_members (S fuel) s d =
    match expect 34 s with
    | None => json_error "Expecting property name enclosed in double quotes"
    | Some t =>
        key ← scan_string (length t) t;
        match expect 58 (skip_ws key.2) with
        | None => json_error "Expecting ':' delimiter"
        | Some t =>
            v ← scan_value fuel (skip_ws t);
            match expect 125 (skip_ws v.2) with
            | Some t => Ok (JObject (object_set key.1 v.1 d), t)
            | None =>
            match expect 44 (skip_ws v.2) with
            | Some t => scan_members fuel (skip_ws t) (object_set key.1 v.1 d)
            | None => json_error "Expecting ',' delimiter"
            end end
        end
    end.
Proof.
  destruct s as [|c s]; [done|]. cbn [expect]. by_chars c. cbn [scan_members].
  cbn [Z.eqb Pos.eqb]. destruct (scan_string _ s) as [[k t]|]; [|done]. cbn [mbind result_bind fst snd].
  destruct (skip_ws t) as [|c u]; cbn [expect]; [done|]. by_chars c.
  cbn [Z.eqb Pos.eqb]. destruct (scan_value _ _) as [[v w]|]; [|done]. cbn [mbind result_bind fst snd].
  destruct (skip_ws w) as [|c x]; cbn [expect]; [done|]. by_chars c.
Qed.

Lemma scan_elements_step fuel s l :
  scan_elements (S fuel) s l =
    (v ← scan_value fuel s;
     match expect 93 (skip_ws v.2) with
     | Some t => Ok (JArray (l ++ [v.1]), t)
     | None =>
     match expect 44 (skip_ws v.2) with
     | Some t => scan_elements fuel (skip_ws t) (l ++ [v.1])
     | None => json_error "Expecting ',' delimiter"
     end end).
Proof.
  cbn [scan_elements]. destruct (scan_value _ _) as [[v w]|]; [|done]. cbn [mbind result_bind fst snd].
  destruct (skip_ws w) as [|c x]; cbn [expect]; [done|]. by_chars c.
Qed.

(** ** No part of the parser leaves more than it was given *)
Ltac read_lengths :=
  repeat match goal with
  | E : expect _ _ = Some _ |- _ => apply expect_length in E
  | E : scan_string _ _ = Ok _ |- _ => apply scan_string_length in E
  | E : read_literal _ = Some (_, _) |- _ => apply read_literal_length in E
  | _ : context [skip_ws ?t] |- _ =>
      lazymatch goal with H : (length (skip_ws t) <= _)%nat |- _ => fail | _ => pose proof (skip_ws_length t) end
  | |- context [skip_ws ?t] =>
      lazymatch goal with H : (length (skip_ws t) <= _)%nat |- _ => fail | _ => pose proof (skip_ws_length t) end
  end; cbn [fst snd] in *; lia.

Lemma scan_lengths fuel :
  (forall s, shrinks s (scan_value fuel s)) /\ (forall s d, shrinks s (scan_members fuel s d)) /\
  (forall s l, shrinks s (scan_elements fuel s l)).
Proof.
  induction fuel as [|fuel (IHv & IHm & IHe)]; [by split_and!|]. split_and!.
  - intros s. rewrite scan_value_step. repeat case_match; subst; auto with shrinking.
    + apply shrinks_bind. intros r Hr. apply shrinks_ok. read_lengths.
    + apply shrinks_ok. read_lengths.
    + eapply shrinks_weaken; [apply IHm|]. read_lengths.
    + apply shrinks_ok. read_lengths.
    + eapply shrinks_weaken; [apply IHe|]. read_lengths.
    + destruct p as [v rest]. apply shrinks_ok. read_lengths.
    + by apply read_number_shrinks.
  - intros s d. rewrite scan_members_step. repeat case_match; subst; auto with shrinking.
    apply shrinks_bind. intros key Hkey. repeat case_match; subst; auto with shrinking.
    apply shrinks_bind. intros v Hv. apply IHv in Hv. repeat case_match; subst; auto with shrinking.
    + apply shrinks_ok. read_lengths.
    + eapply shrinks_weaken; [apply IHm|]. read_lengths.
  - intros s l. rewrite scan_elements_step.
    apply shrinks_bind. intros v Hv. apply IHv in Hv. repeat case_match; subst; auto with shrinking.
    + apply shrinks_ok. read_lengths.
    + eapply shrinks_weaken; [apply IHe|]. read_lengths.
Qed.

Lemma scan_value_length fuel s r : scan_value fuel s = Ok r -> (length r.2 <= length s)%nat.
Proof. apply (scan_lengths fuel). Qed.

(** ** Rounds to spare change nothing *)
Lemma bind_ext_ok {A B} (m n : result A) (f g : A -> result B) :
  m = n -> (forall a, m = Ok a -> f a = g a) -> (x ← m; f x) = (x ← n; g x).
Proof. intros <- H. destruct m; [|done]. by apply H. Qed.

Lemma scan_rounds f : forall g,
  (forall s, (2 * length s < f)%nat -> (2 * length s < g)%nat -> scan_value f s = scan_value g s) /\
  (forall s d, (2 * length s < f)%nat -> (2 * length s < g)%nat -> scan_members f s d = scan_members g s d) /\
  (forall s l, (2 * length s + 1 < f)%nat -> (2 * length s + 1 < g)%nat -> scan_elements f s l = scan_elements g s l).
Proof.
  induction f as [|f IH]; [intros; split_and!; lia|].
  intros [|g]; [split_and!; lia|]. destruct (IH g) as (IHv & IHm & IHe). split_and!.
  - intros s Hf Hg. rewrite !scan_value_step. repeat case_match; subst; try done.
    + apply IHm; read_lengths.
    + apply IHe; read_lengths.
  - intros s d Hf Hg. rewrite !scan_members_step. case_match; [|done].
    apply bind_ext_ok; [done|]. intros key Hkey. case_match; [|done].
    apply bind_ext_ok; [apply IHv; read_lengths|]. intros v Hv. apply scan_value_length in Hv.
    repeat case_match; try done. apply IHm; read_lengths.
  - intros s l Hf Hg. rewrite !scan_elements_step.
    apply bind_ext_ok; [apply IHv; read_lengths|]. intros v Hv. apply scan_value_length in Hv.
    repeat case_match; try done. apply IHe; read_lengths.
Qed.

(** [json_loads] with any number of rounds for its parser. *)
Definition json_loads_with (rounds : nat) (s : pystr) : result json :=
  raise_if (match s with 0xFEFF :: _ => true | _ => false end) JSONDecodeError
    (py "Unexpected UTF-8 BOM (decode using utf-8-sig)");;
  r ← scan_value rounds (skip_ws s);
  raise_if (negb (bool_decide (skip_ws r.2 = []))) JSONDecodeError (py "Extra data");;
  Ok r.1.

(** The rounds [json_loads] gives its parser are never used up: with any larger
    number the answer, value or error, is the same. *)
Theorem json_loads_enough rounds s :
  (2 * length s + 2 <= rounds)%nat -> json_loads_with rounds s = json_loads s.
Proof.
  intros Hr. unfold json_loads_with, json_loads. pose proof (skip_ws_length s).
  by rewrite (proj1 (scan_rounds rounds (2 * length s + 2)) (skip_ws s)) by lia.
Qed.
