(* ===== verification/Base64.v ===== *)
(** * Base64 and checksums as text

    File contents cross the tool interface as Base64 ([base64.b64encode], and
    [base64.b64decode] with [validate=True], the strict mode of
    [binascii.a2b_base64] in Python 3.12), checksums as eight hexadecimal digits. *)
From S2P Require Import Prelude PyText PyStr.

(** ** The alphabet *)
Definition base64_alphabet : pystr :=
  py "ABCDEFGHIJKLMNOPQRSTUVWXYZabcdefghijklmnopqrstuvwxyz0123456789+/".

Definition base64_char (v : Z) : Z := nth (Z.to_nat v) base64_alphabet 0.

Fixpoint index_of (c : Z) (l : pystr) : option Z :=
  match l with
  | [] => None
  | d :: l => if d =? c then Some 0 else Z.succ <$> index_of c l
  end.

Definition base64_value (c : Z) : option Z := index_of c base64_alphabet.

(** ** [base64.b64encode(data).decode("ascii")] *)
Definition sextets1 (a : Z) : pystr := [base64_char (a / 4); base64_char (a mod 4 * 16); 61; 61].
Definition sextets2 (a b : Z) : pystr :=
  [base64_char (a / 4); base64_char (a mod 4 * 16 + b / 16); base64_char (b mod 16 * 4); 61].
Definition sextets3 (a b c : Z) : pystr :=
  [base64_char (a / 4); base64_char (a mod 4 * 16 + b / 16);
   base64_char (b mod 16 * 4 + c / 64); base64_char (c mod 64)].

Fixpoint b64encode (data : bytes) : pystr :=
  match data with
  | [] => []
  | [a] => sextets1 (b2z a)
  | [a; b] => sextets2 (b2z a) (b2z b)
  | a :: b :: c :: data => sextets3 (b2z a) (b2z b) (b2z c) ++ b64encode data
  end.

(** ** [base64.b64decode(s, validate=True)]

    The loop of [a2b_base64]: the position in the group of four, the bits left
    over, the pad characters counted so far and whether any has been seen.  Every
    error is a [binascii.Error], a subclass of [ValueError]. *)
Fixpoint a2b_base64 (quad_pos leftchar pads : Z) (padding_started : bool) (data : pystr) :
    result bytes :=
  match data with
  | [] =>
      raise_if (quad_pos =? 1) ValueError (py "Invalid base64-encoded string");;
      raise_if (negb (quad_pos =? 0)) ValueError (py "Incorrect padding");;
      Ok []
  | c :: data =>
      if c =? 61 then
        if 2 <=? quad_pos then
          if 4 <=? quad_pos + (pads + 1) then
            match data with [] => Ok [] | _ => raise ValueError (py "Excess data after padding") end
          else a2b_base64 quad_pos leftchar (pads + 1) true data
        else a2b_base64 quad_pos leftchar pads true data
      else
        match base64_value c with
        | None => raise ValueError (py "Only base64 data is allowed")
        | Some v =>
            if padding_started then raise ValueError (py "Discontinuous padding not allowed")
            else if quad_pos =? 0 then a2b_base64 1 v 0 padding_started data
            else if quad_pos =? 1 then
              out ← a2b_base64 2 (v mod 16) 0 padding_started data;
              Ok (z2b (leftchar * 4 + v / 16) :: out)
            else if quad_pos =? 2 then
              out ← a2b_base64 3 (v mod 4) 0 padding_started data;
              Ok (z2b (leftchar * 16 + v / 4) :: out)
            else
              out ← a2b_base64 0 0 0 padding_started data;
              Ok (z2b (leftchar * 64 + v) :: out)
        end
  end.

Definition b64decode (s : pystr) : result bytes :=
  raise_if (existsb (fun c => negb (in_range 0 127 c)) s) ValueError
    (py "string argument should contain only ASCII characters");;
  raise_if (match s with 61 :: _ => true | _ => false end) ValueError
    (py "Leading padding not allowed");;
  a2b_base64 0 0 0 false s.

(** ** [f"{n:08x}"]: zeros between the sign and the digits *)
Definition hex_of (width n : Z) : pystr :=
  hex_digits (Z.to_nat (Z.max width (Z.log2 n / 4 + 1))) n.

Definition hex08 (n : Z) : pystr := if n <? 0 then 45 :: hex_of 7 (- n) else hex_of 8 n.

(** ** Checks against the interpreter *)
Example b64decode_examples :
  b64decode (py "QR==") = Ok [x41] /\ b64decode (py "AAAA=") = Ok [x00; x00; x00] /\
  Forall (fun s => is_ok (b64decode (py s)) = false)
    ["AA=A"; "A==="; "A"; "AB="; "="; "AAA=AAAA"; "AA= ="; "AAA=="; "AAAA=AAA"; "AB=C"]%string.
Proof. split; [|split]; [vm_compute; reflexivity..|]. repeat constructor. Qed.

Example hex08_examples :
  hex08 0 = py "00000000" /\ hex08 0xDEADBEEF = py "deadbeef" /\ hex08 (-1) = py "-0000001" /\
  hex08 0x123456789 = py "123456789".
Proof. by vm_compute. Qed.

(** ** Round trip *)
Lemma base64_value_char v :
  0 <= v < 64 ->
  base64_value (base64_char v) = Some v /\ in_range 0 127 (base64_char v) = true /\
  (base64_char v =? 61) = false.
Proof.
  intros Hv.
  assert (H : forallb (fun v => bool_decide (base64_value (base64_char v) = Some v /\
    in_range 0 127 (base64_char v) = true /\ (base64_char v =? 61) = false)) (seqZ 0 64) = true)
    by (vm_compute; reflexivity).
  rewrite forallb_forall in H. apply (bool_decide_eq_true_1 _), H, list_elem_of_In, elem_of_seqZ. lia.
Qed.

(** One data character, decoded. *)
Lemma a2b_char q left pads v data : 0 <= v < 64 ->
  a2b_base64 q left pads false (base64_char v :: data) =
    if q =? 0 then a2b_base64 1 v 0 false data
    else if q =? 1 then
      out ← a2b_base64 2 (v mod 16) 0 false data; Ok (z2b (left * 4 + v / 16) :: out)
    else if q =? 2 then
      out ← a2b_base64 3 (v mod 4) 0 false data; Ok (z2b (left * 16 + v / 4) :: out)
    else out ← a2b_base64 0 0 0 false data; Ok (z2b (left * 64 + v) :: out).
Proof. intros (Hv & _ & Hp)%base64_value_char. cbn [a2b_base64]. by rewrite Hp, Hv. Qed.

Lemma z2b_eq x b : x = b2z b -> z2b x = b.
Proof. intros ->. apply z2b_b2z. Qed.

Ltac euclid := Z.to_euclidean_division_equations; lia.

(** The decoder's state between groups of four characters. *)
Lemma a2b_group a b c out data :
  a2b_base64 0 0 0 false data = Ok out ->
  a2b_base64 0 0 0 false (sextets3 (b2z a) (b2z b) (b2z c) ++ data) = Ok (a :: b :: c :: out).
Proof.
  intros IH. pose proof (b2z_range a). pose proof (b2z_range b). pose proof (b2z_range c).
  unfold sextets3. cbn [app].
  rewrite !a2b_char by euclid. cbn [Z.eqb Pos.eqb].
  rewrite IH. cbn [mbind result_bind].
  by rewrite (z2b_eq _ a), (z2b_eq _ b), (z2b_eq _ c) by euclid.
Qed.

Lemma a2b_b64encode data : a2b_base64 0 0 0 false (b64encode data) = Ok data.
Proof.
  remember (length data) as n eqn:Hn. revert data Hn.
  induction (lt_wf n) as [n _ IH]. intros data ->.
  destruct data as [|a [|b [|c data]]]; cbn [b64encode].
  - done.
  - pose proof (b2z_range a). unfold sextets1.
    rewrite !a2b_char by euclid.
    cbn -[Z.div Z.modulo]. by rewrite (z2b_eq _ a) by euclid.
  - pose proof (b2z_range a). pose proof (b2z_range b). unfold sextets2.
    rewrite !a2b_char by euclid.
    cbn -[Z.div Z.modulo]. by rewrite (z2b_eq _ a), (z2b_eq _ b) by euclid.
  - apply a2b_group. apply (IH (length data)); simpl; [lia|done].
Qed.

Lemma b64encode_ascii data : Forall (fun c => in_range 0 127 c = true) (b64encode data).
Proof.
  remember (length data) as n eqn:Hn. revert data Hn.
  induction (lt_wf n) as [n _ IH]. intros data ->.
  assert (H : forall v, 0 <= v < 64 -> in_range 0 127 (base64_char v) = true)
    by (intros v Hv; apply base64_value_char, Hv).
  destruct data as [|a [|b [|c data]]]; cbn [b64encode]; unfold sextets1, sextets2, sextets3;
    cbn [app]; repeat match goal with |- context [b2z ?x] =>
      lazymatch goal with _ : 0 <= b2z x < 256 |- _ => fail | _ => pose proof (b2z_range x) end end;
    repeat (apply Forall_cons; split;
      [first [reflexivity | apply H; euclid]|]);
    [constructor..|]. apply (IH (length data)); simpl; [lia|done].
Qed.

(** Decoding what was encoded gives the bytes back. *)
Lemma b64decode_b64encode data : b64decode (b64encode data) = Ok data.
Proof.
  unfold b64decode. pose proof (b64encode_ascii data) as Ha. pose proof (a2b_b64encode data) as Hd.
  rewrite (raise_if_false (existsb _ _)).
  2:{ apply existsb_false_Forall. eapply Forall_impl; [exact Ha|]. by intros c ->. }
  cbn [mbind result_bind]. rewrite raise_if_false; [done|].
  destruct (b64encode data) as [|c s] eqn:E; [done|].
  destruct data as [|a [|b [|d data]]]; cbn [b64encode] in E; [done|..].
  all: unfold sextets1, sextets2, sextets3 in E; cbn [app] in E; injection E as <- _.
  all: pose proof (b2z_range a).
  all: assert (0 <= b2z a / 4 < 64) as (_ & _ & Hp)%base64_value_char
    by euclid.
  all: apply Z.eqb_neq in Hp; repeat case_match; congruence.
Qed.

Lemma a2b_raises q left pads p s : raises (.= ValueError) (a2b_base64 q left pads p s).
Proof.
  revert q left pads p. induction s as [|c s IH]; intros; cbn [a2b_base64].
  - repeat (apply raises_bind; [by apply raises_raise_if|intros _ _]). done.
  - repeat case_match; try done; try apply IH; apply raises_bind; try done; apply IH.
Qed.

Lemma b64decode_raises s : raises (.= ValueError) (b64decode s).
Proof.
  unfold b64decode. repeat (apply raises_bind; [by apply raises_raise_if|intros _ _]).
  apply a2b_raises.
Qed.

(** Four characters for every three bytes begun. *)
Lemma len_b64encode data : len (b64encode data) = 4 * ((len data + 2) / 3).
Proof.
  remember (length data) as n eqn:Hn. revert data Hn.
  induction (lt_wf n) as [n _ IH]. intros data ->.
  destruct data as [|a [|b [|c data]]]; [done..|].
  change (b64encode (a :: b :: c :: data)) with (sextets3 (b2z a) (b2z b) (b2z c) ++ b64encode data).
  rewrite len_app, (IH (length data)) by (simpl; lia || done). unfold sextets3, len. cbn [length].
  rewrite !Nat2Z.inj_succ.
  replace (Z.succ (Z.succ (Z.succ (Z.of_nat (length data)))) + 2) with (Z.of_nat (length data) + 2 + 1 * 3) by lia.
  rewrite Z.div_add by lia. lia.
Qed.
