(* ===== verification/Sha256.v ===== *)
(** * [hashlib.sha256]

    The standard library's SHA-256, which the program uses to derive packet
    keys from passphrases (FIPS 180-4): padding, message schedule,
    compression. *)
From S2P Require Import Prelude Crc PyText.

Definition add32 (a b : Z) : Z := Z.land (a + b) 0xFFFFFFFF.
Definition rotr32 (x n : Z) : Z :=
  Z.land (Z.lor (Z.shiftr x n) (Z.shiftl x (32 - n))) 0xFFFFFFFF.

(** The constants as FIPS 180-4 describes them: the first 32 bits of the
    fractional parts of the cube roots of the first 64 primes, and of the
    square roots of the first eight.  [int_root e n] is the integer [e]-th root
    of [n < 2 ^ (35 e)], built from its high bit downwards. *)
Definition int_root (e n : Z) : Z :=
  foldl (fun r b => if (r + 2 ^ b) ^ e <=? n then r + 2 ^ b else r) 0
    (reverse (seqZ 0 35)).
Definition is_prime (p : Z) : bool :=
  forallb (fun d => negb (p mod d =? 0)) (seqZ 2 (p - 2)).
Definition first_primes : list Z := List.filter is_prime (seqZ 2 310).
Definition root_fraction (e p : Z) : Z := int_root e (p * 2 ^ (32 * e)) mod 2 ^ 32.

Definition sha256_k : list Z :=
  Eval vm_compute in root_fraction 3 <$> first_primes.
Definition sha256_h0 : list Z :=
  Eval vm_compute in root_fraction 2 <$> take 8 first_primes.

(** Big-endian integers. *)
Fixpoint be_bytes (n : nat) (z : Z) : bytes :=
  match n with O => [] | S n => z2b (z / 256 ^ Z.of_nat n) :: be_bytes n z end.
Definition be_int (bs : bytes) : Z := foldl (fun a b => a * 256 + b2z b) 0 bs.

Definition sha256_pad (data : bytes) : bytes :=
  data ++ [x80] ++ replicate (Z.to_nat ((55 - len data) mod 64)) x00 ++ be_bytes 8 (8 * len data).

Definition big_sigma0 x := Z.lxor (Z.lxor (rotr32 x 2) (rotr32 x 13)) (rotr32 x 22).
Definition big_sigma1 x := Z.lxor (Z.lxor (rotr32 x 6) (rotr32 x 11)) (rotr32 x 25).
Definition small_sigma0 x := Z.lxor (Z.lxor (rotr32 x 7) (rotr32 x 18)) (Z.shiftr x 3).
Definition small_sigma1 x := Z.lxor (Z.lxor (rotr32 x 17) (rotr32 x 19)) (Z.shiftr x 10).
Definition ch32 x y z := Z.lxor (Z.land x y) (Z.land (Z.lxor x 0xFFFFFFFF) z).
Definition maj32 x y z := Z.lxor (Z.lxor (Z.land x y) (Z.land x z)) (Z.land y z).

(** The schedule, kept as its last sixteen words, newest first. *)
Fixpoint sha256_schedule (n : nat) (w : list Z) : list Z :=
  match n with
  | O => []
  | S n =>
      let x := add32 (add32 (small_sigma1 (nth 1 w 0)) (nth 6 w 0))
                     (add32 (small_sigma0 (nth 14 w 0)) (nth 15 w 0)) in
      x :: sha256_schedule n (take 16 (x :: w))
  end.

Definition sha256_round (s : list Z) (kw : Z * Z) : list Z :=
  match s with
  | [a; b; c; d; e; f; g; h] =>
      let t1 := add32 (add32 h (add32 (big_sigma1 e) (ch32 e f g))) (add32 kw.1 kw.2) in
      let t2 := add32 (big_sigma0 a) (maj32 a b c) in
      [add32 t1 t2; a; b; c; add32 d t1; e; f; g]
  | _ => s
  end.

Definition sha256_block (h : list Z) (block : bytes) : list Z :=
  let w := be_int <$> chunks 4 block in
  let ws := w ++ sha256_schedule 48 (reverse w) in
  zip_with add32 h (foldl sha256_round h (zip sha256_k ws)).

(** [hashlib.sha256(data).digest()] *)
Definition sha256 (data : bytes) : bytes :=
  concat (be_bytes 4 <$> foldl sha256_block sha256_h0 (chunks 64 (sha256_pad data))).

Lemma length_be_bytes n z : length (be_bytes n z) = n.
Proof. induction n; simpl; auto. Qed.

Lemma sha256_round_length s kw : length s = 8%nat -> length (sha256_round s kw) = 8%nat.
Proof. by destruct s as [|? [|? [|? [|? [|? [|? [|? [|? [|]]]]]]]]]. Qed.

Lemma sha256_block_length h block : length h = 8%nat -> length (sha256_block h block) = 8%nat.
Proof.
  intros Hh. unfold sha256_block. rewrite length_zip_with, Hh.
  generalize (zip sha256_k ((be_int <$> chunks 4 block) ++
    sha256_schedule 48 (reverse (be_int <$> chunks 4 block)))). intros kws.
  assert (H : length (foldl sha256_round h kws) = 8%nat); [|by rewrite H].
  revert h Hh. induction kws as [|kw kws IH]; intros h Hh; simpl; [done|].
  by apply IH, sha256_round_length.
Qed.

Lemma length_sha256 data : length (sha256 data) = 32%nat.
Proof.
  unfold sha256. generalize (chunks 64 (sha256_pad data)). intros blocks.
  assert (H : length (foldl sha256_block sha256_h0 blocks) = 8%nat).
  { assert (Hh : length sha256_h0 = 8%nat) by done. revert Hh. generalize sha256_h0.
    induction blocks as [|b bs IH]; intros h Hh; simpl; [done|].
    by apply IH, sha256_block_length. }
  destruct (foldl _ _ _) as [|? [|? [|? [|? [|? [|? [|? [|? [|]]]]]]]]]; done.
Qed.

Example sha256_abc :
  bytes_hex (sha256 (ascii_bytes "abc")) =
  py "ba7816bf8f01cfea414140de5dae2223b00361a396177a9cb410ff61f20015ad".
Proof. vm_compute. reflexivity. Qed.
