(* ===== verification/Crypto.v ===== *)
(** * Packet authentication and key derivation ([protocol/crypto.py])

    Credential parsing, XTEA session-key derivation, the Speck32/64 CBC-MAC and
    tag comparison.  Every routine is executable on concrete keys and data; the
    lemmas show that both block ciphers are injective for each key, from which
    the MAC detects any change confined to one of its blocks and session keys
    of different nonces differ. *)
From S2P Require Import Prelude Struct Crc PyText Sha256.

(** ** Credentials *)
Definition _BLOCK : list field := Eval vm_compute in Struct "<II".
Definition _KEY : list field := Eval vm_compute in Struct "<IIII".
Definition _SPECK_BLOCK : list field := Eval vm_compute in Struct "<HH".
Definition _SPECK_KEY : list field := Eval vm_compute in Struct "<HHHH".
Definition _MASK : Z := 0xFFFFFFFF.
Definition _MASK16 : Z := 0xFFFF.
Definition _DELTA : Z := 0x9E3779B9.
Definition _PASSWORD_DOMAIN : bytes := ascii_bytes "DOS-MCP credential v1" ++ [x00].
Definition _OPEN_MODE_DOMAIN : bytes := ascii_bytes "DOS-MCP open mode v1" ++ [x00].
Definition OPEN_MODE_KEY : bytes := take 16 (sha256 _OPEN_MODE_DOMAIN).

Definition parse_key (value : pystr) : result bytes :=
  raise_if (negb (len value =? 32) || negb (forallb is_hex_digit value)) ValueError
    (py "protocol key must be exactly 32 hexadecimal characters");;
  key ← bytes_fromhex value;
  raise_if (forallb (fun b => b2z b =? 0) key) ValueError
    (py "protocol key must not be all zeroes");;
  Ok key.

Definition derive_password_key (password : pystr) : result bytes :=
  raise_if (len password =? 0) ValueError (py "protocol password must not be empty");;
  encoded ← utf8_encode password;
  Ok (take 16 (sha256 (_PASSWORD_DOMAIN ++ encoded))).

Definition starts_with (prefix s : pystr) : bool := bool_decide (take (length prefix) s = prefix).

Definition credential_key (value : option pystr) : result bytes :=
  match value with
  | None => Ok OPEN_MODE_KEY
  | Some value =>
      if bool_decide (value = py "-") then Ok OPEN_MODE_KEY
      else if starts_with (py "key:") value then parse_key (drop 4 value)
      else if starts_with (py "pass:") value then derive_password_key (drop 5 value)
      else if (len value =? 32) && int16_ok value then parse_key value
      else derive_password_key value
  end.

(** ** XTEA *)

(** One round of the loop: the state is [(left_, right_, total)]. *)
Definition xtea_round (words : list Z) (s : Z * Z * Z) : Z * Z * Z :=
  let '(left_, right_, total) := s in
  let left_ := Z.land
    (left_ + Z.lxor (Z.lxor (Z.shiftl right_ 4) (Z.shiftr right_ 5) + right_)
                   (total + nth (Z.to_nat (Z.land total 3)) words 0)) _MASK in
  let total := Z.land (total + _DELTA) _MASK in
  let right_ := Z.land
    (right_ + Z.lxor (Z.lxor (Z.shiftl left_ 4) (Z.shiftr left_ 5) + left_)
                    (total + nth (Z.to_nat (Z.land (Z.shiftr total 11) 3)) words 0)) _MASK in
  (left_, right_, total).

Fixpoint xtea_rounds (n : nat) (words : list Z) (s : Z * Z * Z) : Z * Z * Z :=
  match n with O => s | S n => xtea_rounds n words (xtea_round words s) end.

Definition xtea_encrypt (block key : bytes) : result bytes :=
  raise_if (negb (len block =? 8) || negb (len key =? 16)) ValueError
    (py "XTEA requires an 8-byte block and 16-byte key");;
  '⟨left_, right_⟩ ← unpack _BLOCK block;
  '⟨w0, w1, w2, w3⟩ ← unpack _KEY key;
  let s := xtea_rounds 32 [w0; w1; w2; w3] (left_, right_, 0) in
  pack _BLOCK ⟨s.1.1, s.1.2⟩.

Definition derive_session_key (key : bytes) (client_nonce server_nonce : Z) : result bytes :=
  first ← pack _BLOCK ⟨Z.land client_nonce _MASK, Z.land server_nonce _MASK⟩;
  second ← pack _BLOCK ⟨Z.lxor server_nonce 0xA5A5A5A5, Z.lxor client_nonce 0x5A5A5A5A⟩;
  a ← xtea_encrypt first key;
  b ← xtea_encrypt second key;
  Ok (a ++ b).

(** ** Speck32/64 *)
Definition _ror16 (value count : Z) : Z :=
  Z.land (Z.lor (Z.shiftr value count) (Z.shiftl value (16 - count))) _MASK16.
Definition _rol16 (value count : Z) : Z :=
  Z.land (Z.lor (Z.shiftl value count) (Z.shiftr value (16 - count))) _MASK16.

(** The loop's variables. *)
Record speck_state := SpeckState {
  sp_left : Z; sp_right : Z; sp_round_key : Z; sp_schedule : list Z }.

Definition speck_round (s : speck_state) (round_index : Z) : speck_state :=
  let left_ := Z.lxor (Z.land (_ror16 (sp_left s) 7 + sp_right s) _MASK16) (sp_round_key s) in
  let right_ := Z.lxor (_rol16 (sp_right s) 2) left_ in
  if negb (round_index =? 21) then
    let slot := Z.to_nat (round_index mod 3) in
    let next_word :=
      Z.lxor (Z.land (_ror16 (nth slot (sp_schedule s) 0) 7 + sp_round_key s) _MASK16)
             round_index in
    SpeckState left_ right_ (Z.lxor (_rol16 (sp_round_key s) 2) next_word)
      (<[slot := next_word]> (sp_schedule s))
  else SpeckState left_ right_ (sp_round_key s) (sp_schedule s).

Definition _speck32_encrypt (block key : bytes) : result bytes :=
  raise_if (negb (len block =? 4) || negb (len key =? 8)) ValueError
    (py "Speck32/64 requires a 4-byte block and 8-byte key");;
  '⟨left_, right_⟩ ← unpack _SPECK_BLOCK block;
  '⟨k0, k1, k2, k3⟩ ← unpack _SPECK_KEY key;
  let s := foldl speck_round (SpeckState left_ right_ k0 [k1; k2; k3]) (seqZ 0 22) in
  pack _SPECK_BLOCK ⟨sp_left s, sp_right s⟩.

(** ** The packet MAC *)

(** [data], the byte [0x80], zeroes up to a multiple of four, the length. *)
Definition mac_pad (data : bytes) : result bytes :=
  let padded := data ++ [x80] in
  let padded := padded ++ replicate (Z.to_nat ((4 - len padded mod 4) mod 4)) x00 in
  size ← pack [FI] ⟨len data⟩;
  Ok (padded ++ size).

Definition xor_bytes (a b : bytes) : bytes :=
  zip_with (fun x y => z2b (Z.lxor (b2z x) (b2z y))) a b.

(** The CBC loop over the four-byte blocks. *)
Definition cbc_chain (key state : bytes) (blocks : list bytes) : result bytes :=
  fold_result (fun state b => _speck32_encrypt (xor_bytes state b) key) state blocks.

Definition packet_mac (data key : bytes) : result Z :=
  raise_if (negb (len key =? 16)) ValueError (py "packet MAC requires a 16-byte key");;
  padded ← mac_pad data;
  state ← cbc_chain (take 8 key) (replicate 4 x00) (chunks 4 padded);
  state ← _speck32_encrypt state (drop 8 key);
  '⟨tag⟩ ← unpack [FI] state;
  Ok tag.

(** [hmac.compare_digest] of the two packed tags. *)
Definition tags_equal (left_ right_ : Z) : result bool :=
  a ← pack [FI] ⟨left_⟩; b ← pack [FI] ⟨right_⟩; Ok (bool_decide (a = b)).

(** ** Test vectors of the repository *)
Definition hex (s : string) : bytes := match bytes_fromhex (py s) with Ok b => b | Err _ => [] end.
Definition TEST_KEY : bytes := hex "000102030405060708090a0b0c0d0e0f".

Example xtea_vector :
  xtea_encrypt (hex "0011223344556677") TEST_KEY = Ok (hex "93009913e1c4f785").
Proof. vm_compute. reflexivity. Qed.

Example open_mode_key_vector : OPEN_MODE_KEY = hex "b151cb0f3cdc527f03ed9aa537136ade".
Proof. vm_compute. reflexivity. Qed.

Example password_vector :
  derive_password_key (py "correct horse battery staple") =
  Ok (hex "caa789fd210bf861dd7568249c843518").
Proof. vm_compute. reflexivity. Qed.

Example packet_mac_vector :
  packet_mac (hex "444d0201020034127856000106009259" ++ ascii_bytes "status") TEST_KEY
  = Ok (le_int (hex "b7707354")).
Proof. vm_compute. reflexivity. Qed.

(** ** Rotations permute the 16-bit words *)
Definition word16 (z : Z) : Prop := 0 <= z < 2 ^ 16.
Definition word32 (z : Z) : Prop := 0 <= z < 2 ^ 32.

Lemma mask16_word a : word16 (Z.land a _MASK16).
Proof. apply land_mask16_range. Qed.
Lemma mask32_word a : word32 (Z.land a _MASK).
Proof. apply land_mask32_range. Qed.
Lemma lxor_word16 a b : word16 a -> word16 b -> word16 (Z.lxor a b).
Proof. apply (lxor_range 16). lia. Qed.
#[export] Hint Resolve mask16_word mask32_word lxor_word16 : word.

Lemma word16_bits a i : word16 a -> 16 <= i -> Z.testbit a i = false.
Proof. intros [_ H]%word_bits Hi; [by apply H|lia]. Qed.

Lemma word16_ext a b :
  word16 a -> word16 b -> (forall i, 0 <= i < 16 -> Z.testbit a i = Z.testbit b i) -> a = b.
Proof.
  intros Ha Hb H. apply Z.bits_inj'. intros i Hi.
  destruct (Z.lt_ge_cases i 16); [by apply H|]. by rewrite !word16_bits.
Qed.

Lemma mask16_testbit a i : 0 <= i < 16 -> Z.testbit (Z.land a _MASK16) i = Z.testbit a i.
Proof.
  intros Hi. rewrite Z.land_spec. change _MASK16 with (Z.ones 16).
  rewrite Z.ones_spec_low by lia. apply andb_true_r.
Qed.

Lemma ror16_testbit a n i :
  word16 a -> 0 < n < 16 -> 0 <= i < 16 ->
  Z.testbit (_ror16 a n) i = Z.testbit a ((i + n) mod 16).
Proof.
  intros Ha Hn Hi. unfold _ror16.
  rewrite mask16_testbit, Z.lor_spec, Z.shiftr_spec, Z.shiftl_spec by lia.
  destruct (Z.lt_ge_cases (i + n) 16).
  - rewrite Z.mod_small, (Z.testbit_neg_r a (i - (16 - n))), orb_false_r by lia. done.
  - rewrite (word16_bits a (i + n)) by (done || lia). simpl. f_equal.
    apply (Z.mod_unique _ _ 1); lia.
Qed.

Lemma rol16_testbit a n i :
  word16 a -> 0 < n < 16 -> 0 <= i < 16 ->
  Z.testbit (_rol16 a n) i = Z.testbit a ((i - n) mod 16).
Proof.
  intros Ha Hn Hi. unfold _rol16.
  rewrite mask16_testbit, Z.lor_spec, Z.shiftr_spec, Z.shiftl_spec by lia.
  destruct (Z.lt_ge_cases i n).
  - rewrite (Z.testbit_neg_r a (i - n)) by lia. simpl. f_equal.
    apply (Z.mod_unique _ _ (-1)); lia.
  - rewrite (word16_bits a (i + (16 - n))), orb_false_r by (done || lia).
    by rewrite Z.mod_small by lia.
Qed.

Lemma rol16_ror16 a n : word16 a -> 0 < n < 16 -> _rol16 (_ror16 a n) n = a.
Proof.
  intros Ha Hn. apply word16_ext; [apply mask16_word|done|]. intros i Hi.
  rewrite rol16_testbit, ror16_testbit;
    try done; try apply mask16_word; try (apply Z.mod_pos_bound; lia).
  f_equal. rewrite Z.add_mod_idemp_l by lia. rewrite Z.mod_small; lia.
Qed.

Lemma ror16_rol16 a n : word16 a -> 0 < n < 16 -> _ror16 (_rol16 a n) n = a.
Proof.
  intros Ha Hn. apply word16_ext; [apply mask16_word|done|]. intros i Hi.
  rewrite ror16_testbit, rol16_testbit;
    try done; try apply mask16_word; try (apply Z.mod_pos_bound; lia).
  f_equal.
  replace ((i + n) mod 16 - n) with (i + (-((i + n) / 16)) * 16)
    by (pose proof (Z.div_mod (i + n) 16); lia).
  rewrite Z.mod_add by lia. rewrite Z.mod_small; lia.
Qed.

Lemma ror16_inj a b n :
  word16 a -> word16 b -> 0 < n < 16 -> _ror16 a n = _ror16 b n -> a = b.
Proof. intros ??? H. by rewrite <- (rol16_ror16 a n), <- (rol16_ror16 b n), H. Qed.
Lemma rol16_inj a b n :
  word16 a -> word16 b -> 0 < n < 16 -> _rol16 a n = _rol16 b n -> a = b.
Proof. intros ??? H. by rewrite <- (ror16_rol16 a n), <- (ror16_rol16 b n), H. Qed.

(** Adding the same amount modulo [2 ^ n] is injective on words. *)
Lemma add_mask16_inj a b c :
  word16 a -> word16 b -> Z.land (a + c) _MASK16 = Z.land (b + c) _MASK16 -> a = b.
Proof.
  unfold word16, _MASK16. rewrite !land_mask16. intros Ha Hb H.
  pose proof (Z.div_mod (a + c) 65536). pose proof (Z.div_mod (b + c) 65536). lia.
Qed.
Lemma add_mask32_inj a b c :
  word32 a -> word32 b -> Z.land (a + c) _MASK = Z.land (b + c) _MASK -> a = b.
Proof.
  unfold word32, _MASK. rewrite !land_mask32. intros Ha Hb H.
  pose proof (Z.div_mod (a + c) 4294967296). pose proof (Z.div_mod (b + c) 4294967296). lia.
Qed.

(** ** Speck32 is a permutation for each key *)
Definition speck_ok (s : speck_state) : Prop :=
  word16 (sp_left s) /\ word16 (sp_right s) /\ word16 (sp_round_key s) /\
  Forall word16 (sp_schedule s).

Lemma nth_word16 n l : Forall word16 l -> word16 (nth n l 0).
Proof.
  intros Hl. destruct (nth_in_or_default n l 0) as [Hin|E]; [|rewrite E; by split].
  rewrite Forall_forall in Hl. apply Hl. by apply list_elem_of_In.
Qed.

Lemma speck_round_ok s i : 0 <= i < 22 -> speck_ok s -> speck_ok (speck_round s i).
Proof.
  intros Hi (Hl & Hr & Hk & Hs). unfold speck_round.
  assert (Hl' : word16 (Z.lxor (Z.land (_ror16 (sp_left s) 7 + sp_right s) _MASK16)
                          (sp_round_key s))) by auto with word.
  assert (Hi' : word16 i) by (unfold word16; lia).
  destruct (negb (i =? 21)); unfold speck_ok; cbn [sp_left sp_right sp_round_key sp_schedule];
    split_and!; try apply lxor_word16; try apply mask16_word; try done;
    try apply Forall_insert; try apply lxor_word16; auto with word.
Qed.

Lemma speck_rounds_ok s n :
  (n <= 22)%nat -> speck_ok s -> speck_ok (foldl speck_round s (seqZ 0 (Z.of_nat n))).
Proof.
  intros Hn Hs. induction n as [|n IH]; [done|].
  replace (Z.of_nat (S n)) with (Z.of_nat n + 1) by lia.
  rewrite seqZ_app, foldl_app by lia. simpl.
  apply speck_round_ok; [lia|]. apply IH. lia.
Qed.

(** Two runs with the same key stay in step, and each round is injective. *)
Lemma speck_round_inj s t i :
  speck_ok s -> speck_ok t ->
  sp_round_key s = sp_round_key t -> sp_schedule s = sp_schedule t ->
  sp_left (speck_round s i) = sp_left (speck_round t i) ->
  sp_right (speck_round s i) = sp_right (speck_round t i) ->
  sp_left s = sp_left t /\ sp_right s = sp_right t.
Proof.
  intros (Hsl & Hsr & _) (Htl & Htr & _) Hk Hsch. unfold speck_round.
  destruct (negb (i =? 21)); cbn [sp_left sp_right]; intros HL HR; rewrite HL in HR;
    apply lxor_cancel_r, rol16_inj in HR; try done; try lia;
    rewrite HR, Hk in HL; apply lxor_cancel_r, add_mask16_inj, ror16_inj in HL;
    try apply mask16_word; done || lia.
Qed.

Lemma speck_round_key_step s t i :
  sp_round_key s = sp_round_key t -> sp_schedule s = sp_schedule t ->
  sp_round_key (speck_round s i) = sp_round_key (speck_round t i) /\
  sp_schedule (speck_round s i) = sp_schedule (speck_round t i).
Proof. intros Hk Hs. unfold speck_round. rewrite Hk, Hs. by destruct (negb (i =? 21)). Qed.

Lemma speck_rounds_inj s t l :
  Forall (fun i => 0 <= i < 22) l ->
  speck_ok s -> speck_ok t ->
  sp_round_key s = sp_round_key t -> sp_schedule s = sp_schedule t ->
  sp_left (foldl speck_round s l) = sp_left (foldl speck_round t l) ->
  sp_right (foldl speck_round s l) = sp_right (foldl speck_round t l) ->
  sp_left s = sp_left t /\ sp_right s = sp_right t.
Proof.
  intros Hl. revert s t. induction Hl as [|i l Hi _ IH]; intros s t Hs Ht Hk Hsch HL HR; [done|].
  simpl in HL, HR. destruct (speck_round_key_step s t i Hk Hsch) as [Hk' Hsch'].
  apply IH in HL as [HL' HR']; try done; try by apply speck_round_ok.
  by eapply speck_round_inj.
Qed.

(** The state the loop starts from, and what the function packs from its result. *)
Definition speck_start (block key : bytes) : speck_state :=
  let b := unpack_raw _SPECK_BLOCK block in
  let k := unpack_raw _SPECK_KEY key in
  SpeckState b.1 b.2.1 k.1 [k.2.1; k.2.2.1; k.2.2.2.1].

Lemma speck_start_ok block key :
  length block = 4%nat -> length key = 8%nat -> speck_ok (speck_start block key).
Proof.
  intros Hb Hk.
  destruct (pack_unpack_raw _SPECK_BLOCK block) as [Hfb _]; [by rewrite Hb|].
  destruct (pack_unpack_raw _SPECK_KEY key) as [Hfk _]; [by rewrite Hk|].
  destruct Hfb as (? & ? & _), Hfk as (? & ? & ? & ? & _).
  split_and!; try done. cbn [speck_start sp_schedule].
  repeat first [apply Forall_cons_2 | apply Forall_nil_2]; done.
Qed.

Lemma speck32_eq block key :
  length block = 4%nat -> length key = 8%nat ->
  let s := foldl speck_round (speck_start block key) (seqZ 0 22) in
  _speck32_encrypt block key = pack _SPECK_BLOCK ⟨sp_left s, sp_right s⟩.
Proof.
  intros Hb Hk. unfold _speck32_encrypt.
  rewrite (len_neqb block 4), (len_neqb key 8) by (unfold len; lia).
  rewrite !unpack_exact by done. unfold speck_start. cbn [orb raise_if mbind result_bind].
  destruct (unpack_raw _SPECK_BLOCK block) as (l & r & []).
  destruct (unpack_raw _SPECK_KEY key) as (k0 & k1 & k2 & k3 & []). reflexivity.
Qed.

Lemma speck32_total block key :
  length block = 4%nat -> length key = 8%nat ->
  exists c, _speck32_encrypt block key = Ok c /\ length c = 4%nat.
Proof.
  intros Hb Hk. rewrite speck32_eq by done. cbv zeta.
  pose proof (speck_rounds_ok _ 22 ltac:(lia) (speck_start_ok block key Hb Hk)) as Hok.
  change (Z.of_nat 22) with 22 in Hok. revert Hok.
  generalize (foldl speck_round (speck_start block key) (seqZ 0 22)). intros s (? & ? & _).
  destruct (pack_fits _SPECK_BLOCK ⟨sp_left s, sp_right s⟩) as [c Hc]; [done|].
  exists c. split; [exact Hc|]. by apply pack_length in Hc.
Qed.

Lemma speck32_inj block block' key c :
  length block = 4%nat -> length block' = 4%nat -> length key = 8%nat ->
  _speck32_encrypt block key = Ok c -> _speck32_encrypt block' key = Ok c -> block = block'.
Proof.
  intros Hb Hb' Hk. rewrite !speck32_eq by done. cbv zeta.
  pose proof (speck_rounds_inj (speck_start block key) (speck_start block' key) (seqZ 0 22)
    ltac:(apply Forall_seqZ; intros; lia)
    (speck_start_ok _ _ Hb Hk) (speck_start_ok _ _ Hb' Hk) eq_refl eq_refl) as Hinj.
  revert Hinj. generalize (foldl speck_round (speck_start block key) (seqZ 0 22)).
  generalize (foldl speck_round (speck_start block' key) (seqZ 0 22)). intros t s Hinj Hc Hc'.
  pose proof (pack_inj _SPECK_BLOCK _ _ _ eq_refl Hc Hc') as E. injection E as HL HR.
  destruct (Hinj HL HR) as [HL' HR']. apply (unpack_raw_inj _SPECK_BLOCK); [done..|].
  unfold speck_start in HL', HR'. cbn [sp_left sp_right] in HL', HR'. revert HL' HR'.
  destruct (unpack_raw _SPECK_BLOCK block) as (l & r & []),
    (unpack_raw _SPECK_BLOCK block') as (l' & r' & []). by intros [= ->] [= ->].
Qed.

(** ** XTEA is a permutation for each key *)
Lemma xtea_round_inj words l r l' r' t :
  word32 l -> word32 r -> word32 l' -> word32 r' ->
  xtea_round words (l, r, t) = xtea_round words (l', r', t) -> l = l' /\ r = r'.
Proof.
  unfold xtea_round. intros Hl Hr Hl' Hr' H. injection H as HL HR. rewrite HL in HR.
  apply add_mask32_inj in HR; [|done..]. subst r'. apply add_mask32_inj in HL; done.
Qed.

Lemma xtea_round_words words s :
  word32 (xtea_round words s).1.1 /\ word32 (xtea_round words s).1.2.
Proof. destruct s as [[l r] t]. simpl. split; apply mask32_word. Qed.

Lemma xtea_rounds_inj n words l r l' r' t :
  word32 l -> word32 r -> word32 l' -> word32 r' ->
  (xtea_rounds n words (l, r, t)).1 = (xtea_rounds n words (l', r', t)).1 -> l = l' /\ r = r'.
Proof.
  revert l r l' r' t. induction n as [|n IH]; intros l r l' r' t Hl Hr Hl' Hr' H;
    cbn [xtea_rounds] in H; [by injection H|].
  destruct (xtea_round_words words (l, r, t)) as [H1 H2].
  destruct (xtea_round_words words (l', r', t)) as [H1' H2'].
  destruct (xtea_round words (l, r, t)) as [[a b] u] eqn:E.
  destruct (xtea_round words (l', r', t)) as [[a' b'] u'] eqn:E'.
  assert (u' = u) as -> by (injection E as _ _ <-; by injection E' as _ _ <-).
  apply IH in H as [-> ->]; try done.
  apply (xtea_round_inj words l r l' r' t); try done. by rewrite E, E'.
Qed.

Lemma xtea_rounds_words n words s :
  word32 s.1.1 -> word32 s.1.2 ->
  word32 (xtea_rounds n words s).1.1 /\ word32 (xtea_rounds n words s).1.2.
Proof.
  revert s. induction n as [|n IH]; intros s H1 H2; cbn [xtea_rounds]; [done|].
  apply IH; apply xtea_round_words.
Qed.

Definition xtea_words (key : bytes) : list Z :=
  let k := unpack_raw _KEY key in [k.1; k.2.1; k.2.2.1; k.2.2.2.1].

(** The loop's first state. *)
Definition xtea_start (block : bytes) : Z * Z * Z :=
  let b := unpack_raw _BLOCK block in (b.1 : Z, b.2.1 : Z, 0).

Lemma xtea_eq block key :
  length block = 8%nat -> length key = 16%nat ->
  let s := xtea_rounds 32 (xtea_words key) (xtea_start block) in
  xtea_encrypt block key = pack _BLOCK ⟨s.1.1, s.1.2⟩.
Proof.
  intros Hb Hk. cbv zeta. unfold xtea_encrypt.
  rewrite (len_neqb block 8), (len_neqb key 16) by (unfold len; lia).
  rewrite !unpack_exact by done. unfold xtea_words, xtea_start.
  cbn [orb raise_if mbind result_bind].
  destruct (unpack_raw _BLOCK block) as (l & r & []).
  destruct (unpack_raw _KEY key) as (k0 & k1 & k2 & k3 & []). reflexivity.
Qed.

Lemma xtea_start_words block :
  length block = 8%nat -> word32 (xtea_start block).1.1 /\ word32 (xtea_start block).1.2.
Proof.
  intros Hb. destruct (pack_unpack_raw _BLOCK block) as [(? & ? & _) _]; [by rewrite Hb|].
  by split.
Qed.

Lemma xtea_total block key :
  length block = 8%nat -> length key = 16%nat ->
  exists c, xtea_encrypt block key = Ok c /\ length c = 8%nat.
Proof.
  intros Hb Hk. rewrite xtea_eq by done. cbv zeta.
  destruct (xtea_start_words block Hb) as [Hl Hr].
  destruct (xtea_rounds_words 32 (xtea_words key) _ Hl Hr) as [H1 H2]. revert H1 H2.
  generalize (xtea_rounds 32 (xtea_words key) (xtea_start block)). intros s H1 H2.
  destruct (pack_fits _BLOCK ⟨s.1.1, s.1.2⟩) as [c Hc]; [exact (conj H1 (conj H2 I))|].
  exists c. split; [exact Hc|]. by apply pack_length in Hc.
Qed.

Lemma xtea_inj block block' key c :
  length block = 8%nat -> length block' = 8%nat -> length key = 16%nat ->
  xtea_encrypt block key = Ok c -> xtea_encrypt block' key = Ok c -> block = block'.
Proof.
  intros Hb Hb' Hk. rewrite !xtea_eq by done. cbv zeta.
  destruct (xtea_start_words block Hb) as [Hl Hr], (xtea_start_words block' Hb') as [Hl' Hr'].
  pose proof (xtea_rounds_inj 32 (xtea_words key) _ _ _ _ 0 Hl Hr Hl' Hr') as Hinj. revert Hinj.
  change ((xtea_start block).1.1, (xtea_start block).1.2, 0) with (xtea_start block).
  change ((xtea_start block').1.1, (xtea_start block').1.2, 0) with (xtea_start block').
  generalize (xtea_rounds 32 (xtea_words key) (xtea_start block)).
  generalize (xtea_rounds 32 (xtea_words key) (xtea_start block')).
  intros [[a' b'] t'] [[a b] t] Hinj Hc Hc'.
  pose proof (pack_inj _BLOCK _ _ _ eq_refl Hc Hc') as E. injection E as -> ->.
  destruct (Hinj eq_refl) as [HL HR]. apply (unpack_raw_inj _BLOCK); [done..|].
  revert HL HR. unfold xtea_start. destruct (unpack_raw _BLOCK block) as (l & r & []),
    (unpack_raw _BLOCK block') as (l' & r' & []). by intros [= ->] [= ->].
Qed.

(** ** Session keys *)
Lemma derive_session_key_total key c s :
  length key = 16%nat -> word32 c -> word32 s ->
  exists k, derive_session_key key c s = Ok k /\ length k = 16%nat.
Proof.
  intros Hk Hc Hs. unfold derive_session_key.
  destruct (pack_fits _BLOCK ⟨Z.land c _MASK, Z.land s _MASK⟩) as [b1 H1].
  { exact (conj (mask32_word _) (conj (mask32_word _) I)). }
  destruct (pack_fits _BLOCK ⟨Z.lxor s 0xA5A5A5A5, Z.lxor c 0x5A5A5A5A⟩) as [b2 H2].
  { refine (conj _ (conj _ I)); apply (lxor_range 32); done. }
  rewrite H1, H2. apply pack_length in H1, H2. cbn [mbind result_bind].
  destruct (xtea_total b1 key H1 Hk) as (e1 & -> & He1).
  destruct (xtea_total b2 key H2 Hk) as (e2 & -> & He2).
  exists (e1 ++ e2). split; [done|]. rewrite length_app. lia.
Qed.

Lemma derive_session_key_inj key c s c' s' k :
  length key = 16%nat -> word32 c -> word32 s -> word32 c' -> word32 s' ->
  derive_session_key key c s = Ok k -> derive_session_key key c' s' = Ok k -> c = c' /\ s = s'.
Proof.
  unfold derive_session_key, word32. intros Hk Hc Hs Hc' Hs' H H'.
  apply bind_Ok in H as (b1 & H1 & H), H' as (b1' & H1' & H').
  apply bind_Ok in H as (b2 & H2 & H), H' as (b2' & H2' & H').
  apply bind_Ok in H as (e1 & X1 & H), H' as (e1' & X1' & H').
  apply bind_Ok in H as (e2 & X2 & H), H' as (e2' & X2' & H').
  pose proof (pack_length _ _ _ H1) as L1. pose proof (pack_length _ _ _ H1') as L1'.
  destruct (xtea_total b1 key L1 Hk) as (f & Hf & Lf).
  destruct (xtea_total b1' key L1' Hk) as (f' & Hf' & Lf').
  rewrite Hf in X1. rewrite Hf' in X1'. injection X1 as ->. injection X1' as ->.
  injection H as <-. injection H' as E. apply app_inj_1 in E as [-> _]; [|lia].
  pose proof (xtea_inj b1 b1' key e1 L1 L1' Hk Hf Hf') as ->.
  pose proof (pack_inj _BLOCK _ _ _ eq_refl H1 H1') as E. injection E as Ec Es.
  unfold _MASK in Ec, Es. rewrite !land_mask32, !Z.mod_small in Ec, Es by lia. done.
Qed.

(** ** The CBC chain *)
Lemma length_xor_bytes a b : length a = length b -> length (xor_bytes a b) = length a.
Proof. intros. unfold xor_bytes. rewrite length_zip_with. lia. Qed.

Lemma xor_byte_inj x y z :
  z2b (Z.lxor (b2z x) (b2z z)) = z2b (Z.lxor (b2z y) (b2z z)) -> x = y.
Proof.
  intros H. apply (f_equal b2z) in H.
  rewrite !b2z_z2b_small in H by (apply (lxor_range 8); [lia|apply b2z_range..]).
  apply lxor_cancel_r in H. by apply (inj b2z).
Qed.

Lemma xor_bytes_inj_l a a' b :
  length a = length b -> length a' = length b -> xor_bytes a b = xor_bytes a' b -> a = a'.
Proof.
  revert a a'. induction b as [|z b IH]; intros [|x a] [|y a'] Ha Ha' H; try done.
  injection H as Hx H. apply xor_byte_inj in Hx as ->. f_equal. apply IH; simpl in *; congruence.
Qed.

Lemma xor_bytes_comm a b : xor_bytes a b = xor_bytes b a.
Proof. revert b. induction a; intros []; simpl; try done. by rewrite Z.lxor_comm, IHa. Qed.

Lemma xor_bytes_inj_r a b b' :
  length b = length a -> length b' = length a -> xor_bytes a b = xor_bytes a b' -> b = b'.
Proof. rewrite !(xor_bytes_comm a). apply xor_bytes_inj_l. Qed.

Section Chain.
Context (key : bytes) (Hkey : length key = 8%nat).

Lemma cbc_step_total state b :
  length state = 4%nat -> length b = 4%nat ->
  exists c, _speck32_encrypt (xor_bytes state b) key = Ok c /\ length c = 4%nat.
Proof. intros. apply speck32_total; [rewrite length_xor_bytes; lia|done]. Qed.

Lemma cbc_chain_total state blocks :
  length state = 4%nat -> Forall (fun b => length b = 4%nat) blocks ->
  exists c, cbc_chain key state blocks = Ok c /\ length c = 4%nat.
Proof.
  intros Hs Hb. revert state Hs. unfold cbc_chain.
  induction Hb as [|b blocks Hb _ IH]; intros state Hs; cbn [fold_result]; [eauto|].
  destruct (cbc_step_total state b Hs Hb) as (c & -> & Hc). by apply IH.
Qed.

Lemma cbc_chain_inj state state' blocks c :
  length state = 4%nat -> length state' = 4%nat -> Forall (fun b => length b = 4%nat) blocks ->
  cbc_chain key state blocks = Ok c -> cbc_chain key state' blocks = Ok c -> state = state'.
Proof.
  intros Hs Hs' Hb. revert state state' Hs Hs'. unfold cbc_chain.
  induction Hb as [|b blocks Hb _ IH]; intros state state' Hs Hs'; cbn [fold_result];
    [congruence|].
  destruct (cbc_step_total state b Hs Hb) as (d & E & Hd).
  destruct (cbc_step_total state' b Hs' Hb) as (d' & E' & Hd').
  rewrite E, E'. intros H H'. pose proof (IH d d' Hd Hd' H H') as ->.
  apply (speck32_inj (xor_bytes state b) (xor_bytes state' b) key d') in E'; try done;
    try (rewrite length_xor_bytes; congruence).
  apply (xor_bytes_inj_l state state' b); congruence.
Qed.
End Chain.

(** ** The packet MAC *)
Definition mac_tail (n : Z) : bytes :=
  [x80] ++ replicate (Z.to_nat ((4 - (n + 1) mod 4) mod 4)) x00 ++ le_bytes 4 n.

Lemma mac_pad_eq data :
  len data < 2 ^ 32 -> mac_pad data = Ok (data ++ mac_tail (len data)).
Proof.
  intros Hn. unfold mac_pad. pose proof (len_nonneg data).
  assert (Hp : pack [FI] ⟨len data⟩ = Ok (le_bytes 4 (len data) ++ [])).
  { cbn [pack pack_field fst snd]. unfold pack_uint.
    by rewrite bool_decide_eq_true_2 by (simpl; lia). }
  rewrite Hp. cbn [mbind result_bind]. unfold mac_tail.
  rewrite len_app, app_nil_r, <- !app_assoc. done.
Qed.

Lemma mac_tail_length n :
  0 <= n -> exists m, (Z.to_nat n + length (mac_tail n) = m * 4)%nat.
Proof.
  intros Hn. exists (Z.to_nat ((n + 1 + (4 - (n + 1) mod 4) mod 4) / 4 + 1)).
  unfold mac_tail. rewrite !length_app, length_replicate, length_le_bytes. simpl length.
  pose proof (Z.mod_pos_bound (n + 1) 4). pose proof (Z.div_mod (n + 1) 4).
  pose proof (Z.mod_pos_bound (4 - (n + 1) mod 4) 4).
  assert ((n + 1 + (4 - (n + 1) mod 4) mod 4) mod 4 = 0) as Hm.
  { rewrite <- Z.add_mod_idemp_l, Z.add_mod_idemp_r by lia.
    replace ((n + 1) mod 4 + (4 - (n + 1) mod 4)) with 4 by lia. done. }
  pose proof (Z.div_mod (n + 1 + (4 - (n + 1) mod 4) mod 4) 4). lia.
Qed.

Lemma packet_mac_eq data key :
  length key = 16%nat -> len data < 2 ^ 32 ->
  packet_mac data key =
    state ← cbc_chain (take 8 key) (replicate 4 x00) (chunks 4 (data ++ mac_tail (len data)));
    state ← _speck32_encrypt state (drop 8 key);
    '⟨tag⟩ ← unpack [FI] state;
    Ok tag.
Proof.
  intros Hk Hn. unfold packet_mac. rewrite (len_neqb key 16) by (unfold len; lia).
  by rewrite mac_pad_eq.
Qed.

Lemma mac_blocks data :
  len data < 2 ^ 32 ->
  Forall (fun b => length b = 4%nat) (chunks 4 (data ++ mac_tail (len data))).
Proof.
  intros Hn. destruct (mac_tail_length (len data) (len_nonneg _)) as [m Hm].
  apply (chunks_lengths 4 m); [lia|]. rewrite length_app. unfold len in Hm at 1. lia.
Qed.

Lemma packet_mac_total data key :
  length key = 16%nat -> len data < 2 ^ 32 ->
  exists t, packet_mac data key = Ok t /\ word32 t.
Proof.
  intros Hk Hn. rewrite packet_mac_eq by done.
  destruct (cbc_chain_total (take 8 key) ltac:(rewrite length_take; lia) (replicate 4 x00) _
    eq_refl (mac_blocks data Hn)) as (c & -> & Hc). cbn [mbind result_bind].
  destruct (speck32_total c (drop 8 key) Hc ltac:(rewrite length_drop; lia)) as (d & -> & Hd).
  cbn [mbind result_bind]. rewrite unpack_exact by done. simpl. eexists. split; [done|].
  pose proof (le_int_bound (take 4 d)) as H. unfold len in H. rewrite length_take, Hd in H. done.
Qed.

(** The tag determines the chain's last state. *)
Lemma packet_mac_chain data key t :
  length key = 16%nat -> len data < 2 ^ 32 -> packet_mac data key = Ok t ->
  exists c, cbc_chain (take 8 key) (replicate 4 x00) (chunks 4 (data ++ mac_tail (len data))) = Ok c
    /\ length c = 4%nat /\ _speck32_encrypt c (drop 8 key) = Ok (le_bytes 4 t).
Proof.
  intros Hk Hn. rewrite packet_mac_eq by done.
  destruct (cbc_chain_total (take 8 key) ltac:(rewrite length_take; lia) (replicate 4 x00) _
    eq_refl (mac_blocks data Hn)) as (c & -> & Hc). cbn [mbind result_bind].
  destruct (speck32_total c (drop 8 key) Hc ltac:(rewrite length_drop; lia)) as (d & E & Hd).
  rewrite E. cbn [mbind result_bind]. rewrite unpack_exact by done. intros H. injection H as <-.
  exists c. split; [done|]. split; [done|]. rewrite E. f_equal.
  symmetry. rewrite take_ge by (simpl; lia). by apply le_bytes_le_int.
Qed.

(** Two messages that differ inside one aligned block, cut at that block. *)
Lemma align_block {A} (pre d d' rest : list A) (m : nat) :
  length d = length d' -> (length pre mod 4 + length d <= 4)%nat -> d <> d' ->
  length (pre ++ d ++ rest) = (m * 4)%nat ->
  exists p blk blk' q j, pre ++ d ++ rest = p ++ blk ++ q /\ pre ++ d' ++ rest = p ++ blk' ++ q /\
    length p = (j * 4)%nat /\ length blk = 4%nat /\ length blk' = 4%nat /\ blk <> blk'.
Proof.
  intros Hd Hal Hne Hm. rewrite !length_app in Hm.
  pose proof (Nat.div_mod_eq (length pre) 4) as Hdiv.
  set (j := (length pre / 4)%nat) in *. set (r := (length pre mod 4)%nat) in *.
  set (k := (4 - r - length d)%nat).
  exists (take (4 * j) pre), (drop (4 * j) pre ++ d ++ take k rest),
    (drop (4 * j) pre ++ d' ++ take k rest), (drop k rest), j.
  assert (Hk : (k <= length rest)%nat).
  { destruct d as [|x d]; [destruct d'; [done|discriminate]|]. simpl length in *. lia. }
  repeat split.
  - rewrite <- !app_assoc, take_drop, app_assoc, (app_assoc (take _ pre)), take_drop.
    by rewrite <- app_assoc.
  - rewrite <- !app_assoc, take_drop, app_assoc, (app_assoc (take _ pre)), take_drop.
    by rewrite <- app_assoc.
  - rewrite length_take. lia.
  - rewrite !length_app, length_drop, length_take. lia.
  - rewrite !length_app, length_drop, length_take. lia.
  - intros H. apply app_inv_head, app_inj_1 in H as [? _]; done.
Qed.

Lemma packet_mac_block pre d d' post key t :
  length key = 16%nat -> length d = length d' -> (length pre mod 4 + length d <= 4)%nat ->
  len (pre ++ d ++ post) < 2 ^ 32 ->
  packet_mac (pre ++ d ++ post) key = Ok t -> packet_mac (pre ++ d' ++ post) key = Ok t -> d = d'.
Proof.
  intros Hk Hd Hal Hn H H'. destruct (decide (d = d')) as [|Hne]; [done|]. exfalso.
  assert (Hl : len (pre ++ d' ++ post) = len (pre ++ d ++ post)) by (rewrite !len_app; unfold len; lia).
  apply packet_mac_chain in H as (c & Hc & Lc & Ht), H' as (c' & Hc' & Lc' & Ht'); try lia.
  assert (L2 : length (drop 8 key) = 8%nat) by (rewrite length_drop; lia).
  assert (L1 : length (take 8 key) = 8%nat) by (rewrite length_take; lia).
  pose proof (speck32_inj c c' (drop 8 key) _ Lc Lc' L2 Ht Ht') as <-.
  rewrite Hl in Hc'. rewrite <- !app_assoc in Hc, Hc'.
  destruct (mac_tail_length (len (pre ++ d ++ post)) (len_nonneg _)) as [m Hm].
  destruct (align_block pre d d' (post ++ mac_tail (len (pre ++ d ++ post))) m Hd Hal Hne)
    as (p & b & b' & q & j & E & E' & Lp & Lb & Lb' & Hbb).
  { unfold len in Hm at 1. rewrite !length_app in *. lia. }
  rewrite E in Hc. rewrite E' in Hc'.
  assert (Lq : exists i, length q = (i * 4)%nat).
  { exists (m - j - 1)%nat. apply (f_equal length) in E. unfold len in Hm at 1.
    rewrite !length_app in *. lia. }
  destruct Lq as [i Lq].
  rewrite (chunks_app_mul 4 j), (chunks_app 4) in Hc, Hc' by (done || lia).
  unfold cbc_chain in Hc, Hc'. rewrite fold_result_app in Hc, Hc'.
  change (fold_result _ (replicate 4 x00) (chunks 4 p)) with
    (cbc_chain (take 8 key) (replicate 4 x00) (chunks 4 p)) in Hc, Hc'.
  destruct (cbc_chain_total (take 8 key) L1 (replicate 4 x00) (chunks 4 p) eq_refl
    (chunks_lengths 4 j p ltac:(lia) Lp)) as (s & Hs & Ls).
  rewrite Hs in Hc, Hc'. cbn [mbind result_bind fold_result] in Hc, Hc'.
  destruct (cbc_step_total (take 8 key) L1 s b Ls Lb) as (e & He & Le).
  destruct (cbc_step_total (take 8 key) L1 s b' Ls Lb') as (e' & He' & Le').
  rewrite He in Hc. rewrite He' in Hc'.
  pose proof (cbc_chain_inj (take 8 key) L1 e e' _ c Le Le'
    (chunks_lengths 4 i q ltac:(lia) Lq) Hc Hc') as <-.
  apply Hbb, (xor_bytes_inj_r s); [congruence..|].
  apply (speck32_inj _ _ (take 8 key) e); try done; rewrite length_xor_bytes; congruence.
Qed.

Lemma tags_equal_words a b : word32 a -> word32 b -> tags_equal a b = Ok (bool_decide (a = b)).
Proof.
  intros Ha Hb. unfold tags_equal.
  destruct (pack_fits [FI] ⟨a⟩) as [x Hx]; [exact (conj Ha I)|].
  destruct (pack_fits [FI] ⟨b⟩) as [y Hy]; [exact (conj Hb I)|].
  rewrite Hx, Hy. cbn [mbind result_bind]. f_equal. apply bool_decide_ext. split.
  - intros ->. pose proof (pack_inj [FI] _ _ _ eq_refl Hx Hy) as E. by injection E.
  - intros ->. congruence.
Qed.

Lemma tags_equal_true a b : tags_equal a b = Ok true -> a = b /\ word32 a.
Proof.
  intros H. unfold tags_equal in H. apply bind_Ok in H as (x & Hx & H).
  apply bind_Ok in H as (y & Hy & H). apply Ok_inj, bool_decide_eq_true in H as ->.
  pose proof (pack_inj [FI] _ _ _ eq_refl Hx Hy) as E. injection E as ->.
  by apply pack_FI_inv in Hx as [_ ?].
Qed.

(** ** Credentials: facts *)
Lemma forallb_false_exists {A} (f : A -> bool) l :
  forallb f l = false -> exists x, x ∈ l /\ f x = false.
Proof.
  induction l as [|x l IH]; simpl; [done|]. intros [H|H]%andb_false_iff.
  - exists x. split; [left|done].
  - destruct (IH H) as (y & Hy & E). exists y. split; [by right|done].
Qed.

Lemma parse_key_length value key : parse_key value = Ok key -> length key = 16%nat.
Proof.
  unfold parse_key. intros H. inv_ok. apply orb_false_iff in E as [E _].
  apply negb_false_iff, Z.eqb_eq in E. unfold len in E. apply bytes_fromhex_length in E0. lia.
Qed.

Lemma derive_password_key_length p key : derive_password_key p = Ok key -> length key = 16%nat.
Proof.
  unfold derive_password_key. intros H. inv_ok. rewrite length_take, length_sha256. done.
Qed.

Lemma open_mode_key_length : length OPEN_MODE_KEY = 16%nat.
Proof. unfold OPEN_MODE_KEY. rewrite length_take, length_sha256. done. Qed.

(** ** Properties *)

(** The packet MAC detects every change confined to one of its four-byte
    blocks: under any key, two messages of the same length that differ only
    inside one aligned block have different tags. *)
Theorem packet_mac_detects_block_change pre d d' post key :
  length key = 16%nat -> length d = length d' -> (length pre mod 4 + length d <= 4)%nat ->
  len (pre ++ d ++ post) < 2 ^ 32 -> d <> d' ->
  exists t t', packet_mac (pre ++ d ++ post) key = Ok t /\
    packet_mac (pre ++ d' ++ post) key = Ok t' /\ t <> t'.
Proof.
  intros Hk Hd Hal Hn Hne.
  assert (Hn' : len (pre ++ d' ++ post) < 2 ^ 32) by (rewrite !len_app in *; unfold len in *; lia).
  destruct (packet_mac_total _ key Hk Hn) as (t & Ht & _).
  destruct (packet_mac_total _ key Hk Hn') as (t' & Ht' & _).
  exists t, t'. split_and!; [done..|]. intros <-.
  by apply Hne, (packet_mac_block pre d d' post key t).
Qed.

Lemma packet_mac_detects_block_change_witness :
  exists t t', packet_mac (ascii_bytes "statu" ++ [x73] ++ ascii_bytes "!") TEST_KEY = Ok t /\
    packet_mac (ascii_bytes "statu" ++ [x74] ++ ascii_bytes "!") TEST_KEY = Ok t' /\ t <> t'.
Proof.
  apply (packet_mac_detects_block_change (ascii_bytes "statu") [x73] [x74] (ascii_bytes "!") TEST_KEY);
    [done | done | vm_compute; lia | done | discriminate].
Defined.

(** Session-key derivation never fails on a 16-byte base key and 32-bit
    nonces, and is injective in the pair of nonces: a handshake with a fresh
    nonce on either side gets a session key no other handshake got. *)
Theorem session_key_unique key client server client' server' :
  length key = 16%nat -> word32 client -> word32 server -> word32 client' -> word32 server' ->
  exists k k', derive_session_key key client server = Ok k /\
    derive_session_key key client' server' = Ok k' /\
    length k = 16%nat /\ (k = k' -> client = client' /\ server = server').
Proof.
  intros Hk Hc Hs Hc' Hs'.
  destruct (derive_session_key_total key client server Hk Hc Hs) as (k & Ek & Lk).
  destruct (derive_session_key_total key client' server' Hk Hc' Hs') as (k' & Ek' & _).
  exists k, k'. split_and!; [exact Ek | exact Ek' | exact Lk |]. intros <-. by apply (derive_session_key_inj key _ _ _ _ k).
Qed.

Lemma session_key_unique_witness :
  exists k k', derive_session_key TEST_KEY 1 2 = Ok k /\
    derive_session_key TEST_KEY 2 1 = Ok k' /\ length k = 16%nat /\ (k = k' -> 1 = 2 /\ 2 = 1).
Proof.
  apply (session_key_unique TEST_KEY 1 2 2 1); [reflexivity | unfold word32; lia ..].
Defined.

(** Whatever the credential, the key [credential_key] resolves it to has the
    16 bytes that the agent, the bridge and the packet MAC require. *)
Theorem credential_key_is_16_bytes value key :
  credential_key value = Ok key -> length key = 16%nat.
Proof.
  assert (Hopen : forall k, Ok OPEN_MODE_KEY = Ok k -> length k = 16%nat).
  { intros k <-%Ok_inj. apply open_mode_key_length. }
  unfold credential_key. destruct value as [value|]; [|apply Hopen].
  repeat case_match; eauto using parse_key_length, derive_password_key_length.
Qed.

Lemma credential_key_is_16_bytes_witness :
  length (hex "caa789fd210bf861dd7568249c843518") = 16%nat.
Proof.
  apply (credential_key_is_16_bytes (Some (py "pass:correct horse battery staple"))).
  vm_compute. reflexivity.
Defined.

(** Documented: a bare 32-digit hexadecimal value is a raw key and "every
    other nonempty value is a passphrase".  As coded, a 32-character value that
    [int(value, 16)] accepts without being 32 hexadecimal digits (a [0x] prefix,
    inner underscores, surrounding blanks) is neither: it is rejected, although
    the same text is accepted behind the [pass:] prefix. *)
Theorem credential_key_rejects_int_like_passphrases value :
  len value = 32 -> int16_ok value = true -> forallb is_hex_digit value = false ->
  starts_with (py "key:") value = false -> starts_with (py "pass:") value = false ->
  credential_key (Some value) =
    raise ValueError (py "protocol key must be exactly 32 hexadecimal characters").
Proof.
  intros Hl Hi Hh Hk Hp. unfold credential_key.
  rewrite bool_decide_eq_false_2 by (intros ->; discriminate Hl).
  rewrite Hk, Hp, Hl, Hi. unfold parse_key. by rewrite Hl, Hh.
Qed.

Lemma credential_key_rejects_int_like_passphrases_witness :
  credential_key (Some (py "0x00112233445566778899aabbccddee")) =
    raise ValueError (py "protocol key must be exactly 32 hexadecimal characters").
Proof.
  apply credential_key_rejects_int_like_passphrases; vm_compute; reflexivity.
Defined.
