(* ===== verification/Constants.v ===== *)
(** * Wire constants ([protocol/constants.py])

    The numeric values of protocol version 2.  Each [IntEnum] of the source is
    a Module of the same name holding an inductive type [t] with the source's
    members and its [IntEnum] instance; an [IntFlag] is an integer and its
    Module holds the masks (constructing an [IntFlag] never fails). *)
From S2P Require Import Prelude Crc.

Definition MAGIC : bytes := ascii_bytes "DM".
Definition VERSION : Z := 2.
Definition DEFAULT_PORT : Z := 21300.
Definition MAX_DATAGRAM : Z := 1200.
Definition MAX_FRAGMENT_PAYLOAD : Z := 1024.
Definition MAX_FRAGMENTS : Z := 32.
Definition MAX_MESSAGE_SIZE : Z := MAX_FRAGMENT_PAYLOAD * MAX_FRAGMENTS.

(** Solves the two laws of an enumeration by cases on its members. *)
Ltac solve_enum_laws :=
  split; [intros [] []; vm_compute; intros H; (reflexivity || discriminate H)
         | intros []; vm_compute; repeat first [left | right]].

Module MessageKind.
Inductive t :=
| REQUEST
| RESPONSE
| ERROR.

#[global] Instance t_eq_dec : EqDecision t.
Proof. solve_decision. Defined.

Definition value (x : t) : Z :=
  match x with
  | REQUEST => 1
  | RESPONSE => 2
  | ERROR => 3
  end.

Definition name (x : t) : string :=
  match x with
  | REQUEST => "REQUEST"
  | RESPONSE => "RESPONSE"
  | ERROR => "ERROR"
  end.

#[global] Instance t_enum : IntEnum t := {|
  int_of := value;
  members := [REQUEST; RESPONSE; ERROR];
  enum_name := "MessageKind" |}.
#[global] Instance t_enum_laws : IntEnumLaws t.
Proof. solve_enum_laws. Qed.
End MessageKind.

Module Opcode.
Inductive t :=
| HELLO
| GET_STATUS
| GET_CAPABILITIES
| CAPTURE_TEXT_SCREEN
| SEND_KEYS
| PING
| CANCEL
| FILE_READ_BEGIN
| FILE_READ_BLOCK
| FILE_READ_END
| FILE_WRITE_BEGIN
| FILE_WRITE_BLOCK
| FILE_WRITE_COMMIT
| FILE_ABORT
| GRAPHICS_BEGIN
| GRAPHICS_BLOCK
| GRAPHICS_END
| GET_DIAGNOSTICS.

#[global] Instance t_eq_dec : EqDecision t.
Proof. solve_decision. Defined.

Definition value (x : t) : Z :=
  match x with
  | HELLO => 1
  | GET_STATUS => 2
  | GET_CAPABILITIES => 3
  | CAPTURE_TEXT_SCREEN => 4
  | SEND_KEYS => 5
  | PING => 6
  | CANCEL => 7
  | FILE_READ_BEGIN => 8
  | FILE_READ_BLOCK => 9
  | FILE_READ_END => 10
  | FILE_WRITE_BEGIN => 11
  | FILE_WRITE_BLOCK => 12
  | FILE_WRITE_COMMIT => 13
  | FILE_ABORT => 14
  | GRAPHICS_BEGIN => 15
  | GRAPHICS_BLOCK => 16
  | GRAPHICS_END => 17
  | GET_DIAGNOSTICS => 18
  end.

Definition name (x : t) : string :=
  match x with
  | HELLO => "HELLO"
  | GET_STATUS => "GET_STATUS"
  | GET_CAPABILITIES => "GET_CAPABILITIES"
  | CAPTURE_TEXT_SCREEN => "CAPTURE_TEXT_SCREEN"
  | SEND_KEYS => "SEND_KEYS"
  | PING => "PING"
  | CANCEL => "CANCEL"
  | FILE_READ_BEGIN => "FILE_READ_BEGIN"
  | FILE_READ_BLOCK => "FILE_READ_BLOCK"
  | FILE_READ_END => "FILE_READ_END"
  | FILE_WRITE_BEGIN => "FILE_WRITE_BEGIN"
  | FILE_WRITE_BLOCK => "FILE_WRITE_BLOCK"
  | FILE_WRITE_COMMIT => "FILE_WRITE_COMMIT"
  | FILE_ABORT => "FILE_ABORT"
  | GRAPHICS_BEGIN => "GRAPHICS_BEGIN"
  | GRAPHICS_BLOCK => "GRAPHICS_BLOCK"
  | GRAPHICS_END => "GRAPHICS_END"
  | GET_DIAGNOSTICS => "GET_DIAGNOSTICS"
  end.

#[global] Instance t_enum : IntEnum t := {|
  int_of := value;
  members := [HELLO; GET_STATUS; GET_CAPABILITIES; CAPTURE_TEXT_SCREEN; SEND_KEYS; PING; CANCEL; FILE_READ_BEGIN; FILE_READ_BLOCK; FILE_READ_END; FILE_WRITE_BEGIN; FILE_WRITE_BLOCK; FILE_WRITE_COMMIT; FILE_ABORT; GRAPHICS_BEGIN; GRAPHICS_BLOCK; GRAPHICS_END; GET_DIAGNOSTICS];
  enum_name := "Opcode" |}.
#[global] Instance t_enum_laws : IntEnumLaws t.
Proof. solve_enum_laws. Qed.
End Opcode.

Module ErrorCode.
Inductive t :=
| MALFORMED
| UNSUPPORTED_VERSION
| AUTHENTICATION_FAILED
| REPLAYED_REQUEST
| UNSUPPORTED_OPERATION
| INVALID_ARGUMENT
| DENIED
| TARGET_BUSY
| TIMEOUT
| CANCELLED
| INTEGRITY_FAILURE
| INTERNAL_FAILURE.

#[global] Instance t_eq_dec : EqDecision t.
Proof. solve_decision. Defined.

Definition value (x : t) : Z :=
  match x with
  | MALFORMED => 1
  | UNSUPPORTED_VERSION => 2
  | AUTHENTICATION_FAILED => 3
  | REPLAYED_REQUEST => 4
  | UNSUPPORTED_OPERATION => 5
  | INVALID_ARGUMENT => 6
  | DENIED => 7
  | TARGET_BUSY => 8
  | TIMEOUT => 9
  | CANCELLED => 10
  | INTEGRITY_FAILURE => 11
  | INTERNAL_FAILURE => 12
  end.

Definition name (x : t) : string :=
  match x with
  | MALFORMED => "MALFORMED"
  | UNSUPPORTED_VERSION => "UNSUPPORTED_VERSION"
  | AUTHENTICATION_FAILED => "AUTHENTICATION_FAILED"
  | REPLAYED_REQUEST => "REPLAYED_REQUEST"
  | UNSUPPORTED_OPERATION => "UNSUPPORTED_OPERATION"
  | INVALID_ARGUMENT => "INVALID_ARGUMENT"
  | DENIED => "DENIED"
  | TARGET_BUSY => "TARGET_BUSY"
  | TIMEOUT => "TIMEOUT"
  | CANCELLED => "CANCELLED"
  | INTEGRITY_FAILURE => "INTEGRITY_FAILURE"
  | INTERNAL_FAILURE => "INTERNAL_FAILURE"
  end.

#[global] Instance t_enum : IntEnum t := {|
  int_of := value;
  members := [MALFORMED; UNSUPPORTED_VERSION; AUTHENTICATION_FAILED; REPLAYED_REQUEST; UNSUPPORTED_OPERATION; INVALID_ARGUMENT; DENIED; TARGET_BUSY; TIMEOUT; CANCELLED; INTEGRITY_FAILURE; INTERNAL_FAILURE];
  enum_name := "ErrorCode" |}.
#[global] Instance t_enum_laws : IntEnumLaws t.
Proof. solve_enum_laws. Qed.
End ErrorCode.

Module Capability.
Definition STATUS : Z := 1.
Definition TEXT_CAPTURE : Z := 2.
Definition KEYBOARD : Z := 4.
Definition FILESYSTEM_READ : Z := 8.
Definition FILESYSTEM_WRITE : Z := 16.
Definition EXECUTION : Z := 32.
Definition MEMORY_READ : Z := 64.
Definition MEMORY_WRITE : Z := 128.
Definition PORT_READ : Z := 256.
Definition PORT_WRITE : Z := 512.
Definition REBOOT : Z := 1024.
Definition GRAPHICS_CAPTURE : Z := 2048.
Definition all : list Z := [STATUS; TEXT_CAPTURE; KEYBOARD; FILESYSTEM_READ; FILESYSTEM_WRITE; EXECUTION; MEMORY_READ; MEMORY_WRITE; PORT_READ; PORT_WRITE; REBOOT; GRAPHICS_CAPTURE].
End Capability.

Module Phase.
Inductive t :=
| STARTING
| OBSERVE_READY
| AGENT_SHELL_READY
| CHILD_RUNNING
| DOS_BUSY
| AWAITING_APPROVAL
| HOST_UNRESPONSIVE.

#[global] Instance t_eq_dec : EqDecision t.
Proof. solve_decision. Defined.

Definition value (x : t) : Z :=
  match x with
  | STARTING => 1
  | OBSERVE_READY => 2
  | AGENT_SHELL_READY => 3
  | CHILD_RUNNING => 4
  | DOS_BUSY => 5
  | AWAITING_APPROVAL => 6
  | HOST_UNRESPONSIVE => 7
  end.

Definition name (x : t) : string :=
  match x with
  | STARTING => "STARTING"
  | OBSERVE_READY => "OBSERVE_READY"
  | AGENT_SHELL_READY => "AGENT_SHELL_READY"
  | CHILD_RUNNING => "CHILD_RUNNING"
  | DOS_BUSY => "DOS_BUSY"
  | AWAITING_APPROVAL => "AWAITING_APPROVAL"
  | HOST_UNRESPONSIVE => "HOST_UNRESPONSIVE"
  end.

#[global] Instance t_enum : IntEnum t := {|
  int_of := value;
  members := [STARTING; OBSERVE_READY; AGENT_SHELL_READY; CHILD_RUNNING; DOS_BUSY; AWAITING_APPROVAL; HOST_UNRESPONSIVE];
  enum_name := "Phase" |}.
#[global] Instance t_enum_laws : IntEnumLaws t.
Proof. solve_enum_laws. Qed.
End Phase.

Module Adapter.
Inductive t :=
| UNKNOWN
| MDA
| CGA
| EGA
| VGA
| LINUX_PTY.

#[global] Instance t_eq_dec : EqDecision t.
Proof. solve_decision. Defined.

Definition value (x : t) : Z :=
  match x with
  | UNKNOWN => 0
  | MDA => 1
  | CGA => 2
  | EGA => 3
  | VGA => 4
  | LINUX_PTY => 254
  end.

Definition name (x : t) : string :=
  match x with
  | UNKNOWN => "UNKNOWN"
  | MDA => "MDA"
  | CGA => "CGA"
  | EGA => "EGA"
  | VGA => "VGA"
  | LINUX_PTY => "LINUX_PTY"
  end.

#[global] Instance t_enum : IntEnum t := {|
  int_of := value;
  members := [UNKNOWN; MDA; CGA; EGA; VGA; LINUX_PTY];
  enum_name := "Adapter" |}.
#[global] Instance t_enum_laws : IntEnumLaws t.
Proof. solve_enum_laws. Qed.
End Adapter.

Module GraphicsLayout.
Inductive t :=
| CGA_2BPP_INTERLEAVED
| CGA_1BPP_INTERLEAVED
| HERCULES_1BPP_INTERLEAVED
| PLANAR_4BPP
| PLANAR_1BPP
| PACKED_8BPP.

#[global] Instance t_eq_dec : EqDecision t.
Proof. solve_decision. Defined.

Definition value (x : t) : Z :=
  match x with
  | CGA_2BPP_INTERLEAVED => 1
  | CGA_1BPP_INTERLEAVED => 2
  | HERCULES_1BPP_INTERLEAVED => 3
  | PLANAR_4BPP => 4
  | PLANAR_1BPP => 5
  | PACKED_8BPP => 6
  end.

Definition name (x : t) : string :=
  match x with
  | CGA_2BPP_INTERLEAVED => "CGA_2BPP_INTERLEAVED"
  | CGA_1BPP_INTERLEAVED => "CGA_1BPP_INTERLEAVED"
  | HERCULES_1BPP_INTERLEAVED => "HERCULES_1BPP_INTERLEAVED"
  | PLANAR_4BPP => "PLANAR_4BPP"
  | PLANAR_1BPP => "PLANAR_1BPP"
  | PACKED_8BPP => "PACKED_8BPP"
  end.

#[global] Instance t_enum : IntEnum t := {|
  int_of := value;
  members := [CGA_2BPP_INTERLEAVED; CGA_1BPP_INTERLEAVED; HERCULES_1BPP_INTERLEAVED; PLANAR_4BPP; PLANAR_1BPP; PACKED_8BPP];
  enum_name := "GraphicsLayout" |}.
#[global] Instance t_enum_laws : IntEnumLaws t.
Proof. solve_enum_laws. Qed.
End GraphicsLayout.

Module ResidentDiagnosticFlag.
Definition OWNS_INT08 : Z := 1.
Definition OWNS_INT1C : Z := 2.
Definition OWNS_INT28 : Z := 4.
Definition OWNS_INT2F : Z := 8.
Definition ENABLED : Z := 16.
Definition RECEIVE_READY : Z := 32.
Definition SESSION_ACTIVE : Z := 64.
Definition RESPONSE_PENDING : Z := 128.
Definition all : list Z := [OWNS_INT08; OWNS_INT1C; OWNS_INT28; OWNS_INT2F; ENABLED; RECEIVE_READY; SESSION_ACTIVE; RESPONSE_PENDING].
End ResidentDiagnosticFlag.

Module KeyCode.
Inductive t :=
| ENTER
| ESC
| TAB
| BACKSPACE
| UP
| DOWN
| RIGHT
| LEFT
| HOME
| END
| DELETE
| PAGE_UP
| PAGE_DOWN
| F1
| F2
| F3
| F4
| F5
| F6
| F7
| F8
| F9
| F10
| F11
| F12
| CTRL_C
| CTRL_D.

#[global] Instance t_eq_dec : EqDecision t.
Proof. solve_decision. Defined.

Definition value (x : t) : Z :=
  match x with
  | ENTER => 1
  | ESC => 2
  | TAB => 3
  | BACKSPACE => 4
  | UP => 5
  | DOWN => 6
  | RIGHT => 7
  | LEFT => 8
  | HOME => 9
  | END => 10
  | DELETE => 11
  | PAGE_UP => 12
  | PAGE_DOWN => 13
  | F1 => 14
  | F2 => 15
  | F3 => 16
  | F4 => 17
  | F5 => 18
  | F6 => 19
  | F7 => 20
  | F8 => 21
  | F9 => 22
  | F10 => 23
  | F11 => 24
  | F12 => 25
  | CTRL_C => 26
  | CTRL_D => 27
  end.

Definition name (x : t) : string :=
  match x with
  | ENTER => "ENTER"
  | ESC => "ESC"
  | TAB => "TAB"
  | BACKSPACE => "BACKSPACE"
  | UP => "UP"
  | DOWN => "DOWN"
  | RIGHT => "RIGHT"
  | LEFT => "LEFT"
  | HOME => "HOME"
  | END => "END"
  | DELETE => "DELETE"
  | PAGE_UP => "PAGE_UP"
  | PAGE_DOWN => "PAGE_DOWN"
  | F1 => "F1"
  | F2 => "F2"
  | F3 => "F3"
  | F4 => "F4"
  | F5 => "F5"
  | F6 => "F6"
  | F7 => "F7"
  | F8 => "F8"
  | F9 => "F9"
  | F10 => "F10"
  | F11 => "F11"
  | F12 => "F12"
  | CTRL_C => "CTRL_C"
  | CTRL_D => "CTRL_D"
  end.

#[global] Instance t_enum : IntEnum t := {|
  int_of := value;
  members := [ENTER; ESC; TAB; BACKSPACE; UP; DOWN; RIGHT; LEFT; HOME; END; DELETE; PAGE_UP; PAGE_DOWN; F1; F2; F3; F4; F5; F6; F7; F8; F9; F10; F11; F12; CTRL_C; CTRL_D];
  enum_name := "KeyCode" |}.
#[global] Instance t_enum_laws : IntEnumLaws t.
Proof. solve_enum_laws. Qed.
End KeyCode.

(** [KEY_NAMES]: named keys by name. *)
Definition KEY_NAMES : list (pystr * KeyCode.t) :=
  (fun k => (py (KeyCode.name k), k)) <$> members.

(** [sum(int(value) for value in Capability)] *)
Definition KNOWN_CAPABILITIES : Z := foldr Z.add 0 Capability.all.
