(* ===== verification/Packet.v ===== *)
(** * Datagrams, fragmentation and reassembly ([protocol/packet.py])

    The packet record and its constructor's checks, the datagram encoder and
    decoder, message fragmentation and reassembly.  [Packet.decode] is shown to
    accept exactly the encodings of well-formed packets under the given key
    (with or without the transport pad byte) and to fail only with
    [PacketError]; reassembly is shown to invert fragmentation in any order of
    arrival. *)
From S2P Require Import Prelude Dict Struct Crc Crypto Constants.

(** ** Formats *)
Definition _PREFIX : list field := Eval vm_compute in Struct "<2sBBBBHHBBH".
Definition _AUTH : list field := Eval vm_compute in Struct "<2sBBBBHHBBHH".
Definition _HEADER : list field := Eval vm_compute in Struct "<2sBBBBHHBBHHI".
Definition HEADER_SIZE : nat := calcsize _HEADER.

(** ** The packet record *)
Record Packet := mkPacket {
  kind : MessageKind.t;
  opcode : Opcode.t;
  session_id : Z;
  request_id : Z;
  fragment_index : Z;
  fragment_count : Z;
  payload : bytes;
  flags : Z }.

#[export] Instance Packet_eq_dec : EqDecision Packet.
Proof. solve_decision. Defined.

(** [Packet.__post_init__] *)
Definition post_init (p : Packet) : result unit :=
  raise_if (negb (flags p =? 0)) ValueError (py "protocol version 2 defines no packet flags");;
  raise_if (negb ((0 <=? session_id p) && (session_id p <=? 0xFFFF))) ValueError
    (py "session_id must fit in two bytes");;
  raise_if (negb ((0 <=? request_id p) && (request_id p <=? 0xFFFF))) ValueError
    (py "request_id must fit in two bytes");;
  raise_if (negb ((1 <=? fragment_count p) && (fragment_count p <=? MAX_FRAGMENTS))) ValueError
    (py "invalid fragment_count");;
  raise_if (negb ((0 <=? fragment_index p) && (fragment_index p <? fragment_count p))) ValueError
    (py "fragment_index is outside fragment_count");;
  raise_if (MAX_FRAGMENT_PAYLOAD <? len (payload p)) ValueError
    (py "fragment payload is too large").

(** The constructor call: the record, once its checks pass. *)
Definition new_packet (p : Packet) : result Packet := post_init p;; Ok p.

(** ** Encoding *)
Definition encode (p : Packet) (key : bytes) : result bytes :=
  prefix ← pack _PREFIX ⟨MAGIC, VERSION, int_of (kind p), int_of (opcode p), flags p,
    session_id p, request_id p, fragment_index p, fragment_count p, len (payload p)⟩;
  let checksum := crc16_ccitt (prefix ++ payload p) in
  authenticated ← pack _AUTH ⟨MAGIC, VERSION, int_of (kind p), int_of (opcode p), flags p,
    session_id p, request_id p, fragment_index p, fragment_count p, len (payload p), checksum⟩;
  tag ← packet_mac (authenticated ++ payload p) key;
  tag_bytes ← pack [FI] ⟨tag⟩;
  Ok (authenticated ++ tag_bytes ++ payload p).

(** ** Decoding *)

(** [try: kind = MessageKind(..); opcode = Opcode(..) except ValueError]. *)
Definition decode_enums (raw_kind raw_opcode : Z) : result (MessageKind.t * Opcode.t) :=
  match enum_of MessageKind.t raw_kind, enum_of Opcode.t raw_opcode with
  | Ok k, Ok o => Ok (k, o)
  | _, _ => raise PacketError (py "unknown message kind or opcode")
  end.

Definition decode (datagram key : bytes) : result Packet :=
  raise_if (len datagram <? Z.of_nat HEADER_SIZE) PacketError (py "truncated packet header");;
  '⟨magic, version, raw_kind, raw_opcode, flags, session_id, request_id, fragment_index,
    fragment_count, payload_length, checksum, tag⟩ ← unpack_from _HEADER datagram 0;
  raise_if (negb (bool_decide (magic = MAGIC))) PacketError (py "invalid packet magic");;
  raise_if (negb (version =? VERSION)) PacketError
    (py "unsupported protocol version " ++ py_int version);;
  raise_if (negb (flags =? 0)) PacketError (py "unknown packet flags");;
  raise_if (MAX_FRAGMENT_PAYLOAD <? payload_length) PacketError
    (py "declared payload exceeds fragment limit");;
  let packet_length := Z.of_nat HEADER_SIZE + payload_length in
  datagram ←
    (if (len datagram =? packet_length + 1) && bool_decide (last datagram = Some x00)
     then Ok (take (Z.to_nat packet_length) datagram)
     else if negb (len datagram =? packet_length)
     then raise PacketError (py "datagram length does not match payload length")
     else Ok datagram);
  raise_if (negb ((1 <=? fragment_count) && (fragment_count <=? MAX_FRAGMENTS))) PacketError
    (py "invalid fragment count");;
  raise_if (fragment_count <=? fragment_index) PacketError (py "invalid fragment index");;
  '(kind, opcode) ← decode_enums raw_kind raw_opcode;
  let payload := drop HEADER_SIZE datagram in
  let prefix := take (calcsize _PREFIX) datagram in
  raise_if (negb (crc16_ccitt (prefix ++ payload) =? checksum)) PacketError
    (py "packet CRC mismatch");;
  let authenticated := take (calcsize _AUTH) datagram in
  expected_tag ← packet_mac (authenticated ++ payload) key;
  equal ← tags_equal tag expected_tag;
  raise_if (negb equal) PacketError (py "packet authentication failed");;
  new_packet (mkPacket kind opcode session_id request_id fragment_index fragment_count
    payload flags).

(** ** Fragmentation *)
Definition fragment_message (kind : MessageKind.t) (opcode : Opcode.t)
    (session_id request_id : Z) (payload : bytes) (flags : Z) : result (list Packet) :=
  raise_if (MAX_MESSAGE_SIZE <? len payload) ValueError
    (py "message exceeds maximum reassembled size");;
  let fragments :=
    Z.max 1 ((len payload + MAX_FRAGMENT_PAYLOAD - 1) / MAX_FRAGMENT_PAYLOAD) in
  map_result (fun index =>
    new_packet (mkPacket kind opcode session_id request_id index fragments
      (slice payload (index * MAX_FRAGMENT_PAYLOAD) ((index + 1) * MAX_FRAGMENT_PAYLOAD))
      flags))
    (seqZ 0 fragments).

(** The fields all fragments of a message share. *)
Definition identity (p : Packet) : MessageKind.t * Opcode.t * Z * Z * Z :=
  (kind p, opcode p, session_id p, request_id p, fragment_count p).

Definition reassemble_packets (values : list Packet) : result bytes :=
  match values with
  | [] => raise PacketError (py "cannot reassemble an empty packet set")
  | first :: _ =>
      raise_if (existsb (fun p => negb (bool_decide (identity p = identity first))) values)
        PacketError (py "fragment identity mismatch");;
      let by_index := dict_of fragment_index values in
      raise_if (negb (len values =? len by_index) ||
                negb (len by_index =? fragment_count first))
        PacketError (py "message has missing or duplicate fragments");;
      payloads ← map_result (fun index =>
        match dict_get index by_index with
        | Some p => Ok (payload p)
        | None => raise KeyError (py_int index)
        end) (seqZ 0 (fragment_count first));
      Ok (concat payloads)
  end.

(** ** The repository's golden vector *)
Definition golden_packet : Packet :=
  mkPacket MessageKind.REQUEST Opcode.GET_STATUS 0x1234 0x5678 0 1 (ascii_bytes "status") 0.

Example packet_golden_vector :
  encode golden_packet TEST_KEY =
  Ok (hex "444d0201020034127856000106009259b7707354737461747573").
Proof. vm_compute. reflexivity. Qed.

(** ** Well-formed packets *)
Definition valid_packet (p : Packet) : Prop := post_init p = Ok tt.

Lemma valid_packet_spec p :
  valid_packet p <->
  flags p = 0 /\ 0 <= session_id p < 65536 /\ 0 <= request_id p < 65536 /\
  1 <= fragment_count p <= 32 /\ 0 <= fragment_index p < fragment_count p /\
  len (payload p) <= 1024.
Proof.
  unfold valid_packet, post_init, MAX_FRAGMENTS, MAX_FRAGMENT_PAYLOAD. split.
  - intros H. inv_ok. lia.
  - intros H. rewrite !raise_if_false by lia. done.
Qed.

Lemma new_packet_Ok p q : new_packet p = Ok q <-> q = p /\ valid_packet p.
Proof.
  unfold new_packet, valid_packet. destruct (post_init p) as [[]|]; simpl.
  - split; [by intros <-%Ok_inj | by intros [-> _]].
  - split; [done | by intros [_ ?]].
Qed.

Lemma new_packet_valid p : valid_packet p -> new_packet p = Ok p.
Proof. intros. by apply new_packet_Ok. Qed.

Lemma kind_byte (k : MessageKind.t) : 0 <= int_of k < 256.
Proof. destruct k; simpl; lia. Qed.
Lemma opcode_byte (o : Opcode.t) : 0 <= int_of o < 256.
Proof. destruct o; simpl; lia. Qed.

(** The header fields of a packet, split as the formats split them. *)
Definition prefix_fields (p : Packet) : denote _PREFIX :=
  ⟨MAGIC, VERSION, int_of (kind p), int_of (opcode p), flags p, session_id p, request_id p,
   fragment_index p, fragment_count p, len (payload p)⟩.

Definition header_fields (p : Packet) (crc tag : Z) : denote _HEADER :=
  ⟨MAGIC, VERSION, int_of (kind p), int_of (opcode p), flags p, session_id p, request_id p,
   fragment_index p, fragment_count p, len (payload p), crc, tag⟩.

Lemma prefix_fields_fit p : valid_packet p -> fits _PREFIX (prefix_fields p).
Proof.
  intros Hp%valid_packet_spec. pose proof (kind_byte (kind p)).
  pose proof (opcode_byte (opcode p)). pose proof (len_nonneg (payload p)).
  cbn [fits field_fits _PREFIX prefix_fields fst snd].
  unfold VERSION. split_and!; try lia. done.
Qed.

(** The datagrams that encode a packet under a key: prefix fields, CRC, tag, payload. *)
Definition encoded (p : Packet) (key d : bytes) : Prop :=
  exists prefix tag,
    let authenticated := prefix ++ le_bytes 2 (crc16_ccitt (prefix ++ payload p)) in
    pack _PREFIX (prefix_fields p) = Ok prefix /\ word32 tag /\
    packet_mac (authenticated ++ payload p) key = Ok tag /\
    d = authenticated ++ le_bytes 4 tag ++ payload p.

Lemma encode_Ok p key d : valid_packet p -> encode p key = Ok d <-> encoded p key d.
Proof.
  intros Hp. destruct (pack_fits _PREFIX _ (prefix_fields_fit p Hp)) as [prefix Hprefix].
  pose proof (pack_app _PREFIX [FH] _ _ _ _ Hprefix (pack_FH ⟨_⟩ (crc16_range (prefix ++ payload p))))
    as Hauth. cbn [fst] in Hauth.
  unfold encode. pack_with Hprefix. pack_with Hauth. unfold encoded. split.
  - intros H. inv_ok. apply pack_FI_inv in E0 as [-> Hw].
    exists prefix, v. split_and!; done.
  - intros (prefix' & tag & Hpre' & Hw & Hmac & ->). rewrite Hprefix in Hpre'.
    apply Ok_inj in Hpre' as <-. rewrite Hmac. cbn [mbind result_bind].
    by rewrite pack_FI.
Qed.

Lemma encode_total p key :
  valid_packet p -> length key = 16%nat -> exists d, encode p key = Ok d /\ encoded p key d.
Proof.
  intros Hp Hk. destruct (pack_fits _PREFIX _ (prefix_fields_fit p Hp)) as [prefix Hprefix].
  destruct (packet_mac_total ((prefix ++ le_bytes 2 (crc16_ccitt (prefix ++ payload p)))
    ++ payload p) key Hk) as (tag & Htag & Hw).
  { apply pack_len in Hprefix. apply valid_packet_spec in Hp.
    rewrite !len_app, Hprefix. unfold len in *. rewrite length_le_bytes.
    change (calcsize _PREFIX) with 14%nat. lia. }
  assert (He : encoded p key ((prefix ++ le_bytes 2 (crc16_ccitt (prefix ++ payload p)))
    ++ le_bytes 4 tag ++ payload p)) by (exists prefix, tag; done).
  eexists. split; [by apply encode_Ok, He|exact He].
Qed.

Lemma encoded_length p key d : encoded p key d -> len d = 20 + len (payload p).
Proof.
  intros (prefix & tag & Hprefix & _ & _ & ->). apply pack_len in Hprefix.
  rewrite !len_app, Hprefix. unfold len. rewrite !length_le_bytes.
  change (calcsize _PREFIX) with 14%nat. lia.
Qed.

(** What an encoded datagram's pieces are, at the offsets the decoder reads. *)
Lemma encoded_pieces p key d :
  valid_packet p -> encoded p key d ->
  exists crc tag, word32 tag /\
    crc = crc16_ccitt (take (calcsize _PREFIX) d ++ payload p) /\
    packet_mac (take (calcsize _AUTH) d ++ payload p) key = Ok tag /\
    drop HEADER_SIZE d = payload p /\
    forall rest, unpack_from _HEADER (take HEADER_SIZE d ++ rest) 0 =
      Ok (header_fields p crc tag).
Proof.
  intros Hp (prefix & tag & Hprefix & Hw & Hmac & ->).
  pose proof (pack_length _ _ _ Hprefix) as Lp.
  set (crc := crc16_ccitt (prefix ++ payload p)) in *.
  assert (Hcrc : 0 <= crc < 65536) by apply crc16_range.
  pose proof (pack_app _PREFIX [FH] _ _ _ _ Hprefix (pack_FH ⟨crc⟩ Hcrc)) as Hauth.
  cbn [fst] in Hauth.
  pose proof (pack_length _ _ _ Hauth) as La.
  pose proof (pack_app (_PREFIX ++ [FH]) [FI] _ _ _ _ Hauth (pack_FI ⟨tag⟩ Hw)) as Hhdr.
  cbn [fst] in Hhdr.
  pose proof (pack_length _ _ _ Hhdr) as Lh.
  exists crc, tag. split_and!; [done|..].
  - unfold crc. rewrite <- !app_assoc. by rewrite <- Lp, take_app_length.
  - change (calcsize _AUTH) with (calcsize (_PREFIX ++ [FH])).
    by rewrite <- La, take_app_length.
  - change HEADER_SIZE with (calcsize ((_PREFIX ++ [FH]) ++ [FI])).
    by rewrite <- Lh, (app_assoc _ (le_bytes 4 tag)), drop_app_length.
  - intros rest. change HEADER_SIZE with (calcsize ((_PREFIX ++ [FH]) ++ [FI])).
    rewrite <- Lh, (app_assoc _ (le_bytes 4 tag)), take_app_length.
    apply (unpack_from_pack ((_PREFIX ++ [FH]) ++ [FI])); [|exact Hhdr].
    apply (fits_dapp (_PREFIX ++ [FH]) [FI] (dapp _PREFIX [FH] (prefix_fields p) ⟨crc⟩) ⟨tag⟩);
      [|exact (conj Hw I)].
    apply (fits_dapp _PREFIX [FH] _ ⟨crc⟩); [by apply prefix_fields_fit|exact (conj Hcrc I)].
Qed.

Lemma decode_enums_Ok (k : MessageKind.t) (o : Opcode.t) :
  decode_enums (int_of k) (int_of o) = Ok (k, o).
Proof. unfold decode_enums. by rewrite !enum_of_int_of. Qed.

Lemma decode_enums_inv a b k o : decode_enums a b = Ok (k, o) -> a = int_of k /\ b = int_of o.
Proof.
  unfold decode_enums. destruct (enum_of MessageKind.t a) eqn:E1; [|done].
  destruct (enum_of Opcode.t b) eqn:E2; [|done]. intros H. apply Ok_inj in H. simplify_eq.
  by apply enum_of_Ok in E1, E2.
Qed.

(** The decoder accepts an encoded datagram, bare or followed by one zero byte. *)
Lemma decode_encoded p key d pad :
  valid_packet p -> encoded p key d -> pad = [] \/ pad = [x00] -> decode (d ++ pad) key = Ok p.
Proof.
  intros Hp He Hpad. pose proof (encoded_length p key d He) as Hlen.
  destruct (encoded_pieces p key d Hp He) as (crc & tag & Hw & Hcrc & Hmac & Hdrop & Hun).
  assert (Hun' : unpack_from _HEADER (d ++ pad) 0 = Ok (header_fields p crc tag)).
  { rewrite <- (take_drop HEADER_SIZE d), <- app_assoc. apply Hun. }
  unfold decode. rewrite Hun'. pose proof (proj1 (valid_packet_spec p) Hp) as Hv.
  pose proof (len_nonneg (payload p)). rewrite raise_if_false.
  2: { change (Z.of_nat HEADER_SIZE) with 20. rewrite len_app. pose proof (len_nonneg pad). lia. }
  unfold header_fields. cbn [mbind result_bind].
  unfold MAX_FRAGMENT_PAYLOAD, MAX_FRAGMENTS. change (Z.of_nat HEADER_SIZE) with 20.
  rewrite !raise_if_false by (rewrite ?bool_decide_eq_true_2 by done; lia).
  cbn [mbind result_bind].
  assert (Hcut : (if (len (d ++ pad) =? 20 + len (payload p) + 1) &&
                     bool_decide (last (d ++ pad) = Some x00)
                  then Ok (take (Z.to_nat (20 + len (payload p))) (d ++ pad))
                  else if negb (len (d ++ pad) =? 20 + len (payload p))
                  then raise PacketError (py "datagram length does not match payload length")
                  else Ok (d ++ pad)) = Ok d).
  { rewrite <- Hlen. destruct Hpad as [-> | ->].
    - rewrite app_nil_r, (proj2 (Z.eqb_neq (len d) (len d + 1))), Z.eqb_refl by lia. done.
    - rewrite len_app, last_snoc, bool_decide_eq_true_2 by done.
      rewrite (proj2 (Z.eqb_eq (len d + len [x00]) (len d + 1))) by (unfold len; simpl; lia).
      cbn [andb]. unfold len. by rewrite Nat2Z.id, take_app_length. }
  rewrite Hcut. cbn [mbind result_bind]. rewrite decode_enums_Ok. cbn [mbind result_bind].
  rewrite Hdrop, <- Hcrc, Z.eqb_refl. cbn [negb raise_if mbind result_bind].
  rewrite Hmac. cbn [mbind result_bind]. rewrite tags_equal_words by done.
  cbn [mbind result_bind]. rewrite bool_decide_eq_true_2 by done.
  cbn [negb raise_if mbind result_bind]. destruct p. by apply new_packet_valid.
Qed.

(** The transport pad: the decoder's cut leaves a datagram of the declared length. *)
Lemma cut_pad_inv (d d' : bytes) n :
  0 <= n ->
  (if (len d =? n + 1) && bool_decide (last d = Some x00) then Ok (take (Z.to_nat n) d)
   else if negb (len d =? n)
   then raise PacketError (py "datagram length does not match payload length")
   else Ok d) = Ok d' ->
  len d' = n /\ (d = d' \/ d = d' ++ [x00]).
Proof.
  intros Hn H. destruct (_ && _) eqn:E.
  - apply Ok_inj in H as <-. apply andb_true_iff in E as [E1%Z.eqb_eq E2%bool_decide_eq_true].
    apply last_Some in E2 as [l ->]. rewrite len_app in E1. unfold len in *. simpl in E1.
    rewrite take_app_le, length_take by lia. split; [lia|]. right. f_equal.
    rewrite take_ge; [done|lia].
  - destruct (Z.eqb_spec (len d) n) as [<-|]; [|done]. apply Ok_inj in H as <-. by split; [|left].
Qed.

Lemma take_take_min {A} (l : list A) n m : (n <= m)%nat -> take n (take m l) = take n l.
Proof. intros. rewrite take_take. f_equal. lia. Qed.

Lemma encoded_intro p key e crc tag :
  pack _HEADER (header_fields p crc tag) = Ok (take (calcsize _HEADER) e) ->
  (20 <= length e)%nat -> drop HEADER_SIZE e = payload p ->
  crc16_ccitt (take (calcsize _PREFIX) e ++ payload p) = crc ->
  packet_mac (take (calcsize _AUTH) e ++ payload p) key = Ok tag -> word32 tag ->
  encoded p key e.
Proof.
  intros Hpack Hlen Hdrop Hcrc Hmac Hw.
  pose proof (pack_app_inv (_PREFIX ++ [FH]) [FI] (dapp _PREFIX [FH] (prefix_fields p) ⟨crc⟩)
    ⟨tag⟩ _ Hpack) as [Ha Ht].
  pose proof (pack_app_inv _PREFIX [FH] (prefix_fields p) ⟨crc⟩ _ Ha) as [Hp Hc].
  apply pack_FI_inv in Ht as [Ht _]. apply pack_FH_inv in Hc as [Hc _].
  change (calcsize (_PREFIX ++ [FH])) with 16%nat in *.
  change (calcsize _HEADER) with 20%nat in *. change (calcsize _PREFIX) with 14%nat in *.
  change (calcsize _AUTH) with 16%nat in *. change HEADER_SIZE with 20%nat in *.
  rewrite !take_take_min in * by lia.
  assert (Hauth : take 14 e ++ le_bytes 2 crc = take 16 e).
  { rewrite <- Hc. rewrite <- (take_drop 14 (take 16 e)) at 2. by rewrite take_take_min by lia. }
  exists (take 14 e), tag. rewrite Hcrc, Hauth. split_and!; [exact Hp|done|done|].
  rewrite <- Ht, <- Hdrop.
  assert (take 16 (take 20 e) = take 16 e) as <- by (by rewrite take_take_min by lia).
  rewrite app_assoc, !take_drop. done.
Qed.

Lemma decode_inv d key p :
  decode d key = Ok p ->
  valid_packet p /\ exists e, encoded p key e /\ (d = e \/ d = e ++ [x00]).
Proof.
  intros H. unfold decode in H. apply bind_Ok in H as ([] & _ & H).
  apply bind_Ok in H as (v & Hv & H).
  destruct (unpack_from_Ok _HEADER d 0 v Hv) as (Hfit & Hpack & Hsize). clear Hv. rewrite drop_0 in Hpack.
  destruct v as (magic & ver & rk & ro & fl & sid & rid & fi & fc & pl & crc & tag & []).
  inv_ok. bool_to_prop. cbn [Nat.add] in Hsize.
  assert (0 <= pl) by (destruct Hfit as (_&_&_&_&_&_&_&_&_&[? _]&_); done).
  apply cut_pad_inv in E3 as [Hlen Hd]; [|change (Z.of_nat HEADER_SIZE) with 20; lia].
  destruct v6 as [k o]. apply decode_enums_inv in E6 as [-> ->]. inv_ok.
  apply new_packet_Ok in H as [-> Hp]. split; [done|]. exists v3. split; [|done].
  bool_to_prop. destruct v8; [|discriminate]. apply tags_equal_true in E6 as [-> Hw].
  apply Z.eqb_eq in E0, E1, E3. subst ver fl.
  change (Z.of_nat HEADER_SIZE) with 20 in Hlen.
  assert (Hpl : pl = len (drop HEADER_SIZE v3)).
  { unfold len in *. rewrite length_drop. change HEADER_SIZE with 20%nat. lia. }
  assert (Htake : take (calcsize _HEADER) d = take (calcsize _HEADER) v3).
  { destruct Hd as [-> | ->]; [done|]. rewrite take_app_le; [done|].
    change (calcsize _HEADER) with 20%nat. unfold len in Hlen. lia. }
  apply (encoded_intro _ _ _ crc v7); cbn [payload]; try done.
  - rewrite <- Htake, <- Hpack. unfold header_fields. cbn [kind opcode flags session_id
      request_id fragment_index fragment_count payload]. by rewrite <- Hpl, E.
  - unfold len in Hlen. lia.
Qed.

(** ** Errors of the decoder *)
Definition is_packet_error (c : exn_class) : Prop := c = PacketError.

Lemma raises_tags_equal P a b : word32 a -> word32 b -> raises P (tags_equal a b).
Proof. intros. by rewrite tags_equal_words. Qed.

Lemma raises_cut (d : bytes) n m :
  raises is_packet_error
    (if (len d =? n + 1) && bool_decide (last d = Some x00) then Ok (take m d)
     else if negb (len d =? n)
     then raise PacketError (py "datagram length does not match payload length")
     else Ok d).
Proof. by repeat case_match. Qed.

Lemma raises_decode_enums a b : raises is_packet_error (decode_enums a b).
Proof. unfold decode_enums. by repeat case_match. Qed.

Lemma decode_raises d key : length key = 16%nat -> raises is_packet_error (decode d key).
Proof.
  intros Hk. unfold decode. apply raises_bind; [by apply raises_raise_if|].
  intros [] Hlen%raise_if_Ok. change (Z.of_nat HEADER_SIZE) with 20 in *.
  destruct (unpack_from_size _HEADER d 0) as [v Hv];
    [change (calcsize _HEADER) with 20%nat; unfold len in Hlen; lia|].
  destruct (unpack_from_Ok _HEADER d 0 v Hv) as (Hfit & _ & _).
  rewrite Hv. cbn [mbind result_bind].
  destruct v as (magic & ver & rk & ro & fl & sid & rid & fi & fc & pl & crc & tag & []).
  destruct Hfit as (_&_&_&_&_&Hsid&Hrid&Hfi&Hfc&Hpl&_&Htag&_).
  cbn [field_fits fst snd] in *.
  do 2 (apply raises_bind; [by apply raises_raise_if|]; intros _ _).
  apply raises_bind; [by apply raises_raise_if|]. intros [] Hflags%raise_if_Ok.
  apply raises_bind; [by apply raises_raise_if|]. intros [] Hmax%raise_if_Ok.
  apply raises_bind; [apply raises_cut|]. intros d' Hd'.
  apply cut_pad_inv in Hd' as [Hd' _]; [|lia].
  apply raises_bind; [by apply raises_raise_if|]. intros [] Hcount%raise_if_Ok.
  apply raises_bind; [by apply raises_raise_if|]. intros [] Hindex%raise_if_Ok.
  apply raises_bind; [apply raises_decode_enums|]. intros [k o] _.
  apply raises_bind; [by apply raises_raise_if|]. intros _ _.
  unfold MAX_FRAGMENT_PAYLOAD in Hmax.
  assert (Hpay : len (drop HEADER_SIZE d') = pl).
  { unfold len in *. rewrite length_drop. change HEADER_SIZE with 20%nat. lia. }
  assert (Hauth : len (take (calcsize _AUTH) d') <= 16).
  { unfold len in *. rewrite length_take. change (calcsize _AUTH) with 16%nat. lia. }
  destruct (packet_mac_total (take (calcsize _AUTH) d' ++ drop HEADER_SIZE d') key Hk)
    as (t & -> & Ht); [rewrite len_app; lia|]. cbn [mbind result_bind].
  apply raises_bind; [by apply raises_tags_equal|]. intros eq _.
  apply raises_bind; [by apply raises_raise_if|]. intros _ _.
  rewrite new_packet_valid; [done|]. apply valid_packet_spec.
  cbn [flags session_id request_id fragment_count fragment_index payload].
  unfold MAX_FRAGMENTS in Hcount. rewrite Hpay. lia.
Qed.

(** A datagram whose header is kept and whose payload is replaced by one of the
    same length with another checksum. *)
Lemma decode_bad_payload p key d q :
  valid_packet p -> encoded p key d -> len q = len (payload p) ->
  crc16_ccitt (take (calcsize _PREFIX) d ++ payload p) <>
    crc16_ccitt (take (calcsize _PREFIX) d ++ q) ->
  decode (take HEADER_SIZE d ++ q) key = raise PacketError (py "packet CRC mismatch").
Proof.
  intros Hp He Hq Hcrc. pose proof (encoded_length p key d He) as Hlen.
  destruct (encoded_pieces p key d Hp He) as (crc & tag & _ & Hc & _ & _ & Hun).
  pose proof (proj1 (valid_packet_spec p) Hp) as Hv. pose proof (len_nonneg (payload p)).
  change HEADER_SIZE with 20%nat in *. change (calcsize _PREFIX) with 14%nat in *.
  assert (Ht : length (take 20 d) = 20%nat) by (rewrite length_take; unfold len in *; lia).
  assert (Hd' : len (take 20 d ++ q) = 20 + len (payload p))
    by (rewrite len_app, Hq; unfold len; rewrite Ht; lia).
  unfold decode. rewrite Hun. unfold header_fields. change (Z.of_nat HEADER_SIZE) with 20.
  pass_guard lia. unfold MAX_FRAGMENT_PAYLOAD, MAX_FRAGMENTS.
  do 4 (pass_guard (rewrite ?bool_decide_eq_true_2 by done; lia)).
  rewrite Hd', Z.eqb_refl, (proj2 (Z.eqb_neq (20 + len (payload p)) (20 + len (payload p) + 1)))
    by lia. cbn [andb negb mbind result_bind].
  do 2 pass_guard lia. rewrite decode_enums_Ok. cbn [mbind result_bind].
  change HEADER_SIZE with 20%nat. change (calcsize _PREFIX) with 14%nat.
  rewrite (take_app_le _ q 14), (take_take_min d 14 20) by lia.
  rewrite (drop_app_length' (take 20 d) q 20) by lia. rewrite raise_if_true; [done|].
  apply negb_true_iff, Z.eqb_neq. congruence.
Qed.

(** ** Fragmentation *)
Section Fragments.
Context (k : MessageKind.t) (o : Opcode.t) (sid rid : Z) (data : bytes).

Definition fragment_total : Z :=
  Z.max 1 ((len data + MAX_FRAGMENT_PAYLOAD - 1) / MAX_FRAGMENT_PAYLOAD).

Definition fragment (index : Z) : Packet :=
  mkPacket k o sid rid index fragment_total
    (slice data (index * MAX_FRAGMENT_PAYLOAD) ((index + 1) * MAX_FRAGMENT_PAYLOAD)) 0.

Definition fragments : list Packet := fragment <$> seqZ 0 fragment_total.

Hypothesis Hdata : len data <= MAX_MESSAGE_SIZE.
Hypothesis Hsid : 0 <= sid < 65536.
Hypothesis Hrid : 0 <= rid < 65536.

Lemma fragment_total_bound :
  1 <= fragment_total <= 32 /\ len data <= fragment_total * 1024 /\
  (len data = 0 \/ (fragment_total - 1) * 1024 < len data).
Proof using Hdata.
  revert Hdata. unfold fragment_total, MAX_MESSAGE_SIZE, MAX_FRAGMENT_PAYLOAD, MAX_FRAGMENTS.
  intros Hd. pose proof (len_nonneg data).
  pose proof (Z.div_mod (len data + 1024 - 1) 1024).
  pose proof (Z.mod_pos_bound (len data + 1024 - 1) 1024). lia.
Qed.

Lemma slice_length_le {A} (l : list A) a b : 0 <= a <= b -> len (slice l a b) <= b - a.
Proof. intros. unfold slice, len. rewrite length_take. lia. Qed.

Lemma fragment_valid index :
  0 <= index < fragment_total -> valid_packet (fragment index).
Proof using Hdata Hsid Hrid.
  intros Hi. apply valid_packet_spec. pose proof fragment_total_bound.
  cbn [fragment flags session_id request_id fragment_count fragment_index payload].
  pose proof (slice_length_le data (index * 1024) ((index + 1) * 1024)).
  unfold MAX_FRAGMENT_PAYLOAD. lia.
Qed.

Lemma fragment_message_Ok : fragment_message k o sid rid data 0 = Ok fragments.
Proof using Hdata Hsid Hrid.
  unfold fragment_message. rewrite raise_if_false by lia. cbn [mbind result_bind].
  apply map_result_pure, Forall_seqZ. intros index Hi.
  apply new_packet_valid, fragment_valid. exact Hi.
Qed.

Lemma fragments_valid : Forall valid_packet fragments.
Proof using Hdata Hsid Hrid.
  apply Forall_fmap, Forall_seqZ. intros index Hi. by apply fragment_valid.
Qed.

Lemma fragments_indices : fragment_index <$> fragments = seqZ 0 fragment_total.
Proof. unfold fragments. rewrite <- list_fmap_compose. by apply list_fmap_id. Qed.

Lemma fragments_len : len fragments = fragment_total.
Proof using Hdata.
  unfold len, fragments. rewrite length_fmap, length_seqZ. pose proof fragment_total_bound. lia.
Qed.

Lemma slices_concat {A} (l : list A) (c n : Z) :
  0 <= c -> 0 <= n ->
  concat ((fun i => slice l (i * c) ((i + 1) * c)) <$> seqZ 0 n) = take (Z.to_nat (n * c)) l.
Proof.
  intros Hc. revert n. apply natlike_ind; [done|]. intros n Hn IH.
  unfold Z.succ. rewrite seqZ_app, fmap_app, concat_app, IH by lia. simpl.
  rewrite app_nil_r. unfold slice. rewrite Z.add_0_l, take_take_drop. f_equal. lia.
Qed.

Lemma fragments_payload : concat (payload <$> fragments) = data.
Proof using Hdata.
  unfold fragments. rewrite <- list_fmap_compose.
  pose proof fragment_total_bound as (Hb & Hl & _). unfold len in Hl.
  transitivity (take (Z.to_nat (fragment_total * 1024)) data); [|apply take_ge; lia].
  apply (slices_concat data 1024); lia.
Qed.

Lemma fragments_identity :
  Forall (fun p => identity p = (k, o, sid, rid, fragment_total)) fragments.
Proof. by apply Forall_fmap, Forall_seqZ. Qed.
End Fragments.

(** ** Reassembly *)

(** [n] distinct indices below [n] are all of them. *)
Lemma indices_permutation (l : list Z) n :
  NoDup l -> len l = n -> Forall (fun i => 0 <= i < n) l -> l ≡ₚ seqZ 0 n.
Proof.
  intros Hnd Hlen Hr. apply submseteq_length_Permutation.
  - apply NoDup_submseteq; [done|]. intros i Hi. rewrite Forall_forall in Hr.
    apply elem_of_seqZ. apply Hr in Hi. lia.
  - rewrite length_seqZ. unfold len in Hlen. lia.
Qed.

(** A complete message: packets in index order, with their common identity. *)
Definition complete_message (ps : list Packet) (data : bytes) : Prop :=
  ps <> [] /\ fragment_index <$> ps = seqZ 0 (len ps) /\
  Forall (fun p => fragment_count p = len ps) ps /\
  (exists i, Forall (fun p => identity p = i) ps) /\
  data = concat (payload <$> ps).

Lemma lookup_all (f : Z -> option Packet) ps ix :
  Forall2 (fun i p => f i = Some p) ix ps ->
  map_result (fun i => match f i with Some p => Ok (payload p) | None => raise KeyError (py_int i) end)
    ix = Ok (payload <$> ps).
Proof.
  intros H. apply map_result_Ok. induction H as [|i p ix ps Hf _ IH]; csimpl; constructor; [|done].
  by rewrite Hf.
Qed.

Lemma reassemble_complete ps ps' data :
  complete_message ps data -> ps' ≡ₚ ps -> reassemble_packets ps' = Ok data.
Proof.
  intros (Hne & Hidx & Hcount & [i Hid] & ->) Hperm.
  assert (Hid' : Forall (fun p => identity p = i) ps') by (by rewrite Hperm).
  assert (Hcount' : Forall (fun p => fragment_count p = len ps) ps') by (by rewrite Hperm).
  assert (Hnd : NoDup (fragment_index <$> ps')) by (rewrite Hperm, Hidx; apply NoDup_seqZ).
  assert (Hlen : len ps' = len ps) by (unfold len; by rewrite Hperm).
  destruct ps' as [|first ps']; [by apply Permutation_nil_l in Hperm|].
  unfold reassemble_packets. rewrite (raise_if_false (existsb _ _)).
  2: { apply existsb_false_Forall. pose proof (Forall_inv Hid') as Hf.
       eapply Forall_impl; [exact Hid'|]. intros p Hp. by rewrite bool_decide_eq_true_2 by congruence. }
  cbn [mbind result_bind]. rewrite (dict_of_nodup fragment_index _ Hnd).
  apply Forall_cons in Hcount' as [Hc _]. rewrite raise_if_false.
  2: { by rewrite len_fmap, Hc, Hlen, !Z.eqb_refl. }
  cbn [mbind result_bind]. rewrite Hc, <- Hidx.
  rewrite (lookup_all (fun i => dict_get i ((fun x => (fragment_index x, x)) <$> first :: ps')) ps);
    [done|].
  apply Forall2_fmap_l, Forall_Forall2_diag, Forall_forall. intros p Hp.
  apply dict_get_elem.
  - unfold dict_ok, dict_keys. by rewrite <- list_fmap_compose.
  - apply list_elem_of_fmap. exists p. split; [done|]. by rewrite Hperm.
Qed.

Lemma dict_of_length_nodup {V} (key : V -> Z) values :
  length (dict_of key values) = length values -> NoDup (key <$> values).
Proof.
  intros Hlen. assert (Hp : dict_keys (dict_of key values) ≡ₚ key <$> values).
  { apply submseteq_length_Permutation.
    - apply NoDup_submseteq; [apply dict_of_ok|]. intros k.
      unfold dict_of. rewrite dict_of_keys_incl. intros [Hk|Hk]; [|done].
      by apply not_elem_of_nil in Hk.
    - unfold dict_keys. rewrite !length_fmap. lia. }
  rewrite <- Hp. apply dict_of_ok.
Qed.

(** Once the guards pass, the packets are a permutation of a complete message. *)
Lemma reassemble_guards first ps :
  Forall valid_packet (first :: ps) ->
  existsb (fun p => negb (bool_decide (identity p = identity first))) (first :: ps) = false ->
  negb (len (first :: ps) =? len (dict_of fragment_index (first :: ps))) ||
    negb (len (dict_of fragment_index (first :: ps)) =? fragment_count first) = false ->
  exists ps', first :: ps ≡ₚ ps' /\ complete_message ps' (concat (payload <$> ps')).
Proof.
  intros Hv Hid Hlen. bool_to_prop. remember (first :: ps) as l eqn:El.
  assert (Hsame : Forall (fun p => identity p = identity first) l).
  { apply Forall_forall. intros p Hp. destruct (decide (identity p = identity first)); [done|].
    rewrite existsb_false_Forall, Forall_forall in Hid. specialize (Hid p Hp).
    by rewrite bool_decide_eq_false_2 in Hid. }
  assert (Hcount : Forall (fun p => fragment_count p = len l) l).
  { eapply Forall_impl; [exact Hsame|]. intros p Hp. unfold identity in Hp. simplify_eq. lia. }
  assert (Hnd : NoDup (fragment_index <$> l)).
  { apply dict_of_length_nodup. unfold len in *. lia. }
  assert (Hperm : fragment_index <$> l ≡ₚ seqZ 0 (len l)).
  { apply indices_permutation; [done|unfold len; by rewrite length_fmap|].
    apply Forall_fmap, Forall_forall. intros p Hp. rewrite Forall_forall in Hv, Hcount.
    specialize (Hv p Hp). specialize (Hcount p Hp). apply valid_packet_spec in Hv.
    simpl. lia. }
  symmetry in Hperm. apply Permutation_map_inv in Hperm as (ps' & Hidx & Hperm).
  exists ps'. split; [done|].
  assert (len ps' = len l) as Hl by (unfold len; by rewrite Hperm).
  split_and!.
  - intros ->. apply Permutation_nil_r in Hperm. congruence.
  - rewrite Hl. symmetry. exact Hidx.
  - rewrite Hl, <- Hperm. done.
  - exists (identity first). by rewrite <- Hperm.
  - done.
Qed.

Lemma reassemble_sound ps data :
  Forall valid_packet ps -> reassemble_packets ps = Ok data ->
  exists ps', ps ≡ₚ ps' /\ complete_message ps' data.
Proof.
  intros Hv H. destruct ps as [|first ps]; [done|]. pose proof H as Hok.
  unfold reassemble_packets in H. apply bind_Ok in H as ([] & E1%raise_if_Ok & H).
  apply bind_Ok in H as ([] & E2%raise_if_Ok & _).
  destruct (reassemble_guards first ps Hv E1 E2) as (ps' & Hp & Hc).
  exists ps'. split; [done|]. rewrite (reassemble_complete _ _ _ Hc Hp) in Hok.
  by apply Ok_inj in Hok as <-.
Qed.

Lemma reassemble_raises ps :
  Forall valid_packet ps -> raises is_packet_error (reassemble_packets ps).
Proof.
  intros Hv. destruct ps as [|first ps]; [done|].
  destruct (existsb (fun p => negb (bool_decide (identity p = identity first))) (first :: ps))
    eqn:E1; [unfold reassemble_packets; rewrite E1; done|].
  destruct (negb (len (first :: ps) =? len (dict_of fragment_index (first :: ps))) ||
    negb (len (dict_of fragment_index (first :: ps)) =? fragment_count first)) eqn:E2.
  { unfold reassemble_packets. by rewrite E1, E2. }
  destruct (reassemble_guards first ps Hv E1 E2) as (ps' & Hp & Hc).
  by rewrite (reassemble_complete _ _ _ Hc Hp).
Qed.

Lemma fragments_complete k o sid rid data :
  len data <= MAX_MESSAGE_SIZE -> complete_message (fragments k o sid rid data) data.
Proof.
  intros Hd. pose proof (fragments_len k o sid rid data Hd) as Hl.
  pose proof (fragment_total_bound data Hd) as [Hb _]. split_and!.
  - intros E. rewrite E in Hl. unfold len in Hl. simpl in Hl. lia.
  - rewrite Hl. apply fragments_indices.
  - rewrite Hl. by apply Forall_fmap, Forall_seqZ.
  - eexists. apply fragments_identity.
  - by rewrite fragments_payload.
Qed.

(** ** Properties *)

(** C23. Round trip of datagrams: every well-formed packet encodes under a
    16-byte key to a datagram of 20 header bytes plus the payload, never above
    the 1200-byte datagram limit, and the decoder gives the packet back from
    that datagram, bare or with the zero transport pad byte. *)
Theorem packet_encode_decode p key :
  valid_packet p -> length key = 16%nat ->
  exists d, encode p key = Ok d /\ len d = 20 + len (payload p) /\ len d <= MAX_DATAGRAM /\
    decode d key = Ok p /\ decode (d ++ [x00]) key = Ok p.
Proof.
  intros Hp Hk. destruct (encode_total p key Hp Hk) as (d & Hd & He). exists d.
  pose proof (encoded_length p key d He) as Hlen. unfold MAX_DATAGRAM.
  split_and!; [done|done| |rewrite <- (app_nil_r d)|];
    [apply valid_packet_spec in Hp; lia | by eapply decode_encoded; eauto ..].
Qed.

Lemma packet_encode_decode_witness :
  exists d, encode golden_packet TEST_KEY = Ok d /\ len d = 20 + len (payload golden_packet) /\
    len d <= MAX_DATAGRAM /\ decode d TEST_KEY = Ok golden_packet /\
    decode (d ++ [x00]) TEST_KEY = Ok golden_packet.
Proof. apply packet_encode_decode; vm_compute; reflexivity. Defined.

(** C31. The decoder is strict: it accepts only datagrams that [Packet.encode]
    produces under the same key from a well-formed packet, followed by at most
    one zero pad byte. *)
Theorem packet_decode_canonical d key p :
  decode d key = Ok p ->
  valid_packet p /\ exists e, encode p key = Ok e /\ (d = e \/ d = e ++ [x00]).
Proof.
  intros (Hp & e & He & Hd)%decode_inv. split; [done|]. exists e. split; [|done].
  by apply encode_Ok.
Qed.

Lemma packet_decode_canonical_witness :
  valid_packet golden_packet /\
  exists e, encode golden_packet TEST_KEY = Ok e /\
    (hex "444d0201020034127856000106009259b770735473746174757300" = e \/
     hex "444d0201020034127856000106009259b770735473746174757300" = e ++ [x00]).
Proof. apply packet_decode_canonical. vm_compute. reflexivity. Defined.

(** Whatever bytes arrive, decoding under a 16-byte key either returns a
    packet or raises [PacketError], the only class its callers catch: no
    [struct.error], [ValueError] or [IndexError] escapes. *)
Theorem packet_decode_raises_only_packet_error d key e :
  length key = 16%nat -> decode d key = Err e -> exn_cls e = PacketError.
Proof. intros Hk. apply (raises_Err is_packet_error). by apply decode_raises. Qed.

Lemma packet_decode_raises_only_packet_error_witness :
  exn_cls (Exn PacketError (py "truncated packet header")) = PacketError.
Proof.
  apply (packet_decode_raises_only_packet_error (ascii_bytes "DM") TEST_KEY);
    vm_compute; reflexivity.
Defined.

(** Corruption of a payload is detected before authentication: if two
    adjacent payload bytes of an encoded datagram are changed, the decoder
    rejects it with a CRC mismatch, whatever the key. *)
Theorem packet_decode_detects_payload_corruption p key d pre x y x' y' post :
  valid_packet p -> payload p = pre ++ x :: y :: post -> encode p key = Ok d ->
  (x, y) <> (x', y') ->
  decode (take HEADER_SIZE d ++ pre ++ x' :: y' :: post) key =
    raise PacketError (py "packet CRC mismatch").
Proof.
  intros Hp Hpay He Hne. apply encode_Ok in He; [|done].
  apply (decode_bad_payload p); [done..| |].
  - rewrite Hpay, !len_app. done.
  - rewrite Hpay. intros H. apply Hne. rewrite !app_assoc in H.
    apply crc16_adjacent_inj in H as [-> ->]. done.
Qed.

Lemma packet_decode_detects_payload_corruption_witness :
  decode (take HEADER_SIZE (hex "444d0201020034127856000106009259b7707354737461747573")
          ++ ascii_bytes "sta" ++ x74 :: x74 :: ascii_bytes "s") TEST_KEY =
    raise PacketError (py "packet CRC mismatch").
Proof.
  apply (packet_decode_detects_payload_corruption golden_packet TEST_KEY
    (hex "444d0201020034127856000106009259b7707354737461747573")
    (ascii_bytes "sta") x74 x75 x74 x74 (ascii_bytes "s"));
    [vm_compute; reflexivity .. | discriminate].
Defined.

(** Fragmentation round trip: a message of up to 32768 bytes with 16-bit
    identifiers always fragments, into 1 to 32 well-formed packets, and
    reassembling those packets in any order of arrival gives the message back. *)
Theorem fragment_reassemble k o sid rid data :
  len data <= MAX_MESSAGE_SIZE -> 0 <= sid < 65536 -> 0 <= rid < 65536 ->
  exists ps, fragment_message k o sid rid data 0 = Ok ps /\ 1 <= len ps <= MAX_FRAGMENTS /\
    Forall valid_packet ps /\
    forall arrived, arrived ≡ₚ ps -> reassemble_packets arrived = Ok data.
Proof.
  intros Hd Hs Hr. exists (fragments k o sid rid data). split_and!.
  - by apply fragment_message_Ok.
  - rewrite fragments_len by done. by apply fragment_total_bound.
  - rewrite fragments_len by done. by apply fragment_total_bound.
  - by apply fragments_valid.
  - intros arrived. by apply reassemble_complete, fragments_complete.
Qed.

Lemma fragment_reassemble_witness :
  exists ps, fragment_message MessageKind.RESPONSE Opcode.CAPTURE_TEXT_SCREEN 3 9
      (replicate 3072 x41) 0 = Ok ps /\ 1 <= len ps <= MAX_FRAGMENTS /\
    Forall valid_packet ps /\
    forall arrived, arrived ≡ₚ ps -> reassemble_packets arrived = Ok (replicate 3072 x41).
Proof. apply fragment_reassemble; vm_compute; intuition discriminate. Defined.

(** Reassembly is exact: on well-formed packets it returns [data] precisely
    when the packets, in some order, are one complete message (one identity,
    indices [0 .. n-1] each once for the declared count [n]) with that content;
    in every other case it raises [PacketError], never [KeyError]. *)
Theorem reassemble_exact ps :
  Forall valid_packet ps ->
  (forall data, reassemble_packets ps = Ok data <->
     exists ps', ps ≡ₚ ps' /\ complete_message ps' data) /\
  (forall e, reassemble_packets ps = Err e -> exn_cls e = PacketError).
Proof.
  intros Hv. split.
  - intros data. split; [by apply reassemble_sound|]. intros (ps' & Hp & Hc).
    by apply (reassemble_complete ps').
  - intros e. apply (raises_Err is_packet_error). by apply reassemble_raises.
Qed.

Lemma reassemble_exact_witness :
  (forall data, reassemble_packets [golden_packet] = Ok data <->
     exists ps', [golden_packet] ≡ₚ ps' /\ complete_message ps' data) /\
  (forall e, reassemble_packets [golden_packet] = Err e -> exn_cls e = PacketError).
Proof. apply reassemble_exact. repeat constructor. Defined.
