(* ===== verification/Messages.v ===== *)
(** * Operation payloads ([protocol/messages.py])

    One Module per payload class of the source, named after it: the fields as a
    Record [t], [encode] and [decode] with the source's checks in the source's
    order.  [WireCodec] is the interface the dispatcher and the client rely on:
    the operations of a payload class together with the values its encoder
    [sends] and its decoder [accepts]; [WireLaws] relates the four, and every
    class is shown to satisfy it ([wire_class] enumerates them). *)
From S2P Require Import Prelude Struct Constants.

(** ** Formats *)
Definition _HELLO_REQUEST : list field := Eval vm_compute in Struct "<I".
Definition _HELLO_RESPONSE : list field := Eval vm_compute in Struct "<IIHH".
Definition _STATUS : list field := Eval vm_compute in Struct "<BBBBBBHI".
Definition _CAPABILITIES : list field := Eval vm_compute in Struct "<IBBBHH".
Definition _SCREEN : list field := Eval vm_compute in Struct "<BBBBBBBBBHH".
Definition _KEY_REQUEST : list field := Eval vm_compute in Struct "<HBH".
Definition _KEY_RESPONSE : list field := Eval vm_compute in Struct "<HBH".
Definition _TRANSFER_BLOCK_REQUEST : list field := Eval vm_compute in Struct "<HIH".
Definition _TRANSFER_BLOCK_RESPONSE : list field := Eval vm_compute in Struct "<HIHI".
Definition _TRANSFER_END_REQUEST : list field := Eval vm_compute in Struct "<H".
Definition _TRANSFER_END_RESPONSE : list field := Eval vm_compute in Struct "<II".
Definition _TRANSFER_BEGIN_RESPONSE : list field := Eval vm_compute in Struct "<HI".
Definition _FILE_WRITE_BEGIN : list field := Eval vm_compute in Struct "<BIIB".
Definition _GRAPHICS_BEGIN_RESPONSE : list field := Eval vm_compute in Struct "<HBBBBHHII".
Definition _RESIDENT_DIAGNOSTICS : list field := Eval vm_compute in Struct "<BB15HBBhhBB".
Definition _RESIDENT_MEMORY_DIAGNOSTICS : list field := Eval vm_compute in Struct "<4HBB".

Definition MAX_TRANSFER_BLOCK : Z := 900.
Definition MAX_DOS_PATH_BYTES : Z := 80.

Definition size (fs : list field) : Z := Z.of_nat (calcsize fs).

(** ** Shared checks *)
Definition _require_size (payload : bytes) (expected : Z) (name : string) : result unit :=
  raise_if (negb (len payload =? expected)) ValueError
    (py name ++ py " requires exactly " ++ py_int expected ++ py " bytes").

Definition has_nul (path : bytes) : bool := existsb (fun b => b2z b =? 0) path.

Definition _validate_path (path : bytes) : result unit :=
  raise_if (negb ((1 <=? len path) && (len path <=? MAX_DOS_PATH_BYTES)) || has_nul path)
    ValueError (py "DOS path must contain 1 to 80 non-NUL bytes").

(** The head of a decoder: a payload of exactly the format's size, or at least
    that long. *)
Definition unpack_exactly (fs : list field) (name : string) (payload : bytes) :
    result (denote fs) :=
  _require_size payload (size fs) name;; unpack fs payload.

Definition unpack_header (fs : list field) (truncated : string) (payload : bytes) :
    result (denote fs) :=
  raise_if (len payload <? size fs) ValueError (py truncated);; unpack_from fs payload 0.

(** [payload[fmt.size:]] *)
Definition tail (fs : list field) (payload : bytes) : bytes := drop (calcsize fs) payload.

(** ** The codec interface *)
Record WireCodec (A : Type) := {
  wire_encode : A -> result bytes;
  wire_decode : bytes -> result A;
  sends : A -> Prop;
  accepts : A -> Prop }.
Arguments wire_encode {A}.
Arguments wire_decode {A}.
Arguments sends {A}.
Arguments accepts {A}.

Class WireLaws {A} (c : WireCodec A) := {
  wire_encode_sends m : is_ok (wire_encode c m) = true <-> sends c m;
  wire_decode_encode m bs :
    wire_encode c m = Ok bs -> accepts c m -> wire_decode c bs = Ok m;
  wire_decode_accepts bs m : wire_decode c bs = Ok m -> accepts c m;
  wire_encode_decode bs m :
    wire_decode c bs = Ok m -> sends c m -> wire_encode c m = Ok bs;
  wire_decode_inj bs bs' m :
    wire_decode c bs = Ok m -> wire_decode c bs' = Ok m -> bs = bs';
  wire_decode_raises bs : raises (.= ValueError) (wire_decode c bs) }.

Lemma is_ok_iff {A} (m : result A) : is_ok m = true <-> exists a, m = Ok a.
Proof. destruct m; simpl; naive_solver. Qed.

(** What is sent and accepted arrives as it was. *)
Lemma wire_arrives {A} (c : WireCodec A) `{!WireLaws c} m :
  sends c m -> accepts c m -> exists bs, wire_encode c m = Ok bs /\ wire_decode c bs = Ok m.
Proof.
  intros [bs Hbs]%wire_encode_sends%is_ok_iff Ha. exists bs. split; [done|].
  by apply wire_decode_encode.
Qed.

(** ** Lemmas the codecs share *)
Create HintDb wire discriminated.
#[global] Arguments int_of : simpl never.
#[global] Arguments pack : simpl never.
#[global] Arguments py : simpl never.
#[global] Arguments fits : simpl never.
#[global] Arguments unpack_exactly : simpl never.
#[global] Arguments unpack_header : simpl never.
#[global] Arguments enum_of : simpl never.

Lemma pack_is_ok fs v : numeric fs = true -> is_ok (pack fs v) = true <-> fits fs v.
Proof.
  intros Hn. rewrite is_ok_iff. split; [intros [b Hb]; by eapply pack_numeric_fits|].
  apply pack_fits.
Qed.

Lemma is_ok_fmap {A B} (m : result A) (f : A -> B) : is_ok (f <$> m) = is_ok m.
Proof. by destruct m. Qed.
Lemma is_ok_bind_ret {A B} (m : result A) (f : A -> B) : is_ok (m ≫= fun a => Ok (f a)) = is_ok m.
Proof. by destruct m. Qed.
Lemma is_ok_guard {A} c cls msg (m : result A) :
  is_ok (raise_if c cls msg;; m) = negb c && is_ok m.
Proof. by destruct c. Qed.

Lemma require_size_Ok payload n name u : _require_size payload n name = Ok u <-> len payload = n.
Proof. unfold _require_size. rewrite raise_if_Ok. lia. Qed.

Lemma require_size_pass payload n name : len payload = n -> _require_size payload n name = Ok tt.
Proof. by intros ?%(require_size_Ok _ _ name tt). Qed.

Lemma unpack_exactly_Ok fs name payload v :
  unpack_exactly fs name payload = Ok v -> fits fs v /\ pack fs v = Ok payload.
Proof. unfold unpack_exactly. intros H. inv_ok. by apply unpack_Ok. Qed.

Lemma unpack_exactly_pack fs name v bs :
  numeric fs = true -> pack fs v = Ok bs -> unpack_exactly fs name bs = Ok v.
Proof.
  intros Hn H. unfold unpack_exactly. rewrite require_size_pass by by eapply pack_len.
  apply unpack_pack; [by eapply pack_numeric_fits|done].
Qed.

Lemma unpack_exactly_raises fs name payload :
  raises (.= ValueError) (unpack_exactly fs name payload).
Proof.
  unfold unpack_exactly. apply raises_bind; [by apply raises_raise_if|].
  intros [] H%require_size_Ok. rewrite unpack_exact; [done|]. unfold len, size in *. lia.
Qed.

Lemma unpack_header_Ok fs tr payload v :
  unpack_header fs tr payload = Ok v ->
  exists hd rest, payload = hd ++ rest /\ fits fs v /\ pack fs v = Ok hd /\
    len hd = size fs /\ tail fs (hd ++ rest) = rest.
Proof.
  unfold unpack_header. intros H. inv_ok. apply unpack_from_Ok in H as (Hf & Hp & Hl).
  exists (take (calcsize fs) payload), (tail fs payload). unfold tail, size.
  rewrite take_drop. split_and!; try done. by eapply pack_len.
Qed.

Lemma unpack_header_pack fs tr v hd rest :
  numeric fs = true -> pack fs v = Ok hd -> unpack_header fs tr (hd ++ rest) = Ok v.
Proof.
  intros Hn H. unfold unpack_header. rewrite raise_if_false.
  - apply unpack_from_pack; [by eapply pack_numeric_fits|done].
  - apply pack_len in H. unfold size. rewrite len_app. pose proof (len_nonneg rest). lia.
Qed.

Lemma unpack_header_raises fs tr payload :
  raises (.= ValueError) (unpack_header fs tr payload).
Proof.
  unfold unpack_header. apply raises_bind; [by apply raises_raise_if|]. intros [] H. inv_ok.
  destruct (unpack_from_size fs payload 0) as [v ->]; [|done]. unfold len, size in *. lia.
Qed.

Lemma tail_pack fs v hd rest : pack fs v = Ok hd -> tail fs (hd ++ rest) = rest.
Proof. intros H%pack_length. unfold tail. by rewrite <- H, drop_app_length. Qed.

Lemma enum_of_raises A `{IntEnum A} z : raises (.= ValueError) (enum_of A z).
Proof. unfold enum_of. by destruct (List.find _ _). Qed.

Lemma has_nul_false path : has_nul path = false <-> x00 ∉ path.
Proof.
  unfold has_nul. rewrite existsb_false_Forall. rewrite Forall_forall. split.
  - intros H Hin. specialize (H _ Hin). done.
  - intros Hn b Hb. apply Z.eqb_neq. intros E. apply Hn. by replace x00 with b by by apply (inj b2z).
Qed.

(** A validation followed by packing succeeds when both do. *)
Lemma is_ok_seq {A} (v : result unit) (m : result A) :
  is_ok (v;; m) = true <-> v = Ok tt /\ is_ok m = true.
Proof. destruct v as [[]|]; simpl; naive_solver. Qed.

(** A path the protocol carries: 1 to 80 bytes, none of them NUL. *)
Definition dos_path (path : bytes) : Prop := 1 <= len path <= 80 /\ x00 ∉ path.

Lemma validate_path_Ok path u : _validate_path path = Ok u <-> dos_path path.
Proof.
  unfold _validate_path, dos_path, MAX_DOS_PATH_BYTES.
  rewrite raise_if_Ok, orb_false_iff, has_nul_false. split; (intros [? ?]; split; [lia|done]).
Qed.

Lemma validate_path_raises path : raises (.= ValueError) (_validate_path path).
Proof. by apply raises_raise_if. Qed.

#[export] Hint Resolve unpack_exactly_raises unpack_header_raises enum_of_raises
  validate_path_raises : wire.

(** The source's limits, as numbers. *)
Ltac limits :=
  cbv [MAX_FRAGMENT_PAYLOAD MAX_TRANSFER_BLOCK MAX_DOS_PATH_BYTES] in *.

(** Splits an unpacked tuple into its components. *)
Ltac split_tuple v :=
  let T := type of v in
  match T with
  | denote _ => let T' := eval cbv in T in change T' in v
  | context [field_type _] => let T' := eval cbv in T in change T' in v
  | _ => idtac
  end;
  repeat match goal with
  | x : prod _ _ |- _ => destruct x
  | x : unit |- _ => destruct x
  end.

(** A decoder raises [ValueError] only: guard by guard. *)
Ltac raises_step :=
  match goal with
  | |- raises _ (unpack_exactly ?fs ?n ?b) => exact (unpack_exactly_raises fs n b)
  | |- raises _ (unpack_header ?fs ?n ?b) => exact (unpack_header_raises fs n b)
  | |- raises _ (raise_if _ _ _) => by apply raises_raise_if
  | |- raises _ (_require_size _ _ _) => by apply raises_raise_if
  | |- raises _ (_ ≫= _) => apply raises_bind
  | |- forall v, unpack_exactly ?fs _ _ = Ok v -> _ => intros v _; split_tuple v
  | |- forall v, unpack_header ?fs _ _ = Ok v -> _ => intros v _; split_tuple v
  | |- forall v, _ = Ok v -> _ => intros ? ?
  | |- raises _ (Ok _) => exact I
  | |- raises _ (raise _ _) => reflexivity
  | |- _ => solve [auto with wire]
  | |- _ => progress cbv beta iota zeta
  end.
Ltac solve_raises := repeat raises_step.

(** [decode_inv] takes hypotheses [decode bs = Ok m] apart: the unpacked fields
    with their ranges, the packed form, the guards. *)
Ltac decode_inv_step :=
  first
    [ progress inv_ok
    | match goal with
      | E : unpack_exactly ?fs _ _ = Ok ?v |- _ =>
          let Hf := fresh "Hfits" in let Hp := fresh "Hpack" in
          apply (unpack_exactly_Ok fs) in E as [Hf Hp]; split_tuple v
      | E : unpack_header ?fs _ _ = Ok ?v |- _ =>
          let hd := fresh "hd" in let rest := fresh "rest" in
          let Hf := fresh "Hfits" in let Hp := fresh "Hpack" in
          let Hl := fresh "Hlen" in let Ht := fresh "Htail" in
          apply (unpack_header_Ok fs) in E as (hd & rest & -> & Hf & Hp & Hl & Ht);
          rewrite ?len_app, ?Hl in *; rewrite ?Ht in *; clear Ht; split_tuple v
      | E : enum_of _ _ = Ok _ |- _ => apply enum_of_Ok in E; subst
      | E : _require_size _ _ _ = Ok _ |- _ => apply require_size_Ok in E
      | E : _validate_path _ = Ok _ |- _ => apply validate_path_Ok in E
      | H : _ = Ok _ |- _ => progress cbn beta iota zeta in H
      end ].
Ltac decode_inv := repeat decode_inv_step.

Ltac expose v := let w := eval hnf in v in change v with w.

(** [run_decode] evaluates a decoder on a packed payload, guard by guard. *)
Ltac run_decode_step :=
  first
    [ match goal with
      | H : pack ?fs ?v = Ok ?bs |- context [unpack_exactly ?fs ?n ?bs] =>
          rewrite (unpack_exactly_pack fs n v bs eq_refl H); expose v
      | H : pack ?fs ?v = Ok ?hd |- context [unpack_header ?fs ?n (?hd ++ ?rest)] =>
          rewrite (unpack_header_pack fs n v hd rest eq_refl H); expose v
      | H : pack ?fs ?v = Ok ?hd |- context [tail ?fs (?hd ++ ?rest)] =>
          rewrite (tail_pack fs v hd rest H)
      end
    | rewrite enum_of_int_of
    | progress cbn beta iota zeta delta [mbind result_bind]
    | pass_guard (limits; first [lia | cbn; lia]) ].
Ltac run_decode := repeat run_decode_step.

Ltac use_fits :=
  match goal with H : fits _ _ |- _ => first [exact H | split; [exact H|limits; first [lia | cbn in *; lia]]] end.
Ltac use_pack := match goal with H : pack _ _ = Ok _ |- _ => exact H end.

Tactic Notation "codec_goals" reference(c) reference(enc) reference(dec) :=
  split; unfold c; cbn [wire_encode wire_decode sends accepts]; unfold enc, dec.

(** The laws of a class of fixed size: [encode] packs a numeric format, [decode]
    unpacks it and checks the fields. *)
Tactic Notation "fixed_size_laws" reference(c) reference(enc) reference(dec) :=
  split; unfold c; cbn [wire_encode wire_decode sends accepts]; unfold enc, dec;
  [ intros m; by apply pack_is_ok
  | intros m bs H Hacc; hnf in Hacc; run_decode; by destruct m
  | intros bs m H; decode_inv; use_fits
  | intros bs m H _; decode_inv; use_pack
  | intros bs bs' m H H'; decode_inv; congruence
  | intros bs; solve_raises ].

(** ** Session set-up *)
Module HelloRequest.
Record t := mk { client_nonce : Z }.

Definition encode (m : t) : result bytes := pack _HELLO_REQUEST ⟨client_nonce m⟩.

Definition decode (payload : bytes) : result t :=
  '⟨nonce⟩ ← unpack_exactly _HELLO_REQUEST "hello request" payload;
  Ok (mk nonce).

Definition valid (m : t) : Prop := fits _HELLO_REQUEST ⟨client_nonce m⟩.

Definition codec : WireCodec t := {|
  wire_encode := encode; wire_decode := decode; sends := valid; accepts := valid |}.

#[global] Instance codec_laws : WireLaws codec.
Proof. fixed_size_laws codec encode decode. Qed.
End HelloRequest.

Module HelloResponse.
Record t := mk {
  client_nonce : Z;
  server_nonce : Z;
  session_id : Z;
  max_fragment_payload : Z }.

Definition encode (m : t) : result bytes :=
  pack _HELLO_RESPONSE
    ⟨client_nonce m, server_nonce m, session_id m, max_fragment_payload m⟩.

Definition decode (payload : bytes) : result t :=
  '⟨client, server, session, limit⟩ ← unpack_exactly _HELLO_RESPONSE "hello response" payload;
  let value := mk client server session limit in
  raise_if (negb ((64 <=? max_fragment_payload value) &&
                  (max_fragment_payload value <=? MAX_FRAGMENT_PAYLOAD)))
    ValueError (py "invalid negotiated fragment payload");;
  raise_if (session_id value =? 0) ValueError (py "session ID zero is reserved");;
  Ok value.

Definition sendable (m : t) : Prop :=
  fits _HELLO_RESPONSE ⟨client_nonce m, server_nonce m, session_id m, max_fragment_payload m⟩.

Definition acceptable (m : t) : Prop :=
  sendable m /\ 64 <= max_fragment_payload m <= 1024 /\ session_id m <> 0.

Definition codec : WireCodec t := {|
  wire_encode := encode; wire_decode := decode; sends := sendable; accepts := acceptable |}.

#[global] Instance codec_laws : WireLaws codec.
Proof. fixed_size_laws codec encode decode. Qed.
End HelloResponse.

(** ** Status, diagnostics, capabilities *)
Module StatusMessage.
Record t := mk {
  agent_major : Z;
  agent_minor : Z;
  dos_major : Z;
  dos_minor : Z;
  cpu_class : Z;
  phase : Phase.t;
  conventional_kb : Z;
  bios_ticks : Z }.

Definition fields (m : t) : denote _STATUS :=
  ⟨agent_major m, agent_minor m, dos_major m, dos_minor m, cpu_class m,
   int_of (phase m), conventional_kb m, bios_ticks m⟩.

Definition encode (m : t) : result bytes := pack _STATUS (fields m).

Definition decode (payload : bytes) : result t :=
  '⟨major, minor, dos_major, dos_minor, cpu, raw_phase, kb, ticks⟩ ←
    unpack_exactly _STATUS "status" payload;
  phase ← enum_of Phase.t raw_phase;
  Ok (mk major minor dos_major dos_minor cpu phase kb ticks).

Definition valid (m : t) : Prop := fits _STATUS (fields m).

Definition codec : WireCodec t := {|
  wire_encode := encode; wire_decode := decode; sends := valid; accepts := valid |}.

#[global] Instance codec_laws : WireLaws codec.
Proof. fixed_size_laws codec encode decode. Qed.
End StatusMessage.

Module ResidentDiagnosticsMessage.
Record t := mk {
  version : Z;
  flags : Z;
  int08_entries : Z;
  int1c_entries : Z;
  int28_entries : Z;
  worker_runs : Z;
  fallback_runs : Z;
  busy_skips : Z;
  receive_allocations : Z;
  receive_completions : Z;
  receive_drops : Z;
  send_attempts : Z;
  send_failures : Z;
  last_receive_bios_tick : Z;
  last_worker_bios_tick : Z;
  worker_ticks : Z;
  receive_length : Z;
  master_pic_mask : Z;
  slave_pic_mask : Z;
  last_protocol_result : Z;
  last_send_result : Z;
  last_opcode : Z;
  stack_size : Z;
  stack_used : Z;
  resident_paragraphs : Z;
  workspace_size : Z;
  stack_overflow : bool }.

Definition base_fields (m : t) : denote _RESIDENT_DIAGNOSTICS :=
  ⟨version m, flags m, int08_entries m, int1c_entries m, int28_entries m, worker_runs m,
   fallback_runs m, busy_skips m, receive_allocations m, receive_completions m,
   receive_drops m, send_attempts m, send_failures m, last_receive_bios_tick m,
   last_worker_bios_tick m, worker_ticks m, receive_length m, master_pic_mask m,
   slave_pic_mask m, last_protocol_result m, last_send_result m, last_opcode m, 0⟩.

Definition memory_fields (m : t) : denote _RESIDENT_MEMORY_DIAGNOSTICS :=
  ⟨stack_size m, stack_used m, resident_paragraphs m, workspace_size m,
   Z.b2z (stack_overflow m), 0⟩.

(** [any((self.stack_size, ..., self.stack_overflow))] *)
Definition has_memory (m : t) : bool :=
  negb (stack_size m =? 0) || negb (stack_used m =? 0) || negb (resident_paragraphs m =? 0) ||
  negb (workspace_size m =? 0) || stack_overflow m.

Definition encode (m : t) : result bytes :=
  raise_if (negb ((version m =? 1) || (version m =? 2))) ValueError
    (py "unsupported resident diagnostics version");;
  base ← pack _RESIDENT_DIAGNOSTICS (base_fields m);
  if version m =? 1 then
    raise_if (has_memory m) ValueError (py "version 1 diagnostics cannot carry memory data");;
    Ok base
  else
    memory ← pack _RESIDENT_MEMORY_DIAGNOSTICS (memory_fields m);
    Ok (base ++ memory).

(** The memory struct of a version 2 payload, zeros for version 1. *)
Definition read_memory (version : Z) (payload : bytes) :
    result (denote _RESIDENT_MEMORY_DIAGNOSTICS) :=
  if version =? 2 then
    memory ← unpack_from _RESIDENT_MEMORY_DIAGNOSTICS payload (calcsize _RESIDENT_DIAGNOSTICS);
    let '⟨_, _, _, _, overflow, reserved⟩ := memory in
    raise_if (negb (reserved =? 0) || negb ((overflow =? 0) || (overflow =? 1))) ValueError
      (py "invalid resident memory diagnostics");;
    Ok memory
  else Ok ⟨0, 0, 0, 0, 0, 0⟩.

Definition decode (payload : bytes) : result t :=
  '⟨version, flags, int08, int1c, int28, runs, fallbacks, skips, allocations, completions,
    drops, attempts, failures, receive_tick, worker_tick, ticks, length, master, slave,
    protocol, send, opcode, reserved⟩ ←
    unpack_header _RESIDENT_DIAGNOSTICS "truncated resident diagnostics" payload;
  raise_if (negb ((version =? 1) || (version =? 2))) ValueError
    (py "unsupported resident diagnostics version");;
  let expected := size _RESIDENT_DIAGNOSTICS +
    (if version =? 2 then size _RESIDENT_MEMORY_DIAGNOSTICS else 0) in
  _require_size payload expected "resident diagnostics";;
  raise_if (negb (reserved =? 0)) ValueError
    (py "resident diagnostics reserved byte is nonzero");;
  '⟨stack_size, stack_used, paragraphs, workspace, overflow, _⟩ ← read_memory version payload;
  Ok (mk version flags int08 int1c int28 runs fallbacks skips allocations completions drops
    attempts failures receive_tick worker_tick ticks length master slave protocol send opcode
    stack_size stack_used paragraphs workspace (negb (overflow =? 0))).

(** Version 1 carries no memory data; version 2 carries it in the second struct. *)
Definition valid (m : t) : Prop :=
  fits _RESIDENT_DIAGNOSTICS (base_fields m) /\
  (version m = 1 /\ has_memory m = false \/
   version m = 2 /\ fits _RESIDENT_MEMORY_DIAGNOSTICS (memory_fields m)).

Definition codec : WireCodec t := {|
  wire_encode := encode; wire_decode := decode; sends := valid; accepts := valid |}.

Lemma read_memory_pack hd rest v overflow :
  len hd = size _RESIDENT_DIAGNOSTICS -> pack _RESIDENT_MEMORY_DIAGNOSTICS v = Ok rest ->
  v.2.2.2.2 = (Z.b2z overflow, (0, tt)) -> read_memory 2 (hd ++ rest) = Ok v.
Proof.
  intros Hl Hp Hv. unfold read_memory, unpack_from. cbn [Z.eqb Pos.eqb].
  pose proof (pack_len _ _ _ Hp) as Hr. unfold len, size in *. rewrite length_app.
  rewrite (proj2 (Z.ltb_ge _ _)) by lia. replace (calcsize _RESIDENT_DIAGNOSTICS) with (length hd) by lia.
  rewrite drop_app_length, <- (app_nil_r rest).
  rewrite (unpack_raw_pack _ v rest []); [|by eapply pack_numeric_fits|done].
  cbn [mbind result_bind]. split_tuple v. cbn in Hv. injection Hv as -> ->. by destruct overflow.
Qed.

Lemma read_memory_Ok hd rest v :
  len hd = size _RESIDENT_DIAGNOSTICS -> len rest = size _RESIDENT_MEMORY_DIAGNOSTICS ->
  read_memory 2 (hd ++ rest) = Ok v ->
  fits _RESIDENT_MEMORY_DIAGNOSTICS v /\ pack _RESIDENT_MEMORY_DIAGNOSTICS v = Ok rest /\
  v.2.2.2.2 = (Z.b2z (negb (Z.eqb v.2.2.2.2.1 0)), (0, tt)).
Proof.
  intros Hl Hr H. unfold read_memory in H. cbn [Z.eqb Pos.eqb] in H. inv_ok.
  destruct (unpack_from_Ok _RESIDENT_MEMORY_DIAGNOSTICS _ _ v0 E) as (Hf & Hp & _). unfold len, size in *.
  replace (calcsize _RESIDENT_DIAGNOSTICS) with (length hd) in Hp by lia.
  rewrite drop_app_length, take_ge in Hp by lia. split_tuple v0. inv_ok. 
  split_and!; [exact Hf|exact Hp|]. cbn.
  match goal with |- context [negb (?x =? 0)] => destruct (Z.eqb_spec x 0) end; cbn;
    repeat f_equal; lia.
Qed.

Lemma read_memory_raises version payload :
  len payload = size _RESIDENT_DIAGNOSTICS +
    (if version =? 2 then size _RESIDENT_MEMORY_DIAGNOSTICS else 0) ->
  raises (.= ValueError) (read_memory version payload).
Proof.
  unfold read_memory. destruct (version =? 2); [|done]. intros Hl.
  edestruct (unpack_from_size _RESIDENT_MEMORY_DIAGNOSTICS payload) as [v ->];
    [unfold len, size in Hl; lia|]. cbn [mbind result_bind]. split_tuple v. by destruct (_ || _).
Qed.

Lemma read_memory_1 payload : read_memory 1 payload = Ok ⟨0, 0, 0, 0, 0, 0⟩.
Proof. done. Qed.

(** Both forms of a valid message: the base struct, then nothing or the memory struct. *)
Lemma diagnostics_encode_forms m bs :
  encode m = Ok bs <->
  exists hd rest, bs = hd ++ rest /\ pack _RESIDENT_DIAGNOSTICS (base_fields m) = Ok hd /\
    (version m = 1 /\ has_memory m = false /\ rest = [] \/
     version m = 2 /\ pack _RESIDENT_MEMORY_DIAGNOSTICS (memory_fields m) = Ok rest).
Proof.
  unfold encode. split.
  - intros H. decode_inv. exists v0. destruct (Z.eqb_spec (version m) 1); decode_inv.
    + exists []. rewrite app_nil_r. split_and!; [done|done|by left].
    + exists v1. split_and!; try done. right. split; [lia|done].
  - intros (hd & rest & -> & Hp & [(Hv & Hm & ->)|(Hv & Hr)]); rewrite Hv; cbn [Z.eqb Pos.eqb orb negb raise_if mbind result_bind];
    rewrite Hp; cbn [mbind result_bind].
    + rewrite Hm, app_nil_r. done.
    + by rewrite Hr.
Qed.

Lemma diagnostics_decode_forms bs m :
  decode bs = Ok m <->
  exists hd rest, bs = hd ++ rest /\ pack _RESIDENT_DIAGNOSTICS (base_fields m) = Ok hd /\
    (version m = 1 /\ has_memory m = false /\ rest = [] \/
     version m = 2 /\ pack _RESIDENT_MEMORY_DIAGNOSTICS (memory_fields m) = Ok rest).
Proof.
  unfold decode. split.
  - intros H. decode_inv. exists hd, rest. split; [done|].
    destruct (Z.eqb_spec z 2) as [->|E3].
    + assert (Hl : len rest = size _RESIDENT_MEMORY_DIAGNOSTICS) by (rewrite len_app in E0; lia).
      apply (read_memory_Ok _ _ _ Hlen Hl) in E2 as (Hf & Hp & Hv). split_tuple v2. decode_inv.
      cbn in Hv. unfold base_fields, memory_fields. cbn.
      split; [|right; split; [done|]].
      * replace 0 with z21 by lia. exact Hpack.
      * injection Hv as Hv0 ->. rewrite <- Hv0. exact Hp.
    + assert (z = 1) as -> by lia. rewrite read_memory_1 in E2. decode_inv. 
      split; [|left; split_and!; try done; apply len_nil_inv; rewrite len_app in E0; lia].
      unfold base_fields; cbn. replace 0 with z21 by lia. exact Hpack.
  - intros (hd & rest & -> & Hp & Hm). 
    pose proof (pack_len _ _ _ Hp) as Hl.
    run_decode.
    destruct Hm as [(Hv & Hm & ->)|(Hv & Hr)]; rewrite Hv; cbn [Z.eqb Pos.eqb orb negb raise_if mbind result_bind].
    + rewrite require_size_pass by (rewrite app_nil_r; rewrite Hl; unfold size; lia). cbn [mbind result_bind].
      unfold has_memory in Hm. bool_to_prop. destruct m; cbn in *; subst.
      f_equal; f_equal; lia.
    + apply pack_len in Hr as Hlr. rewrite require_size_pass by (rewrite len_app, Hl, Hlr; done). cbn [mbind result_bind].
      rewrite (read_memory_pack _ _ _ (stack_overflow m) Hl Hr eq_refl). expose (memory_fields m). cbn [mbind result_bind].
      destruct m as [ ? ? ? ? ? ? ? ? ? ? ? ? ? ? ? ? ? ? ? ? ? ? ? ? ? ? []]; cbn in *; by subst.
Qed.

Lemma forms_valid m hd rest :
  pack _RESIDENT_DIAGNOSTICS (base_fields m) = Ok hd ->
  (version m = 1 /\ has_memory m = false /\ rest = [] \/
     version m = 2 /\ pack _RESIDENT_MEMORY_DIAGNOSTICS (memory_fields m) = Ok rest) ->
  valid m.
Proof.
  intros Hp Hm. split; [by eapply pack_numeric_fits|].
  destruct Hm as [(? & ? & _)|[? Hr]]; [by left|right]. split; [done|]. by eapply pack_numeric_fits.
Qed.

#[global] Instance codec_laws : WireLaws codec.
Proof.
  split; unfold codec; cbn [wire_encode wire_decode sends accepts].
  - intros m. rewrite is_ok_iff. setoid_rewrite diagnostics_encode_forms. split.
    + intros (_ & hd & rest & _ & Hp & Hm). by eapply forms_valid.
    + intros [[hd Hp]%pack_fits [[? ?]|[? [rest Hr]%pack_fits]]]; eauto 10.
  - intros m bs H _. apply diagnostics_decode_forms. by apply diagnostics_encode_forms.
  - intros bs m (hd & rest & _ & Hp & Hm)%diagnostics_decode_forms. by eapply forms_valid.
  - intros bs m H _. apply diagnostics_encode_forms. by apply diagnostics_decode_forms.
  - intros bs bs' m H%diagnostics_decode_forms%diagnostics_encode_forms H'%diagnostics_decode_forms%diagnostics_encode_forms. congruence.
  - intros bs. unfold decode. solve_raises; [|by split_tuple a2].
    apply read_memory_raises. by apply require_size_Ok in H0.
Qed.
End ResidentDiagnosticsMessage.

Module CapabilitiesMessage.
Record t := mk {
  capabilities : Z;
  columns : Z;
  rows : Z;
  adapter : Adapter.t;
  max_fragment_payload : Z;
  max_keys : Z }.

Definition fields (m : t) : denote _CAPABILITIES :=
  ⟨capabilities m, columns m, rows m, int_of (adapter m), max_fragment_payload m, max_keys m⟩.

Definition encode (m : t) : result bytes := pack _CAPABILITIES (fields m).

Definition decode (payload : bytes) : result t :=
  '⟨raw_capabilities, columns, rows, raw_adapter, fragment, keys⟩ ←
    unpack_exactly _CAPABILITIES "capabilities" payload;
  raise_if (negb (Z.land raw_capabilities (Z.lnot KNOWN_CAPABILITIES) =? 0)) ValueError
    (py "unknown capability flags");;
  adapter ← enum_of Adapter.t raw_adapter;
  raise_if (negb ((1 <=? columns) && (columns <=? 255)) ||
            negb ((1 <=? rows) && (rows <=? 255))) ValueError
    (py "invalid screen dimensions");;
  raise_if (negb ((64 <=? fragment) && (fragment <=? MAX_FRAGMENT_PAYLOAD))) ValueError
    (py "invalid maximum fragment payload");;
  Ok (mk raw_capabilities columns rows adapter fragment keys).

Definition sendable (m : t) : Prop := fits _CAPABILITIES (fields m).

Definition acceptable (m : t) : Prop :=
  sendable m /\ Z.land (capabilities m) (Z.lnot KNOWN_CAPABILITIES) = 0 /\
  1 <= columns m <= 255 /\ 1 <= rows m <= 255 /\ 64 <= max_fragment_payload m <= 1024.

Definition codec : WireCodec t := {|
  wire_encode := encode; wire_decode := decode; sends := sendable; accepts := acceptable |}.

#[global] Instance codec_laws : WireLaws codec.
Proof. fixed_size_laws codec encode decode. Qed.
End CapabilitiesMessage.

(** ** Screens and keys *)
Module ScreenMessage.
Record t := mk {
  columns : Z;
  rows : Z;
  video_mode : Z;
  active_page : Z;
  cursor_row : Z;
  cursor_column : Z;
  cursor_start : Z;
  cursor_end : Z;
  adapter : Adapter.t;
  code_page : Z;
  generation : Z;
  cells : bytes }.

Definition fields (m : t) : denote _SCREEN :=
  ⟨columns m, rows m, video_mode m, active_page m, cursor_row m, cursor_column m,
   cursor_start m, cursor_end m, int_of (adapter m), code_page m, generation m⟩.

Definition _validate (m : t) : result unit :=
  raise_if (negb ((1 <=? columns m) && (columns m <=? 255)) ||
            negb ((1 <=? rows m) && (rows m <=? 255))) ValueError
    (py "invalid screen dimensions");;
  let expected := columns m * rows m * 2 in
  raise_if (negb (len (cells m) =? expected)) ValueError
    (py "screen requires exactly " ++ py_int expected ++ py " cell bytes");;
  raise_if ((rows m <=? cursor_row m) || (columns m <=? cursor_column m)) ValueError
    (py "cursor is outside screen").

Definition encode (m : t) : result bytes :=
  _validate m;;
  header ← pack _SCREEN (fields m);
  Ok (header ++ cells m).

Definition decode (payload : bytes) : result t :=
  '⟨columns, rows, mode, page, row, column, start_line, end_line, raw_adapter, code_page,
    generation⟩ ← unpack_header _SCREEN "truncated screen message" payload;
  adapter ← enum_of Adapter.t raw_adapter;
  let value := mk columns rows mode page row column start_line end_line adapter code_page
    generation (tail _SCREEN payload) in
  _validate value;;
  Ok value.

(** A screen the wire carries: one cell (character, attribute) per position and
    a cursor inside it. *)
Definition valid (m : t) : Prop :=
  fits _SCREEN (fields m) /\ 1 <= columns m <= 255 /\ 1 <= rows m <= 255 /\
  len (cells m) = columns m * rows m * 2 /\
  cursor_row m < rows m /\ cursor_column m < columns m.

Definition codec : WireCodec t := {|
  wire_encode := encode; wire_decode := decode; sends := valid; accepts := valid |}.

Lemma validate_Ok m u :
  _validate m = Ok u <->
  1 <= columns m <= 255 /\ 1 <= rows m <= 255 /\ len (cells m) = columns m * rows m * 2 /\
  cursor_row m < rows m /\ cursor_column m < columns m.
Proof.
  unfold _validate. split.
  - intros H. inv_ok. lia.
  - intros H. destruct u. rewrite !raise_if_false by lia. done.
Qed.

Lemma screen_validate_raises m : raises (.= ValueError) (_validate m).
Proof. unfold _validate. solve_raises. Qed.
#[export] Hint Resolve screen_validate_raises : wire.

#[global] Instance codec_laws : WireLaws codec.
Proof.
  codec_goals codec encode decode.
  - intros m. rewrite is_ok_seq, is_ok_bind_ret, pack_is_ok by done.
    rewrite validate_Ok. unfold valid. tauto.
  - intros m bs H Hv. decode_inv. run_decode. rewrite (proj2 (validate_Ok _ tt)); [by destruct m|].
    by apply validate_Ok in E.
  - intros bs m H. decode_inv. apply validate_Ok in E0. use_fits.
  - intros bs m H Hv. decode_inv. rewrite E0. by pack_with Hpack.
  - intros bs bs' m H H'. decode_inv. congruence.
  - intros bs. solve_raises.
Qed.
End ScreenMessage.

Module KeyRequest.
Record t := mk {
  text : bytes;
  keys : list KeyCode.t;
  inter_key_delay_ms : Z }.

Definition fields (m : t) : denote _KEY_REQUEST :=
  ⟨len (text m), len (keys m), inter_key_delay_ms m⟩.

(** [bytes(self.keys)] *)
Definition key_bytes (keys : list KeyCode.t) : bytes := (fun k => z2b (int_of k)) <$> keys.

Definition encode (m : t) : result bytes :=
  raise_if (4096 <? len (text m)) ValueError (py "key text exceeds 4096 bytes");;
  raise_if (128 <? len (keys m)) ValueError (py "too many named keys");;
  raise_if (negb ((0 <=? inter_key_delay_ms m) && (inter_key_delay_ms m <=? 1000))) ValueError
    (py "invalid inter-key delay");;
  header ← pack _KEY_REQUEST (fields m);
  Ok (header ++ text m ++ key_bytes (keys m)).

Definition decode (payload : bytes) : result t :=
  '⟨text_length, key_count, delay⟩ ←
    unpack_header _KEY_REQUEST "truncated key request" payload;
  let expected := size _KEY_REQUEST + text_length + key_count in
  _require_size payload expected "key request";;
  let rest := tail _KEY_REQUEST payload in
  keys ← map_result (fun b => enum_of KeyCode.t (b2z b)) (drop (Z.to_nat text_length) rest);
  Ok (mk (take (Z.to_nat text_length) rest) keys delay).

Definition sendable (m : t) : Prop :=
  len (text m) <= 4096 /\ len (keys m) <= 128 /\ 0 <= inter_key_delay_ms m <= 1000.

(** The decoder only has the limits of the field widths. *)
Definition acceptable (m : t) : Prop := fits _KEY_REQUEST (fields m).

Definition codec : WireCodec t := {|
  wire_encode := encode; wire_decode := decode; sends := sendable; accepts := acceptable |}.

Lemma key_bytes_decode keys :
  map_result (fun b => enum_of KeyCode.t (b2z b)) (key_bytes keys) = Ok keys.
Proof.
  apply map_result_Ok. unfold key_bytes. induction keys as [|k keys IH]; cbn; constructor; [|done].
  rewrite b2z_z2b_small by (destruct k; cbv; done). apply enum_of_int_of.
Qed.

Lemma key_bytes_encode bs keys :
  map_result (fun b => enum_of KeyCode.t (b2z b)) bs = Ok keys -> key_bytes keys = bs.
Proof.
  intros H%map_result_Ok. induction H as [|b k bs keys Hk _ IH]; cbn; [done|].
  f_equal; [|exact IH]. apply enum_of_Ok in Hk as Hb. by rewrite <- Hb, z2b_b2z.
Qed.

Lemma len_key_bytes keys : len (key_bytes keys) = len keys.
Proof. apply len_fmap. Qed.

Lemma sendable_fits m : sendable m -> fits _KEY_REQUEST (fields m).
Proof.
  unfold sendable, fits. cbn. pose proof (len_nonneg (text m)). pose proof (len_nonneg (keys m)). lia.
Qed.

(** What a decoded payload is: header, text, key codes. *)
Lemma key_request_decode_forms bs m :
  decode bs = Ok m <->
  exists hd, bs = hd ++ text m ++ key_bytes (keys m) /\ pack _KEY_REQUEST (fields m) = Ok hd.
Proof.
  unfold decode. split.
  - intros H. decode_inv. exists hd. apply key_bytes_encode in E0. cbn [text keys].
    rewrite E0, take_drop. split; [done|]. rewrite len_app in E.
    unfold fields. cbn [text keys inter_key_delay_ms].
    rewrite <- (len_key_bytes v0), E0.
    unfold fits in Hfits; cbn in Hfits. 
    assert (len (take (Z.to_nat z) rest) = z /\ len (drop (Z.to_nat z) rest) = z0) as [-> ->].
    { unfold len in *. rewrite length_take, length_drop. lia. }
    exact Hpack.
  - intros (hd & -> & Hp). apply pack_len in Hp as Hl. run_decode.
    rewrite require_size_pass by (rewrite !len_app, len_key_bytes, Hl; unfold size; lia).
    cbn [mbind result_bind].
    replace (Z.to_nat (len (text m))) with (length (text m)) by (unfold len; lia).
    rewrite drop_app_length, key_bytes_decode. cbn [mbind result_bind].
    rewrite take_app_length. by destruct m.
Qed.

Lemma key_request_encode_forms m bs :
  encode m = Ok bs <->
  sendable m /\ exists hd, bs = hd ++ text m ++ key_bytes (keys m) /\ pack _KEY_REQUEST (fields m) = Ok hd.
Proof.
  unfold encode, sendable. split.
  - intros H. decode_inv. split; [lia|]. eauto.
  - intros (Hs & hd & -> & Hp). rewrite !raise_if_false by lia. cbn [mbind result_bind].
    by rewrite Hp.
Qed.

#[global] Instance codec_laws : WireLaws codec.
Proof.
  split; unfold codec; cbn [wire_encode wire_decode sends accepts].
  - intros m. rewrite is_ok_iff. setoid_rewrite key_request_encode_forms. split; [by intros (? & ? & _)|].
    intros Hs. destruct (pack_fits _ _ (sendable_fits m Hs)) as [hd Hp]. eauto 10.
  - intros m bs [_ H]%key_request_encode_forms _. by apply key_request_decode_forms.
  - intros bs m (hd & _ & Hp)%key_request_decode_forms. by eapply pack_numeric_fits.
  - intros bs m H%key_request_decode_forms Hs. by apply key_request_encode_forms.
  - intros bs bs' m (hd & -> & Hp)%key_request_decode_forms (hd' & -> & Hp')%key_request_decode_forms. congruence.
  - intros bs. unfold decode. solve_raises. apply raises_map_result. auto with wire.
Qed.
End KeyRequest.

Module KeyResponse.
Record t := mk {
  accepted_text_bytes : Z;
  accepted_keys : Z;
  generation : Z }.

Definition fields (m : t) : denote _KEY_RESPONSE :=
  ⟨accepted_text_bytes m, accepted_keys m, generation m⟩.

Definition encode (m : t) : result bytes := pack _KEY_RESPONSE (fields m).

Definition decode (payload : bytes) : result t :=
  '⟨text_bytes, keys, generation⟩ ← unpack_exactly _KEY_RESPONSE "key response" payload;
  Ok (mk text_bytes keys generation).

Definition valid (m : t) : Prop := fits _KEY_RESPONSE (fields m).

Definition codec : WireCodec t := {|
  wire_encode := encode; wire_decode := decode; sends := valid; accepts := valid |}.

#[global] Instance codec_laws : WireLaws codec.
Proof. fixed_size_laws codec encode decode. Qed.
End KeyResponse.

(** ** File and graphics transfers *)
Module FileReadBeginRequest.
Record t := mk { path : bytes }.

(** The length byte: [_validate_path] bounds the length by 80. *)
Definition encode (m : t) : result bytes :=
  _validate_path (path m);;
  Ok (z2b (len (path m)) :: path m).

Definition decode (payload : bytes) : result t :=
  match payload with
  | [] => raise ValueError (py "truncated file-read request")
  | length :: rest =>
      _require_size payload (b2z length + 1) "file-read request";;
      _validate_path rest;;
      Ok (mk rest)
  end.

Definition valid (m : t) : Prop := dos_path (path m).

Definition codec : WireCodec t := {|
  wire_encode := encode; wire_decode := decode; sends := valid; accepts := valid |}.

#[global] Instance codec_laws : WireLaws codec.
Proof.
  split; unfold codec; cbn [wire_encode wire_decode sends accepts]; unfold encode, valid.
  - intros m. rewrite is_ok_seq, validate_path_Ok. by intuition.
  - intros m bs H _. decode_inv. destruct E as [? ?] eqn:E'. cbn [decode].
    rewrite b2z_z2b_small by lia. rewrite require_size_pass by (unfold len; cbn; lia).
    cbn [mbind result_bind]. rewrite (proj2 (validate_path_Ok (path m) tt)) by done. by destruct m.
  - intros [|b rest] m H; [done|]. cbn [decode] in H. decode_inv. done.
  - intros [|b rest] m H _; [done|]. cbn [decode] in H. decode_inv. cbn [path].
    rewrite (proj2 (validate_path_Ok rest tt)) by done. cbn [mbind result_bind].
    unfold len in E. cbn [length] in E. unfold len.
    replace (Z.of_nat (length rest)) with (b2z b) by lia. by rewrite z2b_b2z.
  - intros [|b rest] [|b' rest'] m H H'; try done. cbn [decode] in H, H'. decode_inv.
    simplify_eq. unfold len in *. cbn [length] in *. f_equal. apply (inj b2z). lia.
  - intros [|b rest]; [done|]. cbn [decode]. solve_raises.
Qed.
End FileReadBeginRequest.

Module FileWriteBeginRequest.
Record t := mk {
  path : bytes;
  total_size : Z;
  crc32 : Z;
  overwrite : bool }.

Definition fields (m : t) : denote _FILE_WRITE_BEGIN :=
  ⟨Z.b2z (overwrite m), total_size m, crc32 m, len (path m)⟩.

Definition encode (m : t) : result bytes :=
  _validate_path (path m);;
  raise_if (negb ((0 <=? total_size m) && (total_size m <=? 0xFFFFFFFF))) ValueError
    (py "invalid file size");;
  header ← pack _FILE_WRITE_BEGIN (fields m);
  Ok (header ++ path m).

Definition decode (payload : bytes) : result t :=
  '⟨overwrite, total_size, crc32, path_length⟩ ←
    unpack_header _FILE_WRITE_BEGIN "truncated file-write request" payload;
  _require_size payload (size _FILE_WRITE_BEGIN + path_length) "file-write request";;
  raise_if (1 <? overwrite) ValueError (py "invalid overwrite flag");;
  let path := tail _FILE_WRITE_BEGIN payload in
  _validate_path path;;
  Ok (mk path total_size crc32 (negb (overwrite =? 0))).

Definition valid (m : t) : Prop :=
  dos_path (path m) /\ 0 <= total_size m < 2 ^ 32 /\ 0 <= crc32 m < 2 ^ 32.

Definition codec : WireCodec t := {|
  wire_encode := encode; wire_decode := decode; sends := valid; accepts := valid |}.

Lemma valid_fits m : valid m -> fits _FILE_WRITE_BEGIN (fields m).
Proof.
  intros ([Hp _] & Ht & Hc). unfold fits. cbn. destruct (overwrite m); cbn; lia.
Qed.

Lemma write_begin_encode_forms m bs :
  encode m = Ok bs <->
  valid m /\ exists hd, bs = hd ++ path m /\ pack _FILE_WRITE_BEGIN (fields m) = Ok hd.
Proof.
  unfold encode, valid. split.
  - intros H. decode_inv. apply (pack_numeric_fits _FILE_WRITE_BEGIN _ _ eq_refl) in E1 as Hf.
    unfold fits in Hf; cbn in Hf. split; [split_and!; [done|lia..]|]. eauto.
  - intros ((Hv & Ht & Hc) & hd & -> & Hp). rewrite (proj2 (validate_path_Ok _ tt) Hv).
    cbn [mbind result_bind]. rewrite raise_if_false by lia. cbn [mbind result_bind]. by rewrite Hp.
Qed.

Lemma write_begin_decode_forms bs m :
  decode bs = Ok m <->
  valid m /\ exists hd, bs = hd ++ path m /\ pack _FILE_WRITE_BEGIN (fields m) = Ok hd.
Proof.
  unfold decode. split.
  - intros H. decode_inv. unfold fits in Hfits; cbn in Hfits. unfold valid, fields. cbn [path total_size crc32 overwrite].
    split; [split_and!; [done|lia..]|]. exists hd. split; [done|].
    rewrite len_app in E. replace (len rest) with z2 by lia.
    replace (Z.b2z (negb (z =? 0))) with z by (destruct (Z.eqb_spec z 0); cbn; lia). exact Hpack.
  - intros (Hv & hd & -> & Hp). apply pack_len in Hp as Hl. destruct Hv as (Hv & Ht & Hc). run_decode.
    rewrite require_size_pass by (rewrite len_app, Hl; done). cbn [mbind result_bind].
    rewrite raise_if_false by (by destruct (overwrite m)). cbn [mbind result_bind].
    rewrite (proj2 (validate_path_Ok _ tt) Hv). destruct m as [? ? ? []]; done.
Qed.

#[global] Instance codec_laws : WireLaws codec.
Proof.
  split; unfold codec; cbn [wire_encode wire_decode sends accepts].
  - intros m. rewrite is_ok_iff. setoid_rewrite write_begin_encode_forms. split; [by intros (? & ? & _)|].
    intros Hs. destruct (pack_fits _ _ (valid_fits m Hs)) as [hd Hp]. eauto 10.
  - intros m bs H%write_begin_encode_forms _. by apply write_begin_decode_forms.
  - by intros bs m [Hv _]%write_begin_decode_forms.
  - intros bs m H%write_begin_decode_forms _. by apply write_begin_encode_forms.
  - intros bs bs' m H%write_begin_decode_forms%write_begin_encode_forms H'%write_begin_decode_forms%write_begin_encode_forms. congruence.
  - intros bs. unfold decode. solve_raises.
Qed.
End FileWriteBeginRequest.

Module TransferBeginResponse.
Record t := mk {
  transfer_id : Z;
  total_size : Z }.

Definition encode (m : t) : result bytes :=
  pack _TRANSFER_BEGIN_RESPONSE ⟨transfer_id m, total_size m⟩.

Definition decode (payload : bytes) : result t :=
  '⟨id, total⟩ ← unpack_exactly _TRANSFER_BEGIN_RESPONSE "transfer-begin response" payload;
  raise_if (id =? 0) ValueError (py "transfer ID zero is reserved");;
  Ok (mk id total).

Definition sendable (m : t) : Prop :=
  fits _TRANSFER_BEGIN_RESPONSE ⟨transfer_id m, total_size m⟩.
Definition acceptable (m : t) : Prop := sendable m /\ transfer_id m <> 0.

Definition codec : WireCodec t := {|
  wire_encode := encode; wire_decode := decode; sends := sendable; accepts := acceptable |}.

#[global] Instance codec_laws : WireLaws codec.
Proof. fixed_size_laws codec encode decode. Qed.
End TransferBeginResponse.

Module TransferBlockRequest.
Record t := mk {
  transfer_id : Z;
  offset : Z;
  length : Z;
  data : bytes }.

Definition fields (m : t) : denote _TRANSFER_BLOCK_REQUEST :=
  ⟨transfer_id m, offset m, length m⟩.

Definition encode (m : t) : result bytes :=
  raise_if (transfer_id m =? 0) ValueError (py "transfer ID zero is reserved");;
  raise_if (negb ((1 <=? length m) && (length m <=? MAX_TRANSFER_BLOCK))) ValueError
    (py "invalid transfer block length");;
  raise_if (negb (bool_decide (data m = [])) && negb (len (data m) =? length m)) ValueError
    (py "transfer data length mismatch");;
  header ← pack _TRANSFER_BLOCK_REQUEST (fields m);
  Ok (header ++ data m).

Definition decode (has_data : bool) (payload : bytes) : result t :=
  '⟨transfer_id, offset, length⟩ ←
    unpack_header _TRANSFER_BLOCK_REQUEST "truncated transfer block" payload;
  let expected := size _TRANSFER_BLOCK_REQUEST + (if has_data then length else 0) in
  _require_size payload expected "transfer block";;
  let value := mk transfer_id offset length
    (if has_data then tail _TRANSFER_BLOCK_REQUEST payload else []) in
  encode value;;
  Ok value.

Definition sendable (m : t) : Prop :=
  fits _TRANSFER_BLOCK_REQUEST (fields m) /\ transfer_id m <> 0 /\ 1 <= length m <= 900 /\
  (data m = [] \/ len (data m) = length m).

Definition acceptable (has_data : bool) (m : t) : Prop :=
  sendable m /\ if has_data then len (data m) = length m else data m = [].

Definition codec (has_data : bool) : WireCodec t := {|
  wire_encode := encode; wire_decode := decode has_data;
  sends := sendable; accepts := acceptable has_data |}.

Lemma block_request_encode_forms m bs :
  encode m = Ok bs <->
  sendable m /\ exists hd, bs = hd ++ data m /\ pack _TRANSFER_BLOCK_REQUEST (fields m) = Ok hd.
Proof.
  unfold encode, sendable. limits. split.
  - intros H. decode_inv. apply (pack_numeric_fits _TRANSFER_BLOCK_REQUEST _ _ eq_refl) in E2 as Hf.
    split; [|eauto]. split_and!; [done|lia..|]. case_bool_decide; [by left|right].
    cbn [negb andb] in *. lia.
  - intros ((_ & Hi & Hl & Hd) & hd & -> & Hp). rewrite !raise_if_false; [by rewrite Hp|..]; try lia.
    destruct Hd as [-> | ->]; [done|]. rewrite Z.eqb_refl. apply andb_false_r.
Qed.

Lemma block_request_decode_forms has_data bs m :
  decode has_data bs = Ok m <->
  acceptable has_data m /\ exists hd, bs = hd ++ data m /\ pack _TRANSFER_BLOCK_REQUEST (fields m) = Ok hd.
Proof.
  unfold decode, acceptable. split.
  - intros H. decode_inv. apply block_request_encode_forms in E0 as [Hs _]. cbn [data length]. split.
    + split; [done|]. destruct has_data; [|done]. rewrite len_app in E; lia.
    + exists hd. split; [|exact Hpack]. destruct has_data; [done|].
      rewrite (len_nil_inv rest); [done|]. rewrite len_app in E; lia.
  - intros ((Hs & Hd) & hd & -> & Hp). apply pack_len in Hp as Hl. run_decode.
    rewrite require_size_pass by (rewrite len_app, Hl; destruct has_data; rewrite Hd; done).
    cbn [mbind result_bind].
    assert (Hm : mk (transfer_id m) (offset m) (length m) (if has_data then data m else []) = m)
      by (destruct m, has_data; cbn in *; by subst).
    rewrite Hm, (proj2 (block_request_encode_forms m (hd ++ data m))); [done|]. eauto.
Qed.

#[global] Instance codec_laws has_data : WireLaws (codec has_data).
Proof.
  split; unfold codec; cbn [wire_encode wire_decode sends accepts].
  - intros m. rewrite is_ok_iff. setoid_rewrite block_request_encode_forms. split; [by intros (? & ? & _)|].
    intros Hs. destruct (pack_fits _ _ (proj1 Hs)) as [hd Hp]. eauto 10.
  - intros m bs [_ H]%block_request_encode_forms Ha. by apply block_request_decode_forms.
  - by intros bs m [Hv _]%block_request_decode_forms.
  - intros bs m [_ H]%block_request_decode_forms Hs. by apply block_request_encode_forms.
  - intros bs bs' m [_ (hd & -> & Hp)]%block_request_decode_forms [_ (hd' & -> & Hp')]%block_request_decode_forms. congruence.
  - intros bs. unfold decode, encode. apply raises_bind; [solve_raises|]. intros v Hv.
    decode_inv. solve_raises. by pack_with Hpack.
Qed.
End TransferBlockRequest.

Module TransferBlockResponse.
Record t := mk {
  transfer_id : Z;
  offset : Z;
  data : bytes;
  rolling_crc32 : Z }.

Definition fields (m : t) : denote _TRANSFER_BLOCK_RESPONSE :=
  ⟨transfer_id m, offset m, len (data m), rolling_crc32 m⟩.

Definition encode (m : t) : result bytes :=
  raise_if (MAX_TRANSFER_BLOCK <? len (data m)) ValueError
    (py "transfer response block is too large");;
  header ← pack _TRANSFER_BLOCK_RESPONSE (fields m);
  Ok (header ++ data m).

Definition decode (payload : bytes) : result t :=
  '⟨transfer_id, offset, length, crc32⟩ ←
    unpack_header _TRANSFER_BLOCK_RESPONSE "truncated transfer-block response" payload;
  _require_size payload (size _TRANSFER_BLOCK_RESPONSE + length) "transfer-block response";;
  raise_if (MAX_TRANSFER_BLOCK <? length) ValueError
    (py "transfer response block is too large");;
  Ok (mk transfer_id offset (tail _TRANSFER_BLOCK_RESPONSE payload) crc32).

Definition valid (m : t) : Prop :=
  fits _TRANSFER_BLOCK_RESPONSE (fields m) /\ len (data m) <= 900.

Definition codec : WireCodec t := {|
  wire_encode := encode; wire_decode := decode; sends := valid; accepts := valid |}.

Lemma block_response_encode_forms m bs :
  encode m = Ok bs <->
  valid m /\ exists hd, bs = hd ++ data m /\ pack _TRANSFER_BLOCK_RESPONSE (fields m) = Ok hd.
Proof.
  unfold encode, valid. limits. split.
  - intros H. decode_inv. apply (pack_numeric_fits _TRANSFER_BLOCK_RESPONSE _ _ eq_refl) in E0 as Hf.
    split; [split; [done|lia]|]. eauto.
  - intros ((_ & Hl) & hd & -> & Hp). rewrite raise_if_false by lia. cbn [mbind result_bind].
    by rewrite Hp.
Qed.

Lemma block_response_decode_forms bs m :
  decode bs = Ok m <->
  valid m /\ exists hd, bs = hd ++ data m /\ pack _TRANSFER_BLOCK_RESPONSE (fields m) = Ok hd.
Proof.
  unfold decode, valid. limits. split.
  - intros H. decode_inv. rewrite len_app in E. assert (len rest = z1) as <- by lia.
    split; [split; [exact Hfits|cbn [data]; lia]|]. eauto.
  - intros ((_ & Hl) & hd & -> & Hp). apply pack_len in Hp as Hh. run_decode.
    rewrite require_size_pass by (rewrite len_app, Hh; done). cbn [mbind result_bind].
    rewrite raise_if_false by lia. by destruct m.
Qed.

#[global] Instance codec_laws : WireLaws codec.
Proof.
  split; unfold codec; cbn [wire_encode wire_decode sends accepts].
  - intros m. rewrite is_ok_iff. setoid_rewrite block_response_encode_forms. split; [by intros (? & ? & _)|].
    intros Hs. destruct (pack_fits _ _ (proj1 Hs)) as [hd Hp]. eauto 10.
  - intros m bs H%block_response_encode_forms _. by apply block_response_decode_forms.
  - by intros bs m [Hv _]%block_response_decode_forms.
  - intros bs m H%block_response_decode_forms _. by apply block_response_encode_forms.
  - intros bs bs' m H%block_response_decode_forms%block_response_encode_forms H'%block_response_decode_forms%block_response_encode_forms. congruence.
  - intros bs. unfold decode. solve_raises.
Qed.
End TransferBlockResponse.

Module TransferEndRequest.
Record t := mk { transfer_id : Z }.

Definition encode (m : t) : result bytes :=
  raise_if (transfer_id m =? 0) ValueError (py "transfer ID zero is reserved");;
  pack _TRANSFER_END_REQUEST ⟨transfer_id m⟩.

Definition decode (payload : bytes) : result t :=
  '⟨id⟩ ← unpack_exactly _TRANSFER_END_REQUEST "transfer-end request" payload;
  Ok (mk id).

Definition acceptable (m : t) : Prop := fits _TRANSFER_END_REQUEST ⟨transfer_id m⟩.
Definition sendable (m : t) : Prop := acceptable m /\ transfer_id m <> 0.

Definition codec : WireCodec t := {|
  wire_encode := encode; wire_decode := decode; sends := sendable; accepts := acceptable |}.

#[global] Instance codec_laws : WireLaws codec.
Proof.
  codec_goals codec encode decode; unfold sendable, acceptable.
  - intros m. rewrite is_ok_seq, raise_if_Ok, pack_is_ok by done. rewrite Z.eqb_neq. tauto.
  - intros m bs H _. decode_inv. run_decode. by destruct m.
  - intros bs m H. decode_inv. exact Hfits.
  - intros bs m H [_ Hs]. decode_inv. cbn in Hs. pass_guard (cbn; lia). exact Hpack.
  - intros bs bs' m H H'. decode_inv. congruence.
  - intros bs. solve_raises.
Qed.
End TransferEndRequest.

Module TransferEndResponse.
Record t := mk {
  total_size : Z;
  crc32 : Z }.

Definition encode (m : t) : result bytes :=
  pack _TRANSFER_END_RESPONSE ⟨total_size m, crc32 m⟩.

Definition decode (payload : bytes) : result t :=
  '⟨total, crc⟩ ← unpack_exactly _TRANSFER_END_RESPONSE "transfer-end response" payload;
  Ok (mk total crc).

Definition valid (m : t) : Prop := fits _TRANSFER_END_RESPONSE ⟨total_size m, crc32 m⟩.

Definition codec : WireCodec t := {|
  wire_encode := encode; wire_decode := decode; sends := valid; accepts := valid |}.

#[global] Instance codec_laws : WireLaws codec.
Proof. fixed_size_laws codec encode decode. Qed.
End TransferEndResponse.

Module GraphicsBeginResponse.
Record t := mk {
  transfer_id : Z;
  adapter : Adapter.t;
  video_mode : Z;
  layout : GraphicsLayout.t;
  planes : Z;
  width : Z;
  height : Z;
  total_size : Z;
  bytes_per_plane : Z }.

Definition fields (m : t) : denote _GRAPHICS_BEGIN_RESPONSE :=
  ⟨transfer_id m, int_of (adapter m), video_mode m, int_of (layout m), planes m, width m,
   height m, total_size m, bytes_per_plane m⟩.

Definition encode (m : t) : result bytes := pack _GRAPHICS_BEGIN_RESPONSE (fields m).

(** The disjunction [decode] rejects on. *)
Definition bad_metadata (m : t) : bool :=
  (transfer_id m =? 0) || negb ((1 <=? planes m) && (planes m <=? 4)) ||
  negb ((1 <=? width m) && (width m <=? 2048)) ||
  negb ((1 <=? height m) && (height m <=? 2048)) || (total_size m =? 0) ||
  (bytes_per_plane m =? 0) || negb (total_size m =? planes m * bytes_per_plane m) ||
  (bool_decide (layout m = GraphicsLayout.PLANAR_4BPP) && negb (planes m =? 4)) ||
  (negb (bool_decide (layout m = GraphicsLayout.PLANAR_4BPP)) && negb (planes m =? 1)).

Definition decode (payload : bytes) : result t :=
  '⟨id, raw_adapter, mode, raw_layout, planes, width, height, total, per_plane⟩ ←
    unpack_exactly _GRAPHICS_BEGIN_RESPONSE "graphics-begin response" payload;
  adapter ← enum_of Adapter.t raw_adapter;
  layout ← enum_of GraphicsLayout.t raw_layout;
  let value := mk id adapter mode layout planes width height total per_plane in
  raise_if (bad_metadata value) ValueError (py "invalid graphics metadata");;
  Ok value.

Definition sendable (m : t) : Prop := fits _GRAPHICS_BEGIN_RESPONSE (fields m).

(** Four planes exactly for the planar 16-colour layout, one for the others;
    a framebuffer of at least one byte per plane. *)
Definition acceptable (m : t) : Prop :=
  sendable m /\ transfer_id m <> 0 /\ 1 <= width m <= 2048 /\ 1 <= height m <= 2048 /\
  planes m = (if decide (layout m = GraphicsLayout.PLANAR_4BPP) then 4 else 1) /\
  bytes_per_plane m <> 0 /\ total_size m = planes m * bytes_per_plane m.

Definition codec : WireCodec t := {|
  wire_encode := encode; wire_decode := decode; sends := sendable; accepts := acceptable |}.

Lemma bad_metadata_false m :
  sendable m -> bad_metadata m = false <-> acceptable m.
Proof.
  intros Hs. unfold bad_metadata, acceptable.
  assert (0 <= bytes_per_plane m) by (unfold sendable, fits in Hs; cbn in Hs; lia).
  destruct (decide _) as [E|E];
    [rewrite (bool_decide_eq_true_2 _ E)|rewrite (bool_decide_eq_false_2 _ E)];
    cbn [negb andb]; split; intros; first [split_and!; [done|..]; lia | lia].
Qed.

#[global] Instance codec_laws : WireLaws codec.
Proof.
  codec_goals codec encode decode.
  - intros m. by apply pack_is_ok.
  - intros m bs H Ha. run_decode. apply bad_metadata_false in Ha as Hb; [|apply Ha].
    destruct m. cbn [transfer_id adapter video_mode layout planes width height total_size bytes_per_plane]. 
    by rewrite Hb.
  - intros bs m H. decode_inv. by apply bad_metadata_false.
  - intros bs m H _. decode_inv. exact Hpack.
  - intros bs bs' m H H'. decode_inv. congruence.
  - intros bs. solve_raises.
Qed.
End GraphicsBeginResponse.

(** ** Every payload class

    The payload classes of the protocol as one family, so that what holds of all
    of them is one statement. *)
Inductive wire_class :=
| HELLO_REQUEST
| HELLO_RESPONSE
| STATUS
| RESIDENT_DIAGNOSTICS
| CAPABILITIES
| SCREEN
| KEY_REQUEST
| KEY_RESPONSE
| FILE_READ_BEGIN_REQUEST
| FILE_WRITE_BEGIN_REQUEST
| TRANSFER_BEGIN_RESPONSE
| TRANSFER_BLOCK_REQUEST (has_data : bool)
| TRANSFER_BLOCK_RESPONSE
| TRANSFER_END_REQUEST
| TRANSFER_END_RESPONSE
| GRAPHICS_BEGIN_RESPONSE.

Definition message (w : wire_class) : Type :=
  match w with
  | HELLO_REQUEST => HelloRequest.t
  | HELLO_RESPONSE => HelloResponse.t
  | STATUS => StatusMessage.t
  | RESIDENT_DIAGNOSTICS => ResidentDiagnosticsMessage.t
  | CAPABILITIES => CapabilitiesMessage.t
  | SCREEN => ScreenMessage.t
  | KEY_REQUEST => KeyRequest.t
  | KEY_RESPONSE => KeyResponse.t
  | FILE_READ_BEGIN_REQUEST => FileReadBeginRequest.t
  | FILE_WRITE_BEGIN_REQUEST => FileWriteBeginRequest.t
  | TRANSFER_BEGIN_RESPONSE => TransferBeginResponse.t
  | TRANSFER_BLOCK_REQUEST _ => TransferBlockRequest.t
  | TRANSFER_BLOCK_RESPONSE => TransferBlockResponse.t
  | TRANSFER_END_REQUEST => TransferEndRequest.t
  | TRANSFER_END_RESPONSE => TransferEndResponse.t
  | GRAPHICS_BEGIN_RESPONSE => GraphicsBeginResponse.t
  end.

Definition codec_of (w : wire_class) : WireCodec (message w) :=
  match w with
  | HELLO_REQUEST => HelloRequest.codec
  | HELLO_RESPONSE => HelloResponse.codec
  | STATUS => StatusMessage.codec
  | RESIDENT_DIAGNOSTICS => ResidentDiagnosticsMessage.codec
  | CAPABILITIES => CapabilitiesMessage.codec
  | SCREEN => ScreenMessage.codec
  | KEY_REQUEST => KeyRequest.codec
  | KEY_RESPONSE => KeyResponse.codec
  | FILE_READ_BEGIN_REQUEST => FileReadBeginRequest.codec
  | FILE_WRITE_BEGIN_REQUEST => FileWriteBeginRequest.codec
  | TRANSFER_BEGIN_RESPONSE => TransferBeginResponse.codec
  | TRANSFER_BLOCK_REQUEST has_data => TransferBlockRequest.codec has_data
  | TRANSFER_BLOCK_RESPONSE => TransferBlockResponse.codec
  | TRANSFER_END_REQUEST => TransferEndRequest.codec
  | TRANSFER_END_RESPONSE => TransferEndResponse.codec
  | GRAPHICS_BEGIN_RESPONSE => GraphicsBeginResponse.codec
  end.

#[export] Instance codec_of_laws w : WireLaws (codec_of w).
Proof. destruct w; cbn [codec_of message]; apply _. Qed.

(** C39. Round trip of every payload class: a message whose encoder succeeds and
    which is within what its decoder accepts decodes from its encoding to
    itself. *)
Theorem payload_encode_decode w (m : message w) bs :
  wire_encode (codec_of w) m = Ok bs -> accepts (codec_of w) m ->
  wire_decode (codec_of w) bs = Ok m.
Proof. apply wire_decode_encode. Qed.

Definition screen_1x1 : ScreenMessage.t :=
  ScreenMessage.mk 1 1 3 0 0 0 6 7 Adapter.VGA 437 9 [x41; x07].

Lemma payload_encode_decode_witness :
  wire_decode (codec_of SCREEN)
    [x01; x01; x03; x00; x00; x00; x06; x07; x04; xb5; x01; x09; x00; x41; x07] = Ok screen_1x1.
Proof.
  apply (payload_encode_decode SCREEN screen_1x1); [vm_compute; reflexivity|].
  change (ScreenMessage.valid screen_1x1). unfold ScreenMessage.valid, fits. repeat split; by vm_compute.
Defined.

(** The classes whose encoder has limits that the decoder does not check: the text,
    the keys and the delay of a key request, and the reserved transfer ID zero. *)
Definition encoder_is_stricter (w : wire_class) : bool :=
  match w with KEY_REQUEST | TRANSFER_END_REQUEST => true | _ => false end.

Lemma accepted_is_sent w (m : message w) :
  encoder_is_stricter w = false -> accepts (codec_of w) m -> sends (codec_of w) m.
Proof. destruct w; try done; intros _ Ha; first [exact Ha | exact (proj1 Ha)]. Qed.

(** C40. Decoding is canonical.  For all sixteen payload classes, two payloads that
    decode to the same message are the same payload, and a decoded message is within
    the decoder's stated limits.  For fourteen of them what a decoder accepts is always
    what the encoder produces for the decoded message.  [KeyRequest] and
    [TransferEndRequest] decode more than their encoders produce (messages beyond the
    encoder's limits, on which it raises); for a message within those limits the
    payload is the encoder's for them too. *)
Theorem payload_decode_canonical w bs (m : message w) :
  wire_decode (codec_of w) bs = Ok m ->
  (forall bs', wire_decode (codec_of w) bs' = Ok m -> bs' = bs) /\
  accepts (codec_of w) m /\
  (encoder_is_stricter w = false -> wire_encode (codec_of w) m = Ok bs) /\
  (encoder_is_stricter w = true ->
     (sends (codec_of w) m -> wire_encode (codec_of w) m = Ok bs) /\
     (~ sends (codec_of w) m -> is_ok (wire_encode (codec_of w) m) = false)).
Proof.
  intros H. pose proof (wire_decode_accepts bs m H) as Ha. split_and!; [|done| |intros _; split].
  - intros bs' H'. by eapply wire_decode_inj.
  - intros Hw. by apply wire_encode_decode, accepted_is_sent.
  - by apply wire_encode_decode.
  - intros Hs. apply not_true_is_false. by rewrite wire_encode_sends.
Qed.

Lemma payload_decode_canonical_witness :
  wire_encode (codec_of STATUS)
    (StatusMessage.mk 1 2 6 22 3 Phase.OBSERVE_READY 640 77) =
  Ok [x01; x02; x06; x16; x03; x02; x80; x02; x4d; x00; x00; x00].
Proof.
  refine (proj1 (proj2 (proj2 (payload_decode_canonical STATUS _ _ _))) eq_refl). vm_compute. reflexivity.
Defined.

(** The encoders' domains are exactly the stated limits, and every decoder,
    on arbitrary bytes, returns a message or raises [ValueError] (never
    [struct.error], whatever the length). *)
Theorem payload_domains w :
  (forall m : message w, is_ok (wire_encode (codec_of w) m) = true <-> sends (codec_of w) m) /\
  (forall bs, raises (.= ValueError) (wire_decode (codec_of w) bs)).
Proof. split; [apply wire_encode_sends|apply wire_decode_raises]. Qed.

(** The wire carries only well-formed screens: a decoded screen has between
    1 and 255 columns and rows, two bytes per cell and its cursor inside. *)
Theorem screen_decode_well_formed bs m :
  ScreenMessage.decode bs = Ok m ->
  1 <= ScreenMessage.columns m <= 255 /\ 1 <= ScreenMessage.rows m <= 255 /\
  len (ScreenMessage.cells m) = ScreenMessage.columns m * ScreenMessage.rows m * 2 /\
  0 <= ScreenMessage.cursor_row m < ScreenMessage.rows m /\
  0 <= ScreenMessage.cursor_column m < ScreenMessage.columns m.
Proof.
  intros (Hf & Hv)%(wire_decode_accepts (c:=ScreenMessage.codec)).
  unfold fits in Hf. cbn in Hf. lia.
Qed.

Lemma screen_decode_well_formed_witness :
  0 <= ScreenMessage.cursor_row screen_1x1 < ScreenMessage.rows screen_1x1.
Proof.
  apply (screen_decode_well_formed
    [x01; x01; x03; x00; x00; x00; x06; x07; x04; xb5; x01; x09; x00; x41; x07]).
  vm_compute. reflexivity.
Defined.

(** A decoded graphics description has consistent metadata: a nonzero
    transfer, four planes exactly for the planar 16-colour layout and one
    otherwise, bounded dimensions, and a size of planes times bytes per plane. *)
Theorem graphics_decode_consistent bs m :
  GraphicsBeginResponse.decode bs = Ok m ->
  0 < GraphicsBeginResponse.transfer_id m < 65536 /\
  (GraphicsBeginResponse.planes m = 4 <->
   GraphicsBeginResponse.layout m = GraphicsLayout.PLANAR_4BPP) /\
  1 <= GraphicsBeginResponse.width m <= 2048 /\ 1 <= GraphicsBeginResponse.height m <= 2048 /\
  0 < GraphicsBeginResponse.total_size m /\
  GraphicsBeginResponse.total_size m =
    GraphicsBeginResponse.planes m * GraphicsBeginResponse.bytes_per_plane m.
Proof.
  intros (Hf & Hi & Hw & Hh & Hp & Hb & Ht)%(wire_decode_accepts (c:=GraphicsBeginResponse.codec)).
  unfold GraphicsBeginResponse.sendable, fits in Hf. cbn in Hf.
  destruct (decide _) as [E|E]; (split_and!; [lia|lia|split; [done|lia]|lia..]) ||
    (split_and!; try lia; split; [lia|done]).
Qed.

Lemma graphics_decode_consistent_witness :
  let m := GraphicsBeginResponse.mk 1 Adapter.VGA 19 GraphicsLayout.PACKED_8BPP 1 320 200 64000 64000 in
  0 < GraphicsBeginResponse.transfer_id m < 65536.
Proof.
  cbv zeta. apply (graphics_decode_consistent
    [x01; x00; x04; x13; x06; x01; x40; x01; xc8; x00; x00; xfa; x00; x00; x00; xfa; x00; x00]).
  vm_compute. reflexivity.
Defined.

(** The key-request decoder does not enforce the limits the encoder
    enforces: there is a payload of 4097 text bytes, 200 keys and a delay of
    65535 ms that it accepts and that no encoder call produces. *)
Theorem key_request_decode_unbounded :
  exists bs m, KeyRequest.decode bs = Ok m /\ len (KeyRequest.text m) = 4097 /\
    len (KeyRequest.keys m) = 200 /\ KeyRequest.inter_key_delay_ms m = 65535 /\
    is_ok (KeyRequest.encode m) = false.
Proof.
  exists ([x01; x10; xc8; xff; xff] ++ replicate 4097 x41 ++ replicate 200 x01).
  exists (KeyRequest.mk (replicate 4097 x41) (replicate 200 KeyCode.ENTER) 65535).
  split_and!; vm_compute; reflexivity.
Qed.
