(* ===== verification/Errors.v ===== *)
(** * Error payloads ([protocol/errors.py])

    A wire error is a two-byte code and at most 120 characters of ASCII text. *)
From S2P Require Import Prelude Struct PyText Constants Messages.

Definition _ERROR : list field := Eval vm_compute in Struct "<H".

Definition encode_error (code : ErrorCode.t) (message : pystr) : result bytes :=
  let encoded := take 120 (ascii_encode_replace message) in
  header ← pack _ERROR ⟨int_of code⟩;
  Ok (header ++ encoded).

Definition decode_error (payload : bytes) : result (ErrorCode.t * pystr) :=
  '⟨raw⟩ ← unpack_header _ERROR "truncated error payload" payload;
  code ← enum_of ErrorCode.t raw;
  Ok (code, ascii_decode_replace (tail _ERROR payload)).

(** The text an error carries over the wire: characters beyond ASCII become
    question marks, and only the first 120 are kept. *)
Definition wire_text (message : pystr) : pystr :=
  take 120 ((fun c => if in_range 0 127 c then c else 63) <$> message).

Lemma ascii_replace_decode message :
  ascii_decode_replace (take 120 (ascii_encode_replace message)) = wire_text message.
Proof.
  unfold ascii_decode_replace, ascii_encode_replace, wire_text.
  rewrite !fmap_take, <- list_fmap_compose. f_equal. apply list_fmap_ext. intros _ c _.
  unfold compose, in_range. destruct ((0 <=? c) && (c <=? 127)) eqn:E; [|done].
  rewrite b2z_z2b_small by lia. by destruct (Z.ltb_spec c 128); [|lia].
Qed.

Lemma error_round_trip code message :
  exists bs, encode_error code message = Ok bs /\ len bs <= 122 /\
    decode_error bs = Ok (code, wire_text message).
Proof.
  assert (Hf : fits _ERROR ⟨int_of code⟩) by (split; [destruct code; by vm_compute|done]).
  destruct (pack_fits _ _ Hf) as [hd Hp]. exists (hd ++ take 120 (ascii_encode_replace message)).
  split_and!.
  - unfold encode_error. by pack_with Hp.
  - apply pack_len in Hp. rewrite len_app, Hp. unfold len. rewrite length_take.
    change (calcsize _ERROR) with 2%nat. lia.
  - unfold decode_error. run_decode. rewrite ascii_replace_decode. done.
Qed.

(** Errors reach the client: every code and message encodes to at most 122
    bytes, which decode to the same code and to the message's transmitted text. *)
Theorem error_encode_decode code message :
  exists bs, encode_error code message = Ok bs /\ len bs <= 122 /\
    decode_error bs = Ok (code, wire_text message).
Proof. apply error_round_trip. Qed.

(** [decode_error] rejects with [ValueError] only. *)
Lemma decode_error_raises payload : raises (.= ValueError) (decode_error payload).
Proof. unfold decode_error. solve_raises. Qed.
