(* ===== verification/State.v ===== *)
(** * Stateful computations

    The monad of the program's objects: a computation reads and changes a state
    and returns or raises.  As in Python, what a computation changed before it
    raised stays changed. *)
From Stdlib Require Import Floats.SpecFloat.
From S2P Require Import Prelude.

Definition stateful (S A : Type) : Type := S -> result A * S.

(** [time.monotonic()]: a binary64 number of seconds. *)
Class Clock (W : Type) := monotonic : W -> spec_float * W.
#[global] Hint Mode Clock ! : typeclass_instances.

Definition read_clock {W} `{Clock W} : stateful W spec_float := fun w =>
  let '(t, w) := monotonic w in (Ok t, w).

Section Stateful.
Context {S : Type}.

#[global] Instance stateful_ret : MRet (stateful S) := fun A a s => (Ok a, s).
#[global] Instance stateful_bind : MBind (stateful S) := fun A B f m s =>
  match m s with (Ok a, s) => f a s | (Err e, s) => (Err e, s) end.
#[global] Instance stateful_fmap : FMap (stateful S) := fun A B f m s =>
  match m s with (Ok a, s) => (Ok (f a), s) | (Err e, s) => (Err e, s) end.

Definition get : stateful S S := fun s => (Ok s, s).
Definition gets {A} (f : S -> A) : stateful S A := fun s => (Ok (f s), s).
Definition modify (f : S -> S) : stateful S unit := fun s => (Ok tt, f s).
Definition lift {A} (r : result A) : stateful S A := fun s => (r, s).
Definition fail {A} (e : exn) : stateful S A := lift (Err e).

(** [try: m except ...]: the handler sees the exception and the state it left; if [m]
    does not return, neither does the statement. *)
Definition catch {A} (m : stateful S A) (h : exn -> stateful S A) : stateful S A := fun s =>
  match m s with
  | (Ok a, s) => (Ok a, s)
  | (Err e, s) => if diverges e then (Err e, s) else h e s
  end.

(** What a call that may raise did: [try: m except ...] whose handlers follow and let
    [Diverges] through. *)
Definition attempt {A} (m : stateful S A) : stateful S (result A) := fun s =>
  let '(r, s) := m s in (Ok r, s).

(** A loop whose rounds are used up: it does not end. *)
Definition out_of_rounds {A} : stateful S A := fail (Exn Diverges (py "the loop does not end")).

(** [try: m finally: f] *)
Definition finally {A} (m : stateful S A) (f : stateful S unit) : stateful S A :=
  a ← catch m (fun e => f;; fail e);
  f;;
  mret a.

(** [for x in l: f(x)] *)
Fixpoint each {A} (f : A -> stateful S unit) (l : list A) : stateful S unit :=
  match l with
  | [] => mret tt
  | x :: l => f x;; each f l
  end.

Lemma bind_run {A B} (m : stateful S A) (f : A -> stateful S B) s :
  (m ≫= f) s = match m s with (Ok a, s) => f a s | (Err e, s) => (Err e, s) end.
Proof. done. Qed.

Lemma attempt_run {A} (m : stateful S A) s : attempt m s = (Ok (m s).1, (m s).2).
Proof. unfold attempt. by destruct (m s). Qed.

(** [m s = (r, s')] taken apart at a bind, and at a handler. *)
Lemma bind_inv {A B} (m : stateful S A) (f : A -> stateful S B) s r s' :
  (m ≫= f) s = (r, s') ->
  (exists e, m s = (Err e, s') /\ r = Err e) \/
  (exists a s1, m s = (Ok a, s1) /\ f a s1 = (r, s')).
Proof. rewrite bind_run. destruct (m s) as [[a|e] s1]; [eauto 6|]. intros [= <- <-]. eauto. Qed.

Lemma catch_inv {A} (m : stateful S A) h s r s' :
  catch m h s = (r, s') ->
  (exists a, m s = (Ok a, s') /\ r = Ok a) \/
  (exists e s1, m s = (Err e, s1) /\ diverges e = false /\ h e s1 = (r, s')) \/
  (exists e, m s = (Err e, s') /\ diverges e = true /\ r = Err e).
Proof.
  unfold catch. destruct (m s) as [[a|e] s1]; [|destruct (diverges e) eqn:Ed; [|eauto 8]];
    intros [= <- <-]; eauto 6.
Qed.

Lemma bind_Ok_inv {A B} (m : stateful S A) (f : A -> stateful S B) s b s' :
  (m ≫= f) s = (Ok b, s') -> exists a s1, m s = (Ok a, s1) /\ f a s1 = (Ok b, s').
Proof. by intros [(e & _ & [=])|Hm]%bind_inv. Qed.

Lemma finally_run {A} (m : stateful S A) (f : stateful S unit) s :
  finally m f s =
    let '(r, s1) := m s in
    if ends_in r then match f s1 with (Ok _, s2) => (r, s2) | (Err e, s2) => (Err e, s2) end
    else (r, s1).
Proof.
  unfold finally. rewrite bind_run. unfold catch.
  destruct (m s) as [[a|e] s1]; cbn [ends_in]; [|destruct (diverges e); [done|]]; rewrite bind_run;
    by destruct (f s1) as [[[]|e'] s2].
Qed.

Lemma ret_bind_run {A B} (a : A) (f : A -> stateful S B) s : (mret a ≫= f) s = f a s.
Proof. done. Qed.

(** ** What a computation keeps

    [keeps R m]: [m] moves the state along the preorder [R], whether it returns
    or raises. *)
Definition keeps {A} (R : S -> S -> Prop) (m : stateful S A) : Prop := forall s, R s (m s).2.

Context (R : S -> S -> Prop) `{!PreOrder R}.

Lemma keeps_ret {A} (a : A) : keeps R (mret a).
Proof. by intros s. Qed.
Lemma keeps_lift {A} (r : result A) : keeps R (lift r).
Proof. by intros s. Qed.
Lemma keeps_gets {A} (f : S -> A) : keeps R (gets f).
Proof. by intros s. Qed.
Lemma keeps_get : keeps R get.
Proof. by intros s. Qed.
Lemma keeps_bind {A B} (m : stateful S A) (f : A -> stateful S B) :
  keeps R m -> (forall a, keeps R (f a)) -> keeps R (m ≫= f).
Proof.
  intros Hm Hf s. rewrite bind_run. specialize (Hm s). destruct (m s) as [[a|e] s']; [|done].
  simpl in Hm. etrans; [exact Hm|apply Hf].
Qed.
Lemma keeps_bind_lift {A B} (r : result A) (f : A -> stateful S B) :
  (forall a, r = Ok a -> keeps R (f a)) -> keeps R (lift r ≫= f).
Proof. intros Hf s. destruct r as [a|e]; [by apply Hf|done]. Qed.
Lemma keeps_catch {A} (m : stateful S A) h :
  keeps R m -> (forall e, keeps R (h e)) -> keeps R (catch m h).
Proof.
  intros Hm Hh s. unfold catch. specialize (Hm s). destruct (m s) as [[a|e] s']; [done|].
  simpl in Hm. destruct (diverges e); [done|]. etrans; [exact Hm|apply Hh].
Qed.
Lemma keeps_each {A} (f : A -> stateful S unit) l :
  (forall a, keeps R (f a)) -> keeps R (each f l).
Proof.
  intros Hf. induction l as [|x l IH]; [apply keeps_ret|]. by apply keeps_bind.
Qed.
End Stateful.

(** [f] has its final value from [n] rounds on. *)
Definition settled {A} (f : nat -> A) (n : nat) : Prop := forall extra, f (n + extra)%nat = f n.

(** ** What a run ends in

    [ends I P m s]: run from [s], [m] ends in a state in [I], and if it raises,
    then an exception whose class satisfies [P]. *)
Section Ends.
Context {S : Type} (I : S -> Prop) (P : exn_class -> Prop).

Definition ends {A} (m : stateful S A) (s : S) : Prop := I (m s).2 /\ raises P (m s).1.

Lemma ends_ret {A} (a : A) s : I s -> ends (mret a) s.
Proof. done. Qed.
Lemma ends_modify f s : I (f s) -> ends (modify f) s.
Proof. done. Qed.
Lemma ends_get {A} (f : S -> stateful S A) s : ends (f s) s -> ends (get ≫= f) s.
Proof. done. Qed.
Lemma ends_if {A} (b : bool) (m k : stateful S A) s :
  (b = true -> ends m s) -> (b = false -> ends k s) -> ends (if b then m else k) s.
Proof. destruct b; auto. Qed.
Lemma ends_bind {A B} (m : stateful S A) (f : A -> stateful S B) s :
  ends m s -> (forall a s', m s = (Ok a, s') -> I s' -> ends (f a) s') -> ends (m ≫= f) s.
Proof.
  unfold ends. intros [HI HP] Hf. rewrite bind_run. destruct (m s) as [[a|e] s']; [|done].
  by apply Hf.
Qed.
Lemma ends_lift {A B} (r : result A) (f : A -> stateful S B) s :
  I s -> raises P r -> (forall a, r = Ok a -> ends (f a) s) -> ends (lift r ≫= f) s.
Proof. intros HI HP Hf. destruct r as [a|e]; [by apply Hf|done]. Qed.
Lemma ends_each {A} (f : A -> stateful S unit) l s :
  I s -> (forall a s, a ∈ l -> I s -> ends (f a) s) -> ends (each f l) s.
Proof.
  revert s. induction l as [|x l IH]; intros s HI Hf; cbn [each]; [by apply ends_ret|].
  apply ends_bind; [apply Hf; [left|done]|]. intros _ s' _ HI'. apply IH; [done|].
  intros a s'' Ha. apply Hf. by right.
Qed.
End Ends.

(** *** Computations that always end *)
Section ComesBack.
Context {S : Type}.

Definition comes_back {A} (m : stateful S A) : Prop := forall s, ends_in (m s).1 = true.

Lemma comes_back_ret {A} (a : A) : comes_back (mret a).
Proof. done. Qed.
Lemma comes_back_fail {A} e : diverges e = false -> comes_back (fail (A:=A) e).
Proof. intros He s. unfold fail, lift. cbn [fst ends_in]. by rewrite He. Qed.
Lemma comes_back_bind {A B} (m : stateful S A) (f : A -> stateful S B) :
  comes_back m -> (forall a, comes_back (f a)) -> comes_back (m ≫= f).
Proof. intros Hm Hf s. rewrite bind_run. specialize (Hm s). destruct (m s) as [[a|e] s1]; [apply Hf|done]. Qed.
Lemma comes_back_raise {B} c cls msg (f : unit -> stateful S B) :
  cls <> Diverges -> comes_back (f tt) -> comes_back (lift (raise_if c cls msg) ≫= f).
Proof.
  intros Hc Hf s. rewrite bind_run. destruct c; [|apply Hf]. unfold lift, raise_if, raise. cbn [fst ends_in].
  unfold diverges. by rewrite bool_decide_eq_false_2.
Qed.
Lemma comes_back_catch {A} (m : stateful S A) h :
  comes_back m -> (forall e, diverges e = false -> comes_back (h e)) -> comes_back (catch m h).
Proof.
  intros Hm Hh s. unfold catch. specialize (Hm s). destruct (m s) as [[a|e] s1]; [done|].
  destruct (diverges e) eqn:He; [|by apply Hh]. cbn [fst ends_in] in Hm. by rewrite He in Hm.
Qed.
End ComesBack.

Lemma each_app {S A} (f : A -> stateful S unit) l k s :
  each f (l ++ k) s = (each f l;; each f k) s.
Proof.
  revert s. induction l as [|x l IH]; intros s; [done|].
  change (each f ((x :: l) ++ k)) with (f x;; each f (l ++ k)).
  change (each f (x :: l)) with (f x;; each f l).
  rewrite !bind_run. destruct (f x s) as [[a|e] s']; [|done]. apply IH.
Qed.

(** ** Invariants

    [preserves I m]: from a state in [I], [m] ends in a state in [I], whether it
    returns or raises. *)
Section Invariants.
Context {S : Type} (I : S -> Prop).

Definition preserves {A} (m : stateful S A) : Prop := forall s, I s -> I (m s).2.

Lemma preserves_ret {A} (a : A) : preserves (mret a).
Proof. by intros s. Qed.
Lemma preserves_lift {A} (r : result A) : preserves (lift r).
Proof. by intros s. Qed.
Lemma preserves_fail {A} e : preserves (@fail S A e).
Proof. by intros s. Qed.
Lemma preserves_gets {A} (f : S -> A) : preserves (gets f).
Proof. by intros s. Qed.
Lemma preserves_bind {A B} (m : stateful S A) (f : A -> stateful S B) :
  preserves m -> (forall s a s', I s -> m s = (Ok a, s') -> preserves (f a)) ->
  preserves (m ≫= f).
Proof.
  intros Hm Hf s Hs. rewrite bind_run. pose proof (Hm s Hs) as Hs'.
  destruct (m s) as [[a|e] s'] eqn:E; [|done]. by apply (Hf s a s').
Qed.
Lemma preserves_bind_lift {A B} (r : result A) (f : A -> stateful S B) :
  (forall a, r = Ok a -> preserves (f a)) -> preserves (lift r ≫= f).
Proof. intros Hf s. destruct r as [a|e]; [by apply Hf|done]. Qed.
Lemma preserves_fmap {A B} (m : stateful S A) (f : A -> B) :
  preserves m -> preserves (f <$> m).
Proof.
  intros Hm s Hs. unfold fmap, stateful_fmap. specialize (Hm s Hs). by destruct (m s) as [[] ?].
Qed.
Lemma preserves_catch {A} (m : stateful S A) h :
  preserves m -> (forall e, preserves (h e)) -> preserves (catch m h).
Proof.
  intros Hm Hh s Hs. unfold catch. specialize (Hm s Hs). destruct (m s) as [[a|e] s']; [done|].
  destruct (diverges e); [done|by apply Hh].
Qed.
Lemma preserves_attempt {A} (m : stateful S A) : preserves m -> preserves (attempt m).
Proof. intros Hm s Hs. rewrite attempt_run. by apply Hm. Qed.
Lemma preserves_each {A} (f : A -> stateful S unit) l :
  (forall a, a ∈ l -> preserves (f a)) -> preserves (each f l).
Proof.
  induction l as [|x l IH]; intros Hf; cbn [each]; [apply preserves_ret|].
  apply preserves_bind; [apply Hf; left|]. intros _ _ _ _ _. apply IH. intros a Ha.
  apply Hf. by right.
Qed.
End Invariants.
