(* ===== verification/Models.v ===== *)
(** * Values of the logical target contract ([models.py])

    The dataclasses exchanged between tools and backends and the checks their
    constructors make. *)
From Stdlib Require Import Floats.SpecFloat.
From S2P Require Import Prelude.

Record Cursor := mkCursor {
  cursor_row : Z;
  cursor_column : Z;
  cursor_visible : bool;
  start_scanline : option Z;
  end_scanline : option Z }.

Record TextScreen := mkTextScreen {
  columns : Z;
  rows : Z;
  text : list pystr;
  attributes : list (list Z);
  cursor : Cursor;
  generation : Z;
  screen_adapter : pystr;
  screen_video_mode : option Z;
  active_page : Z;
  code_page : pystr;
  blink_enabled : bool }.

(** [TextScreen.__post_init__] *)
Definition text_screen_check (s : TextScreen) : result unit :=
  raise_if ((columns s <? 1) || (rows s <? 1)) ValueError
    (py "screen dimensions must be positive");;
  raise_if (negb (len (text s) =? rows s)) ValueError
    (py "screen row count does not match metadata");;
  raise_if (negb (len (attributes s) =? rows s)) ValueError
    (py "attribute row count does not match metadata");;
  raise_if (existsb (fun row => negb (len row =? columns s)) (text s)) ValueError
    (py "text rows must retain exactly columns characters");;
  raise_if (existsb (fun row => negb (len row =? columns s)) (attributes s)) ValueError
    (py "attribute rows must contain exactly columns cells");;
  raise_if (negb ((0 <=? cursor_row (cursor s)) && (cursor_row (cursor s) <? rows s))) ValueError
    (py "cursor row is outside the screen");;
  raise_if (negb ((0 <=? cursor_column (cursor s)) && (cursor_column (cursor s) <? columns s)))
    ValueError (py "cursor column is outside the screen");;
  raise_if (existsb (existsb (fun v => negb ((0 <=? v) && (v <=? 0xFF)))) (attributes s))
    ValueError (py "cell attributes must be bytes").

(** The constructor call. *)
Definition new_text_screen (s : TextScreen) : result TextScreen := text_screen_check s;; Ok s.

Record Capabilities := mkCapabilities {
  cap_backend : pystr;
  cap_transport : pystr;
  status : bool;
  text_capture : bool;
  graphics_capture : list pystr;
  keyboard_injection : option pystr;
  screen_columns : Z;
  screen_rows : Z;
  max_text_bytes : Z;
  max_keys_per_request : Z;
  filesystem_read : bool;
  filesystem_write : bool;
  command_execution : bool;
  memory_read : bool;
  memory_write : bool;
  port_read : bool;
  port_write : bool;
  reboot : bool }.

(** [uptime_seconds] is a binary64 number. *)
Record MachineStatus := mkMachineStatus {
  connected : bool;
  phase : pystr;
  status_backend : pystr;
  status_transport : pystr;
  machine_identity : pystr;
  operating_system : pystr;
  architecture : pystr;
  agent_version : pystr;
  uptime_seconds : spec_float }.

Record KeyReceipt := mkKeyReceipt {
  accepted_text_bytes : Z;
  accepted_keys : Z;
  receipt_keys : list pystr;
  screen_generation : Z }.

Record FileContents := mkFileContents {
  contents_path : pystr;
  contents_data : bytes;
  contents_crc32 : Z }.

Record FileReceipt := mkFileReceipt {
  receipt_path : pystr;
  receipt_size : Z;
  receipt_crc32 : Z }.

Record GraphicsScreen := mkGraphicsScreen {
  adapter : pystr;
  video_mode : Z;
  layout : pystr;
  width : Z;
  height : Z;
  planes : Z;
  bytes_per_plane : Z;
  data : bytes;
  crc32 : Z }.

(** [GraphicsScreen.__post_init__] *)
Definition graphics_screen_check (g : GraphicsScreen) : result unit :=
  raise_if ((width g <? 1) || (height g <? 1)) ValueError
    (py "graphics dimensions must be positive");;
  raise_if (negb ((1 <=? planes g) && (planes g <=? 4))) ValueError
    (py "graphics plane count must be between 1 and 4");;
  raise_if (bytes_per_plane g <? 1) ValueError
    (py "graphics bytes_per_plane must be positive");;
  raise_if (negb (len (data g) =? planes g * bytes_per_plane g)) ValueError
    (py "graphics data length does not match plane metadata");;
  raise_if (negb ((0 <=? crc32 g) && (crc32 g <=? 0xFFFFFFFF))) ValueError
    (py "graphics CRC32 must fit in 32 bits").

Definition new_graphics_screen (g : GraphicsScreen) : result GraphicsScreen :=
  graphics_screen_check g;; Ok g.

(** ** What the constructors guarantee *)
Definition well_formed_screen (s : TextScreen) : Prop :=
  1 <= columns s /\ 1 <= rows s /\ len (text s) = rows s /\ len (attributes s) = rows s /\
  Forall (fun row => len row = columns s) (text s) /\
  Forall (fun row => len row = columns s) (attributes s) /\
  0 <= cursor_row (cursor s) < rows s /\ 0 <= cursor_column (cursor s) < columns s /\
  Forall (Forall (fun v => 0 <= v <= 255)) (attributes s).

Lemma existsb_negb_Forall {A} (f : A -> bool) (P : A -> Prop) l :
  (forall x, f x = false <-> P x) -> existsb f l = false <-> Forall P l.
Proof.
  intros H. rewrite existsb_false_Forall.
  by split; intros HF; (eapply Forall_impl; [exact HF|]); intros x; apply H.
Qed.

Lemma text_screen_check_Ok s u : text_screen_check s = Ok u <-> well_formed_screen s.
Proof.
  assert (Hrow : forall A (l : list (list A)), existsb (fun row => negb (len row =? columns s)) l = false <->
    Forall (fun row => len row = columns s) l)
    by (intros; apply existsb_negb_Forall; intros; lia).
  assert (Hattr : existsb (existsb (fun v => negb ((0 <=? v) && (v <=? 0xFF)))) (attributes s) = false <->
    Forall (Forall (fun v => 0 <= v <= 255)) (attributes s))
    by (do 2 (apply existsb_negb_Forall; intros); lia).
  unfold text_screen_check, well_formed_screen. split.
  - intros H. inv_ok. rewrite Hattr in H. apply Hrow in E2, E3. split_and!; (done || lia).
  - intros (? & ? & ? & ? & Ht%Hrow & Ha%Hrow & ? & ? & Hv%Hattr). destruct u.
    rewrite Ht, Ha, Hv. rewrite !raise_if_false by lia. done.
Qed.

Definition well_formed_graphics (g : GraphicsScreen) : Prop :=
  1 <= width g /\ 1 <= height g /\ 1 <= planes g <= 4 /\ 1 <= bytes_per_plane g /\
  len (data g) = planes g * bytes_per_plane g /\ 0 <= crc32 g < 2 ^ 32.

Lemma graphics_screen_check_Ok g u : graphics_screen_check g = Ok u <-> well_formed_graphics g.
Proof.
  unfold graphics_screen_check, well_formed_graphics. split.
  - intros H. inv_ok. lia.
  - intros H. destruct u. rewrite !raise_if_false by lia. done.
Qed.
