(* ===== verification/Value.v ===== *)
(** * The values the tools return

    JSON-like Python values, dictionaries with string keys in insertion order,
    and the [to_dict] method of every class of [models.py]. *)
From Stdlib Require Import Floats.SpecFloat.
From S2P Require Import Prelude PyText Base64.
From S2P Require Models.

Inductive value :=
| VNone
| VBool (b : bool)
| VInt (n : Z)
| VFloat (x : spec_float)
| VStr (s : pystr)
| VTuple (l : list value)
| VList (l : list value)
| VDict (d : list (pystr * value)).

(** ** Dictionaries with string keys *)
Abbreviation sdict V := (list (pystr * V)).

Section StrDict.
Context {V : Type}.
Implicit Types (d : sdict V) (k : pystr) (v : V).

(** [d.get(k)] *)
Fixpoint sdict_get k d : option V :=
  match d with
  | [] => None
  | (k', v) :: d => if decide (k' = k) then Some v else sdict_get k d
  end.

(** [d[k] = v]: a known key keeps its place. *)
Fixpoint sdict_set k v d : sdict V :=
  match d with
  | [] => [(k, v)]
  | (k', v') :: d => if decide (k' = k) then (k, v) :: d else (k', v') :: sdict_set k v d
  end.

(** [d.pop(k, None)] *)
Definition sdict_pop k d : sdict V := filter (fun p => p.1 <> k) d.

(** [d.update(other)] *)
Definition sdict_update d (other : sdict V) : sdict V :=
  foldl (fun d p => sdict_set p.1 p.2 d) d other.

Definition sdict_ok d : Prop := NoDup d.*1.

Lemma sdict_get_None k d : sdict_get k d = None <-> k ∉ d.*1.
Proof.
  induction d as [|[k' v'] d IH]; csimpl.
  - split; [intros _; apply not_elem_of_nil|done].
  - rewrite not_elem_of_cons. case_decide; naive_solver.
Qed.

Lemma sdict_get_Some k d v : sdict_get k d = Some v -> k ∈ d.*1.
Proof.
  intros H. destruct (decide (k ∈ d.*1)) as [|Hn]; [done|].
  apply sdict_get_None in Hn. congruence.
Qed.

Lemma sdict_get_elem k v d : sdict_ok d -> sdict_get k d = Some v <-> (k, v) ∈ d.
Proof.
  unfold sdict_ok. induction d as [|[k' v'] d IH]; csimpl.
  - intros _. split; [done|]. by intros ?%not_elem_of_nil.
  - intros [Hk Hd]%NoDup_cons. case_decide as Hkk.
    + subst k'. split; [intros [= ->]; left|]. intros [[= ->]|Hin]%elem_of_cons; [done|].
      contradict Hk. by apply (list_elem_of_fmap_2 fst) in Hin.
    + rewrite IH by done. rewrite elem_of_cons. naive_solver.
Qed.

Lemma sdict_get_set k k' v d :
  sdict_get k (sdict_set k' v d) = if decide (k' = k) then Some v else sdict_get k d.
Proof.
  induction d as [|[k0 v0] d IH]; cbn [sdict_set sdict_get]; [done|].
  destruct (decide (k0 = k')) as [->|Hk]; cbn [sdict_get]; [by destruct (decide (k' = k))|].
  rewrite IH. repeat case_decide; congruence.
Qed.

Lemma sdict_set_keys k v d :
  (sdict_set k v d).*1 = if decide (k ∈ d.*1) then d.*1 else d.*1 ++ [k].
Proof.
  induction d as [|[k' v'] d IH]; csimpl; [done|].
  destruct (decide (k' = k)) as [->|Hk]; csimpl.
  - rewrite decide_True by left. done.
  - rewrite IH. case_decide as H; case_decide as H'; try done.
    + contradict H'. by right.
    + contradict H. apply elem_of_cons in H' as [->|]; done.
Qed.

Lemma sdict_set_ok k v d : sdict_ok d -> sdict_ok (sdict_set k v d).
Proof.
  unfold sdict_ok. intros H. rewrite sdict_set_keys. case_decide; [done|].
  apply NoDup_app. split; [done|]. split; [|apply NoDup_singleton].
  intros x Hx ->%list_elem_of_singleton. done.
Qed.

Lemma sdict_set_new k v d : k ∉ d.*1 -> sdict_set k v d = d ++ [(k, v)].
Proof.
  induction d as [|[k' v'] d IH]; csimpl; [done|]. intros [Hne Hd]%not_elem_of_cons.
  rewrite decide_False by congruence. by rewrite IH.
Qed.
End StrDict.

Create HintDb sdict discriminated.
#[export] Hint Resolve sdict_set_ok : sdict.

(** ** [to_dict] *)
Section ToDict.
Import Models.

Definition value_of_option {A} (f : A -> value) (x : option A) : value :=
  match x with Some a => f a | None => VNone end.

(** [asdict(self)] *)
Definition cursor_to_dict (c : Cursor) : sdict value :=
  [(py "row", VInt (cursor_row c));
   (py "column", VInt (cursor_column c));
   (py "visible", VBool (cursor_visible c));
   (py "start_scanline", value_of_option VInt (start_scanline c));
   (py "end_scanline", value_of_option VInt (end_scanline c))].

Definition text_screen_to_dict (s : TextScreen) : sdict value :=
  [(py "kind", VStr (py "text"));
   (py "columns", VInt (columns s));
   (py "rows", VInt (rows s));
   (py "text", VList (VStr <$> text s));
   (py "attributes", VList ((fun row => VList (VInt <$> row)) <$> attributes s));
   (py "cursor", VDict (cursor_to_dict (cursor s)));
   (py "generation", VInt (generation s));
   (py "adapter", VStr (screen_adapter s));
   (py "video_mode", value_of_option VInt (screen_video_mode s));
   (py "active_page", VInt (active_page s));
   (py "code_page", VStr (code_page s));
   (py "blink_enabled", VBool (blink_enabled s))].

(** [asdict] keeps tuples; the list then takes the tuple's place. *)
Definition capabilities_to_dict (c : Capabilities) : sdict value :=
  let value :=
    [(py "backend", VStr (cap_backend c));
     (py "transport", VStr (cap_transport c));
     (py "status", VBool (status c));
     (py "text_capture", VBool (text_capture c));
     (py "graphics_capture", VTuple (VStr <$> graphics_capture c));
     (py "keyboard_injection", value_of_option VStr (keyboard_injection c));
     (py "screen_columns", VInt (screen_columns c));
     (py "screen_rows", VInt (screen_rows c));
     (py "max_text_bytes", VInt (max_text_bytes c));
     (py "max_keys_per_request", VInt (max_keys_per_request c));
     (py "filesystem_read", VBool (filesystem_read c));
     (py "filesystem_write", VBool (filesystem_write c));
     (py "command_execution", VBool (command_execution c));
     (py "memory_read", VBool (memory_read c));
     (py "memory_write", VBool (memory_write c));
     (py "port_read", VBool (port_read c));
     (py "port_write", VBool (port_write c));
     (py "reboot", VBool (reboot c))] in
  sdict_set (py "graphics_capture") (VList (VStr <$> graphics_capture c)) value.

Definition machine_status_to_dict (s : MachineStatus) : sdict value :=
  [(py "connected", VBool (connected s));
   (py "phase", VStr (phase s));
   (py "backend", VStr (status_backend s));
   (py "transport", VStr (status_transport s));
   (py "identity", VStr (machine_identity s));
   (py "operating_system", VStr (operating_system s));
   (py "architecture", VStr (architecture s));
   (py "agent_version", VStr (agent_version s));
   (py "uptime_seconds", VFloat (uptime_seconds s))].

Definition key_receipt_to_dict (r : KeyReceipt) : sdict value :=
  let value :=
    [(py "accepted_text_bytes", VInt (accepted_text_bytes r));
     (py "accepted_keys", VInt (accepted_keys r));
     (py "keys", VTuple (VStr <$> receipt_keys r));
     (py "screen_generation", VInt (screen_generation r))] in
  sdict_set (py "keys") (VList (VStr <$> receipt_keys r)) value.

Definition file_contents_to_dict (f : FileContents) : sdict value :=
  [(py "path", VStr (contents_path f));
   (py "size", VInt (len (contents_data f)));
   (py "crc32", VStr (hex08 (contents_crc32 f)));
   (py "content_base64", VStr (b64encode (contents_data f)))].

Definition file_receipt_to_dict (r : FileReceipt) : sdict value :=
  [(py "path", VStr (receipt_path r));
   (py "size", VInt (receipt_size r));
   (py "crc32", VStr (hex08 (receipt_crc32 r)))].

Definition graphics_screen_to_dict (g : GraphicsScreen) : sdict value :=
  [(py "kind", VStr (py "graphics"));
   (py "adapter", VStr (adapter g));
   (py "video_mode", VInt (video_mode g));
   (py "layout", VStr (layout g));
   (py "width", VInt (width g));
   (py "height", VInt (height g));
   (py "planes", VInt (planes g));
   (py "bytes_per_plane", VInt (bytes_per_plane g));
   (py "size", VInt (len (data g)));
   (py "crc32", VStr (hex08 (crc32 g)));
   (py "data_base64", VStr (b64encode (data g)))].
End ToDict.

(** ** What a tool returns is plain data

    [json_value v]: no tuples inside [v], and no dictionary with a key twice. *)
Fixpoint json_value (v : value) : bool :=
  match v with
  | VTuple _ => false
  | VList l => forallb json_value l
  | VDict d => forallb (fun p => json_value p.2) d && bool_decide (NoDup d.*1)
  | _ => true
  end.

Lemma json_list {A} (f : A -> value) l :
  (forall a, json_value (f a) = true) -> forallb json_value (f <$> l) = true.
Proof. intros Hf. induction l as [|a l IH]; [done|]. rewrite fmap_cons. cbn [forallb]. by rewrite Hf. Qed.

Lemma json_option {A} (f : A -> value) x :
  (forall a, json_value (f a) = true) -> json_value (value_of_option f x) = true.
Proof. intros Hf. destruct x; [apply Hf|done]. Qed.

Lemma json_dict d :
  Forall (fun p => json_value p.2 = true) d -> bool_decide (NoDup d.*1) = true ->
  json_value (VDict d) = true.
Proof.
  intros Hd Hk. cbn [json_value]. rewrite Hk, andb_true_r. apply forallb_forall.
  intros p Hp. by eapply Forall_forall in Hd; [|apply list_elem_of_In].
Qed.

(** [d[k] = v] on a dictionary written out. *)
Ltac set_literal :=
  cbn [sdict_set];
  repeat match goal with |- context [decide (?a = ?b)] =>
    first [rewrite (decide_False (P := a = b)) by (vm_compute; discriminate)
          | rewrite (decide_True (P := a = b)) by reflexivity]
  end.

(** Solves [json_value (VDict d)] for a dictionary written out. *)
Ltac plain_dict :=
  apply json_dict;
    [repeat (apply Forall_cons; split;
       [cbn [snd]; first [reflexivity | by apply json_option | by apply json_list]|]);
     apply Forall_nil_2
    | vm_compute; reflexivity].

(** Whatever an operation of a target returns, its [to_dict] is plain data:
    lists in place of the tuples that [asdict] would have kept, no key twice
    in any dictionary, at every depth.  So the tools can serialise every result. *)
Theorem to_dict_plain :
  (forall s, json_value (VDict (text_screen_to_dict s)) = true) /\
  (forall c, json_value (VDict (capabilities_to_dict c)) = true) /\
  (forall s, json_value (VDict (machine_status_to_dict s)) = true) /\
  (forall r, json_value (VDict (key_receipt_to_dict r)) = true) /\
  (forall f, json_value (VDict (file_contents_to_dict f)) = true) /\
  (forall r, json_value (VDict (file_receipt_to_dict r)) = true) /\
  (forall g, json_value (VDict (graphics_screen_to_dict g)) = true).
Proof.
  split_and!; intros x; [|unfold capabilities_to_dict; set_literal| |unfold key_receipt_to_dict; set_literal| | |].
  2-7: plain_dict.
  apply json_dict; [|by vm_compute].
  repeat (apply Forall_cons; split; [cbn [snd]|]); try apply Forall_nil_2; try done.
  - by apply json_list.
  - apply json_list. intros row. by apply json_list.
  - unfold cursor_to_dict. plain_dict.
  - by apply json_option.
Qed.
