(* ===== verification/Discovery.v ===== *)
(** * Discovery of DOS agents on the local network ([discovery.py])

    The announcement an agent broadcasts, its strict codec, and the listener that
    drains its socket on demand.  The socket is modelled as the bridge sees it:
    [arrivals] are the outcomes of the [recvfrom] calls up to the one that would
    block; those not consumed yet wait in [listener_inbox]. *)
From S2P Require Import Prelude PyFloat Struct Crc PyText Constants State Value.

Definition DISCOVERY_PORT : Z := 21301.
Definition DISCOVERY_MAGIC : bytes := ascii_bytes "DMD2".
Definition DISCOVERY_VERSION : Z := 1.
Definition MAX_TARGET_NAME_BYTES : Z := 31.
Definition _HEADER : list field := Eval vm_compute in Struct "<4sBBBBHI6s".
Definition _CRC : list field := Eval vm_compute in Struct "<H".

(** ** Announcements *)
Module DiscoveryAdvertisement.

Record t := mk {
  name : pystr;
  port : Z;
  capabilities : Z;
  agent_id : bytes;
  open_mode : bool;
  protocol_version : Z }.

(** [__post_init__] *)
Definition check (ad : t) : result unit :=
  encoded_name ← ascii_encode (name ad);
  raise_if (negb ((1 <=? len encoded_name) && (len encoded_name <=? MAX_TARGET_NAME_BYTES)))
    ValueError (py "target name must contain 1-31 ASCII bytes");;
  raise_if (existsb (fun b => (b2z b <? 33) || (126 <? b2z b)) encoded_name)
    ValueError (py "target name must contain visible ASCII without spaces");;
  raise_if (negb ((1 <=? port ad) && (port ad <=? 0xFFFF))) ValueError
    (py "target port is outside 1-65535");;
  raise_if (negb (len (agent_id ad) =? 6)) ValueError
    (py "agent_id must be the six-byte adapter address");;
  raise_if (negb ((0 <=? protocol_version ad) && (protocol_version ad <=? 0xFF))) ValueError
    (py "protocol version must fit in one byte").

(** The constructor call. *)
Definition new (ad : t) : result t := check ad;; Ok ad.

Definition stable_id (ad : t) : pystr := bytes_hex (agent_id ad).
Definition selector (ad : t) : pystr := name ad ++ py "@" ++ stable_id ad.

Definition encode (ad : t) : result bytes :=
  name ← ascii_encode (name ad);
  header ← pack _HEADER ⟨DISCOVERY_MAGIC, DISCOVERY_VERSION, protocol_version ad,
    Z.b2z (open_mode ad), len name, port ad, capabilities ad, agent_id ad⟩;
  let body := header ++ name in
  crc ← pack _CRC ⟨crc16_ccitt body⟩;
  Ok (body ++ crc).

(** The name field, decoded inside the [try] of [decode]. *)
Definition decode_name (raw : bytes) : result pystr :=
  match ascii_decode raw with
  | Ok name => Ok name
  | Err _ => raise ValueError (py "invalid discovery fields")
  end.

Definition decode (datagram : bytes) : result t :=
  let header_size := Z.of_nat (calcsize _HEADER) in
  let crc_size := Z.of_nat (calcsize _CRC) in
  raise_if (len datagram <? header_size + crc_size) ValueError
    (py "truncated discovery advertisement");;
  '⟨magic, discovery_version, protocol_version, flags, name_length, port, raw_capabilities,
    agent_id⟩ ← unpack_from _HEADER datagram 0;
  raise_if (negb (bool_decide (magic = DISCOVERY_MAGIC))) ValueError
    (py "invalid discovery magic");;
  raise_if (negb (discovery_version =? DISCOVERY_VERSION)) ValueError
    (py "unsupported discovery format");;
  raise_if (negb (protocol_version =? VERSION)) ValueError
    (py "unsupported agent protocol version");;
  raise_if (negb (Z.land flags (Z.lnot 1) =? 0)) ValueError (py "unknown discovery flags");;
  raise_if (negb (Z.land raw_capabilities (Z.lnot KNOWN_CAPABILITIES) =? 0)) ValueError
    (py "unknown discovery capability flags");;
  raise_if (negb ((1 <=? name_length) && (name_length <=? MAX_TARGET_NAME_BYTES))) ValueError
    (py "invalid discovery name length");;
  raise_if (negb (len datagram =? header_size + name_length + crc_size)) ValueError
    (py "discovery datagram length mismatch");;
  let body := take (length datagram - 2) datagram in
  '⟨crc⟩ ← unpack_from _CRC datagram (length body);
  raise_if (negb (crc16_ccitt body =? crc)) ValueError (py "discovery CRC mismatch");;
  name ← decode_name (drop (calcsize _HEADER) body);
  new (mk name port raw_capabilities agent_id (negb (Z.land flags 1 =? 0)) protocol_version).

End DiscoveryAdvertisement.
Abbreviation Advertisement := DiscoveryAdvertisement.t.

(** ** Targets found *)
Record DiscoveredTarget := mkDiscovered {
  advertisement : Advertisement;
  address : pystr * Z;
  last_seen : spec_float }.

(** [max(0.0, time.monotonic() - since)] *)
Definition seconds_ago (now since : spec_float) : spec_float :=
  at_least_zero (float_sub now since).

Definition discovered_to_dict (d : DiscoveredTarget) (now : spec_float) : sdict value :=
  let ad := advertisement d in
  [(py "selector", VStr (DiscoveryAdvertisement.selector ad));
   (py "name", VStr (DiscoveryAdvertisement.name ad));
   (py "agent_id", VStr (DiscoveryAdvertisement.stable_id ad));
   (py "host", VStr (address d).1);
   (py "port", VInt (address d).2);
   (py "protocol_version", VInt (DiscoveryAdvertisement.protocol_version ad));
   (py "open_mode", VBool (DiscoveryAdvertisement.open_mode ad));
   (py "capabilities", VInt (DiscoveryAdvertisement.capabilities ad));
   (py "last_seen_seconds_ago", VFloat (seconds_ago now (last_seen d)));
   (py "source", VStr (py "discovery"))].

(** ** The listener *)
Abbreviation Source := (pystr * Z)%type.

Class DiscoverySocket (W : Type) := {
  bind_discovery (port : Z) : stateful W unit;
  arrivals : W -> list (result (bytes * Source)) * W }.
#[global] Hint Mode DiscoverySocket ! : typeclass_instances.

Record DiscoveryListener := mkListener {
  listener_inbox : list (result (bytes * Source));
  listener_closed : bool }.

Section Listener.
Context {W : Type} `{Clock W} `{DiscoverySocket W}.

(** [DiscoveryListener.__init__] *)
Definition new_listener (port : Z) : stateful W DiscoveryListener :=
  lift (raise_if (negb ((1 <=? port) && (port <=? 0xFFFF))) ValueError
    (py "discovery port is outside 1-65535"));;
  bind_discovery port;;
  mret (mkListener [] false).

(** [recvfrom(256)] drops what does not fit. *)
Definition RECV_SIZE : nat := 256.

(** The loop of [drain] over what the socket holds. *)
Fixpoint drain_loop (reads : list (result (bytes * Source))) (targets : list DiscoveredTarget)
    (w : W) : result (list DiscoveredTarget) * (list (result (bytes * Source)) * W) :=
  match reads with
  | [] => (Ok targets, ([], w))
  | Err e :: reads => (Err e, (reads, w))
  | Ok (datagram, source) :: reads =>
      match DiscoveryAdvertisement.decode (take RECV_SIZE datagram) with
      | Err e =>
          if is_value_error (exn_cls e) then drain_loop reads targets w else (Err e, (reads, w))
      | Ok ad =>
          let '(now, w) := monotonic w in
          drain_loop reads
            (targets ++ [mkDiscovered ad (source.1, DiscoveryAdvertisement.port ad) now]) w
      end
  end.

Definition drain : stateful (DiscoveryListener * W) (list DiscoveredTarget) := fun '(l, w) =>
  if listener_closed l then (Ok [], (l, w))
  else
    let '(arrived, w) := arrivals w in
    let '(r, (unread, w)) := drain_loop (listener_inbox l ++ arrived) [] w in
    (r, (mkListener unread false, w)).

Definition close_listener (l : DiscoveryListener) : DiscoveryListener :=
  if listener_closed l then l else mkListener [] true.
End Listener.

(** ** The codec *)
Module Codec.
Import DiscoveryAdvertisement.

(** What an announcement must satisfy to be sent: what the constructor checks, the
    protocol version of this program and no capability it does not know. *)
Definition announceable (ad : t) : Prop :=
  check ad = Ok tt /\ protocol_version ad = VERSION /\
  Z.land (capabilities ad) (Z.lnot KNOWN_CAPABILITIES) = 0.

Definition visible (raw : bytes) : Prop := Forall (fun b => 33 <= b2z b <= 126) raw.

Lemma check_Ok ad u :
  check ad = Ok u <->
  exists raw, ascii_encode (name ad) = Ok raw /\ 1 <= len raw <= 31 /\ visible raw /\
    1 <= port ad <= 65535 /\ len (agent_id ad) = 6 /\ 0 <= protocol_version ad <= 255.
Proof.
  assert (Hv : forall raw, existsb (fun b => (b2z b <? 33) || (126 <? b2z b)) raw = false <-> visible raw).
  { intros raw. unfold visible. rewrite existsb_false_Forall.
    split; intros HF; (eapply Forall_impl; [exact HF|]); cbv beta; intros b; lia. }
  unfold check, MAX_TARGET_NAME_BYTES. split.
  - intros H. inv_ok. exists v. apply Hv in E1. split_and!; try done; lia.
  - intros (raw & Hn & ? & Hvis%Hv & ? & ? & ?). rewrite Hn. cbn [mbind result_bind].
    rewrite Hvis. destruct u. rewrite !raise_if_false by lia. done.
Qed.

Lemma ldiff_range z m : 0 <= m -> Z.land z (Z.lnot m) = 0 -> 0 <= z <= m.
Proof. rewrite <- Z.ldiff_land. apply Z.ldiff_le. Qed.

Lemma flags_bit flags :
  Z.land flags (Z.lnot 1) = 0 -> flags = Z.b2z (negb (Z.land flags 1 =? 0)).
Proof.
  intros H%ldiff_range; [|lia]. assert (flags = 0 \/ flags = 1) as [-> | ->] by lia; done.
Qed.

Lemma decode_name_Ok raw s : decode_name raw = Ok s <-> ascii_decode raw = Ok s.
Proof. unfold decode_name. by destruct (ascii_decode raw). Qed.

(** The wire form, field by field. *)
Lemma announcement_encode_Ok ad d :
  encode ad = Ok d <->
  exists raw header, ascii_encode (name ad) = Ok raw /\
    pack _HEADER ⟨DISCOVERY_MAGIC, DISCOVERY_VERSION, protocol_version ad, Z.b2z (open_mode ad),
      len raw, port ad, capabilities ad, agent_id ad⟩ = Ok header /\
    d = header ++ raw ++ le_bytes 2 (crc16_ccitt (header ++ raw)).
Proof.
  unfold encode. split.
  - intros H. inv_ok. apply pack_FH_inv in E1 as [-> _]. exists v, v0. by rewrite <- app_assoc.
  - intros (raw & header & Hn & Hh & ->). rewrite Hn. cbn [mbind result_bind]. pack_with Hh.
    pose proof (pack_FH ⟨crc16_ccitt (header ++ raw)⟩ (crc16_range _)) as Hc. pack_with Hc.
    by rewrite <- app_assoc.
Qed.

Lemma decode_encode ad d : announceable ad -> encode ad = Ok d -> decode d = Ok ad.
Proof.
  intros (Hc & Hver & Hcap) (raw & header & Hn & Hh & ->)%announcement_encode_Ok.
  pose proof Hc as (raw' & Hn' & Hlen & _ & Hport & Hid & _)%check_Ok.
  rewrite Hn in Hn'. injection Hn' as <-.
  apply ldiff_range in Hcap as Hcr; [|by vm_compute]. change KNOWN_CAPABILITIES with 4095 in Hcr.
  assert (Hfit : fits _HEADER ⟨DISCOVERY_MAGIC, DISCOVERY_VERSION, protocol_version ad,
    Z.b2z (open_mode ad), len raw, port ad, capabilities ad, agent_id ad⟩).
  { cbn. rewrite Hver. unfold VERSION, DISCOVERY_VERSION, len in *. destruct (open_mode ad); cbn; lia. }
  apply pack_length in Hh as Hl. change (calcsize _HEADER) with 20%nat in Hl.
  pose proof (length_le_bytes 2 (crc16_ccitt (header ++ raw))) as Hlc.
  set (crc := le_bytes 2 _) in *.
  assert (Hbody : take (length (header ++ raw ++ crc) - 2) (header ++ raw ++ crc) = header ++ raw).
  { rewrite app_assoc, take_app_length' by (rewrite !length_app; lia). done. }
  assert (Hlen' : len (header ++ raw ++ crc) = 20 + len raw + 2) by (unfold len; rewrite !length_app; lia).
  unfold decode. rewrite Hbody, Hlen'. 
  change (Z.of_nat (calcsize _HEADER)) with 20. change (Z.of_nat (calcsize _CRC)) with 2.
  pass_guard lia. rewrite (unpack_from_pack _ _ _ _ Hfit Hh). cbn [mbind result_bind].
  rewrite Hver, Hcap. unfold MAX_TARGET_NAME_BYTES.
  pass_guard done. pass_guard done. pass_guard done. 
  pass_guard done. pass_guard (by destruct (open_mode ad)). pass_guard lia. pass_guard lia.
  rewrite app_assoc. unfold unpack_from at 1. 
  rewrite (len_app (header ++ raw)). change (Z.of_nat (calcsize _CRC)) with 2.
  replace (len crc) with 2 by (unfold len; lia). unfold len at 1.
  rewrite (proj2 (Z.ltb_ge _ _)) by lia. cbn [mbind result_bind].
  rewrite drop_app_length. cbn [unpack_raw _CRC].
  change (unpack_field FH (take (field_size FH) crc)) with (le_int (take 2 crc)).
  rewrite (take_ge crc) by lia. unfold crc at 1. rewrite le_int_le_bytes by (pose proof (crc16_range (header ++ raw)); simpl; lia).
  pass_guard (by rewrite Z.eqb_refl).
  change (calcsize _HEADER) with 20%nat. rewrite <- Hl, drop_app_length.
  apply ascii_encode_Ok, ascii_decode_Ok, decode_name_Ok in Hn. rewrite Hn. cbn [mbind result_bind].
  unfold new. destruct ad as [n p c i o v]. cbn [name port capabilities agent_id open_mode protocol_version] in *.
  replace (negb (Z.land (Z.b2z o) 1 =? 0)) with o by by destruct o. subst v. by rewrite Hc.
Qed.

Lemma announcement_encode_total ad : announceable ad -> exists d, encode ad = Ok d.
Proof.
  intros (Hc & Hver & Hcap%ldiff_range); [|by vm_compute].
  change KNOWN_CAPABILITIES with 4095 in Hcap.
  apply check_Ok in Hc as (raw & Hn & Hlen & _ & Hport & Hid & _).
  destruct (pack_fits _HEADER ⟨DISCOVERY_MAGIC, DISCOVERY_VERSION, protocol_version ad,
    Z.b2z (open_mode ad), len raw, port ad, capabilities ad, agent_id ad⟩) as [header Hh].
  { cbn. rewrite Hver. unfold VERSION, DISCOVERY_VERSION, len in *. destruct (open_mode ad); cbn; lia. }
  eexists. apply announcement_encode_Ok. eauto.
Qed.

Lemma encode_decode d ad : decode d = Ok ad -> announceable ad /\ encode ad = Ok d.
Proof.
  unfold decode. change (Z.of_nat (calcsize _HEADER)) with 20. change (Z.of_nat (calcsize _CRC)) with 2.
  intros H. inv_ok. destruct v0 as (magic & dv & pv & flags & nl & po & caps & id & []).
  inv_ok. bool_to_prop. subst magic. apply Z.eqb_eq in E2, E3, E4, E5, E7. subst dv pv.
  destruct v7 as [crc []]. cbv beta iota in H. unfold new in H. inv_ok. bool_to_prop.
  apply Z.eqb_eq in E1. subst crc. destruct v9. rename E2 into E9.
  destruct (unpack_from_Ok _HEADER d 0 _ E0) as (_ & Hh & _).
  destruct (unpack_from_Ok _CRC d _ _ E8) as (_ & Hcrc & Hl).
  change (calcsize _HEADER) with 20%nat in *. change (calcsize _CRC) with 2%nat in *.
  set (body := take (length d - 2) d) in *. unfold len in *.
  assert (Hb : take 20 body = take 20 d) by (unfold body; rewrite take_take; f_equal; lia).
  assert (Hd : d = take 20 d ++ drop 20 body ++ drop (length body) d).
  { rewrite app_assoc, <- Hb, take_drop. unfold body. rewrite length_take, Nat.min_l by lia.
    by rewrite take_drop. }
  assert (Hlb : length body = (length d - 2)%nat) by (unfold body; rewrite length_take; lia).
  split; [split_and!; done|]. apply announcement_encode_Ok. exists (drop 20 body), (take 20 d).
  apply decode_name_Ok, ascii_decode_Ok, ascii_encode_Ok in E9. split_and!; [done| |].
  - cbn [protocol_version open_mode port capabilities agent_id].
    rewrite <- flags_bit by done. replace (len (drop 20 body)) with nl; [exact Hh|].
    unfold len. rewrite length_drop. lia.
  - rewrite (take_ge (drop (length body) d)) in Hcrc by (rewrite length_drop; lia).
    apply pack_FH_inv in Hcrc as [Hcrc _]. rewrite <- Hb at 2. rewrite take_drop, <- Hcrc. done.
Qed.

Lemma check_raises ad raw :
  ascii_encode (name ad) = Ok raw -> raises (.= ValueError) (check ad).
Proof.
  intros Hn. unfold check. rewrite Hn. cbn [mbind result_bind].
  repeat (apply raises_bind; [by apply raises_raise_if|intros _ _]). by apply raises_raise_if.
Qed.

Lemma announcement_decode_raises d : raises (.= ValueError) (decode d).
Proof.
  unfold decode. change (Z.of_nat (calcsize _HEADER)) with 20. change (Z.of_nat (calcsize _CRC)) with 2.
  apply raises_bind; [by apply raises_raise_if|]. intros [] Hl%raise_if_Ok.
  assert (Hlen : (22 <= length d)%nat) by (unfold len in Hl; lia).
  destruct (unpack_from_size _HEADER d 0) as [v Hv]; [change (calcsize _HEADER) with 20%nat; lia|].
  rewrite Hv. cbn [mbind result_bind]. destruct v as (magic & dv & pv & flags & nl & po & caps & id & []).
  do 7 (apply raises_bind; [by apply raises_raise_if|intros _ _]).
  destruct (unpack_from_size _CRC d (length (take (length d - 2) d))) as [v Hc].
  { change (calcsize _CRC) with 2%nat. rewrite length_take. lia. }
  rewrite Hc. cbn [mbind result_bind]. destruct v as [crc []].
  apply raises_bind; [by apply raises_raise_if|intros _ _].
  apply raises_bind; [unfold decode_name; by case_match|].
  intros s Hs%decode_name_Ok%ascii_decode_Ok%ascii_encode_Ok. unfold new.
  apply raises_bind; [by eapply check_raises|done].
Qed.

(** C18. The announcement codec is exact.  A datagram decodes to an announcement
    precisely when the announcement is one this program could send and its wire
    form is that datagram; so two different datagrams never announce the same
    thing, and every announcement the constructor accepts has a wire form that
    arrives as itself.  Any other datagram raises [ValueError] and nothing else:
    truncated, padded, of another format, version or name length, with an unknown
    flag or capability, a wrong CRC or a name that is not visible ASCII. *)
Theorem discovery_decode_exact :
  (forall d ad, decode d = Ok ad <-> announceable ad /\ encode ad = Ok d) /\
  (forall ad, announceable ad -> exists d, encode ad = Ok d) /\
  (forall d e, decode d = Err e -> exn_cls e = ValueError).
Proof.
  split_and!.
  - split; [apply encode_decode|]. intros []. by apply decode_encode.
  - apply announcement_encode_total.
  - intros d e. apply (raises_Err (.= ValueError)), announcement_decode_raises.
Qed.

Definition BOX : t :=
  mk (py "DOSBOX") 21300 (Z.lor Capability.STATUS Capability.KEYBOARD)
    (z2b <$> [2; 0; 0; 0; 0; 7]) true VERSION.

Definition BOX_DATAGRAM : bytes :=
  Eval vm_compute in match encode BOX with Ok d => d | Err _ => [] end.

Lemma discovery_decode_exact_witness :
  decode BOX_DATAGRAM = Ok BOX /\ exn_cls (Exn ValueError (py "truncated discovery advertisement")) = ValueError.
Proof.
  destruct discovery_decode_exact as (Hd & _ & He). split.
  - apply Hd. split; [|vm_compute; reflexivity]. split_and!; vm_compute; reflexivity.
  - apply (He (ascii_bytes "DMD2")). vm_compute. reflexivity.
Defined.
End Codec.

(** ** Draining the socket *)
Section Drain.
Context {W : Type} `{Clock W} `{DiscoverySocket W}.

(** What a datagram announces, and where: at its source's host and the port it names. *)
Definition heard (r : bytes * Source) : option (Advertisement * (pystr * Z)) :=
  match DiscoveryAdvertisement.decode (take RECV_SIZE r.1) with
  | Ok ad => Some (ad, (r.2.1, DiscoveryAdvertisement.port ad))
  | Err _ => None
  end.

(** The targets for what was heard, each stamped with the next reading of the clock. *)
Fixpoint stamped (announcements : list (Advertisement * (pystr * Z))) (w : W) : list DiscoveredTarget * W :=
  match announcements with
  | [] => ([], w)
  | (ad, from) :: announcements =>
      let '(now, w) := monotonic w in
      let '(ts, w) := stamped announcements w in
      (mkDiscovered ad from now :: ts, w)
  end.

Lemma drain_loop_heard reads rest targets (w : W) :
  drain_loop ((Ok <$> reads) ++ rest) targets w =
    let '(ts, w') := stamped (omap heard reads) w in drain_loop rest (targets ++ ts) w'.
Proof.
  revert targets w. induction reads as [|[d src] reads IH]; intros targets w.
  - cbn. by rewrite app_nil_r.
  - rewrite fmap_cons. cbn [app drain_loop omap list_omap]. unfold heard at 1. cbn [fst snd].
    destruct (DiscoveryAdvertisement.decode _) as [ad|e] eqn:Ed.
    + cbn [stamped]. destruct (monotonic w) as [now w1]. rewrite IH.
      destruct (stamped (omap heard reads) w1) as [ts w2]. by rewrite <- app_assoc.
    + apply (raises_Err (.= ValueError)) in Ed as ->; [|apply Codec.announcement_decode_raises]. apply IH.
Qed.

(** C19. Draining an open listener returns exactly the valid announcements among
    the datagrams waiting, in order of arrival, each with the sender's own host and the
    port it announces, and with a reading of the clock of its own, taken in that order
    as each is found valid; malformed and foreign datagrams are skipped without one,
    and the socket is left empty.  If a [recvfrom] fails instead, the call raises that
    error and what arrived after it stays in the socket.  A closed listener
    returns nothing and reads nothing. *)
Theorem drain_returns_valid_announcements l (w w' : W) reads (failure : option (exn * _)) :
  arrivals w = ((Ok <$> reads) ++ match failure with None => [] | Some (e, after) => Err e :: after end, w') ->
  listener_inbox l = [] ->
  let '(ts, w'') := stamped (omap heard reads) w' in
  drain (l, w) =
    if listener_closed l then (Ok [], (l, w)) else
    match failure with
    | None => (Ok ts, (mkListener [] false, w''))
    | Some (e, after) => (Err e, (mkListener after false, w''))
    end.
Proof.
  intros Ha Hl. unfold drain. destruct (stamped _ w') as [ts w''] eqn:Es.
  destruct (listener_closed l); [done|]. rewrite Ha, Hl. cbn [app].
  rewrite drain_loop_heard, Es. by destruct failure as [[e after]|].
Qed.
End Drain.

(** A host whose socket holds [queued] and whose clock ticks once a reading. *)
Record quiet_host := mkQuiet { queued : list (result (bytes * Source)); ticks : Z }.

#[export] Instance quiet_clock : Clock quiet_host := fun w =>
  (float_of_int (ticks w), mkQuiet (queued w) (ticks w + 1)).
#[export] Instance quiet_socket : DiscoverySocket quiet_host := {|
  bind_discovery _ := mret tt;
  arrivals w := (queued w, mkQuiet [] (ticks w)) |}.

Lemma drain_returns_valid_announcements_witness :
  let src := (py "10.0.0.7", 40000) in
  let l := mkListener [] false in
  let w := mkQuiet (Ok <$> [(Codec.BOX_DATAGRAM, src); (ascii_bytes "noise", src); (Codec.BOX_DATAGRAM, src)]) 5 in
  drain (l, w) =
    (Ok [mkDiscovered Codec.BOX (py "10.0.0.7", 21300) (float_of_int 5);
         mkDiscovered Codec.BOX (py "10.0.0.7", 21300) (float_of_int 6)], (mkListener [] false, mkQuiet [] 7)).
Proof.
  intros src l w.
  pose proof (drain_returns_valid_announcements l w
    (mkQuiet [] 5) [(Codec.BOX_DATAGRAM, src); (ascii_bytes "noise", src); (Codec.BOX_DATAGRAM, src)] None) as E.
  assert (Es : stamped (omap heard [(Codec.BOX_DATAGRAM, src); (ascii_bytes "noise", src); (Codec.BOX_DATAGRAM, src)])
      (mkQuiet [] 5) =
    ([mkDiscovered Codec.BOX (py "10.0.0.7", 21300) (float_of_int 5);
      mkDiscovered Codec.BOX (py "10.0.0.7", 21300) (float_of_int 6)], mkQuiet [] 7)) by (vm_compute; reflexivity).
  rewrite Es in E. apply E; reflexivity.
Defined.
