(* ===== verification/Backend.v ===== *)
(** * The logical target contract ([backend.py])

    [Backend] is the interface between the agent (and the tools) and a machine:
    its operations on a state of type [B], each of which may raise and may
    change the state.  [BackendLaws] is what every implementation promises:
    screens come out of the model constructors, so they satisfy their checks. *)
From S2P Require Import Prelude State Models.

Class Backend (B : Type) := {
  get_status : stateful B MachineStatus;
  get_capabilities : stateful B Capabilities;
  capture_screen : stateful B TextScreen;
  capture_graphics : stateful B GraphicsScreen;
  send_keys (text : pystr) (keys : list pystr) (inter_key_delay_ms settle_ms : Z) :
    stateful B KeyReceipt;
  download_file (path : pystr) : stateful B FileContents;
  upload_file (path : pystr) (data : bytes) (overwrite : bool) : stateful B FileReceipt;
  close : stateful B unit }.
#[global] Hint Mode Backend ! : typeclass_instances.

Class BackendLaws (B : Type) `{Backend B} := {
  capture_screen_well_formed (b : B) s b' :
    capture_screen b = (Ok s, b') -> well_formed_screen s;
  capture_graphics_well_formed (b : B) g b' :
    capture_graphics b = (Ok g, b') -> well_formed_graphics g }.
