(* ===== verification/MemoryBackend.v ===== *)
(** * An in-memory backend

    A small instance of the target contract, at which the theorems about every
    backend are instantiated: it records the keystrokes it receives, keeps
    files in a table and shows one text and one graphics screen.  It models no code of the program. *)
From Stdlib Require Import Floats.SpecFloat.
From S2P Require Import Prelude Crc PyText State Models Backend.

Record memory := mkMemory {
  typed : list (pystr * list pystr);
  files : list (pystr * bytes);
  screen : TextScreen;
  graphics : GraphicsScreen }.

Definition memory_status : MachineStatus :=
  mkMachineStatus true (py "agent_shell_ready") (py "memory") (py "none") (py "memory")
    (py "none") (py "none") (py "0") (S754_finite false 4503599627370496 (-52)).

Definition memory_capabilities : Capabilities :=
  mkCapabilities (py "memory") (py "none") true true [] (Some (py "bios")) 2 1 4096 128
    true true false false false false false false.

Definition memory_screen : TextScreen :=
  mkTextScreen 2 1 [py "OK"] [[7; 7]] (mkCursor 0 1 true None None) 3 (py "VGA") (Some 3) 0
    (py "cp437") false.

Definition memory_graphics : GraphicsScreen :=
  mkGraphicsScreen (py "VGA") 19 (py "packed-8bpp") 2 1 1 2 [x01; x02]
    (crc32_from 0 [x01; x02]).

Definition file_get (path : pystr) (fs : list (pystr * bytes)) : option bytes :=
  snd <$> List.find (fun kv => bool_decide (kv.1 = path)) fs.

#[export] Instance memory_backend : Backend memory := {|
  get_status := mret memory_status;
  get_capabilities := mret memory_capabilities;
  capture_screen := fun m => (new_text_screen (screen m), m);
  capture_graphics := fun m => (new_graphics_screen (graphics m), m);
  send_keys text keys delay settle := fun m =>
    (Ok (mkKeyReceipt (len text) (len keys) keys (len (typed m) + 1)),
     mkMemory (typed m ++ [(text, keys)]) (files m) (screen m) (graphics m));
  download_file path := fun m =>
    (match file_get path (files m) with
     | Some data => Ok (mkFileContents path data (crc32_from 0 data))
     | None => raise ValueError (py "no such file")
     end, m);
  upload_file path data overwrite := fun m =>
    (Ok (mkFileReceipt path (len data) (crc32_from 0 data)),
     mkMemory (typed m) ((path, data) :: files m) (screen m) (graphics m));
  close := mret tt |}.

#[export] Instance memory_backend_laws : BackendLaws memory.
Proof.
  split.
  - intros b s b' [= E _]. unfold new_text_screen in E. inv_ok. by apply (text_screen_check_Ok _ v).
  - intros b g b' [= E _]. unfold new_graphics_screen in E. inv_ok.
    by apply (graphics_screen_check_Ok _ v).
Qed.

Definition empty_memory : memory := mkMemory [] [] memory_screen memory_graphics.

(** The same with a screen that always fits one message. *)
Record desk := mkDesk { disk : memory }.

Definition on_disk {A} (m : stateful memory A) : stateful desk A := fun d =>
  let '(r, m') := m (disk d) in (r, mkDesk m').

#[export] Instance desk_backend : Backend desk := {|
  get_status := mret memory_status;
  get_capabilities := mret memory_capabilities;
  capture_screen := mret memory_screen;
  capture_graphics := mret memory_graphics;
  send_keys text keys delay settle := on_disk (send_keys text keys delay settle);
  download_file path := on_disk (download_file path);
  upload_file path data overwrite := on_disk (upload_file path data overwrite);
  close := mret tt |}.

#[export] Instance desk_backend_laws : BackendLaws desk.
Proof.
  split.
  - intros b s b' [= <- _]. by apply (text_screen_check_Ok memory_screen tt).
  - intros b g b' [= <- _]. by apply (graphics_screen_check_Ok memory_graphics tt).
Qed.

Definition empty_desk : desk := mkDesk empty_memory.
