(* ===== verification/Terminal.v ===== *)
(** * The terminal emulator ([terminal.py])

    A fixed grid of character and attribute cells, the cursor and the parser of
    the escape sequences.  The methods of [TerminalBuffer] are computations over
    the record of the object's attributes; cells are assigned by Python's
    indexing, which raises [IndexError] out of range. *)
From S2P Require Import Prelude PyText State.
From S2P Require Models.

(** ** State *)
Inductive parser_state := normal | escape | csi | csi_discard | osc | osc_escape.

#[export] Instance parser_state_eq_dec : EqDecision parser_state.
Proof. solve_decision. Defined.

Record TerminalBuffer := mkTerminal {
  columns : Z;
  rows : Z;
  _chars : list (list Z);
  _attrs : list (list Z);
  row : Z;
  column : Z;
  visible : bool;
  generation : Z;
  _foreground : Z;
  _background : Z;
  _bold : bool;
  _blink : bool;
  _state : parser_state;
  _sequence : pystr;
  _decoder : list Z }.

(** [TerminalBuffer.__init__] *)
Definition new_terminal (c r : Z) : result TerminalBuffer :=
  raise_if ((c <? 1) || (r <? 1)) ValueError (py "terminal dimensions must be positive");;
  Ok (mkTerminal c r
    (replicate (Z.to_nat r) (replicate (Z.to_nat c) 32))
    (replicate (Z.to_nat r) (replicate (Z.to_nat c) 0x07))
    0 0 true 0 7 0 false false normal [] []).

(** Assignments to the attributes. *)
Definition set_cells (ch at_ : list (list Z)) (t : TerminalBuffer) : TerminalBuffer :=
  mkTerminal (columns t) (rows t) ch at_ (row t) (column t) (visible t) (generation t)
    (_foreground t) (_background t) (_bold t) (_blink t) (_state t) (_sequence t) (_decoder t).
Definition set_cursor (r c : Z) (t : TerminalBuffer) : TerminalBuffer :=
  mkTerminal (columns t) (rows t) (_chars t) (_attrs t) r c (visible t) (generation t)
    (_foreground t) (_background t) (_bold t) (_blink t) (_state t) (_sequence t) (_decoder t).
Definition set_visible (v : bool) (t : TerminalBuffer) : TerminalBuffer :=
  mkTerminal (columns t) (rows t) (_chars t) (_attrs t) (row t) (column t) v (generation t)
    (_foreground t) (_background t) (_bold t) (_blink t) (_state t) (_sequence t) (_decoder t).
Definition set_generation (g : Z) (t : TerminalBuffer) : TerminalBuffer :=
  mkTerminal (columns t) (rows t) (_chars t) (_attrs t) (row t) (column t) (visible t) g
    (_foreground t) (_background t) (_bold t) (_blink t) (_state t) (_sequence t) (_decoder t).
Definition set_colour (fg bg : Z) (bold blink : bool) (t : TerminalBuffer) : TerminalBuffer :=
  mkTerminal (columns t) (rows t) (_chars t) (_attrs t) (row t) (column t) (visible t)
    (generation t) fg bg bold blink (_state t) (_sequence t) (_decoder t).
Definition set_parser (st : parser_state) (sq : pystr) (t : TerminalBuffer) : TerminalBuffer :=
  mkTerminal (columns t) (rows t) (_chars t) (_attrs t) (row t) (column t) (visible t)
    (generation t) (_foreground t) (_background t) (_bold t) (_blink t) st sq (_decoder t).
Definition set_decoder (d : list Z) (t : TerminalBuffer) : TerminalBuffer :=
  mkTerminal (columns t) (rows t) (_chars t) (_attrs t) (row t) (column t) (visible t)
    (generation t) (_foreground t) (_background t) (_bold t) (_blink t) (_state t) (_sequence t) d.

Abbreviation terminal := (stateful TerminalBuffer).

Definition set_row (r : Z) : terminal unit := modify (fun t => set_cursor r (column t) t).
Definition set_column (c : Z) : terminal unit := modify (fun t => set_cursor (row t) c t).
Definition set_state (st : parser_state) : terminal unit :=
  modify (fun t => set_parser st (_sequence t) t).
Definition increment_generation : terminal unit :=
  modify (fun t => set_generation (generation t + 1) t).

(** The property [attribute]. *)
Definition attribute (t : TerminalBuffer) : Z :=
  let foreground := Z.lor (_foreground t) (if _bold t then 0x08 else 0) in
  let background := Z.shiftl (_background t) 4 in
  Z.lor (Z.lor foreground background) (if _blink t then 0x80 else 0).

(** ** Cells *)

(** [self._chars[row][column] = c; self._attrs[row][column] = self.attribute] *)
Definition set_char (r c ch : Z) : terminal unit :=
  t ← get;
  line ← lift (getitem (_chars t) r);
  line ← lift (setitem line c ch);
  chars ← lift (setitem (_chars t) r line);
  modify (set_cells chars (_attrs t)).

Definition set_attr (r c : Z) : terminal unit :=
  t ← get;
  line ← lift (getitem (_attrs t) r);
  line ← lift (setitem line c (attribute t));
  attrs ← lift (setitem (_attrs t) r line);
  modify (set_cells (_chars t) attrs).

Definition set_cell (r c ch : Z) : terminal unit := set_char r c ch;; set_attr r c.

Definition _erase_cells (r start stop : Z) : terminal unit :=
  each (fun c => set_cell r c 32) (seqZ start (stop - start));;
  increment_generation.

Definition _erase_display (mode : Z) : terminal unit :=
  t ← get;
  if mode =? 2 then
    each (fun r => _erase_cells r 0 (columns t)) (seqZ 0 (rows t))
  else if mode =? 1 then
    each (fun r => _erase_cells r 0 (columns t)) (seqZ 0 (row t));;
    _erase_cells (row t) 0 (column t + 1)
  else
    _erase_cells (row t) (column t) (columns t);;
    each (fun r => _erase_cells r 0 (columns t)) (seqZ (row t + 1) (rows t - (row t + 1))).

Definition _erase_line (mode : Z) : terminal unit :=
  t ← get;
  if mode =? 2 then _erase_cells (row t) 0 (columns t)
  else if mode =? 1 then _erase_cells (row t) 0 (column t + 1)
  else _erase_cells (row t) (column t) (columns t).

Definition scroll : terminal unit :=
  t ← get;
  chars ← lift (pop_first (_chars t));
  modify (set_cells (chars ++ [replicate (Z.to_nat (columns t)) 32]) (_attrs t));;
  attrs ← lift (pop_first (_attrs t));
  modify (fun t => set_cells (_chars t)
    (attrs ++ [replicate (Z.to_nat (columns t)) (attribute t)]) t);;
  set_row (rows t - 1).

Definition _line_feed : terminal unit :=
  modify (fun t => set_cursor (row t + 1) (column t) t);;
  t ← get;
  (if rows t <=? row t then scroll else mret tt);;
  increment_generation.

Definition _put (character : Z) : terminal unit :=
  t ← get;
  set_cell (row t) (column t) character;;
  increment_generation;;
  modify (fun t => set_cursor (row t) (column t + 1) t);;
  t ← get;
  if columns t <=? column t then set_column 0;; _line_feed else mret tt.

(** ** Control sequences *)
Definition ansi_to_dos : list Z := [0; 4; 2; 6; 1; 5; 3; 7].

Definition sgr_code (code : Z) : terminal unit :=
  t ← get;
  if code =? 0 then modify (set_colour 7 0 false false)
  else if code =? 1 then modify (set_colour (_foreground t) (_background t) true (_blink t))
  else if code =? 5 then modify (set_colour (_foreground t) (_background t) (_bold t) true)
  else if code =? 22 then modify (set_colour (_foreground t) (_background t) false (_blink t))
  else if code =? 25 then modify (set_colour (_foreground t) (_background t) (_bold t) false)
  else if in_range 30 37 code then
    fg ← lift (getitem ansi_to_dos (code - 30));
    modify (set_colour fg (_background t) (_bold t) (_blink t))
  else if in_range 40 47 code then
    bg ← lift (getitem ansi_to_dos (code - 40));
    modify (set_colour (_foreground t) bg (_bold t) (_blink t))
  else mret tt.

Definition _sgr (params : list Z) : terminal unit := each sgr_code params.

(** [s.split(";")] *)
Fixpoint split_semicolons (s : pystr) : list pystr :=
  match s with
  | [] => [[]]
  | c :: s =>
      if c =? 59 then [] :: split_semicolons s
      else match split_semicolons s with
           | part :: parts => (c :: part) :: parts
           | [] => [[c]]
           end
  end.

Definition csi_param (part : pystr) : result Z := if isdigit part then int10 part else Ok 0.

Definition csi_private (raw : pystr) : bool :=
  match raw with 63 :: _ => true | _ => false end.
Definition csi_params (raw : pystr) : result (list Z) :=
  map_result csi_param (split_semicolons (if csi_private raw then drop 1 raw else raw)).

(** [n or 1] *)
Definition or_1 (n : Z) : Z := if n =? 0 then 1 else n.

Definition _apply_csi (raw : pystr) (final : Z) : terminal unit :=
  params ← lift (csi_params raw);
  let params := match params with [] => [0] | _ => params end in
  first ← lift (getitem params 0);
  t ← get;
  if (final =? 72) || (final =? 102) then (* H f *)
    let r := or_1 first - 1 in
    second ← (if 1 <? len params then lift (getitem params 1) else mret 1);
    let c := second - 1 in
    set_row (Z.min (Z.max r 0) (rows t - 1));;
    set_column (Z.min (Z.max c 0) (columns t - 1))
  else if final =? 65 then set_row (Z.max 0 (row t - or_1 first)) (* A *)
  else if final =? 66 then set_row (Z.min (rows t - 1) (row t + or_1 first)) (* B *)
  else if final =? 67 then set_column (Z.min (columns t - 1) (column t + or_1 first)) (* C *)
  else if final =? 68 then set_column (Z.max 0 (column t - or_1 first)) (* D *)
  else if final =? 71 then set_column (Z.min (columns t - 1) (Z.max 0 (or_1 first - 1))) (* G *)
  else if final =? 100 then set_row (Z.min (rows t - 1) (Z.max 0 (or_1 first - 1))) (* d *)
  else if final =? 74 then _erase_display first (* J *)
  else if final =? 75 then _erase_line first (* K *)
  else if final =? 109 then _sgr params (* m *)
  else if csi_private raw && ((final =? 104) || (final =? 108)) && existsb (Z.eqb 25) params
  then modify (set_visible (final =? 104)) (* h l *)
  else mret tt.

(** ** The parser *)
Definition is_final (character : Z) : bool := in_range 64 126 character.

Definition _csi (character : Z) : terminal unit :=
  t ← get;
  if is_final character then
    modify (set_parser normal []);;
    _apply_csi (_sequence t) character
  else if len (_sequence t) <? 64 then
    modify (set_parser (_state t) (_sequence t ++ [character]))
  else modify (set_parser csi_discard []).

Definition _escape (character : Z) : terminal unit :=
  if character =? 91 then modify (set_parser csi [])
  else if character =? 93 then modify (set_parser osc [])
  else set_state normal.

Definition is_control (character : Z) : bool :=
  (character =? 7) || (character <? 0x20) || (character =? 0x7F).

Definition _normal (character : Z) : terminal unit :=
  if character =? 0x1B then set_state escape
  else if character =? 13 then set_column 0
  else if (character =? 10) || (character =? 11) || (character =? 12) then _line_feed
  else if character =? 8 then modify (fun t => set_cursor (row t) (Z.max 0 (column t - 1)) t)
  else if character =? 9 then
    modify (fun t => set_cursor (row t) (Z.min (columns t - 1) ((column t / 8 + 1) * 8)) t)
  else if is_control character then mret tt
  else _put character.

(** The body of [feed]'s loop. *)
Definition feed_char (character : Z) : terminal unit :=
  st ← gets _state;
  match st with
  | normal => _normal character
  | escape => _escape character
  | csi => _csi character
  | csi_discard => if is_final character then set_state normal else mret tt
  | osc =>
      if character =? 7 then set_state normal
      else if character =? 0x1B then set_state osc_escape
      else mret tt
  | osc_escape => set_state (if character =? 92 then normal else osc)
  end.

Definition feed (value : pystr) : terminal unit :=
  match value with
  | [] => mret tt
  | _ =>
      before ← gets generation;
      each feed_char value;;
      t ← get;
      if generation t =? before then increment_generation else mret tt
  end.

Definition feed_bytes (data : bytes) : terminal unit :=
  t ← get;
  let '(value, pending) := utf8_decode (_decoder t) data in
  modify (set_decoder pending);;
  feed value.

(** [snapshot]: the constructor of [TextScreen] checks the dimensions. *)
Definition snapshot (t : TerminalBuffer) : result Models.TextScreen :=
  Models.new_text_screen
    (Models.mkTextScreen (columns t) (rows t) (_chars t) (_attrs t)
       (Models.mkCursor (row t) (column t) (visible t) None None)
       (generation t) (py "linux-pty") None 0 (py "UTF-8") false).

Example feed_text :
  (feed (py "ab") (mkTerminal 3 2 [[32;32;32];[32;32;32]] [[7;7;7];[7;7;7]] 0 0 true 0 7 0
     false false normal [] [])).2 =
  mkTerminal 3 2 [[97;98;32];[32;32;32]] [[7;7;7];[7;7;7]] 0 2 true 2 7 0 false false normal [] [].
Proof. reflexivity. Qed.

(** ** Invariant

    [grid_ok c r]: the grid has [r] rows of [c] cells, attributes are bytes and
    colours are codes of three bits; [terminal_ok] adds the cursor. *)
Definition grid (c r : Z) (cells : list (list Z)) : Prop :=
  len cells = r /\ Forall (fun line => len line = c) cells.

Definition grid_ok (c r : Z) (t : TerminalBuffer) : Prop :=
  1 <= c /\ 1 <= r /\ columns t = c /\ rows t = r /\
  grid c r (_chars t) /\ grid c r (_attrs t) /\
  Forall (Forall (fun v => 0 <= v <= 255)) (_attrs t) /\
  0 <= _foreground t < 8 /\ 0 <= _background t < 8.

Definition terminal_ok (c r : Z) (t : TerminalBuffer) : Prop :=
  grid_ok c r t /\ 0 <= row t < r /\ 0 <= column t < c.

(** The characters on which [str.isdigit] and [int] agree. *)
Definition plain (c : Z) : Prop := char_isdigit c = true -> is_decimal c = true.

Lemma attribute_range c r t : grid_ok c r t -> 0 <= attribute t <= 255.
Proof.
  intros (_ & _ & _ & _ & _ & _ & _ & Hf & Hb). unfold attribute.
  assert (0 <= Z.shiftl (_background t) 4 < 2 ^ 8).
  { rewrite Z.shiftl_mul_pow2 by lia. lia. }
  assert (0 <= Z.lor (Z.lor (Z.lor (_foreground t) (if _bold t then 8 else 0))
    (Z.shiftl (_background t) 4)) (if _blink t then 128 else 0) < 2 ^ 8); [|lia].
  apply lor_range; [lia| |destruct (_blink t); lia].
  apply lor_range; [lia| |done].
  apply lor_range; [lia|lia|destruct (_bold t); lia].
Qed.

(** *** Cells *)
Definition put_at {A} (r c : Z) (x : A) (cells : list (list A)) : list (list A) :=
  alter (<[Z.to_nat c := x]>) (Z.to_nat r) cells.

(** What [set_cell] does inside the grid. *)
Definition cell (r c ch : Z) (t : TerminalBuffer) : TerminalBuffer :=
  set_cells (put_at r c ch (_chars t)) (put_at r c (attribute t) (_attrs t)) t.

Lemma grid_put c r cells i j x : grid c r cells -> grid c r (put_at i j x cells).
Proof.
  intros [Hr Hc]. unfold grid, put_at, len. rewrite length_alter. split; [done|].
  apply Forall_alter; [done|]. intros line _ Hl. by rewrite length_insert.
Qed.

Lemma grid_line c r cells i :
  grid c r cells -> 0 <= i < r -> exists line, cells !! Z.to_nat i = Some line /\ len line = c.
Proof.
  intros [Hr Hc] Hi. destruct (lookup_lt_is_Some_2 cells (Z.to_nat i)) as [line Hl].
  { unfold len in Hr. lia. }
  exists line. split; [done|]. by eapply Forall_lookup_1 in Hc.
Qed.

Lemma put_run c r cells i j x :
  grid c r cells -> 0 <= i < r -> 0 <= j < c ->
  (line ← getitem cells i; line ← setitem line j x; setitem cells i line) =
  Ok (put_at i j x cells).
Proof.
  intros Hg Hi Hj. destruct (grid_line _ _ _ i Hg Hi) as (line & Hl & Hc).
  rewrite (getitem_in _ _ line) by (done || lia). cbn [mbind result_bind].
  rewrite setitem_in by lia. cbn [mbind result_bind].
  rewrite setitem_in by (destruct Hg; lia). f_equal. unfold put_at.
  apply list_eq. intros k. destruct (decide (k = Z.to_nat i)) as [->|Hk].
  - rewrite list_lookup_insert_eq by (by apply lookup_lt_Some in Hl).
    by rewrite list_lookup_alter_eq, Hl.
  - by rewrite list_lookup_insert_ne, list_lookup_alter_ne by done.
Qed.

(** The assignment [cells[i][j] = x] inside the grid. *)
Lemma lift_put c r cells i j x (k : list (list Z) -> terminal unit) t :
  grid c r cells -> 0 <= i < r -> 0 <= j < c ->
  (line ← lift (getitem cells i); line ← lift (setitem line j x);
   cells ← lift (setitem cells i line); k cells) t = k (put_at i j x cells) t.
Proof.
  intros Hg Hi Hj. pose proof (put_run _ _ _ i j x Hg Hi Hj) as H.
  rewrite bind_run. unfold lift at 1.
  destruct (getitem cells i) as [line|]; [|done]. cbn [mbind result_bind] in H.
  rewrite bind_run. unfold lift at 1.
  destruct (setitem line j x) as [line'|]; [|done]. cbn [mbind result_bind] in H.
  rewrite bind_run. unfold lift at 1. by rewrite H.
Qed.

Lemma set_cell_run c r t i j ch :
  grid_ok c r t -> 0 <= i < r -> 0 <= j < c -> set_cell i j ch t = (Ok tt, cell i j ch t).
Proof.
  intros (_ & _ & _ & _ & Hch & Hat & _) Hi Hj. unfold set_cell. rewrite bind_run.
  unfold set_char. rewrite bind_run. cbn [get]. rewrite (lift_put c r) by done. cbn [modify].
  unfold set_attr. rewrite bind_run. cbn [get]. by rewrite (lift_put c r) by done.
Qed.

(** Reads the attributes of an updated object. *)
Ltac proj :=
  cbn [columns rows _chars _attrs row column visible generation _foreground _background _bold
       _blink _state _sequence _decoder set_cells set_cursor set_visible set_generation set_colour
       set_parser set_decoder cell].

Lemma cell_grid_ok c r t i j ch : grid_ok c r t -> grid_ok c r (cell i j ch t).
Proof.
  intros H. pose proof (attribute_range _ _ _ H) as Ha.
  destruct H as (? & ? & ? & ? & ? & ? & Hb & ? & ?).
  unfold grid_ok. proj.
  split_and?; try done; try (by apply grid_put); try lia.
  apply Forall_alter; [done|]. intros line _ Hl. apply Forall_insert; [done|lia].
Qed.

Lemma cell_ok c r t i j ch : terminal_ok c r t -> terminal_ok c r (cell i j ch t).
Proof. intros [Hg Hc]. split; [by apply cell_grid_ok|done]. Qed.

(** *** Line feeds and printing *)
Definition scrolled {A} (blank : A) (c : Z) (cells : list (list A)) : list (list A) :=
  tail cells ++ [replicate (Z.to_nat c) blank].

Definition line_fed (t : TerminalBuffer) : TerminalBuffer :=
  set_generation (generation t + 1)
    (if rows t <=? row t + 1 then
       set_cells (scrolled 32 (columns t) (_chars t)) (scrolled (attribute t) (columns t) (_attrs t))
         (set_cursor (rows t - 1) (column t) t)
     else set_cursor (row t + 1) (column t) t).

Definition advanced (ch : Z) (t : TerminalBuffer) : TerminalBuffer :=
  let t' := set_generation (generation t + 1)
    (set_cursor (row t) (column t + 1) (cell (row t) (column t) ch t)) in
  if columns t <=? column t + 1 then line_fed (set_cursor (row t) 0 t') else t'.

Lemma grid_nonempty c r cells : grid c r cells -> 1 <= r -> exists line rest, cells = line :: rest.
Proof. intros [Hr _] ?. destruct cells; [change (0 = r) in Hr; lia|eauto]. Qed.

Lemma line_feed_run c r t : grid_ok c r t -> _line_feed t = (Ok tt, line_fed t).
Proof.
  intros (? & ? & _ & _ & Hch & Hat & _).
  destruct (grid_nonempty _ _ _ Hch) as (l1 & k1 & E1); [done|].
  destruct (grid_nonempty _ _ _ Hat) as (l2 & k2 & E2); [done|].
  unfold _line_feed, line_fed, scroll. rewrite !bind_run. cbn [modify get].
  rewrite !bind_run. cbn [get row rows set_cursor].
  destruct (rows t <=? row t + 1); [|done].
  rewrite !bind_run. cbn [get _chars _attrs set_cursor]. rewrite !bind_run. rewrite E1, E2.
  cbn [lift pop_first]. done.
Qed.

Lemma advanced_run c r t ch : terminal_ok c r t -> _put ch t = (Ok tt, advanced ch t).
Proof.
  intros (Hg & Hr & Hc). unfold _put, advanced. rewrite !bind_run. cbn [get].
  rewrite !bind_run, (set_cell_run c r) by done.
  rewrite !bind_run. cbn [increment_generation modify]. rewrite !bind_run. cbn [modify].
  rewrite !bind_run. cbn [get columns column set_cursor set_generation cell set_cells generation row].
  destruct (columns t <=? column t + 1); [|done].
  rewrite !bind_run. cbn [set_column modify row set_cursor set_generation cell set_cells].
  erewrite line_feed_run; [done|]. by apply (cell_grid_ok c r t (row t) (column t) ch).
Qed.

Lemma grid_scrolled c r cells x :
  0 <= c -> 1 <= r -> grid c r cells -> grid c r (scrolled x c cells).
Proof.
  intros ? ? Hg. destruct (grid_nonempty _ _ _ Hg) as (l & k & ->); [done|].
  destruct Hg as [Hr Hc]. apply Forall_cons in Hc as [_ Hc]. unfold scrolled, grid.
  split; [unfold len in *; rewrite length_app; simpl in *; lia|].
  apply Forall_app; split; [done|]. constructor; [|done]. unfold len. rewrite length_replicate. lia.
Qed.

Lemma line_fed_ok c r t : terminal_ok c r t -> terminal_ok c r (line_fed t).
Proof.
  intros [Hg Hc]. pose proof (attribute_range _ _ _ Hg) as Ha.
  destruct Hg as (? & ? & E1 & E2 & ? & ? & Hb & ? & ?). unfold line_fed.
  destruct (rows t <=? row t + 1) eqn:E; unfold terminal_ok, grid_ok; proj;
    rewrite ?E1; split_and?; try done; try (apply grid_scrolled; (done || lia)); try lia.
  apply Forall_app. split.
  - destruct Hb; [constructor|done].
  - constructor; [|constructor]. apply Forall_replicate. lia.
Qed.

Lemma advanced_ok c r t ch : terminal_ok c r t -> terminal_ok c r (advanced ch t).
Proof.
  intros Hok. pose proof (cell_ok c r t (row t) (column t) ch Hok) as [Hg _].
  destruct Hok as [(? & ? & E1 & E2 & _) Hc]. unfold advanced.
  destruct (columns t <=? column t + 1) eqn:E.
  - apply line_fed_ok. split; [done|proj; lia].
  - split; [done|proj; lia].
Qed.

(** *** Erasing keeps the invariant *)
Section Safety.
Context (c r : Z) (only_plain : bool).

(** With [only_plain] the input has only plain characters and nothing raises;
    without it [ValueError] is possible. *)
Definition inv (t : TerminalBuffer) : Prop :=
  terminal_ok c r t /\ (only_plain = true -> Forall plain (_sequence t)).
Definition allowed (cls : exn_class) : Prop := only_plain = false /\ cls = ValueError.

Abbreviation safe := (ends inv allowed).

Lemma set_cell_safe i j ch t : 0 <= i < r -> 0 <= j < c -> inv t -> safe (set_cell i j ch) t.
Proof.
  intros Hi Hj [[Hg Hc] Hs]. unfold ends. rewrite (set_cell_run c r) by done.
  split; [|done]. split; [|done]. by apply cell_ok.
Qed.

Lemma erase_cells_safe i start stop t :
  0 <= i < r -> 0 <= start -> stop <= c -> inv t -> safe (_erase_cells i start stop) t.
Proof.
  intros Hi Hs He HI. unfold _erase_cells. apply ends_bind; [|by intros].
  apply ends_each; [done|]. intros j t' Hj%elem_of_seqZ HI'. apply set_cell_safe; (done || lia).
Qed.

Lemma erase_rows_safe from n t :
  0 <= from -> from + n <= r -> inv t ->
  safe (each (fun i => _erase_cells i 0 c) (seqZ from n)) t.
Proof.
  intros Hf Hn HI. apply ends_each; [done|]. intros i t' Hi%elem_of_seqZ HI'.
  apply erase_cells_safe; (done || lia).
Qed.

Lemma erase_display_safe mode t : inv t -> safe (_erase_display mode) t.
Proof.
  intros HI. pose proof HI as [[(? & ? & Ec & Er & _) Hc] _].
  unfold _erase_display. apply ends_get. rewrite Ec, Er.
  destruct (mode =? 2); [|destruct (mode =? 1)].
  - apply erase_rows_safe; (done || lia).
  - apply ends_bind; [apply erase_rows_safe; (done || lia)|].
    intros _ t' _ HI'. apply erase_cells_safe; (done || lia).
  - apply ends_bind; [apply erase_cells_safe; (done || lia)|].
    intros _ t' _ HI'. apply erase_rows_safe; (done || lia).
Qed.

Lemma erase_line_safe mode t : inv t -> safe (_erase_line mode) t.
Proof.
  intros HI. pose proof HI as [[(? & ? & Ec & Er & _) Hc] _].
  unfold _erase_line. apply ends_get.
  destruct (mode =? 2); [|destruct (mode =? 1)]; apply erase_cells_safe; (done || lia).
Qed.

(** *** The control sequences *)
Lemma modify_safe f t : inv (f t) -> safe (modify f) t.
Proof. done. Qed.

Lemma ansi_to_dos_code code :
  0 <= code < 8 -> exists v, getitem ansi_to_dos code = Ok v /\ 0 <= v < 8.
Proof.
  intros H. assert (code = 0 \/ code = 1 \/ code = 2 \/ code = 3 \/ code = 4 \/ code = 5 \/
    code = 6 \/ code = 7) as Hin by lia.
  destruct_or!; subst; eexists; (split; [reflexivity|lia]).
Qed.

Lemma set_colour_inv fg bg bold blink t :
  inv t -> 0 <= fg < 8 -> 0 <= bg < 8 -> inv (set_colour fg bg bold blink t).
Proof.
  intros [[(? & ? & ? & ? & ? & ? & ? & ? & ?) ?] ?] ? ?.
  split; [|done]. unfold terminal_ok, grid_ok. proj. tauto.
Qed.

Lemma sgr_code_safe code t : inv t -> safe (sgr_code code) t.
Proof.
  intros HI. pose proof HI as [[(_ & _ & _ & _ & _ & _ & _ & Hf & Hb) _] _].
  unfold sgr_code, ends. rewrite bind_run. cbn [get].
  repeat (case_match; [apply modify_safe, set_colour_inv; (done || lia)|]).
  case_match; [|case_match; [|by apply ends_ret]]; unfold in_range in *; rewrite bind_run.
  - destruct (ansi_to_dos_code (code - 30)) as (v & -> & Hv); [lia|].
    by apply modify_safe, set_colour_inv.
  - destruct (ansi_to_dos_code (code - 40)) as (v & -> & Hv); [lia|].
    by apply modify_safe, set_colour_inv.
Qed.

Lemma sgr_safe params t : inv t -> safe (_sgr params) t.
Proof. intros HI. apply ends_each; [done|]. intros. by apply sgr_code_safe. Qed.

Lemma split_semicolons_plain s : Forall plain s -> Forall (Forall plain) (split_semicolons s).
Proof.
  induction 1 as [|x s Hx Hs IH]; cbn [split_semicolons]; [by repeat constructor|].
  destruct (x =? 59); [by constructor|].
  destruct (split_semicolons s); [by repeat constructor|].
  inversion IH; subst. constructor; [by constructor|done].
Qed.

Lemma int10_plain s : isdigit s = true -> Forall plain s -> exists n, int10 s = Ok n.
Proof.
  intros [_ Hd]%andb_true_iff Hp. unfold int10.
  rewrite (map_result_pure _ (fun c => default 0 (decimal_value c))); [simpl; eauto|].
  rewrite forallb_forall in Hd. rewrite Forall_forall in Hp |- *. intros x Hx.
  pose proof (Hp x Hx (Hd x (proj1 (list_elem_of_In _ _) Hx))) as Hdec.
  unfold is_decimal in Hdec. by destruct (decimal_value x).
Qed.

Lemma csi_params_raises raw :
  (only_plain = true -> Forall plain raw) -> raises allowed (csi_params raw).
Proof.
  intros Hp. unfold csi_params. apply raises_map_result. intros part Hpart. unfold csi_param.
  destruct (isdigit part) eqn:Ed; [|done].
  destruct only_plain eqn:Eo; unfold allowed.
  - destruct (int10_plain part Ed) as [n ->]; [|done].
    assert (Forall plain (if csi_private raw then drop 1 raw else raw)) as Hs.
    { destruct (csi_private raw); [apply Forall_drop|]; by apply Hp. }
    apply split_semicolons_plain in Hs. rewrite Forall_forall in Hs. by apply Hs.
  - unfold int10. apply raises_bind; [|done]. apply raises_map_result. intros x _.
    destruct (decimal_value x); [done|by apply raises_raise].
Qed.

Lemma csi_params_nonneg raw params : csi_params raw = Ok params -> Forall (fun n => 0 <= n) params.
Proof.
  unfold csi_params. intros H%map_result_Ok.
  induction H as [|part n parts ns H _ IH]; constructor; [|done].
  unfold csi_param in H. destruct (isdigit part); [by eapply int10_nonneg|by simplify_eq].
Qed.

Lemma set_cursor_inv i j t : inv t -> 0 <= i < r -> 0 <= j < c -> inv (set_cursor i j t).
Proof. intros [[Hg Hc] Hs] Hi Hj. split; [|done]. split; [done|]. proj. lia. Qed.

Lemma apply_csi_safe raw final t :
  inv t -> (only_plain = true -> Forall plain raw) -> safe (_apply_csi raw final) t.
Proof.
  intros HI Hp. pose proof HI as [[(? & ? & Ec & Er & _) Hc] _].
  unfold _apply_csi. apply ends_lift; [done|by apply csi_params_raises|].
  intros params Hpos%csi_params_nonneg.
  apply ends_lift; [done|by destruct params|]. intros first Hfirst.
  apply ends_get.
  assert (0 < or_1 first).
  { unfold or_1. assert (0 <= first).
    - destruct Hpos as [|n params Hn]; [by apply Ok_inj in Hfirst; subst|].
      rewrite (getitem_in _ 0 n) in Hfirst by done. by simplify_eq.
    - destruct (first =? 0) eqn:?; lia. }
  apply ends_if; intros _.
  - assert (Hsecond : exists n, (if 1 <? len (match params with [] => [0] | _ => params end)
      then lift (getitem (match params with [] => [0] | _ => params end) 1) else mret 1) t
      = (Ok n, t)).
    { destruct params as [|p [|q params]]; [by eexists..|]. case_match; [|by eexists].
      rewrite (getitem_in _ 1 q) by done. by eexists. }
    destruct Hsecond as [n Hn]. unfold ends. rewrite bind_run, Hn, bind_run.
    unfold set_row, set_column. cbn [modify].
    apply modify_safe. proj. apply set_cursor_inv; [apply set_cursor_inv; [done|lia|lia]|lia|lia].
  - repeat (apply ends_if; intros _; [solve [apply modify_safe; proj; apply set_cursor_inv; (done || lia)
      | by apply erase_display_safe | by apply erase_line_safe | by apply sgr_safe
      | by apply modify_safe]|]).
    by apply ends_ret.
Qed.

(** *** The parser *)
Lemma set_parser_inv st sq t :
  inv t -> (only_plain = true -> Forall plain sq) -> inv (set_parser st sq t).
Proof. intros [Hok _] Hs. by split. Qed.

Lemma set_parser_nil_inv st t : inv t -> inv (set_parser st [] t).
Proof. intros HI. apply set_parser_inv; [done|by constructor]. Qed.

Lemma set_state_safe st t : inv t -> safe (set_state st) t.
Proof. intros [Hok Hs]. by split. Qed.

Lemma normal_safe ch t : inv t -> safe (_normal ch) t.
Proof.
  intros HI. pose proof HI as [[Hg Hc] Hs]. destruct Hg as (Hc1 & Hr1 & Ec & Er & _).
  assert (Hlf : safe _line_feed t).
  { unfold ends. erewrite line_feed_run by apply HI. split; [|done]. split.
    - by apply line_fed_ok, HI.
    - unfold line_fed. by destruct (rows t <=? row t + 1). }
  unfold _normal. do 3 (apply ends_if; intros _; [first [by apply set_state_safe | done
    | apply modify_safe, set_cursor_inv; (done || lia)]|]).
  apply ends_if; intros _; [apply modify_safe, set_cursor_inv; (done || lia)|].
  apply ends_if; intros _.
  { apply modify_safe, set_cursor_inv; [done|lia|]. pose proof (Z.div_pos (column t) 8). lia. }
  apply ends_if; intros _; [by apply ends_ret|].
  unfold ends. erewrite advanced_run by apply HI. split; [|done]. split.
  - by apply advanced_ok, HI.
  - unfold advanced, line_fed. proj. by repeat case_match.
Qed.

Lemma csi_safe ch t : inv t -> (only_plain = true -> plain ch) -> safe (_csi ch) t.
Proof.
  intros HI Hp. unfold _csi. apply ends_get. apply ends_if; intros _.
  - apply ends_bind; [by apply modify_safe, set_parser_nil_inv|].
    intros _ t' _ HI'. apply apply_csi_safe; [done|apply HI].
  - apply ends_if; intros _; apply modify_safe; [|by apply set_parser_nil_inv].
    apply set_parser_inv; [done|]. intros Ho. apply Forall_app. split; [by apply HI|].
    constructor; [by apply Hp|constructor].
Qed.

Lemma feed_char_safe ch t : inv t -> (only_plain = true -> plain ch) -> safe (feed_char ch) t.
Proof.
  intros HI Hp. unfold feed_char, ends. rewrite bind_run. cbn [gets].
  destruct (_state t).
  - by apply normal_safe.
  - apply ends_if; intros _; [by apply modify_safe, set_parser_nil_inv|].
    apply ends_if; intros _; [by apply modify_safe, set_parser_nil_inv|by apply set_state_safe].
  - by apply csi_safe.
  - apply ends_if; intros _; [by apply set_state_safe|by apply ends_ret].
  - apply ends_if; intros _; [by apply set_state_safe|].
    apply ends_if; intros _; [by apply set_state_safe|by apply ends_ret].
  - by apply set_state_safe.
Qed.

Lemma feed_safe s t : inv t -> (only_plain = true -> Forall plain s) -> safe (feed s) t.
Proof.
  intros HI Hp. unfold feed. destruct s as [|ch s]; [by apply ends_ret|].
  unfold ends. rewrite bind_run. cbn [gets]. apply ends_bind.
  - apply ends_each; [done|]. intros ch' t' Hin HI'. apply feed_char_safe; [done|].
    intros Ho. specialize (Hp Ho). rewrite Forall_forall in Hp. by apply Hp.
  - intros _ t' _ HI'. apply ends_get. by apply ends_if; intros _; [apply modify_safe|apply ends_ret].
Qed.
End Safety.

Lemma new_terminal_ok c r t only_plain :
  new_terminal c r = Ok t -> inv c r only_plain t.
Proof.
  unfold new_terminal. intros H. inv_ok. split; [|by constructor].
  assert (Hgrid : forall x, grid c r (replicate (Z.to_nat r) (replicate (Z.to_nat c) x))).
  { intros x. split; [unfold len; rewrite length_replicate; lia|].
    apply Forall_replicate. unfold len. rewrite length_replicate. lia. }
  unfold terminal_ok, grid_ok. proj. split_and?; try done; try lia.
  by apply Forall_replicate, Forall_replicate.
Qed.

Lemma snapshot_Ok c r t : terminal_ok c r t -> exists s, snapshot t = Ok s.
Proof.
  intros [(? & ? & Ec & Er & [? ?] & [? ?] & ? & _) ?]. unfold snapshot, Models.new_text_screen.
  eexists. rewrite (proj2 (Models.text_screen_check_Ok _ tt)); [reflexivity|].
  unfold Models.well_formed_screen. cbn. rewrite Ec, Er. split_and?; (done || lia).
Qed.

(** ** Generation and decoder

    No operation looks at the generation or at the decoder's state, none changes
    the decoder, and the generation only grows: [blind]. *)
Definition aux (g : Z) (d : list Z) (t : TerminalBuffer) : TerminalBuffer :=
  set_generation g (set_decoder d t).

Definition blind {A} (m : terminal A) : Prop := forall g d t, exists k, 0 <= k /\
  m (aux g d t) = ((m t).1, aux (g + k) d (m t).2).

Lemma aux_id t : aux (generation t) (_decoder t) t = t.
Proof. by destruct t. Qed.

Lemma blind_at {A} (m : terminal A) t : blind m -> exists k, 0 <= k /\
  generation (m t).2 = generation t + k /\ _decoder (m t).2 = _decoder t.
Proof.
  intros H. destruct (H (generation t) (_decoder t) t) as (k & Hk & E).
  rewrite aux_id in E. exists k. by rewrite E.
Qed.

Lemma blind_ret {A} (a : A) : blind (mret a).
Proof. intros g d t. exists 0. by rewrite Z.add_0_r. Qed.
Lemma blind_lift {A} (r : result A) : blind (lift r).
Proof. intros g d t. exists 0. by rewrite Z.add_0_r. Qed.
Lemma blind_modify f : (forall g d t, f (aux g d t) = aux g d (f t)) -> blind (modify f).
Proof. intros H g d t. exists 0. rewrite Z.add_0_r. unfold modify. by rewrite H. Qed.
Lemma blind_increment : blind increment_generation.
Proof. intros g d t. by exists 1. Qed.
Lemma blind_bind {A B} (m : terminal A) (f : A -> terminal B) :
  blind m -> (forall a, blind (f a)) -> blind (m ≫= f).
Proof.
  intros Hm Hf g d t. destruct (Hm g d t) as (k & Hk & E).
  rewrite !bind_run, E. destruct (m t) as [[a|e] t']; cbn [fst snd]; [|by exists k].
  destruct (Hf a (g + k) d t') as (j & Hj & E'). exists (k + j).
  rewrite E', Z.add_assoc. split; [lia|done].
Qed.
Lemma blind_get {A} (f : TerminalBuffer -> terminal A) :
  (forall g d t, f (aux g d t) = f t) -> (forall t, blind (f t)) -> blind (get ≫= f).
Proof.
  intros Hf Hb g d t. destruct (Hb t g d t) as (k & Hk & E). exists k. split; [done|].
  rewrite !bind_run. cbn [get]. by rewrite Hf, E.
Qed.
Lemma blind_each {A} (f : A -> terminal unit) l : (forall a, blind (f a)) -> blind (each f l).
Proof. intros H. induction l as [|x l IH]; [apply blind_ret|]. by apply blind_bind. Qed.

Ltac blind_step :=
  lazymatch goal with
  | |- blind (get ≫= _) => apply blind_get; [done|intros ?]
  | |- blind (_ ≫= _) => apply blind_bind; [|intros ?]
  | |- blind (mret _) => apply blind_ret
  | |- blind (lift _) => apply blind_lift
  | |- blind (modify _) => apply blind_modify; done
  | |- blind increment_generation => apply blind_increment
  | |- blind (each _ _) => apply blind_each; intros ?
  | |- blind (if ?b then _ else _) => destruct b
  | |- blind (match ?x with _ => _ end) => destruct x
  end.
Ltac go_blind := cbv zeta beta; repeat blind_step; try done.

Lemma set_cell_blind i j ch : blind (set_cell i j ch).
Proof. unfold set_cell, set_char, set_attr. go_blind. Qed.
Lemma erase_cells_blind i a b : blind (_erase_cells i a b).
Proof. unfold _erase_cells. go_blind. apply set_cell_blind. Qed.
Lemma line_feed_blind : blind _line_feed.
Proof. unfold _line_feed, scroll, set_row. go_blind. Qed.
Lemma put_blind ch : blind (_put ch).
Proof. unfold _put, set_column. go_blind; first [apply set_cell_blind | apply line_feed_blind]. Qed.
Lemma apply_csi_blind raw final : blind (_apply_csi raw final).
Proof.
  unfold _apply_csi, set_row, set_column, _sgr, sgr_code, _erase_display, _erase_line.
  go_blind; apply erase_cells_blind.
Qed.
Lemma feed_char_blind ch : blind (feed_char ch).
Proof.
  unfold feed_char. apply blind_bind.
  { intros g d t. exists 0. by rewrite Z.add_0_r. }
  intros st. unfold _normal, _escape, _csi, set_state, set_column.
  destruct st; go_blind; first [apply line_feed_blind | apply put_blind | apply apply_csi_blind].
Qed.

(** [feed] is its loop, up to the generation. *)
Lemma feed_run s t :
  s <> [] ->
  match each feed_char s t with
  | (Ok _, t') => exists k, 0 < k /\ feed s t = (Ok tt, set_generation (generation t + k) t')
  | (Err e, t') => feed s t = (Err e, t')
  end.
Proof.
  intros Hs. unfold feed. destruct s as [|ch s]; [done|]. rewrite bind_run. cbn [gets].
  destruct (blind_at (each feed_char (ch :: s)) t) as (k & Hk & Hg & _).
  { apply blind_each, feed_char_blind. }
  rewrite bind_run. destruct (each feed_char (ch :: s) t) as [[[]|e] t']; cbn [fst snd] in *; [|done].
  rewrite bind_run. cbn [get]. destruct (generation t' =? generation t) eqn:E.
  - exists 1. split; [lia|]. apply Z.eqb_eq in E. by rewrite <- E.
  - exists k. split; [lia|]. rewrite <- Hg. by destruct t'.
Qed.

(** ** Sessions

    The terminals a backend can reach by feeding the output of its shell, where
    [input] says which bytes the shell writes; a feed that raised has changed
    the terminal all the same. *)
Inductive fed (input : bytes -> Prop) (c r : Z) : TerminalBuffer -> Prop :=
| fed_start t : new_terminal c r = Ok t -> fed input c r t
| fed_step t data : fed input c r t -> input data -> fed input c r (feed_bytes data t).2.

Definition ascii (data : bytes) : Prop := Forall (fun b => b2z b < 128) data.

Lemma set_decoder_inv c r only_plain d t : inv c r only_plain t -> inv c r only_plain (set_decoder d t).
Proof. done. Qed.

Lemma feed_bytes_safe c r only_plain data t :
  inv c r only_plain t ->
  (only_plain = true -> Forall plain (utf8_decode (_decoder t) data).1) ->
  ends (inv c r only_plain) (allowed only_plain) (feed_bytes data) t.
Proof.
  intros HI Hp. unfold feed_bytes, ends. rewrite bind_run. cbn [get].
  destruct (utf8_decode (_decoder t) data) as [value pending]. rewrite bind_run. cbn [modify].
  by apply feed_safe.
Qed.

Lemma fed_inv input c r t : fed input c r t -> inv c r false t.
Proof.
  induction 1 as [t H|t data _ IH _]; [by apply new_terminal_ok|]. by apply feed_bytes_safe.
Qed.

(** C32. From any start and after any bytes from the shell (escape sequences,
    broken UTF-8, scrolling included) the grid keeps its dimensions, the cursor
    stays inside, [snapshot] returns a well-formed screen, and the only
    exception a feed can raise is [ValueError]: never an [IndexError]. *)
Theorem terminal_invariant c r t :
  fed (fun _ => True) c r t ->
  terminal_ok c r t /\
  (exists s, snapshot t = Ok s /\ Models.well_formed_screen s) /\
  forall data, raises (fun cls => cls = ValueError) (feed_bytes data t).1.
Proof.
  intros H%fed_inv. split; [apply H|]. split.
  - destruct (snapshot_Ok c r t) as [s Hs]; [apply H|]. exists s. split; [done|].
    unfold snapshot, Models.new_text_screen in Hs. inv_ok. by eapply Models.text_screen_check_Ok.
  - intros data. destruct (feed_bytes_safe c r false data t H) as [_ Hr]; [done|].
    destruct (feed_bytes data t).1 as [|e]; [done|]. by destruct Hr.
Qed.

(** ASCII output. *)
Lemma plain_ascii ch : 0 <= ch < 128 -> plain ch.
Proof.
  intros H. unfold plain. rewrite <- implb_true_iff.
  assert (Hall : forallb (fun c => implb (char_isdigit c) (is_decimal c)) (seqZ 0 128) = true)
    by (vm_compute; reflexivity).
  rewrite forallb_forall in Hall. apply Hall, list_elem_of_In, elem_of_seqZ. lia.
Qed.

Lemma utf8_decode_ascii data : ascii data -> utf8_decode [] data = (b2z <$> data, []).
Proof.
  induction 1 as [|b data Hb _ IH]; [done|]. cbn [utf8_decode utf8_step]. unfold utf8_fresh.
  replace (b2z b <? 128) with true by lia. by rewrite IH.
Qed.

Lemma feed_decoder s t : _decoder (feed s t).2 = _decoder t.
Proof.
  destruct s as [|ch s]; [done|]. pose proof (feed_run (ch :: s) t) as H.
  destruct (blind_at (each feed_char (ch :: s)) t) as (k & _ & _ & Hd).
  { apply blind_each, feed_char_blind. }
  destruct (each feed_char (ch :: s) t) as [[a|e] t']; cbn [snd] in Hd.
  - destruct H as (j & _ & ->); [done|]. done.
  - rewrite H by done. done.
Qed.

Lemma feed_bytes_ascii c r data t :
  ascii data -> inv c r true t -> _decoder t = [] ->
  exists t', feed_bytes data t = (Ok tt, t') /\ inv c r true t' /\ _decoder t' = [] /\
    (data <> [] -> generation t < generation t').
Proof.
  intros Ha HI Hd. destruct (feed_bytes_safe c r true data t HI) as [HI' Hr].
  { intros _. rewrite Hd, utf8_decode_ascii by done. apply Forall_fmap.
    eapply Forall_impl; [exact Ha|]. intros b Hb. apply (plain_ascii (b2z b)).
    pose proof (b2z_range b). cbv beta in Hb. lia. }
  pose proof (feed_decoder (b2z <$> data) (set_decoder [] t)) as Hd'.
  pose proof (feed_run (b2z <$> data) (set_decoder [] t)) as Hrun.
  assert (E : feed_bytes data t = feed (b2z <$> data) (set_decoder [] t)).
  { unfold feed_bytes. rewrite bind_run. cbn [get]. by rewrite Hd, utf8_decode_ascii by done. }
  rewrite <- E in Hd', Hrun. destruct (feed_bytes data t) as [[[]|e] t'] eqn:Ef; cbn [fst snd] in *.
  - exists t'. split_and!; try done. intros Hne.
    destruct (each feed_char (b2z <$> data) (set_decoder [] t)) as [[a|e] t1].
    + destruct Hrun as (k & Hk & Hrun); [by destruct data|]. simplify_eq. proj. lia.
    + by discriminate Hrun; destruct data.
  - by destruct Hr.
Qed.

(** On ASCII output a feed never raises, and any output at all gives a
    strictly greater generation, by which clients see that the screen changed. *)
Theorem ascii_feed_returns c r t data :
  fed ascii c r t -> ascii data ->
  exists t', feed_bytes data t = (Ok tt, t') /\ (data <> [] -> generation t < generation t').
Proof.
  intros Ht Hdata. enough (inv c r true t /\ _decoder t = []) as [HI Hd].
  { destruct (feed_bytes_ascii c r data t) as (t' & ? & _ & _ & ?); eauto. }
  clear Hdata. induction Ht as [t H|t d _ [HI Hd] Hin].
  - split; [by apply new_terminal_ok|]. unfold new_terminal in H. by inv_ok.
  - destruct (feed_bytes_ascii c r d t) as (t' & -> & ? & ? & _); done.
Qed.

(** ** The output may be read in any pieces *)
Lemma feed_aux s g d t : exists g',
  feed s (aux g d t) = ((each feed_char s t).1, aux g' d (each feed_char s t).2).
Proof.
  destruct s as [|ch s]; [by exists g|].
  destruct (blind_each feed_char (ch :: s) feed_char_blind g d t) as (k & _ & E).
  pose proof (feed_run (ch :: s) (aux g d t)) as H. rewrite E in H.
  destruct (each feed_char (ch :: s) t) as [[[]|e] t']; cbn [fst snd] in *.
  - destruct H as (j & _ & ->); [done|]. by eexists.
  - rewrite H by done. by eexists.
Qed.

(** C34. How the shell's output is cut into reads makes no difference to the screen until
    an exception is raised.  For any cut, even inside a UTF-8 character or an escape
    sequence: if feeding the first part returns, feeding both in one read has the same
    outcome and leaves the same terminal as feeding the second part next, up to the
    generation.  If the first part raises, the one read raises the same exception with
    the same screen, and nothing of the second part is shown, which a separate read
    could still show ([superscript_parameter_raises] is such a case). *)
Theorem feed_bytes_chunking a b t r t1 :
  feed_bytes a t = (r, t1) ->
  match r with
  | Ok _ => exists g, feed_bytes (a ++ b) t = ((feed_bytes b t1).1, set_generation g (feed_bytes b t1).2)
  | Err e => exists g d, feed_bytes (a ++ b) t = (Err e, set_generation g (set_decoder d t1))
  end.
Proof.
  unfold feed_bytes. rewrite !bind_run. cbn [get]. rewrite utf8_decode_app.
  destruct (utf8_decode (_decoder t) a) as [x p]. cbn [fst snd]. rewrite !bind_run. cbn [modify].
  change (set_decoder p t) with (aux (generation t) p t).
  destruct (feed_aux x (generation t) p t) as (g1 & ->). intros H.
  assert (Et : t1 = aux g1 p (each feed_char x t).2) by by simplify_eq. subst t1.
  change (_decoder (aux _ p _)) with p. destruct (utf8_decode p b) as [y q].
  rewrite bind_run. cbn [modify fst snd].
  change (set_decoder q (aux g1 p ?u)) with (aux g1 q u).
  change (set_decoder q t) with (aux (generation t) q t).
  destruct (feed_aux y g1 q (each feed_char x t).2) as (g2 & ->).
  destruct (feed_aux (x ++ y) (generation t) q t) as (g3 & ->).
  rewrite each_app, bind_run.
  destruct (each feed_char x t) as [[[]|e] w]; cbn [fst snd] in *; injection H as <-.
  - by exists g3.
  - by exists g3, q.
Qed.

(** ** A parameter of non-decimal digits

    [str.isdigit] accepts characters [int] refuses: a superscript two in a
    control sequence, sent in one read with anything else, makes the feed raise
    and lose the rest of what was read. *)
(** For every terminal between sequences, the bytes [ESC [ U+00B2 m] make
    [feed_bytes] raise [ValueError]; the text that follows them in the same
    read is never printed. *)
Theorem superscript_parameter_raises t rest :
  _state t = normal -> _decoder t = [] -> ascii rest ->
  exists msg t', feed_bytes ([x1b; x5b; xc2; xb2; x6d] ++ rest) t = (Err (Exn ValueError msg), t') /\
    _chars t' = _chars t /\ generation t' = generation t.
Proof.
  intros Hs Hd Hr. unfold feed_bytes. rewrite bind_run. cbn [get]. rewrite Hd.
  rewrite utf8_decode_app. change (utf8_decode [] [x1b; x5b; xc2; xb2; x6d]) with
    ([27; 91; 178; 109], @nil Z). cbn [fst snd]. rewrite utf8_decode_ascii by done.
  rewrite bind_run. cbn [modify fst snd]. destruct t. cbn in Hs, Hd. subst.
  by do 2 eexists.
Qed.

(** ** Printing

    The grid read line by line is a tape: printing writes at the head and moves
    it; past the end of the tape the first line falls off and a blank line is
    added.  [typed] is that machine, [typed_all] what a whole text does to it. *)
Definition typed {A} (w : nat) (blank x : A) (tape : list A * nat) : list A * nat :=
  let l := <[tape.2 := x]> tape.1 in
  if (S tape.2 <? length l)%nat then (l, S tape.2)
  else (drop w l ++ replicate w blank, S tape.2 - w)%nat.

Definition lines_scrolled (w r p n : nat) : nat := ((p + n) / w - (r - 1))%nat.

Lemma lines_scrolled_fits w r p n :
  (0 < w)%nat -> (p + n < r * w)%nat -> lines_scrolled w r p n = 0%nat.
Proof.
  intros Hw Hp. unfold lines_scrolled.
  pose proof (Nat.Div0.div_lt_upper_bound (p + n) w r ltac:(lia)). lia.
Qed.

Lemma lines_scrolled_next w r p n :
  (0 < w)%nat -> (0 < r)%nat -> S p = (r * w)%nat ->
  lines_scrolled w r p (S n) = S (lines_scrolled w r (S p - w) n).
Proof.
  intros Hw Hr Hp. unfold lines_scrolled.
  replace (p + S n)%nat with (n + r * w)%nat by lia.
  replace (S p - w + n)%nat with (n + (r - 1) * w)%nat by nia.
  rewrite !Nat.div_add by lia. lia.
Qed.

Lemma insert_inserts_lt {A} i p (x : A) s l :
  (p < i)%nat -> <[p := x]> (list_inserts i s l) = list_inserts i s (<[p := x]> l).
Proof.
  revert i. induction s as [|y s IH]; intros i Hi; cbn [list_inserts]; [done|].
  rewrite list_insert_insert_ne by lia. by rewrite IH by lia.
Qed.

Lemma insert_inserts_before {A} p (x : A) s l :
  <[p := x]> (list_inserts (S p) s l) = list_inserts (S p) s (<[p := x]> l).
Proof. apply insert_inserts_lt. lia. Qed.

Lemma list_inserts_consecutive {A} p (s s' l : list A) :
  list_inserts (p + length s) s' (list_inserts p s l) = list_inserts p (s ++ s') l.
Proof.
  revert p. induction s as [|x s IH]; intros p; cbn [list_inserts app length]; [by rewrite Nat.add_0_r|].
  rewrite <- insert_inserts_lt by lia. replace (p + S (length s))%nat with (S p + length s)%nat by lia.
  by rewrite IH.
Qed.

Lemma list_inserts_drop {A} w p (s l : list A) :
  list_inserts p s (drop w l) = drop w (list_inserts (p + w) s l).
Proof.
  revert p. induction s as [|x s IH]; intros p; cbn [list_inserts]; [done|].
  rewrite IH. rewrite (drop_insert_ge _ w (p + w)) by lia.
  replace (p + w - w)%nat with p by lia. done.
Qed.

Lemma typed_all {A} (w r : nat) (blank : A) l p s :
  (0 < w)%nat -> (0 < r)%nat -> length l = (r * w)%nat -> (p < r * w)%nat ->
  let k := (lines_scrolled w r p (length s) * w)%nat in
  foldl (fun tape x => typed w blank x tape) (l, p) s =
  (drop k (list_inserts p s (l ++ replicate k blank)), p + length s - k)%nat.
Proof.
  intros Hw Hr. revert l p. induction s as [|x s IH]; intros l p Hl Hp k.
  - unfold k. cbn [length]. rewrite lines_scrolled_fits by lia.
    cbn. by rewrite app_nil_r, Nat.add_0_r, Nat.sub_0_r.
  - cbn [foldl]. unfold typed at 2. cbn [fst snd]. rewrite length_insert, Hl.
    destruct (Nat.ltb_spec (S p) (r * w)) as [Hlt|Hge].
    + rewrite IH by (rewrite ?length_insert; lia).
      assert (Ek : (lines_scrolled w r (S p) (length s) * w)%nat = k).
      { unfold k, lines_scrolled. cbn [length]. by rewrite Nat.add_succ_r. }
      rewrite Ek. f_equal; [|cbn [length]; lia].
      f_equal. cbn [list_inserts]. rewrite insert_inserts_before.
      by rewrite insert_app_l by lia.
    + assert (w <= r * w)%nat by nia.
      rewrite IH by (rewrite ?length_app, ?length_drop, ?length_replicate, ?length_insert; lia).
      assert (Ek : k = (lines_scrolled w r (S p - w) (length s) * w + w)%nat).
      { unfold k. cbn [length]. rewrite lines_scrolled_next by lia. lia. }
      rewrite Ek. set (j := (lines_scrolled w r (S p - w) (length s) * w)%nat).
      f_equal; [|cbn [length]; lia].
      rewrite <- app_assoc, <- replicate_add.
      assert (Ed : drop w (<[p:=x]> l) ++ replicate (w + j) blank =
        drop w (<[p:=x]> (l ++ replicate (j + w) blank))).
      { rewrite insert_app_l by lia. rewrite drop_app_le by (rewrite length_insert; lia).
        by rewrite (Nat.add_comm w j). }
      rewrite Ed, list_inserts_drop, drop_drop. f_equal; [lia|].
      replace (S p - w + w)%nat with (S p) by lia.
      cbn [list_inserts]. by rewrite insert_inserts_before.
Qed.

(** *** The grid as a tape *)
Lemma concat_put {A} (c : nat) (cells : list (list A)) i j x :
  Forall (fun line => length line = c) cells -> (i < length cells)%nat -> (j < c)%nat ->
  concat (alter (<[j := x]>) i cells) = <[(i * c + j)%nat := x]> (concat cells).
Proof.
  intros H. revert i. induction H as [|line cells Hl _ IH]; intros i Hi Hj; simpl in Hi; [lia|].
  destruct i as [|i]; cbn [alter list_alter concat].
  - by rewrite insert_app_l by lia.
  - change (concat (line :: ?k)) with (line ++ concat k). rewrite IH by lia.
    replace (S i * c + j)%nat with (length line + (i * c + j))%nat by (rewrite Hl; lia).
    by rewrite insert_app_r.
Qed.

Lemma length_concat_grid {A} (c : nat) (cells : list (list A)) :
  Forall (fun line => length line = c) cells -> length (concat cells) = (length cells * c)%nat.
Proof. induction 1 as [|line cells Hl _ IH]; cbn; [done|]. rewrite length_app. lia. Qed.

Lemma grid_nat c r cells :
  0 <= c -> grid c r cells ->
  Forall (fun line => length line = Z.to_nat c) cells /\ length cells = Z.to_nat r.
Proof.
  intros Hc [Hr Hl]. split; [|unfold len in Hr; lia].
  eapply Forall_impl; [exact Hl|]. unfold len. lia.
Qed.

Definition head_of (t : TerminalBuffer) : nat := Z.to_nat (row t * columns t + column t).

(** Printing a character is one step of the tape machine, for the characters
    and for the attributes alike. *)
Lemma advanced_tape {A} (blank x : A) (cells : TerminalBuffer -> list (list A)) c r t ch :
  terminal_ok c r t ->
  Forall (fun line => length line = Z.to_nat c) (cells t) -> length (cells t) = Z.to_nat r ->
  cells (advanced ch t) =
    (if (columns t <=? column t + 1) && (rows t <=? row t + 1)
     then scrolled blank (columns t) (put_at (row t) (column t) x (cells t))
     else put_at (row t) (column t) x (cells t)) ->
  (concat (cells (advanced ch t)), head_of (advanced ch t)) =
  typed (Z.to_nat c) blank x (concat (cells t), head_of t).
Proof.
  intros [(Hc1 & Hr1 & Ec & Er & _) Hcur] Hl Hn Hcells.
  assert (Hput : concat (put_at (row t) (column t) x (cells t)) =
    <[head_of t := x]> (concat (cells t))).
  { unfold put_at, head_of. rewrite (concat_put (Z.to_nat c)) by (done || lia).
    f_equal. rewrite Ec. nia. }
  assert (Hrow : concat (scrolled blank c (put_at (row t) (column t) x (cells t))) =
    drop (Z.to_nat c) (<[head_of t := x]> (concat (cells t))) ++ replicate (Z.to_nat c) blank).
  { rewrite <- Hput. unfold scrolled. rewrite concat_app. f_equal; [|apply app_nil_r].
    assert (Hl' : Forall (fun line => length line = Z.to_nat c) (put_at (row t) (column t) x (cells t))).
    { apply Forall_alter; [done|]. intros. by rewrite length_insert. }
    destruct (put_at (row t) (column t) x (cells t)) as [|line k]; [by destruct (Z.to_nat c)|].
    apply Forall_cons in Hl' as [Hline _]. cbn [tail].
    change (concat (line :: k)) with (line ++ concat k). by rewrite <- Hline, drop_app_length. }
  assert (Hlen : length (<[head_of t := x]> (concat (cells t))) = (Z.to_nat r * Z.to_nat c)%nat).
  { rewrite length_insert, (length_concat_grid (Z.to_nat c)) by done. by rewrite Hn. }
  assert (Hhead : Z.of_nat (head_of t) = row t * c + column t) by (unfold head_of; rewrite Ec; nia).
  unfold typed. cbn [fst snd]. rewrite Hlen, Hcells, Ec, Er.
  assert (Hcmp : (S (head_of t) <? Z.to_nat r * Z.to_nat c)%nat =
    negb ((c <=? column t + 1) && (r <=? row t + 1))).
  { destruct (Nat.ltb_spec (S (head_of t)) (Z.to_nat r * Z.to_nat c)) as [H|H];
      destruct (Z.leb_spec c (column t + 1)), (Z.leb_spec r (row t + 1)); try done; exfalso; nia. }
  rewrite Hcmp. unfold advanced, line_fed. proj. rewrite Ec, Er.
  destruct (Z.leb_spec c (column t + 1)) as [Hcl|Hcl], (Z.leb_spec r (row t + 1)) as [Hrl|Hrl];
    cbn [negb andb]; rewrite ?Hput, ?Hrow; f_equal; unfold head_of at 1; proj;
    rewrite Ec; apply Nat2Z.inj; nia.
Qed.

Definition printable (ch : Z) : bool := (32 <=? ch) && negb (ch =? 127).

Lemma feed_char_printable c r t ch :
  terminal_ok c r t -> _state t = normal -> printable ch = true ->
  feed_char ch t = (Ok tt, advanced ch t).
Proof.
  intros Hok Hs [Hlo Hdel]%andb_true_iff. unfold feed_char. rewrite bind_run. cbn [gets].
  rewrite Hs. unfold _normal, is_control.
  assert (H7F : (ch =? 127) = false) by (by destruct (ch =? 127)).
  assert (Heq : forall n, n < 32 -> (ch =? n) = false) by (intros; lia).
  rewrite !Heq, H7F by lia. replace (ch <? 32) with false by lia. cbn [orb].
  by eapply advanced_run.
Qed.

Lemma advanced_same ch t :
  columns (advanced ch t) = columns t /\ rows (advanced ch t) = rows t /\
  _state (advanced ch t) = _state t /\ attribute (advanced ch t) = attribute t.
Proof. unfold advanced, line_fed. proj. by repeat case_match. Qed.

Lemma advanced_chars ch t :
  _chars (advanced ch t) =
  (if (columns t <=? column t + 1) && (rows t <=? row t + 1)
   then scrolled 32 (columns t) (put_at (row t) (column t) ch (_chars t))
   else put_at (row t) (column t) ch (_chars t)).
Proof.
  unfold advanced, line_fed. proj. destruct (columns t <=? column t + 1); [|done].
  proj. by destruct (rows t <=? row t + 1).
Qed.

Lemma advanced_attrs ch t :
  _attrs (advanced ch t) =
  (if (columns t <=? column t + 1) && (rows t <=? row t + 1)
   then scrolled (attribute t) (columns t) (put_at (row t) (column t) (attribute t) (_attrs t))
   else put_at (row t) (column t) (attribute t) (_attrs t)).
Proof.
  unfold advanced, line_fed. proj. destruct (columns t <=? column t + 1); [|done].
  proj. by destruct (rows t <=? row t + 1).
Qed.

Lemma each_printable c r s t :
  terminal_ok c r t -> _state t = normal -> forallb printable s = true ->
  exists t', each feed_char s t = (Ok tt, t') /\ terminal_ok c r t' /\
    (concat (_chars t'), head_of t') =
      foldl (fun tape x => typed (Z.to_nat c) 32 x tape) (concat (_chars t), head_of t) s /\
    (concat (_attrs t'), head_of t') =
      foldl (fun tape x => typed (Z.to_nat c) (attribute t) x tape) (concat (_attrs t), head_of t)
        (replicate (length s) (attribute t)).
Proof.
  revert t. induction s as [|ch s IH]; intros t Hok Hs Hp; [by exists t|].
  apply andb_true_iff in Hp as [Hch Hp]. cbn [each foldl length replicate].
  rewrite bind_run, (feed_char_printable c r) by done.
  destruct (advanced_same ch t) as (Hc & Hr & Hst & Hat).
  destruct (IH (advanced ch t)) as (t' & Hrun & Hok' & H1 & H2); [by apply advanced_ok|congruence|done|].
  rewrite Hat in H2. pose proof Hok as [(? & ? & Ec & Er & Gc & Ga & _) _].
  apply grid_nat in Gc, Ga; [|lia..].
  exists t'. split_and!; [done|done| |].
  - rewrite H1. f_equal. eapply advanced_tape; [done|apply Gc|apply Gc|apply advanced_chars].
  - rewrite H2. f_equal. eapply advanced_tape; [done|apply Ga|apply Ga|apply advanced_attrs].
Qed.

(** C33. Printing is exact on every terminal, whatever it shows: read line by
    line, the screen is a tape on which the text is written from the cursor's
    position; when it runs past the end the first lines are dropped and blank
    ones in the current colours are appended, as many as the text needs, and the
    cursor stands behind the text. *)
Theorem printing_wraps_and_scrolls c r t s :
  terminal_ok c r t -> _state t = normal -> forallb printable s = true ->
  let w := Z.to_nat c in
  let p := head_of t in
  let k := (lines_scrolled w (Z.to_nat r) p (length s) * w)%nat in
  exists t', feed s t = (Ok tt, t') /\ terminal_ok c r t' /\
    concat (_chars t') = drop k (list_inserts p s (concat (_chars t) ++ replicate k 32)) /\
    concat (_attrs t') =
      drop k (list_inserts p (replicate (length s) (attribute t))
                (concat (_attrs t) ++ replicate k (attribute t))) /\
    head_of t' = (p + length s - k)%nat.
Proof.
  intros Hok Hs Hp w p k. pose proof Hok as [(? & ? & Ec & Er & Gc & Ga & _) ?].
  apply grid_nat in Gc, Ga; [|lia..].
  destruct (each_printable c r s t) as (t1 & Hrun & Hok1 & Hch & Hat); [done..|].
  rewrite (typed_all w (Z.to_nat r)) in Hch, Hat;
    try (rewrite (length_concat_grid w) by apply Gc; by rewrite (proj2 Gc));
    try (rewrite (length_concat_grid w) by apply Ga; by rewrite (proj2 Ga));
    try (unfold w, head_of; rewrite ?Ec; nia).
  rewrite length_replicate in Hat. fold p k in Hch, Hat.
  destruct (feed_aux s (generation t) (_decoder t) t) as (g & Hfeed). rewrite aux_id, Hrun in Hfeed.
  eexists. split; [exact Hfeed|]. simplify_eq.
  split_and!; try done; by destruct t1; simplify_eq.
Qed.

(** ** Erasing *)

(** From [t] to [t'], [n] cells from the [p]th on are blank in the current
    colours and nothing else has changed. *)
Definition blanked (p n : nat) (t t' : TerminalBuffer) : Prop :=
  concat (_chars t') = list_inserts p (replicate n 32) (concat (_chars t)) /\
  concat (_attrs t') = list_inserts p (replicate n (attribute t)) (concat (_attrs t)) /\
  (row t', column t', _state t', attribute t') = (row t, column t, _state t, attribute t).

Lemma blanked_trans p n q m t1 t2 t3 :
  q = (p + n)%nat -> blanked p n t1 t2 -> blanked q m t2 t3 -> blanked p (n + m) t1 t3.
Proof.
  intros -> (C1 & A1 & S1) (C2 & A2 & S2). injection S1 as R1 K1 T1 B1. injection S2 as R2 K2 T2 B2.
  unfold blanked. rewrite C2, C1, A2, A1, B2, B1, R2, R1, K2, K1, T2, T1, !replicate_add.
  rewrite <- (list_inserts_consecutive p (replicate n 32)),
    <- (list_inserts_consecutive p (replicate n (attribute t1))), !length_replicate. done.
Qed.

Lemma cell_blanked c r t i j :
  terminal_ok c r t -> 0 <= i < r -> 0 <= j < c ->
  blanked (Z.to_nat (i * c + j)) 1 t (cell i j 32 t).
Proof.
  intros [(? & ? & _ & _ & Gc & Ga & _) _] Hi Hj. apply grid_nat in Gc, Ga; [|lia..].
  unfold blanked. proj. unfold put_at. cbn [replicate list_inserts].
  rewrite !(concat_put (Z.to_nat c)) by (first [apply Gc | apply Ga | lia]).
  by replace (Z.to_nat (i * c + j)) with (Z.to_nat i * Z.to_nat c + Z.to_nat j)%nat by nia.
Qed.

Lemma erase_cells_run c r i start (n : nat) t :
  terminal_ok c r t -> 0 <= i < r -> 0 <= start -> start + Z.of_nat n <= c ->
  exists t', _erase_cells i start (start + Z.of_nat n) t = (Ok tt, t') /\ terminal_ok c r t' /\
    blanked (Z.to_nat (i * c + start)) n t t'.
Proof.
  intros Hok Hi Hs Hn. unfold _erase_cells. replace (start + Z.of_nat n - start) with (Z.of_nat n) by lia.
  enough (exists t', each (fun j => set_cell i j 32) (seqZ start (Z.of_nat n)) t = (Ok tt, t') /\
    terminal_ok c r t' /\ blanked (Z.to_nat (i * c + start)) n t t') as (t' & Hrun & Hok' & Hb).
  { rewrite bind_run, Hrun. by eexists. }
  revert start t Hok Hs Hn. induction n as [|n IH]; intros start t Hok Hs Hn.
  { by exists t. }
  rewrite seqZ_cons by lia. cbn [each].
  rewrite bind_run, (set_cell_run c r) by (apply Hok || lia).
  destruct (IH (Z.succ start) (cell i start 32 t)) as (t' & Hrun & Hok' & Hb);
    [by apply cell_ok|lia..|].
  replace (Z.pred (Z.of_nat (S n))) with (Z.of_nat n) by lia. exists t'. split; [done|]. split; [done|].
  change (S n) with (1 + n)%nat. eapply blanked_trans; [|by apply (cell_blanked c r); [done|lia..]|exact Hb]. nia.
Qed.

Lemma erase_rows_run c r from (n : nat) t :
  terminal_ok c r t -> 0 <= from -> from + Z.of_nat n <= r ->
  exists t', each (fun i => _erase_cells i 0 c) (seqZ from (Z.of_nat n)) t = (Ok tt, t') /\
    terminal_ok c r t' /\ blanked (Z.to_nat (from * c)) (n * Z.to_nat c) t t'.
Proof.
  revert from t. induction n as [|n IH]; intros from t Hok Hf Hn; [by exists t|].
  pose proof Hok as [(Hc & _) _]. rewrite seqZ_cons by lia. cbn [each].
  destruct (erase_cells_run c r from 0 (Z.to_nat c) t) as (t1 & Hrun & Hok1 & Hb); [done|lia..|].
  replace (0 + Z.of_nat (Z.to_nat c)) with c in Hrun by lia. rewrite bind_run, Hrun.
  destruct (IH (Z.succ from) t1) as (t' & Hrun' & Hok' & Hb'); [done|lia..|].
  replace (Z.pred (Z.of_nat (S n))) with (Z.of_nat n) by lia. exists t'.
  split; [done|]. split; [done|]. rewrite Nat.mul_succ_l, Nat.add_comm.
  rewrite Z.add_0_r in Hb. eapply blanked_trans; [|exact Hb|exact Hb']. nia.
Qed.

(** Where [_erase_display] starts and how many cells it blanks. *)
Definition erased (mode : Z) (t : TerminalBuffer) : nat * nat :=
  let size := Z.to_nat (rows t * columns t) in
  if mode =? 2 then (0, size)%nat
  else if mode =? 1 then (0, head_of t + 1)%nat
  else (head_of t, size - head_of t)%nat.

(** [ESC [ J], with its three modes, blanks exactly the cells its definition
    names (all, from the start through the cursor, or from the cursor to the
    end) in the current colours; the cursor and every other cell are untouched. *)
Theorem erase_display_exact c r mode t :
  terminal_ok c r t ->
  exists t', _erase_display mode t = (Ok tt, t') /\ terminal_ok c r t' /\
    blanked (erased mode t).1 (erased mode t).2 t t'.
Proof.
  intros Hok. pose proof Hok as [(Hc & Hr & Ec & Er & _) Hcur].
  unfold _erase_display, erased, head_of. rewrite bind_run. cbn [get]. rewrite Ec, Er.
  set (rw := row t) in *. set (cl := column t) in *.
  destruct (mode =? 2); [|destruct (mode =? 1)]; cbn [fst snd].
  - destruct (erase_rows_run c r 0 (Z.to_nat r) t) as (t' & Hrun & Hok' & Hb); [done|lia..|].
    rewrite Z2Nat.id in Hrun by lia. exists t'. split; [done|]. split; [done|].
    by replace (Z.to_nat (r * c)) with (Z.to_nat r * Z.to_nat c)%nat by nia.
  - destruct (erase_rows_run c r 0 (Z.to_nat rw) t) as (t1 & Hrun & Hok1 & Hb); [done|lia..|].
    rewrite Z2Nat.id in Hrun by lia. rewrite bind_run, Hrun.
    destruct (erase_cells_run c r rw 0 (Z.to_nat (cl + 1)) t1) as (t' & Hrun' & Hok' & Hb');
      [done|lia..|].
    replace (0 + Z.of_nat (Z.to_nat (cl + 1))) with (cl + 1) in Hrun' by lia.
    exists t'. split; [done|]. split; [done|].
    replace (Z.to_nat (rw * c + cl) + 1)%nat with (Z.to_nat rw * Z.to_nat c + Z.to_nat (cl + 1))%nat by nia.
    eapply blanked_trans; [|exact Hb|exact Hb']. nia.
  - destruct (erase_cells_run c r rw cl (Z.to_nat (c - cl)) t) as (t1 & Hrun & Hok1 & Hb);
      [done|lia..|].
    replace (cl + Z.of_nat (Z.to_nat (c - cl))) with c in Hrun by lia. rewrite bind_run, Hrun.
    destruct (erase_rows_run c r (rw + 1) (Z.to_nat (r - (rw + 1))) t1) as (t' & Hrun' & Hok' & Hb');
      [done|lia..|].
    rewrite Z2Nat.id in Hrun' by lia. exists t'. split; [done|]. split; [done|].
    replace (Z.to_nat (r * c) - Z.to_nat (rw * c + cl))%nat
      with (Z.to_nat (c - cl) + Z.to_nat (r - (rw + 1)) * Z.to_nat c)%nat by nia.
    eapply blanked_trans; [|exact Hb|exact Hb']. nia.
Qed.

(** ** Witnesses: a terminal of two lines of three cells *)
Definition sample_terminal : TerminalBuffer :=
  mkTerminal 3 2 [[32;32;32];[32;32;32]] [[7;7;7];[7;7;7]] 0 0 true 0 7 0
    false false normal [] [].

Lemma sample_terminal_ok : terminal_ok 3 2 sample_terminal.
Proof. by apply (new_terminal_ok 3 2 sample_terminal false). Qed.

(** A colour sequence, a euro sign, a line feed and text up to the scroll. *)
Definition sample_output : bytes :=
  [x1b; x5b; x33; x31; x6d; xe2; x82; xac; x0a; x61; x62].

Lemma terminal_invariant_witness :
  let t := (feed_bytes sample_output sample_terminal).2 in
  fed (fun _ => True) 3 2 t /\ terminal_ok 3 2 t /\
  (exists s, snapshot t = Ok s /\ Models.text s = [[32;97;98]; [32;32;32]]).
Proof.
  assert (H : fed (fun _ => True) 3 2 (feed_bytes sample_output sample_terminal).2)
    by (by apply fed_step, I; apply fed_start).
  split; [exact H|]. split; [apply (terminal_invariant 3 2 _ H)|].
  eexists. split; vm_compute; reflexivity.
Defined.

Lemma ascii_feed_returns_witness :
  exists t', feed_bytes [x61; x1b; x5b; x48] sample_terminal = (Ok tt, t') /\
    ([x61; x1b; x5b; x48] <> [] -> 0 < generation t').
Proof.
  apply (ascii_feed_returns 3 2 sample_terminal); [by apply fed_start|].
  by repeat constructor.
Defined.

(** The euro sign cut after its first byte. *)
Lemma feed_bytes_chunking_witness :
  exists g, feed_bytes (take 6 sample_output ++ drop 6 sample_output) sample_terminal =
    ((feed_bytes (drop 6 sample_output) (feed_bytes (take 6 sample_output) sample_terminal).2).1,
     set_generation g
       (feed_bytes (drop 6 sample_output) (feed_bytes (take 6 sample_output) sample_terminal).2).2).
Proof. apply (feed_bytes_chunking _ _ _ (Ok tt)). vm_compute. reflexivity. Defined.

Lemma superscript_parameter_raises_witness :
  exists msg t', feed_bytes ([x1b; x5b; xc2; xb2; x6d] ++ [x61]) sample_terminal =
    (Err (Exn ValueError msg), t') /\
    _chars t' = _chars sample_terminal /\ generation t' = generation sample_terminal.
Proof. apply superscript_parameter_raises; by repeat constructor. Defined.

(** Eight characters on six cells. *)
Lemma printing_wraps_and_scrolls_witness :
  terminal_ok 3 2 sample_terminal /\
  exists t', feed (py "abcdefgh") sample_terminal = (Ok tt, t') /\
    concat (_chars t') = py "defgh ".
Proof.
  split; [exact sample_terminal_ok|].
  destruct (printing_wraps_and_scrolls 3 2 sample_terminal (py "abcdefgh"))
    as (t' & H & _ & Hc & _); [exact sample_terminal_ok|reflexivity|reflexivity|].
  exists t'. split; [exact H|]. rewrite Hc. vm_compute. reflexivity.
Defined.

Lemma erase_display_exact_witness :
  let t := (feed (py "abcd") sample_terminal).2 in
  exists t', _erase_display 1 t = (Ok tt, t') /\ blanked 0 5 t t'.
Proof.
  assert (Hok : terminal_ok 3 2 (feed (py "abcd") sample_terminal).2).
  { apply (feed_safe 3 2 false); [|done]. split; [exact sample_terminal_ok|done]. }
  destruct (erase_display_exact 3 2 1 _ Hok) as (t' & H & _ & Hb).
  exists t'. split; [exact H|exact Hb].
Defined.
