(* ===== verification/AgentServer.v ===== *)
(** * The agent protocol server ([agent_server.py])

    The object that answers datagrams for one backend: session set-up, request
    reassembly, the replay window and the response cache, the dispatch of every
    operation, and the file and graphics transfers.  The nonce factory,
    [secrets.randbelow] and what [socket.sendto] raises, if it does, are inputs of
    each datagram's handling; what is sent is appended to [sent]. *)
From Stdlib Require Import Floats.SpecFloat.
From S2P Require Import Prelude Dict Struct Crc PyText Crypto Constants Packet Messages Errors.
From S2P Require Import State Backend.
From S2P Require Models.

Definition _UNAUTHENTICATED_FIELDS : list field := Eval vm_compute in Struct "<2sBBBBHH".

Abbreviation Address := (pystr * Z)%type.

(** ** State *)
Record _Session := mkSession {
  address : Address;
  session_id : Z;
  session_key : bytes;
  last_request_id : option Z;
  response_cache : list (Z * list bytes);
  pending : list (Z * list (Z * Packet)) }.

Inductive transfer_kind := file_read | file_write | graphics.

#[export] Instance transfer_kind_eq_dec : EqDecision transfer_kind.
Proof. solve_decision. Defined.

Record _Transfer := mkTransfer {
  transfer_id : Z;
  kind : transfer_kind;
  data : bytes;
  offset : Z;
  crc32 : Z;
  path : pystr;
  expected_size : Z;
  expected_crc32 : Z;
  overwrite : bool }.

(** What the outside answers while one datagram is handled: the random sources, and
    the exception with which the socket refuses a datagram, if it does, after as many
    have been sent. *)
Record entropy := mkEntropy {
  nonce_factory : Z;
  randbelow_0xFFFF : Z;
  send_error : nat -> Address -> bytes -> option exn }.

(** What a wait in [recvfrom] ends with: a datagram, or an exception (the socket's
    timeout, or its failure), [meanwhile] telling whether another thread closed the
    server during the wait. *)
Inductive wakeup :=
| Received (ent : entropy) (datagram : bytes) (from : Address)
| Raised (e : exn) (meanwhile : bool).

Record UdpAgentServer (B : Type) := mkServer {
  backend : B;
  key : bytes;
  session : option _Session;
  drop_first_response : bool;
  dropped_response : bool;
  transfer : option _Transfer;
  closed : bool;
  sent : list (Address * bytes) }.
Arguments mkServer {B}.
Arguments backend {B}.
Arguments key {B}.
Arguments session {B}.
Arguments drop_first_response {B}.
Arguments dropped_response {B}.
Arguments transfer {B}.
Arguments closed {B}.
Arguments sent {B}.

(** [UdpAgentServer.__init__] *)
Definition new_server {B} (b : B) (k : bytes) (drop : bool) : result (UdpAgentServer B) :=
  raise_if (negb (len k =? 16)) ValueError (py "agent key must be 16 bytes");;
  Ok (mkServer b k None drop false None false []).

(** ** Pure helpers *)
Definition _request_is_newer (candidate previous : Z) : bool :=
  let distance := Z.land (candidate - previous) 0xFFFF in
  (0 <? distance) && (distance <? 0x8000).

Definition _require_empty (payload : bytes) : result unit :=
  raise_if (negb (bool_decide (payload = []))) ValueError (py "operation takes no payload").

(** [table.get(name)] on a dict display with string keys. *)
Definition table_get {A} (name : pystr) (table : list (pystr * A)) : option A :=
  snd <$> List.find (fun kv => bool_decide (kv.1 = name)) table.

(** [int(status.uptime_seconds * 18.2)]: a binary64 product, truncated. *)
Definition float_18_2 : spec_float := S754_finite false 5122844576133939 (-48).

Definition int_of_float (f : spec_float) : result Z :=
  match f with
  | S754_zero _ => Ok 0
  | S754_infinity _ => raise OverflowError (py "cannot convert float infinity to integer")
  | S754_nan => raise ValueError (py "cannot convert float NaN to integer")
  | S754_finite s m e =>
      let magnitude := if 0 <=? e then Zpos m * 2 ^ e else Zpos m / 2 ^ (- e) in
      Ok (if s then - magnitude else magnitude)
  end.

Definition _status_message (status : Models.MachineStatus) : result StatusMessage.t :=
  let phase := default Phase.OBSERVE_READY (table_get (Models.phase status)
    [(py "starting", Phase.STARTING);
     (py "observe_ready", Phase.OBSERVE_READY);
     (py "agent_shell_ready", Phase.AGENT_SHELL_READY);
     (py "child_running", Phase.CHILD_RUNNING);
     (py "dos_busy", Phase.DOS_BUSY);
     (py "awaiting_approval", Phase.AWAITING_APPROVAL);
     (py "host_unresponsive", Phase.HOST_UNRESPONSIVE)]) in
  ticks ← int_of_float (SFmul 53 1024 (Models.uptime_seconds status) float_18_2);
  Ok (StatusMessage.mk 0 1 0 0 0xFF phase 640 (Z.land ticks 0xFFFFFFFF)).

Definition _capabilities_message (c : Models.Capabilities) : CapabilitiesMessage.t :=
  let mapping :=
    [(Models.status c, Capability.STATUS);
     (Models.text_capture c, Capability.TEXT_CAPTURE);
     (Models.filesystem_read c, Capability.FILESYSTEM_READ);
     (Models.filesystem_write c, Capability.FILESYSTEM_WRITE);
     (Models.command_execution c, Capability.EXECUTION);
     (Models.memory_read c, Capability.MEMORY_READ);
     (Models.memory_write c, Capability.MEMORY_WRITE);
     (Models.port_read c, Capability.PORT_READ);
     (Models.port_write c, Capability.PORT_WRITE);
     (Models.reboot c, Capability.REBOOT)] in
  let flags := foldl (fun flags nf => if nf.1 : bool then Z.lor flags nf.2 else flags) 0 mapping in
  let flags := match Models.keyboard_injection c with
    | Some (_ :: _) => Z.lor flags Capability.KEYBOARD
    | _ => flags
    end in
  let flags := match Models.graphics_capture c with
    | [] => flags
    | _ :: _ => Z.lor flags Capability.GRAPHICS_CAPTURE
    end in
  let adapter := if bool_decide (Models.cap_backend c = py "linux-terminal")
    then Adapter.LINUX_PTY else Adapter.UNKNOWN in
  CapabilitiesMessage.mk flags (Models.screen_columns c) (Models.screen_rows c) adapter 1024
    (Models.max_keys_per_request c).

(** [zip(l, k, strict=True)] *)
Fixpoint zip_strict {A B} (l : list A) (k : list B) : result (list (A * B)) :=
  match l, k with
  | [], [] => Ok []
  | x :: l, y :: k => r ← zip_strict l k; Ok ((x, y) :: r)
  | [], _ :: _ => raise ValueError (py "zip() argument 2 is longer than argument 1")
  | _ :: _, [] => raise ValueError (py "zip() argument 2 is shorter than argument 1")
  end.

(** [cells.extend((character, attribute))] *)
Definition cell_bytes (ca : byte * Z) : result bytes :=
  raise_if (negb ((0 <=? ca.2) && (ca.2 <? 256))) ValueError
    (py "byte must be in range(0, 256)");;
  Ok [ca.1; z2b ca.2].

Definition screen_cells (screen : Models.TextScreen) : result bytes :=
  rows ← zip_strict (Models.text screen) (Models.attributes screen);
  cells ← map_result (fun ra =>
    pairs ← zip_strict (cp437_encode_replace ra.1) ra.2;
    cells ← map_result cell_bytes pairs;
    Ok (concat cells)) rows;
  Ok (concat cells).

Definition _screen_message (screen : Models.TextScreen) : result ScreenMessage.t :=
  cells ← screen_cells screen;
  let adapter := default Adapter.UNKNOWN (table_get (Models.screen_adapter screen)
    [(py "MDA", Adapter.MDA);
     (py "CGA", Adapter.CGA);
     (py "EGA", Adapter.EGA);
     (py "VGA", Adapter.VGA);
     (py "linux-pty", Adapter.LINUX_PTY)]) in
  let cursor := Models.cursor screen in
  Ok (ScreenMessage.mk (Models.columns screen) (Models.rows screen)
    (default 0xFF (Models.screen_video_mode screen)) (Models.active_page screen)
    (Models.cursor_row cursor) (Models.cursor_column cursor)
    (default 0 (Models.start_scanline cursor)) (default 0 (Models.end_scanline cursor))
    adapter 437 (Z.land (Models.generation screen) 0xFFFF) cells).

Definition _graphics_begin_message (g : Models.GraphicsScreen) (id : Z) :
    result GraphicsBeginResponse.t :=
  let adapter := default Adapter.UNKNOWN (table_get (Models.adapter g)
    [(py "MDA", Adapter.MDA);
     (py "CGA", Adapter.CGA);
     (py "EGA", Adapter.EGA);
     (py "VGA", Adapter.VGA)]) in
  layout ← match table_get (Models.layout g)
    [(py "cga-2bpp-interleaved", GraphicsLayout.CGA_2BPP_INTERLEAVED);
     (py "cga-1bpp-interleaved", GraphicsLayout.CGA_1BPP_INTERLEAVED);
     (py "hercules-1bpp-interleaved", GraphicsLayout.HERCULES_1BPP_INTERLEAVED);
     (py "planar-4bpp", GraphicsLayout.PLANAR_4BPP);
     (py "planar-1bpp", GraphicsLayout.PLANAR_1BPP);
     (py "packed-8bpp", GraphicsLayout.PACKED_8BPP)] with
  | Some layout => Ok layout
  | None => raise KeyError (Models.layout g)
  end;
  Ok (GraphicsBeginResponse.mk id adapter (Models.video_mode g) layout (Models.planes g)
    (Models.width g) (Models.height g) (len (Models.data g)) (Models.bytes_per_plane g)).

(** ** Field updates *)
Section Updates.
Context {B : Type}.
Implicit Types (s : UdpAgentServer B).

Definition set_backend (b : B) s : UdpAgentServer B :=
  mkServer b (key s) (session s) (drop_first_response s) (dropped_response s) (transfer s)
    (closed s) (sent s).
Definition set_session (x : option _Session) s : UdpAgentServer B :=
  mkServer (backend s) (key s) x (drop_first_response s) (dropped_response s) (transfer s)
    (closed s) (sent s).
Definition set_dropped s : UdpAgentServer B :=
  mkServer (backend s) (key s) (session s) (drop_first_response s) true (transfer s)
    (closed s) (sent s).
Definition set_transfer (t : option _Transfer) s : UdpAgentServer B :=
  mkServer (backend s) (key s) (session s) (drop_first_response s) (dropped_response s) t
    (closed s) (sent s).
Definition add_sent (to : Address) (d : bytes) s : UdpAgentServer B :=
  mkServer (backend s) (key s) (session s) (drop_first_response s) (dropped_response s)
    (transfer s) (closed s) (sent s ++ [(to, d)]).
Definition set_closed s : UdpAgentServer B :=
  mkServer (backend s) (key s) (session s) (drop_first_response s) (dropped_response s)
    (transfer s) true (sent s).
End Updates.

Definition set_pending (p : dict (dict Packet)) (s : _Session) : _Session :=
  mkSession (address s) (session_id s) (session_key s) (last_request_id s) (response_cache s) p.
Definition set_answered (id : Z) (cache : dict (list bytes)) (s : _Session) : _Session :=
  mkSession (address s) (session_id s) (session_key s) (Some id) cache (pending s).

(** [while len(cache) > 4: cache.pop(next(iter(cache)))] *)
Fixpoint evict (cache : dict (list bytes)) : dict (list bytes) :=
  match cache with
  | [] => []
  | _ :: rest => if 4 <? len cache then evict rest else cache
  end.

(** The session id the server assigns: never zero. *)
Definition hello_id (client_nonce server_nonce : Z) : Z :=
  let session_id := Z.land (Z.lxor server_nonce client_nonce) 0xFFFF in
  if session_id =? 0 then 1 else session_id.

(** [if id not in pending and len(pending) >= 4: pending.pop(oldest)] *)
Definition make_room (id : Z) (table : dict (dict Packet)) : dict (dict Packet) :=
  if negb (dict_mem id table) && (4 <=? len table) then dict_pop_first table else table.

(** ** The object's methods *)
Section Agent.
Context {B : Type} `{Backend B}.
Local Abbreviation M := (stateful (UdpAgentServer B)).

Definition on_backend {A} (m : stateful B A) : M A := fun s =>
  let '(r, b) := m (backend s) in (r, set_backend b s).

(** [self._socket.sendto]: the datagram goes out, or the call raises. *)
Definition sendto (ent : entropy) (to : Address) (d : bytes) : M unit := fun s =>
  match send_error ent (length (sent s)) to d with
  | Some e => (Err e, s)
  | None => (Ok tt, add_sent to d s)
  end.

(** [except PacketError: return]: [None] when that clause is taken. *)
Definition unless_packet_error {A} (r : result A) : M (option A) :=
  match r with
  | Ok a => mret (Some a)
  | Err e => if bool_decide (exn_cls e = PacketError) then mret None else fail e
  end.

Definition _send_response (ent : entropy) (session : _Session) (opcode : Opcode.t) (request_id : Z)
    (payload : bytes) (kind : MessageKind.t) : M unit :=
  packets ← lift (fragment_message kind opcode (session_id session) request_id payload 0);
  encoded ← lift (map_result (fun p => encode p (session_key session)) packets);
  modify (set_session (Some (set_answered request_id
    (evict (dict_set request_id encoded (response_cache session))) session)));;
  drop ← gets (fun s => drop_first_response s && negb (dropped_response s));
  if drop : bool then modify set_dropped
  else each (sendto ent (address session)) encoded.

Definition _send_cached (ent : entropy) (session : _Session) (encoded : list bytes) : M unit :=
  each (sendto ent (address session)) encoded.

Definition _send_error (ent : entropy) (session : _Session) (opcode : Opcode.t)
    (request_id : Z) (code : ErrorCode.t) (message : pystr) : M unit :=
  payload ← lift (encode_error code message);
  _send_response ent session opcode request_id payload MessageKind.ERROR.

(** *** Transfers *)
Definition _start_transfer (ent : entropy) (kind : transfer_kind) (data : bytes) : M _Transfer :=
  active ← gets transfer;
  match active with
  | Some _ => fail (Exn RuntimeError (py "another transfer is active"))
  | None =>
      let id := if randbelow_0xFFFF ent =? 0 then 1 else randbelow_0xFFFF ent in
      let t := mkTransfer id kind data 0 0 [] 0 0 false in
      modify (set_transfer (Some t));;
      mret t
  end.

Definition _require_transfer (id : Z) (k : transfer_kind) : M _Transfer :=
  active ← gets transfer;
  match active with
  | Some t =>
      if negb (transfer_id t =? id) || negb (bool_decide (kind t = k))
      then fail (Exn ValueError (py "unknown transfer")) else mret t
  | None => fail (Exn ValueError (py "unknown transfer"))
  end.

(** The transfer after [block] has been read or written. *)
Definition advance (data' block : bytes) (t : _Transfer) : _Transfer :=
  mkTransfer (transfer_id t) (kind t) data' (offset t + len block)
    (crc32_from (crc32 t) block) (path t) (expected_size t) (expected_crc32 t) (overwrite t).

Definition _read_transfer_block (request : TransferBlockRequest.t) (k : transfer_kind) : M bytes :=
  t ← _require_transfer (TransferBlockRequest.transfer_id request) k;
  lift (raise_if (negb (TransferBlockRequest.offset request =? offset t)) ValueError
    (py "non-sequential transfer offset"));;
  let block := slice (data t) (offset t) (offset t + TransferBlockRequest.length request) in
  let t' := advance (data t) block t in
  modify (set_transfer (Some t'));;
  lift (TransferBlockResponse.encode
    (TransferBlockResponse.mk (transfer_id t) (TransferBlockRequest.offset request) block
      (crc32 t'))).

Definition _end_read_transfer (request : TransferEndRequest.t) (k : transfer_kind) : M bytes :=
  t ← _require_transfer (TransferEndRequest.transfer_id request) k;
  lift (raise_if (negb (offset t =? len (data t))) ValueError (py "transfer is incomplete"));;
  response ← lift (TransferEndResponse.encode (TransferEndResponse.mk (offset t) (crc32 t)));
  modify (set_transfer None);;
  mret response.

Definition _write_transfer_block (request : TransferBlockRequest.t) : M bytes :=
  t ← _require_transfer (TransferBlockRequest.transfer_id request) file_write;
  lift (raise_if (negb (TransferBlockRequest.offset request =? offset t) ||
                  (expected_size t <? offset t + len (TransferBlockRequest.data request)))
    ValueError (py "invalid upload offset or length"));;
  let block := TransferBlockRequest.data request in
  let t' := advance (data t ++ block) block t in
  modify (set_transfer (Some t'));;
  lift (TransferBlockResponse.encode
    (TransferBlockResponse.mk (transfer_id t) (TransferBlockRequest.offset request) []
      (crc32 t'))).

Definition _commit_write_transfer (request : TransferEndRequest.t) : M bytes :=
  t ← _require_transfer (TransferEndRequest.transfer_id request) file_write;
  lift (raise_if (negb (offset t =? expected_size t) || negb (crc32 t =? expected_crc32 t))
    ValueError (py "upload size or checksum mismatch"));;
  receipt ← on_backend (upload_file (path t) (data t) (overwrite t));
  response ← lift (TransferEndResponse.encode
    (TransferEndResponse.mk (Models.receipt_size receipt) (Models.receipt_crc32 receipt)));
  modify (set_transfer None);;
  mret response.

(** *** Dispatch

    The [try] body of [_dispatch]: the response payload, or [None] where it has
    sent the error itself and returned. *)
Definition operation (ent : entropy) (session : _Session) (opcode : Opcode.t)
    (request_id : Z) (payload : bytes) : M (option bytes) :=
  match opcode with
  | Opcode.GET_STATUS =>
      lift (_require_empty payload);;
      status ← on_backend get_status;
      lift (m ← _status_message status; Some <$> StatusMessage.encode m)
  | Opcode.GET_CAPABILITIES =>
      lift (_require_empty payload);;
      c ← on_backend get_capabilities;
      lift (Some <$> CapabilitiesMessage.encode (_capabilities_message c))
  | Opcode.CAPTURE_TEXT_SCREEN =>
      lift (_require_empty payload);;
      screen ← on_backend capture_screen;
      lift (m ← _screen_message screen; Some <$> ScreenMessage.encode m)
  | Opcode.SEND_KEYS =>
      request ← lift (KeyRequest.decode payload);
      receipt ← on_backend (send_keys (cp437_decode (KeyRequest.text request))
        ((fun k => py (KeyCode.name k)) <$> KeyRequest.keys request)
        (KeyRequest.inter_key_delay_ms request) 100);
      lift (Some <$> KeyResponse.encode (KeyResponse.mk (Models.accepted_text_bytes receipt)
        (Models.accepted_keys receipt) (Z.land (Models.screen_generation receipt) 0xFFFF)))
  | Opcode.PING => mret (Some payload)
  | Opcode.FILE_READ_BEGIN =>
      request ← lift (FileReadBeginRequest.decode payload);
      contents ← on_backend (download_file (cp437_decode (FileReadBeginRequest.path request)));
      t ← _start_transfer ent file_read (Models.contents_data contents);
      lift (Some <$> TransferBeginResponse.encode
        (TransferBeginResponse.mk (transfer_id t) (len (data t))))
  | Opcode.FILE_READ_BLOCK =>
      request ← lift (TransferBlockRequest.decode false payload);
      Some <$> _read_transfer_block request file_read
  | Opcode.FILE_READ_END =>
      request ← lift (TransferEndRequest.decode payload);
      Some <$> _end_read_transfer request file_read
  | Opcode.FILE_WRITE_BEGIN =>
      request ← lift (FileWriteBeginRequest.decode payload);
      lift (raise_if (1048576 <? FileWriteBeginRequest.total_size request) ValueError
        (py "upload exceeds simulator size limit"));;
      t ← _start_transfer ent file_write [];
      modify (set_transfer (Some (mkTransfer (transfer_id t) (kind t) (data t) (offset t)
        (crc32 t) (cp437_decode (FileWriteBeginRequest.path request))
        (FileWriteBeginRequest.total_size request) (FileWriteBeginRequest.crc32 request)
        (FileWriteBeginRequest.overwrite request))));;
      lift (Some <$> TransferBeginResponse.encode
        (TransferBeginResponse.mk (transfer_id t) (FileWriteBeginRequest.total_size request)))
  | Opcode.FILE_WRITE_BLOCK =>
      request ← lift (TransferBlockRequest.decode true payload);
      Some <$> _write_transfer_block request
  | Opcode.FILE_WRITE_COMMIT =>
      request ← lift (TransferEndRequest.decode payload);
      Some <$> _commit_write_transfer request
  | Opcode.FILE_ABORT =>
      request ← lift (TransferEndRequest.decode payload);
      modify (fun s =>
        match transfer s with
        | Some t => if transfer_id t =? TransferEndRequest.transfer_id request
                    then set_transfer None s else s
        | None => s
        end);;
      mret (Some [])
  | Opcode.GRAPHICS_BEGIN =>
      lift (_require_empty payload);;
      g ← on_backend capture_graphics;
      t ← _start_transfer ent graphics (Models.data g);
      lift (m ← _graphics_begin_message g (transfer_id t); Some <$> GraphicsBeginResponse.encode m)
  | Opcode.GRAPHICS_BLOCK =>
      request ← lift (TransferBlockRequest.decode false payload);
      Some <$> _read_transfer_block request graphics
  | Opcode.GRAPHICS_END =>
      request ← lift (TransferEndRequest.decode payload);
      Some <$> _end_read_transfer request graphics
  | Opcode.HELLO | Opcode.CANCEL | Opcode.GET_DIAGNOSTICS =>
      _send_error ent session opcode request_id ErrorCode.UNSUPPORTED_OPERATION
        (py "operation is not implemented");;
      mret None
  end.

Definition _dispatch (ent : entropy) (session : _Session) (opcode : Opcode.t)
    (request_id : Z) (payload : bytes) : M unit :=
  response ← catch (operation ent session opcode request_id payload) (fun e =>
    (if is_value_error (exn_cls e)
     then _send_error ent session opcode request_id ErrorCode.INVALID_ARGUMENT (exn_msg e)
     else _send_error ent session opcode request_id ErrorCode.INTERNAL_FAILURE
            (py "target operation failed"));;
    mret None);
  match response with
  | Some payload => _send_response ent session opcode request_id payload MessageKind.RESPONSE
  | None => mret tt
  end.

(** *** Datagrams *)
Definition _handle_hello (ent : entropy) (datagram : bytes) (from : Address) : M unit :=
  k ← gets key;
  match (packet ← decode datagram k;
         request ← HelloRequest.decode (Packet.payload packet);
         Ok (packet, request)) with
  | Err e => if is_value_error (exn_cls e) then mret tt else fail e
  | Ok (packet, request) =>
      let client_nonce := HelloRequest.client_nonce request in
      let server_nonce := Z.land (nonce_factory ent) 0xFFFFFFFF in
      let id := hello_id client_nonce server_nonce in
      payload ← lift (HelloResponse.encode
        (HelloResponse.mk client_nonce server_nonce id MAX_FRAGMENT_PAYLOAD));
      response ← lift (new_packet (mkPacket MessageKind.RESPONSE Opcode.HELLO id
        (Packet.request_id packet) 0 1 payload 0));
      d ← lift (encode response k);
      sendto ent from d;;
      session_key ← lift (derive_session_key k client_nonce server_nonce);
      modify (set_session (Some (mkSession from id session_key None [] [])));;
      modify (set_transfer None)
  end.

(** An authenticated request packet: the cache, the replay window, reassembly. *)
Definition handle_request (ent : entropy) (session : _Session) (packet : Packet) : M unit :=
  let id := Packet.request_id packet in
  match dict_get id (response_cache session) with
  | Some encoded => _send_cached ent session encoded
  | None =>
      if match last_request_id session with
         | Some last => negb (_request_is_newer id last)
         | None => false
         end
      then _send_error ent session (Packet.opcode packet) id ErrorCode.REPLAYED_REQUEST
             (py "request ID is outside the replay window")
      else
        let table := make_room id (pending session) in
        let fragments := dict_set (Packet.fragment_index packet) packet
                           (default [] (dict_get id table)) in
        let table := dict_set id fragments table in
        modify (set_session (Some (set_pending table session)));;
        if negb (len fragments =? Packet.fragment_count packet) then mret tt else
        payload ← unless_packet_error (reassemble_packets (dict_values fragments));
        let session := set_pending (dict_pop id table) session in
        modify (set_session (Some session));;
        match payload with
        | None => mret tt
        | Some payload => _dispatch ent session (Packet.opcode packet) id payload
        end
  end.

Definition handle_datagram (ent : entropy) (datagram : bytes) (from : Address) : M unit :=
  if (MAX_DATAGRAM <? len datagram) || (len datagram <? Z.of_nat HEADER_SIZE) then mret tt else
  match unpack_from _UNAUTHENTICATED_FIELDS datagram 0 with
  | Err _ => mret tt
  | Ok ⟨_, _, raw_kind, raw_opcode, _, id, _⟩ =>
      if negb (raw_kind =? int_of MessageKind.REQUEST) then mret tt else
      if (raw_opcode =? int_of Opcode.HELLO) && (id =? 0)
      then _handle_hello ent datagram from
      else
        current ← gets session;
        match current with
        | None => mret tt
        | Some session =>
            if negb (bool_decide (address session = from)) || negb (session_id session =? id)
            then mret tt
            else
              packet ← unless_packet_error (decode datagram (session_key session));
              match packet with
              | None => mret tt
              | Some packet => handle_request ent session packet
              end
        end
  end.

(** [close]: the socket, then the backend. *)
Definition close_server : M unit :=
  done ← gets closed;
  if done : bool then mret tt else
  modify set_closed;;
  on_backend close.

(** What another thread's call does: its exception is that thread's. *)
Definition other_thread (m : M unit) : M unit := fun s => (Ok tt, (m s).2).

(** [serve_forever] with the exceptions of [recvfrom]; [stop] is set after the last
    wait.  Another thread's [close] raises in that thread. *)
Fixpoint serve_forever (waits : list wakeup) : M unit :=
  match waits with
  | [] => mret tt
  | wait :: waits =>
      done ← gets closed;
      if done : bool then mret tt else
      match wait with
      | Received ent datagram from => handle_datagram ent datagram from;; serve_forever waits
      | Raised e meanwhile =>
          (if meanwhile : bool then other_thread close_server else mret tt);;
          if bool_decide (exn_cls e = TimeoutError) then serve_forever waits
          else
            done ← gets closed;
            if is_os_error (exn_cls e) && done then mret tt else fail e
      end
  end.

(** Serving datagrams only. *)
Definition serve (events : list (entropy * bytes * Address)) : M unit :=
  serve_forever ((fun '(ent, datagram, from) => Received ent datagram from) <$> events).
End Agent.
