(* ===== verification/AgentInvariant.v ===== *)
(** * The agent's invariant

    [server_ok] is what holds of the agent object between datagrams, whatever
    arrives and whatever the backend does: keys of 16 bytes, bounded response
    cache and reassembly tables holding authenticated packets of their request,
    a transfer whose checksum is that of the bytes moved so far, and only
    datagrams within the transport limit sent. *)
From S2P Require Import Prelude Dict Struct Crc Crypto Constants Packet Messages Errors.
From S2P Require Import State Backend MemoryBackend AgentServer.
From S2P Require Models.

Definition uint16 (z : Z) : Prop := 0 <= z < 65536.

Definition datagram_ok (d : bytes) : Prop := len d <= 1044.

(** The fragments collected for request [id]: one authenticated packet of that
    request per index. *)
Definition fragments_ok (id : Z) (fs : dict Packet) : Prop :=
  dict_ok fs /\
  Forall (fun ip => valid_packet ip.2 /\ request_id ip.2 = id /\ fragment_index ip.2 = ip.1) fs.

Record session_ok (s : _Session) : Prop := {
  session_key_length : length (session_key s) = 16%nat;
  session_id_range : 0 < AgentServer.session_id s < 65536;
  session_last_range : forall id, last_request_id s = Some id -> uint16 id;
  session_cache_ok : dict_ok (response_cache s);
  session_cache_size : len (response_cache s) <= 4;
  session_cache_datagrams : Forall (fun kv => Forall datagram_ok kv.2) (response_cache s);
  session_pending_ok : dict_ok (pending s);
  session_pending_size : len (pending s) <= 4;
  session_pending_fragments : Forall (fun kv => fragments_ok kv.1 kv.2) (pending s) }.

(** A transfer's checksum is the CRC-32 of the bytes before its offset; an
    upload holds exactly the bytes received. *)
Record transfer_ok (t : _Transfer) : Prop := {
  transfer_id_range : 0 < transfer_id t < 65535;
  transfer_offset_range : 0 <= offset t <= len (data t);
  transfer_crc : crc32 t = crc32_from 0 (take (Z.to_nat (offset t)) (data t));
  transfer_upload : AgentServer.kind t = file_write ->
    offset t = len (data t) /\ offset t <= expected_size t <= 1048576 }.

Record server_ok {B} (s : UdpAgentServer B) : Prop := {
  server_key_length : length (key s) = 16%nat;
  server_session_ok : forall x, session s = Some x -> session_ok x;
  server_transfer_ok : forall t, transfer s = Some t -> transfer_ok t;
  server_sent_ok : Forall (fun ad => datagram_ok ad.2) (sent s) }.

(** ** The tables *)
Lemma len_nil {A} : len (@nil A) = 0.
Proof. done. Qed.

Lemma evict_incl cache kv : kv ∈ evict cache -> kv ∈ cache.
Proof.
  induction cache as [|x cache IH]; cbn [evict]; [done|].
  destruct (4 <? _); [|done]. intros Hin. right. by apply IH.
Qed.

Lemma evict_ok cache : dict_ok cache -> dict_ok (evict cache).
Proof.
  unfold dict_ok, dict_keys. induction cache as [|x cache IH]; cbn [evict]; [done|].
  destruct (4 <? _); [|done]. intros Hd. apply IH. csimpl in Hd. by apply NoDup_cons in Hd as [_ Hd].
Qed.

Lemma evict_size cache : len (evict cache) <= 4.
Proof.
  induction cache as [|x cache IH]; cbn [evict]; [unfold len; simpl; lia|].
  destruct (Z.ltb_spec 4 (len (x :: cache))); [done|lia].
Qed.

Lemma dict_set_elem {V} k (v : V) d kv : kv ∈ dict_set k v d -> kv = (k, v) \/ kv ∈ d.
Proof.
  induction d as [|[k' v'] d IH]; cbn [dict_set].
  - intros ->%list_elem_of_singleton. by left.
  - destruct (k' =? k); rewrite !elem_of_cons; naive_solver.
Qed.

Lemma dict_set_Forall {V} (P : Z * V -> Prop) k v d :
  P (k, v) -> Forall P d -> Forall P (dict_set k v d).
Proof.
  rewrite !Forall_forall. intros Hp Hd kv [->|Hin]%dict_set_elem; [done|by apply Hd].
Qed.

Lemma dict_pop_Forall {V} (P : Z * V -> Prop) k d : Forall P d -> Forall P (dict_pop k d).
Proof.
  rewrite !Forall_forall. intros Hd kv. unfold dict_pop. rewrite list_elem_of_filter. naive_solver.
Qed.

Lemma len_dict_pop {V} k (d : dict V) : len (dict_pop k d) <= len d.
Proof. unfold len, dict_pop. pose proof (length_filter (fun p : Z * V => p.1 <> k) d). lia. Qed.

Lemma len_dict_set {V} k (v : V) d :
  len (dict_set k v d) = if dict_mem k d then len d else len d + 1.
Proof.
  unfold dict_mem. induction d as [|[k' v'] d IH]; cbn [dict_set dict_get]; [done|].
  destruct (k' =? k); unfold len in *; cbn [length]; [lia|].
  destruct (dict_get k d); lia.
Qed.

Lemma dict_get_Forall {V} (P : Z * V -> Prop) k v d :
  dict_ok d -> Forall P d -> dict_get k d = Some v -> P (k, v).
Proof. intros Hd HP Hg%dict_get_elem; [|done]. by eapply (proj1 (Forall_forall P d)). Qed.

(** Making room for a request leaves at most four. *)
Lemma make_room_ok id table :
  dict_ok table -> len table <= 4 -> Forall (fun kv => fragments_ok kv.1 kv.2) table ->
  dict_ok (make_room id table) /\ Forall (fun kv => fragments_ok kv.1 kv.2) (make_room id table) /\
  (forall v, len (dict_set id v (make_room id table)) <= 4).
Proof.
  intros Hd Hl Hf. unfold make_room. destruct (dict_mem id table) eqn:Em; cbn [negb andb].
  { split_and!; [done|done|]. intros v. rewrite len_dict_set, Em. lia. }
  destruct (Z.leb_spec 4 (len table)).
  - split_and!; [by apply dict_pop_first_ok| |].
    + destruct table; [done|]. by apply Forall_cons in Hf as [_ Hf].
    + intros v. rewrite len_dict_set. assert (len (dict_pop_first table) <= 3); [|case_match; lia].
      destruct table; unfold len, dict_pop_first in *; cbn [List.tl length] in *; lia.
  - split_and!; [done|done|]. intros v. rewrite len_dict_set, Em. lia.
Qed.

Lemma fragments_ok_nil id : fragments_ok id [].
Proof. split; [apply NoDup_nil_2|constructor]. Qed.

Lemma fragments_ok_set id p fs :
  valid_packet p -> request_id p = id -> fragments_ok id fs ->
  fragments_ok id (dict_set (fragment_index p) p fs).
Proof. intros Hp Hi [Hd Hf]. split; [by apply dict_set_ok|]. by apply dict_set_Forall. Qed.

Lemma fragments_ok_valid id fs : fragments_ok id fs -> Forall valid_packet (dict_values fs).
Proof. intros [_ Hf]. apply Forall_fmap. by eapply Forall_impl; [exact Hf|]; intros ? []. Qed.

(** ** Sessions *)
Lemma session_answered_ok s id encoded :
  session_ok s -> uint16 id -> Forall datagram_ok encoded ->
  session_ok (set_answered id (evict (dict_set id encoded (response_cache s))) s).
Proof.
  intros Hs Hid He. destruct Hs. split; cbn [set_answered session_key AgentServer.session_id
    last_request_id response_cache pending]; try done.
  - by intros ? [= <-].
  - by apply evict_ok, dict_set_ok.
  - apply evict_size.
  - apply Forall_forall. intros kv Hin%evict_incl.
    by eapply (proj1 (Forall_forall _ _) (dict_set_Forall _ _ _ _ He session_cache_datagrams0)).
Qed.

Lemma session_pending_set_ok s table :
  session_ok s -> dict_ok table -> len table <= 4 ->
  Forall (fun kv => fragments_ok kv.1 kv.2) table -> session_ok (set_pending table s).
Proof. intros [] ? ? ?. by split. Qed.

(** ** Transfers *)
Lemma transfer_ok_start id k d p size crc o :
  0 < id < 65535 -> (k = file_write -> d = [] /\ 0 <= size <= 1048576) ->
  transfer_ok (mkTransfer id k d 0 0 p size crc o).
Proof.
  intros Hid Hk. split; cbn [transfer_id offset data AgentServer.crc32 AgentServer.kind expected_size]; [done|..].
  - pose proof (len_nonneg d). lia.
  - by rewrite crc32_from_nil.
  - intros [-> ?]%Hk. done.
Qed.

Lemma take_slice {A} (l : list A) (a b : Z) :
  0 <= a <= b -> take (Z.to_nat a) l ++ slice l a b = take (Z.to_nat b) l.
Proof.
  intros. unfold slice. rewrite <- (take_drop (Z.to_nat a) (take (Z.to_nat b) l)) at 1.
  rewrite take_take, Nat.min_l by lia. f_equal. by rewrite skipn_firstn_comm.
Qed.

Lemma len_slice {A} (l : list A) a b : 0 <= a <= b -> b <= len l -> len (slice l a b) = b - a.
Proof. unfold slice, len. rewrite length_take, length_drop. lia. Qed.

(** ** The operations keep the invariant *)
Section Preserved.
Context {B : Type} `{Backend B}.

Local Abbreviation keeps_ok := (preserves (server_ok (B:=B))).

Lemma server_ok_update (s s' : UdpAgentServer B) :
  server_ok s -> key s' = key s ->
  (session s' = session s \/ forall x, session s' = Some x -> session_ok x) ->
  (transfer s' = transfer s \/ forall t, transfer s' = Some t -> transfer_ok t) ->
  (exists ds, sent s' = sent s ++ ds /\ Forall (fun ad => datagram_ok ad.2) ds) ->
  server_ok s'.
Proof.
  intros [Hk Hs Ht Hd] Ek Es Et (ds & Ed & Hds). split.
  - by rewrite Ek.
  - destruct Es as [-> | ?]; auto.
  - destruct Et as [-> | ?]; auto.
  - rewrite Ed. by apply Forall_app.
Qed.

Ltac same_sent := exists []; rewrite app_nil_r; split; [done|constructor].

Lemma ok_on_backend {A} (m : stateful B A) : keeps_ok (on_backend m).
Proof.
  intros s Hs. unfold on_backend. destruct (m (backend s)) as [r b]. cbn [snd].
  apply (server_ok_update s); auto. same_sent.
Qed.

Lemma ok_set_session x : session_ok x -> keeps_ok (modify (set_session (Some x))).
Proof.
  intros Hx s Hs. apply (server_ok_update s); auto; [|same_sent]. right. by intros ? [= <-].
Qed.

Lemma ok_set_transfer t :
  (forall t', t = Some t' -> transfer_ok t') -> keeps_ok (modify (set_transfer t)).
Proof. intros Ht s Hs. apply (server_ok_update s); auto. same_sent. Qed.

Lemma ok_add_sent to d s : datagram_ok d -> server_ok s -> server_ok (B:=B) (add_sent to d s).
Proof.
  intros Hd Hs. apply (server_ok_update s); auto. exists [(to, d)]. split; [done|].
  by constructor.
Qed.

Lemma ok_sendto ent to d : datagram_ok d -> keeps_ok (sendto ent to d).
Proof. intros Hd s Hs. unfold sendto. destruct (send_error _ _ _ _); [done|]. by apply ok_add_sent. Qed.

Lemma ok_set_dropped : keeps_ok (modify set_dropped).
Proof. intros s Hs. apply (server_ok_update s); auto. same_sent. Qed.

Lemma ok_set_closed : keeps_ok (modify set_closed).
Proof. intros s Hs. apply (server_ok_update s); auto. same_sent. Qed.

Lemma ok_each_sendto ent to ds : Forall datagram_ok ds -> keeps_ok (each (sendto ent to) ds).
Proof.
  intros Hds. apply preserves_each. intros d Hd. apply ok_sendto.
  by eapply (proj1 (Forall_forall _ _) Hds).
Qed.

(** What a message's packets encode to. *)
Lemma encoded_fragments key k o sid id payload ps ds :
  length key = 16%nat -> uint16 sid -> uint16 id ->
  fragment_message k o sid id payload 0 = Ok ps ->
  map_result (fun p => encode p key) ps = Ok ds -> Forall datagram_ok ds.
Proof.
  intros Hk Hsid Hid Hps Hds. assert (Hv : Forall valid_packet ps).
  { destruct (Z.ltb_spec MAX_MESSAGE_SIZE (len payload)) as [Hb|Hb].
    - unfold fragment_message in Hps. by rewrite raise_if_true in Hps by lia.
    - rewrite fragment_message_Ok in Hps by done. apply Ok_inj in Hps as <-. by apply fragments_valid. }
  clear Hps. apply map_result_Ok in Hds. revert Hv. induction Hds as [|p d ps' ds' Hd _ IH]; [constructor|].
  intros [Hp Hv]%Forall_cons. constructor.
  - apply encode_Ok in Hd; [|done]. apply encoded_length in Hd.
    apply valid_packet_spec in Hp. unfold datagram_ok. lia.
  - by apply IH.
Qed.

Lemma ok_send_response ent x o id payload k :
  session_ok x -> uint16 id -> keeps_ok (_send_response ent x o id payload k).
Proof.
  intros Hx Hid. unfold _send_response.
  apply preserves_bind_lift. intros ps Hps. apply preserves_bind_lift. intros ds Hds.
  assert (Hok : Forall datagram_ok ds).
  { eapply encoded_fragments; [apply Hx| |exact Hid|exact Hps|exact Hds].
    destruct (session_id_range x Hx). unfold uint16. lia. }
  apply preserves_bind; [by apply ok_set_session, session_answered_ok|]. intros _ _ _ _ _.
  apply preserves_bind; [apply preserves_gets|]. intros _ [] _ _ _.
  - apply ok_set_dropped.
  - by apply ok_each_sendto.
Qed.

Lemma ok_send_error ent x o id code msg :
  session_ok x -> uint16 id -> keeps_ok (_send_error ent x o id code msg).
Proof. intros Hx Hid. apply preserves_bind_lift. intros payload _. by apply ok_send_response. Qed.

(** What is known of the outside: [secrets.randbelow] stays below its bound, and
    [sendto] raises nothing but [OSError] ([wait_ok]); in [entropy_ok] it sends. *)
Definition draws_ok (ent : entropy) : Prop := 0 <= randbelow_0xFFFF ent < 65535.
Definition send_fails (ent : entropy) (e : exn) : Prop :=
  exists n to d, send_error ent n to d = Some e.
Definition entropy_ok (ent : entropy) : Prop :=
  draws_ok ent /\ forall n to d, send_error ent n to d = None.
Definition wait_ok (w : wakeup) : Prop :=
  match w with
  | Received ent _ _ => draws_ok ent /\ forall e, send_fails ent e -> is_os_error (exn_cls e) = true
  | Raised _ _ => True
  end.

Lemma entropy_draws ent : entropy_ok ent -> draws_ok ent.
Proof. by intros []. Qed.

Lemma start_transfer_run ent k d (s s' : UdpAgentServer B) t :
  _start_transfer ent k d s = (Ok t, s') ->
  t = mkTransfer (if randbelow_0xFFFF ent =? 0 then 1 else randbelow_0xFFFF ent) k d 0 0 [] 0 0 false
  /\ transfer s = None /\ s' = set_transfer (Some t) s.
Proof. unfold _start_transfer. rewrite bind_run. cbn. destruct (transfer s); [done|]. by intros [= <- <-]. Qed.

Lemma fresh_transfer_ok ent k d p size crc o :
  draws_ok ent -> (k = file_write -> d = [] /\ 0 <= size <= 1048576) ->
  transfer_ok (mkTransfer (if randbelow_0xFFFF ent =? 0 then 1 else randbelow_0xFFFF ent)
    k d 0 0 p size crc o).
Proof. unfold draws_ok. intros He Hk. apply transfer_ok_start; [|done]. case_match; lia. Qed.

Lemma ok_start_transfer ent k d :
  draws_ok ent -> (k = file_write -> d = []) -> keeps_ok (_start_transfer ent k d).
Proof.
  intros He Hk. unfold _start_transfer.
  apply preserves_bind; [apply preserves_gets|]. intros _ [t|] _ _ _; [apply preserves_fail|].
  apply preserves_bind; [|intros; apply preserves_ret].
  apply ok_set_transfer. intros ? [= <-]. apply fresh_transfer_ok; [done|]. intros ->%Hk. by split.
Qed.

Lemma require_transfer_run id k (s s' : UdpAgentServer B) t :
  _require_transfer id k s = (Ok t, s') ->
  s' = s /\ transfer s = Some t /\ transfer_id t = id /\ AgentServer.kind t = k.
Proof.
  unfold _require_transfer. rewrite bind_run. cbn. destruct (transfer s) as [t'|] eqn:E; [|done].
  destruct (_ || _) eqn:Eg; [done|]. intros [= -> ->]. bool_to_prop.
  split_and!; [done|done|lia|done].
Qed.

Lemma ok_require_transfer id k : keeps_ok (_require_transfer id k).
Proof.
  apply preserves_bind; [apply preserves_gets|]. intros _ [t|] _ _ _; [|apply preserves_fail].
  case_match; [apply preserves_fail|apply preserves_ret].
Qed.

Lemma slice_clip {A} (l : list A) a b : slice l a b = slice l a (Z.min b (len l)).
Proof.
  unfold slice, len. destruct (decide (b <= Z.of_nat (length l))); [by rewrite Z.min_l by done|].
  rewrite Z.min_r by lia.
  rewrite (take_ge _ (Z.to_nat b - _)), (take_ge _ (Z.to_nat (Z.of_nat _) - _));
    rewrite ?length_drop; (done || lia).
Qed.

(** One block of a read: the offset and the checksum move over it. *)
Lemma transfer_ok_read t n :
  transfer_ok t -> AgentServer.kind t <> file_write -> 0 <= n ->
  transfer_ok (advance (data t) (slice (data t) (offset t) (offset t + n)) t).
Proof.
  intros [Hi Ho Hc Hu] Hk Hn. rewrite slice_clip.
  set (e := Z.min (offset t + n) (len (data t))).
  assert (offset t <= e <= len (data t)) by lia.
  assert (Hl : len (slice (data t) (offset t) e) = e - offset t) by (apply len_slice; lia).
  split; cbn [advance transfer_id offset data AgentServer.crc32 AgentServer.kind]; [done| | |done].
  - rewrite Hl. lia.
  - rewrite Hl, Hc, <- crc32_from_app, take_slice by lia. do 3 f_equal. lia.
Qed.

(** One block of an upload: it is appended. *)
Lemma transfer_ok_write t block :
  transfer_ok t -> AgentServer.kind t = file_write -> offset t + len block <= expected_size t ->
  transfer_ok (advance (data t ++ block) block t).
Proof.
  intros [Hi Ho Hc Hu] Hk Hn. destruct (Hu Hk) as [Hd He]. pose proof (len_nonneg block).
  split; cbn [advance transfer_id offset data AgentServer.crc32 AgentServer.kind expected_size]; [done|..].
  - rewrite len_app. lia.
  - rewrite Hc, <- crc32_from_app. f_equal. rewrite (take_ge (data t)) by (unfold len in Hd; lia).
    symmetry. apply take_ge. rewrite length_app. unfold len in *. lia.
  - intros _. rewrite len_app. lia.
Qed.

Lemma ok_read_transfer_block request k :
  k <> file_write -> 0 <= TransferBlockRequest.length request ->
  keeps_ok (_read_transfer_block request k).
Proof.
  intros Hk Hl. apply preserves_bind; [apply ok_require_transfer|].
  intros s t s' Hs (-> & Ht & _ & Hkind)%require_transfer_run.
  apply preserves_bind_lift. intros _ _.
  apply preserves_bind; [|intros; apply preserves_lift].
  apply ok_set_transfer. intros ? [= <-]. apply transfer_ok_read; [|congruence|done].
  by eapply server_transfer_ok.
Qed.

Lemma ok_end_read_transfer request k : keeps_ok (_end_read_transfer request k).
Proof.
  apply preserves_bind; [apply ok_require_transfer|]. intros _ t _ _ _.
  do 2 (apply preserves_bind_lift; intros ? _).
  apply preserves_bind; [by apply ok_set_transfer|intros; apply preserves_ret].
Qed.

Lemma ok_write_transfer_block request : keeps_ok (_write_transfer_block request).
Proof.
  apply preserves_bind; [apply ok_require_transfer|].
  intros s t s' Hs (-> & Ht & _ & Hkind)%require_transfer_run.
  apply preserves_bind_lift. intros _ Hg%raise_if_Ok.
  apply preserves_bind; [|intros; apply preserves_lift].
  apply ok_set_transfer. intros ? [= <-]. apply transfer_ok_write; [|done|lia].
  by eapply server_transfer_ok.
Qed.

Lemma ok_commit_write_transfer request : keeps_ok (_commit_write_transfer request).
Proof.
  apply preserves_bind; [apply ok_require_transfer|]. intros _ t _ _ _.
  apply preserves_bind_lift. intros _ _.
  apply preserves_bind; [apply ok_on_backend|]. intros _ receipt _ _ _.
  apply preserves_bind_lift. intros response _.
  apply preserves_bind; [by apply ok_set_transfer|intros; apply preserves_ret].
Qed.

(** Steps of the dispatch that leave the invariant alone. *)
Ltac ok_step :=
  match goal with
  | |- preserves _ (lift _ ≫= _) => apply preserves_bind_lift; intros
  | |- preserves _ (on_backend _ ≫= _) => apply preserves_bind; [apply ok_on_backend|intros]
  | |- preserves _ (lift _) => apply preserves_lift
  | |- preserves _ (mret _) => apply preserves_ret
  | |- preserves _ (_ <$> _) => apply preserves_fmap
  | |- preserves _ (_end_read_transfer _ _) => apply ok_end_read_transfer
  | |- preserves _ (_write_transfer_block _) => apply ok_write_transfer_block
  | |- preserves _ (_commit_write_transfer _) => apply ok_commit_write_transfer
  end.

Lemma block_request_length has_data payload m :
  TransferBlockRequest.decode has_data payload = Ok m -> 0 <= TransferBlockRequest.length m.
Proof.
  intros Ha%(wire_decode_accepts (c:=TransferBlockRequest.codec has_data)).
  destruct Ha as [(_ & _ & Hl & _) _]. lia.
Qed.

Lemma ok_operation ent x o id payload :
  draws_ok ent -> session_ok x -> uint16 id -> keeps_ok (operation ent x o id payload).
Proof.
  intros He Hx Hid.
  destruct o; cbn [operation]; repeat ok_step;
    try (apply preserves_bind; [by apply ok_send_error|intros; apply preserves_ret]);
    try (apply ok_read_transfer_block; [done|by eapply block_request_length]).
  - apply preserves_bind; [by apply ok_start_transfer|intros; apply preserves_lift].
  - apply raise_if_Ok in H1.
    apply preserves_bind; [by apply ok_start_transfer|].
    intros s t s' Hs (-> & _ & _)%start_transfer_run.
    apply preserves_bind; [|intros; apply preserves_lift].
    apply ok_set_transfer. intros ? [= <-]. apply fresh_transfer_ok; [done|]. intros _.
    apply (wire_decode_accepts (c:=FileWriteBeginRequest.codec)) in H0 as (_ & ? & _).
    split; [done|lia].
  - apply preserves_bind; [|intros; apply preserves_ret]. intros s Hs. cbn.
    destruct (transfer s); [|done]. case_match; [|done]. by refine (ok_set_transfer None _ s Hs).
  - apply preserves_bind; [by apply ok_start_transfer|intros; apply preserves_lift].
Qed.

Lemma ok_dispatch ent x o id payload :
  draws_ok ent -> session_ok x -> uint16 id -> keeps_ok (_dispatch ent x o id payload).
Proof.
  intros He Hx Hid. apply preserves_bind.
  - apply preserves_catch; [by apply ok_operation|]. intros e.
    apply preserves_bind; [|intros; apply preserves_ret]. case_match; by apply ok_send_error.
  - intros _ [response|] _ _ _; [by apply ok_send_response|apply preserves_ret].
Qed.

Lemma ok_unless_packet_error {A} (r : result A) : keeps_ok (unless_packet_error r).
Proof. destruct r; [apply preserves_ret|]. unfold unless_packet_error. case_match; [apply preserves_ret|apply preserves_fail]. Qed.

Lemma unless_packet_error_run {A} (r : result A) a (s s' : UdpAgentServer B) :
  unless_packet_error r s = (Ok a, s') -> s' = s /\
    match a with Some a => r = Ok a | None => exists e, r = Err e /\ exn_cls e = PacketError end.
Proof.
  destruct r as [x|e]; cbn; [by intros [= <- <-]|]. case_bool_decide; [|done].
  intros [= <- <-]. eauto.
Qed.

Lemma ok_handle_request ent x p :
  draws_ok ent -> session_ok x -> valid_packet p -> keeps_ok (handle_request ent x p).
Proof.
  intros He Hx Hp. assert (Hid : uint16 (request_id p)) by by apply valid_packet_spec in Hp as (_ & _ & ? & _).
  unfold handle_request. destruct (dict_get _ (response_cache x)) as [ds|] eqn:Ec.
  { apply ok_each_sendto. apply (dict_get_Forall _ _ _ _ (session_cache_ok x Hx) (session_cache_datagrams x Hx) Ec). }
  destruct (match last_request_id x with Some _ => _ | None => _ end); [by apply ok_send_error|].
  destruct (make_room_ok (request_id p) (pending x)) as (Hd & Hf & Hl); [apply Hx..|].
  set (table := make_room (request_id p) (pending x)) in *.
  set (fs := dict_set _ _ _).
  assert (Hfs : fragments_ok (request_id p) fs).
  { apply fragments_ok_set; [done..|]. destruct (dict_get (request_id p) table) as [old|] eqn:Eo;
      [|apply fragments_ok_nil]. by apply (dict_get_Forall _ _ _ _ Hd Hf Eo). }
  assert (Ht : dict_ok (dict_set (request_id p) fs table) /\
    Forall (fun kv => fragments_ok kv.1 kv.2) (dict_set (request_id p) fs table)).
  { split; [by apply dict_set_ok|by apply dict_set_Forall]. }
  destruct Ht as [Htd Htf].
  apply preserves_bind; [by apply ok_set_session, session_pending_set_ok|]. intros _ _ _ _ _.
  case_match; [apply preserves_ret|].
  apply preserves_bind; [apply ok_unless_packet_error|]. intros _ r _ _ _.
  assert (Hx' : session_ok (set_pending (dict_pop (request_id p) (dict_set (request_id p) fs table)) x)).
  { apply session_pending_set_ok; [done|by apply dict_pop_ok| |by apply dict_pop_Forall].
    etrans; [apply len_dict_pop|apply Hl]. }
  apply preserves_bind; [by apply ok_set_session|]. intros _ _ _ _ _.
  destruct r; [by apply ok_dispatch|apply preserves_ret].
Qed.

Lemma hello_id_range client server : 0 < hello_id client server < 65536.
Proof.
  unfold hello_id. cbv zeta. pose proof (land_mask16_range (Z.lxor server client)).
  destruct (Z.eqb_spec (Z.land (Z.lxor server client) 0xFFFF) 0); lia.
Qed.

(** An authentic hello is answered with one response packet under the server's key,
    then a fresh session begins, with no transfer; if the answer cannot be sent, nothing
    has changed. *)
Lemma hello_run ent d from (s : UdpAgentServer B) p req :
  server_ok s -> decode d (key s) = Ok p -> HelloRequest.decode (payload p) = Ok req ->
  let client := HelloRequest.client_nonce req in
  let server := Z.land (nonce_factory ent) 0xFFFFFFFF in
  exists body out sk,
    HelloResponse.encode (HelloResponse.mk client server (hello_id client server) 1024) = Ok body /\
    encode (mkPacket MessageKind.RESPONSE Opcode.HELLO (hello_id client server) (request_id p) 0 1
      body 0) (key s) = Ok out /\
    datagram_ok out /\ derive_session_key (key s) client server = Ok sk /\ length sk = 16%nat /\
    _handle_hello ent d from s =
      match send_error ent (length (sent s)) from out with
      | Some e => (Err e, s)
      | None => (Ok tt, set_transfer None (set_session
          (Some (mkSession from (hello_id client server) sk None [] [])) (add_sent from out s)))
      end.
Proof.
  intros Hs Hd Hr client server.
  pose proof (wire_decode_accepts (c:=HelloRequest.codec) _ _ Hr) as [Hc _]. cbn in Hc.
  pose proof (hello_id_range client server) as Hid.
  pose proof (land_mask32_range (nonce_factory ent)) as Hn. change (0 <= server < 4294967296) in Hn.
  destruct (pack_fits _HELLO_RESPONSE ⟨client, server, hello_id client server, 1024⟩) as [body Hbody].
  { refine (conj Hc (conj Hn (conj _ (conj _ Logic.I)))); [change (0 <= hello_id client server < 65536); lia|done]. }
  assert (Hv : valid_packet (mkPacket MessageKind.RESPONSE Opcode.HELLO (hello_id client server)
    (request_id p) 0 1 body 0)).
  { apply decode_inv in Hd as [Hp _]. apply valid_packet_spec in Hp as (_ & _ & Hrid & _).
    apply pack_len in Hbody. apply valid_packet_spec.
    cbn [flags Packet.session_id request_id fragment_count fragment_index payload].
    unfold uint16 in *. split_and!; try lia.
    rewrite Hbody. change (Z.of_nat (calcsize _HELLO_RESPONSE)) with 12. lia. }
  destruct (encode_total _ (key s) Hv (server_key_length s Hs)) as (out & Hout & Hlen%encoded_length).
  destruct (derive_session_key_total (key s) client server (server_key_length s Hs) Hc Hn)
    as (sk & Hsk & Hskl).
  exists body, out, sk. split_and!; try done.
  { apply valid_packet_spec in Hv as (_ & _ & _ & _ & _ & Hl). unfold datagram_ok. lia. }
  unfold _handle_hello. rewrite bind_run. cbn [gets]. rewrite Hd. cbn [mbind result_bind].
  rewrite Hr. cbn [mbind result_bind]. fold client server. unfold HelloResponse.encode.
  change MAX_FRAGMENT_PAYLOAD with 1024.
  cbn [HelloResponse.client_nonce HelloResponse.server_nonce HelloResponse.session_id
    HelloResponse.max_fragment_payload].
  pack_with Hbody. rewrite bind_run. cbn [lift]. rewrite new_packet_valid by done.
  rewrite bind_run. cbn [lift]. rewrite Hout. rewrite bind_run. cbn [lift].
  rewrite bind_run. unfold sendto. destruct (send_error _ _ _ _); [done|]. by rewrite Hsk.
Qed.

Lemma fresh_session_ok from id sk :
  0 < id < 65536 -> length sk = 16%nat -> session_ok (mkSession from id sk None [] []).
Proof. intros Hid Hk. split; cbn; try done; apply NoDup_nil_2. Qed.

Lemma ok_handle_hello ent d from : keeps_ok (_handle_hello ent d from).
Proof.
  intros s Hs. destruct (decode d (key s)) as [p|e] eqn:Ed.
  - destruct (HelloRequest.decode (payload p)) as [req|e] eqn:Er.
    + destruct (hello_run ent d from s p req Hs Ed Er) as (body & out & sk & _ & _ & Ho & _ & Hl & ->).
      destruct (send_error _ _ _ _); [done|]. cbn [snd]. apply (ok_set_transfer None); [done|].
      apply ok_set_session; [by apply fresh_session_ok; [apply hello_id_range|]|]. by apply ok_add_sent.
    + unfold _handle_hello. rewrite bind_run. cbn [gets]. rewrite Ed. cbn [mbind result_bind].
      rewrite Er. cbn [mbind result_bind]. by case_match.
  - unfold _handle_hello. rewrite bind_run. cbn [gets]. rewrite Ed. cbn [mbind result_bind].
    by case_match.
Qed.

Lemma ok_handle_datagram ent d from :
  draws_ok ent -> keeps_ok (handle_datagram ent d from).
Proof.
  intros He. unfold handle_datagram. case_match; [apply preserves_ret|].
  destruct (unpack_from _ d 0) as [v|e]; [|apply preserves_ret].
  destruct v as (a1 & a2 & raw_kind & raw_opcode & a3 & id & a4 & []).
  case_match; [apply preserves_ret|]. case_match; [apply ok_handle_hello|].
  apply preserves_bind; [apply preserves_gets|]. intros s c s' Hs Hc. injection Hc as <- <-.
  destruct (session s) as [x|] eqn:Ex; [|apply preserves_ret].
  case_match; [apply preserves_ret|].
  apply preserves_bind; [apply ok_unless_packet_error|].
  intros s1 [p|] s2 _ Hp; [|apply preserves_ret].
  apply unless_packet_error_run in Hp as [_ Hp]. apply decode_inv in Hp as [Hp _].
  apply ok_handle_request; [done| |done]. by eapply server_session_ok.
Qed.

Lemma ok_close_server : keeps_ok close_server.
Proof.
  apply preserves_bind; [apply preserves_gets|]. intros _ [] _ _ _; [apply preserves_ret|].
  apply preserves_bind; [intros s []; by split|]. intros _ [] _ _ _. apply ok_on_backend.
Qed.

Lemma ok_serve_forever waits : Forall wait_ok waits -> keeps_ok (serve_forever waits).
Proof.
  induction 1 as [|[ent d from|e meanwhile] waits He _ IH]; cbn [serve_forever]; [apply preserves_ret|destruct He as [He _]|].
  all: apply preserves_bind; [apply preserves_gets|]; intros _ [] _ _ _; [apply preserves_ret|].
  - apply preserves_bind; [by apply ok_handle_datagram|]. by intros _ [] _ _ _.
  - apply preserves_bind; [|intros _ [] _ _ _].
    { destruct meanwhile; [exact ok_close_server|apply preserves_ret]. }
    case_bool_decide; [done|]. apply preserves_bind; [apply preserves_gets|]. intros _ c _ _ _.
    destruct (_ && c); [apply preserves_ret|apply preserves_fail].
Qed.

Lemma new_server_ok (b : B) k drop s0 : new_server b k drop = Ok s0 -> server_ok s0.
Proof.
  intros H0. unfold new_server in H0. inv_ok. apply negb_false_iff, Z.eqb_eq in E.
  split; cbn; [unfold len in E; lia|done..|constructor].
Qed.

(** C22. The agent's invariant holds in every reachable state: it is true of a
    new server, and every end of a wait for a datagram leaves it true: a datagram,
    authentic or not, with any random values and any backend, also when handling it
    raises; a timeout or a failure of the socket; another thread's closing.  It bounds
    the response cache and the reassembly table by four requests each and every
    datagram sent by 1044 bytes, and it makes a transfer's checksum the CRC-32
    of the bytes moved so far. *)
Theorem agent_invariant (b : B) k drop s0 waits :
  new_server b k drop = Ok s0 -> Forall wait_ok waits -> server_ok (serve_forever waits s0).2.
Proof.
  intros H0 Hw. apply ok_serve_forever; [done|]. by eapply new_server_ok.
Qed.
End Preserved.

(** ** A concrete session

    A client's side of a session with the in-memory backend: the hello and
    requests under the session key, as the datagrams the server receives. *)
Definition bridge : Address := (py "10.0.0.2", 40000).
Definition sample_entropy : entropy := mkEntropy 0x01020304 77 (fun _ _ _ => None).

Definition sample_hello : bytes :=
  match encode (mkPacket MessageKind.REQUEST Opcode.HELLO 0 1 0 1 [x01; x00; x00; x00] 0) TEST_KEY with
  | Ok d => d | Err _ => [] end.

Definition sample_session_key : bytes :=
  match derive_session_key TEST_KEY 1 0x01020304 with Ok k => k | Err _ => [] end.

Definition sample_request (id : Z) (o : Opcode.t) (payload : bytes) : bytes :=
  match encode (mkPacket MessageKind.REQUEST o (hello_id 1 0x01020304) id 0 1 payload 0)
          sample_session_key with
  | Ok d => d | Err _ => [] end.

Definition event (d : bytes) : entropy * bytes * Address := (sample_entropy, d, bridge).

Definition start : UdpAgentServer memory :=
  mkServer empty_memory TEST_KEY None false false None false [].

Lemma start_ok : server_ok start.
Proof. by apply (new_server_ok empty_memory TEST_KEY false). Qed.

Definition arriving (d : bytes) : wakeup := Received sample_entropy d bridge.

Lemma sample_entropy_ok : entropy_ok sample_entropy.
Proof. split; [by vm_compute|done]. Qed.

Lemma received_ok ent d from : entropy_ok ent -> wait_ok (Received ent d from).
Proof. intros [Hd Hs]. split; [done|]. intros e (n & to & out & He). by rewrite Hs in He. Qed.

Lemma arriving_ok d : wait_ok (arriving d).
Proof. apply received_ok, sample_entropy_ok. Qed.

(** [Forall wait_ok] of a list of sample arrivals and exceptions. *)
Ltac solve_waits :=
  repeat first [apply Forall_nil_2|apply Forall_cons_2; [first [apply arriving_ok|exact Logic.I]|]].

Lemma agent_invariant_witness :
  server_ok (serve_forever [arriving sample_hello; Raised (Exn TimeoutError (py "timed out")) false;
    arriving (sample_request 1 Opcode.PING [x2a]); Raised (Exn OSError (py "closed")) true] start).2.
Proof.
  apply (agent_invariant empty_memory TEST_KEY false); [reflexivity|].
  solve_waits.
Defined.

(** The ping is answered: the run is not vacuous. *)
Example sample_run :
  (fun ad => ad.2) <$> drop 1 (sent (serve
    [event sample_hello; event (sample_request 1 Opcode.PING [x2a])] start).2) =
  [match encode (mkPacket MessageKind.RESPONSE Opcode.PING (hello_id 1 0x01020304) 1 0 1 [x2a] 0)
           sample_session_key with Ok d => d | Err _ => [] end].
Proof. vm_compute. reflexivity. Qed.
