(* ===== verification/AgentSafety.v ===== *)
(** * What the agent lets through

    Authentication, the replay window and retransmission: which datagrams can
    reach the backend, that an immediate retransmission never repeats an
    operation, and where the replay window fails. *)
From S2P Require Import Prelude Dict Struct Crc Crypto Constants Packet Messages Errors.
From S2P Require Import State Backend MemoryBackend AgentServer AgentInvariant.
From S2P Require Models.

Section Safety.
Context {B : Type} `{Backend B}.

(** ** Authentication *)
Lemma unless_packet_error_Err {A} (r : result A) (s : UdpAgentServer B) :
  raises is_packet_error r -> is_ok r = false -> unless_packet_error r s = (Ok None, s).
Proof. destruct r as [|e]; [done|]. intros He _. unfold unless_packet_error. by rewrite bool_decide_eq_true_2. Qed.

Lemma hello_ignored ent d from (s : UdpAgentServer B) :
  server_ok s -> is_ok (decode d (key s)) = false -> _handle_hello ent d from s = (Ok tt, s).
Proof.
  intros Hs Hd. pose proof (decode_raises d (key s) (server_key_length s Hs)) as Hr.
  unfold _handle_hello. rewrite bind_run. cbn [gets].
  destruct (decode d (key s)) as [|e]; [done|]. cbn [mbind result_bind]. cbn in Hr. by rewrite Hr.
Qed.

(** A datagram the server has a key for: its own (a hello), or that of the
    current session if it comes from the session's address. *)
Definition authentic (d : bytes) (from : Address) (s : UdpAgentServer B) : Prop :=
  is_ok (decode d (key s)) = true \/
  exists x, session s = Some x /\ address x = from /\ is_ok (decode d (session_key x)) = true.

(** Unauthenticated datagrams have no effect: a datagram that authenticates
    neither under the server's key nor under the key of the current session is
    dropped, without an answer, an exception or any change of state; so is
    every non-hello datagram that comes from another address. *)
Theorem agent_ignores_unauthenticated ent d from (s : UdpAgentServer B) :
  server_ok s -> ~ authentic d from s -> handle_datagram ent d from s = (Ok tt, s).
Proof.
  intros Hs Hauth. assert (Hk : is_ok (decode d (key s)) = false).
  { apply not_true_iff_false. intros Hk. apply Hauth. by left. }
  assert (Hx : forall x, session s = Some x -> address x = from ->
    is_ok (decode d (session_key x)) = false).
  { intros x Hx Ha. apply not_true_iff_false. intros Hd. apply Hauth. right. eauto. }
  unfold handle_datagram. case_match; [done|].
  destruct (unpack_from _ d 0) as [v|e]; [|done].
  destruct v as (a1 & a2 & raw_kind & raw_opcode & a3 & id & a4 & []).
  case_match; [done|]. case_match; [by apply hello_ignored|].
  rewrite bind_run. cbn [gets]. destruct (session s) as [x|] eqn:Ex; [|done].
  destruct (negb (bool_decide _) || _) eqn:Eg; [done|]. bool_to_prop.
  rewrite bind_run. rewrite unless_packet_error_Err; [done| |by apply Hx].
  by apply decode_raises, (session_key_length x), (server_session_ok s Hs).
Qed.

(** ** When the backend is reached *)
Definition same_backend (s s' : UdpAgentServer B) : Prop := backend s' = backend s.

#[local] Instance same_backend_preorder : PreOrder same_backend.
Proof. split; [by intros s|intros s s' s'' H1 H2; unfold same_backend in *; congruence]. Qed.

Lemma same_modify f : (forall s, backend (f s) = backend s) -> keeps same_backend (modify f).
Proof. intros Hf s. apply Hf. Qed.

Lemma same_sendto ent to d : keeps same_backend (sendto ent to d).
Proof. intros s. unfold sendto. by destruct (send_error _ _ _ _). Qed.

Lemma same_sendto_each ent to ds : keeps same_backend (each (sendto ent to) ds).
Proof. apply keeps_each; [apply _|]. intros d. apply same_sendto. Qed.

Lemma same_send_response ent x o id payload k :
  keeps same_backend (_send_response ent x o id payload k).
Proof.
  unfold _send_response.
  do 2 (apply keeps_bind; [apply _|apply keeps_lift; apply _|]; intros ?).
  apply keeps_bind; [apply _|by apply same_modify|]. intros _.
  apply keeps_bind; [apply _|apply keeps_gets; apply _|]. intros [].
  - by apply same_modify.
  - apply same_sendto_each.
Qed.

Lemma same_send_error ent x o id code msg : keeps same_backend (_send_error ent x o id code msg).
Proof.
  apply keeps_bind; [apply _|apply keeps_lift; apply _|]. intros payload. apply same_send_response.
Qed.

Lemma same_unless {A} (r : result A) : keeps same_backend (unless_packet_error r).
Proof. intros s. unfold unless_packet_error. destruct r; [done|]. by case_match. Qed.

Lemma same_hello ent d from : keeps same_backend (_handle_hello ent d from).
Proof.
  unfold _handle_hello. apply keeps_bind; [apply _|apply keeps_gets; apply _|]. intros k.
  destruct (packet ← decode d k; _) as [[p req]|e]; [|by case_match].
  repeat (apply keeps_bind; [apply _|first [apply keeps_lift; apply _|by apply same_modify|apply same_sendto]|]; intros ?).
  by apply same_modify.
Qed.

(** ** What a datagram is to the server *)
Inductive reception := Ignored | Hello | Request (x : _Session) (p : Packet).

Definition receive (d : bytes) (from : Address) (current : option _Session) :
    reception :=
  if (MAX_DATAGRAM <? len d) || (len d <? Z.of_nat HEADER_SIZE) then Ignored else
  match unpack_from _UNAUTHENTICATED_FIELDS d 0 with
  | Err _ => Ignored
  | Ok ⟨_, _, raw_kind, raw_opcode, _, id, _⟩ =>
      if negb (raw_kind =? int_of MessageKind.REQUEST) then Ignored else
      if (raw_opcode =? int_of Opcode.HELLO) && (id =? 0) then Hello else
      match current with
      | None => Ignored
      | Some x =>
          if negb (bool_decide (address x = from)) || negb (AgentServer.session_id x =? id)
          then Ignored
          else match decode d (session_key x) with Ok p => Request x p | Err _ => Ignored end
      end
  end.

Lemma handle_datagram_receive ent d from (s : UdpAgentServer B) :
  (forall x, session s = Some x -> length (session_key x) = 16%nat) ->
  handle_datagram ent d from s =
    match receive d from (session s) with
    | Ignored => (Ok tt, s)
    | Hello => _handle_hello ent d from s
    | Request x p => handle_request ent x p s
    end.
Proof.
  intros Hk. unfold handle_datagram, receive. destruct (_ || _); [done|].
  destruct (unpack_from _ d 0) as [v|e]; [|done].
  destruct v as (a1 & a2 & raw_kind & raw_opcode & a3 & id & a4 & []).
  destruct (negb (raw_kind =? _)); [done|]. destruct (_ && _); [done|].
  rewrite bind_run. cbn [gets]. destruct (session s) as [x|] eqn:Ex; [|done].
  destruct (negb (bool_decide _) || _); [done|]. rewrite bind_run.
  pose proof (decode_raises d (session_key x) (Hk x eq_refl)) as Hr.
  destruct (decode d (session_key x)) as [p|e] eqn:Ed; [done|].
  by rewrite unless_packet_error_Err.
Qed.

Lemma receive_request d from c x p :
  receive d from c = Request x p ->
  c = Some x /\ address x = from /\ decode d (session_key x) = Ok p.
Proof.
  unfold receive. destruct (_ || _); [done|]. destruct (unpack_from _ d 0) as [v|e]; [|done].
  destruct v as (a1 & a2 & raw_kind & raw_opcode & a3 & id & a4 & []).
  destruct (negb (raw_kind =? _)); [done|]. destruct (_ && _); [done|]. destruct c as [x'|]; [|done].
  destruct (negb (bool_decide _) || _) eqn:Eg; [done|].
  destruct (decode d (session_key x')) as [p'|] eqn:Ed; [|done].
  intros [= <- <-]. bool_to_prop. done.
Qed.

Lemma receive_hello d from c c' : receive d from c = Hello -> receive d from c' = Hello.
Proof.
  unfold receive. destruct (_ || _); [done|]. destruct (unpack_from _ d 0) as [v|e]; [|done].
  destruct v as (a1 & a2 & raw_kind & raw_opcode & a3 & id & a4 & []).
  destruct (negb (raw_kind =? _)); [done|]. destruct (_ && _); [done|].
  by repeat case_match.
Qed.

(** Reception depends on the session's address, id and key only. *)
Lemma receive_session d from x x' p :
  receive d from (Some x) = Request x p -> address x' = address x ->
  AgentServer.session_id x' = AgentServer.session_id x -> session_key x' = session_key x ->
  receive d from (Some x') = Request x' p.
Proof.
  unfold receive. destruct (_ || _); [done|]. destruct (unpack_from _ d 0) as [v|e]; [|done].
  destruct v as (a1 & a2 & raw_kind & raw_opcode & a3 & id & a4 & []).
  destruct (negb (raw_kind =? _)); [done|]. destruct (_ && _); [done|]. intros H1 -> -> ->.
  destruct (negb (bool_decide _) || _); [done|]. destruct (decode _ _); [|done].
  by injection H1 as ->.
Qed.

(** ** Requests that reach the backend *)
Definition replayed (x : _Session) (id : Z) : bool :=
  match last_request_id x with
  | Some last => negb (_request_is_newer id last)
  | None => false
  end.

(** The fragments of request [p] once [p] has been filed. *)
Definition filed (x : _Session) (p : Packet) : dict Packet :=
  dict_set (fragment_index p) p
    (default [] (dict_get (request_id p) (make_room (request_id p) (pending x)))).

Definition table_with (x : _Session) (p : Packet) : dict (dict Packet) :=
  dict_set (request_id p) (filed x p) (make_room (request_id p) (pending x)).

Lemma handle_request_cases ent x p (s : UdpAgentServer B) :
  Forall valid_packet (dict_values (filed x p)) ->
  handle_request ent x p s =
    match dict_get (request_id p) (response_cache x) with
    | Some encoded => _send_cached ent x encoded s
    | None =>
        if replayed x (request_id p)
        then _send_error ent x (opcode p) (request_id p) ErrorCode.REPLAYED_REQUEST
               (py "request ID is outside the replay window") s
        else if negb (len (filed x p) =? fragment_count p)
        then (Ok tt, set_session (Some (set_pending (table_with x p) x)) s)
        else
          let x' := set_pending (dict_pop (request_id p) (table_with x p)) x in
          match reassemble_packets (dict_values (filed x p)) with
          | Err _ => (Ok tt, set_session (Some x') s)
          | Ok payload => _dispatch ent x' (opcode p) (request_id p) payload (set_session (Some x') s)
          end
    end.
Proof.
  intros Hv. unfold handle_request. destruct (dict_get _ (response_cache x)); [done|].
  fold (replayed x (request_id p)). destruct (replayed x (request_id p)); [done|].
  cbv zeta. fold (filed x p). fold (table_with x p). rewrite bind_run. cbn [modify].
  destruct (negb _); [done|]. rewrite bind_run.
  pose proof (reassemble_raises _ Hv) as Hr.
  destruct (reassemble_packets (dict_values (filed x p))) as [payload|e]; [done|].
  by rewrite unless_packet_error_Err.
Qed.

Lemma filed_ok x p : session_ok x -> valid_packet p -> fragments_ok (request_id p) (filed x p).
Proof.
  intros Hx Hp. destruct (make_room_ok (request_id p) (pending x)) as (Hd & Hf & _); [apply Hx..|].
  apply fragments_ok_set; [done..|].
  destruct (dict_get (request_id p) _) as [old|] eqn:Eo; [|apply fragments_ok_nil].
  by apply (dict_get_Forall _ _ _ _ Hd Hf Eo).
Qed.

Lemma filed_valid x p :
  session_ok x -> valid_packet p -> Forall valid_packet (dict_values (filed x p)).
Proof. intros Hx Hp. by eapply fragments_ok_valid, filed_ok. Qed.

(** C25. The backend is reached only by fresh, authenticated, complete requests:
    if handling a datagram changes the backend, the datagram is a packet of the
    current session from its address, authentic under the session key; its
    request id has no cached response and is newer (in the 16-bit window) than
    the last one answered; and the fragments filed under that id reassemble. *)
Theorem backend_reached_by_fresh_requests ent d from (s : UdpAgentServer B) :
  server_ok s -> backend (handle_datagram ent d from s).2 <> backend s ->
  exists x p payload, session s = Some x /\ address x = from /\
    decode d (session_key x) = Ok p /\
    dict_get (request_id p) (response_cache x) = None /\
    (forall last, last_request_id x = Some last ->
       0 < (request_id p - last) mod 65536 < 32768) /\
    reassemble_packets (dict_values (filed x p)) = Ok payload.
Proof.
  intros Hs Hne. rewrite handle_datagram_receive in Hne
    by (intros x Hx; by apply (session_key_length x), (server_session_ok s Hs)).
  destruct (receive d from (session s)) as [| |x p] eqn:Er; [done|..].
  { by rewrite (same_hello ent d from s) in Hne. }
  apply receive_request in Er as (Hx & Ha & Hd). exists x, p.
  pose proof (decode_inv _ _ _ Hd) as [Hp _].
  pose proof (server_session_ok s Hs x Hx) as Hxok.
  rewrite handle_request_cases in Hne by by apply filed_valid.
  destruct (dict_get _ (response_cache x)) as [ds|] eqn:Ec.
  { unfold _send_cached in Hne. by rewrite (same_sendto_each ent (address x) ds s) in Hne. }
  destruct (replayed x (request_id p)) eqn:Erep.
  { by rewrite (same_send_error ent x _ _ _ _ s) in Hne. }
  destruct (negb _); [done|]. cbv zeta in Hne.
  destruct (reassemble_packets _) as [payload|e]; [|done]. exists payload. split_and!; try done.
  intros last Hl. unfold replayed in Erep. rewrite Hl in Erep.
  unfold _request_is_newer in Erep. rewrite land_mask16 in Erep. lia.
Qed.

(** ** Retransmission *)

(** What answering request [id] of session [x] leaves: the session with the
    response cached and [id] as the last request. *)
Definition answered (x : _Session) (id : Z) (s : UdpAgentServer B) : Prop :=
  exists encoded, session s =
    Some (set_answered id (evict (dict_set id encoded (response_cache x))) x).

Lemma dict_get_app {V} k (d d' : dict V) :
  dict_get k d = None -> dict_get k (d ++ d') = dict_get k d'.
Proof. induction d as [|[k' v] d IH]; [done|]. cbn. by destruct (k' =? k). Qed.

Lemma evict_snoc cache id encoded :
  dict_get id cache = None ->
  dict_get id (evict (cache ++ [(id, encoded)])) = Some encoded.
Proof.
  induction cache as [|[k v] cache IH]; intros Hn.
  { change (evict ([] ++ [(id, encoded)])) with [(id, encoded)]. cbn [dict_get].
    by rewrite Z.eqb_refl. }
  cbn [app evict]. cbn [dict_get] in Hn. destruct (k =? id) eqn:E; [done|].
  destruct (4 <? _); [by apply IH|]. cbn [dict_get]. rewrite E, dict_get_app by done.
  cbn [dict_get]. by rewrite Z.eqb_refl.
Qed.

Lemma answered_cached cache id encoded :
  dict_get id cache = None -> dict_get id (evict (dict_set id encoded cache)) = Some encoded.
Proof.
  intros Hn. rewrite dict_set_new by by apply dict_get_None. by apply evict_snoc.
Qed.

(** Every datagram handed to the socket went out, or the socket raised. *)
Definition sent_or_failed (ent : entropy) (r : result unit) : Prop :=
  r = Ok tt \/ exists e, r = Err e /\ send_fails ent e.

Lemma each_sendto_run ent to ds (s : UdpAgentServer B) :
  sent_or_failed ent (each (sendto ent to) ds s).1 /\
  session (each (sendto ent to) ds s).2 = session s.
Proof.
  revert s. induction ds as [|d ds IH]; intros s; [by split; [left|]|]. cbn [each]. rewrite bind_run.
  unfold sendto at 1 3. destruct (send_error ent (length (sent s)) to d) as [e|] eqn:E.
  - split; [|done]. right. exists e. split; [done|]. by eexists _, _, _.
  - apply (IH (add_sent to d s)).
Qed.

Lemma send_response_answers ent x o id payload k (s s' : UdpAgentServer B) u :
  _send_response ent x o id payload k s = (Ok u, s') -> answered x id s'.
Proof.
  unfold _send_response, answered. rewrite bind_run. cbn [lift].
  destruct (fragment_message _ _ _ _ _ _) as [ps|]; [|done]. rewrite bind_run. cbn [lift].
  destruct (map_result _ ps) as [ds|]; [|done]. rewrite bind_run. cbn [modify].
  rewrite bind_run. cbn [gets]. intros Hrun. exists ds. revert Hrun. destruct (_ && _).
  - by intros [= _ <-].
  - intros Hrun. pose proof (each_sendto_run ent (address x) ds
      (set_session (Some (set_answered id (evict (dict_set id ds (response_cache x))) x)) s)) as [_ Hs].
    by rewrite Hrun in Hs.
Qed.

Lemma send_error_answers ent x o id code msg (s s' : UdpAgentServer B) u :
  _send_error ent x o id code msg s = (Ok u, s') -> answered x id s'.
Proof.
  unfold _send_error. rewrite bind_run. cbn [lift]. destruct (encode_error code msg); [|done].
  apply send_response_answers.
Qed.

(** Every supported operation responds or raises. *)
Definition responds (m : stateful (UdpAgentServer B) (option bytes)) : Prop :=
  forall s s', m s <> (Ok None, s').

Lemma responds_bind {A} (m : stateful (UdpAgentServer B) A) f :
  (forall a, responds (f a)) -> responds (m ≫= f).
Proof. intros Hf s s'. rewrite bind_run. destruct (m s) as [[a|e] s1]; [apply Hf|done]. Qed.
Lemma responds_fmap (m : stateful (UdpAgentServer B) bytes) : responds (Some <$> m).
Proof. intros s s'. unfold fmap, stateful_fmap. by destruct (m s) as [[] ?]. Qed.
Lemma responds_lift (r : result bytes) : responds (lift (Some <$> r)).
Proof. intros s s'. by destruct r. Qed.
Lemma responds_lift_bind {A} (r : result A) (f : A -> result bytes) :
  responds (lift (r ≫= fun a => Some <$> f a)).
Proof. intros s s'. destruct r as [a|]; [|done]. cbn. by destruct (f a). Qed.
Lemma responds_ret b : responds (mret (Some b)).
Proof. by intros s s'. Qed.

Lemma operation_None ent x o id payload (s s' : UdpAgentServer B) :
  operation ent x o id payload s = (Ok None, s') -> answered x id s'.
Proof.
  destruct o; cbn [operation];
    try solve [intros Hr; exfalso; revert Hr;
      match goal with |- ?m _ = _ -> False => change (m s <> (Ok None, s')); revert s s'; change (responds m) end;
      repeat first [apply responds_fmap|apply responds_lift|apply responds_lift_bind
                   |apply responds_ret|apply responds_bind; intros ?]].
  all: rewrite bind_run; destruct (_send_error _ _ _ _ _ _ s) as [[u|e] s1] eqn:E; [|done];
    intros [= <-]; by apply send_error_answers in E.
Qed.

Lemma dispatch_answers ent x o id payload (s s' : UdpAgentServer B) u :
  _dispatch ent x o id payload s = (Ok u, s') -> answered x id s'.
Proof.
  unfold _dispatch. rewrite bind_run. unfold catch.
  destruct (operation ent x o id payload s) as [[r|e] s1] eqn:Eo.
  - destruct r as [r|]; [apply send_response_answers|]. intros [= _ <-].
    by apply operation_None in Eo.
  - destruct (diverges e); [done|]. rewrite bind_run. destruct (is_value_error (exn_cls e));
      (destruct (_send_error _ _ _ _ _ _ s1) as [[u'|e'] s2] eqn:E; [|done];
       intros [= _ <-]; by apply send_error_answers in E).
Qed.

(** A request alone in its table reassembles at once. *)
Lemma reassemble_single p :
  valid_packet p -> fragment_count p = 1 -> reassemble_packets [p] = Ok (payload p).
Proof.
  intros Hp%valid_packet_spec Hc. apply (reassemble_complete [p]); [|done]. split_and!.
  - done.
  - change (seqZ 0 (len [p])) with [0]. cbn [fmap list_fmap]. f_equal. lia.
  - by repeat constructor.
  - exists (identity p). by repeat constructor.
  - simpl. by rewrite app_nil_r.
Qed.

(** Filing [p] again changes nothing about the table's shape. *)
Lemma dict_set_set {V} k (v w : V) d : dict_set k v (dict_set k w d) = dict_set k v d.
Proof.
  induction d as [|[k' u] d IH]; cbn [dict_set]; [by rewrite Z.eqb_refl|].
  destruct (k' =? k) eqn:E; cbn [dict_set]; [by rewrite Z.eqb_refl|]. by rewrite E, IH.
Qed.

Lemma filed_again x p : filed (set_pending (table_with x p) x) p = filed x p.
Proof.
  unfold filed at 1. cbn [set_pending pending]. unfold make_room at 1, dict_mem.
  unfold table_with. rewrite dict_get_set_eq. cbn [negb andb]. rewrite dict_get_set_eq.
  cbn [default from_option]. unfold id, filed. by rewrite dict_set_set.
Qed.

Lemma dict_get_pop_first k (d : dict (dict Packet)) :
  dict_get k d = None -> dict_get k (dict_pop_first d) = None.
Proof. destruct d as [|[k' v] d]; [done|]. cbn. by destruct (k' =? k). Qed.

Lemma filed_after_pop x x' p :
  pending x' = dict_pop (request_id p) (table_with x p) -> filed x' p = [(fragment_index p, p)].
Proof.
  intros Hp. unfold filed. rewrite Hp.
  assert (Hn : dict_get (request_id p) (make_room (request_id p)
    (dict_pop (request_id p) (table_with x p))) = None).
  { unfold make_room. case_match; [apply dict_get_pop_first|]; apply dict_get_pop_eq. }
  by rewrite Hn.
Qed.

(** A table with one entry after filing holds the packet just filed. *)
Lemma filed_single x p : len (filed x p) = 1 -> dict_values (filed x p) = [p].
Proof.
  pose proof (dict_get_set_eq (fragment_index p) p
    (default [] (dict_get (request_id p) (make_room (request_id p) (pending x))))) as Hg.
  fold (filed x p) in Hg. destruct (filed x p) as [|[k v] [|kv fs]]; [done|..].
  - cbn [dict_get] in Hg. intros _. case_match; [by injection Hg as ->|done].
  - unfold len. cbn [length]. lia.
Qed.

(** The second delivery of a request whose first delivery was handled. *)
Lemma handle_request_again ent ent' x p (s s1 : UdpAgentServer B) :
  session_ok x -> valid_packet p -> session s = Some x ->
  handle_request ent x p s = (Ok tt, s1) ->
  exists x1, session s1 = Some x1 /\ address x1 = address x /\
    AgentServer.session_id x1 = AgentServer.session_id x /\ session_key x1 = session_key x /\
    backend (handle_request ent' x1 p s1).2 = backend s1.
Proof.
  intros Hx Hp Hs. rewrite handle_request_cases by by apply filed_valid.
  assert (Hcached : forall x0, address x0 = address x -> AgentServer.session_id x0 = AgentServer.session_id x ->
    session_key x0 = session_key x -> dict_get (request_id p) (response_cache x0) = None ->
    answered x0 (request_id p) s1 ->
    exists x1, session s1 = Some x1 /\ address x1 = address x /\
      AgentServer.session_id x1 = AgentServer.session_id x /\ session_key x1 = session_key x /\
      backend (handle_request ent' x1 p s1).2 = backend s1).
  { intros x0 Ha Hi Hk Hn [ds Hds]. eexists. split_and!; [exact Hds|done..|].
    unfold handle_request. cbn [set_answered response_cache]. rewrite answered_cached by done.
    unfold _send_cached. apply same_sendto_each. }
  destruct (dict_get _ (response_cache x)) as [ds|] eqn:Ec.
  { unfold _send_cached. intros Hrun. exists x.
    pose proof (each_sendto_run ent (address x) ds s) as [_ Hsess]. rewrite Hrun in Hsess. cbn in Hsess.
    split_and!; [congruence|done..|]. unfold handle_request. rewrite Ec. apply same_sendto_each. }
  destruct (replayed x (request_id p)) eqn:Er.
  { intros Hrun. apply send_error_answers in Hrun. by apply (Hcached x). }
  destruct (negb (len (filed x p) =? fragment_count p)) eqn:En.
  { intros [= <-]. eexists. split_and!; [done..|].
    rewrite handle_request_cases; rewrite filed_again; [|by apply filed_valid].
    cbn [set_pending response_cache last_request_id]. rewrite Ec.
    change (replayed (set_pending _ x) _) with (replayed x (request_id p)). by rewrite Er, En. }
  cbv zeta. destruct (reassemble_packets _) as [payload|e] eqn:Ere.
  { intros Hrun. apply dispatch_answers in Hrun. by eapply Hcached; [..|exact Hrun]. }
  intros [= <-]. eexists. split_and!; [done..|].
  assert (Hc : fragment_count p <> 1).
  { intros Hc. rewrite Hc in En. rewrite filed_single in Ere by lia.
    by rewrite reassemble_single in Ere. }
  set (x' := set_pending _ x). pose proof (filed_after_pop x x' p eq_refl) as Hf.
  rewrite handle_request_cases; rewrite Hf; [|by constructor].
  cbn [x' set_pending response_cache last_request_id]. rewrite Ec.
  change (replayed x' _) with (replayed x (request_id p)). rewrite Er.
  destruct (negb (len [(fragment_index p, p)] =? fragment_count p)) eqn:E2; [done|]. change (len [_]) with 1 in E2. lia.
Qed.

(** The same datagram twice, one delivery after the other. *)
Lemma handled_again ent ent' d from (s s1 : UdpAgentServer B) :
  server_ok s -> handle_datagram ent d from s = (Ok tt, s1) ->
  same_backend s1 (handle_datagram ent' d from s1).2.
Proof.
  intros Hs Hrun. unfold same_backend.
  assert (Hk : forall x, session s = Some x -> length (session_key x) = 16%nat)
    by (intros x Hx; by apply (session_key_length x), (server_session_ok s Hs)).
  pose proof Hrun as Hrun'. rewrite handle_datagram_receive in Hrun by done.
  destruct (receive d from (session s)) as [| |x p] eqn:Er.
  - injection Hrun as <-. by rewrite handle_datagram_receive, Er.
  - assert (Hs1 : server_ok s1) by (pose proof (ok_handle_hello ent d from s Hs) as Hok; by rewrite Hrun in Hok).
    rewrite handle_datagram_receive
      by (intros x Hx; by apply (session_key_length x), (server_session_ok s1 Hs1)).
    rewrite (receive_hello _ _ _ _ Er). apply same_hello.
  - apply receive_request in Er as Hx. destruct Hx as (Hx & _ & Hd).
    apply decode_inv in Hd as [Hp _]. pose proof (server_session_ok s Hs x Hx) as Hxok.
    destruct (handle_request_again ent ent' x p s s1 Hxok Hp Hx Hrun)
      as (x1 & Hx1 & Ha & Hi & Hkey & Hb).
    rewrite handle_datagram_receive
      by (intros x2 Hx2; rewrite Hx1 in Hx2; injection Hx2 as <-; rewrite Hkey; by apply Hk).
    rewrite Hx in Er. by rewrite Hx1, (receive_session _ _ _ _ _ Er Ha Hi Hkey).
Qed.

(** What the cache of the session becomes while a datagram that opens no session is
    handled: nothing, or one more answer and the oldest dropped. *)
Definition one_more_answer (x x' : _Session) : Prop :=
  address x' = address x /\ AgentServer.session_id x' = AgentServer.session_id x /\
  session_key x' = session_key x /\
  (response_cache x' = response_cache x \/
   exists id ds, response_cache x' = evict (response_cache x ++ [(id, ds)])).

Lemma answered_one_more x x0 id (s : UdpAgentServer B) :
  (exists p, x0 = set_pending p x) -> dict_get id (response_cache x) = None -> answered x0 id s ->
  exists x', session s = Some x' /\ one_more_answer x x'.
Proof.
  intros [p ->] Hn [ds Hs]. eexists. split; [exact Hs|]. split_and!; try done.
  right. exists id, ds. cbn. by rewrite dict_set_new by by apply dict_get_None.
Qed.

Lemma handle_datagram_cache ent d from (s s' : UdpAgentServer B) x :
  server_ok s -> session s = Some x -> receive d from (session s) <> Hello ->
  handle_datagram ent d from s = (Ok tt, s') ->
  exists x', session s' = Some x' /\ one_more_answer x x'.
Proof.
  intros Hs Hx Hno Hrun.
  assert (Hsame : exists x', session s = Some x' /\ one_more_answer x x')
    by (exists x; split; [done|]; split_and!; auto).
  rewrite handle_datagram_receive in Hrun
    by (intros y Hy; by apply (session_key_length y), (server_session_ok s Hs)).
  destruct (receive d from (session s)) as [| |y p] eqn:Er; [by injection Hrun as <-|done|].
  apply receive_request in Er as (Hy & _ & Hd). rewrite Hx in Hy. injection Hy as <-.
  apply decode_inv in Hd as [Hp _]. pose proof (server_session_ok s Hs x Hx) as Hxok.
  rewrite handle_request_cases in Hrun by by apply filed_valid.
  destruct (dict_get _ (response_cache x)) as [ds|] eqn:Ec.
  { unfold _send_cached in Hrun. destruct (each_sendto_run ent (address x) ds s) as [_ Hss].
    rewrite Hrun in Hss. cbn in Hss. by rewrite Hss. }
  assert (Hset : forall q, exists x', session (set_session (Some (set_pending q x)) s) = Some x' /\
    one_more_answer x x') by (intros q; eexists; split; [done|]; split_and!; auto).
  destruct (replayed x _).
  { apply send_error_answers in Hrun. apply (answered_one_more x x (request_id p)); [|done..].
    exists (pending x). by destruct x. }
  destruct (negb _); [by injection Hrun as <-|]. cbv zeta in Hrun.
  destruct (reassemble_packets _) as [payload|e]; [|by injection Hrun as <-].
  apply dispatch_answers in Hrun. by eapply answered_one_more; [by eexists|exact Ec|].
Qed.

(** [id] has an answer in the cache, and at most [k] answers are younger. *)
Definition cached_within (k : nat) (id : Z) (cache : dict (list bytes)) : Prop :=
  exists pre ds post, cache = pre ++ (id, ds) :: post /\ (length post <= k)%nat.

Lemma evict_None id cache : dict_get id cache = None -> dict_get id (evict cache) = None.
Proof.
  induction cache as [|[k v] cache IH]; [done|]. cbn [evict]. destruct (4 <? _); [|done].
  cbn [dict_get]. destruct (k =? id); [done|]. apply IH.
Qed.

Lemma evict_keeps k id cache :
  cached_within k id cache -> (k <= 3)%nat -> cached_within k id (evict cache).
Proof.
  intros (pre & ds & post & -> & Hl) Hk. induction pre as [|kv pre IH]; cbn [app evict].
  - destruct (Z.ltb_spec 4 (len ((id, ds) :: post))); [unfold len in *; cbn [length] in *; lia|].
    by exists [], ds, post.
  - destruct (4 <? _); [done|]. by exists (kv :: pre), ds, post.
Qed.

Lemma one_more_within k id x x' :
  one_more_answer x x' -> cached_within k id (response_cache x) -> (k < 3)%nat ->
  cached_within (S k) id (response_cache x').
Proof.
  intros (_ & _ & _ & [-> | (id' & ds' & ->)]) (pre & ds & post & -> & Hl) Hk.
  - exists pre, ds, post. split; [done|lia].
  - apply evict_keeps; [|lia]. exists pre, ds, (post ++ [(id', ds')]).
    rewrite <- app_assoc. split; [done|]. rewrite length_app. cbn. lia.
Qed.

Lemma cached_within_get k id cache : cached_within k id cache -> is_Some (dict_get id cache).
Proof.
  intros (pre & ds & post & -> & _). induction pre as [|[k' v] pre IH]; cbn.
  - by rewrite Z.eqb_refl.
  - by destruct (k' =? id).
Qed.

Definition opens_no_session (event : entropy * bytes * Address) : Prop :=
  receive event.1.2 event.2 None <> Hello.

Lemma opens_no_session_receive ent d from c : opens_no_session (ent, d, from) -> receive d from c <> Hello.
Proof. intros Hn Hc. apply Hn. by apply (receive_hello _ _ c). Qed.

(** Some datagrams later the answer is still cached, in the same session. *)
Lemma serve_cached events : forall (s s' : UdpAgentServer B) x id k,
  server_ok s -> session s = Some x -> cached_within k id (response_cache x) ->
  (k + length events <= 3)%nat -> Forall (fun ev => draws_ok ev.1.1) events ->
  Forall opens_no_session events -> serve events s = (Ok tt, s') ->
  exists x', session s' = Some x' /\ address x' = address x /\
    AgentServer.session_id x' = AgentServer.session_id x /\ session_key x' = session_key x /\
    is_Some (dict_get id (response_cache x')) /\ server_ok s'.
Proof.
  unfold serve. induction events as [|[[ent d] from] events IH]; intros s s' x id k Hs Hx Hc Hk Hd Ho Hrun.
  { injection Hrun as <-. exists x. split_and!; try done. by eapply cached_within_get. }
  cbn [fmap list_fmap serve_forever] in Hrun. rewrite bind_run in Hrun. cbn [gets] in Hrun.
  destruct (closed s).
  { injection Hrun as <-. exists x. split_and!; try done. by eapply cached_within_get. }
  apply Forall_cons in Hd as [Hd0 Hd], Ho as [Ho0 Ho]. cbn [length] in Hk.
  apply bind_Ok_inv in Hrun as ([] & s1 & Hh & Hrun).
  pose proof (ok_handle_datagram ent d from Hd0 s Hs) as Hs1. rewrite Hh in Hs1.
  destruct (handle_datagram_cache ent d from s s1 x Hs Hx) as (x1 & Hx1 & Hmore); [|done|];
    [by apply (opens_no_session_receive ent)|].
  destruct (IH s1 s' x1 id (S k)) as (x' & Hx' & Ha & Hi & Hkey & Hget & Hok); try done;
    [by eapply one_more_within; [|done|lia]|lia|].
  destruct Hmore as (Ha1 & Hi1 & Hk1 & _). exists x'. split_and!; (done || congruence).
Qed.

(** Handling a request with a cached answer does not touch the backend. *)
Lemma cached_request_keeps ent d from (s : UdpAgentServer B) x p :
  server_ok s -> receive d from (session s) = Request x p ->
  is_Some (dict_get (request_id p) (response_cache x)) ->
  same_backend s (handle_datagram ent d from s).2.
Proof.
  intros Hs Hr [ds Hc]. rewrite handle_datagram_receive
    by (intros y Hy; by apply (session_key_length y), (server_session_ok s Hs)).
  rewrite Hr. unfold handle_request. rewrite Hc. apply same_sendto_each.
Qed.

(** C24. A retransmission is not executed while its answer is cached: once a datagram
    has been handled without an exception, handling it again at once leaves the backend
    as it is, whatever it is; and if this handling answered its request, with a new
    entry of the response cache, the same is true after up to three further datagrams
    of any origin have been handled without an exception and without a hello.  (Later
    the answer may be gone, and [replayed_request_executes_again] shows a request
    executed again.) *)
Theorem retransmission_idempotent ent ent' d from (s s1 : UdpAgentServer B) :
  server_ok s -> draws_ok ent -> handle_datagram ent d from s = (Ok tt, s1) ->
  same_backend s1 (handle_datagram ent' d from s1).2 /\
  forall x p x1 events s2,
    receive d from (session s) = Request x p ->
    dict_get (request_id p) (response_cache x) = None ->
    session s1 = Some x1 -> is_Some (dict_get (request_id p) (response_cache x1)) ->
    (length events <= 3)%nat -> Forall (fun ev => draws_ok ev.1.1) events ->
    Forall opens_no_session events -> serve events s1 = (Ok tt, s2) ->
    same_backend s2 (handle_datagram ent' d from s2).2.
Proof.
  intros Hs He Hrun. split; [by eapply handled_again|].
  intros x p x1 events s2 Hr Hnone Hx1 [ds Hget] Hl Hd Ho Hserve.
  pose proof (ok_handle_datagram ent d from He s Hs) as Hs1. rewrite Hrun in Hs1.
  apply receive_request in Hr as Hx. destruct Hx as (Hx & _ & _).
  destruct (handle_datagram_cache ent d from s s1 x Hs Hx) as (x1' & Hx1' & Ha & Hi & Hk & Hc);
    [by rewrite Hr|done|]. rewrite Hx1 in Hx1'. injection Hx1' as <-.
  assert (Hwithin : cached_within 0 (request_id p) (response_cache x1)).
  { destruct Hc as [Hc|(id' & ds' & Hc)]; rewrite Hc in Hget |- *; [by rewrite Hnone in Hget|].
    apply evict_keeps; [|lia]. exists (response_cache x), ds', []. split; [|done].
    destruct (decide (id' = request_id p)) as [->|Hne]; [done|]. exfalso.
    assert (Hn : dict_get (request_id p) (response_cache x ++ [(id', ds')]) = None).
    { rewrite dict_get_app by done. cbn. by rewrite (proj2 (Z.eqb_neq _ _) Hne). }
    by rewrite evict_None in Hget. }
  destruct (serve_cached events s1 s2 x1 (request_id p) 0 Hs1 Hx1 Hwithin Hl Hd Ho Hserve)
    as (x2 & Hx2 & Ha2 & Hi2 & Hk2 & Hget2 & Hs2).
  apply (cached_request_keeps ent' d from s2 x2 p); [done| |done].
  rewrite Hx2. rewrite Hx in Hr. apply (receive_session d from x); congruence.
Qed.

(** ** Responses always go out *)
Lemma map_encode_total key ps :
  length key = 16%nat -> Forall valid_packet ps ->
  exists ds, map_result (fun p => encode p key) ps = Ok ds.
Proof.
  intros Hk. induction 1 as [|p ps Hp _ [ds Hds]]; cbn [map_result]; [eauto|].
  destruct (encode_total p key Hp Hk) as (d & Hd & _). rewrite Hd. cbn [mbind result_bind].
  rewrite Hds. cbn [mbind result_bind]. eauto.
Qed.

Lemma send_response_total ent x o id payload k (s : UdpAgentServer B) :
  session_ok x -> uint16 id -> len payload <= MAX_MESSAGE_SIZE ->
  sent_or_failed ent (_send_response ent x o id payload k s).1 /\
  answered x id (_send_response ent x o id payload k s).2.
Proof.
  intros Hx Hid Hl. assert (Hsid : uint16 (AgentServer.session_id x))
    by (destruct (session_id_range x Hx); unfold uint16; lia).
  unfold _send_response. rewrite fragment_message_Ok by done. rewrite !bind_run. cbn [lift].
  destruct (map_encode_total (session_key x) (fragments k o (AgentServer.session_id x) id payload))
    as [ds Hds]; [apply Hx|by apply fragments_valid|].
  rewrite Hds. rewrite !bind_run. cbn [lift]. rewrite !bind_run. cbn [modify].
  rewrite !bind_run. cbn [gets]. destruct (_ && _); [by split; [left|exists ds]|].
  match goal with |- context [each _ _ ?s1] =>
    destruct (each_sendto_run ent (address x) ds s1) as [Hr Hs] end.
  split; [done|]. by exists ds.
Qed.

Lemma encode_error_total code msg :
  exists payload, encode_error code msg = Ok payload /\ len payload <= 122.
Proof.
  assert (Hf : fits _ERROR ⟨int_of code⟩) by (split; [destruct code; by vm_compute|done]).
  destruct (pack_fits _ _ Hf) as [hd Hp].
  exists (hd ++ take 120 (PyText.ascii_encode_replace msg)).
  split; [unfold encode_error; by pack_with Hp|].
  apply pack_len in Hp. rewrite len_app, Hp. unfold len. rewrite length_take.
  change (calcsize _ERROR) with 2%nat. lia.
Qed.

Lemma send_error_total ent x o id code msg (s : UdpAgentServer B) :
  session_ok x -> uint16 id ->
  sent_or_failed ent (_send_error ent x o id code msg s).1 /\
  answered x id (_send_error ent x o id code msg s).2.
Proof.
  intros Hx Hid. destruct (encode_error_total code msg) as (payload & Hp & Hl).
  unfold _send_error. rewrite bind_run. cbn [lift]. rewrite Hp. apply send_response_total; [done..|].
  unfold MAX_MESSAGE_SIZE, MAX_FRAGMENT_PAYLOAD, MAX_FRAGMENTS. lia.
Qed.

(** How a hello is answered: the answer packet, and the state it leaves. *)
Lemma hello_answer ent d from (s : UdpAgentServer B) p req :
  server_ok s -> receive d from (session s) = Hello -> decode d (key s) = Ok p ->
  HelloRequest.decode (payload p) = Ok req ->
  let client := HelloRequest.client_nonce req in
  let server := Z.land (nonce_factory ent) 0xFFFFFFFF in
  exists body out sk,
    let answer := mkPacket MessageKind.RESPONSE Opcode.HELLO (hello_id client server)
      (request_id p) 0 1 body 0 in
    handle_datagram ent d from s =
      match send_error ent (length (sent s)) from out with
      | Some e => (Err e, s)
      | None => (Ok tt, set_transfer None (set_session
          (Some (mkSession from (hello_id client server) sk None [] [])) (add_sent from out s)))
      end /\
    valid_packet answer /\ encoded answer (key s) out /\
    HelloResponse.decode body =
      Ok (HelloResponse.mk client server (hello_id client server) 1024) /\
    derive_session_key (key s) client server = Ok sk.
Proof.
  intros Hs Hr Hd Hq client server.
  destruct (hello_run ent d from s p req Hs Hd Hq)
    as (body & out & sk & Hbody & Hout & _ & Hsk & _ & Hrun).
  fold client server in Hbody, Hout, Hsk, Hrun.
  pose proof (hello_id_range client server) as Hid.
  exists body, out, sk. cbv zeta.
  match type of Hout with encode ?answer _ = _ => assert (Hv : valid_packet answer) end.
  { apply decode_inv in Hd as [Hp _]. apply valid_packet_spec in Hp as (_ & _ & Hrid & _).
    apply valid_packet_spec.
    cbn [flags Packet.session_id request_id fragment_count fragment_index payload].
    apply (pack_len _HELLO_RESPONSE) in Hbody. rewrite Hbody.
    change (Z.of_nat (calcsize _HELLO_RESPONSE)) with 12. lia. }
  split_and!; [|done|by apply encode_Ok| |done].
  - rewrite handle_datagram_receive
      by (intros x Hx; by apply (session_key_length x), (server_session_ok s Hs)).
    rewrite Hr. exact Hrun.
  - apply (wire_decode_encode (c:=HelloResponse.codec)); [done|].
    split; [by eapply (pack_numeric_fits _HELLO_RESPONSE)|]. cbn. lia.
Qed.

(** C38. Session set-up agrees on both ends: an authentic hello, whenever it
    arrives, is answered by exactly one packet, which decodes under the server's
    key to a hello response for the same request id with the client's nonce and
    the server's; the new session's key is the one derived from these two nonces,
    its id is nonzero, and it starts with no transfer and nothing cached.  If the
    socket refuses the answer, its exception is raised and the server is as before. *)
Theorem hello_establishes_session ent d from (s : UdpAgentServer B) p req :
  server_ok s -> receive d from (session s) = Hello -> decode d (key s) = Ok p ->
  HelloRequest.decode (payload p) = Ok req ->
  let client := HelloRequest.client_nonce req in
  let server := Z.land (nonce_factory ent) 0xFFFFFFFF in
  exists out sk s' answer,
    handle_datagram ent d from s =
      match send_error ent (length (sent s)) from out with
      | Some e => (Err e, s)
      | None => (Ok tt, s')
      end /\ sent s' = sent s ++ [(from, out)] /\
    decode out (key s) = Ok answer /\ request_id answer = request_id p /\
    HelloResponse.decode (payload answer) =
      Ok (HelloResponse.mk client server (hello_id client server) 1024) /\
    derive_session_key (key s) client server = Ok sk /\
    session s' = Some (mkSession from (hello_id client server) sk None [] []) /\
    transfer s' = None /\ hello_id client server <> 0.
Proof.
  intros Hs Hr Hd Hq client server.
  destruct (hello_answer ent d from s p req Hs Hr Hd Hq)
    as (body & out & sk & Hrun & Hv & He & Hdec & Hsk).
  pose proof (hello_id_range client server) as Hid.
  exists out, sk, (set_transfer None (set_session
    (Some (mkSession from (hello_id client server) sk None [] [])) (add_sent from out s))).
  exists (mkPacket MessageKind.RESPONSE Opcode.HELLO (hello_id client server) (request_id p) 0 1 body 0).
  split_and!; try done; [|lia]. rewrite <- (app_nil_r out). apply decode_encoded; [done|done|by left].
Qed.

(** A rejected replay moves the replay window back: an authentic request
    outside the window (and not cached) is answered with an error, and that
    answer records the OLD request id as the last one handled, so that the
    requests after it are inside the window again. *)
Theorem replay_error_rewinds_window ent d from (s : UdpAgentServer B) x p last :
  server_ok s -> receive d from (session s) = Request x p ->
  last_request_id x = Some last -> _request_is_newer (request_id p) last = false ->
  dict_get (request_id p) (response_cache x) = None ->
  exists r s' x', handle_datagram ent d from s = (r, s') /\ sent_or_failed ent r /\
    backend s' = backend s /\ session s' = Some x' /\ last_request_id x' = Some (request_id p).
Proof.
  intros Hs Hr Hl Hn Hc. apply receive_request in Hr as Hx. destruct Hx as (Hx & _ & Hd).
  apply decode_inv in Hd as [Hp _]. pose proof (server_session_ok s Hs x Hx) as Hxok.
  rewrite handle_datagram_receive
    by (intros x' Hx'; by apply (session_key_length x'), (server_session_ok s Hs)).
  rewrite Hr, handle_request_cases by by apply filed_valid.
  rewrite Hc. unfold replayed. rewrite Hl, Hn. cbn [negb].
  destruct (send_error_total ent x (opcode p) (request_id p) ErrorCode.REPLAYED_REQUEST
    (py "request ID is outside the replay window") s Hxok) as (Hrun & ds & Hs');
    [by apply valid_packet_spec in Hp as (_ & _ & ? & _)|].
  eexists _, _, _. split; [apply surjective_pairing|]. split; [exact Hrun|].
  split; [apply same_send_error|]. split; [exact Hs'|done].
Qed.
End Safety.

(** ** Concrete runs *)
Definition keys_request (id : Z) (c : byte) : bytes :=
  match KeyRequest.encode (KeyRequest.mk [c] [] 0) with
  | Ok payload => sample_request id Opcode.SEND_KEYS payload | Err _ => [] end.

Definition ping (id : Z) : bytes := sample_request id Opcode.PING [].

(** A session that typed "a" and "b" and then pinged four times. *)
Definition typed_session : UdpAgentServer memory :=
  Eval vm_compute in (serve (event <$> [sample_hello; keys_request 1 x61; keys_request 2 x62;
    ping 3; ping 4; ping 5; ping 6]) start).2.

Lemma typed_session_ok : server_ok typed_session.
Proof.
  assert (typed_session = (serve (event <$> [sample_hello; keys_request 1 x61; keys_request 2 x62;
    ping 3; ping 4; ping 5; ping 6]) start).2) as -> by (vm_compute; reflexivity).
  apply ok_serve_forever; [solve_waits|apply start_ok].
Qed.

(** A request under another key is dropped. *)
Lemma agent_ignores_unauthenticated_witness :
  let forged := match encode (mkPacket MessageKind.REQUEST Opcode.PING (hello_id 1 0x01020304) 7 0 1 [] 0)
                        (replicate 16 x00) with Ok d => d | Err _ => [] end in
  handle_datagram sample_entropy forged bridge typed_session = (Ok tt, typed_session).
Proof.
  cbv zeta. apply agent_ignores_unauthenticated.
  - apply typed_session_ok.
  - intros [Hk|(x & Hx & _ & Hd)]; [vm_compute in Hk; discriminate|].
    vm_compute in Hx. injection Hx as <-. vm_compute in Hd. discriminate.
Defined.

Lemma hello_establishes_session_witness :
  exists out sk s' answer,
    handle_datagram sample_entropy sample_hello bridge start =
      match send_error sample_entropy (length (sent start)) bridge out with
      | Some e => (Err e, start)
      | None => (Ok tt, s')
      end /\
    sent s' = sent start ++ [(bridge, out)] /\
    decode out (key start) = Ok answer /\ request_id answer = 1 /\
    HelloResponse.decode (payload answer) = Ok (HelloResponse.mk 1 0x01020304 (hello_id 1 0x01020304) 1024) /\
    derive_session_key (key start) 1 0x01020304 = Ok sk /\
    session s' = Some (mkSession bridge (hello_id 1 0x01020304) sk None [] []) /\
    transfer s' = None /\ hello_id 1 0x01020304 <> 0.
Proof.
  apply (hello_establishes_session sample_entropy sample_hello bridge start
    (mkPacket MessageKind.REQUEST Opcode.HELLO 0 1 0 1 [x01; x00; x00; x00] 0) (HelloRequest.mk 1));
    [apply start_ok|vm_compute; reflexivity..].
Defined.

Lemma backend_reached_by_fresh_requests_witness :
  exists x p payload, session typed_session = Some x /\ address x = bridge /\
    decode (keys_request 7 x63) (session_key x) = Ok p /\
    dict_get (request_id p) (response_cache x) = None /\
    (forall last, last_request_id x = Some last ->
       0 < (request_id p - last) mod 65536 < 32768) /\
    reassemble_packets (dict_values (filed x p)) = Ok payload.
Proof.
  apply (backend_reached_by_fresh_requests sample_entropy (keys_request 7 x63) bridge typed_session).
  - apply typed_session_ok.
  - vm_compute. discriminate.
Defined.

(** The session after it typed "c" too, and after three further requests. *)
Definition typed_c : UdpAgentServer memory :=
  Eval vm_compute in (handle_datagram sample_entropy (keys_request 7 x63) bridge typed_session).2.
Definition typed_c_and_d : UdpAgentServer memory :=
  Eval vm_compute in (serve (event <$> [keys_request 8 x64; ping 9; ping 10]) typed_c).2.

Definition the_session (s : UdpAgentServer memory) : _Session :=
  default (mkSession bridge 0 [] None [] []) (session s).
Definition c_request : Packet :=
  Eval vm_compute in match decode (keys_request 7 x63) sample_session_key with
  | Ok p => p | Err _ => mkPacket MessageKind.REQUEST Opcode.PING 0 0 0 0 [] 0 end.

Lemma retransmission_idempotent_witness :
  same_backend typed_c_and_d (handle_datagram sample_entropy (keys_request 7 x63) bridge typed_c_and_d).2.
Proof.
  refine (proj2 (retransmission_idempotent sample_entropy sample_entropy (keys_request 7 x63) bridge
    typed_session typed_c typed_session_ok (entropy_draws _ sample_entropy_ok) _)
    (the_session typed_session) c_request (the_session typed_c)
    (event <$> [keys_request 8 x64; ping 9; ping 10]) typed_c_and_d _ _ _ _ _ _ _ _).
  - vm_compute. reflexivity.
  - vm_compute. reflexivity.
  - vm_compute. reflexivity.
  - reflexivity.
  - vm_compute. eexists. reflexivity.
  - exact (le_n 3).
  - repeat (apply Forall_cons_2; [exact (entropy_draws _ sample_entropy_ok)|]). apply Forall_nil_2.
  - repeat (apply Forall_cons_2; [vm_compute; discriminate|]). apply Forall_nil_2.
  - vm_compute. reflexivity.
Defined.

Lemma replay_error_rewinds_window_witness :
  exists r s' x', handle_datagram sample_entropy (keys_request 1 x61) bridge typed_session = (r, s') /\
    sent_or_failed sample_entropy r /\
    backend s' = backend typed_session /\ session s' = Some x' /\ last_request_id x' = Some 1.
Proof.
  pose proof (replay_error_rewinds_window sample_entropy (keys_request 1 x61) bridge typed_session) as Hw.
  destruct (receive (keys_request 1 x61) bridge (session typed_session)) as [| |x p] eqn:Er;
    [by vm_compute in Er..|].
  assert (Hrec : request_id p = 1 /\ last_request_id x = Some 6 /\
    dict_get (request_id p) (response_cache x) = None).
  { vm_compute in Er. injection Er as <- <-. vm_compute. done. }
  destruct Hrec as (Hp & Hl & Hc).
  destruct (Hw x p 6 typed_session_ok eq_refl Hl) as (r & s' & x' & Hrun & Hr & Hb & Hx & Hlast);
    [by rewrite Hp|done|]. rewrite Hp in Hlast. exists r, s', x'.
  exact (conj Hrun (conj Hr (conj Hb (conj Hx Hlast)))).
Defined.

(** Old requests can be executed again: in a session that typed "a" and "b"
    and then answered four pings, delivering the two old key requests again
    types "b" a second time (the first is rejected, which reopens the window
    for the second). *)
Theorem replayed_request_executes_again :
  MemoryBackend.typed (backend typed_session) = [(py "a", []); (py "b", [])] /\
  MemoryBackend.typed (backend (serve [event (keys_request 1 x61); event (keys_request 2 x62)]
    typed_session).2) = [(py "a", []); (py "b", []); (py "b", [])].
Proof. vm_compute. split; reflexivity. Qed.
