(* ===== verification/AgentTransfer.v ===== *)
(** * Robustness and transfers of the agent

    As long as the screens it captures fit one message, the server answers every
    datagram, or the socket refuses an answer, or an operation of its backend does not
    return; a download delivers the file block by block with
    its checksum, and an upload reaches the backend only with the announced
    size and checksum. *)
From S2P Require Import Prelude Dict Struct Crc Crypto Constants Packet Messages Errors.
From S2P Require Import State Backend MemoryBackend AgentServer AgentInvariant AgentSafety.
From S2P Require Models.

(** ** Bounds of the responses *)
Lemma concat_payload_bound ps :
  Forall valid_packet ps -> len (concat (payload <$> ps)) <= len ps * 1024.
Proof.
  induction 1 as [|p ps Hp _ IH]; [done|]. rewrite fmap_cons. cbn [concat].
  apply valid_packet_spec in Hp as (_ & _ & _ & _ & _ & Hl). rewrite len_app.
  replace (len (p :: ps)) with (1 + len ps) by (unfold len; cbn [length]; lia). lia.
Qed.

Lemma reassembled_bound ps data :
  Forall valid_packet ps -> reassemble_packets ps = Ok data -> len data <= MAX_MESSAGE_SIZE.
Proof.
  intros Hv Hr. destruct (reassemble_sound ps data Hv Hr) as (ps' & Hp & Hne & _ & Hc & _ & ->).
  assert (Hv' : Forall valid_packet ps') by by rewrite <- Hp.
  pose proof (concat_payload_bound ps' Hv') as Hb.
  destruct ps' as [|p ps']; [done|]. apply Forall_cons in Hc as [Hc _].
  apply Forall_cons in Hv' as [Hv1 _]. apply valid_packet_spec in Hv1 as (_ & _ & _ & ? & _).
  unfold MAX_MESSAGE_SIZE, MAX_FRAGMENT_PAYLOAD, MAX_FRAGMENTS. lia.
Qed.

Lemma pack_small fs v bs : pack fs v = Ok bs -> size fs <= 60 -> len bs <= MAX_MESSAGE_SIZE.
Proof.
  intros H%pack_len. unfold size, MAX_MESSAGE_SIZE, MAX_FRAGMENT_PAYLOAD, MAX_FRAGMENTS. lia.
Qed.

Lemma block_response_small m bs :
  TransferBlockResponse.encode m = Ok bs -> len bs <= MAX_MESSAGE_SIZE.
Proof.
  intros ((_ & Hl) & hd & -> & Hp)%TransferBlockResponse.block_response_encode_forms. apply pack_len in Hp.
  rewrite len_app, Hp. change (Z.of_nat (calcsize _TRANSFER_BLOCK_RESPONSE)) with 12.
  unfold MAX_MESSAGE_SIZE, MAX_FRAGMENT_PAYLOAD, MAX_FRAGMENTS. lia.
Qed.

Lemma screen_message_small m bs :
  ScreenMessage.encode m = Ok bs -> ScreenMessage.columns m * ScreenMessage.rows m <= 16377 ->
  len bs <= MAX_MESSAGE_SIZE.
Proof.
  unfold ScreenMessage.encode. intros H Hs. inv_ok. apply ScreenMessage.validate_Ok in E.
  apply pack_len in E0. rewrite len_app, E0. change (Z.of_nat (calcsize _SCREEN)) with 13.
  unfold MAX_MESSAGE_SIZE, MAX_FRAGMENT_PAYLOAD, MAX_FRAGMENTS. lia.
Qed.

(** ** The pure parts end

    Decoders, encoders and guards raise or return. *)
Definition returning (c : exn_class) : Prop := c <> Diverges.

Lemma raises_weaken {A} (P Q : exn_class -> Prop) (r : result A) :
  (forall c, P c -> Q c) -> raises P r -> raises Q r.
Proof. intros HPQ. destruct r as [a|e]; [done|apply HPQ]. Qed.

Lemma value_error_returns {A} (r : result A) : raises (.= ValueError) r -> raises returning r.
Proof. apply raises_weaken. by intros c ->. Qed.

Lemma pack_field_returns f v : raises returning (pack_field f v).
Proof. destruct f; cbn; unfold pack_uint, pack_int16; by repeat case_bool_decide. Qed.

Lemma pack_returns fs v : raises returning (pack fs v).
Proof.
  revert v. induction fs as [|f fs IH]; intros v; cbn [pack]; [done|].
  apply raises_bind; [apply pack_field_returns|]. intros b _. apply raises_bind; [apply IH|done].
Qed.

Lemma zip_strict_returns {A B} (l : list A) (k : list B) : raises returning (zip_strict l k).
Proof.
  revert k. induction l as [|x l IH]; intros [|y k]; cbn [zip_strict]; try done.
  apply raises_bind; [apply IH|done].
Qed.

Ltac returning_step :=
  match goal with
  | |- raises _ (_ ≫= _) => apply raises_bind; [|intros ? _]
  | |- raises _ (raise_if _ _ _) => by apply raises_raise_if
  | |- raises _ (raise _ _) => done
  | |- raises _ (Ok _) => exact I
  | |- raises _ (pack _ _) => apply pack_returns
  | |- raises _ (zip_strict _ _) => apply zip_strict_returns
  | |- raises _ (map_result _ _) => apply raises_map_result; intros ? _
  | |- raises _ (_ <$> ?r) => change (raises returning (r ≫= fun x => Ok (Some x)))
  | |- raises _ (if ?c then _ else _) => destruct c
  | |- raises _ (match ?x with _ => _ end) => destruct x
  | |- raises _ (?f _) => unfold f
  | |- raises _ (?f _ _) => unfold f
  end.
Ltac solve_returning :=
  lazymatch goal with
  | |- raises _ (KeyRequest.decode _) =>
      exact (value_error_returns _ (wire_decode_raises (c:=KeyRequest.codec) _))
  | |- raises _ (FileReadBeginRequest.decode _) =>
      exact (value_error_returns _ (wire_decode_raises (c:=FileReadBeginRequest.codec) _))
  | |- raises _ (FileWriteBeginRequest.decode _) =>
      exact (value_error_returns _ (wire_decode_raises (c:=FileWriteBeginRequest.codec) _))
  | |- raises _ (TransferEndRequest.decode _) =>
      exact (value_error_returns _ (wire_decode_raises (c:=TransferEndRequest.codec) _))
  | |- raises _ (TransferBlockRequest.decode ?b _) =>
      exact (value_error_returns _ (wire_decode_raises (c:=TransferBlockRequest.codec b) _))
  | |- _ => repeat returning_step
  end.

Section Robust.
Context {B : Type} `{Backend B}.
Local Abbreviation M := (stateful (UdpAgentServer B)).

(** A computation whose response fits one message. *)
Definition bounded (m : M (option bytes)) : Prop :=
  forall s r s', m s = (Ok (Some r), s') -> len r <= MAX_MESSAGE_SIZE.
Definition bounded_bytes (m : M bytes) : Prop :=
  forall s r s', m s = (Ok r, s') -> len r <= MAX_MESSAGE_SIZE.

Lemma bounded_bind {A} (m : M A) f : (forall a, bounded (f a)) -> bounded (m ≫= f).
Proof. intros Hf s r s'. rewrite bind_run. destruct (m s) as [[a|] s1]; [apply Hf|done]. Qed.
Lemma bounded_bytes_bind {A} (m : M A) f : (forall a, bounded_bytes (f a)) -> bounded_bytes (m ≫= f).
Proof. intros Hf s r s'. rewrite bind_run. destruct (m s) as [[a|] s1]; [apply Hf|done]. Qed.
Lemma bounded_fmap (m : M bytes) : bounded_bytes m -> bounded (Some <$> m).
Proof.
  intros Hm s r s'. unfold fmap, stateful_fmap. specialize (Hm s).
  destruct (m s) as [[a|] s1]; [|done]. intros [= <- <-]. by eapply Hm.
Qed.
Lemma bounded_bytes_lift (r : result bytes) :
  (forall bs, r = Ok bs -> len bs <= MAX_MESSAGE_SIZE) -> bounded_bytes (lift r).
Proof. intros Hr s bs s' [= -> _]. by apply Hr. Qed.
Lemma bounded_lift (r : result bytes) :
  (forall bs, r = Ok bs -> len bs <= MAX_MESSAGE_SIZE) -> bounded (lift (Some <$> r)).
Proof. intros Hr s bs s'. destruct r as [a|]; [|done]. intros [= <- _]. by apply Hr. Qed.
Lemma bounded_lift_bind {A} (r : result A) (f : A -> result bytes) :
  (forall a bs, r = Ok a -> f a = Ok bs -> len bs <= MAX_MESSAGE_SIZE) ->
  bounded (lift (r ≫= fun a => Some <$> f a)).
Proof.
  intros Hr s bs s'. destruct r as [a|]; [|done]. cbn. destruct (f a) as [b|] eqn:E; [|done].
  intros [= <- _]. by eapply Hr.
Qed.

Lemma bounded_read request k : bounded_bytes (_read_transfer_block request k).
Proof.
  unfold _read_transfer_block. repeat (apply bounded_bytes_bind; intros ?).
  apply bounded_bytes_lift, block_response_small.
Qed.

Lemma bounded_write request : bounded_bytes (_write_transfer_block request).
Proof.
  unfold _write_transfer_block. repeat (apply bounded_bytes_bind; intros ?).
  apply bounded_bytes_lift, block_response_small.
Qed.

(** A response encoded last but returned after a change of state. *)
Lemma bounded_last (r : result bytes) (f : UdpAgentServer B -> UdpAgentServer B) :
  (forall bs, r = Ok bs -> len bs <= MAX_MESSAGE_SIZE) ->
  bounded_bytes (bs ← lift r; modify f;; mret bs).
Proof.
  intros Hr s bs s'. rewrite bind_run. cbn [lift]. destruct r as [b|]; [|done].
  intros [= <- _]. by apply Hr.
Qed.

Lemma bounded_end request k : bounded_bytes (_end_read_transfer request k).
Proof.
  unfold _end_read_transfer. do 2 (apply bounded_bytes_bind; intros ?).
  apply bounded_last. intros bs Hb. by eapply pack_small.
Qed.

Lemma bounded_commit request : bounded_bytes (_commit_write_transfer request).
Proof.
  unfold _commit_write_transfer. do 3 (apply bounded_bytes_bind; intros ?).
  apply bounded_last. intros bs Hb. by eapply pack_small.
Qed.

(** The screens of the backend fit one message. *)
Definition small_screens : Prop :=
  forall (b : B) screen b', capture_screen b = (Ok screen, b') ->
    Models.columns screen * Models.rows screen <= 16377.

Lemma on_backend_run {A} (m : stateful B A) (s s' : UdpAgentServer B) a :
  on_backend m s = (Ok a, s') -> exists b', m (backend s) = (Ok a, b').
Proof. unfold on_backend. destruct (m (backend s)) as [r b']. intros [= -> _]. eauto. Qed.

Lemma bounded_screen payload :
  small_screens -> bounded (lift (_require_empty payload);; screen ← on_backend capture_screen;
    lift (m ← _screen_message screen; Some <$> ScreenMessage.encode m)).
Proof.
  intros Hsmall. apply bounded_bind. intros _ s r s'. rewrite bind_run.
  destruct (on_backend capture_screen s) as [[screen|] s1] eqn:E; [|done].
  apply on_backend_run in E as [b' Hc]. apply Hsmall in Hc. revert s1 r s'.
  change (bounded (lift (m ← _screen_message screen; Some <$> ScreenMessage.encode m))).
  apply bounded_lift_bind. intros m bs Hm Hb. eapply screen_message_small; [exact Hb|].
  unfold _screen_message in Hm. by inv_ok.
Qed.

Lemma bounded_operation ent x o id payload :
  small_screens -> len payload <= MAX_MESSAGE_SIZE -> bounded (operation ent x o id payload).
Proof.
  intros Hsmall Hp. destruct o; cbn [operation];
    try solve [by apply bounded_screen];
    repeat first
      [ apply bounded_fmap; first [apply bounded_read|apply bounded_write|apply bounded_end|apply bounded_commit]
      | apply bounded_lift; intros ? Hb; by eapply pack_small
      | apply bounded_lift_bind; intros ? ? _ Hb; by eapply pack_small
      | apply bounded_bind; intros ?
      | by intros ? ? ? [= <- _] ].
Qed.

(** ** What leaves the server

    The exception [e] comes from an operation of the backend in state [b]. *)
Inductive raised_by (b : B) (e : exn) : Prop :=
| by_get_status b' : get_status b = (Err e, b') -> raised_by b e
| by_get_capabilities b' : get_capabilities b = (Err e, b') -> raised_by b e
| by_capture_screen b' : capture_screen b = (Err e, b') -> raised_by b e
| by_capture_graphics b' : capture_graphics b = (Err e, b') -> raised_by b e
| by_send_keys text keys delay settle b' :
    send_keys text keys delay settle b = (Err e, b') -> raised_by b e
| by_download_file path b' : download_file path b = (Err e, b') -> raised_by b e
| by_upload_file path content overwrite b' :
    upload_file path content overwrite b = (Err e, b') -> raised_by b e.

(** An operation of the backend that does not return. *)
Definition hangs (e : exn) : Prop := diverges e = true /\ exists b : B, raised_by b e.

(** If [m] does not end, a call of the backend does not. *)
Definition traced {A} (m : M A) : Prop :=
  forall s e s', m s = (Err e, s') -> diverges e = true -> exists b : B, raised_by b e.

Lemma traced_bind {A C} (m : M A) (f : A -> M C) : traced m -> (forall a, traced (f a)) -> traced (m ≫= f).
Proof.
  intros Hm Hf s e s'. rewrite bind_run. destruct (m s) as [[a|e'] s1] eqn:E; [apply Hf|].
  intros [= <- <-]. by eapply Hm.
Qed.
Lemma traced_fmap {A C} (m : M A) (f : A -> C) : traced m -> traced (f <$> m).
Proof.
  intros Hm s e s'. unfold fmap, stateful_fmap. destruct (m s) as [[a|e'] s1] eqn:E; [done|].
  intros [= <- <-]. by eapply Hm.
Qed.
Lemma traced_lift {A} (r : result A) : raises returning r -> traced (lift r).
Proof. intros Hr s e s' [= -> <-] Hd. by apply bool_decide_eq_true in Hd. Qed.
Lemma traced_ret {A} (a : A) : traced (mret a).
Proof. by intros s e s'. Qed.
Lemma traced_gets {A} (f : _ -> A) : traced (gets f).
Proof. by intros s e s'. Qed.
Lemma traced_modify f : traced (modify f).
Proof. by intros s e s'. Qed.
Lemma traced_backend {A} (m : stateful B A) :
  (forall b e b', m b = (Err e, b') -> raised_by b e) -> traced (on_backend m).
Proof.
  intros Hm s e s'. unfold on_backend. destruct (m (backend s)) as [r b] eqn:E. intros [= -> <-] _.
  exists (backend s). by eapply Hm.
Qed.

Ltac solve_traced := repeat match goal with
  | |- traced (_ ≫= _) => apply traced_bind; [|intros ?]
  | |- traced (_ <$> _) => apply traced_fmap
  | |- traced (mret _) => apply traced_ret
  | |- traced (gets _) => apply traced_gets
  | |- traced (modify _) => apply traced_modify
  | |- traced (fail _) => apply traced_lift; by cbn
  | |- traced (lift _) => apply traced_lift; solve_returning
  | |- traced (on_backend _) => apply traced_backend; intros ???; by econstructor
  | |- traced (match ?x with _ => _ end) => destruct x
  end.

Lemma traced_start ent k d : traced (_start_transfer ent k d).
Proof. unfold _start_transfer. solve_traced. Qed.
Lemma traced_require id k : traced (_require_transfer id k).
Proof. unfold _require_transfer. solve_traced. Qed.
Ltac traced_transfer := first [apply traced_start|apply traced_require].

Lemma traced_read request k : traced (_read_transfer_block request k).
Proof. unfold _read_transfer_block. solve_traced. traced_transfer. Qed.
Lemma traced_end request k : traced (_end_read_transfer request k).
Proof. unfold _end_read_transfer. solve_traced. traced_transfer. Qed.
Lemma traced_write request : traced (_write_transfer_block request).
Proof. unfold _write_transfer_block. solve_traced. traced_transfer. Qed.
Lemma traced_commit request : traced (_commit_write_transfer request).
Proof. unfold _commit_write_transfer. solve_traced. traced_transfer. Qed.

(** A supported operation ends unless a call of the backend does not. *)
Lemma traced_operation ent x o id payload :
  match o with Opcode.HELLO | Opcode.CANCEL | Opcode.GET_DIAGNOSTICS => False | _ => True end ->
  traced (operation ent x o id payload).
Proof.
  intros Ho. destruct o; try done; cbn [operation]; solve_traced;
    first [traced_transfer|apply traced_read|apply traced_end|apply traced_write|apply traced_commit].
Qed.

(** ** Handling a datagram

    It is answered or dropped, or the socket refuses a datagram, or an operation of the
    backend does not return. *)
Definition handled (ent : entropy) (r : result unit) : Prop :=
  sent_or_failed ent r \/ exists e, r = Err e /\ hangs e.

Lemma send_error_ends {A} ent x o id code msg (a : A) (s s1 : UdpAgentServer B) e :
  (_send_error ent x o id code msg;; mret a) s = (Err e, s1) ->
  session_ok x -> uint16 id -> (forall e, send_fails ent e -> diverges e = false) -> diverges e = false.
Proof.
  rewrite bind_run. intros Hrun Hx Hid Hfail.
  destruct (send_error_total ent x o id code msg s Hx Hid) as [[Hr|(e' & Hr & Hf)] _];
    destruct (_send_error ent x o id code msg s) as [[[]|e''] s2]; try done.
  cbn in Hr. injection Hr as ->. injection Hrun as <- _. by apply Hfail.
Qed.

Lemma dispatch_total ent x o id payload (s : UdpAgentServer B) :
  small_screens -> session_ok x -> uint16 id -> len payload <= MAX_MESSAGE_SIZE ->
  (forall e, send_fails ent e -> diverges e = false) ->
  handled ent (_dispatch ent x o id payload s).1.
Proof.
  intros Hsmall Hx Hid Hp Hfail. unfold _dispatch. rewrite bind_run. unfold catch.
  destruct (operation ent x o id payload s) as [[[r|]|e] s1] eqn:Eo.
  - left. apply send_response_total; [done..|]. by eapply bounded_operation.
  - left. by left.
  - destruct (diverges e) eqn:Ed.
    + right. exists e. split; [done|]. split; [done|].
      destruct o; try (refine (traced_operation ent x _ id payload _ s e s1 Eo Ed); exact Logic.I);
        apply send_error_ends in Eo; (done || congruence).
    + left. rewrite bind_run. destruct (is_value_error (exn_cls e));
        match goal with |- context [_send_error ?ent ?x ?o ?id ?c ?m ?s] =>
          destruct (send_error_total ent x o id c m s Hx Hid) as [Hr _];
          destruct (_send_error ent x o id c m s) as [[[]|e'] s2] end; exact Hr.
Qed.

Lemma handle_datagram_returns ent d from (s : UdpAgentServer B) :
  small_screens -> server_ok s -> (forall e, send_fails ent e -> diverges e = false) ->
  handled ent (handle_datagram ent d from s).1.
Proof.
  intros Hsmall Hs Hfail. rewrite handle_datagram_receive
    by (intros x Hx; by apply (session_key_length x), (server_session_ok s Hs)).
  destruct (receive d from (session s)) as [| |x p] eqn:Er; [exact (or_introl (or_introl eq_refl))|..].
  - left. destruct (decode d (key s)) as [p|e] eqn:Ed; [|rewrite hello_ignored; [by left|done|by rewrite Ed]].
    destruct (HelloRequest.decode (payload p)) as [req|e] eqn:Eq.
    + destruct (hello_run ent d from s p req Hs Ed Eq) as (body & out & sk & _ & _ & _ & _ & _ & ->).
      destruct (send_error _ _ _ _) as [e|] eqn:E; [|by left]. right. exists e.
      split; [done|]. by eexists _, _, _.
    + left. unfold _handle_hello. rewrite bind_run. cbn [gets]. rewrite Ed.
      cbn [mbind result_bind]. rewrite Eq. cbn [mbind result_bind].
      pose proof (wire_decode_raises (c:=HelloRequest.codec) (payload p)) as Hr. cbn in Hr.
      rewrite Eq in Hr. cbn in Hr. by rewrite Hr.
  - apply receive_request in Er as (Hx & _ & Hd). apply decode_inv in Hd as [Hp _].
    pose proof (server_session_ok s Hs x Hx) as Hxok.
    assert (Hid : uint16 (request_id p)) by by apply valid_packet_spec in Hp as (_ & _ & ? & _).
    rewrite handle_request_cases by by apply filed_valid.
    destruct (dict_get _ _) as [ds|]; [left; apply each_sendto_run|].
    destruct (replayed _ _); [left; by apply send_error_total|].
    destruct (negb _); [exact (or_introl (or_introl eq_refl))|]. cbv zeta.
    destruct (reassemble_packets _) as [payload|e] eqn:Ere; [|exact (or_introl (or_introl eq_refl))].
    apply dispatch_total; [done| |done| |done].
    + destruct (make_room_ok (request_id p) (pending x)) as (Htd & Htf & Htl); [apply Hxok..|].
      apply session_pending_set_ok; [done| | |].
      * by apply dict_pop_ok, dict_set_ok.
      * etrans; [apply len_dict_pop|apply Htl].
      * apply dict_pop_Forall, dict_set_Forall; [|done]. by apply filed_ok.
    + eapply reassembled_bound; [|exact Ere]. by apply filed_valid.
Qed.
End Robust.

Lemma slice_app {A} (l : list A) a b c :
  0 <= a <= b -> b <= c -> slice l a b ++ slice l b c = slice l a c.
Proof.
  intros. unfold slice. rewrite <- (take_drop (Z.to_nat b - Z.to_nat a) (take (Z.to_nat c - Z.to_nat a) _)).
  rewrite take_take, Nat.min_l by lia. f_equal. rewrite skipn_firstn_comm, drop_drop.
  f_equal; [lia|]. f_equal. lia.
Qed.

(** ** Downloads *)
Section Transfers.
Context {B : Type} `{Backend B}.
Local Abbreviation M := (stateful (UdpAgentServer B)).

Lemma require_transfer_Some id k (s : UdpAgentServer B) t :
  transfer s = Some t -> transfer_id t = id -> AgentServer.kind t = k ->
  _require_transfer id k s = (Ok t, s).
Proof.
  intros Ht <- <-. unfold _require_transfer. rewrite bind_run. cbn [gets]. rewrite Ht.
  by rewrite Z.eqb_refl, bool_decide_eq_true_2.
Qed.

Lemma set_transfer_idem t u (s : UdpAgentServer B) :
  set_transfer t (set_transfer u s) = set_transfer t s.
Proof. done. Qed.

Lemma block_response_decode m :
  TransferBlockResponse.valid m ->
  exists bs, TransferBlockResponse.encode m = Ok bs /\ TransferBlockResponse.decode bs = Ok m.
Proof.
  intros Hm. pose proof (wire_encode_sends (c:=TransferBlockResponse.codec) m) as He.
  pose proof (proj1 (is_ok_iff _) (proj2 He Hm)) as [bs Hb]. exists bs.
  split; [done|]. by apply (wire_decode_encode (c:=TransferBlockResponse.codec)).
Qed.

(** One block read at the running offset. *)
Lemma read_block_run n k (s : UdpAgentServer B) t :
  transfer s = Some t -> AgentServer.kind t = k -> k <> file_write -> transfer_ok t ->
  len (data t) < 2 ^ 32 -> 0 < n <= 900 ->
  let block := slice (data t) (offset t) (offset t + n) in
  let t' := advance (data t) block t in
  exists bs,
    _read_transfer_block (TransferBlockRequest.mk (transfer_id t) (offset t) n []) k s =
      (Ok bs, set_transfer (Some t') s) /\
    TransferBlockResponse.decode bs = Ok (TransferBlockResponse.mk (transfer_id t) (offset t) block
      (AgentServer.crc32 t')).
Proof.
  intros Ht Hk Hkw Hok Hl Hn block t'.
  destruct (block_response_decode (TransferBlockResponse.mk (transfer_id t) (offset t) block
    (AgentServer.crc32 t'))) as (bs & Hbs & Hd).
  { pose proof (slice_length_le (data t) (offset t) (offset t + n)) as Hb. fold block in Hb.
    destruct Hok as [Hid Ho _ _]. pose proof (len_nonneg block).
    pose proof (crc32_from_range (AgentServer.crc32 t) block).
    split; [|cbn [TransferBlockResponse.data]; lia].
    unfold fits, TransferBlockResponse.fields. cbn. lia. }
  exists bs. split; [|done]. unfold _read_transfer_block. cbn [TransferBlockRequest.transfer_id
    TransferBlockRequest.offset TransferBlockRequest.length].
  rewrite bind_run, (require_transfer_Some _ _ _ t) by done.
  rewrite bind_run, Z.eqb_refl. cbn [negb raise_if lift]. rewrite bind_run. cbn [modify].
  fold block t'. by rewrite Hbs.
Qed.

(** A client reading blocks of the given lengths one after the other. *)
Fixpoint read_blocks (id : Z) (k : transfer_kind) (off : Z) (lens : list Z) :
    M (list TransferBlockResponse.t) :=
  match lens with
  | [] => mret []
  | n :: lens =>
      bs ← _read_transfer_block (TransferBlockRequest.mk id off n []) k;
      m ← lift (TransferBlockResponse.decode bs);
      ms ← read_blocks id k (off + len (TransferBlockResponse.data m)) lens;
      mret (m :: ms)
  end.

Lemma read_blocks_run lens : forall k (s : UdpAgentServer B) t,
  transfer s = Some t -> AgentServer.kind t = k -> k <> file_write -> transfer_ok t ->
  len (data t) < 2 ^ 32 -> Forall (fun n => 0 < n <= 900) lens ->
  exists ms t', read_blocks (transfer_id t) k (offset t) lens s = (Ok ms, set_transfer (Some t') s) /\
    transfer_ok t' /\ transfer_id t' = transfer_id t /\ AgentServer.kind t' = k /\ data t' = data t /\
    offset t' = Z.min (offset t + foldr Z.add 0 lens) (len (data t)) /\
    concat (TransferBlockResponse.data <$> ms) = slice (data t) (offset t) (offset t').
Proof.
  induction lens as [|n lens IH]; intros k s t Ht Hk Hkw Hok Hl Hf.
  - exists [], t. pose proof (transfer_offset_range t Hok). cbn [foldr read_blocks].
    split_and!; try done; [|lia|].
    + destruct s; cbn in *. by subst.
    + cbn. unfold slice. by rewrite Nat.sub_diag.
  - apply Forall_cons in Hf as [Hn Hf].
    destruct (read_block_run n k s t Ht Hk Hkw Hok Hl Hn) as (bs & Hrun & Hd). cbv zeta in *.
    set (block := slice (data t) (offset t) (offset t + n)) in *.
    set (t1 := advance (data t) block t) in *.
    assert (Hok1 : transfer_ok t1) by (apply transfer_ok_read; [done|congruence|lia]).
    destruct (IH k (set_transfer (Some t1) s) t1) as (ms & t' & Hrun' & Hok' & Hid' & Hk' & Hdata' & Ho' & Hc');
      [done..|].
    assert (Hb : len block = Z.min n (len (data t) - offset t)).
    { pose proof (transfer_offset_range t Hok). unfold block. rewrite slice_clip, len_slice; lia. }
    pose proof (transfer_offset_range t Hok) as Hr.
    assert (Hsum : 0 <= foldr Z.add 0 lens).
    { clear -Hf. induction Hf; cbn [foldr]; lia. }
    exists (TransferBlockResponse.mk (transfer_id t) (offset t) block (AgentServer.crc32 t1) :: ms), t'.
    cbn [t1 advance offset data transfer_id AgentServer.kind] in *. split_and!; try done.
    + cbn [read_blocks]. rewrite bind_run, Hrun, bind_run, Hd. cbn [lift TransferBlockResponse.data].
      rewrite bind_run. rewrite Hrun'. done.
    + rewrite Ho'. cbn [foldr]. lia.
    + rewrite fmap_cons. cbn [concat TransferBlockResponse.data]. rewrite Hc', Hb.
      rewrite Hb in Ho'. unfold block. rewrite slice_clip.
      replace (Z.min (offset t + n) (len (data t))) with (offset t + Z.min n (len (data t) - offset t)) by lia.
      apply slice_app; lia.
Qed.

(** A download delivers the file: from the start of a read transfer (file or
    framebuffer), reading blocks of 1 to 900 bytes one after the other until
    their sum covers the data gives blocks whose concatenation is exactly the
    data; the end request then reports its length and CRC-32 and frees the
    transfer. *)
Theorem download_delivers k (s : UdpAgentServer B) t lens :
  transfer s = Some t -> AgentServer.kind t = k -> k <> file_write -> transfer_ok t ->
  offset t = 0 -> len (data t) < 2 ^ 32 -> Forall (fun n => 0 < n <= 900) lens ->
  len (data t) <= foldr Z.add 0 lens ->
  exists ms bs s',
    read_blocks (transfer_id t) k 0 lens s = (Ok ms, s') /\
    concat (TransferBlockResponse.data <$> ms) = data t /\
    _end_read_transfer (TransferEndRequest.mk (transfer_id t)) k s' = (Ok bs, set_transfer None s) /\
    TransferEndResponse.decode bs =
      Ok (TransferEndResponse.mk (len (data t)) (crc32_from 0 (data t))).
Proof.
  intros Ht Hk Hkw Hok Ho Hl Hf Hsum.
  destruct (read_blocks_run lens k s t Ht Hk Hkw Hok Hl Hf)
    as (ms & t' & Hrun & Hok' & Hid' & Hk' & Hd' & Ho' & Hc).
  rewrite Ho in *. rewrite Z.min_r in Ho' by lia. pose proof (len_nonneg (data t)).
  destruct (pack_fits _TRANSFER_END_RESPONSE ⟨len (data t), crc32_from 0 (data t)⟩) as [bs Hbs].
  { pose proof (crc32_from_range 0 (data t)). unfold fits. cbn. lia. }
  exists ms, bs, (set_transfer (Some t') s). split_and!; [done| | |].
  - rewrite Hc, Ho'. unfold slice. rewrite Nat.sub_0_r, drop_0. apply take_ge. unfold len. lia.
  - unfold _end_read_transfer. cbn [TransferEndRequest.transfer_id].
    rewrite bind_run, (require_transfer_Some _ _ _ t') by done.
    rewrite Hd', Ho', Z.eqb_refl. rewrite bind_run. cbn [negb raise_if lift].
    assert (Hcrc : AgentServer.crc32 t' = crc32_from 0 (data t)).
    { rewrite (transfer_crc t' Hok'), Hd', Ho'. f_equal. apply take_ge. unfold len. lia. }
    rewrite bind_run. unfold TransferEndResponse.encode. cbn [TransferEndResponse.total_size TransferEndResponse.crc32].
    rewrite Hcrc. pack_with Hbs. done.
  - by apply (wire_decode_encode (c:=TransferEndResponse.codec));
      [|eapply (pack_numeric_fits _TRANSFER_END_RESPONSE)].
Qed.

(** ** Uploads *)
Lemma write_block_run block (s : UdpAgentServer B) t :
  transfer s = Some t -> AgentServer.kind t = file_write -> transfer_ok t -> len block <= 900 ->
  offset t + len block <= expected_size t ->
  let t' := advance (data t ++ block) block t in
  exists bs,
    _write_transfer_block (TransferBlockRequest.mk (transfer_id t) (offset t) (len block) block) s =
      (Ok bs, set_transfer (Some t') s) /\
    TransferBlockResponse.decode bs =
      Ok (TransferBlockResponse.mk (transfer_id t) (offset t) [] (AgentServer.crc32 t')).
Proof.
  intros Ht Hk Hok Hn He t'. pose proof (transfer_upload t Hok Hk).
  destruct (block_response_decode (TransferBlockResponse.mk (transfer_id t) (offset t) []
    (AgentServer.crc32 t'))) as (bs & Hbs & Hd).
  { destruct Hok as [Hid Ho _ _]. pose proof (crc32_from_range (AgentServer.crc32 t) block).
    split; [|done]. unfold fits, TransferBlockResponse.fields. cbn. change (len (@nil byte)) with 0. lia. }
  exists bs. split; [|done]. unfold _write_transfer_block. cbn [TransferBlockRequest.transfer_id
    TransferBlockRequest.offset TransferBlockRequest.data].
  rewrite bind_run, (require_transfer_Some _ _ _ t) by done.
  rewrite bind_run, Z.eqb_refl, (proj2 (Z.ltb_ge _ _) He). cbn [negb orb raise_if lift].
  rewrite bind_run. cbn [modify]. fold t'. by rewrite Hbs.
Qed.

(** A client sending blocks one after the other. *)
Fixpoint write_blocks (id off : Z) (blocks : list bytes) : M unit :=
  match blocks with
  | [] => mret tt
  | block :: blocks =>
      _write_transfer_block (TransferBlockRequest.mk id off (len block) block);;
      write_blocks id (off + len block) blocks
  end.

Lemma write_blocks_run blocks : forall (s : UdpAgentServer B) t,
  transfer s = Some t -> AgentServer.kind t = file_write -> transfer_ok t ->
  Forall (fun b => len b <= 900) blocks -> offset t + len (concat blocks) <= expected_size t ->
  exists t', write_blocks (transfer_id t) (offset t) blocks s = (Ok tt, set_transfer (Some t') s) /\
    transfer_ok t' /\ AgentServer.kind t' = file_write /\ transfer_id t' = transfer_id t /\
    data t' = data t ++ concat blocks /\ path t' = path t /\ overwrite t' = overwrite t /\
    expected_size t' = expected_size t /\ expected_crc32 t' = expected_crc32 t.
Proof.
  induction blocks as [|b blocks IH]; intros s t Ht Hk Hok Hf He.
  - exists t. cbn [concat write_blocks]. rewrite app_nil_r. split_and!; try done.
    destruct s; cbn in *. by subst.
  - apply Forall_cons in Hf as [Hb Hf]. change (concat (b :: blocks)) with (b ++ concat blocks) in *. rewrite len_app in He.
    pose proof (len_nonneg (concat blocks)).
    destruct (write_block_run b s t Ht Hk Hok Hb) as (bs & Hrun & _); [lia|]. cbv zeta in *.
    set (t1 := advance (data t ++ b) b t) in *.
    assert (Hok1 : transfer_ok t1) by (apply transfer_ok_write; [done|done|lia]).
    destruct (IH (set_transfer (Some t1) s) t1) as (t' & Hrun' & Hok' & Hk' & Hid' & Hd' & Hp & Ho & Hs & Hc);
      [done..|change (offset t + len b + len (concat blocks) <= expected_size t); lia|].
    exists t'. split_and!; try done.
    + cbn [write_blocks]. rewrite bind_run, Hrun. exact Hrun'.
    + rewrite Hd'. cbn [t1 advance data concat]. by rewrite app_assoc.
Qed.

(** An upload reaches the backend whole: sending the blocks of a file one
    after the other to a fresh upload announced with the file's size and CRC-32
    and then committing calls the backend's [upload_file] exactly once, with the
    announced path and flag and the concatenation of the blocks; its receipt is
    returned and the transfer freed. *)
Theorem upload_delivers blocks (s : UdpAgentServer B) t receipt b' :
  transfer s = Some t -> AgentServer.kind t = file_write -> transfer_ok t -> offset t = 0 ->
  Forall (fun b => len b <= 900) blocks -> expected_size t = len (concat blocks) ->
  expected_crc32 t = crc32_from 0 (concat blocks) ->
  upload_file (path t) (concat blocks) (overwrite t) (backend s) = (Ok receipt, b') ->
  TransferEndResponse.valid
    (TransferEndResponse.mk (Models.receipt_size receipt) (Models.receipt_crc32 receipt)) ->
  exists s' bs,
    write_blocks (transfer_id t) 0 blocks s = (Ok tt, s') /\ backend s' = backend s /\
    _commit_write_transfer (TransferEndRequest.mk (transfer_id t)) s' =
      (Ok bs, set_transfer None (set_backend b' s)) /\
    TransferEndResponse.decode bs =
      Ok (TransferEndResponse.mk (Models.receipt_size receipt) (Models.receipt_crc32 receipt)).
Proof.
  intros Ht Hk Hok Ho Hf Hsize Hcrc Hup Hv.
  assert (Hd : data t = []).
  { destruct (transfer_upload t Hok Hk). apply len_nil_inv. lia. }
  destruct (write_blocks_run blocks s t Ht Hk Hok Hf)
    as (t' & Hrun & Hok' & Hk' & Hid' & Hd' & Hp & Hov & Hs & Hc); [lia|].
  rewrite Ho in Hrun. rewrite Hd in Hd'. cbn [app] in Hd'.
  destruct (pack_fits _ _ Hv) as [bs Hbs].
  exists (set_transfer (Some t') s), bs. split_and!; [done|done| |].
  - unfold _commit_write_transfer. cbn [TransferEndRequest.transfer_id].
    rewrite bind_run, (require_transfer_Some _ _ _ t') by done.
    destruct (transfer_upload t' Hok' Hk') as [Hoff _]. rewrite Hd' in Hoff.
    rewrite (transfer_crc t' Hok'), Hd', Hoff, Hs, Hc, Hsize, Hcrc, Z.eqb_refl.
    rewrite take_ge by (unfold len; lia). rewrite Z.eqb_refl.
    rewrite bind_run. cbn [negb orb raise_if lift]. rewrite bind_run.
    unfold on_backend. cbn [backend set_transfer]. rewrite Hp, Hov, Hup. rewrite bind_run.
    unfold TransferEndResponse.encode. cbn [lift TransferEndResponse.total_size TransferEndResponse.crc32].
    pack_with Hbs. done.
  - by apply (wire_decode_encode (c:=TransferEndResponse.codec)).
Qed.

(** An upload that is complete: all the announced bytes, with the announced
    checksum. *)
Definition complete_upload (t : _Transfer) : Prop :=
  AgentServer.kind t = file_write /\ len (data t) = expected_size t /\
  crc32_from 0 (data t) = expected_crc32 t.

(** Only verified data is stored: in any state satisfying the invariant, a
    commit that changes the backend does so by one [upload_file] call whose data
    has the announced length and the announced CRC-32. *)
Theorem commit_stores_verified_data request (s : UdpAgentServer B) :
  server_ok s -> backend (_commit_write_transfer request s).2 <> backend s ->
  exists t, transfer s = Some t /\ transfer_id t = TransferEndRequest.transfer_id request /\
    complete_upload t /\
    backend (_commit_write_transfer request s).2 =
      (upload_file (path t) (data t) (overwrite t) (backend s)).2.
Proof.
  intros Hs. unfold _commit_write_transfer. rewrite bind_run.
  destruct (_require_transfer _ _ s) as [[t|] s0] eqn:Er.
  2: { intros Hne. exfalso. apply Hne. revert Er. unfold _require_transfer. rewrite bind_run. cbn [gets].
       destruct (transfer s); [case_match|]; by intros [= _ <-]. }
  apply require_transfer_run in Er as (-> & Ht & Hid & Hk). rewrite bind_run.
  destruct (_ || _) eqn:Eg; [done|]. cbn [raise_if lift]. rewrite bind_run.
  unfold on_backend. destruct (upload_file _ _ _ _) as [r b'] eqn:Eu. cbn [snd]. intros _.
  pose proof (server_transfer_ok s Hs t Ht) as Hok. destruct (transfer_upload t Hok Hk) as [Ho _].
  exists t. rewrite Eu. bool_to_prop. unfold complete_upload. split_and!; try done; [lia| |].
  - transitivity (AgentServer.crc32 t); [|lia].
    rewrite (transfer_crc t Hok), take_ge; [done|]. unfold len in Ho. lia.
  - destruct r as [receipt|]; [|done]. rewrite bind_run.
    destruct (TransferEndResponse.encode _); done.
Qed.
End Transfers.

(** ** Concrete runs *)
Definition reading (content : bytes) : UdpAgentServer memory :=
  mkServer empty_memory TEST_KEY None false false
    (Some (mkTransfer 77 file_read content 0 0 [] 0 0 false)) false [].

Lemma download_delivers_witness :
  exists ms bs s',
    read_blocks 77 file_read 0 [2; 2; 2] (reading [x01; x02; x03; x04; x05]) = (Ok ms, s') /\
    concat (TransferBlockResponse.data <$> ms) = [x01; x02; x03; x04; x05] /\
    _end_read_transfer (TransferEndRequest.mk 77) file_read s' =
      (Ok bs, set_transfer None (reading [x01; x02; x03; x04; x05])) /\
    TransferEndResponse.decode bs =
      Ok (TransferEndResponse.mk 5 (crc32_from 0 [x01; x02; x03; x04; x05])).
Proof.
  apply (download_delivers file_read (reading [x01; x02; x03; x04; x05])
    (mkTransfer 77 file_read [x01; x02; x03; x04; x05] 0 0 [] 0 0 false));
    [done|done|done| |done|by vm_compute| |by vm_compute].
  - by apply transfer_ok_start.
  - repeat constructor; by vm_compute.
Defined.

Definition writing (content : bytes) : UdpAgentServer memory :=
  mkServer empty_memory TEST_KEY None false false
    (Some (mkTransfer 77 file_write [] 0 0 (py "A.TXT") (len content) (crc32_from 0 content) true))
    false [].

Lemma upload_delivers_witness :
  exists s' bs,
    write_blocks 77 0 [[x01; x02]; [x03]] (writing [x01; x02; x03]) = (Ok tt, s') /\
    backend s' = empty_memory /\
    _commit_write_transfer (TransferEndRequest.mk 77) s' =
      (Ok bs, set_transfer None (set_backend
        (mkMemory [] [(py "A.TXT", [x01; x02; x03])] memory_screen memory_graphics)
        (writing [x01; x02; x03]))) /\
    TransferEndResponse.decode bs =
      Ok (TransferEndResponse.mk 3 (crc32_from 0 [x01; x02; x03])).
Proof.
  apply (upload_delivers [[x01; x02]; [x03]] (writing [x01; x02; x03])
    (mkTransfer 77 file_write [] 0 0 (py "A.TXT") 3 (crc32_from 0 [x01; x02; x03]) true)
    (Models.mkFileReceipt (py "A.TXT") 3 (crc32_from 0 [x01; x02; x03])));
    [done|done| |done| |done|done|done|].
  - by apply transfer_ok_start.
  - repeat constructor; by vm_compute.
  - unfold TransferEndResponse.valid, fits. repeat split; by vm_compute.
Defined.

(** A server that has received all three bytes of an upload. *)
Definition uploaded : UdpAgentServer memory :=
  mkServer empty_memory TEST_KEY None false false
    (Some (mkTransfer 77 file_write [x01; x02; x03] 3 (crc32_from 0 [x01; x02; x03]) (py "A.TXT") 3
      (crc32_from 0 [x01; x02; x03]) true)) false [].

Lemma commit_stores_verified_data_witness :
  exists t, transfer uploaded = Some t /\ transfer_id t = 77 /\ complete_upload t /\
    backend (_commit_write_transfer (TransferEndRequest.mk 77) uploaded).2 =
      (upload_file (path t) (data t) (overwrite t) (backend uploaded)).2.
Proof.
  apply (commit_stores_verified_data (TransferEndRequest.mk 77) uploaded).
  - split; cbn; [done|done| |constructor]. intros t [= <-]. split; cbn; [done| |done|done].
    by vm_compute.
  - vm_compute. discriminate.
Defined.

Definition large_screen : Models.TextScreen :=
  Models.mkTextScreen 255 65 (replicate 65 (replicate 255 32)) (replicate 65 (replicate 255 7))
    (Models.mkCursor 0 0 true None None) 1 (py "VGA") (Some 3) 0 (py "cp437") false.

Definition large_session : UdpAgentServer memory :=
  Eval vm_compute in
    set_backend (mkMemory [] [] large_screen memory_graphics)
      (serve [event sample_hello] start).2.

(** A large screen stops the server: with a backend that shows a screen of
    255 columns and 65 rows, which the screen model and the screen payload both
    admit, the capture request makes [handle_datagram] raise (the response is
    fragmented outside the handler of operation errors). *)
Theorem large_screen_raises :
  Models.new_text_screen large_screen = Ok large_screen /\
  exists message, (handle_datagram sample_entropy
    (sample_request 1 Opcode.CAPTURE_TEXT_SCREEN []) bridge large_session).1 =
    Err (Exn ValueError message).
Proof.
  split; [vm_compute; reflexivity|].
  exists (py "message exceeds maximum reassembled size"). vm_compute. reflexivity.
Qed.
