(* ===== verification/AgentMap.v ===== *)
(** * Backends that behave alike give agents that behave alike

    [BackendMap h] is a functional simulation between two backends: [h] maps states
    to states and every operation commutes with it.  The agent reaches its backend
    through these operations only, so it commutes with [h] too.  [Restricted] is a
    backend whose states satisfy an invariant of its operations. *)
From S2P Require Import Prelude Struct PyText Constants Packet Messages Errors State Models Backend AgentServer.
From S2P Require Import Crypto AgentInvariant AgentSafety AgentTransfer.
From S2P Require MemoryBackend.

(** ** Computations that follow each other *)
Section Follows.
Context {S T : Type} (h : S -> T).

(** [k] run on the image of a state does what [m] does on the state. *)
Definition follows {A} (m : stateful S A) (k : stateful T A) : Prop :=
  forall s, k (h s) = ((m s).1, h (m s).2).

Lemma follows_ret {A} (a : A) : follows (mret a) (mret a).
Proof. by intros s. Qed.
Lemma follows_lift {A} (r : result A) : follows (lift r) (lift r).
Proof. by intros s. Qed.
Lemma follows_fail {A} e : follows (@fail S A e) (fail e).
Proof. by intros s. Qed.
Lemma follows_modify f g : (forall s, g (h s) = h (f s)) -> follows (modify f) (modify g).
Proof. intros Hfg s. unfold modify. by rewrite Hfg. Qed.
Lemma follows_gets {A} (f : S -> A) g : (forall s, g (h s) = f s) -> follows (gets f) (gets g).
Proof. intros Hfg s. unfold gets. by rewrite Hfg. Qed.
Lemma follows_bind {A B} (m : stateful S A) k (f : A -> stateful S B) g :
  follows m k -> (forall a, follows (f a) (g a)) -> follows (m ≫= f) (k ≫= g).
Proof.
  intros Hm Hf s. rewrite !bind_run, Hm. destruct (m s) as [[a|e] s']; cbn [fst snd]; [apply Hf|done].
Qed.
Lemma follows_fmap {A B} (f : A -> B) (m : stateful S A) k : follows m k -> follows (f <$> m) (f <$> k).
Proof.
  intros Hm s. unfold fmap, stateful_fmap. rewrite Hm. by destruct (m s) as [[a|e] s'].
Qed.
Lemma follows_catch {A} (m : stateful S A) k f g :
  follows m k -> (forall e, follows (f e) (g e)) -> follows (catch m f) (catch k g).
Proof.
  intros Hm Hf s. unfold catch. rewrite Hm. destruct (m s) as [[a|e] s']; cbn [fst snd]; [done|].
  destruct (diverges e); [done|apply Hf].
Qed.
Lemma follows_each {A} (f : A -> stateful S unit) g l :
  (forall a, follows (f a) (g a)) -> follows (each f l) (each g l).
Proof.
  intros Hf. induction l as [|x l IH]; cbn [each]; [apply follows_ret|]. by apply follows_bind.
Qed.
End Follows.

(** ** Maps of backends *)
Class BackendMap {B C : Type} `{Backend B} `{Backend C} (h : B -> C) : Prop := {
  map_get_status : follows h get_status get_status;
  map_get_capabilities : follows h get_capabilities get_capabilities;
  map_capture_screen : follows h capture_screen capture_screen;
  map_capture_graphics : follows h capture_graphics capture_graphics;
  map_send_keys text keys delay settle :
    follows h (send_keys text keys delay settle) (send_keys text keys delay settle);
  map_download_file path : follows h (download_file path) (download_file path);
  map_upload_file path data overwrite :
    follows h (upload_file path data overwrite) (upload_file path data overwrite);
  map_close : follows h close close }.

(** The agent with another backend. *)
Definition map_server {B C} (h : B -> C) (s : UdpAgentServer B) : UdpAgentServer C :=
  mkServer (h (backend s)) (key s) (session s) (drop_first_response s) (dropped_response s) (transfer s)
    (closed s) (sent s).

Section Map.
Context {B C : Type} `{Backend B} `{Backend C} (h : B -> C) `{!BackendMap h}.
Local Abbreviation matches := (follows (map_server h)).

Lemma on_backend_follows {A} (m : stateful B A) k : follows h m k -> matches (on_backend m) (on_backend k).
Proof. intros Hm s. unfold on_backend. cbn. rewrite Hm. by destruct (m (backend s)) as [r b]. Qed.

Lemma unless_packet_error_follows {A} (r : result A) :
  matches (unless_packet_error r) (unless_packet_error r).
Proof.
  destruct r as [a|e]; cbn; [apply follows_ret|]. case_bool_decide; [apply follows_ret|apply follows_fail].
Qed.

Lemma sendto_follows ent to d : matches (sendto ent to d) (sendto ent to d).
Proof. intros s. unfold sendto. cbn [map_server sent]. by destruct (send_error _ _ _ _). Qed.

Lemma other_thread_follows m k : matches m k -> matches (other_thread m) (other_thread k).
Proof. intros Hm s. unfold other_thread. by rewrite Hm. Qed.

Create HintDb follows discriminated.
#[local] Hint Resolve map_get_status map_get_capabilities map_capture_screen map_capture_graphics
  map_send_keys map_download_file map_upload_file map_close unless_packet_error_follows sendto_follows : follows.

(** Goes through two copies of a computation, operation by operation. *)
Ltac follows_step :=
  match goal with
  | |- matches (_ ≫= _) _ => apply follows_bind; [|intros ?]
  | |- matches (mret _) _ => apply follows_ret
  | |- matches (lift _) _ => apply follows_lift
  | |- matches (fail _) _ => apply follows_fail
  | |- matches (gets _) _ => by apply follows_gets
  | |- matches (modify _) _ => apply follows_modify; intros ?
  | |- matches (_ <$> _) _ => apply follows_fmap
  | |- matches (other_thread _) _ => apply other_thread_follows
  | |- matches (catch _ _) _ => apply follows_catch; [|intros ?]
  | |- matches (each _ _) _ => apply follows_each; intros ?
  | |- matches (on_backend _) _ => apply on_backend_follows
  | |- matches (if ?c then _ else _) _ => destruct c
  | |- matches (match ?x with _ => _ end) _ => destruct x
  end.
Ltac solve_follows := cbv zeta; repeat first [progress eauto with follows | follows_step]; try done.

Lemma send_response_follows ent x o id payload k :
  matches (_send_response ent x o id payload k) (_send_response ent x o id payload k).
Proof. unfold _send_response. solve_follows. Qed.
#[local] Hint Resolve send_response_follows : follows.

Lemma send_error_follows ent x o id c m :
  matches (_send_error ent x o id c m) (_send_error ent x o id c m).
Proof. unfold _send_error. solve_follows. Qed.
#[local] Hint Resolve send_error_follows : follows.

Lemma start_transfer_follows ent k data : matches (_start_transfer ent k data) (_start_transfer ent k data).
Proof. unfold _start_transfer. solve_follows. Qed.
Lemma require_transfer_follows id k : matches (_require_transfer id k) (_require_transfer id k).
Proof. unfold _require_transfer. solve_follows. Qed.
#[local] Hint Resolve start_transfer_follows require_transfer_follows : follows.

Lemma read_block_follows request k : matches (_read_transfer_block request k) (_read_transfer_block request k).
Proof. unfold _read_transfer_block. solve_follows. Qed.
Lemma end_read_follows request k : matches (_end_read_transfer request k) (_end_read_transfer request k).
Proof. unfold _end_read_transfer. solve_follows. Qed.
Lemma write_block_follows request : matches (_write_transfer_block request) (_write_transfer_block request).
Proof. unfold _write_transfer_block. solve_follows. Qed.
Lemma commit_follows request : matches (_commit_write_transfer request) (_commit_write_transfer request).
Proof. unfold _commit_write_transfer. solve_follows. Qed.
#[local] Hint Resolve read_block_follows end_read_follows write_block_follows commit_follows : follows.

Lemma operation_follows ent x o id payload :
  matches (operation ent x o id payload) (operation ent x o id payload).
Proof.
  destruct o; cbn [operation]; solve_follows.
  change (transfer (map_server h s)) with (transfer s). destruct (transfer s) as [t|]; [|done].
  by destruct (transfer_id t =? _).
Qed.
#[local] Hint Resolve operation_follows : follows.

Lemma dispatch_follows ent x o id payload : matches (_dispatch ent x o id payload) (_dispatch ent x o id payload).
Proof. unfold _dispatch. solve_follows. Qed.
#[local] Hint Resolve dispatch_follows : follows.

Lemma handle_hello_follows ent d from : matches (_handle_hello ent d from) (_handle_hello ent d from).
Proof. unfold _handle_hello. solve_follows. Qed.
#[local] Hint Resolve handle_hello_follows : follows.

Lemma handle_request_follows ent x p : matches (handle_request ent x p) (handle_request ent x p).
Proof. unfold handle_request, _send_cached. solve_follows. Qed.
#[local] Hint Resolve handle_request_follows : follows.

Lemma handle_datagram_follows ent d from : matches (handle_datagram ent d from) (handle_datagram ent d from).
Proof. unfold handle_datagram. solve_follows. Qed.
#[local] Hint Resolve handle_datagram_follows : follows.

Lemma serve_forever_follows waits : matches (serve_forever waits) (serve_forever waits).
Proof.
  induction waits as [|[ent d from|e meanwhile] waits IH]; cbn [serve_forever];
    unfold close_server; solve_follows.
Qed.
End Map.

(** ** Backends in good states *)
Class BackendInvariant {B : Type} `{Backend B} (P : B -> Prop) : Prop := {
  keep_get_status : preserves P get_status;
  keep_get_capabilities : preserves P get_capabilities;
  keep_capture_screen : preserves P capture_screen;
  keep_capture_graphics : preserves P capture_graphics;
  keep_send_keys text keys delay settle : preserves P (send_keys text keys delay settle);
  keep_download_file path : preserves P (download_file path);
  keep_upload_file path data overwrite : preserves P (upload_file path data overwrite);
  keep_close : preserves P close }.

Record Restricted {B : Type} (P : B -> Prop) := restricted {
  raw : B;
  raw_ok : P raw }.
Arguments restricted {B P}.
Arguments raw {B P}.
Arguments raw_ok {B P}.

Section Restrict.
Context {B : Type} `{Backend B} (P : B -> Prop) `{!BackendInvariant P}.

(** The operation, with the invariant of the state it leaves. *)
Definition restrict {A} (m : stateful B A) (Hm : preserves P m) : stateful (Restricted P) A := fun s =>
  ((m (raw s)).1, restricted (m (raw s)).2 (Hm (raw s) (raw_ok s))).

#[export] Instance restricted_backend : Backend (Restricted P) := {|
  get_status := restrict get_status keep_get_status;
  get_capabilities := restrict get_capabilities keep_get_capabilities;
  capture_screen := restrict capture_screen keep_capture_screen;
  capture_graphics := restrict capture_graphics keep_capture_graphics;
  send_keys text keys delay settle :=
    restrict (send_keys text keys delay settle) (keep_send_keys text keys delay settle);
  download_file path := restrict (download_file path) (keep_download_file path);
  upload_file path data overwrite :=
    restrict (upload_file path data overwrite) (keep_upload_file path data overwrite);
  close := restrict close keep_close |}.

Lemma restrict_follows {A} (m : stateful B A) Hm : follows raw (restrict m Hm) m.
Proof. intros s. apply surjective_pairing. Qed.

#[export] Instance raw_map : BackendMap (raw : Restricted P -> B).
Proof. split; intros; apply restrict_follows. Qed.

(** The screens the backend captures in its good states fit one message. *)
Definition small_screens_in : Prop :=
  forall b screen b', P b -> capture_screen b = (Ok screen, b') ->
    Models.columns screen * Models.rows screen <= 16377.

Lemma restricted_small : small_screens_in -> small_screens (B:=Restricted P).
Proof. intros Hs [b Hb] screen [b' Hb'] [= E _]. apply (Hs b screen (capture_screen b).2 Hb). by rewrite <- E, <- surjective_pairing. Qed.

(** A call that does not return, on a backend in a good state. *)
Definition hangs_in (e : exn) : Prop := diverges e = true /\ exists b, P b /\ raised_by b e.

Lemma restricted_hangs e : hangs (B:=Restricted P) e -> hangs_in e.
Proof.
  intros [Hd [b Hb]]. split; [done|]. exists (raw b). split; [apply raw_ok|].
  inversion Hb as [? Hr|? Hr|? Hr|? Hr|? ? ? ? ? Hr|? ? Hr|? ? ? ? Hr]; injection Hr as Hr _;
    [eapply by_get_status|eapply by_get_capabilities|eapply by_capture_screen|eapply by_capture_graphics
    |eapply by_send_keys|eapply by_download_file|eapply by_upload_file];
    (etrans; [apply surjective_pairing|by rewrite Hr]).
Qed.

(** How [serve_forever] may end: it returns; or the socket failed while the server was
    open (or raised what no socket raises); or it refused an answer; or a call of the
    backend does not return. *)
Definition ended (hung : exn -> Prop) (waits : list wakeup) (r : result unit) : Prop :=
  r = Ok tt \/ exists e, r = Err e /\
    ((exists meanwhile, Raised e meanwhile ∈ waits /\ exn_cls e <> TimeoutError /\
        (is_os_error (exn_cls e) = true -> meanwhile = false)) \/
     (exists ent d from, Received ent d from ∈ waits /\ send_fails ent e) \/
     hung e).

Lemma ended_cons hung w waits r : ended hung waits r -> ended hung (w :: waits) r.
Proof.
  intros [->|(e & -> & [(m & Hin & He)|[(ent & d & from & Hin & He)|He]])]; [by left|right; exists e; split; [done|]..].
  - left. exists m. split; [by right|done].
  - right. left. exists ent, d, from. split; [by right|done].
  - by right; right.
Qed.

Lemma ended_weaken (hung hung' : exn -> Prop) waits r :
  (forall e, hung e -> hung' e) -> ended hung waits r -> ended hung' waits r.
Proof. unfold ended. intros Hh [->|(e & -> & [He|[He|He]])]; eauto 8. Qed.

Lemma close_server_closed {D} `{Backend D} (s : UdpAgentServer D) : closed (close_server s).2 = true.
Proof.
  unfold close_server. rewrite bind_run. cbn [gets]. destruct (closed s) eqn:Ec; [done|].
  rewrite bind_run. cbn [modify]. unfold on_backend. by destruct (close _).
Qed.

Lemma handled_ended {D} `{Backend D} ent d from waits (r : result unit) :
  handled (B:=D) ent r -> r = Ok tt \/ ended (hangs (B:=D)) (Received ent d from :: waits) r.
Proof.
  intros [[->|(e & -> & He)]|(e & -> & He)]; [by left|right; right; exists e; (split; [done|])..].
  - right. left. exists ent, d, from. split; [by left|done].
  - by right; right.
Qed.

Lemma serve_forever_returns {D} `{Backend D} waits (s : UdpAgentServer D) :
  small_screens (B:=D) -> server_ok s -> Forall wait_ok waits ->
  ended (hangs (B:=D)) waits (serve_forever waits s).1.
Proof.
  intros Hsmall Hs Hw. revert s Hs.
  induction Hw as [|[ent d from|e meanwhile] waits He _ IH]; intros s Hs; cbn [serve_forever]; [by left|..].
  all: rewrite bind_run; cbn [gets]; destruct (closed s) eqn:Ec; [by left|]; rewrite bind_run.
  - destruct He as [Hdraws Hsend].
    assert (Hfail : forall e, send_fails ent e -> diverges e = false).
    { intros e He%Hsend. apply bool_decide_eq_false. intros Hd. by rewrite Hd in He. }
    pose proof (handle_datagram_returns ent d from s Hsmall Hs Hfail) as Hh.
    pose proof (ok_handle_datagram ent d from Hdraws s Hs) as Hs1.
    apply (handled_ended ent d from waits) in Hh.
    destruct (handle_datagram ent d from s) as [[[]|e] s1]; [by apply ended_cons, IH|].
    by destruct Hh.
  - set (m := if meanwhile then _ else _).
    assert (Hm : exists s1, m s = (Ok tt, s1) /\ server_ok s1 /\ closed s1 = meanwhile).
    { destruct meanwhile; subst m; [|by exists s]. unfold other_thread. eexists.
      split; [done|]. split; [by apply ok_close_server|apply close_server_closed]. }
    destruct Hm as (s1 & -> & Hs1 & Hc). case_bool_decide as Ht; [by apply ended_cons, IH|].
    rewrite bind_run. cbn [gets]. rewrite Hc.
    assert (Hended : (is_os_error (exn_cls e) = true -> meanwhile = false) ->
      ended (hangs (B:=D)) (Raised e meanwhile :: waits) (Err e)).
    { intros Hm. right. exists e. split; [done|]. left. exists meanwhile. split; [by left|done]. }
    destruct (is_os_error (exn_cls e)) eqn:Eo, meanwhile; cbn [andb]; [by left|by apply Hended..].
Qed.

Lemma serve_forever_keeps waits (s : UdpAgentServer B) :
  small_screens_in -> server_ok s -> P (backend s) -> Forall wait_ok waits ->
  exists r s', serve_forever waits s = (r, s') /\ server_ok s' /\ P (backend s') /\
    ended hangs_in waits r.
Proof.
  intros Hsmall Hs Hb Hw.
  set (s0 := mkServer (restricted (backend s) Hb) (key s) (session s) (drop_first_response s)
    (dropped_response s) (transfer s) (closed s) (sent s)).
  assert (Hs0 : server_ok s0) by (destruct Hs; by split).
  pose proof (serve_forever_follows raw waits s0) as Hf.
  replace (map_server raw s0) with s in Hf by (by destruct s).
  pose proof (ok_serve_forever waits Hw s Hs) as Hok.
  pose proof (serve_forever_returns waits s0 (restricted_small Hsmall) Hs0 Hw) as He.
  rewrite Hf in Hok |- *. do 2 eexists. split; [done|]. split; [exact Hok|].
  split; [apply raw_ok|]. by eapply ended_weaken; [apply restricted_hangs|].
Qed.

(** C5. The server survives every datagram, whatever the backend: if the backend's
    operations keep an invariant under which the screens it captures have at most
    16377 cells, then from any state with both invariants (the server's and the
    backend's) handling any sequence of datagrams, authentic or not, leaves both; every
    exception of a decoder, of the backend or of a response encoder is answered with
    an error packet.  [serve_forever] returns, unless (1) waiting for a datagram failed
    with the server open, (2) the socket refused to send an answer, which leaves it as
    raised, or (3) it is still in a call of the backend, in a state with the invariant,
    that does not return. *)
Theorem agent_survives waits (s : UdpAgentServer B) :
  small_screens_in -> server_ok s -> P (backend s) -> Forall wait_ok waits ->
  exists r s', serve_forever waits s = (r, s') /\ server_ok s' /\ P (backend s') /\
    ended hangs_in waits r.
Proof. apply serve_forever_keeps. Qed.
End Restrict.

Import MemoryBackend.

(** Every state of the desk is good. *)
#[export] Instance desk_invariant : BackendInvariant (fun _ : desk => True).
Proof. by split. Qed.

(** A socket that refuses the reply. *)
Definition refused_reply : entropy :=
  mkEntropy 0x01020304 77 (fun _ _ _ => Some (Exn OSError (py "Invalid argument"))).

Lemma agent_survives_witness :
  let waits := [arriving sample_hello; Raised (Exn TimeoutError (py "timed out")) false; arriving [x00];
                Received refused_reply (sample_request 1 Opcode.PING [x2a]) bridge] in
  exists r s', serve_forever waits (mkServer empty_desk TEST_KEY None false false None false []) = (r, s') /\
    server_ok s' /\ True /\ ended (hangs_in (fun _ : desk => True)) waits r.
Proof.
  apply (agent_survives (fun _ => True)).
  - intros b screen b' _ [= <- _]. vm_compute. discriminate.
  - apply (new_server_ok empty_desk TEST_KEY false). reflexivity.
  - exact Logic.I.
  - solve_waits. apply Forall_cons_2; [|apply Forall_nil_2].
    split; [by vm_compute|]. by intros e (n & to & d & [= <-]).
Defined.
