(* ===== verification/UdpBackend.v ===== *)
(** * The UDP client backend ([backends/udp.py])

    The bridge's side of the protocol: the handshake, requests with retries, and
    every operation of the target contract on top of them.  The network is a
    parameter: what [transmit] returns are the datagrams that reach the socket
    before the next timeout (late, lost, duplicated and forged ones included);
    they wait in [inbox] until [recvfrom] takes them.  [UdpDeadline.v] has the clock and
    the timeouts, and shows that the code's exchange is a run of this one. *)
From Stdlib Require Import Floats.SpecFloat.
From S2P Require Import Prelude PyFloat Dict Crc PyText Crypto Constants Packet Messages Errors.
From S2P Require Import State Backend.
From S2P Require Models.

Abbreviation Address := (pystr * Z)%type.

(** The socket's peer and the random source. *)
Class Network (N : Type) := {
  transmit (datagram : bytes) : stateful N (list (Address * bytes));
  randbits32 : N -> Z * N }.
#[global] Hint Mode Network ! : typeclass_instances.

Definition _dos_transport_datagram (datagram : bytes) : bytes :=
  if len datagram mod 2 =? 0 then datagram else datagram ++ [x00].

Definition MAX_FILE_SIZE : Z := 1048576.
Definition MAX_GRAPHICS_SIZE : Z := 262144.
Definition TRANSFER_BLOCK_SIZE : Z := 900.

Definition _encode_dos_path (path : pystr) : result bytes :=
  encoded ← match cp437_encode path with
            | Ok encoded => Ok encoded
            | Err _ => raise ValueError (py "DOS path contains characters outside CP437")
            end;
  raise_if (bool_decide (encoded = [])) ValueError (py "DOS path must not be empty");;
  Ok encoded.

(** [(x + 1) & 0xFFFF or 1] *)
Definition next_request_id (id : Z) : Z :=
  let id := Z.land (id + 1) 0xFFFF in if id =? 0 then 1 else id.

(** ** State *)
Record UdpBackend (N : Type) := mkUdp {
  network : N;
  inbox : list (Address * bytes);
  target : Address;
  _base_key : bytes;
  _retries : Z;
  _allow_file_read : bool;
  _allow_file_write : bool;
  _session_id : Z;
  _session_key : option bytes;
  _request_id : Z;
  _closed : bool }.
Arguments mkUdp {N}.
Arguments network {N}.
Arguments inbox {N}.
Arguments target {N}.
Arguments _base_key {N}.
Arguments _retries {N}.
Arguments _allow_file_read {N}.
Arguments _allow_file_write {N}.
Arguments _session_id {N}.
Arguments _session_key {N}.
Arguments _request_id {N}.
Arguments _closed {N}.

(** [UdpBackend.__init__]: the checks, then the object; [address] is the resolved
    target and [first_id] what [secrets.randbelow(0xFFFF)] returned. *)
Definition check_arguments (key : bytes) (timeout : spec_float) (retries : Z) : result unit :=
  raise_if (negb (len key =? 16)) ValueError (py "UDP backend key must be 16 bytes");;
  raise_if (SFleb timeout (S754_zero false) || (retries <? 0)) ValueError
    (py "invalid timeout or retry count").

Definition new_udp {N} (n : N) (address : Address) (key : bytes) (timeout : spec_float)
    (retries : Z) (allow_file_read allow_file_write : bool) (first_id : Z) : result (UdpBackend N) :=
  check_arguments key timeout retries;;
  Ok (mkUdp n [] address key retries allow_file_read allow_file_write 0 None
    (if first_id =? 0 then 1 else first_id) false).

Lemma new_udp_Ok {N} (n : N) address key timeout retries r w first_id u :
  new_udp n address key timeout retries r w first_id = Ok u ->
  len key = 16 /\ 0 <= retries /\
  u = mkUdp n [] address key retries r w 0 None (if first_id =? 0 then 1 else first_id) false.
Proof. unfold new_udp, check_arguments. intros H. inv_ok. split_and!; [lia..|done]. Qed.

Section Updates.
Context {N : Type}.
Implicit Types (u : UdpBackend N).

Definition set_network (n : N) (arrived : list (Address * bytes)) u : UdpBackend N :=
  mkUdp n arrived (target u) (_base_key u) (_retries u) (_allow_file_read u) (_allow_file_write u)
    (_session_id u) (_session_key u) (_request_id u) (_closed u).
Definition set_session (id : Z) (key : option bytes) u : UdpBackend N :=
  mkUdp (network u) (inbox u) (target u) (_base_key u) (_retries u) (_allow_file_read u)
    (_allow_file_write u) id key (_request_id u) (_closed u).
Definition set_request_id (id : Z) u : UdpBackend N :=
  mkUdp (network u) (inbox u) (target u) (_base_key u) (_retries u) (_allow_file_read u)
    (_allow_file_write u) (_session_id u) (_session_key u) id (_closed u).
Definition set_closed u : UdpBackend N :=
  mkUdp (network u) (inbox u) (target u) (_base_key u) (_retries u) (_allow_file_read u)
    (_allow_file_write u) (_session_id u) (_session_key u) (_request_id u) true.
End Updates.

(** ** Waiting for a response

    What one exchange has seen so far: the response fragments by index, how many
    datagrams it ignored and why the last one. *)
Record exchange := mkExchange {
  received : dict Packet;
  ignored : Z;
  last_ignored : pystr }.

(** What a datagram does to an exchange: it goes on, or its response is complete. *)
Inductive outcome :=
| Waiting (e : exchange)
| Complete (payload : bytes) (last : Packet).

Definition ignore (why : pystr) (e : exchange) : exchange :=
  mkExchange (received e) (ignored e + 1) why.

Definition unexpected (packet : Packet) : pystr :=
  py "unexpected packet " ++ py (Opcode.name (opcode packet)) ++ py "/" ++
  py_int (request_id packet) ++ py "/" ++ py_int (session_id packet).

(** The body of the receive loop, after [recvfrom]. *)
Definition on_datagram (to : Address) (key : bytes) (expected : Packet)
    (from : Address) (datagram : bytes) (e : exchange) : result outcome :=
  if negb (bool_decide (from = to)) || (MAX_DATAGRAM <? len datagram) then Ok (Waiting e) else
  match Packet.decode datagram key with
  | Err err =>
      if bool_decide (exn_cls err = PacketError) then Ok (Waiting (ignore (exn_msg err) e))
      else Err err
  | Ok packet =>
      if negb (request_id packet =? request_id expected) ||
         negb (bool_decide (opcode packet = opcode expected)) ||
         (negb (bool_decide (opcode expected = Opcode.HELLO)) &&
          negb (session_id packet =? session_id expected))
      then Ok (Waiting (ignore (unexpected packet) e))
      else if bool_decide (kind packet = MessageKind.ERROR) then
        '(code, message) ← decode_error (payload packet);
        raise AgentOperationError (py (ErrorCode.name code) ++ py ": " ++ message)
      else if negb (bool_decide (kind packet = MessageKind.RESPONSE)) then Ok (Waiting e)
      else
        let received := dict_set (fragment_index packet) packet (received e) in
        if len received =? fragment_count packet then
          payload ← reassemble_packets (dict_values received);
          Ok (Complete payload packet)
        else Ok (Waiting (mkExchange received (ignored e) (last_ignored e)))
  end.

(** The receive loop of one attempt: the datagrams in order, until the response
    is complete or none is left before the deadline; with what stays unread. *)
Fixpoint receive_loop (to : Address) (key : bytes) (expected : Packet)
    (arrived : list (Address * bytes)) (e : exchange) :
    result outcome * list (Address * bytes) :=
  match arrived with
  | [] => (Ok (Waiting e), [])
  | (from, datagram) :: arrived =>
      match on_datagram to key expected from datagram e with
      | Ok (Waiting e) => receive_loop to key expected arrived e
      | r => (r, arrived)
      end
  end.

Definition timeout_message (opcode : Opcode.t) (attempts : Z) (e : exchange) : pystr :=
  py "DOS agent did not complete " ++ py (Opcode.name opcode) ++ py " after " ++
  py_int attempts ++ py " attempts (" ++ py_int (len (received e)) ++
  py " response fragments received, " ++ py_int (ignored e) ++ py " ignored" ++
  (match last_ignored e with [] => [] | why => py ": " ++ why end) ++ py ")".

(** ** Floating point: [round(ticks / 18.2065, 3)] *)
Definition float_18_2065 : spec_float := S754_finite false 5124674163482558 (-48).

(** ** The object's methods *)
Section Client.
Context {N : Type} `{Network N}.
Local Abbreviation M := (stateful (UdpBackend N)).

(** [sendto]: what the network answers queues up in the socket. *)
Definition sendto (datagram : bytes) : M unit := fun u =>
  match transmit datagram (network u) with
  | (Ok arrived, n) => (Ok tt, set_network n (inbox u ++ arrived) u)
  | (Err e, n) => (Err e, set_network n (inbox u) u)
  end.

Definition randbits : M Z := fun u =>
  let '(nonce, n) := randbits32 (network u) in (Ok nonce, set_network n (inbox u) u).

Definition receive (key : bytes) (expected : Packet) (e : exchange) : M outcome := fun u =>
  let '(r, unread) := receive_loop (target u) key expected (inbox u) e in
  (r, set_network (network u) unread u).

(** The attempts of [_exchange_with_packet]. *)
Fixpoint attempts (n : nat) (encoded : list bytes) (key : bytes) (expected : Packet)
    (e : exchange) : M (bytes * Packet) :=
  match n with
  | O =>
      retries ← gets _retries;
      fail (Exn TimeoutError (timeout_message (opcode expected) (retries + 1) e))
  | S n =>
      each sendto encoded;;
      r ← receive key expected e;
      match r with
      | Complete payload packet => mret (payload, packet)
      | Waiting e => attempts n encoded key expected e
      end
  end.

Definition _exchange_with_packet (packets : list Packet) (key : bytes) : M (bytes * Packet) :=
  encoded ← lift (map_result (fun p => d ← Packet.encode p key; Ok (_dos_transport_datagram d))
    packets);
  expected ← lift (getitem packets 0);
  retries ← gets _retries;
  attempts (Z.to_nat (retries + 1)) encoded key expected (mkExchange [] 0 []).

Definition _exchange (packets : list Packet) (key : bytes) : M bytes :=
  r ← _exchange_with_packet packets key;
  mret r.1.

Definition _ensure_open : M unit :=
  done ← gets _closed;
  if done : bool then fail (Exn RuntimeError (py "UDP backend is closed")) else mret tt.

Definition _handshake : M unit :=
  client_nonce ← randbits;
  modify (fun u => set_request_id (next_request_id (_request_id u)) u);;
  u ← get;
  payload ← lift (HelloRequest.encode (HelloRequest.mk client_nonce));
  request ← lift (new_packet (mkPacket MessageKind.REQUEST Opcode.HELLO 0 (_request_id u) 0 1
    payload 0));
  r ← _exchange_with_packet [request] (_base_key u);
  response ← lift (HelloResponse.decode r.1);
  if negb (HelloResponse.client_nonce response =? client_nonce) ||
     negb (HelloResponse.session_id response =? session_id r.2)
  then fail (Exn AgentOperationError (py "invalid hello response"))
  else
    key ← lift (derive_session_key (_base_key u) client_nonce (HelloResponse.server_nonce response));
    modify (set_session (HelloResponse.session_id response) (Some key)).

Definition _request (opcode : Opcode.t) (payload : bytes) : M bytes :=
  _ensure_open;;
  key ← gets _session_key;
  match key with None => _handshake | Some _ => mret tt end;;
  modify (fun u => set_request_id (next_request_id (_request_id u)) u);;
  u ← get;
  packets ← lift (fragment_message MessageKind.REQUEST opcode (_session_id u) (_request_id u)
    payload 0);
  _exchange packets (default [] (_session_key u)).

(** [with suppress(OSError, RuntimeError, TimeoutError)] *)
Definition _abort_transfer (transfer_id : Z) : M unit :=
  catch
    (payload ← lift (TransferEndRequest.encode (TransferEndRequest.mk transfer_id));
     _request Opcode.FILE_ABORT payload;;
     mret tt)
    (fun e => if is_os_error (exn_cls e) || is_runtime_error (exn_cls e) then mret tt else fail e).

(** [try: m except BaseException: self._abort_transfer(id); raise] *)
Definition or_abort {A} (transfer_id : Z) (m : M A) : M A :=
  catch m (fun e => _abort_transfer transfer_id;; fail e).

(** The loop of [_download_blocks].  A round adds at least one byte, so as many
    rounds as bytes are missing are enough. *)
Fixpoint download_loop (fuel : nat) (opcode : Opcode.t) (transfer_id total_size : Z)
    (output : bytes) (rolling_crc : Z) : M (bytes * Z) :=
  match fuel with
  | O => mret (output, rolling_crc)
  | S fuel =>
      if negb (len output <? total_size) then mret (output, rolling_crc) else
      let length := Z.min TRANSFER_BLOCK_SIZE (total_size - len output) in
      request ← lift (TransferBlockRequest.encode
        (TransferBlockRequest.mk transfer_id (len output) length []));
      payload ← _request opcode request;
      response ← lift (TransferBlockResponse.decode payload);
      if negb (TransferBlockResponse.transfer_id response =? transfer_id) ||
         negb (TransferBlockResponse.offset response =? len output) ||
         bool_decide (TransferBlockResponse.data response = []) ||
         (length <? len (TransferBlockResponse.data response))
      then fail (Exn AgentOperationError (py "invalid download block response"))
      else
        let output := output ++ TransferBlockResponse.data response in
        let rolling_crc := crc32_from rolling_crc (TransferBlockResponse.data response) in
        if negb (TransferBlockResponse.rolling_crc32 response =? rolling_crc)
        then fail (Exn AgentOperationError (py "download block checksum mismatch"))
        else download_loop fuel opcode transfer_id total_size output rolling_crc
  end.

Definition _download_blocks (opcode : Opcode.t) (transfer_id total_size : Z) : M (bytes * Z) :=
  download_loop (Z.to_nat total_size) opcode transfer_id total_size [] 0.

(** *** Operations *)
Definition phase_name (p : Phase.t) : pystr :=
  match p with
  | Phase.STARTING => py "starting"
  | Phase.OBSERVE_READY => py "observe_ready"
  | Phase.AGENT_SHELL_READY => py "agent_shell_ready"
  | Phase.CHILD_RUNNING => py "child_running"
  | Phase.DOS_BUSY => py "dos_busy"
  | Phase.AWAITING_APPROVAL => py "awaiting_approval"
  | Phase.HOST_UNRESPONSIVE => py "host_unresponsive"
  end.

Definition adapter_name (a : Adapter.t) : pystr :=
  match a with
  | Adapter.MDA => py "MDA"
  | Adapter.CGA => py "CGA"
  | Adapter.EGA => py "EGA"
  | Adapter.VGA => py "VGA"
  | Adapter.LINUX_PTY => py "linux-pty"
  | Adapter.UNKNOWN => py "unknown"
  end.

Definition layout_name (l : GraphicsLayout.t) : pystr :=
  match l with
  | GraphicsLayout.CGA_2BPP_INTERLEAVED => py "cga-2bpp-interleaved"
  | GraphicsLayout.CGA_1BPP_INTERLEAVED => py "cga-1bpp-interleaved"
  | GraphicsLayout.HERCULES_1BPP_INTERLEAVED => py "hercules-1bpp-interleaved"
  | GraphicsLayout.PLANAR_4BPP => py "planar-4bpp"
  | GraphicsLayout.PLANAR_1BPP => py "planar-1bpp"
  | GraphicsLayout.PACKED_8BPP => py "packed-8bpp"
  end.

Definition udp_get_status : M Models.MachineStatus :=
  payload ← _request Opcode.GET_STATUS [];
  m ← lift (StatusMessage.decode payload);
  to ← gets target;
  mret (Models.mkMachineStatus true (phase_name (StatusMessage.phase m)) (py "dos-agent")
    (py "packet-driver-udp") (to.1 ++ py ":" ++ py_int to.2)
    (py "DOS " ++ py_int (StatusMessage.dos_major m) ++ py "." ++
     py_int (StatusMessage.dos_minor m))
    (if StatusMessage.cpu_class m =? 0 then py "8088"
     else py "x86-class-" ++ py_int (StatusMessage.cpu_class m))
    (py_int (StatusMessage.agent_major m) ++ py "." ++ py_int (StatusMessage.agent_minor m))
    (round3 (SFdiv 53 1024 (float_of_int (StatusMessage.bios_ticks m)) float_18_2065))).

Definition udp_get_capabilities : M Models.Capabilities :=
  payload ← _request Opcode.GET_CAPABILITIES [];
  m ← lift (CapabilitiesMessage.decode payload);
  u ← get;
  let has flag := negb (Z.land (CapabilitiesMessage.capabilities m) flag =? 0) in
  mret (Models.mkCapabilities (py "dos-agent") (py "packet-driver-udp")
    (has Capability.STATUS) (has Capability.TEXT_CAPTURE)
    (if has Capability.GRAPHICS_CAPTURE then [py "CGA"; py "Hercules"; py "EGA"; py "VGA"] else [])
    (if has Capability.KEYBOARD then Some (py "bios-queue") else None)
    (CapabilitiesMessage.columns m) (CapabilitiesMessage.rows m) 4096
    (CapabilitiesMessage.max_keys m)
    (has Capability.FILESYSTEM_READ && _allow_file_read u)
    (has Capability.FILESYSTEM_WRITE && _allow_file_write u)
    (has Capability.EXECUTION) (has Capability.MEMORY_READ) (has Capability.MEMORY_WRITE)
    (has Capability.PORT_READ) (has Capability.PORT_WRITE) (has Capability.REBOOT)).

Definition get_resident_diagnostics : M ResidentDiagnosticsMessage.t :=
  payload ← _request Opcode.GET_DIAGNOSTICS [];
  lift (ResidentDiagnosticsMessage.decode payload).

(** [cells[0::2]] and [cells[1::2]] *)
Fixpoint evens {A} (l : list A) : list A :=
  match l with
  | [] => []
  | [x] => [x]
  | x :: _ :: l => x :: evens l
  end.
Definition odds {A} (l : list A) : list A := match l with [] => [] | _ :: l => evens l end.

(** The rows of a screen message: characters and attributes. *)
Definition screen_rows (m : ScreenMessage.t) : list (pystr * list Z) :=
  (fun index =>
    let start := index * ScreenMessage.columns m * 2 in
    let cells := slice (ScreenMessage.cells m) start (start + ScreenMessage.columns m * 2) in
    (cp437_decode (evens cells), b2z <$> odds cells)) <$> seqZ 0 (ScreenMessage.rows m).

Definition screen_of_message (m : ScreenMessage.t) : result Models.TextScreen :=
  let rows := screen_rows m in
  Models.new_text_screen (Models.mkTextScreen (ScreenMessage.columns m) (ScreenMessage.rows m)
    rows.*1 rows.*2
    (Models.mkCursor (ScreenMessage.cursor_row m) (ScreenMessage.cursor_column m)
       (ScreenMessage.cursor_start m <=? ScreenMessage.cursor_end m)
       (Some (ScreenMessage.cursor_start m)) (Some (ScreenMessage.cursor_end m)))
    (ScreenMessage.generation m) (adapter_name (ScreenMessage.adapter m))
    (if ScreenMessage.video_mode m =? 0xFF then None else Some (ScreenMessage.video_mode m))
    (ScreenMessage.active_page m) (py "CP" ++ py_int (ScreenMessage.code_page m)) true).

Definition udp_capture_screen : M Models.TextScreen :=
  payload ← _request Opcode.CAPTURE_TEXT_SCREEN [];
  lift (m ← ScreenMessage.decode payload; screen_of_message m).

(** The end of a download: its size and checksum must be those received. *)
Definition end_download (opcode : Opcode.t) (transfer_id : Z) : M TransferEndResponse.t :=
  request ← lift (TransferEndRequest.encode (TransferEndRequest.mk transfer_id));
  payload ← _request opcode request;
  lift (TransferEndResponse.decode payload).

Definition download (block_opcode end_opcode : Opcode.t) (transfer_id total_size : Z) :
    M (bytes * Z * TransferEndResponse.t) :=
  or_abort transfer_id
    (r ← _download_blocks block_opcode transfer_id total_size;
     finish ← end_download end_opcode transfer_id;
     mret (r, finish)).

Definition udp_capture_graphics : M Models.GraphicsScreen :=
  payload ← _request Opcode.GRAPHICS_BEGIN [];
  m ← lift (GraphicsBeginResponse.decode payload);
  let id := GraphicsBeginResponse.transfer_id m in
  if MAX_GRAPHICS_SIZE <? GraphicsBeginResponse.total_size m then
    _abort_transfer id;;
    fail (Exn ValueError (py "graphics capture exceeds the bridge size limit"))
  else
    r ← download Opcode.GRAPHICS_BLOCK Opcode.GRAPHICS_END id (GraphicsBeginResponse.total_size m);
    let '(data, crc32, finish) := r in
    if negb (TransferEndResponse.total_size finish =? len data) ||
       negb (TransferEndResponse.crc32 finish =? crc32)
    then fail (Exn AgentOperationError (py "graphics capture checksum mismatch"))
    else lift (Models.new_graphics_screen (Models.mkGraphicsScreen
      (adapter_name (GraphicsBeginResponse.adapter m)) (GraphicsBeginResponse.video_mode m)
      (layout_name (GraphicsBeginResponse.layout m)) (GraphicsBeginResponse.width m)
      (GraphicsBeginResponse.height m) (GraphicsBeginResponse.planes m)
      (GraphicsBeginResponse.bytes_per_plane m) data crc32)).

Definition udp_download_file (path : pystr) : M Models.FileContents :=
  allowed ← gets _allow_file_read;
  if negb allowed
  then fail (Exn PermissionError (py "DOS file downloads are disabled by bridge policy")) else
  encoded_path ← lift (_encode_dos_path path);
  request ← lift (FileReadBeginRequest.encode (FileReadBeginRequest.mk encoded_path));
  payload ← _request Opcode.FILE_READ_BEGIN request;
  begin ← lift (TransferBeginResponse.decode payload);
  let id := TransferBeginResponse.transfer_id begin in
  if MAX_FILE_SIZE <? TransferBeginResponse.total_size begin then
    _abort_transfer id;;
    fail (Exn ValueError (py "file exceeds the bridge download limit"))
  else
    r ← download Opcode.FILE_READ_BLOCK Opcode.FILE_READ_END id
      (TransferBeginResponse.total_size begin);
    let '(data, crc32, finish) := r in
    if negb (TransferEndResponse.total_size finish =? len data) ||
       negb (TransferEndResponse.crc32 finish =? crc32)
    then fail (Exn AgentOperationError (py "download checksum mismatch"))
    else mret (Models.mkFileContents path data crc32).

(** The loop over the blocks of an upload. *)
Fixpoint upload_loop (blocks : list bytes) (transfer_id offset rolling_crc : Z) : M unit :=
  match blocks with
  | [] => mret tt
  | block :: blocks =>
      request ← lift (TransferBlockRequest.encode
        (TransferBlockRequest.mk transfer_id offset (len block) block));
      payload ← _request Opcode.FILE_WRITE_BLOCK request;
      response ← lift (TransferBlockResponse.decode payload);
      let rolling_crc := crc32_from rolling_crc block in
      if negb (TransferBlockResponse.transfer_id response =? transfer_id) ||
         negb (TransferBlockResponse.offset response =? offset) ||
         negb (bool_decide (TransferBlockResponse.data response = [])) ||
         negb (TransferBlockResponse.rolling_crc32 response =? rolling_crc)
      then fail (Exn AgentOperationError (py "invalid upload block acknowledgement"))
      else upload_loop blocks transfer_id (offset + TRANSFER_BLOCK_SIZE) rolling_crc
  end.

Definition udp_upload_file (path : pystr) (data : bytes) (overwrite : bool) : M Models.FileReceipt :=
  allowed ← gets _allow_file_write;
  if negb allowed
  then fail (Exn PermissionError (py "DOS file uploads are disabled by bridge policy")) else
  if MAX_FILE_SIZE <? len data
  then fail (Exn ValueError (py "file exceeds the bridge upload limit")) else
  let expected_crc := crc32_from 0 data in
  encoded_path ← lift (_encode_dos_path path);
  request ← lift (FileWriteBeginRequest.encode
    (FileWriteBeginRequest.mk encoded_path (len data) expected_crc overwrite));
  payload ← _request Opcode.FILE_WRITE_BEGIN request;
  begin ← lift (TransferBeginResponse.decode payload);
  let id := TransferBeginResponse.transfer_id begin in
  finish ← or_abort id
    (upload_loop (chunks (Z.to_nat TRANSFER_BLOCK_SIZE) data) id 0 0;;
     end_download Opcode.FILE_WRITE_COMMIT id);
  if negb (TransferEndResponse.total_size finish =? len data) ||
     negb (TransferEndResponse.crc32 finish =? expected_crc)
  then fail (Exn AgentOperationError (py "upload checksum mismatch"))
  else mret (Models.mkFileReceipt path (TransferEndResponse.total_size finish)
               (TransferEndResponse.crc32 finish)).

(** [KEY_NAMES[key.upper()]] *)
Definition named_key (key : pystr) : result KeyCode.t :=
  match List.find (fun kv => bool_decide (kv.1 = upper key)) KEY_NAMES with
  | Some kv => Ok kv.2
  | None => raise ValueError (py "unsupported named key: " ++ upper key)
  end.

(** [time.sleep(ms / 1000)]: the seconds, a double, as nanoseconds of 64 bits; a division
    of 2^53 or more overflows one or the other conversion. *)
Definition sleep_ms (ms : Z) : result unit :=
  let nanoseconds := SFmul 53 1024 (int_div ms 1000) (float_of_int 1000000000) in
  raise_if ((2 ^ 53 <=? Z.abs ms) ||
            negb (SFleb (float_of_int (- 2 ^ 63)) nanoseconds &&
                  SFltb nanoseconds (float_of_int (2 ^ 63))))
    OverflowError (py "timestamp too large to convert to C _PyTime_t");;
  raise_if (ms <? 0) ValueError (py "sleep length must be non-negative").

Definition udp_send_keys (text : pystr) (keys : list pystr) (inter_key_delay_ms settle_ms : Z) :
    M Models.KeyReceipt :=
  encoded_text ← lift (match cp437_encode text with
    | Ok encoded => Ok encoded
    | Err _ => raise ValueError (py "text contains characters outside CP437")
    end);
  encoded_keys ← lift (map_result named_key keys);
  request ← lift (KeyRequest.encode (KeyRequest.mk encoded_text encoded_keys inter_key_delay_ms));
  payload ← _request Opcode.SEND_KEYS request;
  response ← lift (KeyResponse.decode payload);
  lift (if settle_ms =? 0 then Ok tt else sleep_ms settle_ms);;
  mret (Models.mkKeyReceipt (KeyResponse.accepted_text_bytes response)
    (KeyResponse.accepted_keys response)
    ((fun k => py (KeyCode.name k)) <$> slice encoded_keys 0 (KeyResponse.accepted_keys response))
    (KeyResponse.generation response)).

Definition udp_close : M unit :=
  done ← gets _closed;
  if done : bool then mret tt else modify set_closed.

(** [class UdpBackend(Backend)] *)
#[global] Instance udp_backend : Backend (UdpBackend N) := {|
  get_status := udp_get_status;
  get_capabilities := udp_get_capabilities;
  capture_screen := udp_capture_screen;
  capture_graphics := udp_capture_graphics;
  send_keys := udp_send_keys;
  download_file := udp_download_file;
  upload_file := udp_upload_file;
  close := udp_close |}.
End Client.
