(* ===== verification/UdpSafety.v ===== *)
(** * The client against any network

    What [UdpBackend] guarantees whatever the network delivers: a response is
    returned only if all its fragments authenticated and answer the request,
    transfers are returned only with the announced size and checksum, the
    object's invariant survives every operation, and only the documented kinds
    of exceptions are raised. *)
From Stdlib Require Import Floats.SpecFloat.
From S2P Require Import Prelude Dict Struct Crc Crypto PyText Constants Packet Messages Errors.
From S2P Require Import State Backend UdpBackend.
From S2P Require Models.

Class NetworkLaws (N : Type) `{Network N} := {
  transmit_raises d (n : N) : raises (fun cls => is_os_error cls = true) (transmit d n).1;
  randbits32_range (n : N) : 0 <= (randbits32 n).1 < 2 ^ 32 }.

(** ** One exchange *)
Definition authentic (key : bytes) (p : Packet) : Prop := exists d, Packet.decode d key = Ok p.

(** [p] is a response fragment to [expected]. *)
Definition answers (expected p : Packet) : Prop :=
  kind p = MessageKind.RESPONSE /\ request_id p = request_id expected /\
  opcode p = opcode expected /\
  (opcode expected <> Opcode.HELLO -> session_id p = session_id expected).

Definition exchange_ok (key : bytes) (expected : Packet) (e : exchange) : Prop :=
  dict_ok (received e) /\
  Forall (fun ip => authentic key ip.2 /\ answers expected ip.2) (received e).

(** The payload of a complete response whose fragments are all authentic. *)
Definition authentic_response (key : bytes) (expected : Packet) (payload : bytes) (last : Packet) : Prop :=
  exists ps, complete_message ps payload /\ last ∈ ps /\
    Forall (fun p => authentic key p /\ answers expected p) ps.

Lemma authentic_valid key p : authentic key p -> valid_packet p.
Proof. intros [d Hd]. by apply decode_inv in Hd as [Hv _]. Qed.

Lemma dict_set_In {V} k (v : V) d kv : kv ∈ dict_set k v d -> kv = (k, v) \/ kv ∈ d.
Proof.
  induction d as [|[k' v'] d IH]; cbn [dict_set].
  - intros ->%list_elem_of_singleton. by left.
  - destruct (k' =? k); rewrite !elem_of_cons; naive_solver.
Qed.

Lemma dict_set_mem {V} k (v : V) d : v ∈ dict_values (dict_set k v d).
Proof.
  unfold dict_values. induction d as [|[k' v'] d IH]; cbn [dict_set]; [by left|].
  destruct (k' =? k); [by left|by right].
Qed.

Lemma exchange_ok_set key expected p e n why :
  authentic key p -> answers expected p -> exchange_ok key expected e ->
  exchange_ok key expected (mkExchange (dict_set (fragment_index p) p (received e)) n why).
Proof.
  intros Ha Hp [Hd Hf]. split; [by apply dict_set_ok|]. cbn [received].
  rewrite Forall_forall in Hf |- *. intros ip [->|Hin]%dict_set_In; [done|by apply Hf].
Qed.

(** The exceptions an exchange can raise by itself. *)
Definition exchange_error (cls : exn_class) : Prop :=
  is_value_error cls = true \/ is_runtime_error cls = true \/ is_os_error cls = true.

Lemma on_datagram_sound to key expected from d e r :
  length key = 16%nat -> exchange_ok key expected e ->
  on_datagram to key expected from d e = r ->
  raises exchange_error r /\
  match r with
  | Ok (Waiting e') => exchange_ok key expected e'
  | Ok (Complete payload last) => authentic_response key expected payload last
  | Err _ => True
  end.
Proof.
  intros Hk He <-. unfold on_datagram. destruct (negb _ || _); [done|].
  pose proof (decode_raises d key Hk) as Hr.
  destruct (Packet.decode d key) as [p|err] eqn:Ed; cbn in Hr.
  2: { rewrite bool_decide_eq_true_2 by done. done. }
  destruct (negb (request_id p =? _) || _ || _) eqn:Em; [done|].
  assert (Hauth : authentic key p) by (by exists d).
  destruct (bool_decide (kind p = MessageKind.ERROR)) eqn:Ek.
  { pose proof (decode_error_raises (payload p)) as Hde.
    destruct (decode_error (payload p)) as [[code msg]|e']; cbn in *; [|by rewrite Hde; split; [left|]].
    split; [right; by left|done]. }
  destruct (negb (bool_decide (kind p = MessageKind.RESPONSE))) eqn:Ek2; [done|].
  assert (Hans : answers expected p).
  { bool_to_prop. unfold answers. split_and!; try done.
    - by destruct (Z.eqb_spec (request_id p) (request_id expected)).
    - intros Hne. bool_to_prop.
      rewrite bool_decide_eq_false_2 in * by done. cbn in *.
      by destruct (Z.eqb_spec (session_id p) (session_id expected)). }
  pose proof (exchange_ok_set key expected p e (ignored e) (last_ignored e) Hauth Hans He) as He'.
  destruct (len _ =? fragment_count p); [|done].
  assert (Hv : Forall valid_packet (dict_values (dict_set (fragment_index p) p (received e)))).
  { destruct He' as [_ Hf]. apply Forall_fmap. eapply Forall_impl; [exact Hf|].
    intros ip [Ha _]. by eapply authentic_valid. }
  pose proof (reassemble_raises _ Hv) as Hrr.
  destruct (reassemble_packets _) as [data|err] eqn:Ere.
  - split; [done|]. destruct (reassemble_sound _ _ Hv Ere) as (ps & Hp & Hc).
    exists ps. split_and!; [done|rewrite <- Hp; apply dict_set_mem|]. rewrite <- Hp.
    apply Forall_fmap. by destruct He' as [_ Hf].
  - cbn in Hrr |- *. split; [left; by rewrite Hrr|done].
Qed.

Lemma receive_loop_sound to key expected arrived e r rest :
  length key = 16%nat -> exchange_ok key expected e ->
  receive_loop to key expected arrived e = (r, rest) ->
  raises exchange_error r /\
  match r with
  | Ok (Waiting e') => exchange_ok key expected e'
  | Ok (Complete payload last) => authentic_response key expected payload last
  | Err _ => True
  end.
Proof.
  intros Hk. revert e. induction arrived as [|[from d] arrived IH]; intros e He; cbn [receive_loop].
  { by intros [= <- _]. }
  destruct (on_datagram to key expected from d e) as [[e'|payload last]|err] eqn:Eo;
    apply on_datagram_sound in Eo as [Hr Ho]; try done.
  - by apply IH.
  - by intros [= <- _].
  - by intros [= <- _].
Qed.

Section Safety.
Context {N : Type} `{NetworkLaws N}.
Local Abbreviation M := (stateful (UdpBackend N)).

(** ** The object's invariant *)
Record client_ok (u : UdpBackend N) : Prop := {
  client_base_key : length (_base_key u) = 16%nat;
  client_session_key k : _session_key u = Some k -> length k = 16%nat;
  client_session_id : 0 <= _session_id u < 65536;
  client_request_id : 0 < _request_id u < 65536 }.

Abbreviation safe := (ends client_ok exchange_error).

Lemma next_request_id_range id : 0 < next_request_id id < 65536.
Proof.
  unfold next_request_id. cbv zeta. pose proof (land_mask16_range (id + 1)).
  destruct (Z.eqb_spec (Z.land (id + 1) 0xFFFF) 0); lia.
Qed.

Lemma value_error cls : cls = ValueError -> exchange_error cls.
Proof. intros ->. by left. Qed.

Lemma safe_bind_lift {A B} (r : result A) (f : A -> M B) u :
  client_ok u -> raises exchange_error r -> (forall a, r = Ok a -> safe (f a) u) ->
  safe (lift r ≫= f) u.
Proof. apply ends_lift. Qed.

Lemma safe_lift {A} (r : result A) u : client_ok u -> raises exchange_error r -> safe (lift r) u.
Proof. by split. Qed.

Lemma safe_fail {A} cls msg u :
  client_ok u -> exchange_error cls -> safe (fail (Exn cls msg) : M A) u.
Proof. by split. Qed.

Lemma safe_catch {A} (m : M A) h u :
  safe m u -> (forall e u', m u = (Err e, u') -> client_ok u' -> exchange_error (exn_cls e) ->
    safe (h e) u') -> safe (catch m h) u.
Proof.
  intros [HI HP] Hh. unfold catch, ends. destruct (m u) as [[a|e] u'] eqn:E; [done|].
  destruct (diverges e); [done|]. by apply (Hh e u').
Qed.

Lemma raises_value {A} (r : result A) : raises (.= ValueError) r -> raises exchange_error r.
Proof. destruct r; [done|]. cbn. apply value_error. Qed.

(** ** Requests *)
Lemma set_network_ok n l u : client_ok u -> client_ok (set_network n l u).
Proof. by intros []. Qed.

Lemma set_request_id_ok u : client_ok u ->
  client_ok (set_request_id (next_request_id (_request_id u)) u).
Proof. intros []. split; try done. apply next_request_id_range. Qed.

Lemma sendto_safe d u : client_ok u -> safe (sendto d) u.
Proof.
  intros Hu. unfold ends, sendto. pose proof (transmit_raises d (network u)) as Hr.
  destruct (transmit d (network u)) as [[l|e] n]; (split; [by apply set_network_ok|]); [done|].
  right. by right.
Qed.

Lemma attempts_safe n encoded key expected e u :
  client_ok u -> length key = 16%nat -> exchange_ok key expected e ->
  safe (attempts n encoded key expected e) u /\
  forall r u', attempts n encoded key expected e u = (Ok r, u') ->
    authentic_response key expected r.1 r.2.
Proof.
  intros Hu Hk. revert e u Hu. induction n as [|n IH]; intros e u Hu He; cbn [attempts].
  { split; [|by intros]. unfold ends. rewrite bind_run. cbn. split; [done|]. right. by right. }
  assert (Hsent : safe (each sendto encoded) u).
  { apply ends_each; [done|]. intros d u' _ Hu'. by apply sendto_safe. }
  unfold ends at 1. rewrite bind_run. destruct Hsent as [Hu1 Hr1].
  destruct (each sendto encoded u) as [[[]|e1] u1]; [|by split].
  rewrite bind_run. unfold receive.
  destruct (receive_loop (target u1) key expected (inbox u1) e) as [r rest] eqn:El.
  apply receive_loop_sound in El as [Hr Ho]; [|done..].
  destruct r as [[e'|payload last]|err].
  - by apply IH; [apply set_network_ok|].
  - split; [by split; [apply set_network_ok|]|]. by intros r u' [= <- _].
  - split; [by split; [apply set_network_ok|]|]. done.
Qed.

(** An exchange changes the network and the socket's queue only. *)
Definition same_session (u u' : UdpBackend N) : Prop :=
  _session_key u' = _session_key u /\ _session_id u' = _session_id u /\ _request_id u' = _request_id u.

#[local] Instance same_session_preorder : PreOrder same_session.
Proof.
  split; [by intros u|]. intros u u' u'' (? & ? & ?) (? & ? & ?). unfold same_session. split_and!; congruence.
Qed.

Lemma attempts_keeps n encoded key expected e : keeps same_session (attempts n encoded key expected e).
Proof.
  revert e. induction n as [|n IH]; intros e; cbn [attempts].
  { by intros u. }
  apply keeps_bind; [apply _| |].
  { apply keeps_each; [apply _|]. intros d u. unfold sendto. by destruct (transmit d (network u)) as [[] ?]. }
  intros _. apply keeps_bind; [apply _| |].
  { intros u. unfold receive. by destruct (receive_loop _ _ _ _ _). }
  intros [e'|payload last]; [apply IH|by intros u].
Qed.

Lemma exchange_keeps ps key : keeps same_session (_exchange_with_packet ps key).
Proof.
  unfold _exchange_with_packet. do 2 (apply keeps_bind; [apply _|apply keeps_lift; apply _|intros ?]).
  apply keeps_bind; [apply _|apply keeps_gets; apply _|]. intros r. apply attempts_keeps.
Qed.

Lemma exchange_nil_ok key expected : exchange_ok key expected (mkExchange [] 0 []).
Proof. split; [apply NoDup_nil_2|constructor]. Qed.

Lemma encode_datagrams key ps :
  length key = 16%nat -> Forall valid_packet ps ->
  exists ds, map_result (fun p => d ← Packet.encode p key; Ok (_dos_transport_datagram d)) ps = Ok ds.
Proof.
  intros Hk. induction 1 as [|p ps Hp _ [ds Hds]]; [by eexists|]. cbn [map_result].
  destruct (encode_total p key Hp Hk) as (d & -> & _). cbn [mbind result_bind]. rewrite Hds. by eexists.
Qed.

Lemma exchange_safe p ps key u :
  client_ok u -> length key = 16%nat -> Forall valid_packet (p :: ps) ->
  safe (_exchange_with_packet (p :: ps) key) u /\
  forall r u', _exchange_with_packet (p :: ps) key u = (Ok r, u') ->
    authentic_response key p r.1 r.2.
Proof.
  intros Hu Hk Hv. destruct (encode_datagrams key (p :: ps) Hk Hv) as [ds Hds].
  pose proof (attempts_safe (Z.to_nat (_retries u + 1)) ds key p (mkExchange [] 0 []) u Hu Hk
    (exchange_nil_ok key p)) as Ha.
  unfold _exchange_with_packet, ends. rewrite bind_run, Hds. cbn [lift].
  rewrite bind_run. rewrite (getitem_in _ 0 p) by done. cbn [lift]. rewrite bind_run. cbn [gets].
  exact Ha.
Qed.

Lemma hello_request_Ok nonce :
  0 <= nonce < 2 ^ 32 -> exists bs, HelloRequest.encode (HelloRequest.mk nonce) = Ok bs /\ len bs = 4.
Proof.
  intros Hn. destruct (pack_fits _HELLO_REQUEST ⟨nonce⟩) as [bs Hbs]; [split; [cbn; lia|done]|].
  exists bs. split; [exact Hbs|]. by apply (pack_len _HELLO_REQUEST) in Hbs.
Qed.

Lemma handshake_safe u : client_ok u ->
  safe _handshake u /\
  forall u', _handshake u = (Ok tt, u') -> exists k, _session_key u' = Some k.
Proof.
  intros Hu. unfold _handshake, ends. rewrite bind_run. unfold randbits.
  pose proof (randbits32_range (network u)) as Hn. destruct (randbits32 (network u)) as [nonce n].
  cbn [fst] in Hn. set (u0 := set_network n (inbox u) u).
  assert (Hu0 : client_ok u0) by by apply set_network_ok. clearbody u0. clear Hu u n.
  rewrite bind_run. cbn [modify]. rewrite bind_run. cbn [get].
  set (u1 := set_request_id _ u0). assert (Hu1 : client_ok u1) by by apply set_request_id_ok.
  clearbody u1. clear Hu0 u0. rewrite bind_run.
  destruct (hello_request_Ok nonce Hn) as (bs & -> & Hl). cbn [lift]. rewrite bind_run.
  assert (Hv : valid_packet (mkPacket MessageKind.REQUEST Opcode.HELLO 0 (_request_id u1) 0 1 bs 0)).
  { apply valid_packet_spec. pose proof (client_request_id u1 Hu1). cbn. lia. }
  rewrite new_packet_valid by done. cbn [lift]. rewrite bind_run.
  match type of Hv with valid_packet ?p =>
    destruct (exchange_safe p [] (_base_key u1) u1 Hu1 (client_base_key u1 Hu1)) as [[Hu2 Hr2] _];
      [by constructor|];
    destruct (_exchange_with_packet [p] (_base_key u1) u1) as [[r|e] u2]; [|by split]
  end.
  cbn [snd] in Hu2. rewrite bind_run.
  pose proof (wire_decode_raises (c:=HelloResponse.codec) r.1) as Hdr. cbn [wire_decode HelloResponse.codec] in Hdr.
  destruct (HelloResponse.decode r.1) as [m|e] eqn:Ed; cbn [lift].
  2: { split; [|done]. split; [done|]. by apply (raises_value (Err e : result unit)). }
  apply (wire_decode_accepts (c:=HelloResponse.codec)) in Ed. cbn in Ed.
  destruct Ed as [(Hcn & Hsn & Hid & _) _]. cbn in Hcn, Hsn, Hid.
  destruct (negb _ || _) eqn:Em.
  { split; [|done]. by apply safe_fail; [|right; left]. }
  rewrite bind_run.
  destruct (derive_session_key_total (_base_key u1) nonce (HelloResponse.server_nonce m))
    as (k & -> & Hk); [apply Hu1|done|done|]. cbn [lift].
  split; [|intros u' [= <-]; by eexists]. split; [|done]. cbn [modify snd].
  destruct Hu2. split; try done. by intros ? [= <-].
Qed.

(** The packets of a request, or [ValueError] if it is too long. *)
Lemma request_packets o sid rid data :
  0 <= sid < 65536 -> 0 < rid < 65536 ->
  raises (.= ValueError) (fragment_message MessageKind.REQUEST o sid rid data 0) /\
  forall ps, fragment_message MessageKind.REQUEST o sid rid data 0 = Ok ps ->
    Forall valid_packet ps /\
    exists rest, ps = fragment MessageKind.REQUEST o sid rid data 0 :: rest.
Proof.
  intros Hs Hr. destruct (Z.le_gt_cases (len data) MAX_MESSAGE_SIZE) as [Hl|Hl].
  - rewrite fragment_message_Ok by lia. split; [done|]. intros ps [= <-].
    split; [apply fragments_valid; lia|]. unfold fragments.
    pose proof (fragment_total_bound data Hl). rewrite seqZ_cons by lia. by eexists.
  - unfold fragment_message. rewrite (raise_if_true (_ <? _)) by lia. done.
Qed.

Lemma ensure_open_run (u : UdpBackend N) :
  _ensure_open u = (if _closed u then raise RuntimeError (py "UDP backend is closed") else Ok tt, u).
Proof. unfold _ensure_open. rewrite bind_run. cbn [gets]. by destruct (_closed u). Qed.

Lemma request_safe o data u : client_ok u ->
  safe (_request o data) u /\
  forall r u', _request o data u = (Ok r, u') ->
    exists k sid rid last, _session_key u' = Some k /\ _session_id u' = sid /\ _request_id u' = rid /\
      authentic_response k (fragment MessageKind.REQUEST o sid rid data 0) r last.
Proof.
  intros Hu. unfold _request, ends. rewrite bind_run, ensure_open_run.
  destruct (_closed u); [by split; [split; [|right; left]|]|]. rewrite bind_run. cbn [gets].
  rewrite bind_run.
  assert (Hhs : exists r1 u1, (match _session_key u with None => _handshake | Some _ => mret tt end) u = (r1, u1) /\
    client_ok u1 /\ raises exchange_error r1 /\ (r1 = Ok tt -> exists k, _session_key u1 = Some k)).
  { destruct (_session_key u) as [k|] eqn:Ek.
    - exists (Ok tt), u. split; [done|]. split; [done|]. split; [done|]. intros _. by exists k.
    - destruct (handshake_safe u Hu) as [[Hok Hr] Hkey]. destruct (_handshake u) as [r1 u1].
      exists r1, u1. split_and!; try done; try apply Hok. intros ->. by apply Hkey. }
  destruct Hhs as (r1 & u1 & -> & Hu1 & Hr1 & Hkey). destruct r1 as [[]|e]; [|by split].
  destruct Hkey as [k Hk]; [done|]. rewrite bind_run. cbn [modify]. rewrite bind_run. cbn [get].
  set (u2 := set_request_id _ u1). assert (Hu2 : client_ok u2) by by apply set_request_id_ok.
  assert (Hk2 : _session_key u2 = Some k) by done. clearbody u2. clear Hu1 Hk Hr1 u1 Hu u.
  destruct (request_packets o (_session_id u2) (_request_id u2) data) as [Hr Hps]; [apply Hu2..|].
  rewrite bind_run. destruct (fragment_message _ _ _ _ _ _) as [ps|e]; cbn [lift].
  2: { split; [|done]. split; [done|]. by apply (raises_value (Err e : result unit)). }
  destruct (Hps ps eq_refl) as (Hv & rest & ->). rewrite Hk2. cbn [default from_option]. unfold id.
  pose proof (client_session_key u2 Hu2 k Hk2) as Hkl.
  unfold _exchange. rewrite bind_run.
  pose proof (exchange_keeps (fragment MessageKind.REQUEST o (_session_id u2) (_request_id u2) data 0 :: rest) k u2) as Hkeep.
  destruct (exchange_safe _ rest k u2 Hu2 Hkl Hv) as [[Hu3 Hr3] Hauth].
  destruct (_exchange_with_packet _ k u2) as [[r|e] u3]; [|by split].
  split; [done|]. intros r' u' [= <- <-]. destruct Hkeep as (H1 & H2 & H3).
  exists k, (_session_id u2), (_request_id u2), r.2. cbn [fst snd] in *.
  split_and!; [congruence..|]. by apply (Hauth r u3).
Qed.

(** *** Encoders on values that come from the wire *)
Lemma raises_pack {A} fs v (f : bytes -> result A) :
  fits fs v -> (forall b, raises (.= ValueError) (f b)) -> raises (.= ValueError) (pack fs v ≫= f).
Proof. intros Hf Hr. destruct (pack_fits fs v Hf) as [b ->]. apply Hr. Qed.

Lemma end_request_raises id :
  0 <= id < 65536 -> raises (.= ValueError) (TransferEndRequest.encode (TransferEndRequest.mk id)).
Proof.
  intros Hi. unfold TransferEndRequest.encode. apply raises_bind; [by apply raises_raise_if|].
  intros _ _. destruct (pack_fits _TRANSFER_END_REQUEST ⟨id⟩) as [b Hb]; [split; [cbn; lia|done]|].
  cbn [TransferEndRequest.transfer_id]. by rewrite Hb.
Qed.

Lemma block_request_raises m :
  0 <= TransferBlockRequest.transfer_id m < 65536 -> 0 <= TransferBlockRequest.offset m < 2 ^ 32 ->
  raises (.= ValueError) (TransferBlockRequest.encode m).
Proof.
  intros Hi Ho. unfold TransferBlockRequest.encode. apply raises_bind; [by apply raises_raise_if|].
  intros _ _. apply raises_bind; [by apply raises_raise_if|]. intros [] Hl%raise_if_Ok.
  apply raises_bind; [by apply raises_raise_if|]. intros _ _.
  apply raises_pack; [|done]. unfold MAX_TRANSFER_BLOCK in Hl. unfold fits. cbn. lia.
Qed.

Lemma key_request_raises m : raises (.= ValueError) (KeyRequest.encode m).
Proof.
  unfold KeyRequest.encode. do 3 (apply raises_bind; [by apply raises_raise_if|];
    let E := fresh "E" in intros [] E%raise_if_Ok).
  apply raises_pack; [|done]. pose proof (len_nonneg (KeyRequest.text m)).
  pose proof (len_nonneg (KeyRequest.keys m)). unfold fits. cbn. lia.
Qed.

Lemma read_begin_raises m : raises (.= ValueError) (FileReadBeginRequest.encode m).
Proof. unfold FileReadBeginRequest.encode. apply raises_bind; [apply validate_path_raises|done]. Qed.

Lemma write_begin_raises m :
  0 <= FileWriteBeginRequest.crc32 m < 2 ^ 32 -> raises (.= ValueError) (FileWriteBeginRequest.encode m).
Proof.
  intros Hc. unfold FileWriteBeginRequest.encode. apply raises_bind; [apply validate_path_raises|].
  intros [] [Hp _]%validate_path_Ok. apply raises_bind; [by apply raises_raise_if|].
  intros [] Ht%raise_if_Ok. apply raises_pack; [|done]. unfold fits. cbn.
  destruct (FileWriteBeginRequest.overwrite m); cbn; lia.
Qed.

Lemma dos_path_raises path : raises (.= ValueError) (_encode_dos_path path).
Proof.
  unfold _encode_dos_path. apply raises_bind; [by destruct (cp437_encode path)|]. intros bs _.
  apply raises_bind; [by apply raises_raise_if|done].
Qed.

Lemma named_keys_raises keys : raises (.= ValueError) (map_result named_key keys).
Proof. apply raises_map_result. intros k _. unfold named_key. by case_match. Qed.

(** *** Transfers *)
Lemma safe_request {A} o data (f : bytes -> M A) u :
  client_ok u -> (forall r u', client_ok u' -> safe (f r) u') -> safe (_request o data ≫= f) u.
Proof.
  intros Hu Hf. apply ends_bind; [by apply request_safe|]. intros r u' _ Hu'. by apply Hf.
Qed.

Lemma safe_decode {A B} (c : WireCodec A) `{!WireLaws c} bs (f : A -> M B) u :
  client_ok u -> (forall m, accepts c m -> safe (f m) u) -> safe (lift (wire_decode c bs) ≫= f) u.
Proof.
  intros Hu Hf. apply safe_bind_lift; [done|by apply raises_value, wire_decode_raises|].
  intros m Hm. apply Hf. by eapply wire_decode_accepts.
Qed.

Lemma abort_safe id u : client_ok u -> 0 <= id < 65536 -> safe (_abort_transfer id) u.
Proof.
  intros Hu Hi. unfold _abort_transfer. apply safe_catch.
  - apply safe_bind_lift; [done|by apply raises_value, end_request_raises|]. intros bs _.
    apply safe_request; [done|]. intros r u' Hu'. by apply ends_ret.
  - intros e u' _ Hu' He. destruct (_ || _); [by apply ends_ret|by split].
Qed.

Lemma or_abort_safe {A} id (m : M A) u : 0 <= id < 65536 -> safe m u -> safe (or_abort id m) u.
Proof.
  intros Hi Hm. apply safe_catch; [done|]. intros e u' _ Hu' He.
  apply ends_bind; [by apply abort_safe|]. intros _ u'' _ Hu''. by split.
Qed.

Lemma download_loop_safe fuel o id total output crc u :
  client_ok u -> 0 <= id < 65536 -> total < 2 ^ 32 -> safe (download_loop fuel o id total output crc) u.
Proof.
  intros Hu Hi Ht. revert output crc u Hu. induction fuel as [|fuel IH]; intros output crc u Hu;
    cbn [download_loop]; [by apply ends_ret|].
  destruct (negb (len output <? total)) eqn:El; [by apply ends_ret|].
  apply safe_bind_lift; [done|apply raises_value, block_request_raises; cbn; pose proof (len_nonneg output); lia|].
  intros bs _. apply safe_request; [done|]. intros r u' Hu'.
  apply (safe_decode TransferBlockResponse.codec); [done|]. intros m _.
  cbv zeta. apply ends_if; intros _; [by apply safe_fail; [|right; left]|].
  apply ends_if; intros _; [by apply safe_fail; [|right; left]|]. by apply IH.
Qed.

Lemma end_download_safe o id u : client_ok u -> 0 <= id < 65536 -> safe (end_download o id) u.
Proof.
  intros Hu Hi. apply safe_bind_lift; [done|by apply raises_value, end_request_raises|]. intros bs _.
  apply safe_request; [done|]. intros r u' Hu'.
  apply safe_lift; [done|]. apply raises_value, (wire_decode_raises (c:=TransferEndResponse.codec)).
Qed.

Lemma download_safe o o' id total u :
  client_ok u -> 0 <= id < 65536 -> total < 2 ^ 32 -> safe (download o o' id total) u.
Proof.
  intros Hu Hi Ht. apply or_abort_safe; [done|]. apply ends_bind; [by apply download_loop_safe|].
  intros r u' _ Hu'. apply ends_bind; [by apply end_download_safe|]. intros m u'' _ Hu''. by apply ends_ret.
Qed.

Lemma upload_loop_safe blocks id offset crc u :
  client_ok u -> 0 <= id < 65536 -> 0 <= offset -> offset + 900 * len blocks < 2 ^ 32 ->
  safe (upload_loop blocks id offset crc) u.
Proof.
  intros Hu Hi. revert offset crc u Hu. induction blocks as [|b blocks IH]; intros offset crc u Hu Ho Hb;
    cbn [upload_loop]; [by apply ends_ret|].
  assert (Hlen : len (b :: blocks) = 1 + len blocks) by (unfold len; cbn [length]; lia).
  pose proof (len_nonneg blocks).
  apply safe_bind_lift; [done|apply raises_value, block_request_raises; cbn; lia|].
  intros bs _. apply safe_request; [done|]. intros r u' Hu'.
  apply (safe_decode TransferBlockResponse.codec); [done|]. intros m _.
  cbv zeta. apply ends_if; intros _; [by apply safe_fail; [|right; left]|].
  unfold TRANSFER_BLOCK_SIZE. apply IH; [done|lia|lia].
Qed.

(** *** The operations *)
Lemma chunks_count n (l : bytes) : (0 < n)%nat -> len (chunks n l) <= len l.
Proof.
  intros Hn. unfold chunks, len. assert (H1 : (length l <= length l)%nat) by done. revert H1.
  generalize (length l) at 2 3. intros f. revert l. induction f as [|f IH]; intros l Hl; [cbn; lia|].
  destruct l as [|x l]; [cbn; lia|]. cbn [chunks_fuel length].
  pose proof (IH (drop n (x :: l))) as Hd. rewrite length_drop in Hd. cbn [length] in Hl, Hd. lia.
Qed.

Lemma udp_status_safe u : client_ok u -> safe udp_get_status u.
Proof.
  intros Hu. apply safe_request; [done|]. intros r u' Hu'. apply (safe_decode StatusMessage.codec); [done|].
  intros m _. by split.
Qed.

Lemma udp_capabilities_safe u : client_ok u -> safe udp_get_capabilities u.
Proof.
  intros Hu. apply safe_request; [done|]. intros r u' Hu'.
  apply (safe_decode CapabilitiesMessage.codec); [done|]. intros m _. by split.
Qed.

Lemma udp_diagnostics_safe u : client_ok u -> safe get_resident_diagnostics u.
Proof.
  intros Hu. apply safe_request; [done|]. intros r u' Hu'.
  apply safe_lift; [done|]. apply raises_value, (wire_decode_raises (c:=ResidentDiagnosticsMessage.codec)).
Qed.

Lemma text_screen_raises s : raises (.= ValueError) (Models.new_text_screen s).
Proof.
  unfold Models.new_text_screen, Models.text_screen_check.
  apply raises_bind; [|done]. repeat (apply raises_bind; [by apply raises_raise_if|intros _ _]).
  by apply raises_raise_if.
Qed.

Lemma graphics_screen_raises g : raises (.= ValueError) (Models.new_graphics_screen g).
Proof.
  unfold Models.new_graphics_screen, Models.graphics_screen_check.
  apply raises_bind; [|done]. repeat (apply raises_bind; [by apply raises_raise_if|intros _ _]).
  by apply raises_raise_if.
Qed.

Lemma udp_capture_screen_safe u : client_ok u -> safe udp_capture_screen u.
Proof.
  intros Hu. apply safe_request; [done|]. intros r u' Hu'. apply safe_lift; [done|]. apply raises_value.
  apply raises_bind; [apply (wire_decode_raises (c:=ScreenMessage.codec))|]. intros m _.
  apply text_screen_raises.
Qed.

Lemma udp_capture_graphics_safe u : client_ok u -> safe udp_capture_graphics u.
Proof.
  intros Hu. apply safe_request; [done|]. intros r u' Hu'.
  apply (safe_decode GraphicsBeginResponse.codec); [done|]. intros m [(Hi & Ht) _]. cbn in Hi.
  cbv zeta. apply ends_if; intros E.
  - apply ends_bind; [by apply abort_safe|]. intros _ u'' _ Hu''. apply safe_fail; [done|by left].
  - unfold MAX_GRAPHICS_SIZE in E. apply ends_bind; [apply download_safe; [done|done|lia]|].
    intros [[data crc] fin] u'' _ Hu''. apply ends_if; intros _.
    + apply safe_fail; [done|right; by left].
    + apply safe_lift; [done|]. apply raises_value, graphics_screen_raises.
Qed.

Lemma udp_download_safe path u : client_ok u -> safe (udp_download_file path) u.
Proof.
  intros Hu. unfold udp_download_file. apply ends_bind; [by apply ends_ret|]. intros allowed u0 [= _ <-] _.
  apply ends_if; intros _; [apply safe_fail; [done|right; by right]|].
  apply safe_bind_lift; [done|by apply raises_value, dos_path_raises|]. intros bs _.
  apply safe_bind_lift; [done|by apply raises_value, read_begin_raises|]. intros req _.
  apply safe_request; [done|]. intros r u' Hu'.
  apply (safe_decode TransferBeginResponse.codec); [done|]. intros m [(Hi & Ht) _]. cbn in Hi.
  cbv zeta. apply ends_if; intros E.
  - apply ends_bind; [by apply abort_safe|]. intros _ u'' _ Hu''. apply safe_fail; [done|by left].
  - unfold MAX_FILE_SIZE in E. apply ends_bind; [apply download_safe; [done|done|lia]|].
    intros [[data crc] fin] u'' _ Hu''. apply ends_if; intros _.
    + apply safe_fail; [done|right; by left].
    + by apply ends_ret.
Qed.

Lemma udp_upload_safe path data overwrite u :
  client_ok u -> safe (udp_upload_file path data overwrite) u.
Proof.
  intros Hu. unfold udp_upload_file. apply ends_bind; [by apply ends_ret|]. intros allowed u0 [= _ <-] _.
  apply ends_if; intros _; [apply safe_fail; [done|right; by right]|].
  apply ends_if; intros Hl; [apply safe_fail; [done|by left]|]. cbv zeta.
  apply safe_bind_lift; [done|by apply raises_value, dos_path_raises|]. intros bs _.
  apply safe_bind_lift; [done|apply raises_value, write_begin_raises; apply crc32_from_range|]. intros req _.
  apply safe_request; [done|]. intros r u' Hu'.
  apply (safe_decode TransferBeginResponse.codec); [done|]. intros m [(Hi & Ht) _]. cbn in Hi.
  apply ends_bind.
  - apply or_abort_safe; [done|]. apply ends_bind.
    + apply upload_loop_safe; [done|done|done|]. unfold MAX_FILE_SIZE in Hl.
      pose proof (chunks_count (Z.to_nat TRANSFER_BLOCK_SIZE) data). 
      change (0 < Z.to_nat TRANSFER_BLOCK_SIZE)%nat with (0 < 900)%nat in *. lia.
    + intros _ u'' _ Hu''. by apply end_download_safe.
  - intros fin u'' _ Hu''. apply ends_if; intros _; [apply safe_fail; [done|right; by left]|by apply ends_ret].
Qed.

(** The pause after the keys. *)
Definition settle (ms : Z) : result unit := if ms =? 0 then Ok tt else sleep_ms ms.

Lemma udp_send_keys_settles text keys delay ms (u : UdpBackend N) :
  udp_send_keys text keys delay ms u =
    match udp_send_keys text keys delay 0 u with
    | (Ok receipt, u') => match settle ms with Ok _ => (Ok receipt, u') | Err e => (Err e, u') end
    | (Err e, u') => (Err e, u')
    end.
Proof.
  unfold udp_send_keys, settle. rewrite !bind_run. destruct (cp437_encode text); cbn [lift]; [|done].
  rewrite !bind_run. destruct (map_result named_key keys) as [codes|]; cbn [lift]; [|done].
  rewrite !bind_run. destruct (KeyRequest.encode _) as [req|]; cbn [lift]; [|done].
  rewrite !bind_run. destruct (_request Opcode.SEND_KEYS req u) as [[r|] u']; [|done].
  rewrite !bind_run. destruct (KeyResponse.decode r); cbn [lift]; [|done].
  rewrite !bind_run. cbn [Z.eqb lift]. destruct (ms =? 0); cbn [lift]; [done|].
  by destruct (sleep_ms ms).
Qed.

Lemma udp_send_keys_0_safe text keys delay u :
  client_ok u -> safe (udp_send_keys text keys delay 0) u.
Proof.
  intros Hu. unfold udp_send_keys.
  apply safe_bind_lift; [done|apply raises_value; by destruct (cp437_encode text)|]. intros bs _.
  apply safe_bind_lift; [done|by apply raises_value, named_keys_raises|]. intros ks _.
  apply safe_bind_lift; [done|by apply raises_value, key_request_raises|]. intros req _.
  apply safe_request; [done|]. intros r u' Hu'.
  apply (safe_decode KeyResponse.codec); [done|]. intros m _. by apply ends_ret.
Qed.

(** A pause that does not fit the clock's range. *)
Definition too_long (ms : Z) (cls : exn_class) : Prop :=
  cls = OverflowError /\ raises (.= OverflowError) (sleep_ms ms) /\ is_ok (sleep_ms ms) = false.

Lemma sleep_ms_raises ms :
  raises (fun cls => cls = ValueError \/ too_long ms cls) (sleep_ms ms).
Proof.
  destruct (sleep_ms ms) as [[]|e] eqn:E; [done|]. cbn. unfold too_long. rewrite E. revert E.
  unfold sleep_ms, raise_if. destruct (_ || _); [|destruct (ms <? 0); [|done]]; intros [= <-]; [by right|by left].
Qed.

(** The pauses the tools allow. *)
Lemma sleep_ms_allowed ms : 0 <= ms <= 2000 -> sleep_ms ms = Ok tt.
Proof.
  intros Hms. assert (Hall : forallb (fun ms => is_ok (sleep_ms ms)) (seqZ 0 2001) = true)
    by (vm_compute; reflexivity).
  rewrite forallb_forall in Hall.
  assert (Hok : is_ok (sleep_ms ms) = true) by (apply Hall, list_elem_of_In, elem_of_seqZ; lia).
  apply is_ok_iff in Hok as [[] Hok]. exact Hok.
Qed.

Lemma udp_send_keys_safe text keys delay ms u :
  client_ok u ->
  ends client_ok (fun cls => exchange_error cls \/ too_long ms cls) (udp_send_keys text keys delay ms) u.
Proof.
  intros Hu. destruct (udp_send_keys_0_safe text keys delay u Hu) as [Hok Hr]. unfold ends.
  rewrite udp_send_keys_settles. destruct (udp_send_keys text keys delay 0 u) as [[receipt|e] u'];
    [|by split; [|left]]. cbn [fst snd] in *.
  unfold settle. destruct (ms =? 0); [done|]. pose proof (sleep_ms_raises ms) as Hs.
  destruct (sleep_ms ms) as [|e] eqn:E; [done|]. split; [done|]. cbn in Hs |- *.
  destruct Hs as [Hs|Hs]; [left; by apply value_error|by right].
Qed.

Lemma udp_close_safe u : client_ok u -> safe udp_close u.
Proof.
  intros Hu. unfold udp_close. apply ends_bind; [by apply ends_ret|]. intros done_ u' [= _ <-] _.
  apply ends_if; intros _; [by apply ends_ret|]. by destruct Hu.
Qed.

(** *** Sessions *)
Inductive call :=
| GetStatus | GetCapabilities | GetDiagnostics | CaptureScreen | CaptureGraphics | Close
| SendKeys (text : pystr) (keys : list pystr) (inter_key_delay_ms settle_ms : Z)
| DownloadFile (path : pystr)
| UploadFile (path : pystr) (data : bytes) (overwrite : bool).

Definition ignore_result {A} (m : M A) : M unit := m;; mret tt.

Definition run_call (c : call) : M unit :=
  match c with
  | GetStatus => ignore_result get_status
  | GetCapabilities => ignore_result get_capabilities
  | GetDiagnostics => ignore_result get_resident_diagnostics
  | CaptureScreen => ignore_result capture_screen
  | CaptureGraphics => ignore_result capture_graphics
  | Close => ignore_result close
  | SendKeys text keys delay settle => ignore_result (send_keys text keys delay settle)
  | DownloadFile path => ignore_result (download_file path)
  | UploadFile path data overwrite => ignore_result (upload_file path data overwrite)
  end.

Lemma ignore_result_safe {A} (m : M A) u : safe m u -> safe (ignore_result m) u.
Proof. intros Hm. apply ends_bind; [done|]. intros a u' _ Hu'. by apply ends_ret. Qed.

(** What a call may raise. *)
Definition call_error (c : call) (cls : exn_class) : Prop :=
  exchange_error cls \/ match c with SendKeys _ _ _ ms => too_long ms cls | _ => False end.

Lemma ends_weaken {A} (P Q : exn_class -> Prop) (m : M A) u :
  (forall cls, P cls -> Q cls) -> ends client_ok P m u -> ends client_ok Q m u.
Proof. intros HPQ [HI HP]. split; [done|]. destruct (m u).1; [done|by apply HPQ]. Qed.

Lemma run_call_safe c u : client_ok u -> ends client_ok (call_error c) (run_call c) u.
Proof.
  intros Hu.
  assert (Hsafe : forall A (m : M A), safe m u -> ends client_ok (call_error c) (ignore_result m) u).
  { intros A m Hm. eapply ends_weaken; [|by apply ignore_result_safe]. by left. }
  destruct c; lazymatch goal with |- context [SendKeys] => idtac | _ => apply Hsafe end; cbn [run_call udp_backend get_status get_capabilities
    capture_screen capture_graphics send_keys download_file upload_file close].
  - by apply udp_status_safe.
  - by apply udp_capabilities_safe.
  - by apply udp_diagnostics_safe.
  - by apply udp_capture_screen_safe.
  - by apply udp_capture_graphics_safe.
  - by apply udp_close_safe.
  - apply (ends_bind _ _ (udp_send_keys text keys inter_key_delay_ms settle_ms));
      [by apply udp_send_keys_safe|]. intros a u' _ Hu'. by apply ends_ret.
  - by apply udp_download_safe.
  - by apply udp_upload_safe.
Qed.

Lemma new_udp_ok (n : N) address key timeout retries r w first_id u :
  0 <= first_id < 65535 -> new_udp n address key timeout retries r w first_id = Ok u -> client_ok u.
Proof.
  intros Hf (Hk & _ & ->)%new_udp_Ok. split; cbn [_base_key _session_key _session_id _request_id].
  - unfold len in Hk. lia.
  - done.
  - lia.
  - destruct (Z.eqb_spec first_id 0); lia.
Qed.

(** C28. Whatever the network delivers and whichever operations are called in
    whichever order, after failures too, the client keeps its invariant (keys of
    16 bytes, ids in range, never zero for requests) and raises nothing but a
    [ValueError], [RuntimeError] or [OSError] (with their subclasses): no
    [KeyError], [IndexError] or [struct.error] escapes.  The one exception: after
    sending keys, [time.sleep] raises [OverflowError] for a pause beyond the clock's
    64 bits; for the pauses the tools allow, up to two seconds, it never does. *)
Theorem client_invariant (n : N) address key timeout retries r w first_id u calls :
  0 <= first_id < 65535 -> new_udp n address key timeout retries r w first_id = Ok u ->
  let after := foldl (fun u c => (run_call c u).2) u calls in
  client_ok after /\ (forall c, raises (call_error c) (run_call c after).1) /\
  (forall ms, 0 <= ms <= 2000 -> sleep_ms ms = Ok tt).
Proof.
  intros Hf Hu after. assert (Ha : client_ok after).
  { unfold after. apply new_udp_ok in Hu; [|done]. clear after Hf n address key timeout retries r w first_id.
    revert u Hu. induction calls as [|c calls IH]; intros u Hu; [done|]. apply IH, run_call_safe, Hu. }
  split; [done|]. split; [|exact sleep_ms_allowed]. intros c. by apply run_call_safe.
Qed.

Lemma request_returns o data u r u' :
  client_ok u -> _request o data u = (Ok r, u') -> exists k, _session_key u' = Some k.
Proof.
  intros Hu Hr. destruct (request_safe o data u Hu) as [_ Hauth].
  destruct (Hauth r u' Hr) as (k & _ & _ & _ & Hk & _). by exists k.
Qed.

(** C29. A response is returned only if it is the agent's: whatever arrives,
    [_request] returns a payload only if it is the complete message of fragments
    that all authenticated under the session key, all responses to this
    operation, with the request id just used and the current session's id. *)
Theorem request_returns_authentic_response o data u r u' :
  client_ok u -> _request o data u = (Ok r, u') ->
  exists k ps, _session_key u' = Some k /\ complete_message ps r /\
    Forall (fun p => authentic k p /\ kind p = MessageKind.RESPONSE /\ opcode p = o /\
      request_id p = _request_id u' /\ (o <> Opcode.HELLO -> session_id p = _session_id u')) ps.
Proof.
  intros Hu Hr. destruct (request_safe o data u Hu) as [_ Hauth].
  destruct (Hauth r u' Hr) as (k & sid & rid & last & Hk & <- & <- & ps & Hc & _ & Hf).
  exists k, ps. split_and!; [done|done|]. eapply Forall_impl; [exact Hf|].
  intros p [Ha (H1 & H2 & H3 & H4)]. done.
Qed.

(** *** Transfers *)
Lemma lift_run {A} (r : result A) (u : UdpBackend N) : lift r u = (r, u).
Proof. done. Qed.

Lemma bind_returns {A B} (m : M A) (f : A -> M B) u b u' :
  (m ≫= f) u = (Ok b, u') -> exists a u1, m u = (Ok a, u1) /\ f a u1 = (Ok b, u').
Proof. rewrite bind_run. destruct (m u) as [[a|e] u1]; [|done]. eauto. Qed.

Lemma if_fail_returns {A} (c : bool) e (m : M A) u a u' :
  (if c then fail e else m) u = (Ok a, u') -> c = false /\ m u = (Ok a, u').
Proof. by destruct c. Qed.

Lemma or_abort_returns {A} id (m : M A) u a u' : or_abort id m u = (Ok a, u') -> m u = (Ok a, u').
Proof.
  unfold or_abort, catch. destruct (m u) as [[b|e] u1]; [done|].
  destruct (diverges e); [done|]. rewrite bind_run.
  by destruct (_abort_transfer id u1) as [[[]|?] ?].
Qed.

Lemma download_loop_returns fuel o id total output (u : UdpBackend N) data crc u' :
  download_loop fuel o id total output (crc32_from 0 output) u = (Ok (data, crc), u') ->
  len output <= total -> total - len output <= Z.of_nat fuel ->
  len data = total /\ crc = crc32_from 0 data.
Proof.
  revert output u. induction fuel as [|fuel IH]; intros output u Hrun Hl Hf; cbn [download_loop] in Hrun.
  { injection Hrun as <- <- _. split; [lia|done]. }
  destruct (len output <? total) eqn:El; cbn [negb] in Hrun.
  2: { injection Hrun as <- <- _. split; [lia|done]. }
  apply bind_returns in Hrun as (req & u1 & _ & Hrun).
  apply bind_returns in Hrun as (r & u2 & _ & Hrun).
  apply bind_returns in Hrun as (m & u3 & _ & Hrun). cbv zeta in Hrun.
  apply if_fail_returns in Hrun as [Hg Hrun]. apply if_fail_returns in Hrun as [Hc Hrun].
  bool_to_prop. rewrite <- crc32_from_app in Hrun. 
  assert (Hd : 0 < len (TransferBlockResponse.data m)).
  { pose proof (len_nonneg (TransferBlockResponse.data m)).
    destruct (Z.eq_dec (len (TransferBlockResponse.data m)) 0) as [E0%len_nil_inv|]; [done|lia]. }
  eapply IH; [exact Hrun|rewrite len_app; lia..].
Qed.

Lemma download_returns o o' id total (u : UdpBackend N) data crc fin u' :
  0 <= total -> download o o' id total u = (Ok (data, crc, fin), u') ->
  len data = total /\ crc = crc32_from 0 data.
Proof.
  intros Ht Hrun. apply or_abort_returns in Hrun.
  apply bind_returns in Hrun as ([data' crc'] & u1 & Hloop & Hrun).
  apply bind_returns in Hrun as (m & u2 & _ & Hrun). injection Hrun as -> -> _ _.
  unfold _download_blocks in Hloop. rewrite <- (crc32_from_nil 0) in Hloop by done.
  apply download_loop_returns in Hloop; [done|done|]. change (len (@nil byte)) with 0. lia.
Qed.

(** A file is returned only if it is complete and verified: whatever the
    network delivers, [download_file] returns data only with downloads allowed,
    of exactly the size the agent announced (at most 1 MiB), and with the CRC-32
    it reports, which the agent's end response has confirmed. *)
Lemma download_file_verified path (u : UdpBackend N) c u' :
  download_file path u = (Ok c, u') ->
  _allow_file_read u = true /\ Models.contents_path c = path /\
  len (Models.contents_data c) <= MAX_FILE_SIZE /\
  Models.contents_crc32 c = crc32_from 0 (Models.contents_data c).
Proof.
  cbn [download_file udp_backend]. unfold udp_download_file. intros Hrun.
  apply bind_returns in Hrun as (allowed & u0 & [= <- <-] & Hrun).
  apply if_fail_returns in Hrun as [Ha Hrun]. apply negb_false_iff in Ha.
  do 2 (apply bind_returns in Hrun as (? & ? & _ & Hrun)).
  apply bind_returns in Hrun as (r & u1 & _ & Hrun).
  apply bind_returns in Hrun as (m & u2 & Hm & Hrun). cbv zeta in Hrun.
  destruct (MAX_FILE_SIZE <? TransferBeginResponse.total_size m) eqn:El.
  { rewrite bind_run in Hrun. by destruct (_abort_transfer _ u2) as [[[]|?] ?]. }
  apply bind_returns in Hrun as ([[data crc] fin] & u3 & Hd & Hrun).
  apply if_fail_returns in Hrun as [_ Hrun]. injection Hrun as <- _.
  injection Hm as Hm _. apply (wire_decode_accepts (c:=TransferBeginResponse.codec)) in Hm.
  destruct Hm as [(_ & Ht & _) _]. cbn in Ht.
  apply download_returns in Hd as [Hl Hc]; [|lia]. by split_and!; [|done|cbn; lia|].
Qed.

(** The same for a captured framebuffer: a graphics screen is returned only
    with as many bytes as announced (and so exactly planes times bytes per
    plane), well-formed metadata, and the CRC-32 of its bytes. *)
Lemma capture_graphics_verified (u : UdpBackend N) g u' :
  capture_graphics u = (Ok g, u') ->
  Models.well_formed_graphics g /\ len (Models.data g) <= MAX_GRAPHICS_SIZE /\
  Models.crc32 g = crc32_from 0 (Models.data g).
Proof.
  cbn [capture_graphics udp_backend]. unfold udp_capture_graphics. intros Hrun.
  apply bind_returns in Hrun as (r & u1 & _ & Hrun).
  apply bind_returns in Hrun as (m & u2 & Hm & Hrun). cbv zeta in Hrun.
  destruct (MAX_GRAPHICS_SIZE <? GraphicsBeginResponse.total_size m) eqn:El.
  { rewrite bind_run in Hrun. by destruct (_abort_transfer _ u2) as [[[]|?] ?]. }
  apply bind_returns in Hrun as ([[data crc] fin] & u3 & Hd & Hrun).
  apply if_fail_returns in Hrun as [_ Hrun]. injection Hrun as Hg _.
  unfold Models.new_graphics_screen in Hg. inv_ok. apply Models.graphics_screen_check_Ok in E.
  injection Hm as Hm _. apply (wire_decode_accepts (c:=GraphicsBeginResponse.codec)) in Hm.
  destruct Hm as [Hf _]. apply download_returns in Hd as [Hl Hc].
  { split; [done|]. split; [cbn [Models.data]; lia|done]. }
  unfold GraphicsBeginResponse.sendable, fits in Hf. cbn in Hf. lia.
Qed.

(** A receipt is returned only for the bytes given: whatever the network
    delivers, [upload_file] returns only with uploads allowed and at most 1 MiB
    of data, and its receipt has the path, length and CRC-32 of that data, as
    the agent's commit response confirmed. *)
Lemma upload_file_verified path data overwrite (u : UdpBackend N) receipt u' :
  upload_file path data overwrite u = (Ok receipt, u') ->
  _allow_file_write u = true /\ len data <= MAX_FILE_SIZE /\
  receipt = Models.mkFileReceipt path (len data) (crc32_from 0 data).
Proof.
  cbn [upload_file udp_backend]. unfold udp_upload_file. intros Hrun.
  apply bind_returns in Hrun as (allowed & u0 & [= <- <-] & Hrun).
  apply if_fail_returns in Hrun as [Ha Hrun]. apply negb_false_iff in Ha.
  apply if_fail_returns in Hrun as [Hl Hrun]. cbv zeta in Hrun.
  do 4 (apply bind_returns in Hrun as (? & ? & _ & Hrun)).
  apply bind_returns in Hrun as (fin & u1 & _ & Hrun).
  apply if_fail_returns in Hrun as [Hg Hrun]. injection Hrun as <- _. bool_to_prop.
  split_and!; [done|lia|]. f_equal; lia.
Qed.

(** At most [limit] bytes, with their CRC-32. *)
Definition verified (limit : Z) (data : bytes) (crc : Z) : Prop :=
  len data <= limit /\ crc = crc32_from 0 data.

(** C30. Transfers end in verified data only: whatever the network delivers,
    [download_file] and [capture_graphics] return only what has the announced
    size (at most 1 MiB, or 256 KiB) and the CRC-32 that every block and the end
    response confirmed, with downloads allowed and consistent metadata; and
    [upload_file] returns a receipt only with uploads allowed and at most 1 MiB
    of data, for the path, length and CRC-32 of exactly that data. *)
Theorem transfers_verified (u u' : UdpBackend N) :
  (forall path c, download_file path u = (Ok c, u') ->
    _allow_file_read u = true /\ Models.contents_path c = path /\
    verified MAX_FILE_SIZE (Models.contents_data c) (Models.contents_crc32 c)) /\
  (forall g, capture_graphics u = (Ok g, u') ->
    Models.well_formed_graphics g /\ verified MAX_GRAPHICS_SIZE (Models.data g) (Models.crc32 g)) /\
  (forall path data overwrite receipt, upload_file path data overwrite u = (Ok receipt, u') ->
    _allow_file_write u = true /\ verified MAX_FILE_SIZE data (Models.receipt_crc32 receipt) /\
    Models.receipt_path receipt = path /\ Models.receipt_size receipt = len data).
Proof.
  split; [|split].
  - intros path c. apply download_file_verified.
  - intros g. apply capture_graphics_verified.
  - intros path data overwrite receipt (Ha & Hl & ->)%upload_file_verified. by split_and!.
Qed.
End Safety.

(** ** A scripted network

    Answers to successive datagrams are read off a list. *)
Definition script : Type := list (list (Address * bytes)).

#[global] Instance script_network : Network script := {|
  transmit _ := fun n => match n with [] => (Ok [], []) | arrived :: n => (Ok arrived, n) end;
  randbits32 n := (0x11223344, n) |}.

#[export] Instance script_laws : NetworkLaws script.
Proof. split; [by intros d [|arrived n]|by intros n]. Qed.

Definition agent_at : Address := (py "192.168.1.9", 21300).
Definition script_key : bytes := replicate 16 x2a.

(** The agent's answer to request [id] of session 9. *)
Definition scripted (o : Opcode.t) (id : Z) (body : result bytes) : list (Address * bytes) :=
  match (body ← body; Packet.encode (mkPacket MessageKind.RESPONSE o 9 id 0 1 body 0) script_key) with
  | Ok d => [((py "10.9.9.9", 21300), d); (agent_at, x00 :: d); (agent_at, d)]
  | Err _ => []
  end.

(** A client in session 9, whose next request has id 6. *)
Definition connected (n : script) : UdpBackend script :=
  mkUdp n [] agent_at script_key 3 true true 9 (Some script_key) 5 false.

Lemma connected_ok n : client_ok (connected n).
Proof. split; cbn; [done| |lia..]. by intros k [= <-]. Qed.

Lemma client_invariant_witness :
  let n : script := [[]; scripted Opcode.PING 1 (Ok [])] in
  match new_udp n agent_at script_key (S754_finite false 3152519739159347 (-53)) 3 true false 0 with
  | Ok u =>
      let after := foldl (fun u c => (run_call c u).2) u [GetStatus; Close; CaptureScreen] in
      client_ok after /\ (forall c, raises (call_error c) (run_call c after).1) /\
      (forall ms, 0 <= ms <= 2000 -> sleep_ms ms = Ok tt)
  | Err _ => False
  end.
Proof.
  cbv zeta.
  destruct (new_udp _ _ _ _ _ _ _ _) as [u|e] eqn:E; [|by vm_compute in E].
  refine (client_invariant _ _ _ _ _ _ _ _ u [GetStatus; Close; CaptureScreen] _ E). lia.
Defined.

Definition ping_script : UdpBackend script := connected [scripted Opcode.PING 6 (Ok [x01; x02])].

Lemma request_returns_authentic_response_witness :
  exists u', _request Opcode.PING [x01; x02] ping_script = (Ok [x01; x02], u') /\
  exists k ps, _session_key u' = Some k /\ complete_message ps [x01; x02] /\
    Forall (fun p => authentic k p /\ kind p = MessageKind.RESPONSE /\ opcode p = Opcode.PING /\
      request_id p = _request_id u' /\ (Opcode.PING <> Opcode.HELLO -> session_id p = _session_id u')) ps.
Proof.
  eexists. split; [vm_compute; reflexivity|].
  apply (request_returns_authentic_response Opcode.PING [x01; x02] ping_script); [apply connected_ok|].
  vm_compute. reflexivity.
Defined.

Definition file_script : UdpBackend script := connected
  [scripted Opcode.FILE_READ_BEGIN 6 (TransferBeginResponse.encode (TransferBeginResponse.mk 7 3));
   scripted Opcode.FILE_READ_BLOCK 7 (TransferBlockResponse.encode
     (TransferBlockResponse.mk 7 0 [x61; x62; x63] (crc32_from 0 [x61; x62; x63])));
   scripted Opcode.FILE_READ_END 8 (TransferEndResponse.encode
     (TransferEndResponse.mk 3 (crc32_from 0 [x61; x62; x63])))].

Definition graphics_script : UdpBackend script := connected
  [scripted Opcode.GRAPHICS_BEGIN 6 (GraphicsBeginResponse.encode (GraphicsBeginResponse.mk 7 Adapter.VGA 19
     GraphicsLayout.PACKED_8BPP 1 2 1 2 2));
   scripted Opcode.GRAPHICS_BLOCK 7 (TransferBlockResponse.encode
     (TransferBlockResponse.mk 7 0 [x61; x62] (crc32_from 0 [x61; x62])));
   scripted Opcode.GRAPHICS_END 8 (TransferEndResponse.encode
     (TransferEndResponse.mk 2 (crc32_from 0 [x61; x62])))].

Definition upload_script : UdpBackend script := connected
  [scripted Opcode.FILE_WRITE_BEGIN 6 (TransferBeginResponse.encode (TransferBeginResponse.mk 7 3));
   scripted Opcode.FILE_WRITE_BLOCK 7 (TransferBlockResponse.encode
     (TransferBlockResponse.mk 7 0 [] (crc32_from 0 [x61; x62; x63])));
   scripted Opcode.FILE_WRITE_COMMIT 8 (TransferEndResponse.encode
     (TransferEndResponse.mk 3 (crc32_from 0 [x61; x62; x63])))].

Lemma transfers_verified_witness :
  (exists c u', download_file (py "A.TXT") file_script = (Ok c, u') /\
    Models.contents_crc32 c = crc32_from 0 (Models.contents_data c)) /\
  (exists g u', capture_graphics graphics_script = (Ok g, u') /\ Models.well_formed_graphics g) /\
  (exists receipt u', upload_file (py "A.TXT") [x61; x62; x63] true upload_script = (Ok receipt, u') /\
    Models.receipt_size receipt = 3).
Proof.
  split; [|split].
  - destruct (download_file (py "A.TXT") file_script) as [[c|e] u'] eqn:E; [|by vm_compute in E].
    exists c, u'. split; [done|]. by apply (proj1 (transfers_verified file_script u') _ _ E).
  - destruct (capture_graphics graphics_script) as [[g|e] u'] eqn:E; [|by vm_compute in E].
    exists g, u'. split; [done|]. by apply (proj1 (proj2 (transfers_verified graphics_script u')) _ E).
  - destruct (upload_file (py "A.TXT") [x61; x62; x63] true upload_script) as [[c|e] u'] eqn:E;
      [|by vm_compute in E].
    exists c, u'. split; [done|]. by apply (proj2 (proj2 (transfers_verified upload_script u')) _ _ _ _ E).
Defined.
