(* ===== verification/UdpDeadline.v ===== *)
(** * The waiting of the UDP client ([backends/udp.py], [_exchange_with_packet])

    [UdpBackend.v] leaves to the network which datagrams arrive before an attempt
    times out.  Here the exchange is written with the clock and the socket's timeout,
    as the code has them, and it is proved to be one of the runs of that model: what
    holds of [_exchange_with_packet] against every network holds of the timed code. *)
From Stdlib Require Import Floats.SpecFloat.
From S2P Require Import Prelude PyFloat Dict Struct Crc Crypto PyText Constants Packet Messages Errors.
From S2P Require Import State Backend UdpBackend UdpSafety.

(** The socket, its clock and [settimeout] followed by [recvfrom]; [recv_rounds] bounds
    the datagrams that can still arrive before a deadline. *)
Class TimedSocket (W : Type) := {
  socket_clock :: Clock W;
  socket_sendto (datagram : bytes) (to : Address) : stateful W unit;
  socket_recvfrom (timeout : spec_float) (size : Z) : stateful W (bytes * Address);
  recv_rounds : spec_float -> W -> nat }.
#[global] Hint Mode TimedSocket ! : typeclass_instances.

(** [max(0.001, x)] *)
Definition at_least_milli (x : spec_float) : spec_float :=
  if SFltb (int_div 1 1000) x then x else int_div 1 1000.

Section Timed.
Context {W : Type} `{TimedSocket W}.
Context (to : Address) (timeout : spec_float) (retries : Z).

(** The [while] loop of one attempt; [break] and the deadline end it [Waiting]. *)
Fixpoint timed_receive (fuel : nat) (deadline : spec_float) (key : bytes) (expected : Packet)
    (e : exchange) : stateful W outcome :=
  match fuel with
  | O => out_of_rounds
  | S fuel =>
      now ← read_clock;
      if negb (SFltb now deadline) then mret (Waiting e) else
      now ← read_clock;
      r ← attempt (socket_recvfrom (at_least_milli (float_sub deadline now)) (MAX_DATAGRAM + 1));
      match r with
      | Err err => if bool_decide (exn_cls err = TimeoutError) then mret (Waiting e) else fail err
      | Ok (datagram, address) =>
          o ← lift (on_datagram to key expected address datagram e);
          match o with
          | Waiting e => timed_receive fuel deadline key expected e
          | Complete payload packet => mret (Complete payload packet)
          end
      end
  end.

Fixpoint timed_attempts (n : nat) (encoded : list bytes) (key : bytes) (expected : Packet)
    (e : exchange) : stateful W (bytes * Packet) :=
  match n with
  | O => fail (Exn TimeoutError (timeout_message (opcode expected) (retries + 1) e))
  | S n =>
      each (fun datagram => socket_sendto datagram to) encoded;;
      now ← read_clock;
      let deadline := float_add now timeout in
      rounds ← gets (recv_rounds deadline);
      r ← timed_receive (S rounds) deadline key expected e;
      match r with
      | Complete payload packet => mret (payload, packet)
      | Waiting e => timed_attempts n encoded key expected e
      end
  end.

Definition timed_exchange (packets : list Packet) (key : bytes) : stateful W (bytes * Packet) :=
  encoded ← lift (map_result (fun p => d ← Packet.encode p key; Ok (_dos_transport_datagram d))
    packets);
  expected ← lift (getitem packets 0);
  timed_attempts (Z.to_nat (retries + 1)) encoded key expected (mkExchange [] 0 []).
End Timed.

(** What the operating system promises: [handed w] are the datagrams given to [sendto];
    only [OSError]s are raised ([TimeoutError] included), by [recvfrom] when its timeout
    is positive; and only finitely many datagrams are taken before a deadline. *)
Class TimedSocketLaws (W : Type) `{TimedSocket W} := {
  handed : W -> list bytes;
  clock_handed w : handed (monotonic w).2 = handed w;
  sendto_handed d to w : handed (socket_sendto d to w).2 = handed w ++ [d];
  recvfrom_handed t n w : handed (socket_recvfrom t n w).2 = handed w;
  sendto_raises d to (w : W) : raises (fun cls => is_os_error cls = true) (socket_sendto d to w).1;
  recvfrom_raises t n (w : W) : SFltb float_zero t = true ->
    raises (fun cls => is_os_error cls = true) (socket_recvfrom t n w).1;
  recvfrom_rounds deadline t n (w : W) x w' :
    SFltb (monotonic w).1 deadline = true ->
    socket_recvfrom t n (monotonic (monotonic w).2).2 = (Ok x, w') ->
    (recv_rounds deadline w' < recv_rounds deadline w)%nat }.
#[global] Hint Mode TimedSocketLaws ! - : typeclass_instances.

(** ** A network that does what it is told

    Each [transmit] gives the next answer: datagrams that arrive, or an [OSError]. *)
Record oracle := mkOracle { answers : list (result (list (Address * bytes))); sent : list bytes }.

Definition answer (a : result (list (Address * bytes))) : result (list (Address * bytes)) :=
  match a with
  | Err e => if is_os_error (exn_cls e) then Err e else Ok []
  | a => a
  end.

#[global] Instance oracle_network : Network oracle := {|
  transmit d := fun n =>
    match answers n with
    | [] => (Ok [], mkOracle [] (sent n ++ [d]))
    | a :: rest => (answer a, mkOracle rest (sent n ++ [d]))
    end;
  randbits32 n := (0, n) |}.

#[export] Instance oracle_laws : NetworkLaws oracle.
Proof.
  split; [|done]. intros d [[|[l|e] rest] s]; [done..|]. cbn. destruct (is_os_error (exn_cls e)) eqn:E; [|done].
  by cbn.
Qed.

(** ** Simulation *)
Lemma at_least_milli_positive x : SFltb float_zero (at_least_milli x) = true.
Proof.
  unfold at_least_milli. destruct (SFltb (int_div 1 1000) x) eqn:E; [|by vm_compute].
  by destruct x as [s|[]| |[]].
Qed.

Section Simulation.
Context {W : Type} `{TimedSocketLaws W}.
Context (to : Address) (timeout : spec_float) (retries : Z).
Local Abbreviation os e := (is_os_error (exn_cls e) = true).

(** One attempt's loop takes some datagrams in order, as [receive_loop] does, or the
    socket fails. *)
Lemma timed_receive_run fuel deadline key expected e (w w' : W) r :
  (recv_rounds deadline w < fuel)%nat ->
  timed_receive to fuel deadline key expected e w = (r, w') ->
  handed w' = handed w /\
  ((exists ds, receive_loop to key expected ds e = (r, [])) \/ exists err, r = Err err /\ os err).
Proof.
  revert e w. induction fuel as [|fuel IH]; intros e w Hf; [lia|]. cbn [timed_receive].
  rewrite bind_run. unfold read_clock. pose proof (clock_handed w) as Hc1.
  pose proof (fun t n x w' => recvfrom_rounds deadline t n w x w') as Hp.
  destruct (monotonic w) as [now1 w1]. cbn [fst snd] in *.
  destruct (SFltb now1 deadline) eqn:Et; cbn [negb].
  2: { intros [= <- <-]. split; [done|]. left. by exists []. }
  rewrite bind_run. pose proof (clock_handed w1) as Hc2. destruct (monotonic w1) as [now2 w2]. cbn [snd] in *.
  rewrite bind_run, attempt_run. set (t := at_least_milli _).
  pose proof (recvfrom_handed t (MAX_DATAGRAM + 1) w2) as Hh.
  pose proof (recvfrom_raises t (MAX_DATAGRAM + 1) w2 (at_least_milli_positive _)) as Hr.
  specialize (Hp t (MAX_DATAGRAM + 1)).
  destruct (socket_recvfrom t (MAX_DATAGRAM + 1) w2) as [[[datagram address]|err] w3]; cbn [fst snd raises] in *.
  - specialize (Hp _ _ eq_refl eq_refl). rewrite bind_run. cbn [lift].
    destruct (on_datagram to key expected address datagram e) as [[e'|payload packet]|err] eqn:Eo.
    + intros (Hw & [(ds & Hds)|Herr])%IH; [| |lia]; (split; [congruence|]); [left|by right].
      exists ((address, datagram) :: ds). cbn [receive_loop]. by rewrite Eo.
    + intros [= <- <-]. split; [congruence|]. left. exists [(address, datagram)]. cbn [receive_loop]. by rewrite Eo.
    + intros [= <- <-]. split; [congruence|]. left. exists [(address, datagram)]. cbn [receive_loop]. by rewrite Eo.
  - case_bool_decide; intros [= <- <-]; (split; [congruence|]); [left; by exists []|right; by exists err].
Qed.

(** More rounds than [recv_rounds] change nothing. *)
Lemma timed_receive_ends fuel1 fuel2 deadline key expected e (w : W) :
  (recv_rounds deadline w < fuel1)%nat -> (recv_rounds deadline w < fuel2)%nat ->
  timed_receive to fuel1 deadline key expected e w = timed_receive to fuel2 deadline key expected e w.
Proof.
  revert fuel2 e w. induction fuel1 as [|fuel1 IH]; intros [|fuel2] e w H1 H2; [lia..|]. cbn [timed_receive].
  rewrite !bind_run. unfold read_clock. pose proof (fun t n x w' => recvfrom_rounds deadline t n w x w') as Hp.
  destruct (monotonic w) as [now1 w1]. cbn [fst snd] in *. destruct (SFltb now1 deadline); [|done]. cbn [negb].
  rewrite !bind_run. destruct (monotonic w1) as [now2 w2]. cbn [snd] in *. rewrite !bind_run, !attempt_run.
  set (t := at_least_milli _). specialize (Hp t (MAX_DATAGRAM + 1)).
  destruct (socket_recvfrom t (MAX_DATAGRAM + 1) w2) as [[[datagram address]|err] w3]; cbn [fst snd]; [|done].
  specialize (Hp _ _ eq_refl eq_refl). rewrite !bind_run. cbn [lift].
  destruct (on_datagram _ _ _ _ _ _) as [[e'|payload packet]|err]; [|done..]. apply IH; lia.
Qed.

(** Sending: all the datagrams, or up to one at which the socket fails. *)
Lemma timed_sends encoded (w w' : W) r :
  each (fun d => socket_sendto d to) encoded w = (r, w') ->
  (r = Ok tt /\ handed w' = handed w ++ encoded) \/
  exists pre d post err, encoded = pre ++ d :: post /\ r = Err err /\ os err /\ handed w' = handed w ++ pre ++ [d].
Proof.
  revert w. induction encoded as [|d encoded IH]; intros w; cbn [each].
  { intros [= <- <-]. left. by rewrite app_nil_r. }
  rewrite bind_run. pose proof (sendto_handed d to w) as Hh. pose proof (sendto_raises d to w) as Hr.
  destruct (socket_sendto d to w) as [[[]|err] w1]; cbn [fst snd raises] in *.
  - intros [(-> & ->)|(pre & d' & post & err & -> & -> & He & ->)]%IH; rewrite Hh, <- !app_assoc; [by left|].
    right. by exists (d :: pre), d', post, err.
  - intros [= <- <-]. right. by exists [], d, encoded, err.
Qed.

Lemma oracle_sendto d (u : UdpBackend oracle) a rest log :
  network u = mkOracle (a :: rest) log ->
  sendto d u = match answer a with
    | Ok arrived => (Ok tt, set_network (mkOracle rest (log ++ [d])) (inbox u ++ arrived) u)
    | Err e => (Err e, set_network (mkOracle rest (log ++ [d])) (inbox u) u)
    end.
Proof. intros Hu. unfold sendto. rewrite Hu. cbn. by destruct (answer a). Qed.

Lemma oracle_sends encoded (u : UdpBackend oracle) rest log :
  network u = mkOracle (replicate (length encoded) (Ok []) ++ rest) log ->
  each sendto encoded u = (Ok tt, set_network (mkOracle rest (log ++ encoded)) (inbox u) u).
Proof.
  revert u log. induction encoded as [|d encoded IH]; intros u log Hu; cbn [each length replicate app] in *.
  { rewrite app_nil_r, <- Hu. by destruct u. }
  rewrite bind_run, (oracle_sendto d u _ _ _ Hu). cbn [answer]. rewrite app_nil_r.
  rewrite (IH _ (log ++ [d])) by done. by rewrite <- app_assoc.
Qed.

Lemma oracle_burst pre d post (u : UdpBackend oracle) a rest log :
  network u = mkOracle (replicate (length pre) (Ok []) ++ a :: rest) log ->
  each sendto (pre ++ d :: post) u =
    let u' := set_network (mkOracle rest (log ++ pre ++ [d])) in
    match answer a with
    | Ok arrived => each sendto post (u' (inbox u ++ arrived) u)
    | Err e => (Err e, u' (inbox u) u)
    end.
Proof.
  intros Hu. rewrite each_app, bind_run, (oracle_sends _ _ _ _ Hu). cbn [each].
  rewrite bind_run, (oracle_sendto d _ a rest (log ++ pre)) by done. rewrite <- app_assoc.
  by destruct (answer a).
Qed.

(** [u] is about to be told [script] by a network which has seen what [w] has sent. *)
Definition told (script : list (result (list (Address * bytes)))) (w : W) (u : UdpBackend oracle) : Prop :=
  target u = to /\ _retries u = retries /\ inbox u = [] /\ network u = mkOracle script (handed w).

(** The timed code's end [r] and [w'] is an end of the model's [m] under some script. *)
Definition simulated {A} (m : stateful (UdpBackend oracle) A) (w : W) (r : result A) (w' : W) : Prop :=
  exists script, forall u, told script w u -> exists u', m u = (r, u') /\ told [] w' u'.

Lemma timed_attempts_simulated n encoded key expected e (w w' : W) r :
  encoded <> [] -> timed_attempts to timeout retries n encoded key expected e w = (r, w') ->
  simulated (attempts n encoded key expected e) w r w'.
Proof.
  intros Hne. revert e w. induction n as [|n IH]; intros e w; cbn [timed_attempts].
  { intros [= <- <-]. exists []. intros u Hu. exists u. split; [|done]. cbn [attempts].
    rewrite bind_run. cbn [gets]. by destruct Hu as (_ & -> & _). }
  rewrite bind_run. destruct (each _ encoded w) as [r1 w1] eqn:Es.
  apply timed_sends in Es as [(-> & Hw1)|(pre & d & post & err & -> & -> & He & Hw1)].
  2: { intros [= <- <-]. exists (replicate (length pre) (Ok []) ++ [Err err]).
    intros u (Ht & Hr & Hi & Hn). eexists. split; [|shelve]. cbn [attempts].
    rewrite bind_run, (oracle_burst _ _ _ _ _ _ _ Hn). cbn [answer]. rewrite He. reflexivity.
    Unshelve. unfold told. by rewrite Hw1. }
  rewrite bind_run. unfold read_clock. pose proof (clock_handed w1) as Hc. destruct (monotonic w1) as [now w2].
  cbn [snd] in Hc. rewrite bind_run. cbn [gets]. rewrite bind_run.
  destruct (timed_receive _ _ _ _ _ _ w2) as [o w3] eqn:El.
  apply timed_receive_run in El as [Hw3 Ho]; [|lia].
  assert (Hlog : handed w3 = handed w ++ encoded) by congruence. clear Hw1 Hc Hw3.
  destruct (exists_last Hne) as (pre & d & ->). destruct Ho as [(ds & Hds)|(err & -> & He)].
  - assert (Hrun : forall rest u, told (replicate (length pre) (Ok []) ++ Ok ds :: rest) w u ->
      exists u', told rest w3 u' /\ attempts (S n) (pre ++ [d]) key expected e u =
        match o with
        | Ok (Complete payload packet) => (Ok (payload, packet), u')
        | Ok (Waiting e) => attempts n (pre ++ [d]) key expected e u'
        | Err err => (Err err, u')
        end).
    { intros rest u (Ht & Hr & Hi & Hn). eexists. split; [shelve|]. cbn [attempts].
      rewrite bind_run, (oracle_burst _ _ _ _ _ _ _ Hn), Hi. cbn [answer each mret stateful_ret app].
      rewrite bind_run. unfold receive. cbn [target inbox set_network]. rewrite Ht, Hds.
      by destruct o as [[e'|payload packet]|err].
      Unshelve. unfold told. by rewrite Hlog. }
    destruct o as [[e'|payload packet]|err].
    + intros (script & Hs)%IH. exists (replicate (length pre) (Ok []) ++ Ok ds :: script).
      intros u (u' & Hu' & ->)%Hrun. by apply Hs.
    + intros [= <- <-]. exists (replicate (length pre) (Ok []) ++ [Ok ds]).
      intros u (u' & Hu' & ->)%Hrun. by exists u'.
    + intros [= <- <-]. exists (replicate (length pre) (Ok []) ++ [Ok ds]).
      intros u (u' & Hu' & ->)%Hrun. by exists u'.
  - intros [= <- <-]. exists (replicate (length pre) (Ok []) ++ [Err err]).
    intros u (Ht & Hr & Hi & Hn). eexists. split; [|shelve]. cbn [attempts].
    rewrite bind_run, (oracle_burst _ _ _ _ _ _ _ Hn). cbn [answer]. rewrite He. reflexivity.
    Unshelve. unfold told. by rewrite Hlog.
Qed.

Lemma timed_exchange_run p packets key (w w' : W) r :
  timed_exchange to timeout retries (p :: packets) key w = (r, w') ->
  simulated (_exchange_with_packet (p :: packets) key) w r w'.
Proof.
  unfold timed_exchange. rewrite bind_run. destruct (map_result _ _) as [encoded|err] eqn:Em; cbn [lift].
  2: { intros [= <- <-]. exists []. intros u Hu. exists u. split; [|done].
    unfold _exchange_with_packet. by rewrite bind_run, Em. }
  rewrite bind_run, (getitem_in _ 0 p) by done. cbn [lift].
  intros (script & Hs)%timed_attempts_simulated.
  2: { apply map_result_Ok, Forall2_length in Em. by destruct encoded. }
  exists script. intros u Hu. destruct (Hs u Hu) as (u' & Ha & Hu'). exists u'. split; [|done].
  unfold _exchange_with_packet. rewrite bind_run, Em. cbn [lift].
  rewrite bind_run, (getitem_in _ 0 p) by done. cbn [lift]. rewrite bind_run. cbn [gets].
  by destruct Hu as (_ & -> & _).
Qed.

(** C21. The exchange with its clock is the exchange against a network.  With the deadline,
    the socket's timeouts and the retries as the code has them, an exchange ends, by the
    deadline, a timeout of the socket or a complete response, however many rounds more
    its loop is given; and there is a network for which the model without a clock sends
    the same datagrams and returns or raises the same.  So what it returns is an
    authentic response to the request, and it raises no other exceptions. *)
Theorem timed_exchange_refines p packets key (w w' : W) r :
  timed_exchange to timeout retries (p :: packets) key w = (r, w') ->
  (forall deadline e (v : W), settled (fun fuel => timed_receive to fuel deadline key p e v) (S (recv_rounds deadline v))) /\
  simulated (_exchange_with_packet (p :: packets) key) w r w' /\
  (length key = 16%nat -> Forall valid_packet (p :: packets) ->
    raises exchange_error r /\ forall payload last, r = Ok (payload, last) -> authentic_response key p payload last).
Proof.
  intros Hx%timed_exchange_run. split; [|split; [done|]].
  { intros deadline e w1 extra. apply timed_receive_ends; lia. }
  intros Hk Hv. destruct Hx as (script & Hs).
  set (u := mkUdp (mkOracle script (handed w)) [] to (replicate 16 x00) retries true true 0 None 1 false).
  assert (Hu : client_ok u) by (by split).
  destruct (Hs u) as (u' & Hrun & _); [done|].
  destruct (exchange_safe p packets key u Hu Hk Hv) as [[_ Hr] Hok]. rewrite Hrun in Hr. split; [done|].
  intros payload last ->. by apply (Hok _ _ Hrun).
Qed.
End Simulation.

(** ** A wire with a clock of milliseconds

    Every reading takes a millisecond; a datagram is there from its time on. *)
Record wire := mkWire { wire_ms : Z; arrivals : list (Z * (bytes * Address)); wire_sent : list bytes }.

Definition ms_of (seconds : spec_float) : Z :=
  match seconds with
  | S754_finite false m e => if 0 <=? e then Zpos m * 2 ^ e * 1000 else Zpos m * 1000 / 2 ^ (- e)
  | _ => 0
  end.

#[export] Instance wire_socket : TimedSocket wire := {|
  socket_clock := fun w => (int_div (wire_ms w) 1000, mkWire (wire_ms w + 1) (arrivals w) (wire_sent w));
  socket_sendto d to := fun w => (Ok tt, mkWire (wire_ms w) (arrivals w) (wire_sent w ++ [d]));
  socket_recvfrom timeout size := fun w =>
    let until := wire_ms w + ms_of timeout in
    match arrivals w with
    | (at_ms, (d, from)) :: rest =>
        if at_ms <=? until
        then (Ok (take (Z.to_nat size) d, from), mkWire (Z.max (wire_ms w) at_ms) rest (wire_sent w))
        else (raise TimeoutError (py "timed out"), mkWire until (arrivals w) (wire_sent w))
    | [] => (raise TimeoutError (py "timed out"), mkWire until [] (wire_sent w))
    end;
  recv_rounds _ w := length (arrivals w) |}.

#[export] Instance wire_laws : TimedSocketLaws wire.
Proof.
  refine {| handed := wire_sent |}; try done.
  - intros t n [ms [|[at_ms [d from]] rest] s]; [done|]. cbn. by destruct (at_ms <=? _).
  - intros t n [ms [|[at_ms [d from]] rest] s] _; [done|]. cbn. by destruct (at_ms <=? _).
  - intros deadline t n [ms [|[at_ms [d from]] rest] s] x w' _; [done|]. cbn.
    destruct (at_ms <=? _); [|done]. intros [= _ <-]. cbn. lia.
Defined.

(** The agent's answer is late: a stranger's copy arrives in time, its own after the
    first attempt's 350 ms, in the second attempt. *)
Definition late_answer : wire :=
  mkWire 0 (zip [100; 480; 500] ((fun x => (x.2, x.1)) <$> scripted Opcode.PING 6 (Ok [x01; x02]))) [].

Definition ping_6 : Packet := mkPacket MessageKind.REQUEST Opcode.PING 9 6 0 1 [x01; x02] 0.

Lemma timed_exchange_refines_witness :
  exists last w', timed_exchange agent_at (int_div 7 20) 3 [ping_6] script_key late_answer = (Ok ([x01; x02], last), w') /\
  length (wire_sent w') = 2%nat /\
  simulated agent_at 3 (_exchange_with_packet [ping_6] script_key) late_answer (Ok ([x01; x02], last)) w' /\
  authentic_response script_key ping_6 [x01; x02] last.
Proof.
  do 2 eexists. match goal with |- ?E /\ _ => assert (Hx : E) by (vm_compute; reflexivity) end.
  destruct (timed_exchange_refines agent_at (int_div 7 20) 3 ping_6 [] script_key _ _ _ Hx) as (_ & Hs & Ha).
  split; [exact Hx|]. split; [vm_compute; reflexivity|]. split; [exact Hs|].
  apply Ha; [done| |done]. constructor; [vm_compute; reflexivity|constructor].
Defined.
