(* ===== verification/Link.v ===== *)
(** * The client and the agent joined by a datagram link

    A network whose peer is the agent of [AgentServer.v]: every datagram the
    client sends is lost, delivered or delivered several times, as the schedule
    [fate] says, and of the agent's answers to each delivery some arrive, in any
    order and number.  The simulator's process ends when handling a datagram
    raises, as [serve_forever] does, or hangs. *)
From S2P Require Import Prelude Dict Struct Crc Crypto PyText Constants Packet Messages Errors.
From S2P Require Import State Backend MemoryBackend UdpBackend UdpSafety.
From S2P Require Import AgentServer AgentInvariant AgentSafety AgentTransfer.
From S2P Require Models.

(** One delivery of a datagram to the agent: what its outside answers and the
    indices, among the datagrams it sends in return, of those that arrive. *)
Record delivery := mkDelivery {
  arrival : entropy;
  passes : list nat }.

(** The agent's draws are in range and its answers are sent (what arrives of them is
    another matter). *)
Definition steady (xs : list delivery) : Prop := Forall (fun x => entropy_ok (arrival x)) xs.

Record Link (B : Type) := mkLink {
  agent : UdpAgentServer B;
  alive : bool;
  bridge_address : UdpBackend.Address;
  agent_address : UdpBackend.Address;
  fate : nat -> list delivery;
  nonce : nat -> Z;
  clock : nat }.
Arguments mkLink {B}.
Arguments agent {B}.
Arguments alive {B}.
Arguments bridge_address {B}.
Arguments agent_address {B}.
Arguments fate {B}.
Arguments nonce {B}.
Arguments clock {B}.

Section Deliver.
Context {B : Type} `{Backend B}.

(** The datagrams the agent has sent to [from] since [before]. *)
Definition new_datagrams (from : UdpBackend.Address) (before after : UdpAgentServer B) : list bytes :=
  snd <$> filter (fun ad => ad.1 = from) (drop (length (sent before)) (sent after)).

(** One delivery: what the agent becomes (dead if it raised, or hangs) and what
    arrives. *)
Definition deliver (from : UdpBackend.Address) (d : bytes) (x : delivery)
    (s : UdpAgentServer B) : bool * UdpAgentServer B * list bytes :=
  if closed s then (true, s, []) else
  let '(r, s') := handle_datagram (arrival x) d from s in
  let answers := new_datagrams from s s' in
  (is_ok r, s', omap (fun i => answers !! i) (passes x)).

Fixpoint deliver_all (from : UdpBackend.Address) (d : bytes) (xs : list delivery)
    (s : UdpAgentServer B) : bool * UdpAgentServer B * list bytes :=
  match xs with
  | [] => (true, s, [])
  | x :: xs =>
      match deliver from d x s with
      | (true, s, arrived) =>
          let '(up, s, more) := deliver_all from d xs s in (up, s, arrived ++ more)
      | r => r
      end
  end.

#[export] Instance link_network : Network (Link B) := {|
  transmit d := fun l =>
    if negb (alive l)
    then (Ok [], mkLink (agent l) false (bridge_address l) (agent_address l) (fate l) (nonce l)
                   (S (clock l)))
    else
      let '(up, s, arrived) := deliver_all (bridge_address l) d (fate l (clock l)) (agent l) in
      (Ok (pair (agent_address l) <$> arrived),
       mkLink s up (bridge_address l) (agent_address l) (fate l) (nonce l) (S (clock l)));
  randbits32 l :=
    (nonce l (clock l),
     mkLink (agent l) (alive l) (bridge_address l) (agent_address l) (fate l) (nonce l)
       (S (clock l))) |}.

(** ** What answering a request does to the agent *)

(** The reply to a request whose operation ended in [r]. *)
Definition reply (r : result (option bytes)) (kind : MessageKind.t) (body : bytes) : Prop :=
  match r with
  | Ok (Some b) => kind = MessageKind.RESPONSE /\ body = b
  | Ok None => kind = MessageKind.ERROR /\
      encode_error ErrorCode.UNSUPPORTED_OPERATION (py "operation is not implemented") = Ok body
  | Err e => kind = MessageKind.ERROR /\
      (if is_value_error (exn_cls e) then encode_error ErrorCode.INVALID_ARGUMENT (exn_msg e)
       else encode_error ErrorCode.INTERNAL_FAILURE (py "target operation failed")) = Ok body
  end.

(** Nothing is sent, and the server's configuration stays. *)
Definition quiet (s s' : UdpAgentServer B) : Prop :=
  sent s' = sent s /\ closed s' = closed s /\ key s' = key s /\
  drop_first_response s' = drop_first_response s /\ dropped_response s' = dropped_response s.

#[local] Instance quiet_preorder : PreOrder quiet.
Proof.
  split; [by intros s|]. intros s s' s'' (? & ? & ? & ? & ?) (? & ? & ? & ? & ?).
  unfold quiet. split_and!; congruence.
Qed.

Lemma quiet_on_backend {A} (m : stateful B A) : keeps quiet (on_backend m).
Proof. intros s. unfold on_backend. by destruct (m (backend s)). Qed.

Lemma quiet_modify f : (forall s, quiet s (f s)) -> keeps quiet (modify f).
Proof. intros Hf s. apply Hf. Qed.

Lemma quiet_fmap {A C} (m : stateful (UdpAgentServer B) A) (f : A -> C) :
  keeps quiet m -> keeps quiet (f <$> m).
Proof. intros Hm s. specialize (Hm s). unfold fmap, stateful_fmap. by destruct (m s) as [[] ?]. Qed.

Ltac quiet_step :=
  lazymatch goal with
  | |- keeps _ (_ ≫= _) => apply keeps_bind; [apply _| |intros ?]
  | |- keeps _ (lift _) => apply keeps_lift; apply _
  | |- keeps _ (gets _) => apply keeps_gets; apply _
  | |- keeps _ (mret _) => apply keeps_ret; apply _
  | |- keeps _ (fail _) => apply keeps_lift; apply _
  | |- keeps _ (on_backend _) => apply quiet_on_backend
  | |- keeps _ (_ <$> _) => apply quiet_fmap
  | |- keeps _ (modify _) => apply quiet_modify; intros ?; repeat case_match; done
  | |- keeps _ (if ?b then _ else _) => destruct b
  | |- keeps _ (match ?x with _ => _ end) => destruct x
  end.
Ltac go_quiet := repeat quiet_step.

Lemma quiet_start_transfer ent k d : keeps quiet (_start_transfer ent k d).
Proof. unfold _start_transfer. go_quiet. Qed.
Lemma quiet_require_transfer id k : keeps quiet (_require_transfer id k).
Proof. unfold _require_transfer. go_quiet. Qed.

Ltac quiet_transfer := first [apply quiet_start_transfer | apply quiet_require_transfer].

Lemma quiet_read request k : keeps quiet (_read_transfer_block request k).
Proof. unfold _read_transfer_block. go_quiet. quiet_transfer. Qed.
Lemma quiet_end request k : keeps quiet (_end_read_transfer request k).
Proof. unfold _end_read_transfer. go_quiet. quiet_transfer. Qed.
Lemma quiet_write request : keeps quiet (_write_transfer_block request).
Proof. unfold _write_transfer_block. go_quiet. quiet_transfer. Qed.
Lemma quiet_commit request : keeps quiet (_commit_write_transfer request).
Proof. unfold _commit_write_transfer. go_quiet. quiet_transfer. Qed.

Definition unsupported (o : Opcode.t) : bool :=
  match o with
  | Opcode.HELLO | Opcode.CANCEL | Opcode.GET_DIAGNOSTICS => true
  | _ => false
  end.

(** A supported operation sends nothing itself. *)
Lemma quiet_operation ent x o id payload :
  unsupported o = false -> keeps quiet (operation ent x o id payload).
Proof.
  intros Hu. destruct o; try discriminate; cbn [operation]; go_quiet;
    first [quiet_transfer | apply quiet_read | apply quiet_end | apply quiet_write | apply quiet_commit].
Qed.

(** *** Responses *)
Definition dropping (s : UdpAgentServer B) : bool :=
  drop_first_response s && negb (dropped_response s).

(** From [s] to [s']: request [id] of session [x] has been answered with the
    datagrams [ds] (sent unless the server drops its first response). *)
Definition answered_with (x : _Session) (id : Z) (ds : list bytes) (s s' : UdpAgentServer B) : Prop :=
  session s' = Some (set_answered id (evict (dict_set id ds (response_cache x))) x) /\
  closed s' = closed s /\ key s' = key s /\
  sent s' = sent s ++ (if dropping s then [] else pair (address x) <$> ds) /\
  (dropping s = false -> dropping s' = false).

Lemma each_sendto_all ent to ds (s : UdpAgentServer B) :
  entropy_ok ent -> each (AgentServer.sendto ent to) ds s =
  (Ok tt, mkServer (backend s) (key s) (session s) (drop_first_response s) (dropped_response s)
     (transfer s) (closed s) (sent s ++ (pair to <$> ds))).
Proof.
  intros [_ Hsend]. revert s. induction ds as [|d ds IH]; intros s.
  { cbn. rewrite app_nil_r. by destruct s. }
  cbn [each]. rewrite bind_run. unfold AgentServer.sendto at 1. rewrite Hsend, IH.
  cbn. by rewrite <- app_assoc.
Qed.

(** The datagrams of a message. *)
Definition datagrams (key : bytes) (kind : MessageKind.t) (o : Opcode.t) (sid id : Z)
    (body : bytes) (ds : list bytes) : Prop :=
  len body <= MAX_MESSAGE_SIZE /\
  map_result (fun p => Packet.encode p key) (fragments kind o sid id body) = Ok ds.

Lemma send_response_run ent x o id payload k (s : UdpAgentServer B) :
  entropy_ok ent -> session_ok x -> uint16 id -> len payload <= MAX_MESSAGE_SIZE ->
  exists ds s', _send_response ent x o id payload k s = (Ok tt, s') /\
    datagrams (session_key x) k o (AgentServer.session_id x) id payload ds /\
    answered_with x id ds s s' /\ backend s' = backend s /\ transfer s' = transfer s.
Proof.
  intros He Hx Hid Hl. assert (Hsid : uint16 (AgentServer.session_id x))
    by (destruct (session_id_range x Hx); unfold uint16; lia).
  destruct (map_encode_total (session_key x) (fragments k o (AgentServer.session_id x) id payload))
    as [ds Hds]; [apply Hx|by apply fragments_valid|].
  unfold _send_response. rewrite fragment_message_Ok by done. rewrite bind_run. cbn [lift].
  rewrite Hds. rewrite bind_run. cbn [lift]. rewrite bind_run. cbn [modify].
  rewrite bind_run. cbn [gets]. unfold answered_with, dropping. cbn [AgentServer.set_session drop_first_response dropped_response].
  destruct (drop_first_response s && negb (dropped_response s)) eqn:Ed.
  - exists ds. eexists. split; [done|]. split_and!; try done. cbn. by rewrite app_nil_r.
  - exists ds. eexists. split; [by apply each_sendto_all|]. by split_and!.
Qed.

Lemma send_error_run ent x o id code msg (s : UdpAgentServer B) :
  entropy_ok ent -> session_ok x -> uint16 id ->
  exists body ds s', _send_error ent x o id code msg s = (Ok tt, s') /\ encode_error code msg = Ok body /\
    datagrams (session_key x) MessageKind.ERROR o (AgentServer.session_id x) id body ds /\
    answered_with x id ds s s' /\ backend s' = backend s /\ transfer s' = transfer s.
Proof.
  intros He Hx Hid. destruct (encode_error_total code msg) as (body & Hb & Hl).
  destruct (send_response_run ent x o id body MessageKind.ERROR s He Hx Hid) as (ds & s' & Hr & Hrest);
    [unfold MAX_MESSAGE_SIZE, MAX_FRAGMENT_PAYLOAD, MAX_FRAGMENTS; lia|].
  exists body, ds, s'. split; [|done]. unfold _send_error. rewrite bind_run. cbn [lift]. by rewrite Hb.
Qed.

Lemma answered_with_quiet x id ds s s1 s' :
  quiet s s1 -> answered_with x id ds s1 s' -> answered_with x id ds s s'.
Proof.
  unfold quiet, answered_with, dropping. intros (E1 & E2 & E3 & E4 & E5) (H1 & H2 & H3 & H4 & H5).
  rewrite E1, E2, E3, E4, E5 in *. done.
Qed.

(** A request whose operation ends is answered with the reply to what it returned or
    raised, and the backend and the transfer are what the operation left. *)
Lemma dispatch_run ent x o id payload (s : UdpAgentServer B) r s1 :
  small_screens (B:=B) -> entropy_ok ent -> session_ok x -> uint16 id ->
  len payload <= MAX_MESSAGE_SIZE ->
  operation ent x o id payload s = (r, s1) -> ends_in r = true ->
  exists kind body ds s', _dispatch ent x o id payload s = (Ok tt, s') /\ reply r kind body /\
    datagrams (session_key x) kind o (AgentServer.session_id x) id body ds /\
    answered_with x id ds s s' /\ backend s' = backend s1 /\ transfer s' = transfer s1.
Proof.
  intros Hsmall He Hx Hid Hl Hop Hends. destruct (unsupported o) eqn:Hu.
  - destruct (send_error_run ent x o id ErrorCode.UNSUPPORTED_OPERATION (py "operation is not implemented") s He Hx Hid)
      as (body & ds & s' & Hrun & Hb & Hds & Ha & Hback & Htr).
    assert (Hop' : operation ent x o id payload s = (Ok None, s')).
    { destruct o; try discriminate; cbn [operation]; rewrite bind_run, Hrun; done. }
    rewrite Hop' in Hop. injection Hop as <- <-.
    exists MessageKind.ERROR, body, ds, s'. split_and!; try done; try apply Ha; try apply Hds.
    unfold _dispatch. rewrite bind_run. unfold catch. by rewrite Hop'.
  - pose proof (quiet_operation ent x o id payload Hu s) as Hq. rewrite Hop in Hq. cbn [snd] in Hq.
    unfold _dispatch. rewrite bind_run. unfold catch. rewrite Hop.
    destruct r as [[b|]|e].
    + destruct (send_response_run ent x o id b MessageKind.RESPONSE s1 He Hx Hid) as (ds & s' & Hrun & Hds & Ha & Hb & Ht).
      { by eapply bounded_operation. }
      exists MessageKind.RESPONSE, b, ds, s'. split; [done|]. split; [done|]. split; [done|].
      split; [by eapply answered_with_quiet|done].
    + exfalso. destruct o; try discriminate; cbn [operation] in Hop; revert Hop;
        match goal with |- ?m _ = _ -> False => change (m s <> (Ok None, s1)); revert s s1 Hq; intros s s1 _; revert s s1; change (responds m) end;
        repeat first [apply responds_fmap|apply responds_lift|apply responds_lift_bind
                     |apply responds_ret|apply responds_bind; intros ?].
    + cbn [ends_in] in Hends. apply negb_true_iff in Hends. rewrite Hends.
      rewrite bind_run. cbn [reply]. destruct (is_value_error (exn_cls e));
        match goal with |- context [_send_error _ ?x ?o ?id ?c ?m ?s] =>
          destruct (send_error_run ent x o id c m s He Hx Hid) as (body & ds & s' & Hrun & Hb & Hds & Ha & Hback & Htr) end;
        rewrite Hrun; exists MessageKind.ERROR, body, ds, s'; (split; [done|]); (split; [done|]);
        (split; [done|]); (split; [by eapply answered_with_quiet|done]).
Qed.

(** Operation [o] on [data] ends, on an agent with the backend and the transfer of
    [s]. *)
Definition returns (o : Opcode.t) (data : bytes) (s : UdpAgentServer B) : Prop :=
  forall ent x id s', entropy_ok ent -> server_ok s' -> backend s' = backend s ->
    transfer s' = transfer s -> ends_in (operation ent x o id data s').1 = true.

(** *** Reception of a request's datagrams *)
Lemma unpack_unauthenticated p key d pad :
  valid_packet p -> encoded p key d ->
  unpack_from _UNAUTHENTICATED_FIELDS (d ++ pad) 0 =
    Ok ⟨MAGIC, VERSION, int_of (Packet.kind p), int_of (opcode p), flags p, Packet.session_id p, request_id p⟩.
Proof.
  intros Hp (prefix & tag & Hprefix & _ & _ & ->).
  pose proof (prefix_fields_fit p Hp) as Hf.
  set (head := (⟨MAGIC, VERSION, int_of (Packet.kind p), int_of (opcode p), flags p,
    Packet.session_id p, request_id p⟩ : denote _UNAUTHENTICATED_FIELDS)).
  set (rest := (⟨fragment_index p, fragment_count p, len (payload p)⟩ : denote [FB; FB; FH])).
  change (fits (_UNAUTHENTICATED_FIELDS ++ [FB; FB; FH]) (dapp _UNAUTHENTICATED_FIELDS [FB; FB; FH] head rest)) in Hf.
  change (pack (_UNAUTHENTICATED_FIELDS ++ [FB; FB; FH]) (dapp _UNAUTHENTICATED_FIELDS [FB; FB; FH] head rest) = Ok prefix) in Hprefix.
  apply fits_dapp_inv in Hf as [Hh Hr]. destruct (pack_fits _ _ Hh) as [b1 H1], (pack_fits _ _ Hr) as [b2 H2].
  rewrite (pack_app _ _ _ _ _ _ H1 H2) in Hprefix. apply Ok_inj in Hprefix as <-.
  rewrite <- !app_assoc. by apply unpack_from_pack.
Qed.

Definition padded (d d' : bytes) : Prop := d' = d \/ d' = d ++ [x00].

Lemma transport_padded d : padded d (_dos_transport_datagram d).
Proof. unfold _dos_transport_datagram, padded. destruct (_ =? 0); auto. Qed.

Lemma receive_packet p d d' x :
  valid_packet p -> encoded p (session_key x) d -> padded d d' ->
  Packet.kind p = MessageKind.REQUEST -> Packet.session_id p = AgentServer.session_id x ->
  AgentServer.session_id x <> 0 -> AgentSafety.receive d' (address x) (Some x) = Request x p.
Proof.
  intros Hp He Hpad Hk Hs Hne. pose proof (encoded_length _ _ _ He) as Hl.
  pose proof (proj1 (valid_packet_spec p) Hp) as Hv.
  assert (exists pad, d' = d ++ pad /\ (pad = [] \/ pad = [x00])) as (pad & -> & Hpd).
  { destruct Hpad as [-> | ->]; [exists []; by rewrite app_nil_r; auto|exists [x00]; auto]. }
  unfold AgentSafety.receive. rewrite (unpack_unauthenticated _ _ _ _ Hp He), (decode_encoded _ _ _ _ Hp He Hpd).
  rewrite Hk, Hs, !Z.eqb_refl, bool_decide_eq_true_2 by done.
  assert (Hlen : 20 <= len (d ++ pad) <= 1200).
  { rewrite len_app, Hl. pose proof (len_nonneg (payload p)).
    assert (0 <= len pad <= 1) by (destruct Hpd as [-> | ->]; cbv; split; discriminate). lia. }
  unfold MAX_DATAGRAM. change (Z.of_nat HEADER_SIZE) with 20.
  replace ((1200 <? len (d ++ pad)) || (len (d ++ pad) <? 20)) with false by lia.
  replace (AgentServer.session_id x =? 0) with false by lia. by rewrite andb_false_r.
Qed.
End Deliver.
