(* ===== verification/Exchange.v ===== *)
(** * One request over the link

    What a request of the client does to the agent at the other end of a link
    that loses and duplicates datagrams: the agent collects its fragments, then
    executes its operation once and answers every further datagram from its
    cache; the client returns what the operation returned, or times out. *)
From S2P Require Import Prelude Dict Struct Crc Crypto PyText Constants Packet Messages Errors.
From S2P Require Import State Backend MemoryBackend UdpBackend UdpSafety.
From S2P Require Import AgentServer AgentInvariant AgentSafety AgentTransfer Link.
From S2P Require Models.

Lemma set_pending_same x : set_pending (pending x) x = x.
Proof. by destruct x. Qed.

Lemma dict_pop_only {V} k (v : V) : dict_pop k [(k, v)] = [].
Proof. unfold dict_pop. by rewrite filter_cons_False by (cbn; tauto). Qed.

(** What the client makes of an operation's result. *)
Definition result_of (r : result (option bytes)) : result bytes :=
  match r with
  | Ok (Some b) => Ok b
  | Ok None => raise AgentOperationError (py "UNSUPPORTED_OPERATION: operation is not implemented")
  | Err e =>
      if is_value_error (exn_cls e)
      then raise AgentOperationError (py "INVALID_ARGUMENT: " ++ wire_text (exn_msg e))
      else raise AgentOperationError (py "INTERNAL_FAILURE: target operation failed")
  end.

(** ** The agent's side *)
Section Agent.
Context {B : Type} `{Backend B}.
Context (Hsmall : small_screens (B:=B)).
Context (s0 : UdpAgentServer B) (x0 : _Session) (o : Opcode.t) (id : Z) (data : bytes).
Context (Hs0 : server_ok s0) (Hx0 : session s0 = Some x0) (Hclosed : closed s0 = false).
Context (Hlen : len data <= MAX_MESSAGE_SIZE) (Hid : 0 < id < 65536).
Context (Hcache : dict_get id (response_cache x0) = None) (Hreplay : replayed x0 id = false).
Context (Hreturns : returns o data s0).

Definition sid : Z := AgentServer.session_id x0.
Definition req (i : Z) : Packet := fragment MessageKind.REQUEST o sid id data i.
Definition total : Z := fragment_total data.

Lemma x0_ok : session_ok x0.
Proof using Hs0 Hx0. by apply (server_session_ok s0 Hs0). Qed.
Lemma sid_range : 0 < sid < 65536.
Proof using Hs0 Hx0. apply (session_id_range x0 x0_ok). Qed.
Lemma req_valid i : 0 <= i < total -> valid_packet (req i).
Proof using Hlen Hs0 Hx0 Hid. intros Hi. pose proof sid_range. apply fragment_valid; (done || lia). Qed.

(** The fragments filed under the request. *)
Definition some_fragments (fs : dict Packet) : Prop :=
  dict_ok fs /\ Forall (fun ip => 0 <= ip.1 < total /\ ip.2 = req ip.1) fs.

(** The agent is collecting: it has [fs] and differs from [s0] in its table only. *)
Definition filing (fs : dict Packet) (s : UdpAgentServer B) : Prop :=
  exists p, s = set_session (Some (set_pending p x0)) s0 /\ session_ok (set_pending p x0) /\
    default [] (dict_get id p) = fs /\ some_fragments fs /\
    (pending x0 = [] -> p = [] \/ p = [(id, fs)]).

(** What executing the request has given. *)
Record execution := mkExecution {
  ex_entropy : entropy;
  ex_pending : dict (dict Packet);
  ex_result : result (option bytes);
  ex_state : UdpAgentServer B;
  ex_kind : MessageKind.t;
  ex_body : bytes;
  ex_datagrams : list bytes }.

(** The operation has been executed, once, on the state the exchange began with,
    and its reply is in the cache. *)
Definition executed (g : execution) (s : UdpAgentServer B) : Prop :=
  let x := set_pending (ex_pending g) x0 in
  session_ok x /\
  operation (ex_entropy g) x o id data (set_session (Some x) s0) = (ex_result g, ex_state g) /\
  reply (ex_result g) (ex_kind g) (ex_body g) /\
  datagrams (session_key x0) (ex_kind g) o sid id (ex_body g) (ex_datagrams g) /\
  session s = Some (set_answered id (evict (dict_set id (ex_datagrams g) (response_cache x0))) x) /\
  closed s = false /\ key s = key s0 /\ backend s = backend (ex_state g) /\
  transfer s = transfer (ex_state g) /\ (dropping s0 = false -> dropping s = false) /\
  (pending x0 = [] -> ex_pending g = []).

(** A datagram of the request, as the client sends it. *)
Definition request_datagram (i : Z) (d : bytes) : Prop :=
  0 <= i < total /\ exists e, encoded (req i) (session_key x0) e /\ padded e d.

Lemma some_fragments_set fs i :
  some_fragments fs -> 0 <= i < total -> some_fragments (dict_set i (req i) fs).
Proof. intros [Hd Hf] Hi. split; [by apply dict_set_ok|]. by apply dict_set_Forall. Qed.

(** All fragments present: the message. *)
Lemma all_fragments fs :
  some_fragments fs -> len fs = total -> reassemble_packets (dict_values fs) = Ok data.
Proof using Hlen.
  intros [Hd Hf] Hl. apply (reassemble_complete (fragments MessageKind.REQUEST o sid id data)).
  { by apply fragments_complete. }
  assert (Hv : dict_values fs = req <$> dict_keys fs).
  { unfold dict_values, dict_keys. rewrite <- list_fmap_compose. apply list_fmap_ext.
    intros j ip Hj. rewrite Forall_lookup in Hf. by destruct (Hf j ip Hj) as [_ ->]. }
  rewrite Hv. unfold fragments. apply fmap_Permutation.
  apply indices_permutation; [exact Hd|unfold len, dict_keys in *; by rewrite length_fmap|].
  apply Forall_fmap. eapply Forall_impl; [exact Hf|]. by intros ip [Hr _].
Qed.

Lemma request_received i d (s : UdpAgentServer B) p :
  request_datagram i d -> session s = Some (set_pending p x0) ->
  AgentSafety.receive d (address x0) (session s) = Request (set_pending p x0) (req i).
Proof using Hlen Hs0 Hx0 Hid.
  intros (Hi & e & He & Hpad) ->. pose proof sid_range.
  by apply (receive_packet (req i) e d (set_pending p x0)); [by apply req_valid| | | | |cbn; unfold sid in *; lia].
Qed.

Lemma dict_get_make_room p : dict_get id (make_room id p) = dict_get id p.
Proof.
  unfold make_room, dict_mem. destruct (dict_get id p) eqn:E; cbn [negb andb]; [done|].
  destruct (4 <=? len p); [|done]. by apply dict_get_pop_first.
Qed.

(** One datagram of the request reaches an agent that is collecting. *)
Lemma filing_step fs (s : UdpAgentServer B) ent i d :
  entropy_ok ent -> filing fs s -> request_datagram i d ->
  exists s', handle_datagram ent d (address x0) s = (Ok tt, s') /\
    let fs' := dict_set i (req i) fs in
    if len fs' =? total
    then exists g, ex_entropy g = ent /\ executed g s' /\
           sent s' = sent s ++ (if dropping s0 then [] else pair (address x0) <$> ex_datagrams g)
    else filing fs' s' /\ sent s' = sent s.
Proof using Hsmall Hs0 Hx0 Hclosed Hlen Hid Hcache Hreplay Hreturns.
  intros Hent (p & -> & Hp & Hfs & Hsome & Hempty) Hd. pose proof Hd as (Hi & _). cbv zeta.
  set (x := set_pending p x0) in *.
  assert (Hrec : AgentSafety.receive d (address x0) (session (set_session (Some x) s0)) = Request x (req i))
    by by apply request_received.
  rewrite handle_datagram_receive by (intros x' Hx'; injection Hx' as <-; apply Hp). rewrite Hrec.
  assert (Hfiled : filed x (req i) = dict_set i (req i) fs).
  { unfold filed. cbn [fragment_index request_id req fragment]. rewrite dict_get_make_room. by rewrite <- Hfs. }
  pose proof (some_fragments_set fs i Hsome Hi) as Hsome'. set (fs' := dict_set i (req i) fs) in *.
  pose proof (req_valid i Hi) as Hv. pose proof (filed_ok x (req i) Hp Hv) as Hfok.
  rewrite handle_request_cases by (by apply filed_valid). rewrite Hfiled in *.
  change (request_id (req i)) with id. change (response_cache x) with (response_cache x0).
  change (replayed x id) with (replayed x0 id). rewrite Hcache, Hreplay.
  change (fragment_count (req i)) with total.
  destruct (make_room_ok id p) as (Htd & Htf & Htl); [apply Hp..|].
  assert (Htab : table_with x (req i) = dict_set id fs' (make_room id p)) by (unfold table_with; by rewrite Hfiled).
  rewrite Htab. destruct (len fs' =? total) eqn:Ec; cbn [negb].
  2: { eexists. split; [done|]. split; [|done]. exists (dict_set id fs' (make_room id p)). split_and!.
       - done.
       - apply (session_pending_set_ok x0); [apply x0_ok|by apply dict_set_ok|apply Htl|by apply dict_set_Forall].
       - by rewrite dict_get_set_eq.
       - apply Hsome'.
       - intros H0. right. destruct (Hempty H0) as [-> | ->]; [done|].
         unfold make_room, dict_mem. cbn. by rewrite Z.eqb_refl; cbn; rewrite Z.eqb_refl. }
  cbv zeta. rewrite all_fragments by (done || lia).
  set (p' := dict_pop id (dict_set id fs' (make_room id p))).
  change (set_pending p' x) with (set_pending p' x0).
  change (set_session (Some (set_pending p' x0)) (set_session (Some x) s0))
    with (set_session (Some (set_pending p' x0)) s0).
  assert (Hp' : session_ok (set_pending p' x0)).
  { apply session_pending_set_ok; [apply x0_ok|by apply dict_pop_ok, dict_set_ok| |].
    - etrans; [apply len_dict_pop|apply Htl].
    - apply dict_pop_Forall, dict_set_Forall; done. }
  destruct (operation ent (set_pending p' x0) o id data (set_session (Some (set_pending p' x0)) s0))
    as [r s1] eqn:Hop.
  assert (Hends : ends_in r = true).
  { pose proof (Hreturns ent (set_pending p' x0) id _ Hent
      (ok_set_session (B:=B) _ Hp' s0 Hs0) eq_refl eq_refl) as Hr.
    cbn [modify snd] in Hr. by rewrite Hop in Hr. }
  destruct (dispatch_run ent (set_pending p' x0) o id data _ r s1 Hsmall Hent Hp'
    ltac:(unfold uint16; lia) Hlen Hop Hends)
    as (kind & body & ds & s' & Hrun & Hrep & Hds & (Hsess & Hcl & Hk & Hsent & Hdrop) & Hback & Htr).
  exists s'. split; [exact Hrun|]. exists (mkExecution ent p' r s1 kind body ds). split; [done|].
  split; [|exact Hsent]. unfold executed.
  cbn [ex_entropy ex_pending ex_result ex_state ex_kind ex_body ex_datagrams].
  split_and!; try done; try apply Hds; try apply Hp'; try apply Hdrop.
  - rewrite Hcl. exact Hclosed.
  - intros H0. unfold p'. destruct (Hempty H0) as [-> | ->].
    + apply dict_pop_only.
    + unfold make_room, dict_mem. cbn [dict_get]. rewrite Z.eqb_refl. cbn [negb andb dict_set].
      rewrite Z.eqb_refl. apply dict_pop_only.
Qed.

(** One datagram of the request reaches an agent that has executed it. *)
Lemma executed_step g s ent i d :
  entropy_ok ent -> executed g s -> request_datagram i d ->
  exists s', handle_datagram ent d (address x0) s = (Ok tt, s') /\ executed g s' /\
    sent s' = sent s ++ (pair (address x0) <$> ex_datagrams g).
Proof using Hs0 Hx0 Hlen Hid Hcache.
  intros Hent He Hd. pose proof He as (Hx & Hop & Hrep & Hds & Hsess & Hcl & Hk & Hb & Ht & Hdr & Hpe).
  set (x := set_pending (ex_pending g) x0) in *.
  set (x' := set_answered id _ x) in Hsess.
  assert (Hrec : AgentSafety.receive d (address x0) (session s) = Request x' (req i)).
  { rewrite Hsess. apply (receive_session d (address x0) x); [|done..].
    by apply (request_received i d (set_session (Some x) s0) (ex_pending g)). }
  rewrite handle_datagram_receive by (intros y Hy; rewrite Hsess in Hy; injection Hy as <-; apply Hx).
  rewrite Hrec. unfold handle_request. change (request_id (req i)) with id.
  change (response_cache x') with (evict (dict_set id (ex_datagrams g) (response_cache x0))).
  rewrite answered_cached by done. unfold _send_cached. change (address x') with (address x0).
  rewrite each_sendto_all by done. eexists. split; [done|]. split; [|done].
  unfold executed. by split_and!; try apply Hds; try apply Hx.
Qed.

(** *** Deliveries *)
Inductive phase := Filing (fs : dict Packet) | Executed (g : execution).

Definition in_phase (ph : phase) (s : UdpAgentServer B) : Prop :=
  match ph with Filing fs => filing fs s | Executed g => executed g s end.

(** The datagrams the client may receive in a phase. *)
Definition replies (ph : phase) : list bytes :=
  match ph with Filing _ => [] | Executed g => ex_datagrams g end.

Definition evolves (ph ph' : phase) : Prop :=
  match ph with Filing _ => True | Executed g => ph' = Executed g end.

#[export] Instance evolves_preorder : PreOrder evolves.
Proof.
  split; [by intros []|]. intros [fs|g] ph' ph''; [done|]. intros ->. done.
Qed.

Lemma new_datagrams_app from (s s' : UdpAgentServer B) ds :
  sent s' = sent s ++ (pair from <$> ds) -> new_datagrams from s s' = ds.
Proof.
  intros E. unfold new_datagrams. rewrite E, drop_app_length.
  clear E. induction ds as [|d ds IH]; [done|]. rewrite fmap_cons, filter_cons_True by done.
  by rewrite fmap_cons, IH.
Qed.

Lemma omap_lookup_incl {A} (l : list A) js : Forall (fun a => a ∈ l) (omap (fun i => l !! i) js).
Proof.
  apply Forall_forall. intros a Ha. apply list_elem_of_omap in Ha as (i & _ & Hi).
  by eapply list_elem_of_lookup_2.
Qed.

(** What one delivery does: the exact datagrams that arrive. *)
Lemma deliver_phase ph s i d x :
  entropy_ok (arrival x) -> in_phase ph s -> request_datagram i d ->
  exists ph' s' out, deliver (address x0) d x s = (true, s', omap (fun j => out !! j) (passes x)) /\
    in_phase ph' s' /\ evolves ph ph' /\ (forall e, e ∈ out -> e ∈ replies ph') /\
    match ph with
    | Filing fs =>
        let fs' := dict_set i (req i) fs in
        if len fs' =? total
        then exists g, ph' = Executed g /\ ex_entropy g = arrival x /\
               (dropping s0 = false -> out = ex_datagrams g)
        else ph' = Filing fs' /\ out = []
    | Executed g => out = ex_datagrams g
    end.
Proof using Hsmall Hs0 Hx0 Hclosed Hlen Hid Hcache Hreplay Hreturns.
  intros Hent Hph Hd. unfold deliver. destruct ph as [fs|g]; cbn [in_phase] in Hph.
  - assert (Hc : closed s = false) by (destruct Hph as (p & -> & _); exact Hclosed). rewrite Hc.
    destruct (filing_step fs s (arrival x) i d Hent Hph Hd) as (s' & Hrun & Hcase). rewrite Hrun.
    cbv zeta in *. destruct (len (dict_set i (req i) fs) =? total) eqn:El.
    + destruct Hcase as (g & Hge & Hg & Hsent). exists (Executed g), s', (new_datagrams (address x0) s s').
      split; [done|]. split; [done|]. split; [done|]. split.
      * intros e. destruct (dropping s0); [|by rewrite (new_datagrams_app _ _ _ _ Hsent)].
        rewrite (new_datagrams_app _ _ _ [] Hsent). intros He. by apply not_elem_of_nil in He.
      * exists g. split; [done|]. split; [done|]. intros Hdr. rewrite Hdr in Hsent. by apply new_datagrams_app.
    + destruct Hcase as [Hf Hsent]. exists (Filing (dict_set i (req i) fs)), s', [].
      assert (Hnew : new_datagrams (address x0) s s' = []) by (apply new_datagrams_app; by rewrite app_nil_r).
      rewrite Hnew. split_and!; try done. 
  - assert (Hc : closed s = false) by apply Hph. rewrite Hc.
    destruct (executed_step g s (arrival x) i d Hent Hph Hd) as (s' & Hrun & Hg & Hsent). rewrite Hrun.
    exists (Executed g), s', (ex_datagrams g). by rewrite (new_datagrams_app _ _ _ _ Hsent).
Qed.

Lemma deliver_all_phase ph s i d xs :
  steady xs -> in_phase ph s -> request_datagram i d ->
  exists ph' s' arrived, deliver_all (address x0) d xs s = (true, s', arrived) /\
    in_phase ph' s' /\ evolves ph ph' /\ Forall (fun e => e ∈ replies ph') arrived.
Proof using Hsmall Hs0 Hx0 Hclosed Hlen Hid Hcache Hreplay Hreturns.
  intros Hxs Hph Hd. revert ph s Hph.
  induction Hxs as [|x xs Hent _ IH]; intros ph s Hph; cbn [deliver_all].
  { by exists ph, s, []. }
  destruct (deliver_phase ph s i d x Hent Hph Hd) as (ph1 & s1 & out & -> & Hph1 & He1 & Hout & _).
  destruct (IH ph1 s1 Hph1) as (ph2 & s2 & more & -> & Hph2 & He2 & Hmore).
  eexists ph2, s2, _. split; [done|]. split; [done|]. split; [by etrans|]. apply Forall_app. split; [|done].
  eapply Forall_impl; [apply omap_lookup_incl|]. intros e He. apply Hout in He.
  destruct ph1 as [fs|g]; [by apply not_elem_of_nil in He|]. cbn in He2. by subst ph2.
Qed.

(** ** The client's side *)
Definition rep (g : execution) (i : Z) : Packet := fragment (ex_kind g) o sid id (ex_body g) i.
Definition rep_total (g : execution) : Z := fragment_total (ex_body g).

Lemma reply_datagram g s d :
  executed g s -> d ∈ ex_datagrams g ->
  exists i, 0 <= i < rep_total g /\ valid_packet (rep g i) /\ encoded (rep g i) (session_key x0) d.
Proof using Hs0 Hx0 Hid.
  intros (_ & _ & _ & [Hl Hds] & _) Hin. apply map_result_Ok in Hds.
  apply list_elem_of_lookup_1 in Hin as [j Hj].
  destruct (Forall2_lookup_r _ _ _ _ _ Hds Hj) as (p & Hp & He). cbv beta in He.
  apply list_elem_of_lookup_2 in Hp. unfold fragments in Hp.
  apply list_elem_of_fmap in Hp as (i & -> & Hi%elem_of_seqZ). exists i.
  assert (Hv : valid_packet (rep g i)).
  { pose proof sid_range. apply fragment_valid; unfold rep_total; (done || lia). }
  split; [unfold rep_total; lia|]. split; [done|]. by apply encode_Ok.
Qed.

(** What a reply datagram does to the exchange. *)
Definition take_reply (g : execution) (i : Z) (e : exchange) : result outcome :=
  match ex_kind g with
  | MessageKind.ERROR =>
      match result_of (ex_result g) with Err err => Err err | Ok _ => Ok (Waiting e) end
  | _ =>
      let received := dict_set i (rep g i) (received e) in
      if len received =? rep_total g then Ok (Complete (ex_body g) (rep g i))
      else Ok (Waiting (mkExchange received (ignored e) (last_ignored e)))
  end.

(** The fragments of the reply received so far. *)
Definition some_replies (g : execution) (e : exchange) : Prop :=
  dict_ok (received e) /\
  Forall (fun ip => 0 <= ip.1 < rep_total g /\ ip.2 = rep g ip.1) (received e).

Lemma some_replies_set g i e n why :
  some_replies g e -> 0 <= i < rep_total g ->
  some_replies g (mkExchange (dict_set i (rep g i) (received e)) n why).
Proof. intros [Hd Hf] Hi. split; [by apply dict_set_ok|]. by apply dict_set_Forall. Qed.

Lemma all_replies g e :
  len (ex_body g) <= MAX_MESSAGE_SIZE -> some_replies g e -> len (received e) = rep_total g ->
  reassemble_packets (dict_values (received e)) = Ok (ex_body g).
Proof.
  intros Hl [Hd Hf] Hn.
  apply (reassemble_complete (fragments (ex_kind g) o sid id (ex_body g))); [by apply fragments_complete|].
  assert (Hv : dict_values (received e) = rep g <$> dict_keys (received e)).
  { unfold dict_values, dict_keys. rewrite <- list_fmap_compose. apply list_fmap_ext.
    intros j ip Hj. rewrite Forall_lookup in Hf. by destruct (Hf j ip Hj) as [_ ->]. }
  rewrite Hv. apply fmap_Permutation.
  apply indices_permutation; [exact Hd|unfold len, dict_keys in *; by rewrite length_fmap|].
  apply Forall_fmap. eapply Forall_impl; [exact Hf|]. by intros ip [Hr _].
Qed.

(** The text of an error reply. *)
Lemma error_reply g s :
  executed g s -> ex_kind g = MessageKind.ERROR ->
  exists err, result_of (ex_result g) = Err err /\
    ('(code, message) ← decode_error (ex_body g);
     raise AgentOperationError (py (ErrorCode.name code) ++ py ": " ++ message) : result outcome) = Err err /\
    len (ex_body g) <= 122.
Proof.
  intros (_ & _ & Hrep & _) Hk. rewrite Hk in Hrep. unfold reply, result_of in *.
  destruct (ex_result g) as [[b|]|e]; [by destruct Hrep|..]; destruct Hrep as [_ Hb].
  - eexists. split; [done|].
    destruct (error_round_trip ErrorCode.UNSUPPORTED_OPERATION (py "operation is not implemented"))
      as (bs & Hbs & Hl & Hd). rewrite Hb in Hbs. apply Ok_inj in Hbs as <-.
    rewrite Hd. by split.
  - destruct (is_value_error (exn_cls e)); eexists; (split; [done|]).
    + destruct (error_round_trip ErrorCode.INVALID_ARGUMENT (exn_msg e)) as (bs & Hbs & Hl & Hd).
      rewrite Hb in Hbs. apply Ok_inj in Hbs as <-. rewrite Hd. by split.
    + destruct (error_round_trip ErrorCode.INTERNAL_FAILURE (py "target operation failed"))
        as (bs & Hbs & Hl & Hd). rewrite Hb in Hbs. apply Ok_inj in Hbs as <-.
    rewrite Hd. by split.
Qed.

Lemma error_reply_single g s :
  executed g s -> ex_kind g = MessageKind.ERROR -> rep_total g = 1.
Proof.
  intros Hg Hk. destruct (error_reply g s Hg Hk) as (_ & _ & _ & Hl).
  unfold rep_total, fragment_total, MAX_FRAGMENT_PAYLOAD. pose proof (len_nonneg (ex_body g)).
  assert ((len (ex_body g) + 1024 - 1) / 1024 < 2) by (apply Z.div_lt_upper_bound; lia). lia.
Qed.

Lemma on_reply g s i d to e :
  executed g s -> 0 <= i < rep_total g -> valid_packet (rep g i) ->
  encoded (rep g i) (session_key x0) d -> some_replies g e ->
  on_datagram to (session_key x0) (req 0) to d e = take_reply g i e.
Proof using Hs0 Hx0.
  intros Hg Hi Hv He Hsome. pose proof (encoded_length _ _ _ He) as Hl.
  pose proof (proj1 (valid_packet_spec _) Hv) as Hv'.
  unfold on_datagram. rewrite bool_decide_eq_true_2 by done. cbn [negb orb].
  replace (MAX_DATAGRAM <? len d) with false by (unfold MAX_DATAGRAM; lia).
  assert (Hdec : Packet.decode d (session_key x0) = Ok (rep g i)).
  { rewrite <- (app_nil_r d). apply decode_encoded; [done|done|by left]. }
  rewrite Hdec.
  change (request_id (rep g i)) with id. change (request_id (req 0)) with id.
  change (opcode (rep g i)) with o. change (opcode (req 0)) with o.
  change (Packet.session_id (rep g i)) with sid. change (Packet.session_id (req 0)) with sid.
  rewrite !Z.eqb_refl, !bool_decide_eq_true_2 by done. cbn [negb orb]. rewrite andb_false_r.
  change (Packet.kind (rep g i)) with (ex_kind g). unfold take_reply.
  destruct (ex_kind g) eqn:Hk.
  - exfalso. destruct Hg as (_ & _ & Hrep & _). rewrite Hk in Hrep. unfold reply in Hrep.
    destruct (ex_result g) as [[b|]|err]; by destruct Hrep.
  - rewrite !bool_decide_eq_false_2, bool_decide_eq_true_2 by done. cbn [negb].
    change (fragment_index (rep g i)) with i. change (fragment_count (rep g i)) with (rep_total g).
    cbv zeta. destruct (len (dict_set i (rep g i) (received e)) =? rep_total g) eqn:El; [|done].
    assert (Hl' : len (ex_body g) <= MAX_MESSAGE_SIZE) by apply Hg.
    pose proof (all_replies g _ Hl' (some_replies_set g i e 0 [] Hsome Hi)) as Hall.
    cbn [received] in Hall. rewrite Hall by lia. done.
  - rewrite bool_decide_eq_true_2 by done.
    destruct (error_reply g s Hg Hk) as (err & -> & Herr & Hlen1). rewrite <- Herr.
    pose proof (error_reply_single g s Hg Hk) as Ht.
    assert (i = 0) as -> by lia. unfold rep, fragment. cbn [payload].
    unfold MAX_FRAGMENT_PAYLOAD. unfold slice. rewrite drop_0, take_ge; [done|].
    unfold len in Hlen1. lia.
Qed.

(** A datagram that no exchange for this request takes notice of. *)
Definition harmless (to : UdpBackend.Address) (ad : UdpBackend.Address * bytes) : Prop :=
  forall e, exists e', on_datagram to (session_key x0) (req 0) ad.1 ad.2 e = Ok (Waiting e') /\
    received e' = received e.

Definition expected_datagram (ph : phase) (to : UdpBackend.Address)
    (ad : UdpBackend.Address * bytes) : Prop :=
  harmless to ad \/ (ad.1 = to /\ ad.2 ∈ replies ph).

(** What an exchange may have received in a phase. *)
Definition exchange_in (ph : phase) (e : exchange) : Prop :=
  match ph with Filing _ => received e = [] | Executed g => some_replies g e end.

Lemma expected_evolves ph ph' to ad :
  evolves ph ph' -> expected_datagram ph to ad -> expected_datagram ph' to ad.
Proof.
  intros Hev [Hh|[Ha Hin]]; [by left|]. right. split; [done|].
  destruct ph; [by apply not_elem_of_nil in Hin|]. cbn in Hev. by subst ph'.
Qed.

Lemma exchange_evolves ph ph' e : evolves ph ph' -> exchange_in ph e -> exchange_in ph' e.
Proof.
  destruct ph as [fs|g]; cbn [evolves exchange_in]; [|by intros ->]. intros _ He.
  destruct ph' as [fs'|g']; [done|]. cbn [exchange_in]. unfold some_replies. rewrite He.
  split; [apply NoDup_nil_2|constructor].
Qed.

(** What the exchange has come to. *)
Definition finished (ph : phase) (res : result (bytes * Packet)) : Prop :=
  exists g, ph = Executed g /\ fst <$> res = result_of (ex_result g).

Lemma receive_loop_phase ph s to arrived e r rest :
  in_phase ph s -> Forall (expected_datagram ph to) arrived -> exchange_in ph e ->
  receive_loop to (session_key x0) (req 0) arrived e = (r, rest) ->
  Forall (expected_datagram ph to) rest /\
  match r with
  | Ok (Waiting e') => exchange_in ph e'
  | Ok (Complete payload last) => finished ph (Ok (payload, last))
  | Err err => finished ph (Err err)
  end.
Proof using Hs0 Hx0 Hid.
  intros Hph. revert e. induction arrived as [|[from d] arrived IH]; intros e Hin He; cbn [receive_loop].
  { by intros [= <- <-]. }
  apply Forall_cons in Hin as [[Hh|[Ha Hin]] Hrest]; cbn [fst snd] in *.
  - destruct (Hh e) as (e' & Hon & Hrec). cbn [fst snd] in Hon. rewrite Hon. apply IH; [done|].
    destruct ph; cbn [exchange_in] in *; [congruence|]. unfold some_replies. by rewrite Hrec.
  - subst from. destruct ph as [fs|g]; [by apply not_elem_of_nil in Hin|]. cbn [in_phase] in Hph.
    destruct (reply_datagram g s d Hph Hin) as (i & Hi & Hv & Henc).
    rewrite (on_reply g s i d to e Hph Hi Hv Henc He). unfold take_reply.
    assert (Hreply := proj1 (proj2 (proj2 Hph))).
    destruct (ex_kind g) eqn:Hk.
    + exfalso. unfold reply in Hreply. destruct (ex_result g) as [[b|]|err]; by destruct Hreply.
    + cbv zeta. destruct (len (dict_set i (rep g i) (received e)) =? rep_total g).
      * intros [= <- <-]. split; [done|]. exists g. split; [done|].
        unfold reply in Hreply. destruct (ex_result g) as [[b|]|err]; destruct Hreply as [Hkk Hb]; try done.
        by subst b.
      * apply IH; [done|]. by apply some_replies_set.
    + destruct (error_reply g s Hph Hk) as (err & Herr & _). rewrite Herr.
      intros [= <- <-]. split; [done|]. exists g. by rewrite Herr.
Qed.

(** The client is on the link, its queue holds what may be there. *)
Definition on_link (ph : phase) (u : UdpBackend (Link B)) : Prop :=
  alive (network u) = true /\ bridge_address (network u) = address x0 /\
  agent_address (network u) = target u /\ in_phase ph (agent (network u)) /\
  (forall n, steady (fate (network u) n)) /\
  Forall (expected_datagram ph (target u)) (inbox u).

(** Only the link and the queue differ. *)
Definition link_moved (u u' : UdpBackend (Link B)) : Prop :=
  u' = set_network (network u') (inbox u') u /\
  agent_address (network u') = agent_address (network u) /\
  bridge_address (network u') = bridge_address (network u) /\
  fate (network u') = fate (network u) /\ nonce (network u') = nonce (network u).

#[export] Instance link_moved_preorder : PreOrder link_moved.
Proof.
  split; [by intros []|]. intros u u' u'' (E1 & ? & ? & ? & ?) (E2 & ? & ? & ? & ?).
  unfold link_moved. split_and!; try congruence. rewrite E2, E1. done.
Qed.

Lemma sendto_phase ph u i d :
  on_link ph u -> request_datagram i d ->
  exists ph' u', UdpBackend.sendto d u = (Ok tt, u') /\ on_link ph' u' /\ evolves ph ph' /\ link_moved u u'.
Proof using Hsmall Hs0 Hx0 Hclosed Hlen Hid Hcache Hreplay Hreturns.
  intros (Hal & Hb & Ha & Hph & Hst & Hin) Hd. unfold UdpBackend.sendto. cbn [transmit link_network].
  rewrite Hal, Hb. cbn [negb].
  destruct (deliver_all_phase ph _ i d (fate (network u) (clock (network u))) (Hst _) Hph Hd)
    as (ph' & s' & arrived & -> & Hph' & Hev & Harr).
  exists ph'. eexists. split; [done|]. split; [|split; [done|by rewrite <- Hb]].
  split_and!; try done. cbn [set_network inbox target]. apply Forall_app. split.
  - eapply Forall_impl; [exact Hin|]. intros ad. by apply expected_evolves.
  - apply Forall_fmap. eapply Forall_impl; [exact Harr|]. intros e He. right. split; [exact Ha|exact He].
Qed.

Lemma send_all_phase ph u ds :
  on_link ph u -> Forall (fun d => exists i, request_datagram i d) ds ->
  exists ph' u', each UdpBackend.sendto ds u = (Ok tt, u') /\ on_link ph' u' /\ evolves ph ph' /\ link_moved u u'.
Proof using Hsmall Hs0 Hx0 Hclosed Hlen Hid Hcache Hreplay Hreturns.
  intros Hu Hds. revert ph u Hu. induction Hds as [|d ds [i Hi] _ IH]; intros ph u Hu; cbn [each].
  { by exists ph, u. }
  destruct (sendto_phase ph u i d Hu Hi) as (ph1 & u1 & Hrun & Hu1 & He1 & Hm1).
  rewrite bind_run, Hrun. destruct (IH ph1 u1 Hu1) as (ph2 & u2 & Hrun2 & Hu2 & He2 & Hm2).
  exists ph2, u2. split; [done|]. split; [done|]. split; by etrans.
Qed.

(** All the attempts. *)
Lemma attempts_phase n ds ph u e :
  on_link ph u -> Forall (fun d => exists i, request_datagram i d) ds -> exchange_in ph e ->
  exists ph' u' res, attempts n ds (session_key x0) (req 0) e u = (res, u') /\
    on_link ph' u' /\ evolves ph ph' /\ link_moved u u' /\
    (finished ph' res \/ exists msg, res = Err (Exn TimeoutError msg)).
Proof using Hsmall Hs0 Hx0 Hclosed Hlen Hid Hcache Hreplay Hreturns.
  intros Hu Hds. revert ph u e Hu. induction n as [|n IH]; intros ph u e Hu He; cbn [attempts].
  { rewrite bind_run. cbn [gets]. exists ph, u. eexists. split; [done|]. split; [done|].
    split; [done|]. split; [done|]. right. by eexists. }
  destruct (send_all_phase ph u ds Hu Hds) as (ph1 & u1 & Hrun & Hu1 & He1 & Hm1).
  rewrite bind_run, Hrun, bind_run. unfold UdpBackend.receive.
  destruct (receive_loop (target u1) (session_key x0) (req 0) (inbox u1) e) as [r rest] eqn:El.
  pose proof Hu1 as (Hal & Hb & Ha & Hph & Hst & Hin).
  apply (receive_loop_phase ph1 (agent (network u1))) in El as [Hrest Hr];
    [|done|done|by eapply exchange_evolves].
  assert (Hu2 : on_link ph1 (set_network (network u1) rest u1)) by done.
  assert (Hm2 : link_moved u (set_network (network u1) rest u1)).
  { etrans; [exact Hm1|]. by split_and!. }
  destruct r as [[e'|payload last]|err].
  - destruct (IH ph1 _ e' Hu2 Hr) as (ph' & u' & res & -> & H1 & H2 & H3 & H4).
    exists ph', u', res. split; [done|]. split; [done|]. split; [by etrans|]. split; [by etrans|done].
  - exists ph1, (set_network (network u1) rest u1). eexists. split; [done|]. split; [done|].
    split; [done|]. split; [done|]. by left.
  - exists ph1, (set_network (network u1) rest u1). eexists. split; [done|]. split; [done|].
    split; [done|]. split; [done|]. by left.
Qed.
End Agent.

(** ** A request of the client *)
Section Request.
Context {B : Type} `{Backend B}.

(** The client and the agent hold the same session. *)
Record joined (u : UdpBackend (Link B)) (s : UdpAgentServer B) (x : _Session) : Prop := {
  joined_agent : agent (network u) = s;
  joined_alive : alive (network u) = true;
  joined_fate n : steady (fate (network u) n);
  joined_bridge : bridge_address (network u) = address x;
  joined_target : agent_address (network u) = target u;
  joined_open : _closed u = false;
  joined_key : _session_key u = Some (session_key x);
  joined_id : _session_id u = AgentServer.session_id x;
  joined_ok : server_ok s;
  joined_session : session s = Some x;
  joined_running : closed s = false }.

(** The agent has not seen request [id]: not in the cache, inside the replay
    window, no fragments of it, and nothing in the client's queue answers it. *)
Record fresh (u : UdpBackend (Link B)) (x : _Session) (o : Opcode.t) (id : Z) (data : bytes) : Prop := {
  fresh_cache : dict_get id (response_cache x) = None;
  fresh_window : replayed x id = false;
  fresh_pending : dict_get id (pending x) = None;
  fresh_inbox : Forall (harmless x o id data (target u)) (inbox u) }.

Lemma request_datagrams x o id data ds :
  map_result (fun p => d ← Packet.encode p (session_key x); Ok (_dos_transport_datagram d))
    (fragments MessageKind.REQUEST o (AgentServer.session_id x) id data) = Ok ds ->
  Forall valid_packet (fragments MessageKind.REQUEST o (AgentServer.session_id x) id data) ->
  Forall2 (fun i d => request_datagram x o id data i d) (seqZ 0 (fragment_total data)) ds.
Proof.
  intros H1%map_result_Ok Hv. unfold fragments in H1, Hv. apply Forall2_fmap_l in H1.
  rewrite Forall_fmap in Hv. assert (Hr : Forall (fun i => 0 <= i < fragment_total data) (seqZ 0 (fragment_total data)))
    by (apply Forall_seqZ; intros; lia).
  induction H1 as [|i d js ds' Hi _ IH]; [constructor|].
  apply Forall_cons in Hv as [Hvi Hv], Hr as [Hri Hr]. constructor; [|by apply IH].
  split; [exact Hri|]. unfold compose in *. inv_ok. eexists. split; [by apply encode_Ok|].
  apply transport_padded.
Qed.

(** The exchange that [_request] makes on a joined session. *)
Lemma request_unfold o data u s x :
  joined u s x -> len data <= MAX_MESSAGE_SIZE ->
  let id := next_request_id (_request_id u) in
  let u1 := set_request_id id u in
  exists ds, Forall2 (fun i d => request_datagram x o id data i d) (seqZ 0 (fragment_total data)) ds /\
    _request o data u =
      match attempts (Z.to_nat (_retries u + 1)) ds (session_key x) (req x o id data 0)
              (mkExchange [] 0 []) u1 with
      | (Ok r, u') => (Ok r.1, u')
      | (Err e, u') => (Err e, u')
      end.
Proof.
  intros Hj Hl id u1. pose proof (next_request_id_range (_request_id u)) as Hid. fold id in Hid.
  pose proof (server_session_ok s (joined_ok _ _ _ Hj) x (joined_session _ _ _ Hj)) as Hx.
  pose proof (session_id_range x Hx) as Hsid.
  assert (Hv : Forall valid_packet (fragments MessageKind.REQUEST o (AgentServer.session_id x) id data))
    by (apply fragments_valid; (done || lia)).
  destruct (encode_datagrams (session_key x) _ (session_key_length x Hx) Hv) as [ds Hds].
  exists ds. split; [by apply request_datagrams|].
  unfold _request. rewrite bind_run, ensure_open_run, (joined_open _ _ _ Hj), bind_run. cbn [gets].
  rewrite (joined_key _ _ _ Hj). cbv iota. rewrite ret_bind_run, bind_run. cbn [modify].
  rewrite bind_run. cbn [get].
  fold id u1. rewrite bind_run. cbn [_session_id _request_id set_request_id u1].
  rewrite (joined_id _ _ _ Hj). rewrite fragment_message_Ok by (done || lia). cbn [lift].
  change (_session_key u1) with (_session_key u). rewrite (joined_key _ _ _ Hj).
  change (default [] (Some (session_key x))) with (session_key x).
  unfold _exchange. rewrite bind_run. unfold _exchange_with_packet. rewrite bind_run, Hds. cbn [lift].
  rewrite bind_run, (getitem_in _ 0 (req x o id data 0)).
  - cbn [lift]. rewrite bind_run. cbn [gets]. change (_retries u1) with (_retries u).
    by destruct (attempts _ _ _ _ _ u1) as [[r|e] u'].
  - done.
  - unfold fragments. pose proof (fragment_total_bound data Hl). rewrite seqZ_cons by lia. done.
Qed.

Lemma filing_start (s : UdpAgentServer B) x o id data :
  server_ok s -> session s = Some x -> dict_get id (pending x) = None ->
  filing s x o id data [] s.
Proof.
  intros Hs Hx Hp. exists (pending x). rewrite set_pending_same. split_and!.
  - by destruct s; cbn in *; subst.
  - by apply (server_session_ok s Hs).
  - by rewrite Hp.
  - split; [apply NoDup_nil_2|constructor].
  - auto.
Qed.

(** C26. A request whose operation returns or raises (and does not hang) is executed at
    most once, however many datagrams the link loses
    or duplicates and however often the client resends them, and the client is
    never told anything else than what the agent did: either [_request] returns
    (or raises) exactly what the operation returned, executed once on the state
    the exchange began with; or it times out, and then the operation has been
    executed once or not at all. *)
Theorem request_executed_at_most_once o data u s x :
  small_screens (B:=B) -> joined u s x -> fresh u x o (next_request_id (_request_id u)) data ->
  len data <= MAX_MESSAGE_SIZE -> returns o data s ->
  let id := next_request_id (_request_id u) in
  let '(res, u') := _request o data u in
  let s' := agent (network u') in
  let untouched := backend s' = backend s /\ transfer s' = transfer s in
  let once r := exists ent p s1,
    operation ent (set_pending p x) o id data (AgentServer.set_session (Some (set_pending p x)) s) = (r, s1) /\
    backend s' = backend s1 /\ transfer s' = transfer s1 in
  (exists r, once r /\ res = result_of r) \/
  ((exists msg, res = Err (Exn TimeoutError msg)) /\ (untouched \/ exists r, once r)).
Proof.
  intros Hsmall Hj Hf Hl Hret id. destruct (request_unfold o data u s x Hj Hl) as (ds & Hds & Hreq).
  fold id in Hds, Hreq. rewrite Hreq. cbv zeta in *.
  pose proof (next_request_id_range (_request_id u)) as Hid. fold id in Hid, Hf.
  destruct Hf as [Hc Hw Hp Hin]. pose proof Hj as [Ha Hal Hst Hb Ht Ho Hk Hi Hok Hx Hrun].
  assert (Hlink : on_link s x o id data (Filing []) (set_request_id id u)).
  { split_and!; try done. - cbn. rewrite Ha. by apply filing_start.
    - eapply Forall_impl; [exact Hin|]. intros ad Had. by left. }
  assert (Hds' : Forall (fun d => exists i, request_datagram x o id data i d) ds).
  { apply Forall_forall. intros d Hd. apply list_elem_of_lookup_1 in Hd as [j Hj'].
    destruct (Forall2_lookup_r _ _ _ _ _ Hds Hj') as (i & _ & Hi'). by exists i. }
  destruct (attempts_phase Hsmall s x o id data Hok Hx Hrun Hl Hid Hc Hw Hret
    (Z.to_nat (_retries u + 1)) ds (Filing []) (set_request_id id u) (mkExchange [] 0 []) Hlink Hds' eq_refl)
    as (ph & u' & res & -> & (_ & _ & _ & Hph & _) & _ & _ & Hres).
  assert (Honce : forall g, executed s x o id data g (agent (network u')) ->
    exists ent p s1, operation ent (set_pending p x) o id data
      (AgentServer.set_session (Some (set_pending p x)) s) = (ex_result g, s1) /\
      backend (agent (network u')) = backend s1 /\ transfer (agent (network u')) = transfer s1).
  { intros g (_ & Hop & _ & _ & _ & _ & _ & Hb' & Ht' & _). eauto 10. }
  assert (Hpair : forall P : result bytes -> UdpBackend (Link B) -> Prop,
    P (fst <$> res) u' -> let '(r, u) := match res with Ok r => (Ok r.1, u') | Err e => (Err e, u') end in P r u).
  { intros P HP. by destruct res. }
  apply Hpair. destruct Hres as [(g & -> & Hg)|[msg ->]].
  - left. exists (ex_result g). split; [by apply Honce|done].
  - right. split; [by exists msg|]. destruct ph as [fs|g].
    + left. destruct Hph as (p & -> & _). done.
    + right. exists (ex_result g). by apply Honce.
Qed.
End Request.

(** A client that joined the session of [sample_hello], on a link that loses the
    first datagram and delivers the others twice. *)
Definition greeted : UdpAgentServer desk :=
  (handle_datagram sample_entropy sample_hello bridge
    (mkServer empty_desk TEST_KEY None false false None false [])).2.

Definition lossy (n : nat) : list delivery :=
  match n with
  | O => []
  | _ => [mkDelivery sample_entropy []; mkDelivery sample_entropy [0; 0]%nat]
  end.

Lemma lossy_steady n : steady (lossy n).
Proof.
  destruct n; [apply Forall_nil_2|].
  repeat (apply Forall_cons_2; [exact sample_entropy_ok|]). apply Forall_nil_2.
Qed.

Definition lossy_client : UdpBackend (Link desk) :=
  mkUdp (mkLink greeted true bridge agent_at lossy (fun _ => 1) 0) [] agent_at TEST_KEY 3 true true
    (hello_id 1 0x01020304) (Some sample_session_key) 5 false.

Definition greeted_session : _Session :=
  Eval vm_compute in match session greeted with Some x => x | None => mkSession bridge 0 [] None [] [] end.

Lemma request_executed_at_most_once_witness :
  let id := next_request_id (_request_id lossy_client) in
  let '(res, u') := _request Opcode.PING [x2a] lossy_client in
  let s' := agent (network u') in
  let untouched := backend s' = backend greeted /\ transfer s' = transfer greeted in
  let once r := exists ent p s1,
    operation ent (set_pending p greeted_session) Opcode.PING id [x2a]
      (AgentServer.set_session (Some (set_pending p greeted_session)) greeted) = (r, s1) /\
    backend s' = backend s1 /\ transfer s' = transfer s1 in
  (exists r, once r /\ res = result_of r) \/
  ((exists msg, res = Err (Exn TimeoutError msg)) /\ (untouched \/ exists r, once r)).
Proof.
  apply (request_executed_at_most_once Opcode.PING [x2a] lossy_client greeted greeted_session).
  - by intros b screen b' [= <- _].
  - assert (server_ok greeted) by (apply ok_handle_datagram; [apply sample_entropy_ok|by apply (new_server_ok empty_desk TEST_KEY false)]).
    split; lazymatch goal with
    | |- forall n, steady _ => exact lossy_steady
    | _ => first [done|vm_compute; reflexivity]
    end.
  - split; [by vm_compute..|constructor].
  - by vm_compute.
  - by intros ent x id s _ _ _ _.
Defined.
