(* ===== verification/ReliableLink.v ===== *)
(** * Requests over a link that delivers

    On a link that delivers every datagram once and in order, a request of the
    client returns exactly what the agent's operation returns, executed on the
    agent's state, and leaves client and agent ready for the next one: [synced]
    is the invariant of a session. *)
From S2P Require Import Prelude Dict Struct Crc Crypto PyText Constants Packet Messages Errors.
From S2P Require Import State Backend MemoryBackend UdpBackend UdpSafety.
From S2P Require Import AgentServer AgentInvariant AgentSafety AgentTransfer Link Exchange.
From S2P Require Models.

(** Each datagram is handed over once and all answers arrive (a message has at
    most 32 fragments). *)
Definition delivers (xs : list delivery) : Prop :=
  exists ent, xs = [mkDelivery ent (seq 0 32)] /\ entropy_ok ent.

Lemma delivers_steady xs : delivers xs -> steady xs.
Proof. intros (ent & -> & He). apply Forall_cons_2; [exact He|apply Forall_nil_2]. Qed.

Lemma omap_lookup_none {A} (l : list A) k n :
  (length l <= k)%nat -> omap (fun i => l !! i) (seq k n) = [].
Proof.
  revert k. induction n as [|n IH]; intros k Hk; [done|]. cbn [seq omap list_omap].
  rewrite (lookup_ge_None_2 l k) by lia. apply IH. lia.
Qed.

Lemma omap_lookup_from {A} (l : list A) k n :
  (length l <= k + n)%nat -> omap (fun i => l !! i) (seq k n) = drop k l.
Proof.
  revert k. induction n as [|n IH]; intros k Hk; [by rewrite drop_ge by lia|].
  cbn [seq omap list_omap]. destruct (l !! k) as [a|] eqn:E.
  - rewrite IH by lia. by rewrite (drop_S _ _ _ E).
  - apply lookup_ge_None in E. rewrite drop_ge by lia. by apply omap_lookup_none; lia.
Qed.

Lemma omap_lookup_all {A} (l : list A) n :
  (length l <= n)%nat -> omap (fun i => l !! i) (seq 0 n) = l.
Proof. intros Hn. rewrite omap_lookup_from by lia. apply drop_0. Qed.

(** The first [n] numbered fragments. *)
Definition numbered {A} (f : Z -> A) (n : Z) : dict A := (fun i => (i, f i)) <$> seqZ 0 n.

Lemma numbered_keys {A} (f : Z -> A) n : dict_keys (numbered f n) = seqZ 0 n.
Proof. unfold dict_keys, numbered. rewrite <- list_fmap_compose. by apply list_fmap_id. Qed.

Lemma numbered_next {A} (f : Z -> A) n :
  0 <= n -> dict_set n (f n) (numbered f n) = numbered f (n + 1).
Proof.
  intros Hn. rewrite dict_set_new.
  - unfold numbered. rewrite seqZ_app by lia. rewrite fmap_app. by rewrite Z.add_0_l.
  - rewrite numbered_keys, elem_of_seqZ. lia.
Qed.

Lemma numbered_len {A} (f : Z -> A) n : 0 <= n -> len (numbered f n) = n.
Proof. intros Hn. unfold len, numbered. rewrite length_fmap, length_seqZ. lia. Qed.

Lemma numbered_ok {A} (f : Z -> A) n : dict_ok (numbered f n).
Proof. unfold dict_ok. rewrite numbered_keys. apply NoDup_seqZ. Qed.

(** ** Request ids in sequence

    The responses cached are those of the last requests, at most four, so the
    next id is not among them and is inside the replay window. *)
Definition ids_from (a n : Z) : list Z := (fun j => (a + j) mod 65535 + 1) <$> seqZ 0 n.

Definition recent (cur : Z) (ids : list Z) : Prop :=
  exists a n, 0 <= n <= 4 /\ ids = ids_from a n /\
    cur = (a + n - 1) mod 65535 + 1.

Lemma recent_start cur : 0 < cur < 65536 -> recent cur [].
Proof.
  intros Hc. exists cur, 0. split_and!; [lia|lia|done|]. rewrite Z.add_0_r, Z.mod_small by lia. lia.
Qed.

Lemma next_request_id_mod a : next_request_id (a mod 65535 + 1) = (a + 1) mod 65535 + 1.
Proof.
  unfold next_request_id. cbv zeta. rewrite land_mask16.
  pose proof (Z.mod_pos_bound a 65535 ltac:(lia)) as Hr.
  rewrite (Zplus_mod a 1). change (1 mod 65535) with 1.
  generalize dependent (a mod 65535). intros r Hr.
  destruct (Z.eq_dec r 65534) as [->|Hne]; [reflexivity|].
  rewrite !Z.mod_small by lia. destruct (Z.eqb_spec (r + 1 + 1) 0); lia.
Qed.

Lemma recent_next cur ids : recent cur ids -> next_request_id cur ∉ ids.
Proof.
  intros (a & n & Hn & -> & ->) (j & Hj & Hin)%list_elem_of_fmap.
  rewrite next_request_id_mod in Hj. apply elem_of_seqZ in Hin.
  assert (E : (a + n - 1 + 1) mod 65535 = (a + j) mod 65535) by lia.
  assert (E' : ((a + n - 1 + 1) - (a + j)) mod 65535 = 0) by (rewrite Zminus_mod, E, Z.sub_diag; done).
  replace (a + n - 1 + 1 - (a + j)) with (n - j) in E' by lia. rewrite Z.mod_small in E' by lia. lia.
Qed.

Lemma next_request_id_newer cur :
  0 < cur < 65536 -> _request_is_newer (next_request_id cur) cur = true.
Proof.
  intros Hc. unfold next_request_id, _request_is_newer. cbv zeta. rewrite !land_mask16.
  destruct (Z.eq_dec cur 65535) as [->|Hne]; [reflexivity|]. rewrite (Z.mod_small (cur + 1)) by lia.
  destruct (Z.eqb_spec (cur + 1) 0); [lia|]. rewrite Z.mod_small by lia. lia.
Qed.

Lemma len_cons {A} (x : A) l : len (x :: l) = len l + 1.
Proof. unfold len. cbn [length]. lia. Qed.

Lemma evict_room cache : len cache <= 4 -> evict cache = cache.
Proof.
  intros Hl. destruct cache as [|kv cache]; [done|]. cbn [evict].
  by replace (4 <? len (kv :: cache)) with false by lia.
Qed.

Lemma evict_full kv cache : len cache = 4 -> evict (kv :: cache) = cache.
Proof.
  intros Hl. pose proof (len_cons kv cache). cbn [evict].
  replace (4 <? len (kv :: cache)) with true by lia. apply evict_room. lia.
Qed.

Lemma len_dict_keys {V} (d : dict V) : len (dict_keys d) = len d.
Proof. unfold len, dict_keys. by rewrite length_fmap. Qed.

Lemma dict_keys_app {V} (d d' : dict V) : dict_keys (d ++ d') = dict_keys d ++ dict_keys d'.
Proof. apply fmap_app. Qed.

Lemma ids_from_snoc a n : 0 <= n -> ids_from a (n + 1) = ids_from a n ++ [(a + n) mod 65535 + 1].
Proof. intros Hn. unfold ids_from. rewrite seqZ_app by lia. by rewrite fmap_app. Qed.

Lemma ids_from_tail a n : 0 < n -> List.tl (ids_from a n) = ids_from (a + 1) (n - 1).
Proof.
  intros Hn. unfold ids_from. rewrite seqZ_cons by lia. cbn [fmap list_fmap List.tl].
  replace (Z.succ 0) with (1 + 0) by lia. rewrite <- fmap_add_seqZ, <- list_fmap_compose.
  replace (Z.pred n) with (n - 1) by lia.
  apply list_fmap_ext. intros i j _. unfold compose. do 2 f_equal. lia.
Qed.

Lemma len_ids_from a n : 0 <= n -> len (ids_from a n) = n.
Proof. intros Hn. unfold len, ids_from. rewrite length_fmap, length_seqZ. lia. Qed.

Lemma recent_answered cur cache ds :
  recent cur (dict_keys cache) ->
  recent (next_request_id cur) (dict_keys (evict (dict_set (next_request_id cur) ds cache))).
Proof.
  intros Hr. pose proof (recent_next _ _ Hr) as Hnew. destruct Hr as (a & n & Hn & Hk & ->).
  rewrite dict_set_new by done. rewrite next_request_id_mod in *.
  replace (a + n - 1 + 1) with (a + n) in * by lia.
  set (new := [((a + n) mod 65535 + 1, ds)]).
  assert (Hkn : dict_keys (cache ++ new) = ids_from a (n + 1))
    by (by rewrite dict_keys_app, Hk, ids_from_snoc by lia).
  assert (Hlen : len (cache ++ new) = n + 1) by (rewrite <- len_dict_keys, Hkn; apply len_ids_from; lia).
  destruct (Z.eq_dec n 4) as [->|Hne].
  - destruct cache as [|kv cache]; [done|]. rewrite <- app_comm_cons in *. rewrite len_cons in Hlen.
    rewrite evict_full by lia. exists (a + 1), 4. split_and!; [lia|lia| |do 2 f_equal; lia].
    apply (f_equal (@List.tl Z)) in Hkn. rewrite ids_from_tail in Hkn by lia. exact Hkn.
  - rewrite evict_room by lia. exists a, (n + 1). split_and!; [lia|lia|exact Hkn|do 2 f_equal; lia].
Qed.

(** ** One request *)
Section Perfect.
Context {B : Type} `{Backend B}.
Context (Hsmall : small_screens (B:=B)).

Lemma deliver_ok from d x (s : UdpAgentServer B) :
  entropy_ok (arrival x) -> server_ok s -> server_ok (deliver from d x s).1.2.
Proof.
  intros Hx Hs. unfold deliver. destruct (closed s); [done|].
  pose proof (ok_handle_datagram (arrival x) d from (entropy_draws _ Hx) s Hs) as Hs'.
  by destruct (handle_datagram (arrival x) d from s) as [[[]|e] s'].
Qed.

Context (s0 : UdpAgentServer B) (x0 : _Session) (o : Opcode.t) (id : Z) (data : bytes).
Context (Hs0 : server_ok s0) (Hx0 : session s0 = Some x0) (Hclosed : closed s0 = false).
Context (Hlen : len data <= MAX_MESSAGE_SIZE) (Hid : 0 < id < 65536).
Context (Hcache : dict_get id (response_cache x0) = None) (Hreplay : replayed x0 id = false).
Context (Hdrop : dropping s0 = false) (Hreturns : returns o data s0).

Local Abbreviation datagram_of := (request_datagram x0 o id data).
Local Abbreviation req_ := (req x0 o id data).
Local Abbreviation total_ := (total data).

Lemma executed_count g s : executed s0 x0 o id data g s -> (length (ex_datagrams g) <= 32)%nat.
Proof using.
  intros (_ & _ & _ & [Hl Hds] & _). apply map_result_Ok, Forall2_length in Hds. rewrite <- Hds.
  unfold fragments. rewrite length_fmap, length_seqZ.
  pose proof (fragment_total_bound (ex_body g) Hl). lia.
Qed.

(** One datagram reaches an agent that is collecting. *)
Lemma deliver_once fs s i d xs :
  delivers xs -> filing s0 x0 o id data fs s -> server_ok s -> datagram_of i d ->
  exists s' arrived, deliver_all (address x0) d xs s = (true, s', arrived) /\ server_ok s' /\
    let fs' := dict_set i (req_ i) fs in
    if len fs' =? total_
    then exists g, executed s0 x0 o id data g s' /\ entropy_ok (ex_entropy g) /\ arrived = ex_datagrams g
    else filing s0 x0 o id data fs' s' /\ arrived = [].
Proof using Hsmall Hs0 Hx0 Hclosed Hlen Hid Hcache Hreplay Hdrop Hreturns.
  intros (ent & -> & Hent) Hf Hok Hd.
  pose proof (deliver_ok (address x0) d (mkDelivery ent (seq 0 32)) s Hent Hok) as Hok'.
  destruct (deliver_phase Hsmall s0 x0 o id data Hs0 Hx0 Hclosed Hlen Hid Hcache Hreplay Hreturns (Filing fs) s
    i d (mkDelivery ent (seq 0 32)) Hent Hf Hd) as (ph & s' & out & Hdel & Hph & _ & _ & Hcase).
  cbn [deliver_all]. rewrite Hdel in Hok' |- *. cbn [fst snd passes] in Hok' |- *. rewrite app_nil_r.
  exists s', (omap (fun j => out !! j) (seq 0 32)). split; [done|]. split; [done|].
  cbv zeta in *. destruct (len (dict_set i (req_ i) fs) =? total_).
  - destruct Hcase as (g & -> & Hge & Hout). exists g. split; [done|]. rewrite Hge. split; [done|]. rewrite (Hout Hdrop).
    apply omap_lookup_all. by eapply executed_count.
  - by destruct Hcase as [-> ->].
Qed.

(** The client's end of the link: nothing queued, every datagram delivered. *)
Record ready (u : UdpBackend (Link B)) : Prop := {
  ready_alive : alive (network u) = true;
  ready_bridge : bridge_address (network u) = address x0;
  ready_target : agent_address (network u) = target u;
  ready_agent : server_ok (agent (network u));
  ready_fate n : delivers (fate (network u) n);
  ready_inbox : inbox u = [] }.

Lemma sendto_once fs u i d :
  ready u -> filing s0 x0 o id data fs (agent (network u)) -> datagram_of i d ->
  exists u', UdpBackend.sendto d u = (Ok tt, u') /\ link_moved u u' /\
    alive (network u') = true /\ server_ok (agent (network u')) /\
    let fs' := dict_set i (req_ i) fs in
    if len fs' =? total_
    then exists g, executed s0 x0 o id data g (agent (network u')) /\ entropy_ok (ex_entropy g) /\
           inbox u' = pair (target u) <$> ex_datagrams g
    else filing s0 x0 o id data fs' (agent (network u')) /\ inbox u' = [].
Proof using Hsmall Hs0 Hx0 Hclosed Hlen Hid Hcache Hreplay Hdrop Hreturns.
  intros [Hal Hb Ha Hok Hfate Hin] Hf Hd. unfold UdpBackend.sendto. cbn [transmit link_network].
  rewrite Hal, Hb, Hin. cbn [negb app].
  destruct (deliver_once fs _ i d _ (Hfate (clock (network u))) Hf Hok Hd) as (s' & arrived & -> & Hok' & Hcase).
  eexists. split; [done|]. split; [by split_and!|]. split; [done|]. split; [done|].
  cbv zeta in *. cbn [network set_network agent inbox]. destruct (len (dict_set i (req_ i) fs) =? total_).
  - destruct Hcase as (g & Hg & Hge & ->). exists g. by rewrite Ha.
  - by destruct Hcase as [Hf' ->].
Qed.

Lemma ready_moved u u' :
  ready u -> link_moved u u' -> alive (network u') = true -> server_ok (agent (network u')) ->
  inbox u' = [] -> ready u'.
Proof using.
  intros [Hal Hb Ha Hok Hfate Hin] (E & Ea & Eb & Ef & _) Hal' Hok' Hin'.
  assert (Ht : target u' = target u) by (rewrite E; done).
  split; try done; try congruence. intros n. rewrite Ef. apply Hfate.
Qed.

Lemma send_all_once ds k u :
  Forall2 datagram_of (seqZ k (total_ - k)) ds -> 0 <= k < total_ -> ready u ->
  filing s0 x0 o id data (numbered req_ k) (agent (network u)) ->
  exists g u', each UdpBackend.sendto ds u = (Ok tt, u') /\ link_moved u u' /\
    alive (network u') = true /\ server_ok (agent (network u')) /\
    executed s0 x0 o id data g (agent (network u')) /\ entropy_ok (ex_entropy g) /\
    inbox u' = pair (target u) <$> ex_datagrams g.
Proof using Hsmall Hs0 Hx0 Hclosed Hlen Hid Hcache Hreplay Hdrop Hreturns.
  intros Hds Hk. remember (seqZ k (total_ - k)) as ks eqn:Eks.
  revert k u Hk Eks. induction Hds as [|j d ks ds Hd Hds IH]; intros k u Hk Eks Hu Hf.
  { rewrite seqZ_cons in Eks by lia. discriminate. }
  rewrite seqZ_cons in Eks by lia. injection Eks as -> ->. cbn [each].
  destruct (sendto_once _ u k d Hu Hf Hd) as (u1 & Hrun & Hm & Hal & Hok & Hcase).
  rewrite bind_run, Hrun. cbv zeta in Hcase. rewrite numbered_next, numbered_len in Hcase by lia.
  destruct (Z.eqb_spec (k + 1) total_) as [Elast|Hmore].
  - destruct Hcase as (g & Hg & Hge & Hin). replace (Z.pred (total_ - k)) with 0 in Hds by lia.
    apply Forall2_nil_inv_l in Hds as ->. exists g, u1. by split_and!.
  - destruct Hcase as [Hf' Hin].
    destruct (IH (k + 1) u1) as (g & u' & Hrun' & Hm' & Hrest); [lia| | |done|].
    + f_equal; lia.
    + by apply (ready_moved u u1).
    + exists g, u'. rewrite Hrun'. split; [done|]. split; [by etrans|].
      assert (target u1 = target u) as <- by (destruct Hm as (-> & _); done). done.
Qed.

(** *** The reply *)
Lemma reply_datagrams g s :
  executed s0 x0 o id data g s ->
  Forall2 (fun i d => 0 <= i < rep_total g /\ encoded (rep x0 o id g i) (session_key x0) d)
    (seqZ 0 (rep_total g)) (ex_datagrams g).
Proof using Hs0 Hx0 Hid.
  intros (_ & _ & _ & [Hl Hds] & _). apply map_result_Ok in Hds. unfold fragments in Hds.
  apply Forall2_fmap_l in Hds. assert (Hr : Forall (fun i => 0 <= i < rep_total g) (seqZ 0 (rep_total g)))
    by (apply Forall_seqZ; intros; lia).
  assert (Hsid := sid_range s0 x0 Hs0 Hx0).
  unfold rep_total in *. induction Hds as [|i d js ds Hi _ IH]; [constructor|].
  apply Forall_cons in Hr as [Hi' Hr]. constructor; [|by apply IH]. split; [done|].
  apply encode_Ok; [|done]. apply fragment_valid; (done || lia).
Qed.

Lemma receive_all_from g s to ds k e :
  executed s0 x0 o id data g s ->
  Forall2 (fun i d => 0 <= i < rep_total g /\ encoded (rep x0 o id g i) (session_key x0) d)
    (seqZ k (rep_total g - k)) ds -> 0 <= k < rep_total g ->
  received e = numbered (rep x0 o id g) k ->
  exists r, receive_loop to (session_key x0) (req_ 0) (pair to <$> ds) e = (r, []) /\
    match result_of (ex_result g) with
    | Ok b => exists last, r = Ok (Complete b last)
    | Err err => r = Err err
    end.
Proof using Hs0 Hx0 Hid.
  intros Hg Hds Hk He. remember (seqZ k (rep_total g - k)) as ks eqn:Eks.
  revert k e Hk Eks He. induction Hds as [|j d ks ds [Hj Hd] Hds IH]; intros k e Hk Eks He.
  { rewrite seqZ_cons in Eks by lia. discriminate. }
  rewrite seqZ_cons in Eks by lia. injection Eks as -> ->. cbn [fmap list_fmap receive_loop].
  pose proof (sid_range s0 x0 Hs0 Hx0) as Hsid.
  assert (Hsome : some_replies x0 o id g e).
  { split; [rewrite He; apply numbered_ok|]. rewrite He. unfold numbered. apply Forall_fmap.
    apply Forall_seqZ. intros i Hi. cbn. split; [lia|done]. }
  assert (Hv : valid_packet (rep x0 o id g k)).
  { apply fragment_valid; first [done|lia|apply Hg]. }
  rewrite (on_reply s0 x0 o id data Hs0 Hx0 g s k d to e Hg Hj Hv Hd Hsome). unfold take_reply.
  rewrite He, numbered_next, numbered_len by lia.
  assert (Hreply : reply (ex_result g) (ex_kind g) (ex_body g)) by apply Hg.
  unfold reply, result_of in *. destruct (ex_result g) as [[b|]|err].
  - destruct Hreply as [-> ->]. destruct (Z.eqb_spec (k + 1) (rep_total g)) as [El|El].
    + replace (Z.pred (rep_total g - k)) with 0 in Hds by lia. apply Forall2_nil_inv_l in Hds as ->.
      eexists. split; [done|]. by eexists.
    + apply (IH (k + 1)); [lia|f_equal; lia|done].
  - destruct Hreply as [Hk' Hb]. 
    assert (rep_total g = 1) as E1 by (by apply (error_reply_single s0 x0 o id data g s)).
    rewrite Hk'. replace (Z.pred (rep_total g - k)) with 0 in Hds by lia.
    apply Forall2_nil_inv_l in Hds as ->. by eexists.
  - destruct Hreply as [Hk' Hb].
    assert (rep_total g = 1) as E1 by (by apply (error_reply_single s0 x0 o id data g s)).
    rewrite Hk'. replace (Z.pred (rep_total g - k)) with 0 in Hds by lia.
    apply Forall2_nil_inv_l in Hds as ->. destruct (is_value_error (exn_cls err)); by eexists.
Qed.
End Perfect.

(** ** Sessions *)
Section Synced.
Context {B : Type} `{Backend B}.

(** Client and agent are in step: nothing is under way, and the agent's window
    and cache follow the client's request ids. *)
Record synced (u : UdpBackend (Link B)) (s : UdpAgentServer B) (x : _Session) : Prop := {
  synced_joined : joined u s x;
  synced_pending : pending x = [];
  synced_inbox : inbox u = [];
  synced_drop : dropping s = false;
  synced_fate n : delivers (fate (network u) n);
  synced_retries : 0 <= _retries u;
  synced_id : 0 < _request_id u < 65536;
  synced_recent : recent (_request_id u) (dict_keys (response_cache x));
  synced_last : last_request_id x = None \/ last_request_id x = Some (_request_id u) }.

(** The client's settings, which requests do not touch. *)
Definition same_settings (u u' : UdpBackend (Link B)) : Prop :=
  target u' = target u /\ _retries u' = _retries u /\ _base_key u' = _base_key u /\
  _allow_file_read u' = _allow_file_read u /\ _allow_file_write u' = _allow_file_write u.

#[export] Instance same_settings_preorder : PreOrder same_settings.
Proof.
  split; [by intros u|]. unfold same_settings. intros u u' u'' (? & ? & ? & ? & ?) (? & ? & ? & ? & ?).
  split_and!; congruence.
Qed.

Lemma synced_fresh u s x o data :
  synced u s x -> fresh u x o (next_request_id (_request_id u)) data.
Proof.
  intros Hs. split.
  - apply dict_get_None, recent_next, Hs.
  - unfold replayed. destruct (synced_last _ _ _ Hs) as [->| ->]; [done|].
    by rewrite next_request_id_newer by apply Hs.
  - by rewrite (synced_pending _ _ _ Hs).
  - rewrite (synced_inbox _ _ _ Hs). constructor.
Qed.

Lemma synced_ready u s x id : synced u s x -> ready x (set_request_id id u).
Proof.
  intros Hs. pose proof (synced_joined _ _ _ Hs) as [Ha Hal Hst Hb Ht Ho Hk Hi Hok Hx Hrun].
  split; try done; [by cbn; rewrite Ha|apply Hs|apply Hs].
Qed.

Lemma set_session_same (s : UdpAgentServer B) x : session s = Some x -> AgentServer.set_session (Some x) s = s.
Proof. destruct s. by intros [= ->]. Qed.

(** The exchange of a request on a link that delivers. *)
Lemma attempts_perfect o data u s x ds :
  small_screens (B:=B) -> synced u s x -> len data <= MAX_MESSAGE_SIZE -> returns o data s ->
  let id := next_request_id (_request_id u) in
  Forall2 (request_datagram x o id data) (seqZ 0 (total data)) ds ->
  exists g res u', attempts (Z.to_nat (_retries u + 1)) ds (session_key x) (req x o id data 0)
      (mkExchange [] 0 []) (set_request_id id u) = (res, u') /\ fst <$> res = result_of (ex_result g) /\
    executed s x o id data g (agent (network u')) /\ entropy_ok (ex_entropy g) /\
    alive (network u') = true /\ server_ok (agent (network u')) /\ inbox u' = [] /\
    link_moved (set_request_id id u) u'.
Proof.
  intros Hsmall Hs Hl Hret id Hds. destruct (synced_fresh u s x o data Hs) as [Hc Hw Hp _].
  pose proof (synced_joined _ _ _ Hs) as [Ha Hal Hst Hb Ht Ho Hk Hi Hok Hx Hrun].
  pose proof (next_request_id_range (_request_id u)) as Hid. fold id in Hc, Hw, Hp, Hid.
  assert (Ht0 : 0 < total data) by (unfold total; pose proof (fragment_total_bound data Hl); lia).
  replace (Z.to_nat (_retries u + 1)) with (S (Z.to_nat (_retries u)))
    by (pose proof (synced_retries _ _ _ Hs); lia). cbn [attempts].
  destruct (send_all_once Hsmall s x o id data Hok Hx Hrun Hl Hid Hc Hw (synced_drop _ _ _ Hs) Hret ds 0
    (set_request_id id u)) as (g & u1 & Hsend & Hm & Hal1 & Hok1 & Hg & Hent & Hin).
  { by rewrite Z.sub_0_r. } { lia. } { by eapply synced_ready. }
  { cbn [network set_request_id]. rewrite Ha. by apply filing_start. }
  rewrite bind_run, Hsend, bind_run. unfold UdpBackend.receive. rewrite Hin.
  assert (target u1 = target (set_request_id id u)) as <- by (destruct Hm as (-> & _); done).
  assert (Hrep : 0 < rep_total g).
  { unfold rep_total. assert (Hb' : len (ex_body g) <= MAX_MESSAGE_SIZE) by apply Hg.
    pose proof (fragment_total_bound _ Hb'). lia. }
  destruct (receive_all_from s x o id data Hok Hx Hid g _ (target u1) (ex_datagrams g) 0
    (mkExchange [] 0 []) Hg) as (r & Hloop & Hr); [|lia|done|].
  { rewrite Z.sub_0_r. exact (reply_datagrams s x o id data Hok Hx Hid g _ Hg). }
  rewrite Hloop. exists g. set (u2 := set_network (network u1) [] u1).
  assert (link_moved (set_request_id id u) u2) by (etrans; [exact Hm|by split_and!]).
  destruct (result_of (ex_result g)) as [b|err].
  - destruct Hr as [last ->]. eexists _, u2. split; [done|]. by split_and!.
  - subst r. eexists _, u2. split; [done|]. by split_and!.
Qed.

(** A request on a link that delivers: the client gets exactly what the operation
    gives, executed once, and the two sides stay in step. *)
Lemma request_perfect o data u s x :
  small_screens (B:=B) -> synced u s x -> len data <= MAX_MESSAGE_SIZE -> returns o data s ->
  exists ent r s1 u' s' x', entropy_ok ent /\
    operation ent x o (next_request_id (_request_id u)) data s = (r, s1) /\
    _request o data u = (result_of r, u') /\ synced u' s' x' /\
    backend s' = backend s1 /\ transfer s' = transfer s1 /\ same_settings u u'.
Proof.
  intros Hsmall Hs Hl Hret. pose proof (synced_joined _ _ _ Hs) as Hj.
  destruct (request_unfold o data u s x Hj Hl) as (ds & Hds & Hreq). rewrite Hreq. clear Hreq.
  destruct (attempts_perfect o data u s x ds Hsmall Hs Hl Hret Hds)
    as (g & res & u' & -> & Hres & Hg & Hent & Hal & Hok & Hin & Hm).
  destruct Hg as (Hx1 & Hop & _ & _ & Hsess & Hcl & _ & Hback & Htr & Hdr & Hpe).
  destruct Hj as [Ha Hal0 Hst Hb Ht Ho Hk Hi Hok0 Hx Hrun]. specialize (Hpe (synced_pending _ _ _ Hs)).
  rewrite Hpe in *. replace (set_pending [] x) with x in *
    by (rewrite <- (synced_pending _ _ _ Hs); by rewrite set_pending_same).
  rewrite set_session_same in Hop by done.
  set (id := next_request_id (_request_id u)) in *.
  pose proof Hm as (Eu & Ea & Eb & Ef & _).
  eexists (ex_entropy g), (ex_result g), (ex_state g), u', (agent (network u')), _.
  split; [done|]. split; [done|]. split; [by rewrite <- Hres; destruct res|].
  split; [|split; [done|split; [done|by rewrite Eu]]].
  assert (Eid : _request_id u' = id) by (rewrite Eu; done).
  split; cbn [pending response_cache last_request_id set_answered].
  - split; try done; try (rewrite Eu; done); cbn [set_answered address session_key session_id]; try congruence.
    + intros n. rewrite Ef. apply Hst.
    + by rewrite Eb.
    + rewrite Ea, Eu. exact Ht.

  - apply Hs.
  - done.
  - apply Hdr, Hs.
  - intros n. rewrite Ef. apply Hs.
  - rewrite Eu. apply Hs.
  - rewrite Eid. apply next_request_id_range.
  - rewrite Eid. apply recent_answered, Hs.
  - right. by rewrite Eid.
Qed.
End Synced.

(** ** The handshake *)
Section Handshake.
Context {B : Type} `{Backend B}.

(** Client and agent are joined by a link that delivers; whatever session the
    agent holds, the client is about to open a new one. *)
Record linked (u : UdpBackend (Link B)) (s : UdpAgentServer B) : Prop := {
  linked_agent : agent (network u) = s;
  linked_alive : alive (network u) = true;
  linked_target : agent_address (network u) = target u;
  linked_ok : server_ok s;
  linked_running : closed s = false;
  linked_drop : dropping s = false;
  linked_fate n : delivers (fate (network u) n);
  linked_nonce n : 0 <= nonce (network u) n < 2 ^ 32;
  linked_inbox : inbox u = [];
  linked_open : _closed u = false;
  linked_retries : 0 <= _retries u;
  linked_key : _base_key u = key s }.

Lemma receive_hello_packet p k d d' from c :
  valid_packet p -> encoded p k d -> padded d d' -> Packet.kind p = MessageKind.REQUEST ->
  opcode p = Opcode.HELLO -> Packet.session_id p = 0 ->
  AgentSafety.receive d' from c = Hello /\ Packet.decode d' k = Ok p.
Proof.
  intros Hp He Hpad Hk Ho Hs. pose proof (encoded_length _ _ _ He) as Hl.
  pose proof (proj1 (valid_packet_spec p) Hp) as Hv.
  assert (exists pad, d' = d ++ pad /\ (pad = [] \/ pad = [x00])) as (pad & -> & Hpd).
  { destruct Hpad as [-> | ->]; [exists []; by rewrite app_nil_r; auto|exists [x00]; auto]. }
  split; [|by apply decode_encoded].
  unfold AgentSafety.receive. rewrite (unpack_unauthenticated _ _ _ _ Hp He).
  rewrite Hk, Hs, Ho, !Z.eqb_refl.
  assert (Hlen : 20 <= len (d ++ pad) <= 1200).
  { rewrite len_app, Hl. pose proof (len_nonneg (payload p)).
    assert (0 <= len pad <= 1) by (destruct Hpd as [-> | ->]; cbv; split; discriminate). lia. }
  unfold MAX_DATAGRAM. change (Z.of_nat HEADER_SIZE) with 20.
  by replace ((1200 <? len (d ++ pad)) || (len (d ++ pad) <? 20)) with false by lia.
Qed.

(** The client takes the answer to its hello. *)
Lemma on_hello_answer to k from rid body sid out request e :
  valid_packet (mkPacket MessageKind.RESPONSE Opcode.HELLO sid rid 0 1 body 0) ->
  encoded (mkPacket MessageKind.RESPONSE Opcode.HELLO sid rid 0 1 body 0) k out ->
  from = to -> received e = [] -> opcode request = Opcode.HELLO -> request_id request = rid ->
  on_datagram to k request from out e =
    Ok (Complete body (mkPacket MessageKind.RESPONSE Opcode.HELLO sid rid 0 1 body 0)).
Proof.
  intros Hv He -> Hr Ho Hid. pose proof (encoded_length _ _ _ He) as Hl.
  pose proof (proj1 (valid_packet_spec _) Hv) as Hv'. cbn [payload] in Hl, Hv'.
  unfold on_datagram. rewrite bool_decide_eq_true_2 by done. cbn [negb orb].
  replace (MAX_DATAGRAM <? len out) with false by (unfold MAX_DATAGRAM; lia).
  rewrite <- (app_nil_r out), (decode_encoded _ _ _ _ Hv He) by (by left).
  cbn [request_id opcode Packet.kind fragment_index fragment_count]. rewrite Hid, Ho, Hr, Z.eqb_refl.
  rewrite (bool_decide_eq_true_2 (Opcode.HELLO = Opcode.HELLO)) by done.
  assert (Hre : reassemble_packets [mkPacket MessageKind.RESPONSE Opcode.HELLO sid rid 0 1 body 0] = Ok body).
  { apply (reassemble_complete [mkPacket MessageKind.RESPONSE Opcode.HELLO sid rid 0 1 body 0]); [|done].
    split_and!; [done|done|by constructor|by eexists; constructor|]. cbn. by rewrite app_nil_r. }
  cbn [negb orb andb dict_set dict_values fmap list_fmap snd]. by rewrite Hre.
Qed.
(** The hello reaches the agent and its answer the client. *)
Lemma hello_delivered (s : UdpAgentServer B) from p d xs req :
  server_ok s -> closed s = false -> delivers xs -> dropping s = false ->
  AgentSafety.receive d from (session s) = Hello -> Packet.decode d (key s) = Ok p ->
  HelloRequest.decode (payload p) = Ok req ->
  exists server body out sk s',
    let answer := mkPacket MessageKind.RESPONSE Opcode.HELLO
      (hello_id (HelloRequest.client_nonce req) server) (request_id p) 0 1 body 0 in
    deliver_all from d xs s = (true, s', [out]) /\ server_ok s' /\
    valid_packet answer /\ encoded answer (key s) out /\
    HelloResponse.decode body = Ok (HelloResponse.mk (HelloRequest.client_nonce req) server
      (hello_id (HelloRequest.client_nonce req) server) 1024) /\
    derive_session_key (key s) (HelloRequest.client_nonce req) server = Ok sk /\
    session s' = Some (mkSession from (hello_id (HelloRequest.client_nonce req) server) sk None [] []) /\
    closed s' = false /\ dropping s' = false /\ backend s' = backend s /\ transfer s' = None /\
    key s' = key s.
Proof.
  intros Hs Hc (ent & -> & Hent) Hdr Hr Hd Hq.
  destruct (hello_answer ent d from s p req Hs Hr Hd Hq) as (body & out & sk & Hrun & Hv & He & Hdec & Hsk).
  pose proof (deliver_ok from d (mkDelivery ent (seq 0 32)) s Hent Hs) as Hok.
  exists (Z.land (nonce_factory ent) 0xFFFFFFFF), body, out, sk. eexists. cbv zeta.
  pose proof (proj2 Hent) as Hsend. rewrite Hsend in Hrun.
  unfold deliver_all, deliver in *. rewrite Hc in *. cbn [arrival passes fst snd is_ok] in *. rewrite Hrun in *. cbn [is_ok] in *.
  rewrite (new_datagrams_app from s _ [out]) by done. by split_and!.
Qed.
(** The exchange of the hello. *)
Lemma hello_exchange (u : UdpBackend (Link B)) s client rid bs :
  linked u s -> client_ok u -> 0 <= client < 2 ^ 32 -> 0 < rid < 65536 ->
  HelloRequest.encode (HelloRequest.mk client) = Ok bs ->
  let p := mkPacket MessageKind.REQUEST Opcode.HELLO 0 rid 0 1 bs 0 in
  exists server body last sk u', _exchange_with_packet [p] (_base_key u) u = (Ok (body, last), u') /\
    HelloResponse.decode body = Ok (HelloResponse.mk client server (hello_id client server) 1024) /\
    Packet.session_id last = hello_id client server /\
    derive_session_key (_base_key u) client server = Ok sk /\ link_moved u u' /\
    linked u' (agent (network u')) /\ transfer (agent (network u')) = None /\
    backend (agent (network u')) = backend s /\
    session (agent (network u')) =
      Some (mkSession (bridge_address (network u)) (hello_id client server) sk None [] []).
Proof.
  intros Hlk Hu Hc Hrid Hbs p. pose proof Hlk as [Ha Hal Ht Hok Hrun Hdr Hfate Hnonce Hin Hop Hret Hkey].
  assert (Hbl : len bs = 4) by by apply (pack_len _HELLO_REQUEST) in Hbs.
  assert (Hv : valid_packet p) by (apply valid_packet_spec; unfold p; cbn; lia).
  unfold _exchange_with_packet.
  destruct (encode_total p (_base_key u) Hv (client_base_key u Hu)) as (d & Hd & He).
  cbn [map_result]. rewrite Hd. cbn [mbind result_bind]. rewrite bind_run. cbn [lift].
  rewrite bind_run, (getitem_in _ 0 p) by done. cbn [lift]. rewrite bind_run. cbn [gets].
  replace (Z.to_nat (_retries u + 1)) with (S (Z.to_nat (_retries u))) by lia. cbn [attempts each].
  rewrite bind_run, bind_run. unfold UdpBackend.sendto. cbn [transmit link_network].
  rewrite Hal, Hin, Ha. cbn [negb app].
  destruct (receive_hello_packet p (_base_key u) d (_dos_transport_datagram d) (bridge_address (network u))
    (session s) Hv He (transport_padded d) eq_refl eq_refl eq_refl) as [Hrec Hdec].
  rewrite Hkey in Hdec.
  assert (Hq : HelloRequest.decode (payload p) = Ok (HelloRequest.mk client)).
  { apply (wire_decode_encode (c:=HelloRequest.codec)); [done|]. split; [by eapply (pack_numeric_fits _HELLO_REQUEST)|done]. }
  destruct (hello_delivered s _ p _ _ _ Hok Hrun (Hfate (clock (network u))) Hdr Hrec Hdec Hq)
    as (server & body & out & sk & s' & Hdel & Hok' & Hva & Hea & Hbody & Hsk & Hsess & Hcl & Hdr' & Hb & Htr & Hk').
  rewrite Hdel. cbn [mret stateful_ret]. rewrite bind_run. unfold UdpBackend.receive.
  cbn [inbox set_network target receive_loop fmap list_fmap].
  rewrite Hkey. erewrite on_hello_answer by (first [exact Hva|exact Hea|done]).
  rewrite <- Hkey in *.
  eexists server, body, _, sk, _. split; [done|]. by split_and!; try congruence.
Qed.

(** The handshake on a link that delivers: both ends hold the same new session. *)
Lemma handshake_perfect (u : UdpBackend (Link B)) s :
  linked u s -> client_ok u ->
  exists u' s' x', _handshake u = (Ok tt, u') /\ synced u' s' x' /\
    backend s' = backend s /\ transfer s' = None /\ same_settings u u'.
Proof.
  intros Hlk Hu. unfold _handshake. rewrite bind_run. unfold randbits. cbn [randbits32 link_network].
  set (client := nonce (network u) (clock (network u))).
  assert (Hc : 0 <= client < 2 ^ 32) by apply (linked_nonce u s Hlk).
  rewrite bind_run. cbn [modify]. rewrite bind_run. cbn [get].
  match goal with |- context [set_request_id _ (set_network ?n ?i u)] => set (u1 := set_network n i u) end.
  set (rid := next_request_id _).
  assert (Hrid : 0 < rid < 65536) by apply next_request_id_range.
  assert (Hlk1 : linked (set_request_id rid u1) s) by (by destruct Hlk).
  assert (Hu1 : client_ok (set_request_id rid u1)) by (by destruct Hu).
  assert (Hset : same_settings u (set_request_id rid u1)) by by split_and!.
  clearbody u1 client rid. set (u2 := set_request_id rid u1) in *.
  destruct (hello_request_Ok client Hc) as (bs & Hbs & Hbl). rewrite Hbs, bind_run. cbn [lift].
  rewrite bind_run, new_packet_valid by (apply valid_packet_spec; cbn; lia). cbn [lift]. rewrite bind_run.
  destruct (hello_exchange u2 s client rid bs Hlk1 Hu1 Hc Hrid Hbs)
    as (server & body & last & sk & u3 & Hrun & Hbody & Hlast & Hsk & Hm & Hlk3 & Htr & Hb & Hx).
  change (_request_id u2) with rid. rewrite Hrun, bind_run. cbn [fst snd]. rewrite Hbody. cbn [lift].
  cbn [HelloResponse.client_nonce HelloResponse.session_id HelloResponse.server_nonce].
  rewrite Hlast, !Z.eqb_refl. cbn [negb orb]. rewrite bind_run, Hsk. cbn [lift modify].
  destruct Hlk3 as [_ Hal Ht Hok Hrn Hdr Hfate Hnonce Hin Hop Hret Hkey].
  destruct Hm as (Eu & Ea & Eb & _).
  eexists _, (agent (network u3)), (mkSession (bridge_address (network u2)) (hello_id client server) sk None [] []).
  split; [done|]. split; [|split; [done|split; [done|]]].
  - assert (Eid : _request_id u3 = rid) by (rewrite Eu; done).
    split; try done.
    + split; try done. intros n. apply delivers_steady, Hfate.
    + change (0 < _request_id u3 < 65536). by rewrite Eid.
    + change (recent (_request_id u3) []). rewrite Eid. by apply recent_start.
    + by left.
  - etrans; [exact Hset|]. rewrite Eu. by split_and!.
Qed.
End Handshake.
