(* ===== verification/Retry.v ===== *)
(** * Retries reach their end

    The other half of [Exchange.v]: a link that loses and duplicates as it likes
    does not keep a request from being answered once, in any one of the client's
    attempts, its datagrams get through and their answers come back.  What was
    delivered in earlier attempts, part of the request or all of it, does no harm. *)
From S2P Require Import Prelude Dict Struct Crc Crypto PyText Constants Packet Messages Errors.
From S2P Require Import State Backend MemoryBackend UdpBackend UdpSafety.
From S2P Require Import AgentServer AgentInvariant AgentSafety AgentTransfer Link Exchange ReliableLink.
From S2P Require Models.

Section Retry.
Context {B : Type} `{Backend B}.
Context (Hsmall : small_screens (B:=B)).
Context (s0 : UdpAgentServer B) (x0 : _Session) (o : Opcode.t) (id : Z) (data : bytes).
Context (Hs0 : server_ok s0) (Hx0 : session s0 = Some x0) (Hclosed : closed s0 = false).
Context (Hlen : len data <= MAX_MESSAGE_SIZE) (Hid : 0 < id < 65536).
Context (Hcache : dict_get id (response_cache x0) = None) (Hreplay : replayed x0 id = false).
Context (Hdrop : dropping s0 = false) (Hreturns : returns o data s0).

Local Abbreviation datagram_of := (request_datagram x0 o id data).
Local Abbreviation req_ := (req x0 o id data).
Local Abbreviation total_ := (total data).
Local Abbreviation on_link_ := (on_link s0 x0 o id data).
Local Abbreviation executed_ := (executed s0 x0 o id data).
Local Abbreviation rep_ := (rep x0 o id).

(** ** The client's side: a queue that holds the whole reply ends the wait *)

(** [d] is the fragment [i] of the reply. *)
Definition reply_of (g : execution (B:=B)) (d : bytes) (i : Z) : Prop :=
  0 <= i < rep_total g /\ valid_packet (rep_ g i) /\ encoded (rep_ g i) (session_key x0) d.

Lemma reply_of_inj g d i j : reply_of g d i -> reply_of g d j -> i = j.
Proof using.
  intros (_ & Hvi & Hi) (_ & Hvj & Hj).
  pose proof (decode_encoded _ _ _ [] Hvi Hi (or_introl eq_refl)) as Di.
  rewrite (decode_encoded _ _ _ [] Hvj Hj (or_introl eq_refl)) in Di.
  apply Ok_inj, (f_equal fragment_index) in Di. done.
Qed.

(** A wait that goes on has seen fragments of the reply that were not all. *)
Lemma receive_waiting g s to arrived e e' rest :
  executed_ g s -> Forall (expected_datagram x0 o id data (Executed g) to) arrived ->
  some_replies x0 o id g e ->
  receive_loop to (session_key x0) (req_ 0) arrived e = (Ok (Waiting e'), rest) ->
  some_replies x0 o id g e' /\ dict_keys (received e) ⊆ dict_keys (received e') /\
  (len (received e) <> rep_total g -> len (received e') <> rep_total g) /\
  forall d i, (to, d) ∈ arrived -> d ∈ ex_datagrams g -> reply_of g d i ->
    i ∈ dict_keys (received e') /\ len (received e') <> rep_total g.
Proof using Hs0 Hx0 Hid.
  intros Hg. revert e. induction arrived as [|[from d] arrived IH]; intros e Hin He; cbn [receive_loop].
  { intros [= <- <-]. do 3 (split; [done|]). intros d i Hd. by apply elem_of_nil in Hd. }
  apply Forall_cons in Hin as [Hhead Hrest].
  destruct (decide (from = to /\ d ∈ ex_datagrams g)) as [[-> Hd]|Hother].
  2: { destruct Hhead as [Hh|Hd]; [|destruct Hother; exact Hd]. cbn [fst snd] in Hh.
       destruct (Hh e) as (e1 & Hon & Hrec). cbn [fst snd] in Hon. rewrite Hon. intros Hloop.
       apply IH in Hloop as (Hs' & Hk & Hn & Hr); [|done|unfold some_replies in *; by rewrite Hrec].
       rewrite <- Hrec. do 3 (split; [done|]).
       intros d' i [[= <- <-]|Hd']%elem_of_cons; [intros Hd'; by destruct Hother|by apply Hr]. }
  assert (Hon : forall i, reply_of g d i ->
    on_datagram to (session_key x0) (req_ 0) to d e = take_reply x0 o id g i e).
  { intros i (Hi & Hv & Henc). by eapply on_reply. }
  destruct (reply_datagram s0 x0 o id data Hs0 Hx0 Hid g s d Hg Hd) as (i & Hi).
  rewrite (Hon i Hi). unfold take_reply in Hon |- *.
  assert (Hreply := proj1 (proj2 (proj2 Hg))).
  destruct (ex_kind g) eqn:Ek.
  - exfalso. unfold reply in Hreply. destruct (ex_result g) as [[b|]|err]; by destruct Hreply.
  - cbv zeta in *. destruct (len (dict_set i (rep_ g i) (received e)) =? rep_total g) eqn:El; [done|].
    intros Hloop. set (e1 := mkExchange _ _ _) in Hloop.
    apply IH in Hloop as (Hs' & Hk & Hn & Hr); [|done|by apply some_replies_set; [|apply Hi]].
    apply Z.eqb_neq in El. specialize (Hn El). cbn [received e1] in Hk. rewrite dict_set_keys in Hk.
    assert (Hsub : dict_keys (received e) ⊆ dict_keys (received e') /\ i ∈ dict_keys (received e')).
    { case_decide; split; [done|by apply Hk| |apply Hk, elem_of_app; right; left].
      intros j Hj. apply Hk, elem_of_app. by left. }
    destruct Hsub as [Hsub Hin'].
    do 3 (split; [done|]). intros d' j [[= ->]|Hd']%elem_of_cons; [|by apply Hr]. intros _ Hj.
    by rewrite (reply_of_inj g d j i Hj Hi).
  - destruct (error_reply s0 x0 o id data g s Hg Ek) as (err & -> & _). done.
Qed.

Lemma reply_total_positive g s : executed_ g s -> 0 < rep_total g.
Proof using.
  intros Hg. unfold rep_total. assert (Hb : len (ex_body g) <= MAX_MESSAGE_SIZE) by apply Hg.
  pose proof (fragment_total_bound _ Hb). lia.
Qed.

(** Every fragment of the reply is one of its datagrams. *)
Lemma reply_fragment g s i :
  executed_ g s -> 0 <= i < rep_total g -> exists d, d ∈ ex_datagrams g /\ reply_of g d i.
Proof using Hs0 Hx0 Hid.
  intros Hg Hi. pose proof (reply_datagrams s0 x0 o id data Hs0 Hx0 Hid g s Hg) as Hf.
  destruct (Forall2_lookup_l _ _ _ (Z.to_nat i) i Hf) as (d & Hd & _ & He).
  { rewrite lookup_seqZ_lt by lia. f_equal. lia. }
  exists d. split; [by eapply list_elem_of_lookup_2|]. split; [done|]. split; [|done].
  assert (Hl : len (ex_body g) <= MAX_MESSAGE_SIZE) by apply Hg.
  pose proof (sid_range s0 x0 Hs0 Hx0). apply fragment_valid; unfold rep_total in *; (done || lia).
Qed.

Lemma receive_complete g s to arrived e e' rest :
  executed_ g s -> Forall (expected_datagram x0 o id data (Executed g) to) arrived ->
  some_replies x0 o id g e -> (forall d, d ∈ ex_datagrams g -> (to, d) ∈ arrived) ->
  receive_loop to (session_key x0) (req_ 0) arrived e <> (Ok (Waiting e'), rest).
Proof using Hs0 Hx0 Hid.
  intros Hg Hin He Hall Hloop.
  destruct (receive_waiting g s to arrived e e' rest Hg Hin He Hloop) as ([Hok Hr] & _ & _ & Hk).
  assert (Hkeys : forall i, 0 <= i < rep_total g -> i ∈ dict_keys (received e') /\ len (received e') <> rep_total g).
  { intros i Hi. destruct (reply_fragment g s i Hg Hi) as (d & Hd & Hdi). by apply (Hk d); [apply Hall| |]. }
  pose proof (reply_total_positive g s Hg) as Hpos. destruct (Hkeys 0) as [_ Hne]; [lia|]. apply Hne.
  rewrite <- len_dict_keys. assert (Hp : dict_keys (received e') ≡ₚ seqZ 0 (rep_total g)).
  { apply NoDup_Permutation; [exact Hok|apply NoDup_seqZ|]. intros i. rewrite elem_of_seqZ. split.
    - intros (ip & -> & Hip)%list_elem_of_fmap. rewrite Forall_forall in Hr. apply Hr in Hip. lia.
    - intros Hi. apply Hkeys. lia. }
  unfold len. rewrite Hp, length_seqZ. lia.
Qed.

(** ** The agent's side: an attempt that gets through ends in a full queue *)

(** All answers are in the client's queue. *)
Definition answered (g : execution (B:=B)) (u : UdpBackend (Link B)) : Prop :=
  forall d, d ∈ ex_datagrams g -> (target u, d) ∈ inbox u.

Lemma send_one ph u i d :
  on_link_ ph u -> datagram_of i d -> delivers (fate (network u) (clock (network u))) ->
  exists ph' u', UdpBackend.sendto d u = (Ok tt, u') /\ on_link_ ph' u' /\ evolves ph ph' /\
    link_moved u u' /\
    match ph' with
    | Filing fs' => exists fs, ph = Filing fs /\ fs' = dict_set i (req_ i) fs /\ len fs' <> total_
    | Executed g => answered g u'
    end.
Proof using Hsmall Hs0 Hx0 Hclosed Hlen Hid Hcache Hreplay Hdrop Hreturns.
  intros (Hal & Hb & Ha & Hph & Hst & Hin) Hd (ent & Hfate & Hent).
  destruct (deliver_phase Hsmall s0 x0 o id data Hs0 Hx0 Hclosed Hlen Hid Hcache Hreplay Hreturns ph _
    i d (mkDelivery ent (seq 0 32)) Hent Hph Hd) as (ph' & s' & out & Hdel & Hph' & Hev & Hout & Hcase).
  assert (Hall : forall g, ph' = Executed g -> out = ex_datagrams g -> omap (fun j => out !! j) (seq 0 32) = ex_datagrams g).
  { intros g -> ->. apply omap_lookup_all. by eapply (executed_count s0 x0 o id data). }
  unfold UdpBackend.sendto. cbn [transmit link_network]. rewrite Hal, Hb, Hfate. cbn [negb deliver_all].
  rewrite Hdel. cbn [passes]. rewrite app_nil_r. set (arrived := omap _ _) in *.
  exists ph'. eexists. split; [done|].
  assert (Hinbox : Forall (expected_datagram x0 o id data ph' (target u)) (inbox u ++ (pair (agent_address (network u)) <$> arrived))).
  { apply Forall_app. split.
    - eapply Forall_impl; [exact Hin|]. intros ad. by apply expected_evolves.
    - apply Forall_fmap. apply Forall_forall. intros e He. right. split; [exact Ha|]. cbn [snd compose].
      apply Hout. unfold arrived in He. apply list_elem_of_omap in He as (j & _ & Hj). by eapply list_elem_of_lookup_2. }
  split; [by split_and!|]. split; [done|]. split; [by split_and!|].
  assert (Hfull : forall g, ph' = Executed g -> out = ex_datagrams g -> forall d0, d0 ∈ ex_datagrams g ->
    (target u, d0) ∈ inbox u ++ (pair (agent_address (network u)) <$> arrived)).
  { intros g Eg Eo d0 Hd0. apply elem_of_app. right. rewrite (Hall g Eg Eo), Ha. by apply list_elem_of_fmap_2. }
  destruct ph as [fs|g].
  - cbv zeta in Hcase. destruct (len (dict_set i (req_ i) fs) =? total_) eqn:El.
    + destruct Hcase as (g & -> & _ & Hg). intros d0. by apply Hfull; [|apply Hg].
    + destruct Hcase as [-> _]. exists fs. split; [done|]. split; [done|]. by apply Z.eqb_neq.
  - cbn in Hev. subst ph'. intros d0. by apply Hfull.
Qed.

Lemma sendto_clock d (u u' : UdpBackend (Link B)) :
  UdpBackend.sendto d u = (Ok tt, u') -> clock (network u') = S (clock (network u)).
Proof using.
  unfold UdpBackend.sendto. cbn [transmit link_network].
  destruct (negb _); [by intros [= <-]|]. destruct (deliver_all _ _ _ _) as [[up s] arrived]. by intros [= <-].
Qed.

Lemma send_all_clock ds (u u' : UdpBackend (Link B)) :
  each UdpBackend.sendto ds u = (Ok tt, u') -> clock (network u') = (clock (network u) + length ds)%nat.
Proof using.
  revert u. induction ds as [|d ds IH]; intros u; cbn [each length]; [intros [= <-]; lia|].
  rewrite bind_run. destruct (UdpBackend.sendto d u) as [[[]|e] u1] eqn:E; [|done].
  intros Hr. rewrite (IH _ Hr), (sendto_clock _ _ _ E). lia.
Qed.

(** Before the datagram [k] of an attempt that gets through: the agent is collecting
    and has the fragments below [k], or has executed and its answers have come. *)
Definition progress (k : Z) (ph : phase) (u : UdpBackend (Link B)) : Prop :=
  match ph with
  | Filing fs => (forall i, 0 <= i < k -> i ∈ dict_keys fs) /\ (0 < k -> len fs <> total_)
  | Executed g => 0 < k -> answered g u
  end.

Lemma progress_step k ph ph' u u' :
  0 <= k -> progress k ph u ->
  match ph' with
  | Filing fs' => exists fs, ph = Filing fs /\ fs' = dict_set k (req_ k) fs /\ len fs' <> total_
  | Executed g => answered g u'
  end -> progress (k + 1) ph' u'.
Proof using.
  intros Hk Hp. destruct ph' as [fs'|g]; cbn [progress]; [|done].
  intros (fs & -> & -> & Hl). split; [|done]. intros i Hi. rewrite dict_set_keys. destruct Hp as [Hp _].
  assert (i = k \/ 0 <= i < k) as [->|Hik] by lia.
  - case_decide; [done|]. apply elem_of_app. right. left.
  - apply Hp in Hik. case_decide; [done|]. apply elem_of_app. by left.
Qed.

(** With all fragments the agent is not collecting any more. *)
Lemma progress_end ph u :
  0 < total_ -> on_link_ ph u -> progress total_ ph u -> exists g, ph = Executed g /\ answered g u.
Proof using.
  intros Ht (_ & _ & _ & Hph & _) Hp. destruct ph as [fs|g]; cbn [progress] in Hp; [|eauto].
  exfalso. destruct Hp as [Hall Hne]. apply Hne; [done|]. destruct Hph as (p & _ & _ & _ & [Hok Hf] & _).
  rewrite <- len_dict_keys. assert (Hperm : dict_keys fs ≡ₚ seqZ 0 total_).
  { apply NoDup_Permutation; [exact Hok|apply NoDup_seqZ|]. intros i. rewrite elem_of_seqZ. split.
    - intros (ip & -> & Hip)%list_elem_of_fmap. rewrite Forall_forall in Hf. apply Hf in Hip. lia.
    - intros Hi. apply Hall. lia. }
  unfold len. rewrite Hperm, length_seqZ. lia.
Qed.

Lemma send_rest ds k ph u :
  Forall2 datagram_of (seqZ k (total_ - k)) ds -> 0 <= k <= total_ -> 0 < total_ -> on_link_ ph u ->
  progress k ph u ->
  (forall j, (j < length ds)%nat -> delivers (fate (network u) (clock (network u) + j)%nat)) ->
  exists g u', each UdpBackend.sendto ds u = (Ok tt, u') /\ on_link_ (Executed g) u' /\
    evolves ph (Executed g) /\ link_moved u u' /\ answered g u'.
Proof using Hsmall Hs0 Hx0 Hclosed Hlen Hid Hcache Hreplay Hdrop Hreturns.
  revert k ph u. induction ds as [|d ds IH]; intros k ph u Hds Hk Ht Hu Hp Hfate.
  - assert (k = total_) as ->.
    { apply Forall2_length in Hds. rewrite length_seqZ in Hds. cbn in Hds. lia. }
    destruct (progress_end ph u Ht Hu Hp) as (g & -> & Ha). by exists g, u.
  - assert (Hlt : k < total_) by (apply Forall2_length in Hds; rewrite length_seqZ in Hds; cbn in Hds; lia).
    rewrite seqZ_cons in Hds by lia. apply Forall2_cons in Hds as [Hd Hds].
    destruct (send_one ph u k d Hu Hd) as (ph1 & u1 & Hrun & Hu1 & Hev1 & Hm1 & Hcase).
    { rewrite <- (Nat.add_0_r (clock (network u))). apply Hfate. cbn. lia. }
    pose proof (sendto_clock _ _ _ Hrun) as Hclock. pose proof Hm1 as (_ & _ & _ & Hf & _).
    destruct (IH (k + 1) ph1 u1) as (g & u' & Hrun' & Hu' & Hev' & Hm' & Ha); [|lia|done|done| | |].
    + by replace (total_ - (k + 1)) with (Z.pred (total_ - k)) by lia.
    + by apply (progress_step k ph ph1 u u1); [lia|..].
    + intros j Hj. rewrite Hf, Hclock. replace (S (clock (network u)) + j)%nat with (clock (network u) + S j)%nat by lia.
      apply Hfate. cbn. lia.
    + exists g, u'. cbn [each]. rewrite bind_run, Hrun. split; [done|]. split; [done|]. split; [by etrans|].
      split; [by etrans|done].
Qed.

(** ** The attempts *)

(** A wait takes note of what is in the queue, and does not go on when the whole
    reply is there. *)
Lemma receive_step ph u e :
  on_link_ ph u -> exchange_in x0 o id ph e ->
  exists r u', UdpBackend.receive (session_key x0) (req_ 0) e u = (r, u') /\ on_link_ ph u' /\
    link_moved u u' /\ clock (network u') = clock (network u) /\
    match r with
    | Ok (Waiting e') => exchange_in x0 o id ph e' /\ forall g, ph = Executed g -> ~ answered g u
    | Ok (Complete payload last) => finished ph (Ok (payload, last))
    | Err err => finished ph (Err err)
    end.
Proof using Hs0 Hx0 Hid.
  intros Hu He. pose proof Hu as (Hal & Hb & Hta & Hph & Hst & Hin). unfold UdpBackend.receive.
  destruct (receive_loop (target u) (session_key x0) (req_ 0) (inbox u) e) as [r rest] eqn:El.
  pose proof (receive_loop_phase s0 x0 o id data Hs0 Hx0 Hid ph _ _ _ _ _ _ Hph Hin He El) as [Hrest Hr].
  eexists r, _. split; [done|]. split; [by split_and!|]. split; [by split_and!|]. split; [done|].
  destruct r as [[e'|payload last]|err]; [|exact Hr..]. split; [exact Hr|]. intros g -> Ha.
  by apply (receive_complete g _ _ _ _ _ _ Hph Hin He Ha El).
Qed.

(** When the attempt [a] gets through, the attempts end with what the operation gave. *)
Lemma attempts_delivered a : forall n ds ph u e,
  (a < n)%nat -> on_link_ ph u -> Forall2 datagram_of (seqZ 0 total_) ds -> 0 < total_ ->
  exchange_in x0 o id ph e ->
  (forall j, (j < length ds)%nat ->
    delivers (fate (network u) (clock (network u) + a * length ds + j)%nat)) ->
  exists g u' res, attempts n ds (session_key x0) (req_ 0) e u = (res, u') /\
    on_link_ (Executed g) u' /\ fst <$> res = result_of (ex_result g) /\ link_moved u u'.
Proof using Hsmall Hs0 Hx0 Hclosed Hlen Hid Hcache Hreplay Hdrop Hreturns.
  induction a as [|a IH]; intros [|n] ds ph u e Hn Hu Hds Ht He Hfate; try lia; cbn [attempts].
  - assert (Hp : progress 0 ph u) by (destruct ph; cbn; [split; intros; lia|lia]).
    destruct (send_rest ds 0 ph u) as (g & u1 & Hrun & Hu1 & Hev & Hm & Ha); [by rewrite Z.sub_0_r|lia|done..| |].
    { intros j Hj. rewrite <- (Nat.add_0_r (clock _)). by apply Hfate. }
    rewrite bind_run, Hrun, bind_run.
    destruct (receive_step (Executed g) u1 e Hu1) as (r & u2 & -> & Hu2 & Hm2 & _ & Hr);
      [exact (exchange_evolves _ _ _ _ _ _ Hev He)|].
    assert (Hm' : link_moved u u2) by by etrans.
    destruct r as [[e'|payload last]|err]; [by destruct Hr as [_ []%(fun H => H g eq_refl Ha)]|..];
      destruct Hr as (g' & [= <-] & Hr); exists g, u2; eexists; by split_and!.
  - assert (Hds' : Forall (fun d => exists i, datagram_of i d) ds).
    { apply Forall_forall. intros d Hd. apply list_elem_of_lookup_1 in Hd as [j Hj].
      destruct (Forall2_lookup_r _ _ _ _ _ Hds Hj) as (i & _ & Hi). by exists i. }
    destruct (send_all_phase Hsmall s0 x0 o id data Hs0 Hx0 Hclosed Hlen Hid Hcache Hreplay Hreturns ph u ds Hu Hds')
      as (ph1 & u1 & Hrun & Hu1 & Hev & Hm).
    rewrite bind_run, Hrun, bind_run.
    destruct (receive_step ph1 u1 e Hu1) as (r & u2 & -> & Hu2 & Hm2 & Hclock & Hr);
      [exact (exchange_evolves _ _ _ _ _ _ Hev He)|].
    assert (Hm' : link_moved u u2) by by etrans.
    destruct r as [[e'|payload last]|err]; [|destruct Hr as (g & -> & Hr); exists g, u2; eexists; by split_and!..].
    destruct (IH n ds ph1 u2 e') as (g & u' & res & Hrun' & Hu' & Hres & Hm3); [lia|done..|by destruct Hr| |].
    { intros j Hj. pose proof Hm' as (_ & _ & _ & Hf & _). rewrite Hf, Hclock, (send_all_clock _ _ _ Hrun).
      replace (clock (network u) + length ds + a * length ds + j)%nat
        with (clock (network u) + S a * length ds + j)%nat by lia. by apply Hfate. }
    exists g, u', res. split; [done|]. split; [done|]. split; [done|by etrans].
Qed.
End Retry.

(** ** A request of the client *)
Section Request.
Context {B : Type} `{Backend B}.

(** From the clock [c] on, the [n] datagrams of an attempt are handed over once each,
    and the answers to them all come back. *)
Definition gets_through (l : Link B) (c n : nat) : Prop :=
  forall j, (j < n)%nat -> delivers (fate l (c + j)%nat).

(** C7. A request whose operation returns or raises is answered as soon as one attempt gets
    through.  Whatever the link loses,
    duplicates and reorders in the other attempts, and whatever they left at the agent,
    some fragments of the request, all of them, or its execution: if in one of the
    [retries + 1] attempts the datagrams are delivered and their answers come back, then
    [_request] does not time out; it returns, or raises, exactly what the operation gave,
    and the operation has been executed once, on the state the exchange began with. *)
Theorem request_completes o data u s x a :
  small_screens (B:=B) -> joined u s x -> fresh u x o (next_request_id (_request_id u)) data ->
  len data <= MAX_MESSAGE_SIZE -> dropping s = false -> returns o data s ->
  (Z.of_nat a <= _retries u) ->
  (let n := Z.to_nat (fragment_total data) in
   gets_through (network u) (clock (network u) + a * n) n) ->
  exists r ent p s1 u',
    _request o data u = (result_of r, u') /\
    operation ent (set_pending p x) o (next_request_id (_request_id u)) data
      (AgentServer.set_session (Some (set_pending p x)) s) = (r, s1) /\
    backend (agent (network u')) = backend s1 /\ transfer (agent (network u')) = transfer s1.
Proof.
  intros Hsmall Hj Hf Hl Hdrop Hret Ha Hthrough. destruct (request_unfold o data u s x Hj Hl) as (ds & Hds & Hreq).
  set (id := next_request_id (_request_id u)) in *. rewrite Hreq.
  pose proof (next_request_id_range (_request_id u)) as Hid. fold id in Hid.
  destruct Hf as [Hc Hw Hp Hin]. pose proof Hj as [Hag Hal Hst Hb Ht Ho Hk Hi Hok Hx Hrun].
  pose proof (fragment_total_bound data Hl) as Htot.
  assert (Hn : length ds = Z.to_nat (fragment_total data)) by (apply Forall2_length in Hds; by rewrite <- Hds, length_seqZ).
  assert (Hlink : on_link s x o id data (Filing []) (set_request_id id u)).
  { split_and!; try done. - cbn. rewrite Hag. by apply filing_start.
    - eapply Forall_impl; [exact Hin|]. intros ad Had. by left. }
  destruct (attempts_delivered Hsmall s x o id data Hok Hx Hrun Hl Hid Hc Hw Hdrop Hret a
    (Z.to_nat (_retries u + 1)) ds (Filing []) (set_request_id id u) (mkExchange [] 0 []))
    as (g & u' & res & -> & (_ & _ & _ & Hg & _) & Hres & _); try done; [lia|unfold total; lia| |].
  { intros j Hlt. rewrite Hn in *. by apply Hthrough. }
  destruct Hg as (_ & Hop & _ & _ & _ & _ & _ & Hb' & Ht' & _).
  exists (ex_result g), (ex_entropy g), (ex_pending g), (ex_state g), u'.
  rewrite <- Hres. split; [by destruct res|done].
Qed.
End Request.

(** A link that loses the first attempt's datagram, delivers the second twice without
    an answer coming back, and delivers from the third on. *)
Definition flaky (n : nat) : list delivery :=
  match n with
  | 0%nat => []
  | 1%nat => [mkDelivery sample_entropy []; mkDelivery sample_entropy []]
  | _ => [mkDelivery sample_entropy (seq 0 32)]
  end.

Lemma flaky_steady n : steady (flaky n).
Proof.
  destruct n as [|[|n]]; [apply Forall_nil_2|..];
    repeat (apply Forall_cons_2; [exact sample_entropy_ok|]); apply Forall_nil_2.
Qed.

Definition flaky_client : UdpBackend (Link desk) :=
  mkUdp (mkLink greeted true bridge agent_at flaky (fun _ => 1) 0) [] agent_at TEST_KEY 3 true true
    (hello_id 1 0x01020304) (Some sample_session_key) 5 false.

Lemma request_completes_witness :
  exists r ent p s1 u',
    _request Opcode.PING [x2a] flaky_client = (result_of r, u') /\
    operation ent (set_pending p greeted_session) Opcode.PING (next_request_id 5) [x2a]
      (AgentServer.set_session (Some (set_pending p greeted_session)) greeted) = (r, s1) /\
    backend (agent (network u')) = backend s1 /\ transfer (agent (network u')) = transfer s1.
Proof.
  apply (request_completes Opcode.PING [x2a] flaky_client greeted greeted_session 2).
  - by intros b screen b' [= <- _].
  - assert (server_ok greeted) by (apply ok_handle_datagram; [apply sample_entropy_ok|by apply (new_server_ok empty_desk TEST_KEY false)]).
    split; lazymatch goal with
    | |- forall n, steady _ => exact flaky_steady
    | _ => first [done|vm_compute; reflexivity]
    end.
  - split; [by vm_compute..|constructor].
  - by vm_compute.
  - by vm_compute.
  - by intros ent x id s _ _ _ _.
  - by vm_compute.
  - intros n [|j] Hj; [|change (S j < 1)%nat in Hj; lia].
    exists sample_entropy. split; [by vm_compute|apply sample_entropy_ok].
Defined.
