(* ===== verification/ScreenWire.v ===== *)
(** * Screens on the wire

    The agent sends a text screen as character and attribute bytes, the client
    reads them back: what arrives is the screen with its characters as CP437
    shows them and its fields as the wire carries them ([shown]). *)
From S2P Require Import Prelude Dict Struct Crc PyText Constants Packet Messages.
From S2P Require Import State Backend UdpBackend AgentServer AgentInvariant.
From S2P Require Models.

(** A row of cells: character and attribute alternate. *)
Fixpoint interleave (chars : bytes) (attrs : list Z) : bytes :=
  match chars, attrs with
  | c :: chars, a :: attrs => c :: z2b a :: interleave chars attrs
  | _, _ => []
  end.

Lemma evens_interleave chars attrs :
  length chars = length attrs -> evens (interleave chars attrs) = chars.
Proof.
  revert attrs. induction chars as [|c chars IH]; intros [|a attrs] Hl; try done.
  cbn [interleave evens]. f_equal. apply IH. by injection Hl.
Qed.

Lemma odds_interleave chars attrs :
  length chars = length attrs -> odds (interleave chars attrs) = z2b <$> attrs.
Proof.
  revert attrs. induction chars as [|c chars IH]; intros [|a attrs] Hl; try done.
  injection Hl as Hl. cbn [interleave odds evens fmap list_fmap].
  destruct chars as [|c' chars], attrs as [|a' attrs]; try done.
  specialize (IH (a' :: attrs) Hl). cbn [interleave odds fmap list_fmap] in *. by rewrite IH.
Qed.

Lemma length_interleave chars attrs :
  length chars = length attrs -> len (interleave chars attrs) = 2 * len chars.
Proof.
  revert attrs. unfold len. induction chars as [|c chars IH]; intros [|a attrs] Hl; try done.
  injection Hl as Hl. specialize (IH attrs Hl). cbn [interleave length]. lia.
Qed.

Lemma zip_strict_zip {A C} (l : list A) (k : list C) :
  length l = length k -> zip_strict l k = Ok (zip l k).
Proof.
  revert k. induction l as [|x l IH]; intros [|y k] Hl; try done. injection Hl as Hl.
  cbn [zip_strict]. by rewrite IH.
Qed.

Lemma cells_interleave chars attrs :
  length chars = length attrs -> Forall (fun v => 0 <= v <= 255) attrs ->
  (cells ← map_result cell_bytes (zip chars attrs); Ok (concat cells)) = Ok (interleave chars attrs).
Proof.
  revert attrs. induction chars as [|c chars IH]; intros [|a attrs] Hl Hf; try done.
  injection Hl as Hl. apply Forall_cons in Hf as [Ha Hf]. specialize (IH attrs Hl Hf).
  assert (Hc : cell_bytes (c, a) = Ok [c; z2b a]) by (unfold cell_bytes; cbn; by rewrite raise_if_false by lia).
  cbn [zip zip_with map_result]. rewrite Hc. cbn [mbind result_bind] in IH |- *.
  destruct (map_result cell_bytes (zip chars attrs)) as [cells|e]; [|done].
  cbn [mbind result_bind interleave] in *. injection IH as <-. done.
Qed.

(** ** Rows of equal length *)
Lemma slice_rows_from {A} (rows : list (list A)) (pre : list A) w :
  0 <= w -> Forall (fun r => len r = w) rows ->
  (fun i => slice (pre ++ concat rows) (len pre + i * w) (len pre + i * w + w)) <$> seqZ 0 (len rows) = rows.
Proof.
  intros Hw Hf. revert pre. induction Hf as [|r rows Hr Hf IH]; intros pre; [done|].
  replace (len (r :: rows)) with (1 + len rows) by (unfold len; cbn [length]; lia).
  rewrite seqZ_cons by (pose proof (len_nonneg rows); lia). rewrite fmap_cons. f_equal.
  - rewrite Z.mul_0_l, Z.add_0_r. unfold slice.
    replace (Z.to_nat (len pre)) with (length pre) by (unfold len; lia). rewrite drop_app_length.
    replace (Z.to_nat (len pre + w) - length pre)%nat with (length r) by (unfold len in *; lia).
    cbn [concat]. by rewrite take_app_length.
  - rewrite <- (IH (pre ++ r)) at 2. replace (Z.succ 0) with (1 + 0) by lia.
    replace (Z.pred (1 + len rows)) with (len rows) by lia.
    rewrite <- fmap_add_seqZ, <- list_fmap_compose. apply list_fmap_ext. intros j i _. unfold compose.
    cbn [concat]. rewrite app_assoc, len_app, Hr. f_equal; lia.
Qed.

Lemma slice_rows {A} (rows : list (list A)) w :
  0 <= w -> Forall (fun r => len r = w) rows ->
  (fun i => slice (concat rows) (i * w) (i * w + w)) <$> seqZ 0 (len rows) = rows.
Proof. intros Hw Hf. rewrite <- (slice_rows_from rows [] w Hw Hf) at 2. done. Qed.

(** ** The screen that arrives *)
Definition wire_adapter (name : pystr) : Adapter.t :=
  default Adapter.UNKNOWN (table_get name
    [(py "MDA", Adapter.MDA); (py "CGA", Adapter.CGA); (py "EGA", Adapter.EGA);
     (py "VGA", Adapter.VGA); (py "linux-pty", Adapter.LINUX_PTY)]).

(** The text as CP437 has it. *)
Definition cp437_text (row : pystr) : pystr := cp437_decode (cp437_encode_replace row).

(** The cursor after the wire, which carries no visibility: the scanlines that are not
    known are zero, and the cursor is visible when they are in order, whether or not it
    was.  Only the position is sure to be unchanged. *)
Definition shown_cursor (c : Models.Cursor) : Models.Cursor :=
  let first := default 0 (Models.start_scanline c) in
  let last := default 0 (Models.end_scanline c) in
  Models.mkCursor (Models.cursor_row c) (Models.cursor_column c) (first <=? last) (Some first) (Some last).

Definition shown (s : Models.TextScreen) : Models.TextScreen :=
  let mode := default 0xFF (Models.screen_video_mode s) in
  Models.mkTextScreen (Models.columns s) (Models.rows s) (cp437_text <$> Models.text s)
    (Models.attributes s) (shown_cursor (Models.cursor s)) (Z.land (Models.generation s) 0xFFFF)
    (adapter_name (wire_adapter (Models.screen_adapter s)))
    (if mode =? 0xFF then None else Some mode) (Models.active_page s) (py "CP437") true.

(** A screen whose fields fit the wire's. *)
Definition fits_wire (s : Models.TextScreen) : Prop :=
  Models.columns s <= 255 /\ Models.rows s <= 255 /\
  0 <= default 0xFF (Models.screen_video_mode s) < 256 /\ 0 <= Models.active_page s < 256 /\
  0 <= default 0 (Models.start_scanline (Models.cursor s)) < 256 /\
  0 <= default 0 (Models.end_scanline (Models.cursor s)) < 256.

Definition cell_rows (s : Models.TextScreen) : list bytes :=
  zip_with (fun row attrs => interleave (cp437_encode_replace row) attrs)
    (Models.text s) (Models.attributes s).

Section Shown.
Context (s : Models.TextScreen) (Hs : Models.well_formed_screen s).

Lemma rows_zip : Forall2 (fun (row : pystr) attrs => len row = Models.columns s /\
    len attrs = Models.columns s /\ Forall (fun v => 0 <= v <= 255) attrs)
  (Models.text s) (Models.attributes s).
Proof using Hs.
  destruct Hs as (_ & _ & Ht & Ha & Hrt & Hra & _ & _ & Hv).
  apply Forall2_same_length_lookup_2; [unfold len in *; lia|].
  intros i row attrs Hrow Hattrs. rewrite Forall_lookup in Hrt, Hra, Hv.
  by split_and!; [eapply Hrt|eapply Hra|eapply Hv].
Qed.

Lemma encoded_row (row : pystr) (attrs : list Z) :
  len row = Models.columns s -> len attrs = Models.columns s ->
  length (cp437_encode_replace row) = length attrs.
Proof using. rewrite length_cp437_encode_replace. unfold len. lia. Qed.

Lemma screen_cells_rows : screen_cells s = Ok (concat (cell_rows s)).
Proof using Hs.
  unfold screen_cells, cell_rows. rewrite zip_strict_zip.
  2: { destruct Hs as (_ & _ & Ht & Ha & _). unfold len in *. lia. }
  cbn [mbind result_bind].
  match goal with |- (cells ← ?m; _) = Ok (concat ?rows) => assert (m = Ok rows) as ->; [|done] end.
  induction rows_zip as [|row attrs rows attrss (Hr & Ha & Hv) _ IH]; [done|].
  cbn [zip zip_with map_result fst snd]. pose proof (encoded_row row attrs Hr Ha) as Hl.
  rewrite zip_strict_zip by done. cbn [mbind result_bind]. rewrite cells_interleave by done.
  cbn [mbind result_bind]. by rewrite IH.
Qed.

Lemma cell_rows_width : Forall (fun r => len r = Models.columns s * 2) (cell_rows s).
Proof using Hs.
  unfold cell_rows. induction rows_zip as [|row attrs rows attrss (Hr & Ha & Hv) _ IH]; [constructor|].
  cbn [zip_with]. constructor; [|done]. rewrite length_interleave by by apply encoded_row.
  unfold len in *. rewrite length_cp437_encode_replace. lia.
Qed.

Lemma cell_rows_count : len (cell_rows s) = Models.rows s.
Proof using Hs.
  destruct Hs as (_ & _ & Ht & Ha & _). unfold cell_rows, len in *. rewrite length_zip_with. lia.
Qed.

Lemma read_rows :
  (fun r => (cp437_decode (evens r), b2z <$> odds r)) <$> cell_rows s =
  zip (cp437_text <$> Models.text s) (Models.attributes s).
Proof using Hs.
  unfold cell_rows. induction rows_zip as [|row attrs rows attrss (Hr & Ha & Hv) _ IH]; [done|].
  cbn [zip_with fmap list_fmap zip]. pose proof (encoded_row row attrs Hr Ha) as Hl.
  rewrite evens_interleave, odds_interleave by done. rewrite <- list_fmap_compose.
  assert (b2z ∘ z2b <$> attrs = attrs) as ->; [|by rewrite IH].
  clear -Hv. induction Hv as [|v attrs Hv _ IH]; [done|]. rewrite fmap_cons, IH. f_equal.
  apply b2z_z2b_small. lia.
Qed.

Lemma len_concat_width {A} (rows : list (list A)) w :
  Forall (fun r => len r = w) rows -> len (concat rows) = len rows * w.
Proof using.
  induction 1 as [|r rows Hr _ IH]; [done|]. cbn [concat]. rewrite len_app, IH, Hr.
  unfold len. cbn [length]. lia.
Qed.

(** A well-formed screen that fits the wire is sent, and arrives as [shown]. *)
Lemma screen_arrives_shown :
  fits_wire s ->
  exists m, _screen_message s = Ok m /\ ScreenMessage.valid m /\
    ScreenMessage.columns m = Models.columns s /\ ScreenMessage.rows m = Models.rows s /\
    screen_of_message m = Ok (shown s).
Proof using Hs.
  intros (Hc & Hr & Hmode & Hpage & Hfirst & Hlast).
  unfold _screen_message. rewrite screen_cells_rows. cbn [mbind result_bind].
  eexists. split; [done|]. pose proof (land_mask16_range (Models.generation s)) as Hg.
  pose proof Hs as (Hc1 & Hr1 & Ht & Ha & Hrt & Hra & Hrow & Hcol & Hv).
  pose proof cell_rows_count as Hn. pose proof cell_rows_width as Hw.
  split; [|split; [done|split; [done|]]].
  - unfold ScreenMessage.valid.
    cbn [ScreenMessage.columns ScreenMessage.rows ScreenMessage.cells ScreenMessage.cursor_row
      ScreenMessage.cursor_column].
    rewrite (len_concat_width _ _ Hw), Hn. split_and!; try lia.
    fold (wire_adapter (Models.screen_adapter s)). destruct (wire_adapter (Models.screen_adapter s)).
    all: unfold fits; cbn; unfold int_of; cbn; lia.
  - unfold screen_of_message, screen_rows.
    cbn [ScreenMessage.columns ScreenMessage.rows ScreenMessage.cells].
    set (f := fun r => (cp437_decode (evens r), b2z <$> odds r)).
    assert (Hrows : (fun index => f (slice (concat (cell_rows s)) (index * Models.columns s * 2)
      (index * Models.columns s * 2 + Models.columns s * 2))) <$> seqZ 0 (Models.rows s) =
      zip (cp437_text <$> Models.text s) (Models.attributes s)).
    { rewrite <- read_rows. fold f.
      pose proof (slice_rows (cell_rows s) (Models.columns s * 2) ltac:(lia) Hw) as Hsl.
      apply (f_equal (fmap f)) in Hsl. rewrite Hn, <- list_fmap_compose in Hsl. rewrite <- Hsl.
      apply list_fmap_ext. intros i j _. unfold compose. by rewrite Z.mul_assoc. }
    subst f. cbv beta zeta in Hrows. cbv zeta. rewrite Hrows.
    rewrite fst_zip, snd_zip by (rewrite length_fmap; unfold len in *; lia).
    unfold Models.new_text_screen.
    match goal with |- (_ ← Models.text_screen_check ?t; _) = _ =>
      change t with (shown s); rewrite (proj2 (Models.text_screen_check_Ok (shown s) tt)); [done|] end.
    unfold Models.well_formed_screen. cbn. split_and!; try first [done|lia|rewrite len_fmap; done].
    apply Forall_fmap. eapply Forall_impl; [exact Hrt|]. intros row Hlen. unfold compose, cp437_text, len in *.
    by rewrite length_cp437_decode, length_cp437_encode_replace.
Qed.
End Shown.
