(* ===== verification/Remote.v ===== *)
(** * The machine seen through the link

    The client's operations on a link that delivers, against the machine the
    agent serves: each operation of [UdpBackend] gives what the agent's backend
    gives for the same call, made once, with the values the wire carries.  The
    first request opens the session. *)
From Stdlib Require Import Floats.SpecFloat.
From S2P Require Import Prelude Dict Struct Crc Crypto PyText Constants Packet Messages Errors.
From S2P Require Import State Backend MemoryBackend UdpBackend UdpSafety.
From S2P Require Import AgentServer AgentInvariant AgentSafety AgentTransfer Link Exchange ReliableLink ScreenWire.
From S2P Require Models.

Section Remote.
Context {B : Type} `{Backend B}.
Context (Hsmall : small_screens (B:=B)).

(** The client is in touch with an agent whose backend is [b] and whose transfer
    is [t]: in session, or about to open one (which drops any transfer). *)
Definition in_touch (u : UdpBackend (Link B)) (b : B) (t : option _Transfer) : Prop :=
  exists s, backend s = b /\
    ((t = None /\ linked u s /\ client_ok u /\ _session_key u = None) \/
     (transfer s = t /\ exists x, synced u s x)).

(** A new client and a new server on a link that delivers are in touch. *)
Lemma new_in_touch (n : Link B) b k timeout retries r w first_id u :
  new_udp n (agent_address n) k timeout retries r w first_id = Ok u ->
  new_server b k false = Ok (agent n) -> 0 <= first_id < 65535 -> alive n = true ->
  (forall i, delivers (fate n i)) -> (forall i, 0 <= nonce n i < 2 ^ 32) -> in_touch u b None.
Proof using.
  intros Hu Hs Hf Hal Hfate Hnonce. pose proof (new_udp_ok _ _ _ _ _ _ _ _ u Hf Hu) as Hok.
  pose proof (new_server_ok _ _ _ _ Hs) as Hsok. unfold new_server in Hs. apply new_udp_Ok in Hu as (? & ? & ->).
  destruct n as [s up bridge_at agent_at fates nonces now]. cbn in *. inv_ok.
  exists (mkServer b k None false false None false []). split; [done|]. left.
  split; [done|]. split; [|done]. split; try done.
Qed.

(** A request without a session is the handshake and then the request. *)
Lemma request_after_handshake o data (u u' : UdpBackend (Link B)) k :
  _closed u = false -> _session_key u = None -> _handshake u = (Ok tt, u') ->
  _closed u' = false -> _session_key u' = Some k -> _request o data u = _request o data u'.
Proof.
  intros Ho Hk Hh Ho' Hk'. unfold _request.
  rewrite !(bind_run _ _ u), !(bind_run _ _ u'), !ensure_open_run, Ho, Ho'.
  rewrite !(bind_run _ _ u), !(bind_run _ _ u'). cbn [gets]. rewrite Hk, Hk'.
  rewrite (bind_run _ _ u), Hh. by rewrite ret_bind_run.
Qed.

Lemma request_in_touch o data (u : UdpBackend (Link B)) b t :
  in_touch u b t -> len data <= MAX_MESSAGE_SIZE ->
  (forall s, backend s = b -> transfer s = t -> returns o data s) ->
  exists ent x id s r s1 u', entropy_ok ent /\ server_ok s /\ backend s = b /\ transfer s = t /\
    operation ent x o id data s = (r, s1) /\ _request o data u = (result_of r, u') /\
    in_touch u' (backend s1) (transfer s1) /\ same_settings u u'.
Proof using Hsmall.
  intros (s & Hb & Hup) Hl Hret.
  assert (exists u0 s0 x0, _request o data u = _request o data u0 /\ synced u0 s0 x0 /\
    backend s0 = b /\ transfer s0 = t /\ same_settings u u0) as (u0 & s0 & x0 & Hreq & Hs & Hb0 & Ht0 & Hset).
  { destruct Hup as [(-> & Hlk & Hu & Hk)|(Ht & x & Hs)]; [|by exists u, s, x].
    destruct (handshake_perfect u s Hlk Hu) as (u0 & s0 & x0 & Hh & Hs & Hb0 & Ht0 & Hset).
    exists u0, s0, x0. rewrite Hb0. split_and!; try done.
    pose proof (synced_joined _ _ _ Hs) as Hj.
    eapply request_after_handshake; [apply Hlk|done|done|apply Hj|apply Hj]. }
  destruct (request_perfect o data u0 s0 x0 Hsmall Hs Hl (Hret s0 Hb0 Ht0))
    as (ent & r & s1 & u' & s' & x' & Hent & Hop & Hrun & Hs' & Hb' & Ht' & Hset').
  exists ent, x0. eexists _, s0, r, s1, u'. split; [done|].
  split; [apply (synced_joined _ _ _ Hs)|]. split; [done|]. split; [done|]. split; [exact Hop|].
  split; [by rewrite Hreq|]. split; [|by etrans].
  exists s'. split; [done|]. right. split; [done|]. by exists x'.
Qed.

(** The same from what the operation does on every such agent, if it ends. *)
Lemma request_refines o data (u : UdpBackend (Link B)) b t
    (P : result (option bytes) -> B -> option _Transfer -> Prop) :
  in_touch u b t -> len data <= MAX_MESSAGE_SIZE ->
  (forall r b' t', P r b' t' -> ends_in r = true) ->
  (forall ent x id (s : UdpAgentServer B), entropy_ok ent -> server_ok s -> backend s = b ->
    transfer s = t -> exists r s1, operation ent x o id data s = (r, s1) /\ P r (backend s1) (transfer s1)) ->
  exists r u' b' t', _request o data u = (result_of r, u') /\ P r b' t' /\
    in_touch u' b' t' /\ same_settings u u'.
Proof using Hsmall.
  intros Hu Hl Hends Hop.
  assert (Hret : forall s, backend s = b -> transfer s = t -> returns o data s).
  { intros s0 Hb0 Ht0 ent x id s Hent Hok Hb Ht.
    destruct (Hop ent x id s Hent Hok) as (r & s1 & -> & HP); [congruence..|]. by eapply Hends. }
  destruct (request_in_touch o data u b t Hu Hl Hret)
    as (ent & x & id & s & r & s1 & u' & Hent & Hok & Hb & Ht & Hrun & Hreq & Hu' & Hset).
  destruct (Hop ent x id s Hent Hok Hb Ht) as (r' & s1' & Hrun' & HP).
  rewrite Hrun in Hrun'. injection Hrun' as <- <-. exists r, u', (backend s1), (transfer s1). by split_and!.
Qed.

Lemma on_backend_eq {A} (m : stateful B A) (s : UdpAgentServer B) r b' :
  m (backend s) = (r, b') -> on_backend m s = (r, set_backend b' s).
Proof. unfold on_backend. by intros ->. Qed.

(** What the client raises when the agent's operation raised [e]. *)
Definition remote_error (e : exn) : exn :=
  Exn AgentOperationError
    (if is_value_error (exn_cls e) then py "INVALID_ARGUMENT: " ++ wire_text (exn_msg e)
     else py "INTERNAL_FAILURE: target operation failed").

Lemma result_of_Err e : result_of (Err e) = Err (remote_error e).
Proof. unfold result_of, remote_error. by destruct (is_value_error _). Qed.

(** *** Keys *)
Definition key_names (codes : list KeyCode.t) : list pystr := (fun k => py (KeyCode.name k)) <$> codes.

(** The receipt the wire carries back. *)
Definition key_response (r : Models.KeyReceipt) : KeyResponse.t :=
  KeyResponse.mk (Models.accepted_text_bytes r) (Models.accepted_keys r)
    (Z.land (Models.screen_generation r) 0xFFFF).

Lemma operation_send_keys ent x id request payload (s : UdpAgentServer B) text :
  KeyRequest.decode payload = Ok request -> cp437_decode (KeyRequest.text request) = text ->
  operation ent x Opcode.SEND_KEYS id payload s =
    match send_keys text (key_names (KeyRequest.keys request)) (KeyRequest.inter_key_delay_ms request)
            100 (backend s) with
    | (Ok r, b') => (Some <$> KeyResponse.encode (key_response r), set_backend b' s)
    | (Err e, b') => (Err e, set_backend b' s)
    end.
Proof.
  intros Hd Ht. cbn [operation]. rewrite bind_run, Hd. cbn [lift]. rewrite bind_run, Ht.
  unfold on_backend. fold (key_names (KeyRequest.keys request)).
  by destruct (send_keys _ _ _ _ (backend s)) as [[r|e] b'].
Qed.

(** Keys typed through the link reach the machine: for a text CP437 can
    encode (at most 4096 bytes) and at most 128 known key names, [send_keys] of
    the client is exactly one [send_keys] of the agent's backend with the same
    text, the keys' canonical names and the delay; the caller gets its receipt
    (the generation modulo 2^16), or its error as the agent reports it. *)
Theorem remote_send_keys text keys delay pause (u : UdpBackend (Link B)) b t encoded codes r b' :
  in_touch u b t -> cp437_encode text = Ok encoded -> map_result named_key keys = Ok codes ->
  len encoded <= 4096 -> len codes <= 128 -> 0 <= delay <= 1000 -> UdpSafety.settle pause = Ok tt ->
  send_keys text (key_names codes) delay 100 b = (r, b') -> ends_in r = true ->
  (forall receipt, r = Ok receipt -> KeyResponse.valid (key_response receipt)) ->
  exists u', in_touch u' b' t /\ same_settings u u' /\
    send_keys text keys delay pause u =
      (match r with
       | Ok receipt => Ok (Models.mkKeyReceipt (Models.accepted_text_bytes receipt)
           (Models.accepted_keys receipt) (key_names (slice codes 0 (Models.accepted_keys receipt)))
           (Z.land (Models.screen_generation receipt) 0xFFFF))
       | Err e => Err (remote_error e)
       end, u').
Proof using Hsmall.
  intros Hu Henc Hkeys Hlt Hlk Hdelay Hsettle Hrun Hends Hvalid. cbn [send_keys udp_backend]. unfold udp_send_keys.
  rewrite bind_run, Henc. cbn [lift]. rewrite bind_run, Hkeys. cbn [lift].
  assert (Hsend : KeyRequest.sendable (KeyRequest.mk encoded codes delay)) by done.
  destruct (wire_arrives KeyRequest.codec _ Hsend (KeyRequest.sendable_fits _ Hsend)) as (payload & Hp & Hd).
  cbn [wire_encode wire_decode KeyRequest.codec] in Hp, Hd.
  assert (Hpl : len payload <= MAX_MESSAGE_SIZE).
  { apply KeyRequest.key_request_encode_forms in Hp as (_ & hd & -> & Hhd%pack_len).
    rewrite !len_app, KeyRequest.len_key_bytes, Hhd. cbn [KeyRequest.text KeyRequest.keys].
    change (Z.of_nat (calcsize _KEY_REQUEST)) with 5. unfold MAX_MESSAGE_SIZE, MAX_FRAGMENT_PAYLOAD, MAX_FRAGMENTS. lia. }
  rewrite bind_run, Hp. cbn [lift]. rewrite bind_run.
  destruct (request_refines Opcode.SEND_KEYS payload u b t (fun r1 b1 t1 =>
    b1 = b' /\ t1 = t /\ match r with
      | Ok receipt => exists bs, r1 = Ok (Some bs) /\ KeyResponse.decode bs = Ok (key_response receipt)
      | Err e => r1 = Err e end) Hu Hpl) as (r1 & u' & b1 & t1 & Hreq & (-> & -> & Hr) & Hu' & Hset).
  { intros r1 b1 t1 (_ & _ & Hr). destruct r; [by destruct Hr as (bs & -> & _)|by subst]. }
  { intros ent x id s _ _ <- <-.
    rewrite (operation_send_keys ent x id _ _ s text Hd) by (by apply cp437_decode_encode).
    cbn [KeyRequest.keys KeyRequest.inter_key_delay_ms]. rewrite Hrun. destruct r as [receipt|e].
    - destruct (wire_arrives KeyResponse.codec (key_response receipt)) as (bs & Hb & Hdb); [by apply Hvalid..|].
      cbn [wire_encode wire_decode KeyResponse.codec] in Hb, Hdb. rewrite Hb.
      eexists _, _. split; [done|]. split_and!; [done|done|]. by exists bs.
    - eexists _, _. by split. }
  rewrite Hreq. exists u'. split; [done|]. split; [done|]. destruct r as [receipt|e].
  - destruct Hr as (bs & -> & Hdb). cbn [result_of]. rewrite bind_run, Hdb. cbn [lift].
    rewrite bind_run. unfold UdpSafety.settle in Hsettle. by rewrite Hsettle.
  - subst r1. by rewrite result_of_Err.
Qed.

(** *** The screen *)
(** What a picture of the screen shows: its size, text, colours and the cursor's place. *)
Definition same_picture (s seen : Models.TextScreen) : Prop :=
  Models.columns seen = Models.columns s /\ Models.rows seen = Models.rows s /\
  Models.text seen = (cp437_text <$> Models.text s) /\ Models.attributes seen = Models.attributes s /\
  Models.cursor_row (Models.cursor seen) = Models.cursor_row (Models.cursor s) /\
  Models.cursor_column (Models.cursor seen) = Models.cursor_column (Models.cursor s).

(** C27. The screen seen through the link is the machine's: capturing makes one
    [capture_screen] of the agent's backend, if it returns or raises, and the caller gets
    its error, or a screen of the same size, with the same text as CP437 has it, the same
    attributes and the cursor in the same place.  The other fields are what the wire
    makes of them ([shown]): the generation modulo 2^16, the adapter's and the video
    mode's names and numbers, and the cursor's visibility, which is recomputed from its
    scanlines, so that a cursor without scanlines, as the Linux target's, is seen visible
    even when the machine hides it. *)
Theorem remote_capture_screen (u : UdpBackend (Link B)) b t r b' :
  in_touch u b t -> capture_screen b = (r, b') -> ends_in r = true ->
  (forall s, r = Ok s -> Models.well_formed_screen s /\ fits_wire s) ->
  exists u', in_touch u' b' t /\ same_settings u u' /\
    capture_screen u = (match r with Ok s => Ok (shown s) | Err e => Err (remote_error e) end, u') /\
    forall s, same_picture s (shown s) /\
      (Models.start_scanline (Models.cursor s) = None -> Models.end_scanline (Models.cursor s) = None ->
       Models.cursor_visible (Models.cursor (shown s)) = true).
Proof using Hsmall.
  intros Hu Hrun Hends Hvalid. cbn [capture_screen udp_backend]. unfold udp_capture_screen.
  destruct (request_refines Opcode.CAPTURE_TEXT_SCREEN [] u b t (fun r1 b1 t1 =>
    b1 = b' /\ t1 = t /\ match r with
      | Ok s => exists m bs, r1 = Ok (Some bs) /\ ScreenMessage.decode bs = Ok m /\ screen_of_message m = Ok (shown s)
      | Err e => r1 = Err e end) Hu) as (r1 & u' & b1 & t1 & Hreq & (-> & -> & Hr) & Hu' & Hset).
  { done. }
  { intros r1 b1 t1 (_ & _ & Hr). destruct r; [by destruct Hr as (m & bs & -> & _)|by subst]. }
  { intros ent x id s _ _ <- <-. cbn [operation _require_empty]. rewrite bind_run. cbn [lift].
    rewrite bind_run, (on_backend_eq _ _ _ _ Hrun). destruct r as [screen|e].
    - destruct (Hvalid screen eq_refl) as [Hw Hf].
      destruct (screen_arrives_shown screen Hw Hf) as (m & Hm & Hv & _ & _ & Hshown).
      destruct (wire_arrives ScreenMessage.codec m Hv Hv) as (bs & Hb & Hdb).
      cbn [wire_encode wire_decode ScreenMessage.codec] in Hb, Hdb.
      eexists _, _. split; [cbn [lift]; rewrite Hm; cbn [mbind result_bind]; rewrite Hb; done|].
      split_and!; [done|done|]. by exists m, bs.
    - eexists _, _. by split. }
  assert (Hshow : forall s, same_picture s (shown s) /\
    (Models.start_scanline (Models.cursor s) = None -> Models.end_scanline (Models.cursor s) = None ->
     Models.cursor_visible (Models.cursor (shown s)) = true)).
  { intros s. split; [by split_and!|]. cbn. by intros -> ->. }
  rewrite bind_run, Hreq. exists u'. split; [done|]. split; [done|]. split; [|exact Hshow].
  destruct r as [screen|e].
  - destruct Hr as (m & bs & -> & Hdb & Hshown). cbn [result_of lift]. rewrite Hdb.
    cbn [mbind result_bind]. by rewrite Hshown.
  - subst r1. by rewrite result_of_Err.
Qed.

(** *** Downloads *)

(** The read transfers: files and framebuffers. *)
Inductive reads : Opcode.t -> Opcode.t -> transfer_kind -> Prop :=
| reads_file : reads Opcode.FILE_READ_BLOCK Opcode.FILE_READ_END file_read
| reads_graphics : reads Opcode.GRAPHICS_BLOCK Opcode.GRAPHICS_END graphics.

Lemma reads_not_write o o' k : reads o o' k -> k <> file_write.
Proof using. by destruct 1. Qed.

Lemma operation_read o o' k ent x id payload request (s : UdpAgentServer B) :
  reads o o' k -> TransferBlockRequest.decode false payload = Ok request ->
  operation ent x o id payload s = (Some <$> _read_transfer_block request k) s.
Proof using. intros Hk Hd. destruct Hk; cbn [operation]; by rewrite bind_run, Hd. Qed.

Lemma operation_read_end o o' k ent x id payload request (s : UdpAgentServer B) :
  reads o o' k -> TransferEndRequest.decode payload = Ok request ->
  operation ent x o' id payload s = (Some <$> _end_read_transfer request k) s.
Proof using. intros Hk Hd. destruct Hk; cbn [operation]; by rewrite bind_run, Hd. Qed.

Lemma block_request_arrives has_data id off n data :
  0 < id < 65536 -> 0 <= off < 2 ^ 32 -> 1 <= n <= 900 ->
  (if has_data : bool then len data = n else data = []) ->
  let m := TransferBlockRequest.mk id off n data in
  exists bs, TransferBlockRequest.encode m = Ok bs /\ TransferBlockRequest.decode has_data bs = Ok m /\
    len bs <= MAX_MESSAGE_SIZE.
Proof using.
  intros Hid Hoff Hn Hdata m.
  assert (Hs : TransferBlockRequest.sendable m).
  { unfold TransferBlockRequest.sendable, fits. cbn. split_and!; try lia. destruct has_data; auto. }
  destruct (wire_arrives (TransferBlockRequest.codec has_data) m Hs) as (bs & Hb & Hd); [by split|].
  cbn [wire_encode wire_decode TransferBlockRequest.codec] in Hb, Hd. exists bs. split_and!; [done|done|].
  apply TransferBlockRequest.block_request_encode_forms in Hb as (_ & hd & -> & Hhd%pack_len).
  rewrite len_app, Hhd. change (Z.of_nat (calcsize _TRANSFER_BLOCK_REQUEST)) with 8.
  unfold MAX_MESSAGE_SIZE, MAX_FRAGMENT_PAYLOAD, MAX_FRAGMENTS. cbn [m TransferBlockRequest.data].
  destruct has_data; [|subst data; change (len (@nil byte)) with 0]; lia.
Qed.

Lemma end_request_arrives id :
  0 < id < 65536 ->
  exists bs, TransferEndRequest.encode (TransferEndRequest.mk id) = Ok bs /\
    TransferEndRequest.decode bs = Ok (TransferEndRequest.mk id) /\ len bs <= MAX_MESSAGE_SIZE.
Proof using.
  intros Hid. assert (Ha : TransferEndRequest.acceptable (TransferEndRequest.mk id)).
  { unfold TransferEndRequest.acceptable, fits. cbn. lia. }
  destruct (wire_arrives TransferEndRequest.codec (TransferEndRequest.mk id)) as (bs & Hb & Hd).
  { split; [exact Ha|cbn; lia]. } { exact Ha. }
  cbn [wire_encode wire_decode TransferEndRequest.codec] in Hb, Hd. exists bs. split_and!; [done|done|].
  unfold TransferEndRequest.encode in Hb. inv_ok. apply pack_len in Hb. rewrite Hb. by vm_compute.
Qed.

(** A transfer at offset [off]: [off] bytes of [content] have been read. *)
Definition reading_at (id : Z) (k : transfer_kind) (content : bytes) (off : Z) (t : _Transfer) : Prop :=
  transfer_id t = id /\ AgentServer.kind t = k /\ AgentServer.data t = content /\ AgentServer.offset t = off.

Lemma fmap_run {A C} (m : stateful (UdpAgentServer B) A) (f : A -> C) s r s' :
  m s = (r, s') -> (f <$> m) s = (f <$> r, s').
Proof using. unfold fmap at 1, stateful_fmap. intros ->. by destruct r. Qed.

(** One block. *)
Lemma remote_block o o' k (u : UdpBackend (Link B)) b t id content off n :
  in_touch u b (Some t) -> reads o o' k -> reading_at id k content off t ->
  0 < id < 65536 -> len content < 2 ^ 32 -> 0 <= off < len content -> 1 <= n <= 900 ->
  exists request payload t' u', TransferBlockRequest.encode (TransferBlockRequest.mk id off n []) = Ok request /\
    _request o request u = (Ok payload, u') /\ in_touch u' b (Some t') /\ same_settings u u' /\
    reading_at id k content (off + len (slice content off (off + n))) t' /\
    TransferBlockResponse.decode payload = Ok (TransferBlockResponse.mk id off
      (slice content off (off + n)) (crc32_from 0 (take (Z.to_nat (off + len (slice content off (off + n)))) content))).
Proof using Hsmall.
  intros Hu Hk (Hid & Hkind & Hdata & Hoff) Hidr Hl Hor Hn. pose proof (reads_not_write _ _ _ Hk) as Hnw.
  destruct (block_request_arrives false id off n []) as (request & Henc & Hdec & Hrl); [lia|lia|done|done|].
  set (block := slice content off (off + n)) in *.
  set (t' := advance content block t).
  destruct (request_refines o request u b (Some t) (fun r1 b1 t1 => b1 = b /\ t1 = Some t' /\ transfer_ok t' /\
    exists bs, r1 = Ok (Some bs) /\ TransferBlockResponse.decode bs = Ok (TransferBlockResponse.mk id off block
      (AgentServer.crc32 t'))) Hu Hrl) as (r1 & u' & b1 & t1 & Hreq & (-> & -> & Hok' & bs & -> & Hdb) & Hu' & Hset).
  { intros r1 b1 t1 (_ & _ & _ & bs & -> & _). done. }
  { intros ent x rid s _ Hok <- Ht. pose proof (server_transfer_ok s Hok t Ht) as Htok.
    destruct (read_block_run n k s t Ht Hkind Hnw Htok) as (bs & Hrun & Hdb); [congruence|lia|].
    rewrite Hid, Hoff, Hdata in Hrun, Hdb. fold block t' in Hrun, Hdb.
    eexists _, _. split; [rewrite (operation_read o o' k ent x rid request _ s Hk Hdec); by apply fmap_run|].
    cbn [backend transfer set_transfer]. split_and!; [done|done| |by exists bs].
    unfold t', block. rewrite <- Hdata, <- Hoff. apply transfer_ok_read; [done|by rewrite Hkind|lia]. }
  exists request, bs, t', u'. cbn [result_of] in Hreq. split_and!; try done.
  - unfold reading_at. cbn [t' advance transfer_id AgentServer.kind AgentServer.data AgentServer.offset]. by rewrite Hoff.
  - rewrite Hdb. do 2 f_equal. rewrite (transfer_crc t' Hok'). cbn. by rewrite Hoff.
Qed.

Lemma len_take {A} (content : list A) off :
  0 <= off <= len content -> len (take (Z.to_nat off) content) = off.
Proof using. unfold len. rewrite length_take. lia. Qed.

(** All the blocks. *)
Lemma remote_download_loop o o' k b id content fuel : forall off t (u : UdpBackend (Link B)),
  in_touch u b (Some t) -> reads o o' k -> reading_at id k content off t ->
  0 < id < 65536 -> len content < 2 ^ 32 -> 0 <= off <= len content -> len content - off <= Z.of_nat fuel ->
  exists t' u', download_loop fuel o id (len content) (take (Z.to_nat off) content)
      (crc32_from 0 (take (Z.to_nat off) content)) u = (Ok (content, crc32_from 0 content), u') /\
    in_touch u' b (Some t') /\ same_settings u u' /\ reading_at id k content (len content) t'.
Proof using Hsmall.
  induction fuel as [|fuel IH]; intros off t u Hu Hk Ht Hid Hl Hoff Hfuel; cbn [download_loop].
  { assert (off = len content) as -> by lia. exists t, u. rewrite take_ge by (unfold len; lia). done. }
  rewrite len_take by lia. destruct (Z.ltb_spec off (len content)) as [Hlt|Hge]; cbn [negb].
  2: { assert (off = len content) as -> by lia. exists t, u. rewrite take_ge by (unfold len; lia). done. }
  set (n := Z.min TRANSFER_BLOCK_SIZE (len content - off)).
  assert (Hn : 1 <= n <= 900) by (unfold n, TRANSFER_BLOCK_SIZE; lia).
  destruct (remote_block o o' k u b t id content off n Hu Hk Ht Hid Hl ltac:(lia) Hn)
    as (request & payload & t1 & u1 & Henc & Hreq & Hu1 & Hset & Ht1 & Hdec).
  assert (Hb : len (slice content off (off + n)) = n) by (rewrite len_slice; unfold n; lia).
  rewrite Hb in *. set (block := slice content off (off + n)) in *.
  cbv zeta. rewrite bind_run, Henc. cbn [lift]. rewrite bind_run, Hreq, bind_run, Hdec. cbn [lift].
  cbn [TransferBlockResponse.transfer_id TransferBlockResponse.offset TransferBlockResponse.data
    TransferBlockResponse.rolling_crc32].
  rewrite !Z.eqb_refl, Hb, (bool_decide_eq_false_2 (block = [])) by (intros E; rewrite E in Hb; change (len (@nil byte)) with 0 in Hb; lia).
  rewrite Z.ltb_irrefl. cbn [negb orb]. rewrite <- crc32_from_app. unfold block. rewrite take_slice by (unfold n; lia).
  rewrite Z.eqb_refl. cbn [negb].
  destruct (IH (off + n) t1 u1) as (t2 & u2 & Hrun & Hu2 & Hset2 & Ht2); [done..|unfold n; lia|lia|].
  exists t2, u2. split_and!; try done. by etrans.
Qed.

(** The end of a read transfer. *)
Lemma remote_end o o' k (u : UdpBackend (Link B)) b t id content :
  in_touch u b (Some t) -> reads o o' k -> reading_at id k content (len content) t ->
  0 < id < 65536 -> len content < 2 ^ 32 ->
  exists u', end_download o' id u = (Ok (TransferEndResponse.mk (len content) (crc32_from 0 content)), u') /\
    in_touch u' b None /\ same_settings u u'.
Proof using Hsmall.
  intros Hu Hk (Hid & Hkind & Hdata & Hoff) Hidr Hl.
  destruct (end_request_arrives id Hidr) as (request & Henc & Hdec & Hrl).
  set (response := TransferEndResponse.mk (len content) (crc32_from 0 content)).
  assert (Hv : TransferEndResponse.valid response).
  { unfold TransferEndResponse.valid, fits. cbn. pose proof (len_nonneg content).
    pose proof (crc32_from_range 0 content). lia. }
  destruct (wire_arrives TransferEndResponse.codec response Hv Hv) as (bs & Hb & Hd).
  cbn [wire_encode wire_decode TransferEndResponse.codec] in Hb, Hd.
  destruct (request_refines o' request u b (Some t) (fun r1 b1 t1 => b1 = b /\ t1 = None /\ r1 = Ok (Some bs))
    Hu Hrl) as (r1 & u' & b1 & t1 & Hreq & (-> & -> & ->) & Hu' & Hset).
  { by intros r1 b1 t1 (_ & _ & ->). }
  { intros ent x rid s _ Hok <- Ht. pose proof (server_transfer_ok s Hok t Ht) as Htok.
    eexists _, _. split.
    - rewrite (operation_read_end o o' k ent x rid request _ s Hk Hdec). apply fmap_run.
      unfold _end_read_transfer. cbn [TransferEndRequest.transfer_id].
      rewrite bind_run, (require_transfer_Some _ _ _ t) by done.
      rewrite Hoff, Hdata, Z.eqb_refl, bind_run. cbn [negb raise_if lift]. rewrite bind_run.
      rewrite (transfer_crc t Htok), Hdata, Hoff, take_ge by (unfold len; lia).
      fold response. rewrite Hb. done.
    - done. }
  unfold end_download. rewrite bind_run, Henc. cbn [lift]. rewrite bind_run, Hreq. cbn [result_of lift].
  exists u'. by rewrite Hd.
Qed.

Lemma remote_download o o' k (u : UdpBackend (Link B)) b t id content :
  in_touch u b (Some t) -> reads o o' k -> reading_at id k content 0 t ->
  0 < id < 65536 -> len content < 2 ^ 32 ->
  exists u', download o o' id (len content) u =
      (Ok (content, crc32_from 0 content, TransferEndResponse.mk (len content) (crc32_from 0 content)), u') /\
    in_touch u' b None /\ same_settings u u'.
Proof using Hsmall.
  intros Hu Hk Ht Hid Hl. pose proof (len_nonneg content).
  destruct (remote_download_loop o o' k b id content (Z.to_nat (len content)) 0 t u)
    as (t1 & u1 & Hrun & Hu1 & Hset1 & Ht1); [done..|lia|lia|].
  destruct (remote_end o o' k u1 b t1 id content Hu1 Hk Ht1 Hid Hl) as (u2 & Hend & Hu2 & Hset2).
  exists u2. split; [|split; [done|by etrans]].
  unfold download, or_abort, catch. rewrite bind_run. unfold _download_blocks.
  change (take (Z.to_nat 0) content) with (@nil byte) in Hrun. change (crc32_from 0 []) with 0 in Hrun. rewrite Hrun.
  rewrite bind_run, Hend. done.
Qed.

Definition first_id (ent : entropy) : Z :=
  if randbelow_0xFFFF ent =? 0 then 1 else randbelow_0xFFFF ent.

Lemma first_id_range ent : entropy_ok ent -> 0 < first_id ent < 65536.
Proof using. unfold entropy_ok, draws_ok, first_id. intros [He _]. destruct (Z.eqb_spec (randbelow_0xFFFF ent) 0); lia. Qed.

Lemma start_transfer_None ent k content (s : UdpAgentServer B) :
  transfer s = None ->
  let t := mkTransfer (first_id ent) k content 0 0 [] 0 0 false in
  _start_transfer ent k content s = (Ok t, set_transfer (Some t) s).
Proof using. intros Ht. unfold _start_transfer. rewrite bind_run. cbn [gets]. by rewrite Ht. Qed.

Lemma begin_response_arrives id size :
  0 < id < 65536 -> 0 <= size < 2 ^ 32 ->
  exists bs, TransferBeginResponse.encode (TransferBeginResponse.mk id size) = Ok bs /\
    TransferBeginResponse.decode bs = Ok (TransferBeginResponse.mk id size).
Proof using.
  intros Hid Hs. assert (Hv : TransferBeginResponse.sendable (TransferBeginResponse.mk id size)).
  { unfold TransferBeginResponse.sendable, fits. cbn. lia. }
  destruct (wire_arrives TransferBeginResponse.codec _ Hv) as (bs & Hb & Hd); [split; [done|cbn; lia]|].
  by exists bs.
Qed.

Lemma dos_path_encoded path encoded :
  cp437_encode path = Ok encoded -> dos_path encoded -> _encode_dos_path path = Ok encoded.
Proof using.
  intros He [Hl _]. unfold _encode_dos_path. rewrite He. cbn [mbind result_bind].
  rewrite (bool_decide_eq_false_2 (encoded = [])); [done|]. intros ->. change (len (@nil byte)) with 0 in Hl. lia.
Qed.

(** A file downloaded through the link is the machine's file: begin, blocks of
    at most 900 bytes and end make one [download_file] of the agent's backend
    with the same path, the caller gets exactly its bytes with their CRC-32 (or
    its error), and no transfer stays open. *)
Theorem remote_download_file path (u : UdpBackend (Link B)) b encoded r b' :
  in_touch u b None -> _allow_file_read u = true -> cp437_encode path = Ok encoded -> dos_path encoded ->
  download_file path b = (r, b') -> ends_in r = true ->
  (forall c, r = Ok c -> len (Models.contents_data c) <= MAX_FILE_SIZE) ->
  exists u', in_touch u' b' None /\ same_settings u u' /\
    download_file path u =
      (match r with
       | Ok c => Ok (Models.mkFileContents path (Models.contents_data c) (crc32_from 0 (Models.contents_data c)))
       | Err e => Err (remote_error e)
       end, u').
Proof using Hsmall.
  intros Hu Hallow Henc Hpath Hrun Hends Hsize. cbn [download_file udp_backend]. unfold udp_download_file.
  rewrite bind_run. cbn [gets]. rewrite Hallow. cbn [negb].
  rewrite bind_run, (dos_path_encoded _ _ Henc Hpath). cbn [lift]. rewrite bind_run.
  destruct (wire_arrives FileReadBeginRequest.codec (FileReadBeginRequest.mk encoded) Hpath Hpath)
    as (request & Hreq & Hdec).
  cbn [wire_encode wire_decode FileReadBeginRequest.codec] in Hreq, Hdec. rewrite Hreq. cbn [lift]. rewrite bind_run.
  assert (Hrl : len request <= MAX_MESSAGE_SIZE).
  { unfold FileReadBeginRequest.encode in Hreq. cbn [FileReadBeginRequest.path] in Hreq. inv_ok.
    destruct Hpath as [Hp _]. unfold len in *. cbn [length].
    unfold MAX_MESSAGE_SIZE, MAX_FRAGMENT_PAYLOAD, MAX_FRAGMENTS. lia. }
  destruct (request_refines Opcode.FILE_READ_BEGIN request u b None (fun r1 b1 t1 => b1 = b' /\ match r with
      | Ok c => exists id t bs, r1 = Ok (Some bs) /\ t1 = Some t /\ 0 < id < 65536 /\
          reading_at id file_read (Models.contents_data c) 0 t /\
          TransferBeginResponse.decode bs = Ok (TransferBeginResponse.mk id (len (Models.contents_data c)))
      | Err e => t1 = None /\ r1 = Err e end) Hu Hrl) as (r1 & u1 & b1 & t1 & Hrun1 & (-> & Hr) & Hu1 & Hset1).
  { intros r1 b1 t1 (_ & Hr). destruct r; [by destruct Hr as (? & ? & ? & -> & _)|by destruct Hr as [_ ->]]. }
  { intros ent x rid s Hent _ <- Ht. cbn [operation]. rewrite bind_run, Hdec. cbn [lift].
    cbn [FileReadBeginRequest.path]. rewrite (cp437_decode_encode _ _ Henc), bind_run, (on_backend_eq _ _ _ _ Hrun).
    destruct r as [c|e].
    - destruct (begin_response_arrives (first_id ent) (len (Models.contents_data c))) as (bs & Hb & Hd);
        [by apply first_id_range|specialize (Hsize c eq_refl); unfold MAX_FILE_SIZE in Hsize;
         pose proof (len_nonneg (Models.contents_data c)); lia|].
      rewrite bind_run, start_transfer_None by done. cbn [transfer_id AgentServer.data lift]. rewrite Hb.
      eexists _, _. split; [done|]. split; [done|]. eexists _, _, _. split; [done|]. split; [done|].
      split; [by apply (first_id_range ent)|]. by split.
    - eexists _, _. split; [done|]. by split_and!. }
  rewrite Hrun1. destruct r as [c|e].
  2: { destruct Hr as [-> ->]. rewrite result_of_Err. by exists u1. }
  destruct Hr as (id & t & bs & -> & -> & Hid & Ht & Hd). cbn [result_of].
  rewrite bind_run, Hd. cbn [lift TransferBeginResponse.total_size TransferBeginResponse.transfer_id].
  specialize (Hsize c eq_refl). set (content := Models.contents_data c) in *. unfold MAX_FILE_SIZE in Hsize.
  replace (MAX_FILE_SIZE <? len content) with false by (unfold MAX_FILE_SIZE; lia).
  destruct (remote_download _ _ _ u1 b' t id content Hu1 reads_file Ht Hid ltac:(lia)) as (u2 & Hdl & Hu2 & Hset2).
  rewrite bind_run, Hdl. cbn [TransferEndResponse.total_size TransferEndResponse.crc32].
  rewrite !Z.eqb_refl. cbn [negb orb]. exists u2. split; [done|]. split; [by etrans|done].
Qed.

(** *** Framebuffers *)
Definition wire_graphics_adapter (name : pystr) : Adapter.t :=
  default Adapter.UNKNOWN (table_get name
    [(py "MDA", Adapter.MDA); (py "CGA", Adapter.CGA); (py "EGA", Adapter.EGA); (py "VGA", Adapter.VGA)]).

Definition shown_graphics (g : Models.GraphicsScreen) : Models.GraphicsScreen :=
  Models.mkGraphicsScreen (adapter_name (wire_graphics_adapter (Models.adapter g))) (Models.video_mode g)
    (Models.layout g) (Models.width g) (Models.height g) (Models.planes g) (Models.bytes_per_plane g)
    (Models.data g) (crc32_from 0 (Models.data g)).

(** A framebuffer the agent can announce and the client accepts. *)
Definition graphics_fits_wire (g : Models.GraphicsScreen) : Prop :=
  exists l, layout_name l = Models.layout g /\
    Models.planes g = (if decide (l = GraphicsLayout.PLANAR_4BPP) then 4 else 1) /\
    0 <= Models.video_mode g < 256 /\ Models.width g <= 2048 /\ Models.height g <= 2048 /\
    len (Models.data g) <= MAX_GRAPHICS_SIZE.

Lemma graphics_message g id :
  Models.well_formed_graphics g -> graphics_fits_wire g -> 0 < id < 65536 ->
  exists l bs, layout_name l = Models.layout g /\
    let m := GraphicsBeginResponse.mk id (wire_graphics_adapter (Models.adapter g)) (Models.video_mode g) l
      (Models.planes g) (Models.width g) (Models.height g) (len (Models.data g)) (Models.bytes_per_plane g) in
    (m ← _graphics_begin_message g id; Some <$> GraphicsBeginResponse.encode m) = Ok (Some bs) /\
    GraphicsBeginResponse.decode bs = Ok m.
Proof using.
  intros (Hw & Hh & Hp & Hbpp & Hl & _) (l & Hlay & Hplanes & Hmode & Hw' & Hh' & Hsize) Hid.
  set (m := GraphicsBeginResponse.mk id (wire_graphics_adapter (Models.adapter g)) (Models.video_mode g) l
    (Models.planes g) (Models.width g) (Models.height g) (len (Models.data g)) (Models.bytes_per_plane g)).
  assert (Hmsg : _graphics_begin_message g id = Ok m).
  { unfold _graphics_begin_message. rewrite <- Hlay. by destruct l. }
  assert (Hbound : Models.bytes_per_plane g <= len (Models.data g)) by (rewrite Hl; nia).
  unfold MAX_GRAPHICS_SIZE in Hsize.
  assert (Hs : GraphicsBeginResponse.sendable m).
  { unfold GraphicsBeginResponse.sendable, GraphicsBeginResponse.fields, m.
    cbn [GraphicsBeginResponse.transfer_id GraphicsBeginResponse.adapter GraphicsBeginResponse.video_mode
      GraphicsBeginResponse.layout GraphicsBeginResponse.planes GraphicsBeginResponse.width
      GraphicsBeginResponse.height GraphicsBeginResponse.total_size GraphicsBeginResponse.bytes_per_plane].
    destruct (wire_graphics_adapter (Models.adapter g)), l; unfold fits, int_of; cbn; lia. }
  destruct (wire_arrives GraphicsBeginResponse.codec m Hs) as (bs & Hb & Hd).
  { split; [exact Hs|]. cbn. split_and!; (done || lia). }
  cbn [wire_encode wire_decode GraphicsBeginResponse.codec] in Hb, Hd.
  exists l, bs. split; [done|]. rewrite Hmsg. cbn [mbind result_bind]. by rewrite Hb.
Qed.

(** The same for a framebuffer: one [capture_graphics] of the agent's backend,
    whose bytes and metadata arrive as [shown_graphics], and no open transfer. *)
Theorem remote_capture_graphics (u : UdpBackend (Link B)) b r b' :
  in_touch u b None -> capture_graphics b = (r, b') -> ends_in r = true ->
  (forall g, r = Ok g -> Models.well_formed_graphics g /\ graphics_fits_wire g) ->
  exists u', in_touch u' b' None /\ same_settings u u' /\
    capture_graphics u =
      (match r with Ok g => Ok (shown_graphics g) | Err e => Err (remote_error e) end, u').
Proof using Hsmall.
  intros Hu Hrun Hends Hvalid. cbn [capture_graphics udp_backend]. unfold udp_capture_graphics.
  destruct (request_refines Opcode.GRAPHICS_BEGIN [] u b None (fun r1 b1 t1 => b1 = b' /\ match r with
      | Ok g => exists id t l bs, r1 = Ok (Some bs) /\ t1 = Some t /\ 0 < id < 65536 /\
          reading_at id graphics (Models.data g) 0 t /\ layout_name l = Models.layout g /\
          GraphicsBeginResponse.decode bs = Ok (GraphicsBeginResponse.mk id
            (wire_graphics_adapter (Models.adapter g)) (Models.video_mode g) l (Models.planes g)
            (Models.width g) (Models.height g) (len (Models.data g)) (Models.bytes_per_plane g))
      | Err e => t1 = None /\ r1 = Err e end) Hu) as (r1 & u1 & b1 & t1 & Hrun1 & (-> & Hr) & Hu1 & Hset1).
  { done. }
  { intros r1 b1 t1 (_ & Hr). destruct r; [by destruct Hr as (? & ? & ? & ? & -> & _)|by destruct Hr as [_ ->]]. }
  { intros ent x rid s Hent _ <- Ht. cbn [operation _require_empty]. rewrite bind_run. cbn [lift].
    rewrite bind_run, (on_backend_eq _ _ _ _ Hrun). destruct r as [g|e].
    - destruct (Hvalid g eq_refl) as [Hw Hf].
      destruct (graphics_message g (first_id ent) Hw Hf (first_id_range ent Hent)) as (l & bs & Hlay & Hb & Hd).
      rewrite bind_run, start_transfer_None by done. cbn [transfer_id lift]. rewrite Hb.
      eexists _, _. split; [done|]. split; [done|]. eexists _, _, _, _. split; [done|]. split; [done|].
      split; [by apply (first_id_range ent)|]. by split.
    - eexists _, _. split; [done|]. by split_and!. }
  rewrite bind_run, Hrun1. destruct r as [g|e].
  2: { destruct Hr as [-> ->]. rewrite result_of_Err. by exists u1. }
  destruct Hr as (id & t & l & bs & -> & -> & Hid & Ht & Hlay & Hd). cbn [result_of].
  destruct (Hvalid g eq_refl) as [Hw (_ & _ & _ & _ & _ & _ & Hsize)].
  rewrite bind_run, Hd. cbn [lift]. cbv zeta.
  cbn [GraphicsBeginResponse.transfer_id GraphicsBeginResponse.adapter GraphicsBeginResponse.video_mode
    GraphicsBeginResponse.layout GraphicsBeginResponse.planes GraphicsBeginResponse.width
    GraphicsBeginResponse.height GraphicsBeginResponse.total_size GraphicsBeginResponse.bytes_per_plane].
  rewrite (proj2 (Z.ltb_ge _ _) Hsize).
  destruct (remote_download _ _ _ u1 b' t id (Models.data g) Hu1 reads_graphics Ht Hid)
    as (u2 & Hdl & Hu2 & Hset2); [unfold MAX_GRAPHICS_SIZE in Hsize; lia|].
  rewrite bind_run, Hdl. cbn [TransferEndResponse.total_size TransferEndResponse.crc32].
  rewrite !Z.eqb_refl. cbn [negb orb]. exists u2. split; [done|]. split; [by etrans|].
  rewrite Hlay. fold (shown_graphics g). unfold Models.new_graphics_screen.
  rewrite (proj2 (Models.graphics_screen_check_Ok (shown_graphics g) tt)); [done|].
  destruct Hw as (H1 & H2 & H3 & H4 & H5 & _). unfold Models.well_formed_graphics, shown_graphics. cbn.
  split_and!; try (done || lia); apply crc32_from_range.
Qed.

(** *** Uploads *)

(** An upload at offset [len sent_so_far]. *)
Definition writing_at (id : Z) (p : pystr) (content : bytes) (ow : bool) (sofar : bytes) (t : _Transfer) : Prop :=
  transfer_id t = id /\ AgentServer.kind t = file_write /\ path t = p /\ AgentServer.overwrite t = ow /\
  expected_size t = len content /\ expected_crc32 t = crc32_from 0 content /\ AgentServer.data t = sofar.

Lemma remote_write_block (u : UdpBackend (Link B)) b t id p content ow sofar block :
  in_touch u b (Some t) -> writing_at id p content ow sofar t -> 0 < id < 65536 ->
  1 <= len block <= 900 -> len sofar + len block <= len content -> len content < 2 ^ 32 ->
  exists request payload t' u',
    TransferBlockRequest.encode (TransferBlockRequest.mk id (len sofar) (len block) block) = Ok request /\
    _request Opcode.FILE_WRITE_BLOCK request u = (Ok payload, u') /\ in_touch u' b (Some t') /\
    same_settings u u' /\ writing_at id p content ow (sofar ++ block) t' /\
    TransferBlockResponse.decode payload = Ok (TransferBlockResponse.mk id (len sofar) []
      (crc32_from 0 (sofar ++ block))).
Proof using Hsmall.
  intros Hu (Hid & Hk & Hp & How & Hsz & Hcrc & Hdata) Hidr Hn Hle Hl. pose proof (len_nonneg sofar).
  destruct (block_request_arrives true id (len sofar) (len block) block) as (request & Henc & Hdec & Hrl);
    [lia|lia|lia|done|].
  set (t' := advance (sofar ++ block) block t).
  destruct (request_refines Opcode.FILE_WRITE_BLOCK request u b (Some t) (fun r1 b1 t1 => b1 = b /\ t1 = Some t' /\
    transfer_ok t' /\ AgentServer.offset t = len sofar /\ exists bs, r1 = Ok (Some bs) /\
    TransferBlockResponse.decode bs = Ok (TransferBlockResponse.mk id (len sofar) [] (AgentServer.crc32 t'))) Hu Hrl)
    as (r1 & u' & b1 & t1 & Hreq & (-> & -> & Hok' & Hoff & bs & -> & Hdb) & Hu' & Hset).
  { by intros r1 b1 t1 (_ & _ & _ & _ & bs & -> & _). }
  { intros ent x rid s _ Hok <- Ht. pose proof (server_transfer_ok s Hok t Ht) as Htok.
    destruct (transfer_upload t Htok Hk) as [Hoff _]. rewrite Hdata in Hoff.
    destruct (write_block_run block s t Ht Hk Htok) as (bs & Hrun & Hdb); [lia|lia|].
    rewrite Hid, Hoff, Hdata in Hrun, Hdb. fold t' in Hrun, Hdb.
    eexists _, _. split; [cbn [operation]; rewrite bind_run, Hdec; cbn [lift]; by apply fmap_run|].
    cbn [backend transfer set_transfer]. split_and!; [done|done| |done|by exists bs].
    unfold t'. rewrite <- Hdata. apply transfer_ok_write; [done|done|lia]. }
  exists request, bs, t', u'. cbn [result_of] in Hreq. split_and!; try done.
  rewrite Hdb. do 2 f_equal. rewrite (transfer_crc t' Hok'). cbn. rewrite Hoff.
  rewrite take_ge; [done|]. rewrite length_app. unfold len. lia.
Qed.

Lemma chunks_cons {A} (n : nat) (l : list A) :
  (0 < n)%nat -> l <> [] -> chunks n l = take n l :: chunks n (drop n l).
Proof using.
  intros Hn Hl. unfold chunks. destruct l as [|x l]; [done|]. cbn [length chunks_fuel]. f_equal.
  apply chunks_fuel_ge; [done|]. rewrite length_drop. cbn [length]. lia.
Qed.

(** All the blocks of the rest of the file. *)
Lemma remote_upload_loop id p content ow b : forall n rest sofar t (u : UdpBackend (Link B)),
  (length rest <= n)%nat -> sofar ++ rest = content -> in_touch u b (Some t) ->
  writing_at id p content ow sofar t -> 0 < id < 65536 -> len content < 2 ^ 32 ->
  exists t' u', upload_loop (chunks (Z.to_nat TRANSFER_BLOCK_SIZE) rest) id (len sofar) (crc32_from 0 sofar) u =
      (Ok tt, u') /\
    in_touch u' b (Some t') /\ same_settings u u' /\ writing_at id p content ow content t'.
Proof using Hsmall.
  induction n as [|n IH]; intros rest sofar t u Hn Hc Hu Ht Hid Hl.
  { destruct rest; [|cbn in Hn; lia]. rewrite app_nil_r in Hc. subst sofar. exists t, u. done. }
  destruct (decide (rest = [])) as [->|Hne].
  { rewrite app_nil_r in Hc. subst sofar. exists t, u. done. }
  rewrite chunks_cons by (done || unfold TRANSFER_BLOCK_SIZE; lia).
  set (block := take (Z.to_nat TRANSFER_BLOCK_SIZE) rest). set (rest' := drop (Z.to_nat TRANSFER_BLOCK_SIZE) rest).
  assert (Hlr : len rest = Z.of_nat (length rest)) by done.
  assert (Hpos : 0 < len rest).
  { destruct (Z.eq_dec (len rest) 0) as [E%len_nil_inv|]; [done|]. pose proof (len_nonneg rest). lia. }
  assert (Hb : len block = Z.min 900 (len rest)).
  { unfold block, TRANSFER_BLOCK_SIZE, len. rewrite length_take. lia. }
  assert (Hsplit : block ++ rest' = rest) by apply take_drop.
  assert (Hlc : len content = len sofar + len rest) by (rewrite <- Hc; apply len_app).
  destruct (remote_write_block u b t id p content ow sofar block Hu Ht Hid)
    as (request & payload & t1 & u1 & Henc & Hreq & Hu1 & Hset & Ht1 & Hdec); [lia|lia|done|].
  cbn [upload_loop]. rewrite bind_run, Henc. cbn [lift]. rewrite bind_run, Hreq, bind_run, Hdec. cbn [lift].
  cbv zeta. cbn [TransferBlockResponse.transfer_id TransferBlockResponse.offset TransferBlockResponse.data
    TransferBlockResponse.rolling_crc32].
  rewrite <- crc32_from_app, !Z.eqb_refl. rewrite (bool_decide_eq_true_2 (@nil byte = [])) by done. cbn [negb orb].
  destruct (IH rest' (sofar ++ block) t1 u1) as (t2 & u2 & Hrun & Hu2 & Hset2 & Ht2); try done.
  { unfold rest', TRANSFER_BLOCK_SIZE. rewrite length_drop. lia. }
  { by rewrite <- app_assoc, Hsplit. }
  exists t2, u2. split_and!; try done; [|by etrans].
  destruct (Z.le_gt_cases 900 (len rest)) as [Hge|Hlt].
  - rewrite len_app, Hb, Z.min_l in Hrun by lia. exact Hrun.
  - assert (rest' = []) as E.
    { apply drop_ge. unfold TRANSFER_BLOCK_SIZE. lia. }
    rewrite E, chunks_nil in Hrun |- *. exact Hrun.
Qed.

(** Giving a transfer up. *)
Lemma remote_abort (u : UdpBackend (Link B)) b t id :
  in_touch u b (Some t) -> transfer_id t = id -> 0 < id < 65536 ->
  exists u', _abort_transfer id u = (Ok tt, u') /\ in_touch u' b None /\ same_settings u u'.
Proof using Hsmall.
  intros Hu Hid Hidr. destruct (end_request_arrives id Hidr) as (request & Henc & Hdec & Hrl).
  destruct (request_refines Opcode.FILE_ABORT request u b (Some t)
    (fun r1 b1 t1 => b1 = b /\ t1 = None /\ r1 = Ok (Some [])) Hu Hrl)
    as (r1 & u' & b1 & t1 & Hreq & (-> & -> & ->) & Hu' & Hset).
  { by intros r1 b1 t1 (_ & _ & ->). }
  { intros ent x rid s _ _ <- Ht. cbn [operation]. rewrite bind_run, Hdec. cbn [lift].
    rewrite bind_run. cbn [modify]. rewrite Ht. cbn [TransferEndRequest.transfer_id].
    rewrite (proj2 (Z.eqb_eq _ _) Hid). eexists _, _. by split. }
  exists u'. split; [|done]. unfold _abort_transfer, catch. rewrite bind_run, Henc. cbn [lift].
  by rewrite bind_run, Hreq.
Qed.

(** The commit of a complete upload. *)
Lemma remote_commit (u : UdpBackend (Link B)) b t id p content ow r b' :
  in_touch u b (Some t) -> writing_at id p content ow content t -> 0 < id < 65536 -> len content < 2 ^ 32 ->
  upload_file p content ow b = (r, b') -> ends_in r = true ->
  (forall receipt, r = Ok receipt ->
     Models.receipt_size receipt = len content /\ Models.receipt_crc32 receipt = crc32_from 0 content) ->
  exists u', same_settings u u' /\
    match r with
    | Ok _ => end_download Opcode.FILE_WRITE_COMMIT id u =
        (Ok (TransferEndResponse.mk (len content) (crc32_from 0 content)), u') /\ in_touch u' b' None
    | Err e => end_download Opcode.FILE_WRITE_COMMIT id u = (Err (remote_error e), u') /\
        in_touch u' b' (Some t)
    end.
Proof using Hsmall.
  intros Hu (Hid & Hk & Hp & How & Hsz & Hcrc & Hdata) Hidr Hl Hrun Hends Hhonest.
  destruct (end_request_arrives id Hidr) as (request & Henc & Hdec & Hrl).
  set (response := TransferEndResponse.mk (len content) (crc32_from 0 content)).
  assert (Hv : TransferEndResponse.valid response).
  { unfold TransferEndResponse.valid, fits. cbn. pose proof (len_nonneg content).
    pose proof (crc32_from_range 0 content). lia. }
  destruct (wire_arrives TransferEndResponse.codec response Hv Hv) as (bs & Hb & Hd).
  cbn [wire_encode wire_decode TransferEndResponse.codec] in Hb, Hd.
  destruct (request_refines Opcode.FILE_WRITE_COMMIT request u b (Some t) (fun r1 b1 t1 => b1 = b' /\
    match r with Ok _ => t1 = None /\ r1 = Ok (Some bs) | Err e => t1 = Some t /\ r1 = Err e end)
    Hu Hrl) as (r1 & u' & b1 & t1 & Hreq & (-> & Hr) & Hu' & Hset).
  { intros r1 b1 t1 (_ & Hr). destruct r; by destruct Hr as [_ ->]. }
  { intros ent x rid s _ Hok <- Ht. pose proof (server_transfer_ok s Hok t Ht) as Htok.
    destruct (transfer_upload t Htok Hk) as [Hoff _].
    assert (Hrun' : _commit_write_transfer (TransferEndRequest.mk id) s =
      match r with Ok _ => (Ok bs, set_transfer None (set_backend b' s)) | Err e => (Err e, set_backend b' s) end).
    { unfold _commit_write_transfer. cbn [TransferEndRequest.transfer_id].
      rewrite bind_run, (require_transfer_Some _ _ _ t) by done.
      rewrite (transfer_crc t Htok), Hoff, Hdata, Hsz, Hcrc, take_ge by (unfold len; lia).
      rewrite !Z.eqb_refl, bind_run. cbn [negb orb raise_if lift]. rewrite bind_run, Hp, How.
      rewrite (on_backend_eq _ _ _ _ Hrun). destruct r as [receipt|e]; [|done].
      destruct (Hhonest receipt eq_refl) as [-> ->]. fold response. rewrite bind_run, Hb. done. }
    cbn [operation]. rewrite bind_run, Hdec. cbn [lift]. rewrite (fmap_run _ _ _ _ _ (surjective_pairing _)), Hrun'.
    destruct r; eexists _, _; (split; [done|]); by split_and!. }
  unfold end_download. rewrite bind_run, Henc. cbn [lift]. rewrite bind_run, Hreq.
  exists u'. split; [done|]. destruct r as [receipt|e]; destruct Hr as [-> ->].
  - cbn [result_of lift]. by rewrite Hd.
  - by rewrite result_of_Err.
Qed.

(** A file uploaded through the link is the file stored: begin, blocks and
    commit make exactly one [upload_file] of the agent's backend with the same
    path, bytes and flag; the caller gets a receipt for these bytes, or the
    backend's error after the client has aborted; either way no transfer stays
    open. *)
Theorem remote_upload_file p content ow (u : UdpBackend (Link B)) b encoded r b' :
  in_touch u b None -> _allow_file_write u = true -> cp437_encode p = Ok encoded -> dos_path encoded ->
  len content <= MAX_FILE_SIZE -> upload_file p content ow b = (r, b') -> ends_in r = true ->
  (forall receipt, r = Ok receipt ->
     Models.receipt_size receipt = len content /\ Models.receipt_crc32 receipt = crc32_from 0 content) ->
  exists u', in_touch u' b' None /\ same_settings u u' /\
    upload_file p content ow u =
      (match r with
       | Ok _ => Ok (Models.mkFileReceipt p (len content) (crc32_from 0 content))
       | Err e => Err (remote_error e)
       end, u').
Proof using Hsmall.
  intros Hu Hallow Henc Hpath Hsize Hrun Hends Hhonest. cbn [upload_file udp_backend]. unfold udp_upload_file.
  unfold MAX_FILE_SIZE in Hsize. pose proof (len_nonneg content) as Hnn.
  rewrite bind_run. cbn [gets]. rewrite Hallow. cbn [negb].
  replace (MAX_FILE_SIZE <? len content) with false by (unfold MAX_FILE_SIZE; lia). cbv zeta.
  rewrite bind_run, (dos_path_encoded _ _ Henc Hpath). cbn [lift]. rewrite bind_run.
  set (m := FileWriteBeginRequest.mk encoded (len content) (crc32_from 0 content) ow).
  assert (Hv : FileWriteBeginRequest.valid m).
  { split; [done|]. cbn. split; [lia|apply crc32_from_range]. }
  destruct (wire_arrives FileWriteBeginRequest.codec m Hv Hv) as (request & Hreq & Hdec).
  cbn [wire_encode wire_decode FileWriteBeginRequest.codec] in Hreq, Hdec. rewrite Hreq. cbn [lift].
  assert (Hrl : len request <= MAX_MESSAGE_SIZE).
  { apply FileWriteBeginRequest.write_begin_encode_forms in Hreq as (_ & hd & -> & Hhd%pack_len).
    rewrite len_app, Hhd. cbn [m FileWriteBeginRequest.path]. destruct Hpath as [Hp _].
    change (Z.of_nat (calcsize _FILE_WRITE_BEGIN)) with 10.
    unfold MAX_MESSAGE_SIZE, MAX_FRAGMENT_PAYLOAD, MAX_FRAGMENTS. lia. }
  destruct (request_refines Opcode.FILE_WRITE_BEGIN request u b None (fun r1 b1 t1 => b1 = b /\
      exists id t bs, r1 = Ok (Some bs) /\ t1 = Some t /\ 0 < id < 65536 /\ writing_at id p content ow [] t /\
        TransferBeginResponse.decode bs = Ok (TransferBeginResponse.mk id (len content))) Hu Hrl)
    as (r1 & u1 & b1 & t1 & Hrun1 & (-> & id & t & bs & -> & -> & Hid & Ht & Hd) & Hu1 & Hset1).
  { by intros r1 b1 t1 (_ & ? & ? & ? & -> & _). }
  { intros ent x rid s Hent _ <- Ht. cbn [operation]. rewrite bind_run, Hdec. cbn [lift].
    cbn [m FileWriteBeginRequest.total_size FileWriteBeginRequest.path FileWriteBeginRequest.crc32
      FileWriteBeginRequest.overwrite].
    rewrite bind_run, (proj2 (Z.ltb_ge 1048576 (len content)) Hsize). cbn [raise_if lift].
    rewrite bind_run, start_transfer_None by done. rewrite bind_run. cbn [modify].
    destruct (begin_response_arrives (first_id ent) (len content)) as (bs & Hb & Hd);
      [by apply first_id_range|lia|].
    cbn [transfer_id AgentServer.data AgentServer.kind AgentServer.offset AgentServer.crc32 lift]. rewrite Hb.
    rewrite (cp437_decode_encode _ _ Henc). eexists _, _. split; [done|]. split; [done|].
    eexists _, _, _. split; [done|]. split; [done|]. split; [by apply (first_id_range ent)|]. by split. }
  rewrite bind_run, Hrun1. cbn [result_of]. rewrite bind_run, Hd.
  cbn [lift TransferBeginResponse.transfer_id].
  destruct (remote_upload_loop id p content ow b (length content) content [] t u1)
    as (t2 & u2 & Hloop & Hu2 & Hset2 & Ht2); try done; [lia|].
  destruct (remote_commit u2 b t2 id p content ow r b' Hu2 Ht2 Hid ltac:(lia) Hrun Hends Hhonest)
    as (u3 & Hset3 & Hcommit).
  change (len (@nil byte)) with 0 in Hloop. change (crc32_from 0 []) with 0 in Hloop.
  unfold or_abort, catch. rewrite bind_run, bind_run, Hloop. destruct r as [receipt|e]; destruct Hcommit as [-> Hu3].
  - cbn [TransferEndResponse.total_size TransferEndResponse.crc32]. rewrite !Z.eqb_refl. cbn [negb orb].
    exists u3. split; [done|]. split; [by do 2 (etrans; [done|])|done].
  - destruct (remote_abort u3 b' t2 id Hu3 (proj1 Ht2) Hid) as (u4 & Habort & Hu4 & Hset4).
    rewrite bind_run, Habort. exists u4. split; [done|]. split; [by do 3 (etrans; [done|])|done].
Qed.
End Remote.

(** ** A session with a desk *)
Definition desk_client (d : desk) : UdpBackend (Link desk) :=
  mkUdp (mkLink (mkServer d TEST_KEY None false false None false []) true bridge agent_at
      (fun _ => [mkDelivery sample_entropy (seq 0 32)]) (fun _ => 7) 0)
    [] agent_at TEST_KEY 3 true true 0 None 1 false.

Lemma desk_small : small_screens (B:=desk).
Proof. by intros b screen b' [= <- _]. Qed.

Lemma desk_in_touch d : in_touch (desk_client d) d None.
Proof.
  apply (new_in_touch (network (desk_client d)) d TEST_KEY (S754_finite false 1 0) 3 true true 0); try done.
  intros i. exists sample_entropy. by split.
Qed.

Definition stocked : desk :=
  mkDesk (mkMemory [] [(py "A.TXT", [x61; x62])] memory_screen memory_graphics).

Lemma remote_send_keys_witness :
  exists u', in_touch u' (mkDesk (mkMemory [(py "dir", [py "ENTER"])] [] memory_screen memory_graphics)) None /\
    same_settings (desk_client empty_desk) u' /\
    send_keys (py "dir") [py "enter"] 0 0 (desk_client empty_desk) =
      (Ok (Models.mkKeyReceipt 3 1 [py "ENTER"] 1), u').
Proof.
  refine (remote_send_keys desk_small (py "dir") [py "enter"] 0 0 (desk_client empty_desk) empty_desk None
    [x64; x69; x72] [KeyCode.ENTER] (Ok (Models.mkKeyReceipt 3 1 [py "ENTER"] 1)) _ (desk_in_touch _)
    _ _ _ _ _ _ _ _ _); [by vm_compute..|intros receipt [= <-]; by vm_compute].
Defined.

Lemma remote_capture_screen_witness :
  exists u', in_touch u' stocked None /\ same_settings (desk_client stocked) u' /\
    capture_screen (desk_client stocked) = (Ok (shown memory_screen), u') /\
    forall s, same_picture s (shown s) /\
      (Models.start_scanline (Models.cursor s) = None -> Models.end_scanline (Models.cursor s) = None ->
       Models.cursor_visible (Models.cursor (shown s)) = true).
Proof.
  refine (remote_capture_screen desk_small (desk_client stocked) stocked None (Ok memory_screen) stocked
    (desk_in_touch _) eq_refl eq_refl _).
  intros s [= <-]. split; [by apply (Models.text_screen_check_Ok memory_screen tt)|by vm_compute].
Defined.

Lemma remote_download_file_witness :
  exists u', in_touch u' stocked None /\ same_settings (desk_client stocked) u' /\
    download_file (py "A.TXT") (desk_client stocked) =
      (Ok (Models.mkFileContents (py "A.TXT") [x61; x62] (crc32_from 0 [x61; x62])), u').
Proof.
  refine (remote_download_file desk_small (py "A.TXT") (desk_client stocked) stocked
    [x41; x2e; x54; x58; x54] (Ok (Models.mkFileContents (py "A.TXT") [x61; x62] (crc32_from 0 [x61; x62])))
    stocked (desk_in_touch _) _ _ _ _ eq_refl _); [by vm_compute|by vm_compute| |by vm_compute|].
  - split; [by vm_compute|]. apply (bool_decide_eq_true_1 (x00 ∉ _)). by vm_compute.
  - intros c [= <-]. by vm_compute.
Defined.

Lemma remote_capture_graphics_witness :
  exists u', in_touch u' stocked None /\ same_settings (desk_client stocked) u' /\
    capture_graphics (desk_client stocked) = (Ok (shown_graphics memory_graphics), u').
Proof.
  refine (remote_capture_graphics desk_small (desk_client stocked) stocked (Ok memory_graphics) stocked
    (desk_in_touch _) eq_refl eq_refl _).
  intros g [= <-]. split; [by apply (Models.graphics_screen_check_Ok memory_graphics tt)|].
  exists GraphicsLayout.PACKED_8BPP. by vm_compute.
Defined.

Lemma remote_upload_file_witness :
  exists u', in_touch u' (mkDesk (mkMemory [] [(py "B", [x01])] memory_screen memory_graphics)) None /\
    same_settings (desk_client empty_desk) u' /\
    upload_file (py "B") [x01] true (desk_client empty_desk) =
      (Ok (Models.mkFileReceipt (py "B") 1 (crc32_from 0 [x01])), u').
Proof.
  refine (remote_upload_file desk_small (py "B") [x01] true (desk_client empty_desk) empty_desk
    [x42] (Ok (Models.mkFileReceipt (py "B") 1 (crc32_from 0 [x01]))) _ (desk_in_touch _) _ _ _ _ _ eq_refl _);
    [by vm_compute|by vm_compute| |by vm_compute|by vm_compute|].
  - split; [by vm_compute|]. apply (bool_decide_eq_true_1 (x00 ∉ _)). by vm_compute.
  - intros c [= <-]. by vm_compute.
Defined.
