(* ===== verification/Files.v ===== *)
(** * Paths and the file system

    [pathlib]'s paths on a POSIX system, and the file operations the Linux target
    uses, as a class: the operating system decides what they return.  [FilesLaws]
    states their documented effect on the contents of the files. *)
From S2P Require Import Prelude PyStr State.

(** ** [pathlib.PurePosixPath] *)
Record path := mkPath { path_root : pystr; parts : list pystr }.

#[export] Instance path_eq_dec : EqDecision path.
Proof. solve_decision. Defined.

(** [s.split("/")] *)
Fixpoint split_slashes (s : pystr) : list pystr :=
  match s with
  | [] => [[]]
  | c :: s =>
      if c =? 47 then [] :: split_slashes s
      else match split_slashes s with
           | w :: ws => (c :: w) :: ws
           | [] => [[c]]
           end
  end.

(** Exactly two leading slashes are a root of their own. *)
Definition root_of (s : pystr) : pystr :=
  match s with
  | 47 :: 47 :: 47 :: _ => [47]
  | 47 :: 47 :: _ => [47; 47]
  | 47 :: _ => [47]
  | _ => []
  end.

(** [Path(s)]: empty parts and single dots are dropped, double dots kept. *)
Definition path_of (s : pystr) : path :=
  mkPath (root_of s)
    (filter (fun w => w <> [] /\ w <> [46]) (split_slashes s)).

Definition is_absolute (p : path) : bool := bool_decide (path_root p <> []).

(** [a / b] *)
Definition joinpath (a b : path) : path :=
  if is_absolute b then b else mkPath (path_root a) (parts a ++ parts b).

(** [str(p)] *)
Definition path_str (p : path) : pystr :=
  match path_root p ++ join [47] (parts p) with [] => [46] | s => s end.

Definition parent (p : path) : path := mkPath (path_root p) (removelast (parts p)).

(** [p] is [q] or one of its descendants. *)
Definition is_relative_to (p q : path) : bool :=
  bool_decide (path_root p = path_root q) && bool_decide (parts q `prefix_of` parts p).

Definition relative_to (p q : path) : result path :=
  if is_relative_to p q then Ok (mkPath [] (drop (length (parts q)) (parts p)))
  else raise ValueError (repr (path_str p) ++ py " is not in the subpath of " ++ repr (path_str q)).

Example path_examples :
  path_of (py "/srv//a/./b/") = mkPath (py "/") [py "srv"; py "a"; py "b"] /\
  path_of (py "") = mkPath [] [] /\ path_of (py "../x") = mkPath [] [py ".."; py "x"] /\
  path_str (path_of (py "//a")) = py "//a" /\ path_str (path_of (py "///a")) = py "/a" /\
  is_ok (relative_to (path_of (py "/srv/a")) (path_of (py "/srv"))) = true /\
  is_ok (relative_to (path_of (py "/srvx")) (path_of (py "/srv"))) = false.
Proof. by vm_compute. Qed.

(** ** The file system *)
Class Files (W : Type) := {
  expanduser (p : path) : stateful W path;
  resolve (p : path) : stateful W path;
  is_dir (p : path) : stateful W bool;
  is_file (p : path) : stateful W bool;
  exists_ (p : path) : stateful W bool;
  read_bytes (p : path) : stateful W bytes;
  (* [NamedTemporaryFile(dir=dir, prefix="DOSMCP-", suffix=".TMP", delete=False)] *)
  named_temporary_file (dir : path) : stateful W path;
  (* on the open temporary file: [write], [flush] and [os.fsync]; closing it *)
  write_synced (p : path) (data : bytes) : stateful W unit;
  close_temporary (p : path) : stateful W unit;
  replace (source target : path) : stateful W unit;
  unlink (p : path) : stateful W unit }.
#[global] Hint Mode Files ! : typeclass_instances.

(** ** What the operations do to the files

    [contents w p]: what the regular file at [p] holds, if there is one.  The last group
    says that a call of the system returns. *)
Class FilesLaws (W : Type) `{Files W} := {
  contents : W -> path -> option bytes;
  resolve_keeps p w q : contents (resolve p w).2 q = contents w q;
  is_dir_keeps p w q : contents (is_dir p w).2 q = contents w q;
  is_file_keeps p w q : contents (is_file p w).2 q = contents w q;
  exists_keeps p w q : contents (exists_ p w).2 q = contents w q;
  read_bytes_keeps p w q : contents (read_bytes p w).2 q = contents w q;
  close_temporary_keeps p w q : contents (close_temporary p w).2 q = contents w q;
  exists_false p w w' : exists_ p w = (Ok false, w') -> contents w p = None;
  read_bytes_Ok p w data w' : read_bytes p w = (Ok data, w') -> contents w p = Some data;
  temporary_Ok dir w t w' :
    named_temporary_file dir w = (Ok t, w') ->
    contents w t = None /\ forall q, contents w' q = if decide (q = t) then Some [] else contents w q;
  temporary_Err dir w e w' q :
    named_temporary_file dir w = (Err e, w') -> contents w' q = contents w q;
  write_synced_other t data w q :
    q <> t -> contents (write_synced t data w).2 q = contents w q;
  write_synced_Ok t data w u w' :
    write_synced t data w = (Ok u, w') -> contents w t = Some [] -> contents w' t = Some data;
  replace_Ok source target w u w' q :
    replace source target w = (Ok u, w') ->
    contents w' q = if decide (q = target) then contents w source
                    else if decide (q = source) then None else contents w q;
  replace_Err source target w e w' q :
    replace source target w = (Err e, w') -> contents w' q = contents w q;
  unlink_other p w q : q <> p -> contents (unlink p w).2 q = contents w q;
  resolve_returns p : comes_back (S:=W) (resolve p);
  is_dir_returns p : comes_back (S:=W) (is_dir p);
  is_file_returns p : comes_back (S:=W) (is_file p);
  exists_returns p : comes_back (S:=W) (exists_ p);
  read_bytes_returns p : comes_back (S:=W) (read_bytes p);
  temporary_returns dir : comes_back (S:=W) (named_temporary_file dir);
  write_synced_returns t data : comes_back (S:=W) (write_synced t data);
  close_temporary_returns t : comes_back (S:=W) (close_temporary t);
  replace_returns source target : comes_back (S:=W) (replace source target);
  unlink_returns p : comes_back (S:=W) (unlink p) }.
#[global] Hint Mode FilesLaws ! - : typeclass_instances.
