(* ===== verification/Linux.v ===== *)
(** * The Linux terminal target ([backends/linux.py])

    A shell on a pseudo-terminal whose output drives the terminal emulator, and
    the file transfers below the configured root.  The kernel is a parameter: the
    file operations of [Files], and the processes and descriptors of [Shell]. *)
From S2P Require Import Prelude PyFloat Struct Crc PyText PyStr State Backend Files.
From S2P Require Models Terminal.

Definition MAX_TEXT_BYTES : Z := 4096.
Definition MAX_KEYS : Z := 128.
Definition MAX_SEND_DELAY_MS : Z := 30000.
Definition MAX_DRAIN_BYTES : Z := 1048576.
Definition MAX_FILE_BYTES : Z := 1048576.

Definition KEY_SEQUENCES : list (pystr * bytes) :=
  let esc s := x1b :: ascii_bytes s in
  [(py "ENTER", [x0d]); (py "ESC", [x1b]); (py "TAB", [x09]); (py "BACKSPACE", [x7f]);
   (py "CTRL_C", [x03]); (py "CTRL_D", [x04]);
   (py "UP", esc "[A"); (py "DOWN", esc "[B"); (py "RIGHT", esc "[C"); (py "LEFT", esc "[D");
   (py "HOME", esc "[H"); (py "END", esc "[F"); (py "DELETE", esc "[3~");
   (py "PAGE_UP", esc "[5~"); (py "PAGE_DOWN", esc "[6~");
   (py "F1", esc "OP"); (py "F2", esc "OQ"); (py "F3", esc "OR"); (py "F4", esc "OS");
   (py "F5", esc "[15~"); (py "F6", esc "[17~"); (py "F7", esc "[18~"); (py "F8", esc "[19~");
   (py "F9", esc "[20~"); (py "F10", esc "[21~"); (py "F11", esc "[23~"); (py "F12", esc "[24~")].

Definition key_sequence (key : pystr) : option bytes :=
  match List.find (fun p => bool_decide (p.1 = key)) KEY_SEQUENCES with
  | Some p => Some p.2
  | None => None
  end.

(** ** The kernel's side of the shell *)
Record uname_result := mkUname {
  uname_system : pystr; uname_node : pystr; uname_release : pystr; uname_machine : pystr }.

Inductive signal := SIGTERM | SIGKILL.

(** Descriptors and processes are integers.  [write_rounds fd value w] are the rounds
    that [_write]'s loop takes from here where it ends; where nothing ever reads the
    terminal's input it does not end, whatever the number. *)
Class Shell (W : Type) := {
  shell_clock :: Clock W;
  uname : stateful W uname_result;
  openpty : stateful W (Z * Z);
  set_window_size (fd : Z) (size : bytes) : stateful W unit;
  set_nonblocking (fd : Z) : stateful W unit;
  popen (argv : list pystr) (fd : Z) (cwd : path) (env : list (pystr * pystr)) : stateful W Z;
  poll (process : Z) : stateful W (option Z);
  killpg (process : Z) (s : signal) : stateful W unit;
  wait (process : Z) (timeout : spec_float) : stateful W unit;
  os_read (fd : Z) (n : Z) : stateful W bytes;
  os_write (fd : Z) (data : bytes) : stateful W Z;
  select_readable (fd : Z) (timeout : spec_float) : stateful W bool;
  select_writable (fd : Z) (timeout : spec_float) : stateful W unit;
  os_close (fd : Z) : stateful W unit;
  sleep (delay : spec_float) : stateful W unit;
  write_rounds : Z -> bytes -> W -> nat }.
#[global] Hint Mode Shell ! : typeclass_instances.

Record LinuxTerminalBackend (W : Type) := mkLinux {
  os : W;
  root : path;
  shell : pystr;
  columns : Z;
  rows : Z;
  allow_file_read : bool;
  allow_file_write : bool;
  _terminal : Terminal.TerminalBuffer;
  _master_fd : option Z;
  _process : option Z;
  _started_at : spec_float;
  _closed : bool }.
Arguments mkLinux {W}.
Arguments os {W}.
Arguments root {W}.
Arguments shell {W}.
Arguments columns {W}.
Arguments rows {W}.
Arguments allow_file_read {W}.
Arguments allow_file_write {W}.
Arguments _terminal {W}.
Arguments _master_fd {W}.
Arguments _process {W}.
Arguments _started_at {W}.
Arguments _closed {W}.

Section Updates.
Context {W : Type}.
Implicit Types (b : LinuxTerminalBackend W).

Definition set_os (w : W) b := mkLinux w (root b) (shell b) (columns b) (rows b)
  (allow_file_read b) (allow_file_write b) (_terminal b) (_master_fd b) (_process b)
  (_started_at b) (_closed b).
Definition set_terminal t b := mkLinux (os b) (root b) (shell b) (columns b) (rows b)
  (allow_file_read b) (allow_file_write b) t (_master_fd b) (_process b)
  (_started_at b) (_closed b).
Definition set_master_fd fd b := mkLinux (os b) (root b) (shell b) (columns b) (rows b)
  (allow_file_read b) (allow_file_write b) (_terminal b) fd (_process b)
  (_started_at b) (_closed b).
Definition set_process p b := mkLinux (os b) (root b) (shell b) (columns b) (rows b)
  (allow_file_read b) (allow_file_write b) (_terminal b) (_master_fd b) p
  (_started_at b) (_closed b).
Definition set_closed b := mkLinux (os b) (root b) (shell b) (columns b) (rows b)
  (allow_file_read b) (allow_file_write b) (_terminal b) (_master_fd b) (_process b)
  (_started_at b) true.
End Updates.

(** [with suppress(cls)] *)
Definition suppress {S} (cls : exn_class) (m : stateful S unit) : stateful S unit :=
  catch m (fun e => if bool_decide (exn_cls e = cls) then mret tt else fail e).

Section Linux.
Context {W : Type} `{Files W} `{Shell W}.
Local Abbreviation M := (stateful (LinuxTerminalBackend W)).

(** An operation of the kernel, and one of the terminal. *)
Definition in_os {A} (m : stateful W A) : M A := fun b =>
  let '(r, w) := m (os b) in (r, set_os w b).
Definition in_terminal {A} (m : stateful Terminal.TerminalBuffer A) : M A := fun b =>
  let '(r, t) := m (_terminal b) in (r, set_terminal t b).
Definition now : M spec_float := in_os read_clock.

(** [LinuxTerminalBackend.__init__] *)
Definition new_linux (root : path) (shell : pystr) (columns rows : Z)
    (allow_file_read allow_file_write : bool) : stateful W (LinuxTerminalBackend W) :=
  expanded ← expanduser root;
  resolved_root ← resolve expanded;
  directory ← is_dir resolved_root;
  lift (raise_if (negb directory) ValueError
    (py "backend root is not a directory: " ++ path_str resolved_root));;
  lift (raise_if (negb (is_absolute (path_of shell))) ValueError
    (py "shell must be an absolute path"));;
  present ← is_file (path_of shell);
  lift (raise_if (negb present) ValueError (py "shell does not exist: " ++ shell));;
  terminal ← lift (Terminal.new_terminal columns rows);
  started_at ← read_clock;
  w ← get;
  mret (mkLinux w resolved_root shell columns rows allow_file_read allow_file_write terminal
    None None started_at false).

(** ** The shell's output *)

(** The inner loop of [_drain]; [true] when [_drain] itself returns. *)
Fixpoint read_loop (fuel : nat) (fd : Z) (deadline : spec_float) (consumed : Z) : M (bool * Z) :=
  match fuel with
  | O => out_of_rounds
  | S fuel =>
      t ← now;
      if SFltb t deadline && (consumed <? MAX_DRAIN_BYTES) then
        r ← attempt (in_os (os_read fd 65536));
        match r with
        | Err e =>
            if bool_decide (exn_cls e = BlockingIOError) then mret (false, consumed)
            else if is_os_error (exn_cls e) then mret (true, consumed)
            else fail e
        | Ok [] => mret (true, consumed)
        | Ok data =>
            in_terminal (Terminal.feed_bytes data);;
            read_loop fuel fd deadline (consumed + len data)
        end
      else mret (false, consumed)
  end.

Fixpoint drain_loop (fuel : nat) (fd : Z) (deadline : spec_float) (consumed : Z) : M unit :=
  match fuel with
  | O => out_of_rounds
  | S fuel =>
      t ← now;
      if SFltb t deadline && (consumed <? MAX_DRAIN_BYTES) then
        t ← now;
        readable ← in_os (select_readable fd (at_least_zero (float_sub deadline t)));
        if negb readable then mret tt
        else
          r ← read_loop fuel fd deadline consumed;
          if r.1 : bool then mret tt else drain_loop fuel fd deadline r.2
      else mret tt
  end.

(** Every round but the last ones reads a byte ([LinuxShell.drain_ends]). *)
Definition DRAIN_ROUNDS : nat := Z.to_nat (MAX_DRAIN_BYTES + 3).

Definition _drain (timeout : spec_float) : M unit :=
  fd ← gets _master_fd;
  match fd with
  | None => mret tt
  | Some fd => t ← now; drain_loop DRAIN_ROUNDS fd (float_add t timeout) 0
  end.

(** ** The shell's input *)
Fixpoint write_loop (fuel : nat) (fd : Z) (value : bytes) : M unit :=
  match fuel, value with
  | _, [] => mret tt
  | O, _ => out_of_rounds
  | S fuel, _ =>
      r ← attempt (in_os (os_write fd value));
      match r with
      | Ok n => write_loop fuel fd (drop (Z.to_nat n) value)
      | Err e =>
          if bool_decide (exn_cls e = BlockingIOError) then
            in_os (select_writable fd (int_div 1 10));;
            write_loop fuel fd value
          else fail e
      end
  end.

Definition _write (value : bytes) : M unit :=
  fd ← gets _master_fd;
  match fd with
  | None => fail (Exn RuntimeError (py "backend PTY is not available"))
  | Some fd =>
      fuel ← gets (fun b => write_rounds fd value (os b));
      write_loop (S fuel) fd value
  end.

(** ** The life of the shell *)
Definition environment (root : path) : list (pystr * pystr) :=
  [(py "HOME", path_str root);
   (py "PATH", py "/usr/local/bin:/usr/bin:/bin");
   (py "TERM", py "dumb");
   (py "LANG", py "C.UTF-8");
   (py "LC_ALL", py "C.UTF-8");
   (py "PS1", py "LINUX> ")].

Definition _ensure_started : M unit :=
  b ← get;
  if _closed b then fail (Exn RuntimeError (py "backend is closed")) else
  match _process b with
  | Some _ => mret tt
  | None =>
      fds ← in_os openpty;
      let '(master_fd, slave_fd) := fds in
      size ← lift (pack [FH; FH; FH; FH] ⟨rows b, columns b, 0, 0⟩);
      in_os (set_window_size slave_fd size);;
      in_os (set_nonblocking master_fd);;
      finally
        (catch
           (process ← in_os (popen [shell b; py "-i"] slave_fd (root b) (environment (root b)));
            modify (set_process (Some process)))
           (fun e => in_os (os_close master_fd);; fail e))
        (in_os (os_close slave_fd));;
      modify (set_master_fd (Some master_fd));;
      _drain (int_div 3 20)
  end.

(** The [except] clause of [close]. *)
Definition kill (process : Z) : M unit :=
  running ← in_os (poll process);
  match running with
  | Some _ => mret tt
  | None =>
      suppress ProcessLookupError (in_os (killpg process SIGKILL));;
      in_os (wait process (int_div 1 2))
  end.

Definition terminate (process : Z) : M unit :=
  running ← in_os (poll process);
  match running with
  | Some _ => mret tt
  | None =>
      catch (in_os (killpg process SIGTERM);; in_os (wait process (int_div 1 2)))
        (fun e =>
           if bool_decide (exn_cls e = ProcessLookupError) || bool_decide (exn_cls e = TimeoutExpired)
           then kill process else fail e)
  end.

Definition linux_close : M unit :=
  b ← get;
  if _closed b then mret tt else
  modify set_closed;;
  modify (set_process None);;
  match _process b with Some process => terminate process | None => mret tt end;;
  match _master_fd b with
  | Some fd => in_os (os_close fd);; modify (set_master_fd None)
  | None => mret tt
  end.

(** ** Files *)
Definition _resolve_file (root : path) (file : pystr) : stateful W path :=
  let relative := path_of file in
  lift (raise_if (is_absolute relative) ValueError
    (py "file path must be relative to the configured root"));;
  target ← resolve (joinpath root relative);
  lift (match relative_to target root with
        | Ok _ => Ok tt
        | Err _ => raise ValueError (py "file path escapes the configured root")
        end);;
  mret target.

Definition read_file (root : path) (file : pystr) : stateful W Models.FileContents :=
  target ← _resolve_file root file;
  present ← is_file target;
  lift (raise_if (negb present) FileNotFoundError file);;
  data ← read_bytes target;
  lift (raise_if (MAX_FILE_BYTES <? len data) ValueError
    (py "file exceeds the backend download limit"));;
  mret (Models.mkFileContents file data (crc32 data)).

(** The body of the [with] statement; the file is closed whatever happens. *)
Definition write_temporary (t : path) (data : bytes) : stateful W unit :=
  catch (write_synced t data) (fun e => close_temporary t;; fail e);;
  close_temporary t.

(** The last steps of the [try]: the temporary file takes the target's place. *)
Definition put_in_place (t target : path) (file : pystr) (overwrite : bool) : stateful W unit :=
  present ← exists_ target;
  lift (raise_if (present && negb overwrite) FileExistsError file);;
  replace t target.

Definition write_file (root : path) (file : pystr) (data : bytes) (overwrite : bool) :
    stateful W Models.FileReceipt :=
  target ← _resolve_file root file;
  directory ← is_dir (parent target);
  lift (raise_if (negb directory) FileNotFoundError
    (py "parent directory does not exist: " ++ file));;
  present ← exists_ target;
  lift (raise_if (present && negb overwrite) FileExistsError file);;
  t ← named_temporary_file (parent target);
  catch (write_temporary t data;; put_in_place t target file overwrite)
    (fun e => suppress FileNotFoundError (unlink t);; fail e);;
  mret (Models.mkFileReceipt file (len data) (crc32 data)).

(** ** The target's operations *)
Definition linux_get_status : M Models.MachineStatus :=
  _ensure_started;;
  process ← gets _process;
  running ← match process with
            | Some p => r ← in_os (poll p); mret (bool_decide (r = None))
            | None => mret false
            end;
  u ← in_os uname;
  t ← now;
  started_at ← gets _started_at;
  mret (Models.mkMachineStatus running
    (if running : bool then py "agent_shell_ready" else py "host_unresponsive")
    (py "linux-terminal") (py "local-pty")
    (match uname_node u with [] => py "localhost" | node => node end)
    (uname_system u ++ py " " ++ uname_release u) (uname_machine u) (py "0.1.0")
    (round3 (float_sub t started_at))).

Definition linux_get_capabilities : M Models.Capabilities :=
  _ensure_started;;
  b ← get;
  mret (Models.mkCapabilities (py "linux-terminal") (py "local-pty") true true []
    (Some (py "terminal-sequences")) (columns b) (rows b) MAX_TEXT_BYTES MAX_KEYS
    (allow_file_read b) (allow_file_write b) false false false false false false).

Definition linux_capture_screen : M Models.TextScreen :=
  _ensure_started;;
  _drain (int_div 1 20);;
  t ← gets _terminal;
  lift (Terminal.snapshot t).

Definition linux_capture_graphics : M Models.GraphicsScreen :=
  fail (Exn NotImplementedError (py "the Linux terminal backend has no graphics screen")).

Definition linux_download_file (file : pystr) : M Models.FileContents :=
  b ← get;
  lift (raise_if (negb (allow_file_read b)) PermissionError
    (py "file downloads are disabled by backend policy"));;
  in_os (read_file (root b) file).

Definition linux_upload_file (file : pystr) (data : bytes) (overwrite : bool) :
    M Models.FileReceipt :=
  b ← get;
  lift (raise_if (negb (allow_file_write b)) PermissionError
    (py "file uploads are disabled by backend policy"));;
  lift (raise_if (MAX_FILE_BYTES <? len data) ValueError
    (py "file exceeds the backend upload limit"));;
  in_os (write_file (root b) file data overwrite).

(** Text first, a byte at a time when there is a delay, then the named keys. *)
Definition type_text (encoded : bytes) (delay : Z) : M unit :=
  if delay =? 0 then match encoded with [] => mret tt | _ => _write encoded end
  else each (fun b => _write [b];; in_os (sleep (int_div delay 1000))) encoded.

Definition type_key (delay : Z) (key : pystr) : M unit :=
  _write (default [] (key_sequence key));;
  if delay =? 0 then mret tt else in_os (sleep (int_div delay 1000)).

Definition check_keys (encoded : bytes) (keys : list pystr) (inter_key_delay_ms settle_ms : Z) :
    result unit :=
  raise_if (MAX_TEXT_BYTES <? len encoded) ValueError
    (py "text exceeds " ++ py_int MAX_TEXT_BYTES ++ py " encoded bytes");;
  raise_if (MAX_KEYS <? len keys) ValueError
    (py "keys exceeds " ++ py_int MAX_KEYS ++ py " items");;
  raise_if (negb ((0 <=? inter_key_delay_ms) && (inter_key_delay_ms <=? 1000))) ValueError
    (py "inter_key_delay_ms must be between 0 and 1000");;
  raise_if (negb ((0 <=? settle_ms) && (settle_ms <=? 2000))) ValueError
    (py "settle_ms must be between 0 and 2000");;
  raise_if (MAX_SEND_DELAY_MS <? (len encoded + len keys) * inter_key_delay_ms) ValueError
    (py "total inter-key delay exceeds " ++ py_int MAX_SEND_DELAY_MS ++ py " milliseconds");;
  let unknown := filter (fun key => key_sequence key = None) (upper <$> keys) in
  raise_if (negb (bool_decide (unknown = []))) ValueError
    (py "unsupported keys " ++ repr_list unknown ++ py "; allowed keys: " ++
     join (py ", ") (sorted_by id KEY_SEQUENCES.*1)).

Definition linux_send_keys (text : pystr) (keys : list pystr) (inter_key_delay_ms settle_ms : Z) :
    M Models.KeyReceipt :=
  _ensure_started;;
  encoded ← lift (utf8_encode text);
  lift (check_keys encoded keys inter_key_delay_ms settle_ms);;
  let normalized := upper <$> keys in
  type_text encoded inter_key_delay_ms;;
  each (type_key inter_key_delay_ms) normalized;;
  _drain (int_div settle_ms 1000);;
  generation ← gets (fun b => Terminal.generation (_terminal b));
  mret (Models.mkKeyReceipt (len encoded) (len normalized) normalized generation).

#[global] Instance linux_backend : Backend (LinuxTerminalBackend W) := {|
  get_status := linux_get_status;
  get_capabilities := linux_get_capabilities;
  capture_screen := linux_capture_screen;
  capture_graphics := linux_capture_graphics;
  send_keys := linux_send_keys;
  download_file := linux_download_file;
  upload_file := linux_upload_file;
  close := linux_close |}.
End Linux.
