(* ===== verification/LinuxFiles.v ===== *)
(** * File transfers of the Linux target

    What [download_file] and [upload_file] do to the files of the system, on every
    outcome, and that they stay below the configured root. *)
From S2P Require Import Prelude PyFloat Crc PyText State Backend Files Linux.
From S2P Require Models Terminal.

Section Files.
Context {W : Type} `{FilesLaws W}.

(** The files outside of [P] may change. *)
Definition spares (P : path -> Prop) (w w' : W) : Prop :=
  forall q, P q -> contents w' q = contents w q.

#[local] Instance spares_preorder P : PreOrder (spares P).
Proof. split; [by intros w q|]. intros w1 w2 w3 H12 H23 q Hq. by rewrite H23, H12. Qed.

Lemma spares_weaken (P Q : path -> Prop) w w' :
  (forall q, Q q -> P q) -> spares P w w' -> spares Q w w'.
Proof. intros HPQ HP q Hq. by apply HP, HPQ. Qed.

Lemma keeps_suppress R `{!PreOrder R} cls (m : stateful W unit) : keeps R m -> keeps R (suppress cls m).
Proof. intros Hm. apply keeps_catch; [done..|]. intros e. case_match; [apply keeps_ret|apply keeps_lift]; apply _. Qed.

Lemma resolve_file_keeps root file P : keeps (spares P) (_resolve_file root file).
Proof.
  unfold _resolve_file. apply keeps_bind_lift; [apply _|]. intros _ _.
  apply keeps_bind; [apply _| |].
  - intros w q _. apply resolve_keeps.
  - intros target. apply keeps_bind_lift; [apply _|]. intros _ _. apply keeps_ret, _.
Qed.

(** [(self.root / path).resolve()] *)
Definition resolves_to (root : path) (file : pystr) (w : W) (target : path) : Prop :=
  (resolve (joinpath root (path_of file)) w).1 = Ok target.

Lemma resolve_file_Ok root file (w : W) target w' :
  _resolve_file root file w = (Ok target, w') ->
  resolves_to root file w target /\ is_relative_to target root = true.
Proof.
  unfold _resolve_file. intros [(? & ? & ?)|([] & w1 & Hw & H1)]%bind_inv; [done|].
  injection Hw as _ <-. apply bind_inv in H1 as [(? & ? & ?)|(t & w2 & Ht & H2)]; [done|].
  apply bind_inv in H2 as [(? & ? & ?)|([] & w3 & E & H3)]; [done|].
  injection H3 as <- <-. unfold lift, relative_to in E. unfold resolves_to.
  rewrite Ht. by destruct (is_relative_to t root).
Qed.

(** *** Download *)
Lemma read_file_spares root file P : keeps (spares P) (read_file root file).
Proof.
  unfold read_file. apply keeps_bind; [apply _|apply resolve_file_keeps|]. intros target.
  apply keeps_bind; [apply _| |].
  { intros w q _. apply is_file_keeps. }
  intros present. apply keeps_bind_lift; [apply _|]. intros _ _.
  apply keeps_bind; [apply _| |].
  { intros w q _. apply read_bytes_keeps. }
  intros data. apply keeps_bind_lift; [apply _|]. intros _ _. apply keeps_ret, _.
Qed.

Lemma read_file_Ok root file (w : W) f w' :
  read_file root file w = (Ok f, w') ->
  exists target data, resolves_to root file w target /\ is_relative_to target root = true /\
    contents w target = Some data /\ len data <= MAX_FILE_BYTES /\ f = Models.mkFileContents file data (crc32 data).
Proof.
  unfold read_file. intros [(? & ? & ?)|(target & w1 & Hr & H1)]%bind_inv; [done|].
  apply bind_inv in H1 as [(? & ? & ?)|(present & w2 & Hp & H2)]; [done|].
  apply bind_inv in H2 as [(? & ? & ?)|([] & w3 & [= ? <-] & H3)]; [done|].
  apply bind_inv in H3 as [(? & ? & ?)|(data & w4 & Hd & H4)]; [done|].
  apply bind_inv in H4 as [(? & ? & ?)|([] & w5 & [= Hl <-] & [= <- <-])]; [done|].
  exists target, data. apply raise_if_Ok in Hl. apply resolve_file_Ok in Hr as Hrel. destruct Hrel as [Hres Hrel].
  split_and!; [done|done| |lia|done].
  pose proof (resolve_file_keeps root file (fun _ => True) w target I) as Hk. rewrite Hr in Hk.
  rewrite <- Hk. cbn [snd]. pose proof (is_file_keeps target w1 target) as Hk2. rewrite Hp in Hk2.
  rewrite <- Hk2. cbn [snd]. by eapply read_bytes_Ok.
Qed.

(** *** Upload *)
Lemma write_temporary_spares t data : keeps (spares (.≠ t)) (write_temporary t data).
Proof.
  assert (Hc : keeps (spares (.≠ t)) (close_temporary t))
    by (intros w q _; apply close_temporary_keeps).
  unfold write_temporary. apply keeps_bind; [apply _| |done].
  apply keeps_catch; [apply _| |].
  - intros w q Hq. by apply write_synced_other.
  - intros e. apply keeps_bind; [apply _|done|]. intros _. apply keeps_lift, _.
Qed.

Lemma write_temporary_Ok t data (w : W) u w' :
  write_temporary t data w = (Ok u, w') -> contents w t = Some [] -> contents w' t = Some data.
Proof.
  unfold write_temporary. intros [(? & ? & ?)|([] & w1 & H1 & H2)]%bind_inv Ht; [done|].
  pose proof (close_temporary_keeps t w1 t) as Hk. rewrite H2 in Hk. cbn [snd] in Hk. rewrite Hk.
  apply catch_inv in H1 as [([] & H3 & _)|[(e & w2 & _ & _ & H3)|(e & _ & _ & [=])]].
  - by eapply write_synced_Ok.
  - apply bind_inv in H3 as [(? & ? & ?)|(? & ? & ? & ?)]; done.
Qed.

Lemma put_in_place_cases t target file overwrite (w : W) r w' :
  put_in_place t target file overwrite w = (r, w') ->
  match r with
  | Ok _ => (overwrite = false -> contents w target = None) /\
      forall q, contents w' q = if decide (q = target) then contents w t
                                else if decide (q = t) then None else contents w q
  | Err _ => forall q, contents w' q = contents w q
  end.
Proof.
  pose proof (exists_keeps target w) as Hk. unfold put_in_place.
  intros [(e & He & ->)|(present & w1 & He & H1)]%bind_inv; rewrite He in Hk; cbn [snd] in Hk; [done|].
  apply bind_inv in H1 as [(e & [= _ <-] & ->)|([] & w2 & [= Hg <-] & H2)]; [done|].
  destruct r as [u|e].
  - split.
    + intros ->. apply raise_if_Ok in Hg. rewrite andb_true_r in Hg. subst present.
      by apply exists_false in He.
    + intros q. rewrite (replace_Ok _ _ _ _ _ q H2). by rewrite !Hk.
  - intros q. by rewrite (replace_Err _ _ _ _ _ q H2).
Qed.

(** The [try] statement, from the state in which the temporary file exists. *)
Lemma staged_cases t data target file overwrite (w : W) r w' :
  contents w t = Some [] ->
  catch (write_temporary t data;; put_in_place t target file overwrite)
    (fun e => suppress FileNotFoundError (unlink t);; fail e) w = (r, w') ->
  match r with
  | Ok _ => (overwrite = false -> target <> t -> contents w target = None) /\
      forall q, contents w' q = if decide (q = target) then Some data
                                else if decide (q = t) then None else contents w q
  | Err _ => forall q, q <> t -> contents w' q = contents w q
  end.
Proof.
  assert (Hfailed : forall e' w8, (write_temporary t data;; put_in_place t target file overwrite) w = (Err e', w8) ->
    forall q, q <> t -> contents w8 q = contents w q).
  { intros e' w8 H8 q Hq. pose proof (write_temporary_spares t data w q Hq) as Hw.
    apply bind_inv in H8 as [(? & H8 & _)|(? & w9 & H8 & H10)]; rewrite H8 in Hw; [done|].
    apply put_in_place_cases in H10. by rewrite H10. }
  intros Ht [([] & H7 & ->)|[(e' & w8 & H8 & _ & H9)|(e' & H8 & _ & ->)]]%catch_inv; [..|by eapply Hfailed].
  - apply bind_inv in H7 as [(? & ? & ?)|([] & w9 & H8 & H10)]; [done|].
    pose proof (write_temporary_spares t data w) as Hw. rewrite H8 in Hw. cbn [snd] in Hw.
    apply write_temporary_Ok in H8 as Hdata; [|done].
    apply put_in_place_cases in H10 as [Hnone Hall]. split.
    + intros How Hne. rewrite <- Hw by done. by apply Hnone.
    + intros q. rewrite Hall. repeat case_decide; try congruence. by apply Hw.
  - assert (Hkp : keeps (spares (.≠ t)) (suppress FileNotFoundError (unlink t))).
    { apply keeps_suppress; [apply _|]. intros w0 q Hq. by apply unlink_other. }
    assert (exists e, r = Err e /\ forall q, q <> t -> contents w' q = contents w8 q) as (e & -> & H98).
    { apply bind_inv in H9 as [(e & H9 & ->)|(? & ? & H9 & [= <- <-])]; eexists; (split; [done|]);
        intros q Hq; specialize (Hkp w8 q Hq); by rewrite H9 in Hkp. }
    intros q Hq. rewrite (H98 q Hq). by eapply Hfailed.
Qed.

Lemma write_file_cases root file data overwrite (w : W) r w' :
  write_file root file data overwrite w = (r, w') ->
  match r with
  | Ok receipt =>
      receipt = Models.mkFileReceipt file (len data) (crc32 data) /\
      exists target, is_relative_to target root = true /\
        (overwrite = false -> contents w target = None) /\
        forall q, contents w' q = if decide (q = target) then Some data else contents w q
  | Err _ => forall q, contents w q <> None -> contents w' q = contents w q
  end.
Proof.
  unfold write_file. pose proof (resolve_file_keeps root file (fun _ => True) w) as Hk.
  intros [(e & He & ->)|(target & w1 & Hr & H1)]%bind_inv.
  { rewrite He in Hk. intros q _. by apply Hk. }
  apply resolve_file_Ok in Hr as Hrel. destruct Hrel as [_ Hrel]. rewrite Hr in Hk. cbn [snd] in Hk.
  pose proof (is_dir_keeps (parent target) w1) as Hk1.
  apply bind_inv in H1 as [(e & He & ->)|(d & w2 & Hd & H2)]; rewrite ?He, ?Hd in Hk1; cbn [snd] in Hk1.
  { intros q _. rewrite Hk1. by apply Hk. }
  apply bind_inv in H2 as [(e & [= _ <-] & ->)|([] & w3 & [= _ <-] & H3)].
  { intros q _. rewrite Hk1. by apply Hk. }
  pose proof (exists_keeps target w2) as Hk2.
  apply bind_inv in H3 as [(e & He & ->)|(present & w4 & Hp & H4)]; rewrite ?He, ?Hp in Hk2; cbn [snd] in Hk2.
  { intros q _. rewrite Hk2, Hk1. by apply Hk. }
  assert (H04 : forall q, contents w4 q = contents w q).
  { intros q. rewrite Hk2, Hk1. by apply Hk. }
  apply bind_inv in H4 as [(e & [= _ <-] & ->)|([] & w5 & [= _ <-] & H5)]; [by intros q _|].
  apply bind_inv in H5 as [(e & He & ->)|(t & w6 & Ht & H6)].
  { intros q _. by rewrite (temporary_Err _ _ _ _ q He). }
  destruct (temporary_Ok _ _ _ _ Ht) as [Hfresh Hnew].
  assert (Hother : forall q, q <> t -> contents w6 q = contents w q).
  { intros q Hq. by rewrite Hnew, decide_False. }
  assert (Hempty : contents w6 t = Some []) by (by rewrite Hnew, decide_True).
  rewrite H04 in Hfresh. clear Hnew Hk2 Hk1 Hk.
  apply bind_inv in H6 as [(e & H7 & ->)|([] & w7 & H7 & [= <- <-])];
    apply staged_cases in H7; try done.
  - intros q Hq. assert (Hqt : q <> t) by (by intros ->). by rewrite H7, Hother.
  - destruct H7 as [Hnone Hall]. split; [done|]. exists target. split; [done|]. split.
    + intros How. destruct (decide (target = t)) as [->|Hne]; [done|]. rewrite <- Hother by done. by apply Hnone.
    + intros q. rewrite Hall. repeat case_decide; try congruence. by apply Hother.
Qed.
End Files.

Section Transfers.
Context {W : Type} `{FilesLaws W}.
Implicit Types (b : LinuxTerminalBackend W).

(** Every file of [w] still has its contents in [w']. *)
Definition files_kept (w w' : W) : Prop :=
  forall q, contents w q <> None -> contents w' q = contents w q.

(** [w'] is [w] with [data] at [target]. *)
Definition stored_at (target : path) (data : bytes) (w w' : W) : Prop :=
  forall q, contents w' q = if decide (q = target) then Some data else contents w q.

(** Nothing in the files of [w] has changed in [w']. *)
Definition files_same (w w' : W) : Prop := forall q, contents w' q = contents w q.

Lemma linux_upload_cases file data overwrite b r b' :
  linux_upload_file file data overwrite b = (r, b') ->
  match r with
  | Ok receipt =>
      allow_file_write b = true /\ len data <= MAX_FILE_BYTES /\
      receipt = Models.mkFileReceipt file (len data) (crc32 data) /\
      exists target, is_relative_to target (root b) = true /\
        (overwrite = false -> contents (os b) target = None) /\
        stored_at target data (os b) (os b')
  | Err _ => files_kept (os b) (os b')
  end.
Proof.
  unfold linux_upload_file, files_kept, stored_at. intros [(e & [=] & _)|(b0 & b1 & [= <- <-] & H1)]%bind_inv.
  apply bind_inv in H1 as [(e & [= _ <-] & ->)|([] & b1 & [= Hp <-] & H2)]; [done|].
  apply bind_inv in H2 as [(e & [= _ <-] & ->)|([] & b1 & [= Hl <-] & H3)]; [done|].
  apply raise_if_Ok, negb_false_iff in Hp. apply raise_if_Ok in Hl.
  unfold in_os in H3. destruct (write_file _ _ _ _ _) as [r1 w'] eqn:E. injection H3 as -> <-.
  apply write_file_cases in E. destruct r as [receipt|e]; [|exact E].
  destruct E as [-> Ht]. split_and!; try done. lia.
Qed.


(** C13. An upload is all or nothing.  When it returns, writing was permitted, the
    data was within the limit, and the only file of the system that changed is one
    whose resolved path lies below the root: it holds exactly the data, and without
    [overwrite] it did not exist before.  When it raises, at any step (policy,
    limit, escaping path, missing directory, a failing write, sync or rename), every
    file that existed still has its contents: an existing file is never left
    partly written. *)
Theorem upload_atomic file data overwrite b r b' :
  linux_upload_file file data overwrite b = (r, b') ->
  match r with
  | Ok receipt =>
      allow_file_write b = true /\ len data <= MAX_FILE_BYTES /\
      receipt = Models.mkFileReceipt file (len data) (crc32 data) /\
      exists target, is_relative_to target (root b) = true /\
        (overwrite = false -> contents (os b) target = None) /\
        stored_at target data (os b) (os b')
  | Err _ => files_kept (os b) (os b')
  end.
Proof. apply linux_upload_cases. Qed.

Lemma linux_download_cases file b r b' :
  linux_download_file file b = (r, b') ->
  files_same (os b) (os b') /\
  (allow_file_read b = false -> b' = b /\
    r = Err (Exn PermissionError (py "file downloads are disabled by backend policy"))) /\
  (forall f, r = Ok f -> exists target data, resolves_to (root b) file (os b) target /\
    is_relative_to target (root b) = true /\ contents (os b) target = Some data /\ len data <= MAX_FILE_BYTES /\
    f = Models.mkFileContents file data (crc32 data)).
Proof.
  unfold linux_download_file, files_same. intros [(e & [=] & _)|(b0 & b1 & [= <- <-] & H1)]%bind_inv.
  apply bind_inv in H1 as [(e & [= Hp <-] & ->)|([] & b1 & [= Hp <-] & H2)].
  - destruct (allow_file_read b); [done|]. by injection Hp as <-.
  - apply raise_if_Ok, negb_false_iff in Hp. rewrite Hp.
    unfold in_os in H2. destruct (read_file _ _ _) as [r1 w'] eqn:E. injection H2 as -> <-.
    split_and!; [|done|].
    + intros q. cbn [os set_os]. pose proof (read_file_spares (root b) file (fun _ => True) (os b) q I) as Hk.
      by rewrite E in Hk.
    + intros f ->. by apply read_file_Ok in E.
Qed.

(** *** Transfers return *)
Ltac solve_returns :=
  repeat first
    [ apply resolve_returns | apply is_dir_returns | apply is_file_returns | apply exists_returns
    | apply read_bytes_returns | apply temporary_returns | apply write_synced_returns
    | apply close_temporary_returns | apply replace_returns | apply unlink_returns
    | apply comes_back_ret | apply comes_back_raise; [discriminate|]
    | apply comes_back_bind; [|intros ?] | apply comes_back_catch; [|intros ? ?]
    | by apply comes_back_fail ].

Lemma resolve_file_returns root file : comes_back (_resolve_file (W:=W) root file).
Proof.
  unfold _resolve_file. solve_returns. intros w. by case_match.
Qed.

Lemma read_file_returns root file : comes_back (read_file (W:=W) root file).
Proof. unfold read_file. apply comes_back_bind; [apply resolve_file_returns|]. intros target. solve_returns. Qed.

Lemma write_file_returns root file data overwrite : comes_back (write_file (W:=W) root file data overwrite).
Proof.
  unfold write_file, write_temporary, put_in_place. apply comes_back_bind; [apply resolve_file_returns|].
  intros target. solve_returns. case_match; solve_returns.
Qed.

Lemma linux_download_returns file b : ends_in (linux_download_file file b).1 = true.
Proof.
  unfold linux_download_file. cbn [get]. rewrite bind_run. cbn [get]. rewrite bind_run. unfold lift.
  destruct (allow_file_read b); [|done]. cbn [raise_if negb]. unfold in_os.
  pose proof (read_file_returns (root b) file (os b)) as Hr. by destruct (read_file _ _ _).
Qed.

Lemma linux_upload_returns file data overwrite b : ends_in (linux_upload_file file data overwrite b).1 = true.
Proof.
  unfold linux_upload_file. rewrite bind_run. cbn [get]. rewrite bind_run. unfold lift.
  destruct (allow_file_write b); [|done]. cbn [raise_if negb]. rewrite bind_run.
  destruct (MAX_FILE_BYTES <? len data); [done|]. cbn [raise_if]. unfold in_os.
  pose proof (write_file_returns (root b) file data overwrite (os b)) as Hr. by destruct (write_file _ _ _ _ _).
Qed.

(** C14. A download changes no file.  When it returns, reading was permitted, the path,
    joined to the root, resolves to a path below the root, and the data is, byte for
    byte, what the file there holds, within the limit and with its CRC-32; without the permission it raises [PermissionError] and does
    not touch the system at all. *)
Theorem download_exact file b r b' :
  linux_download_file file b = (r, b') ->
  files_same (os b) (os b') /\
  (allow_file_read b = false -> b' = b /\
    r = Err (Exn PermissionError (py "file downloads are disabled by backend policy"))) /\
  (forall f, r = Ok f -> exists target data, resolves_to (root b) file (os b) target /\
    is_relative_to target (root b) = true /\ contents (os b) target = Some data /\ len data <= MAX_FILE_BYTES /\
    f = Models.mkFileContents file data (crc32 data)).
Proof. apply linux_download_cases. Qed.
End Transfers.

(** ** A small file system

    Regular files, directories and a counter for temporary names; [resolve]
    follows double dots and knows no links.  The flag makes every sync fail. *)
Record small_fs := mkFs {
  fs_files : path -> option bytes; fs_dirs : list path; fs_count : Z; fs_broken : bool }.

Definition fs_set (p : path) (x : option bytes) (w : small_fs) : small_fs :=
  mkFs (fun q => if decide (q = p) then x else fs_files w q) (fs_dirs w) (fs_count w) (fs_broken w).

Definition fs_resolve (p : path) : path :=
  mkPath [47] (foldl (fun acc w => if decide (w = py "..") then removelast acc else acc ++ [w]) [] (parts p)).

Definition fs_is_file (w : small_fs) (p : path) : bool := bool_decide (fs_files w p <> None).

#[global] Instance small_files : Files small_fs := {|
  expanduser p := mret p;
  resolve p := mret (fs_resolve p);
  is_dir p := gets (fun w => bool_decide (p ∈ fs_dirs w));
  is_file p := gets (fun w => fs_is_file w p);
  exists_ p := gets (fun w => fs_is_file w p || bool_decide (p ∈ fs_dirs w));
  read_bytes p := fun w =>
    match fs_files w p with
    | Some data => (Ok data, w)
    | None => (raise FileNotFoundError (path_str p), w)
    end;
  named_temporary_file dir := fun w =>
    let t := mkPath (path_root dir)
               (parts dir ++ [py "DOSMCP-" ++ py_int (fs_count w) ++ py ".TMP"]) in
    match fs_files w t with
    | Some _ => (raise FileExistsError (path_str t), w)
    | None => (Ok t, fs_set t (Some []) (mkFs (fs_files w) (fs_dirs w) (fs_count w + 1) (fs_broken w)))
    end;
  write_synced t data := fun w =>
    if fs_broken w then (raise OSError (py "I/O error"), fs_set t (Some (take 1 data)) w)
    else (Ok tt, fs_set t (Some data) w);
  close_temporary _ := mret tt;
  replace source target := fun w =>
    if bool_decide (target ∈ fs_dirs w) then (raise OSError (py "Is a directory"), w)
    else (Ok tt, fs_set target (fs_files w source) (fs_set source None w));
  unlink p := fun w =>
    match fs_files w p with
    | Some _ => (Ok tt, fs_set p None w)
    | None => (raise FileNotFoundError (path_str p), w)
    end |}.

#[export] Instance small_files_laws : FilesLaws small_fs.
Proof.
  refine {| contents := fs_files |}; try done; cbn.
  - intros p w q. by destruct (fs_files w p).
  - intros p w w' E. unfold gets in E. injection E as Hf <-. apply orb_false_iff in Hf as [Hf _].
    unfold fs_is_file in Hf.
    apply bool_decide_eq_false in Hf. by destruct (fs_files w p); [contradict Hf|].
  - intros p w data w'. destruct (fs_files w p); [|done]. by intros [= -> _].
  - intros dir w t w'. set (t0 := mkPath _ _). destruct (fs_files w t0) eqn:E; [done|].
    intros [= <- <-]. done.
  - intros dir w e w' q. set (t0 := mkPath _ _). destruct (fs_files w t0); [|done]. by intros [= _ <-].
  - intros t data w q Hq. destruct (fs_broken w); cbn; by rewrite decide_False.
  - intros t data w u w'. destruct (fs_broken w); [done|]. intros [= _ <-] _. cbn. by rewrite decide_True.
  - intros source target w u w' q. destruct (bool_decide _); [done|]. by intros [= _ <-].
  - intros source target w e w' q. destruct (bool_decide _); [|done]. by intros [= _ <-].
  - intros p w q Hq. destruct (fs_files w p); cbn; [by rewrite decide_False|done].
  - intros p w. cbn. by destruct (fs_files w p).
  - intros dir w. cbn. by destruct (fs_files w _).
  - intros t data w. cbn. by destruct (fs_broken w).
  - intros a t w. cbn. by destruct (bool_decide _).
  - intros p w. cbn. by destruct (fs_files w p).
Defined.

Definition srv : path := path_of (py "/srv").

(** A root with one file in it, and the target on it. *)
Definition small_target (broken : bool) : LinuxTerminalBackend small_fs :=
  mkLinux
    (mkFs (fun q => if decide (q = path_of (py "/srv/A.TXT")) then Some (ascii_bytes "old") else None)
      [path_of (py "/"); srv] 0 broken)
    srv (py "/bin/sh") 80 25 true true Terminal.sample_terminal None None float_zero false.

Lemma upload_atomic_witness :
  (let b := small_target false in
   exists target, is_relative_to target srv = true /\
     contents (os (linux_upload_file (py "x/../A.TXT") (ascii_bytes "new") true b).2) target =
       Some (ascii_bytes "new")) /\
  (let b := small_target true in
   contents (os (linux_upload_file (py "A.TXT") (ascii_bytes "new") true b).2) (path_of (py "/srv/A.TXT")) =
     Some (ascii_bytes "old")).
Proof.
  split; intros b.
  - destruct (upload_atomic (py "x/../A.TXT") (ascii_bytes "new") true b
      (Ok (Models.mkFileReceipt (py "x/../A.TXT") 3 (crc32 (ascii_bytes "new"))))
      (linux_upload_file (py "x/../A.TXT") (ascii_bytes "new") true b).2)
      as (_ & _ & _ & target & Hrel & _ & Hall).
    + apply injective_projections; [vm_compute; reflexivity|reflexivity].
    + exists target. split; [exact Hrel|]. rewrite Hall. by rewrite decide_True.
  - pose proof (upload_atomic (py "A.TXT") (ascii_bytes "new") true b
      (Err (Exn OSError (py "I/O error"))) (linux_upload_file (py "A.TXT") (ascii_bytes "new") true b).2) as Hu.
    rewrite Hu.
    + vm_compute. reflexivity.
    + apply injective_projections; [vm_compute; reflexivity|reflexivity].
    + vm_compute. discriminate.
Defined.

Lemma download_exact_witness :
  let b := small_target false in
  let f := Models.mkFileContents (py "A.TXT") (ascii_bytes "old") (crc32 (ascii_bytes "old")) in
  (linux_download_file (py "A.TXT") b).1 = Ok f /\
  exists target data, resolves_to srv (py "A.TXT") (os b) target /\ is_relative_to target srv = true /\
    contents (os b) target = Some data.
Proof.
  intros b f.
  assert (E : (linux_download_file (py "A.TXT") b).1 = Ok f) by (vm_compute; reflexivity).
  split; [exact E|].
  destruct (download_exact (py "A.TXT") b (Ok f) (linux_download_file (py "A.TXT") b).2)
    as (_ & _ & Hf); [apply injective_projections; [exact E|reflexivity]|].
  destruct (Hf f eq_refl) as (target & data & Hres & Hrel & Hd & _). exists target, data.
  exact (conj Hres (conj Hrel Hd)).
Defined.

(** The temporary file is created beside its target.  A path that resolves to the
    root itself (the empty path, a dot, a child's parent) therefore puts it outside
    of the root: here the upload goes through a file in [/], and only the failing
    rename onto the directory stops it. *)
Example upload_of_root_leaves_it :
  let w := os (small_target false) in
  let t := path_of (py "/DOSMCP-0.TMP") in
  let '(r, w') := _resolve_file srv (py ".") w in
  r = Ok srv /\ (named_temporary_file (parent srv) w').1 = Ok t /\ is_relative_to t srv = false /\
  (write_file srv (py ".") (ascii_bytes "new") true w).1 = raise OSError (py "Is a directory").
Proof. split_and!; vm_compute; reflexivity. Qed.
