(* ===== verification/SettledFiles.v ===== *)
(** * A file uploaded is the file downloaded

    An upload of the Linux target followed by a download of the same path.  The file
    system is one whose links nobody moves meanwhile ([SettledFiles]); the small file
    system of [LinuxFiles.v] is one. *)
From S2P Require Import Prelude PyFloat Crc PyText State Backend Files Linux LinuxFiles.
From S2P Require Models Terminal.

(** What [resolve] answers depends on the directories and symbolic links alone: the
    operations on regular files, the rename onto a resolved path included, leave it.
    A resolved path is its own resolution, and a regular file can be read. *)
Class SettledFiles (W : Type) `{FilesLaws W} := {
  whereabouts : W -> path -> result path;
  resolve_where p w : (resolve p w).1 = whereabouts w p;
  whereabouts_resolved w p q : whereabouts w p = Ok q -> whereabouts w q = Ok q;
  resolve_settled p w q : whereabouts (resolve p w).2 q = whereabouts w q;
  is_dir_settled p w q : whereabouts (is_dir p w).2 q = whereabouts w q;
  is_file_settled p w q : whereabouts (is_file p w).2 q = whereabouts w q;
  exists_settled p w q : whereabouts (exists_ p w).2 q = whereabouts w q;
  temporary_settled dir w q : whereabouts (named_temporary_file dir w).2 q = whereabouts w q;
  write_synced_settled t data w q : whereabouts (write_synced t data w).2 q = whereabouts w q;
  close_temporary_settled t w q : whereabouts (close_temporary t w).2 q = whereabouts w q;
  replace_settled source target w q :
    whereabouts w target = Ok target -> whereabouts (replace source target w).2 q = whereabouts w q;
  file_there p (w : W) data : contents w p = Some data -> (is_file p w).1 = Ok true;
  file_readable p (w : W) data : contents w p = Some data -> (read_bytes p w).1 = Ok data }.
#[global] Hint Mode SettledFiles ! - - : typeclass_instances.

Section Files.
Context {W : Type} `{SettledFiles W}.

Definition settled (w w' : W) : Prop := forall q, whereabouts w' q = whereabouts w q.

#[local] Instance settled_preorder : PreOrder settled.
Proof. split; [by intros w q|]. intros w1 w2 w3 H12 H23 q. by rewrite H23, H12. Qed.

(** The file is at [target]. *)
Definition located (w : W) (root : path) (file : pystr) (target : path) : Prop :=
  is_absolute (path_of file) = false /\ whereabouts w (joinpath root (path_of file)) = Ok target /\
  is_relative_to target root = true.

Lemma located_settled w w' root file target : settled w w' -> located w root file target -> located w' root file target.
Proof. intros Hs (Ha & Hw & Hr). split; [done|]. by rewrite Hs. Qed.

Lemma resolve_file_run root file w target :
  located w root file target -> exists w', _resolve_file root file w = (Ok target, w').
Proof.
  intros (Ha & Hw & Hr). unfold _resolve_file. rewrite bind_run, Ha. cbn [lift raise_if].
  rewrite bind_run. pose proof (resolve_where (joinpath root (path_of file)) w) as Er. rewrite Hw in Er.
  destruct (resolve _ w) as [r w1]. cbn [fst] in Er. subst r. exists w1. rewrite bind_run.
  unfold relative_to. by rewrite Hr.
Qed.

Lemma resolve_file_located root file w target w' :
  _resolve_file root file w = (Ok target, w') -> located w root file target /\ settled w w'.
Proof.
  intros Hrun. apply resolve_file_Ok in Hrun as Hrel. destruct Hrel as [_ Hrel]. unfold _resolve_file in Hrun.
  apply bind_inv in Hrun as [(? & ? & ?)|([] & w1 & [= Ha <-] & E1)]; [done|].
  apply bind_inv in E1 as [(? & ? & ?)|(t & w2 & Hres & E2)]; [done|].
  apply bind_inv in E2 as [(? & ? & ?)|([] & w3 & [= _ <-] & [= -> <-])]; [done|].
  apply raise_if_Ok in Ha. pose proof (resolve_where (joinpath root (path_of file)) w) as E.
  rewrite Hres in E. cbn [fst] in E. split; [done|].
  intros q. pose proof (resolve_settled (joinpath root (path_of file)) w q) as Hs. by rewrite Hres in Hs.
Qed.

Lemma write_temporary_settled t data : keeps settled (write_temporary t data).
Proof.
  assert (Hc : keeps settled (close_temporary t)) by (intros w q; apply close_temporary_settled).
  unfold write_temporary. apply keeps_bind; [apply _| |done]. apply keeps_catch; [apply _| |].
  - intros w q. apply write_synced_settled.
  - intros e. apply keeps_bind; [apply _|done|]. intros _. apply keeps_lift, _.
Qed.

Lemma put_in_place_settled t target file overwrite w :
  whereabouts w target = Ok target -> settled w (put_in_place t target file overwrite w).2.
Proof.
  intros Ht. unfold put_in_place. rewrite bind_run. pose proof (exists_settled target w) as He.
  destruct (exists_ target w) as [[present|e] w1]; [|exact He]. cbn [snd] in He. rewrite bind_run.
  destruct (raise_if _ _ _) as [[]|e]; [|exact He]. cbn [lift]. intros q. rewrite replace_settled; [apply He|].
  by rewrite He.
Qed.

(** A step of a program that succeeded. *)
Lemma settled_step {A} (m : stateful W A) w r w' : keeps settled m -> m w = (r, w') -> settled w w'.
Proof. intros Hm E. specialize (Hm w). by rewrite E in Hm. Qed.

(** After a write the file is where it is looked for. *)
Lemma write_file_located root file data overwrite w receipt w' :
  write_file root file data overwrite w = (Ok receipt, w') ->
  exists target, located w' root file target /\ contents w' target = Some data.
Proof.
  unfold write_file. intros [(? & ? & ?)|(target & w1 & Hr & E1)]%bind_inv; [done|].
  apply resolve_file_located in Hr as [Hloc Hs1].
  apply bind_inv in E1 as [(? & ? & ?)|(d & w2 & E1 & E2)]; [done|].
  apply settled_step in E1; [|intros ? ?; apply is_dir_settled].
  apply bind_inv in E2 as [(? & ? & ?)|([] & w3 & [= _ <-] & E3)]; [done|].
  apply bind_inv in E3 as [(? & ? & ?)|(present & w4 & E3 & E4)]; [done|].
  apply settled_step in E3; [|intros ? ?; apply exists_settled].
  apply bind_inv in E4 as [(? & ? & ?)|([] & w5 & [= _ <-] & E5)]; [done|].
  apply bind_inv in E5 as [(? & ? & ?)|(t & w6 & Ht & E6)]; [done|].
  apply temporary_Ok in Ht as Hnew. apply settled_step in Ht; [|intros ? ?; apply temporary_settled].
  apply bind_inv in E6 as [(? & ? & ?)|([] & w7 & E7 & [= <- <-])]; [done|].
  apply staged_cases in E7 as Hall; [|destruct Hnew as [_ Hnew]; by rewrite Hnew, decide_True].
  destruct Hall as [_ Hall].
  assert (Hs6 : settled w w6) by (by etrans; [exact Hs1|]; etrans; [exact E1|]; etrans; [exact E3|]).
  apply (located_settled _ w6) in Hloc; [|done]. exists target. split; [|by rewrite Hall, decide_True].
  apply catch_inv in E7 as [([] & E7 & _)|[(e & w8 & _ & _ & E8)|(e & _ & _ & [=])]].
  - apply bind_inv in E7 as [(? & ? & ?)|([] & w8 & E8 & E9)]; [done|].
    apply settled_step in E8; [|apply write_temporary_settled].
    apply (located_settled _ w8) in Hloc; [|done]. apply (located_settled w8); [|done].
    pose proof (put_in_place_settled t target file overwrite w8) as Hp. rewrite E9 in Hp. apply Hp.
    destruct Hloc as (_ & Hw & _). by eapply whereabouts_resolved.
  - by apply bind_inv in E8 as [(? & ? & ?)|([] & w9 & _ & [=])].
Qed.

Lemma read_file_located root file w target data :
  located w root file target -> contents w target = Some data -> len data <= MAX_FILE_BYTES ->
  (read_file root file w).1 = Ok (Models.mkFileContents file data (crc32 data)).
Proof.
  intros Hloc Hc Hl. destruct (resolve_file_run _ _ _ _ Hloc) as [w1 E].
  pose proof (resolve_file_keeps root file (fun _ => True) w target I) as Hk. rewrite E in Hk. cbn [snd] in Hk.
  unfold read_file. rewrite bind_run, E, bind_run. rewrite <- Hk in Hc.
  pose proof (file_there _ _ _ Hc) as Hf. pose proof (is_file_keeps target w1 target) as Hk2.
  destruct (is_file target w1) as [r w2]. cbn [fst snd] in *. subst r. rewrite bind_run. cbn [lift raise_if negb].
  rewrite <- Hk2 in Hc. pose proof (file_readable _ _ _ Hc) as Hd. rewrite bind_run.
  destruct (read_bytes target w2) as [r w3]. cbn [fst] in Hd. subst r. rewrite bind_run.
  by rewrite raise_if_false by lia.
Qed.

(** On the target: what was uploaded is downloaded, whatever the path looks like. *)
Lemma linux_round_trip file data overwrite (b : LinuxTerminalBackend W) receipt b1 :
  linux_upload_file file data overwrite b = (Ok receipt, b1) -> allow_file_read b = true ->
  exists b2, linux_download_file file b1 = (Ok (Models.mkFileContents file data (crc32 data)), b2).
Proof.
  unfold linux_upload_file. intros [(? & ? & ?)|(b0 & b3 & [= <- <-] & E1)]%bind_inv Hread; [done|].
  apply bind_inv in E1 as [(? & ? & ?)|([] & b3 & [= _ <-] & E2)]; [done|].
  apply bind_inv in E2 as [(? & ? & ?)|([] & b3 & [= Hl <-] & E3)]; [done|]. apply raise_if_Ok in Hl.
  unfold in_os in E3. destruct (write_file _ _ _ _ _) as [r w'] eqn:E. injection E3 as -> <-.
  apply write_file_located in E as (target & Hloc & Hc).
  unfold linux_download_file. rewrite bind_run. cbn [get]. rewrite bind_run.
  change (allow_file_read (set_os w' b)) with (allow_file_read b). rewrite Hread. cbn [lift raise_if negb].
  unfold in_os. pose proof (read_file_located (root b) file w' target data Hloc Hc ltac:(lia)) as Hrun.
  cbn [os set_os root]. destruct (read_file (root b) file w') as [r w2]. cbn [fst] in Hrun. subst r. by eexists.
Qed.
End Files.

(** ** The small file system knows no links *)
Definition fs_step (acc : list pystr) (w : pystr) : list pystr :=
  if decide (w = py "..") then removelast acc else acc ++ [w].

Lemma elem_of_removelast {A} (x : A) l : x ∈ removelast l -> x ∈ l.
Proof.
  destruct l as [|y l] using rev_ind; [done|]. rewrite removelast_last, elem_of_app. by left.
Qed.

Lemma fs_steps_plain l acc : py ".." ∉ acc -> py ".." ∉ foldl fs_step acc l.
Proof.
  revert acc. induction l as [|w l IH]; intros acc Ha; cbn [foldl]; [done|]. apply IH. unfold fs_step.
  case_decide; [by intros Hin%elem_of_removelast|]. rewrite elem_of_app, list_elem_of_singleton. naive_solver.
Qed.

Lemma fs_steps_app l acc : py ".." ∉ l -> foldl fs_step acc l = acc ++ l.
Proof.
  revert acc. induction l as [|w l IH]; intros acc Hl; cbn [foldl]; [by rewrite app_nil_r|].
  apply not_elem_of_cons in Hl as [Hw Hl]. rewrite IH by done. unfold fs_step.
  rewrite decide_False by congruence. by rewrite <- app_assoc.
Qed.

Lemma fs_resolve_twice p : fs_resolve (fs_resolve p) = fs_resolve p.
Proof.
  unfold fs_resolve. f_equal. cbn [parts]. fold fs_step.
  apply (fs_steps_app _ []), fs_steps_plain, not_elem_of_nil.
Qed.

#[export] Instance small_settled : SettledFiles small_fs.
Proof.
  refine {| whereabouts (_ : small_fs) p := Ok (fs_resolve p) |}; try done; cbn.
  - intros w p q [= <-]. by rewrite fs_resolve_twice.
  - intros p w data E. change (fs_files w p = Some data) in E. unfold fs_is_file, gets. cbn. by rewrite E.
  - intros p w data E. change (fs_files w p = Some data) in E. by rewrite E.
Defined.
