(* ===== verification/LinuxShell.v ===== *)
(** * The shell of the Linux target

    The loop that reads the shell's output ends, a drain feeds the terminal a bounded
    amount, and [send_keys] types exactly the text and the keys it was given. *)
From S2P Require Import Prelude PyFloat Crc PyText State Backend Files Linux.
From S2P Require Models Terminal.

(** What the kernel promises: [typed w fd] are the bytes the descriptor has taken;
    a write takes a nonempty prefix, and only a write changes what was taken; a read
    returns no more than it was asked for. *)
Class ShellLaws (W : Type) `{Shell W} := {
  typed : W -> Z -> bytes;
  clock_typed w fd : typed (monotonic w).2 fd = typed w fd;
  read_typed fd' n w fd : typed (os_read fd' n w).2 fd = typed w fd;
  readable_typed fd' t w fd : typed (select_readable fd' t w).2 fd = typed w fd;
  writable_typed fd' t w fd : typed (select_writable fd' t w).2 fd = typed w fd;
  sleep_typed t w fd : typed (sleep t w).2 fd = typed w fd;
  write_Ok fd d (w : W) n w' :
    d <> [] -> os_write fd d w = (Ok n, w') ->
    0 < n <= len d /\ typed w' fd = typed w fd ++ take (Z.to_nat n) d;
  write_Err fd d (w : W) e w' : os_write fd d w = (Err e, w') -> typed w' fd = typed w fd;
  read_length fd n (w : W) data w' : os_read fd n w = (Ok data, w') -> len data <= n }.
#[global] Hint Mode ShellLaws ! - : typeclass_instances.

(** What the reading loop relies on: [time.monotonic] does not go backwards, a
    descriptor that [select] reports as readable can be read without blocking, and
    neither a [select] with a timeout nor the read of a nonblocking descriptor waits
    for ever. *)
Class DrainLaws (W : Type) `{Shell W} := {
  clock_forward d (w : W) :
    SFltb (monotonic w).1 d = false -> SFltb (monotonic (monotonic w).2).1 d = false;
  readable_reads fd t n (w w1 : W) e :
    select_readable fd t w = (Ok true, w1) ->
    (os_read fd n (monotonic w1).2).1 = Err e -> exn_cls e <> BlockingIOError;
  read_returns fd n : comes_back (S:=W) (os_read fd n);
  select_returns fd t : comes_back (S:=W) (select_readable fd t) }.
#[global] Hint Mode DrainLaws ! - : typeclass_instances.

Section Run.
Context {W : Type} `{Shell W}.
Local Abbreviation B := (LinuxTerminalBackend W).
Implicit Types (b : B).

Lemma in_os_run {A} (m : stateful W A) b : in_os m b = ((m (os b)).1, set_os (m (os b)).2 b).
Proof. unfold in_os. by destruct (m (os b)). Qed.

Lemma now_run b : now b = (Ok (monotonic (os b)).1, set_os (monotonic (os b)).2 b).
Proof. unfold now. rewrite in_os_run. unfold read_clock. by destruct (monotonic (os b)). Qed.
End Run.

(** ** The loops end *)
Section Ends.
Context {W : Type} `{DrainLaws W}.
Context (fd : Z) (deadline : spec_float).
Implicit Types (b : LinuxTerminalBackend W).

(** The rounds the inner loop may still take: every one reads a byte. *)
Local Abbreviation left c := (Z.to_nat (MAX_DRAIN_BYTES - c)).

Lemma read_loop_ends fuel1 fuel2 c b :
  (left c < fuel1)%nat -> (left c < fuel2)%nat ->
  read_loop fuel1 fd deadline c b = read_loop fuel2 fd deadline c b.
Proof.
  revert fuel2 c b. induction fuel1 as [|fuel1 IH]; intros [|fuel2] c b H1 H2; [lia..|].
  cbn [read_loop]. rewrite !bind_run, !now_run. cbn [fst snd].
  destruct (SFltb _ deadline); cbn [andb]; [|done]. destruct (Z.ltb_spec c MAX_DRAIN_BYTES); [|done].
  rewrite !bind_run, !attempt_run, !in_os_run. cbn [fst snd].
  destruct (os_read fd 65536 _) as [[[|x data]|e] w2]; cbn [fst snd]; [done| |done].
  rewrite !bind_run. destruct (in_terminal _ _) as [[[]|e] b2]; [|done].
  apply IH; unfold len; cbn [length]; lia.
Qed.

(** What the inner loop has consumed when it gives back control, at least. *)
Lemma read_loop_consumes fuel c b q c' b' :
  read_loop fuel fd deadline c b = (Ok (q, c'), b') -> c <= c'.
Proof.
  revert c b. induction fuel as [|fuel IH]; intros c b; [done|].
  cbn [read_loop]. rewrite !bind_run, !now_run. cbn [fst snd].
  destruct (SFltb _ deadline && _); [|intros [= _ <- _]; lia].
  rewrite !bind_run, !attempt_run, !in_os_run. cbn [fst snd].
  destruct (os_read fd 65536 _) as [[[|x data]|e] w2]; cbn [fst snd].
  - intros [= _ <- _]. lia.
  - rewrite !bind_run. destruct (in_terminal _ _) as [[[]|e] b2]; [|done].
    intros Hr%IH. pose proof (len_nonneg (x :: data)). lia.
  - case_bool_decide; [intros [= _ <- _]; lia|]. destruct (is_os_error _); [intros [= _ <- _]; lia|done].
Qed.

(** Entered on a readable descriptor, the inner loop reads something or finds the
    deadline passed. *)
Lemma read_loop_progress fuel c b c' b' :
  c < MAX_DRAIN_BYTES ->
  (forall e, (os_read fd 65536 (monotonic (os b)).2).1 = Err e -> exn_cls e <> BlockingIOError) ->
  read_loop fuel fd deadline c b = (Ok (false, c'), b') ->
  c < c' \/ SFltb (monotonic (os b')).1 deadline = false.
Proof.
  intros Hc Hread. destruct fuel as [|fuel]; [done|]. cbn [read_loop].
  rewrite !bind_run, !now_run. cbn [fst snd]. rewrite (proj2 (Z.ltb_lt _ _) Hc), andb_true_r.
  destruct (SFltb (monotonic (os b)).1 deadline) eqn:Et.
  2: { intros [= <- <-]. right. cbn. by apply clock_forward. }
  rewrite !bind_run, !attempt_run, !in_os_run. cbn [fst snd os set_os].
  destruct (os_read fd 65536 _) as [[[|x data]|e] w2]; cbn [fst snd] in *; [done| |].
  - rewrite !bind_run. destruct (in_terminal _ _) as [[[]|e] b2]; [|done].
    intros Hr%read_loop_consumes. left. unfold len in Hr. cbn [length] in Hr. lia.
  - rewrite bool_decide_eq_false_2 by (by apply Hread). by destruct (is_os_error _).
Qed.

Lemma drain_loop_ends fuel1 fuel2 c b :
  (left c + 1 < fuel1)%nat -> (left c + 1 < fuel2)%nat ->
  drain_loop fuel1 fd deadline c b = drain_loop fuel2 fd deadline c b.
Proof.
  revert fuel2 c b. induction fuel1 as [|fuel1 IH]; intros [|fuel2] c b H1 H2; [lia..|].
  cbn [drain_loop]. rewrite !bind_run, !now_run. cbn [fst snd].
  destruct (SFltb _ deadline); cbn [andb]; [|done]. destruct (Z.ltb_spec c MAX_DRAIN_BYTES) as [Hc|]; [|done].
  rewrite !bind_run, !now_run. cbn [fst snd]. rewrite !bind_run, !in_os_run. cbn [fst snd os set_os].
  set (t := at_least_zero _). set (w2 := (monotonic _).2).
  destruct (select_readable fd t w2) as [[[]|e] w3] eqn:Es; cbn [negb fst snd]; [|done..].
  set (b3 := set_os w3 _). rewrite !bind_run, (read_loop_ends fuel1 fuel2 c b3) by lia.
  destruct (read_loop fuel2 fd deadline c b3) as [[[[] c1]|e] b4] eqn:Er; cbn [fst snd]; [done| |done].
  apply read_loop_progress in Er as [Hp|Hp]; [apply IH; lia| |done|].
  - destruct fuel1, fuel2; [lia..|]. cbn [drain_loop]. by rewrite !bind_run, !now_run, !Hp.
  - intros e. by apply (readable_reads fd t 65536 w2).
Qed.

Lemma write_loop_ends fuel extra value b :
  ends_in (write_loop fuel fd value b).1 = true ->
  write_loop (fuel + extra) fd value b = write_loop fuel fd value b.
Proof.
  revert value b. induction fuel as [|fuel IH]; intros [|x value] b; cbn [write_loop Nat.add]; [by destruct extra|done..|].
  rewrite !bind_run, !attempt_run, !in_os_run. cbn [fst snd].
  destruct (os_write fd (x :: value) (os b)) as [[n|e] w1]; cbn [fst snd]; [apply IH|].
  case_bool_decide; [|done]. rewrite !bind_run, !in_os_run. cbn [fst snd].
  destruct (select_writable fd _ _) as [[u|e'] w2]; cbn [fst snd]; [apply IH|done].
Qed.

(** *** The drain is back within its rounds *)
Local Abbreviation sound b := (exists c r, Terminal.terminal_ok c r (_terminal b)).

Lemma feed_returns data b : sound b ->
  ends_in (in_terminal (Terminal.feed_bytes data) b).1 = true /\
  sound (in_terminal (Terminal.feed_bytes data) b).2.
Proof.
  intros (c & r & Ht). unfold in_terminal.
  destruct (Terminal.feed_bytes_safe c r false data (_terminal b)) as [[Hinv _] He]; [by split|done|].
  destruct (Terminal.feed_bytes data (_terminal b)) as [[u|e] t]; cbn [fst snd] in *; (split; [|by exists c, r]); [done|].
  destruct He as [_ He]. cbn [ends_in]. unfold diverges. by rewrite He.
Qed.

Lemma read_loop_returns fuel k b : (left k < fuel)%nat -> sound b ->
  ends_in (read_loop fuel fd deadline k b).1 = true /\ sound (read_loop fuel fd deadline k b).2.
Proof.
  revert k b. induction fuel as [|fuel IH]; intros k b Hf Hb; [lia|].
  cbn [read_loop]. rewrite !bind_run, !now_run. cbn [fst snd].
  destruct (SFltb _ deadline); cbn [andb]; [|done]. destruct (Z.ltb_spec k MAX_DRAIN_BYTES); [|done].
  rewrite !bind_run, !attempt_run, !in_os_run. cbn [fst snd os set_os].
  pose proof (read_returns fd 65536 (monotonic (os b)).2) as Hr.
  destruct (os_read fd 65536 _) as [[[|x data]|e] w2]; cbn [fst snd] in *; [done| |].
  - rewrite !bind_run. set (b2 := set_os w2 _). assert (Hb2 : sound b2) by exact Hb.
    destruct (feed_returns (x :: data) b2 Hb2) as [He Hs].
    destruct (in_terminal _ b2) as [[[]|e] b3]; [|done]. apply IH; [unfold len; cbn [length]; lia|exact Hs].
  - case_bool_decide; [done|]. destruct (is_os_error _); done.
Qed.

Lemma drain_loop_returns fuel k b : (left k + 1 < fuel)%nat -> sound b ->
  ends_in (drain_loop fuel fd deadline k b).1 = true.
Proof.
  revert k b. induction fuel as [|fuel IH]; intros k b Hf Hb; [lia|].
  cbn [drain_loop]. rewrite !bind_run, !now_run. cbn [fst snd].
  destruct (SFltb _ deadline); cbn [andb]; [|done]. destruct (Z.ltb_spec k MAX_DRAIN_BYTES) as [Hk|]; [|done].
  rewrite !bind_run, !now_run. cbn [fst snd]. rewrite !bind_run, !in_os_run. cbn [fst snd os set_os].
  set (t := at_least_zero _). set (w2 := (monotonic _).2). pose proof (select_returns fd t w2) as Hsel.
  destruct (select_readable fd t w2) as [[[]|e] w3] eqn:Es; cbn [negb fst snd] in *; [|done..].
  set (b3 := set_os w3 _). assert (Hb3 : sound b3) by exact Hb. rewrite !bind_run.
  destruct (read_loop_returns fuel k b3) as [He Hs]; [lia|exact Hb3|].
  destruct (read_loop fuel fd deadline k b3) as [[[[] k1]|e] b4] eqn:Er; cbn [fst snd] in *; [done| |done].
  apply read_loop_progress in Er as [Hp|Hp]; [apply IH; [lia|done]| |done|].
  - destruct fuel; [lia|]. cbn [drain_loop]. by rewrite !bind_run, !now_run, !Hp.
  - intros e. by apply (readable_reads fd t 65536 w2).
Qed.

(** [n] rounds are enough for the loop: it ends within them, and with any larger number
    its outcome and the state it leaves are the same. *)
Definition ends_within {A} (loop : nat -> stateful (LinuxTerminalBackend W) A) (n : nat) b : Prop :=
  ends_in (loop n b).1 = true /\ forall extra, loop (n + extra)%nat b = loop n b.

(** C17. A drain ends, whatever the shell writes.  With a clock that does not go
    backwards, a truthful [select] and reads that do not block, and a terminal that is
    well formed (as [linux_ok] always has it), the loops of [_drain] end, by their own
    conditions, within the rounds the model gives them, one for every byte that may be
    read and three more.  The loop of [_write] has no such bound (it waits for as long
    as nothing reads the terminal's input), but what it does does not depend on the
    rounds: once it has ended, more of them change nothing. *)
Theorem drain_ends c r b :
  Terminal.terminal_ok c r (_terminal b) ->
  ends_within (fun fuel => drain_loop fuel fd deadline 0) DRAIN_ROUNDS b /\
  forall value fuel, ends_in (write_loop fuel fd value b).1 = true ->
    ends_within (fun fuel => write_loop fuel fd value) fuel b.
Proof.
  intros Ht. assert (Hn : (left 0 + 1 < DRAIN_ROUNDS)%nat) by (unfold DRAIN_ROUNDS, MAX_DRAIN_BYTES; lia).
  split; [split|].
  - apply drain_loop_returns; [exact Hn|by exists c, r].
  - intros extra. apply drain_loop_ends; [lia|exact Hn].
  - intros value fuel He. split; [exact He|]. intros extra. by apply write_loop_ends.
Qed.
End Ends.

Section Shell.
Context {W : Type} `{ShellLaws W}.
Local Abbreviation B := (LinuxTerminalBackend W).
Local Abbreviation M := (stateful B).
Implicit Types (b : B).

(** ** What a drain feeds the terminal *)
Definition DRAIN_BOUND : Z := MAX_DRAIN_BYTES + 65535.

(** [fed b b' c c']: the terminal of [b'] is that of [b] fed with chunks of [c' - c] bytes. *)
Definition fed b b' (c c' : Z) : Prop :=
  exists chunks, c' = c + len (concat chunks) /\
    each Terminal.feed_bytes chunks (_terminal b) = (Ok tt, _terminal b').

(** The same, the last chunk raising [e]. *)
Definition fed_up_to e b b' (c c' : Z) : Prop :=
  exists chunks, c' = c + len (concat chunks) /\
    (each Terminal.feed_bytes chunks (_terminal b)).2 = _terminal b' /\
    ((each Terminal.feed_bytes chunks (_terminal b)).1 = Ok tt \/
     (each Terminal.feed_bytes chunks (_terminal b)).1 = Err e).

Lemma fed_refl b b' c : _terminal b' = _terminal b -> fed b b' c c.
Proof. intros E. exists []. split; [symmetry; apply Z.add_0_r|]. cbn. by rewrite E. Qed.

Lemma fed_up_to_refl e b b' c : _terminal b' = _terminal b -> fed_up_to e b b' c c.
Proof. intros E. exists []. split; [symmetry; apply Z.add_0_r|]. cbn. rewrite E. auto. Qed.

Lemma fed_trans b1 b2 b3 c1 c2 c3 : fed b1 b2 c1 c2 -> fed b2 b3 c2 c3 -> fed b1 b3 c1 c3.
Proof.
  intros (l1 & -> & E1) (l2 & -> & E2). exists (l1 ++ l2). rewrite concat_app, len_app.
  split; [lia|]. by rewrite each_app, bind_run, E1.
Qed.

Lemma fed_up_to_trans e b1 b2 b3 c1 c2 c3 :
  fed b1 b2 c1 c2 -> fed_up_to e b2 b3 c2 c3 -> fed_up_to e b1 b3 c1 c3.
Proof.
  intros (l1 & -> & E1) (l2 & -> & E2 & E3). exists (l1 ++ l2). rewrite concat_app, len_app.
  split; [lia|]. by rewrite each_app, bind_run, E1.
Qed.

Lemma feed_chunk data b r t c :
  Terminal.feed_bytes data (_terminal b) = (r, t) ->
  match r with
  | Ok _ => fed b (set_terminal t b) c (c + len data)
  | Err e => fed_up_to e b (set_terminal t b) c (c + len data)
  end.
Proof.
  intros E. destruct r as [[]|e]; exists [data]; cbn [concat app each]; rewrite app_nil_r, bind_run, E;
    cbn; auto.
Qed.

Lemma read_loop_fed fuel fd deadline c b :
  0 <= c <= DRAIN_BOUND ->
  match read_loop fuel fd deadline c b with
  | (Ok r, b') => fed b b' c r.2 /\ 0 <= r.2 <= DRAIN_BOUND
  | (Err e, b') => exists c', fed_up_to e b b' c c' /\ c' <= DRAIN_BOUND
  end.
Proof.
  revert c b. induction fuel as [|fuel IH]; intros c b Hc.
  { exists c. split; [by apply fed_up_to_refl|apply Hc]. }
  cbn [read_loop]. rewrite !bind_run, !now_run. cbn [fst snd].
  destruct (SFltb _ deadline); cbn [andb]; [|split; [by apply fed_refl|done]].
  destruct (Z.ltb_spec c MAX_DRAIN_BYTES) as [Hlt|]; [|split; [by apply fed_refl|done]].
  set (b1 := set_os _ b). rewrite !bind_run, !attempt_run, !in_os_run. cbn [fst snd].
  destruct (os_read fd 65536 (os b1)) as [[[|x data]|e] w2] eqn:Er; cbn [fst snd].
  - split; [by apply fed_refl|done].
  - apply read_length in Er. rewrite !bind_run. unfold in_terminal.
    destruct (Terminal.feed_bytes _ _) as [r t] eqn:Ef.
    apply (feed_chunk _ (set_os w2 b1) r t c) in Ef. destruct r as [[]|e].
    + specialize (IH (c + len (x :: data)) (set_terminal t (set_os w2 b1))).
      unfold DRAIN_BOUND in *. pose proof (len_nonneg (x :: data)).
      destruct (read_loop fuel _ _ _ _) as [[r|e] b']; destruct IH as [IH1 IH2]; try lia.
      * split; [|done]. by eapply fed_trans.
      * exists IH1. destruct IH2. split; [|done]. by eapply fed_up_to_trans.
    + exists (c + len (x :: data)). split; [exact Ef|]. unfold DRAIN_BOUND. lia.
  - case_bool_decide; [|destruct (is_os_error _)].
    1-2: split; [by apply fed_refl|done].
    exists c. split; [by apply fed_up_to_refl|apply Hc].
Qed.

Lemma drain_loop_fed fuel fd deadline c b :
  0 <= c <= DRAIN_BOUND ->
  match drain_loop fuel fd deadline c b with
  | (Ok _, b') => exists c', fed b b' c c' /\ c' <= DRAIN_BOUND
  | (Err e, b') => exists c', fed_up_to e b b' c c' /\ c' <= DRAIN_BOUND
  end.
Proof.
  revert c b. induction fuel as [|fuel IH]; intros c b Hc.
  { exists c. split; [by apply fed_up_to_refl|apply Hc]. }
  cbn [drain_loop]. rewrite !bind_run, !now_run. cbn [fst snd].
  destruct (SFltb _ deadline); cbn [andb]; [|exists c; split; [by apply fed_refl|apply Hc]].
  destruct (Z.ltb_spec c MAX_DRAIN_BYTES) as [Hlt|]; [|exists c; split; [by apply fed_refl|apply Hc]].
  set (b1 := set_os _ b). rewrite !bind_run, !now_run. cbn [fst snd].
  set (b2 := set_os _ b1). rewrite !bind_run, !in_os_run. cbn [fst snd].
  destruct (select_readable fd _ (os b2)) as [[[]|e] w3]; cbn [negb fst snd];
    [|exists c; split; [by apply fed_refl || by apply fed_up_to_refl|apply Hc]..].
  rewrite !bind_run. pose proof (read_loop_fed fuel fd deadline c (set_os w3 b2) Hc) as Hr.
  destruct (read_loop fuel fd deadline c (set_os w3 b2)) as [[[[] c1]|e] b4]; cbn [fst snd] in *.
  - exists c1. destruct Hr as [Hf Hc1]. split; [exact Hf|apply Hc1].
  - destruct Hr as [Hf Hc1]. specialize (IH c1 b4 Hc1).
    destruct (drain_loop fuel fd deadline c1 b4) as [[u|e] b']; destruct IH as (c' & IH1 & IH2);
      exists c'; (split; [|exact IH2]); [by eapply fed_trans|by eapply fed_up_to_trans].
  - exact Hr.
Qed.

(** C16. A drain is bounded: whatever the shell writes and however long it writes,
    one drain feeds the terminal at most 1,114,111 bytes (the limit of 1 MiB, passed
    by at most one read), chunk by chunk and nothing else; when it returns every
    chunk was accepted, and when it raises at most the last was not. *)
Theorem drain_bounded timeout b :
  let '(r, b') := _drain timeout b in
  exists chunks, len (concat chunks) <= DRAIN_BOUND /\
    (each Terminal.feed_bytes chunks (_terminal b)).2 = _terminal b' /\
    match r with
    | Ok _ => (each Terminal.feed_bytes chunks (_terminal b)).1 = Ok tt
    | Err e => (each Terminal.feed_bytes chunks (_terminal b)).1 = Ok tt \/
               (each Terminal.feed_bytes chunks (_terminal b)).1 = Err e
    end.
Proof.
  unfold _drain. rewrite bind_run. cbn [gets]. destruct (_master_fd b) as [fd|]; [|by exists []].
  rewrite bind_run, now_run. set (b1 := set_os _ b). set (deadline := float_add _ timeout).
  pose proof (drain_loop_fed DRAIN_ROUNDS fd deadline 0 b1 ltac:(done)) as Hd.
  destruct (drain_loop _ fd deadline 0 b1) as [[u|e] b']; destruct Hd as (c & (chunks & -> & Hf) & Hc);
    exists chunks; (split; [exact Hc|]); cbn [b1 set_os _terminal] in Hf.
  - by rewrite Hf.
  - exact Hf.
Qed.

(** ** What is typed

    [types s m]: run on the open terminal, [m] types exactly [s]; if it raises, a
    prefix of [s]. *)
Section Typing.
Context (fd : Z).

Definition types {A} (s : bytes) (m : M A) : Prop := forall b,
  _master_fd b = Some fd ->
  match m b with
  | (Ok _, b') => _master_fd b' = Some fd /\ typed (os b') fd = typed (os b) fd ++ s
  | (Err _, b') => exists p, p `prefix_of` s /\ typed (os b') fd = typed (os b) fd ++ p
  end.

Lemma types_silent {A} (m : M A) :
  (forall b, _master_fd b = Some fd ->
    _master_fd (m b).2 = Some fd /\ typed (os (m b).2) fd = typed (os b) fd) -> types [] m.
Proof.
  intros Hm b Hb. destruct (Hm b Hb) as [H1 H2]. destruct (m b) as [[a|e] b']; cbn in *.
  - by rewrite app_nil_r.
  - exists []. by rewrite app_nil_r.
Qed.

Lemma types_ret {A} (a : A) : types [] (mret a).
Proof. by apply types_silent. Qed.
Lemma types_fail {A} e : types [] (@fail B A e).
Proof. by apply types_silent. Qed.
Lemma types_gets {A} (f : B -> A) : types [] (gets f).
Proof. by apply types_silent. Qed.

Lemma types_bind {A C} s1 s2 (m : M A) (f : A -> M C) :
  types s1 m -> (forall a, types s2 (f a)) -> types (s1 ++ s2) (m ≫= f).
Proof.
  intros Hm Hf b Hb. rewrite bind_run. specialize (Hm b Hb). destruct (m b) as [[a|e] b1].
  - destruct Hm as [Hb1 E1]. specialize (Hf a b1 Hb1). destruct (f a b1) as [[c|e] b2].
    + destruct Hf as [? E2]. by rewrite E2, E1, app_assoc.
    + destruct Hf as (p & Hp & E2). exists (s1 ++ p). rewrite E2, E1, app_assoc.
      split; [by apply prefix_app|done].
  - destruct Hm as (p & Hp & E1). exists p. split; [by apply prefix_app_r|done].
Qed.

Lemma types_bind_silent {A C} s (m : M A) (f : A -> M C) :
  types [] m -> (forall a, types s (f a)) -> types s (m ≫= f).
Proof. apply (types_bind [] s). Qed.

Lemma types_then {A C} s (m : M A) (f : A -> M C) :
  types s m -> (forall a, types [] (f a)) -> types s (m ≫= f).
Proof. rewrite <- (app_nil_r s) at 2. apply types_bind. Qed.

Lemma types_each {A} (f : A -> M unit) g l :
  (forall a, types (g a) (f a)) -> types (concat (g <$> l)) (each f l).
Proof.
  intros Hf. induction l as [|x l IH]; [apply types_ret|]. rewrite fmap_cons. cbn [concat each].
  by apply types_bind.
Qed.

Lemma types_in_os {A} (m : stateful W A) :
  (forall w, typed (m w).2 fd = typed w fd) -> types [] (in_os m).
Proof. intros Hm. apply types_silent. intros b Hb. rewrite in_os_run. cbn. auto. Qed.

Lemma types_in_terminal {A} (m : stateful _ A) : types [] (in_terminal m).
Proof.
  apply types_silent. intros b Hb. unfold in_terminal. by destruct (m (_terminal b)) as [r t].
Qed.

Lemma types_now : types [] now.
Proof.
  apply types_in_os. intros w. unfold read_clock. rewrite <- (clock_typed w fd). by destruct (monotonic w).
Qed.

Lemma types_attempt {A} (m : M A) :
  (forall b, _master_fd b = Some fd ->
    _master_fd (m b).2 = Some fd /\ typed (os (m b).2) fd = typed (os b) fd) -> types [] (attempt m).
Proof. intros Hm. apply types_silent. intros b Hb. rewrite attempt_run. by apply Hm. Qed.

Lemma types_read_loop fuel deadline c : types [] (read_loop fuel fd deadline c).
Proof.
  revert c. induction fuel as [|fuel IH]; intros c; [apply types_fail|]. cbn [read_loop].
  apply types_bind_silent; [apply types_now|]. intros t. case_match; [|apply types_ret].
  apply types_bind_silent.
  { apply types_attempt. intros b Hb. rewrite in_os_run. cbn. split; [done|]. apply read_typed. }
  intros [[|x data]|e]; [apply types_ret| |repeat case_match; apply types_ret || apply types_fail].
  apply types_bind_silent; [apply types_in_terminal|]. intros _. apply IH.
Qed.

Lemma types_drain_loop fuel deadline c : types [] (drain_loop fuel fd deadline c).
Proof.
  revert c. induction fuel as [|fuel IH]; intros c; [apply types_fail|]. cbn [drain_loop].
  apply types_bind_silent; [apply types_now|]. intros t. case_match; [|apply types_ret].
  apply types_bind_silent; [apply types_now|]. intros t'.
  apply types_bind_silent; [apply types_in_os; intros w; apply readable_typed|]. intros readable.
  case_match; [apply types_ret|]. apply types_bind_silent; [apply types_read_loop|]. intros r.
  case_match; [apply types_ret|apply IH].
Qed.

Lemma types_drain timeout : types [] (_drain timeout).
Proof.
  intros b Hb. unfold _drain. rewrite bind_run. cbn [gets]. rewrite Hb. revert b Hb.
  change (types [] (t ← now; drain_loop DRAIN_ROUNDS fd (float_add t timeout) 0)).
  apply types_bind_silent; [apply types_now|]. intros t. apply types_drain_loop.
Qed.

(** Short writes and full buffers included, the whole value is typed, in order. *)
Lemma types_write_loop fuel value : types value (write_loop fuel fd value).
Proof.
  revert value. induction fuel as [|fuel IH]; intros [|x value] b Hb.
  1,3: by rewrite app_nil_r.
  { exists []. rewrite app_nil_r. split; [apply prefix_nil|done]. }
  cbn [write_loop]. rewrite bind_run, attempt_run, in_os_run. cbn [fst snd].
  destruct (os_write fd (x :: value) (os b)) as [[n|e] w1] eqn:Ew; cbn [fst snd].
  - apply write_Ok in Ew as (Hn & Et); [|done]. specialize (IH (drop (Z.to_nat n) (x :: value)) (set_os w1 b) Hb).
    destruct (write_loop fuel fd _ _) as [[u|e] b'].
    + destruct IH as [? E]. split; [done|]. cbn [os set_os] in E. by rewrite E, Et, <- app_assoc, take_drop.
    + destruct IH as (p & Hp & E). cbn [os set_os] in E. exists (take (Z.to_nat n) (x :: value) ++ p).
      rewrite E, Et, <- app_assoc. split; [|done]. rewrite <- (take_drop (Z.to_nat n) (x :: value)) at 2.
      by apply prefix_app.
  - apply write_Err in Ew. case_bool_decide.
    + rewrite bind_run, in_os_run. cbn [fst snd os set_os].
      pose proof (writable_typed fd (int_div 1 10) w1 fd) as Es.
      destruct (select_writable fd (int_div 1 10) w1) as [[u|e'] w2]; cbn [fst snd] in *.
      * specialize (IH (x :: value) (set_os w2 (set_os w1 b)) Hb). cbn [os set_os] in IH.
        by rewrite Es, Ew in IH.
      * exists []. rewrite app_nil_r. split; [apply prefix_nil|]. cbn. congruence.
    + exists []. rewrite app_nil_r. split; [apply prefix_nil|]. done.
Qed.

Lemma types_write value : types value (_write value).
Proof.
  intros b Hb. unfold _write. rewrite bind_run. cbn [gets]. rewrite Hb, bind_run. cbn [gets].
  by apply types_write_loop.
Qed.

Lemma types_sleep t : types [] (in_os (sleep t)).
Proof. apply types_in_os. intros w. apply sleep_typed. Qed.

Lemma types_text encoded delay : types encoded (type_text encoded delay).
Proof.
  unfold type_text. case_match.
  - destruct encoded; [apply types_ret|apply types_write].
  - replace encoded with (concat ((fun x => [x]) <$> encoded)) at 1.
    + apply (types_each _ (fun x => [x])). intros x. apply types_then; [apply types_write|].
      intros _. apply types_sleep.
    + induction encoded as [|x l IH]; [done|]. rewrite fmap_cons. cbn. by rewrite IH.
Qed.

Lemma types_key delay key : types (default [] (key_sequence key)) (type_key delay key).
Proof.
  unfold type_key. apply types_then; [apply types_write|]. intros _.
  case_match; [apply types_ret|apply types_sleep].
Qed.
End Typing.

(** The bytes of the named keys, in order. *)
Definition keystrokes (keys : list pystr) : bytes :=
  concat ((fun key => default [] (key_sequence key)) <$> (upper <$> keys)).

Lemma check_keys_known encoded keys delay settle u :
  check_keys encoded keys delay settle = Ok u ->
  Forall (fun key => key_sequence (upper key) <> None) keys.
Proof.
  unfold check_keys. intros H'. inv_ok. bool_to_prop. apply Forall_forall. intros key Hk Hn.
  assert (Hin : upper key ∈ filter (fun key => key_sequence key = None) (upper <$> keys)).
  { apply list_elem_of_filter. split; [done|]. by apply list_elem_of_fmap_2. }
  match goal with E : filter _ _ = [] |- _ => rewrite E in Hin end. by apply not_elem_of_nil in Hin.
Qed.

(** C15. [send_keys] on a running shell types exactly what it was asked to, in order:
    the UTF-8 bytes of the text, then the sequence of each named key, whatever the
    short writes and full buffers on the way, and the receipt says how much; every
    named key is a known one.  Arguments that fail a check type nothing and leave
    the target as it was.  An error on the way leaves a prefix typed, never
    anything else. *)
Theorem send_keys_types_exactly text keys delay settle b fd process :
  _closed b = false -> _process b = Some process -> _master_fd b = Some fd ->
  match linux_send_keys text keys delay settle b with
  | (Ok receipt, b') => exists encoded, utf8_encode text = Ok encoded /\
      check_keys encoded keys delay settle = Ok tt /\
      Forall (fun key => key_sequence (upper key) <> None) keys /\
      typed (os b') fd = typed (os b) fd ++ encoded ++ keystrokes keys /\
      Models.accepted_text_bytes receipt = len encoded /\
      Models.receipt_keys receipt = upper <$> keys
  | (Err e, b') =>
      match utf8_encode text with
      | Err _ => b' = b
      | Ok encoded =>
          if is_ok (check_keys encoded keys delay settle)
          then exists p, p `prefix_of` encoded ++ keystrokes keys /\ typed (os b') fd = typed (os b) fd ++ p
          else b' = b
      end
  end.
Proof.
  intros Hc Hp Hfd. unfold linux_send_keys. rewrite bind_run.
  assert (_ensure_started b = (Ok tt, b)) as ->.
  { unfold _ensure_started. rewrite bind_run. cbn [get]. by rewrite Hc, Hp. }
  rewrite bind_run. destruct (utf8_encode text) as [encoded|e]; cbn [lift]; [|done].
  rewrite bind_run. destruct (check_keys encoded keys delay settle) as [[]|e] eqn:Ek; cbn [lift is_ok]; [|done].
  assert (Ht : types fd (encoded ++ keystrokes keys ++ [])
    (type_text encoded delay;; each (type_key delay) (upper <$> keys);; _drain (int_div settle 1000))).
  { apply types_bind; [apply types_text|]. intros _. apply types_bind; [|intros _; apply types_drain].
    apply (types_each fd (type_key delay) (fun key => default [] (key_sequence key))). apply types_key. }
  specialize (Ht b Hfd). rewrite app_nil_r, bind_run in Ht. rewrite bind_run.
  destruct (type_text encoded delay b) as [[[]|e] b1]; [|exact Ht].
  rewrite bind_run in Ht. rewrite bind_run. destruct (each _ _ b1) as [[[]|e] b2]; [|exact Ht].
  rewrite bind_run. destruct (_drain _ b2) as [[[]|e] b3]; [|exact Ht].
  rewrite bind_run. cbn [gets]. destruct Ht as [_ Ht]. exists encoded. split_and!; try done.
  by eapply check_keys_known.
Qed.

(** A closed target stays closed: closing it again does nothing, no operation
    that needs the shell restarts it (each raises [RuntimeError] and leaves the
    target untouched), and the first close forgets the process before it signals it,
    so nothing is signalled twice. *)
Theorem closed_stays_closed b :
  _closed b = true ->
  linux_close b = (Ok tt, b) /\
  let closed_error {A} : result A := Err (Exn RuntimeError (py "backend is closed")) in
  linux_get_status b = (closed_error, b) /\ linux_get_capabilities b = (closed_error, b) /\
  linux_capture_screen b = (closed_error, b) /\
  (forall text keys delay settle, linux_send_keys text keys delay settle b = (closed_error, b)).
Proof.
  intros Hc. assert (He : _ensure_started b = (Err (Exn RuntimeError (py "backend is closed")), b)).
  { unfold _ensure_started. rewrite bind_run. cbn [get]. by rewrite Hc. }
  split; [unfold linux_close; rewrite bind_run; cbn [get]; by rewrite Hc|].
  split_and!; intros; unfold linux_get_status, linux_get_capabilities, linux_capture_screen, linux_send_keys;
    by rewrite bind_run, He.
Qed.
End Shell.

(** ** A small kernel

    A terminal that takes two bytes at a time and is full after every write, a
    shell with [tty_out] to say, and a clock that passes every deadline after
    [tty_patience] readings. *)
Record small_tty := mkTty {
  tty_log : bytes; tty_full : bool; tty_out : list bytes; tty_patience : nat }.

#[global] Instance small_shell : Shell small_tty := {|
  shell_clock := fun w =>
    match tty_patience w with
    | O => (S754_infinity false, w)
    | S n => (float_zero, mkTty (tty_log w) (tty_full w) (tty_out w) n)
    end;
  uname := mret (mkUname (py "Linux") (py "dev") (py "6.1") (py "x86_64"));
  openpty := mret (3, 4);
  set_window_size _ _ := mret tt;
  set_nonblocking _ := mret tt;
  popen _ _ _ _ := mret 100;
  poll _ := mret None;
  killpg _ _ := mret tt;
  wait _ _ := mret tt;
  os_read _ n := fun w =>
    match tty_out w with
    | [] => (raise BlockingIOError [], w)
    | c :: out =>
        if len c <=? n then (Ok c, mkTty (tty_log w) (tty_full w) out (tty_patience w))
        else (raise OSError (py "buffer"), w)
    end;
  os_write _ d := fun w =>
    if tty_full w then (raise BlockingIOError [], w)
    else (Ok (Z.min 2 (len d)), mkTty (tty_log w ++ take 2 d) true (tty_out w) (tty_patience w));
  select_readable _ _ := fun w => (Ok (negb (bool_decide (tty_out w = []))), w);
  select_writable _ _ := fun w => (Ok tt, mkTty (tty_log w) false (tty_out w) (tty_patience w));
  os_close _ := mret tt;
  sleep _ := mret tt;
  write_rounds _ d w := (2 * length d + if tty_full w then 1 else 0)%nat |}.

#[export] Instance small_shell_laws : ShellLaws small_tty.
Proof.
  refine {| typed w _ := tty_log w |}; try done; cbn.
  - intros [l f o [|n]] _; done.
  - intros _ n [l f [|c o] p] _; [done|]. cbn. by case_match.
  - intros _ d [l [] o p] n w' Hd; [done|]. cbn. intros E. unfold raise in E. injection E as <- <-. cbn.
    destruct d as [|x d]; [done|]. unfold len. cbn [length]. split; [lia|].
    f_equal. destruct d as [|y d]; [done|].
    by replace (Z.to_nat _) with 2%nat by (cbn [length]; lia).
  - intros _ d [l [] o p] e w'; cbn; intros E; [by injection E as _ <-|done].
  - intros _ n [l f [|c o] p] data w'; cbn; [done|]. destruct (Z.leb_spec (len c) n); [|done].
    intros E. by injection E as <- _.
Defined.

#[export] Instance small_drain_laws : DrainLaws small_tty.
Proof.
  split.
  - intros d [l f o [|[|n]]]; [by destruct d as [| [] | |]..|done].
  - intros fd t n [l f [|c o] [|p]] w1 e; cbn; intros [= <-]; cbn; case_match; cbn; intros [= <-]; done.
  - intros fd n [l f [|c o] p]; cbn; [done|by case_match].
  - done.
Defined.

(** A running shell about to print, asked for a text and two keys. *)
Definition small_session : LinuxTerminalBackend small_tty :=
  mkLinux (mkTty [] false [ascii_bytes "ok"; ascii_bytes "!"] 9) (path_of (py "/srv")) (py "/bin/sh") 3 2
    false false Terminal.sample_terminal (Some 3) (Some 100) float_zero false.

Lemma send_keys_types_exactly_witness :
  let b := small_session in
  let '(r, b') := linux_send_keys (py "dir") [py "enter"; py "Up"] 0 10 b in
  is_ok r = true /\ typed (os b') 3 = ascii_bytes "dir" ++ [x0d; x1b] ++ ascii_bytes "[A".
Proof.
  intros b. pose proof (send_keys_types_exactly (py "dir") [py "enter"; py "Up"] 0 10 b 3 100
    eq_refl eq_refl eq_refl) as Hs.
  assert (Hok : is_ok (linux_send_keys (py "dir") [py "enter"; py "Up"] 0 10 b).1 = true)
    by (vm_compute; reflexivity).
  destruct (linux_send_keys (py "dir") [py "enter"; py "Up"] 0 10 b) as [[r|e] b']; [|done].
  split; [reflexivity|]. destruct Hs as (encoded & He & _ & _ & Ht & _).
  rewrite Ht. assert (Ok encoded = Ok (ascii_bytes "dir")) as [= ->]
    by (rewrite <- He; vm_compute; reflexivity).
  vm_compute. reflexivity.
Defined.

Lemma closed_stays_closed_witness :
  let b := (linux_close small_session).2 in linux_close b = (Ok tt, b).
Proof. apply closed_stays_closed. reflexivity. Defined.

Lemma drain_ends_witness :
  drain_loop (DRAIN_ROUNDS + 5) 3 (int_div 1 100) 0 small_session =
    drain_loop DRAIN_ROUNDS 3 (int_div 1 100) 0 small_session /\
  ends_in (drain_loop DRAIN_ROUNDS 3 (int_div 1 100) 0 small_session).1 = true /\
  write_loop (7 + 5) 3 (ascii_bytes "dir") small_session = write_loop 7 3 (ascii_bytes "dir") small_session.
Proof.
  destruct (drain_ends 3 (int_div 1 100) 3 2 small_session Terminal.sample_terminal_ok) as [[Hr Hd] Hw].
  split; [exact (Hd 5%nat)|]. split; [exact Hr|].
  apply (Hw (ascii_bytes "dir") 7%nat). vm_compute. reflexivity.
Defined.

Lemma drain_bounded_witness :
  let '(r, b') := _drain (int_div 1 100) small_session in
  exists chunks, len (concat chunks) <= DRAIN_BOUND /\
    (each Terminal.feed_bytes chunks Terminal.sample_terminal).2 = _terminal b'.
Proof.
  pose proof (drain_bounded (int_div 1 100) small_session) as Hd.
  destruct (_drain (int_div 1 100) small_session) as [r b'].
  destruct Hd as (chunks & Hl & Ht & _). exists chunks. split; [exact Hl|exact Ht].
Defined.
