(* ===== verification/SmallKernel.v ===== *)
(** * A small kernel

    The small file system of [LinuxFiles.v] and the small terminal of [LinuxShell.v]
    as one kernel, at which the theorems about programs that use both are
    instantiated.  It models no code of the program. *)
From S2P Require Import Prelude State Files.
From S2P Require Linux LinuxFiles LinuxShell.

Definition small_kernel : Type := LinuxFiles.small_fs * LinuxShell.small_tty.

Definition on_files {A} (m : stateful LinuxFiles.small_fs A) : stateful small_kernel A := fun k =>
  let '(r, f) := m k.1 in (r, (f, k.2)).
Definition on_tty {A} (m : stateful LinuxShell.small_tty A) : stateful small_kernel A := fun k =>
  let '(r, t) := m k.2 in (r, (k.1, t)).

#[export] Instance kernel_files : Files small_kernel := {|
  expanduser p := on_files (expanduser p);
  resolve p := on_files (resolve p);
  is_dir p := on_files (is_dir p);
  is_file p := on_files (is_file p);
  exists_ p := on_files (exists_ p);
  read_bytes p := on_files (read_bytes p);
  named_temporary_file dir := on_files (named_temporary_file dir);
  write_synced p data := on_files (write_synced p data);
  close_temporary p := on_files (close_temporary p);
  replace a b := on_files (replace a b);
  unlink p := on_files (unlink p) |}.

#[export] Instance kernel_shell : Linux.Shell small_kernel := {|
  Linux.shell_clock := fun k => let '(t, w) := @monotonic _ Linux.shell_clock k.2 in (t, (k.1, w));
  Linux.uname := on_tty Linux.uname;
  Linux.openpty := on_tty Linux.openpty;
  Linux.set_window_size fd size := on_tty (Linux.set_window_size fd size);
  Linux.set_nonblocking fd := on_tty (Linux.set_nonblocking fd);
  Linux.popen argv fd cwd env := on_tty (Linux.popen argv fd cwd env);
  Linux.poll p := on_tty (Linux.poll p);
  Linux.killpg p s := on_tty (Linux.killpg p s);
  Linux.wait p t := on_tty (Linux.wait p t);
  Linux.os_read fd n := on_tty (Linux.os_read fd n);
  Linux.os_write fd d := on_tty (Linux.os_write fd d);
  Linux.select_readable fd t := on_tty (Linux.select_readable fd t);
  Linux.select_writable fd t := on_tty (Linux.select_writable fd t);
  Linux.os_close fd := on_tty (Linux.os_close fd);
  Linux.sleep t := on_tty (Linux.sleep t);
  Linux.write_rounds fd d k := Linux.write_rounds fd d k.2 |}.

#[local] Existing Instance LinuxFiles.small_files_laws.

#[export] Instance kernel_files_laws : FilesLaws small_kernel.
Proof.
  refine {| contents k := contents k.1 |};
    cbn [resolve is_dir is_file exists_ read_bytes named_temporary_file write_synced close_temporary replace
      unlink kernel_files]; unfold on_files.
  - intros p k q. pose proof (resolve_keeps p k.1 q) as Hk. by destruct (resolve p k.1).
  - intros p k q. pose proof (is_dir_keeps p k.1 q) as Hk. by destruct (is_dir p k.1).
  - intros p k q. pose proof (is_file_keeps p k.1 q) as Hk. by destruct (is_file p k.1).
  - intros p k q. pose proof (exists_keeps p k.1 q) as Hk. by destruct (exists_ p k.1).
  - intros p k q. pose proof (read_bytes_keeps p k.1 q) as Hk. by destruct (read_bytes p k.1).
  - intros p k q. pose proof (close_temporary_keeps p k.1 q) as Hk. by destruct (close_temporary p k.1).
  - intros p k k'. destruct (exists_ p k.1) as [r f] eqn:E. intros [= -> _]. exact (exists_false p k.1 f E).
  - intros p k data k'. destruct (read_bytes p k.1) as [r f] eqn:E. intros [= -> _]. exact (read_bytes_Ok p k.1 data f E).
  - intros dir k t k'. destruct (named_temporary_file dir k.1) as [r f] eqn:E. intros [= -> <-].
    exact (temporary_Ok dir k.1 t f E).
  - intros dir k e k' q. destruct (named_temporary_file dir k.1) as [r f] eqn:E. intros [= -> <-].
    exact (temporary_Err dir k.1 e f q E).
  - intros t data k q Hq. pose proof (write_synced_other t data k.1 q Hq) as Hk.
    by destruct (write_synced t data k.1).
  - intros t data k u k'. destruct (write_synced t data k.1) as [r f] eqn:E. intros [= -> <-].
    exact (write_synced_Ok t data k.1 u f E).
  - intros a b k u k' q. destruct (replace a b k.1) as [r f] eqn:E. intros [= -> <-]. exact (replace_Ok a b k.1 u f q E).
  - intros a b k e k' q. destruct (replace a b k.1) as [r f] eqn:E. intros [= -> <-]. exact (replace_Err a b k.1 e f q E).
  - intros p k q Hq. pose proof (unlink_other p k.1 q Hq) as Hk. by destruct (unlink p k.1).
  - intros p k. pose proof (resolve_returns p k.1) as Hk. by destruct (resolve p k.1).
  - intros p k. pose proof (is_dir_returns p k.1) as Hk. by destruct (is_dir p k.1).
  - intros p k. pose proof (is_file_returns p k.1) as Hk. by destruct (is_file p k.1).
  - intros p k. pose proof (exists_returns p k.1) as Hk. by destruct (exists_ p k.1).
  - intros p k. pose proof (read_bytes_returns p k.1) as Hk. by destruct (read_bytes p k.1).
  - intros dir k. pose proof (temporary_returns dir k.1) as Hk. by destruct (named_temporary_file dir k.1).
  - intros t data k. pose proof (write_synced_returns t data k.1) as Hk. by destruct (write_synced t data k.1).
  - intros t k. pose proof (close_temporary_returns t k.1) as Hk. by destruct (close_temporary t k.1).
  - intros a b k. pose proof (replace_returns a b k.1) as Hk. by destruct (replace a b k.1).
  - intros p k. pose proof (unlink_returns p k.1) as Hk. by destruct (unlink p k.1).
Defined.

