(* ===== verification/LinuxInvariant.v ===== *)
(** * The invariant of the Linux target

    Whatever the shell writes and whatever the kernel answers, the terminal of a
    target stays well formed and as large as it was made, so a target of the usual
    size shows screens the protocol can carry. *)
From S2P Require Import Prelude PyFloat State Backend Files Linux AgentMap.
From S2P Require Models Terminal.

(** What an operation does to a target besides calling the kernel: it feeds the
    terminal and assigns the descriptor, the process and the closed flag. *)
Class Stable {W : Type} (P : LinuxTerminalBackend W -> Prop) : Prop := {
  stable_os w b : P b -> P (set_os w b);
  stable_feed data b : P b -> P (set_terminal (Terminal.feed_bytes data (_terminal b)).2 b);
  stable_master_fd fd b : P b -> P (set_master_fd fd b);
  stable_process p b : P b -> P (set_process p b);
  stable_closed b : P b -> P (set_closed b) }.

Section Walk.
Context {W : Type} `{Files W} `{Shell W} (P : LinuxTerminalBackend W -> Prop) `{!Stable P}.
Local Abbreviation sound := (preserves P).
Implicit Types (b : LinuxTerminalBackend W).

Lemma in_os_sound {A} (m : stateful W A) : sound (in_os m).
Proof. intros b Hb. unfold in_os. destruct (m (os b)) as [r w]. exact (stable_os w b Hb). Qed.

Lemma feed_sound data : sound (in_terminal (Terminal.feed_bytes data)).
Proof.
  intros b Hb. unfold in_terminal. pose proof (stable_feed data b Hb) as Hf.
  destruct (Terminal.feed_bytes data (_terminal b)) as [u t]. exact Hf.
Qed.

Lemma attempt_sound {A} (m : stateful (LinuxTerminalBackend W) A) : sound m -> sound (attempt m).
Proof. intros Hm b Hb. unfold attempt. specialize (Hm b Hb). by destruct (m b). Qed.

Lemma modify_sound f : (forall b, P b -> P (f b)) -> sound (modify f).
Proof. intros Hf b Hb. by apply Hf. Qed.

Create HintDb sound discriminated.
#[local] Hint Resolve in_os_sound feed_sound : sound.

(** Goes through a method, statement by statement. *)
Ltac sound_step :=
  match goal with
  | |- sound (_ ≫= _) => apply preserves_bind; [|intros _ ? _ _ _]
  | |- sound (mret _) => apply preserves_ret
  | |- sound (lift _) => apply preserves_lift
  | |- sound (fail _) => apply preserves_fail
  | |- sound (gets _) => apply preserves_gets
  | |- sound get => by intros ?
  | |- sound (modify _) => apply modify_sound; intros ? ?;
      first [by apply stable_master_fd | by apply stable_process | by apply stable_closed]
  | |- sound (attempt _) => apply attempt_sound
  | |- sound (catch _ _) => apply preserves_catch; [|intros ?]
  | |- sound (each _ _) => apply preserves_each; intros ? _
  | |- sound (if ?c then _ else _) => destruct c
  | |- sound (match ?x with _ => _ end) => destruct x
  end.
Ltac solve_sound := cbv zeta; repeat first [progress eauto with sound | sound_step].

Lemma out_of_rounds_sound {A} : sound (@out_of_rounds (LinuxTerminalBackend W) A).
Proof. unfold out_of_rounds. solve_sound. Qed.
Lemma now_sound : sound now.
Proof. unfold now. solve_sound. Qed.
#[local] Hint Resolve out_of_rounds_sound now_sound : sound.

Lemma read_loop_sound fuel fd deadline consumed : sound (read_loop fuel fd deadline consumed).
Proof. revert consumed. induction fuel as [|fuel IH]; intros consumed; cbn [read_loop]; solve_sound. Qed.
#[local] Hint Resolve read_loop_sound : sound.

Lemma drain_loop_sound fuel fd deadline consumed : sound (drain_loop fuel fd deadline consumed).
Proof. revert consumed. induction fuel as [|fuel IH]; intros consumed; cbn [drain_loop]; solve_sound. Qed.
#[local] Hint Resolve drain_loop_sound : sound.

Lemma drain_sound timeout : sound (_drain timeout).
Proof. unfold _drain. solve_sound. Qed.
#[local] Hint Resolve drain_sound : sound.

Lemma write_loop_sound fuel fd value : sound (write_loop fuel fd value).
Proof. revert value. induction fuel as [|fuel IH]; intros [|x value]; cbn [write_loop]; solve_sound. Qed.
#[local] Hint Resolve write_loop_sound : sound.

Lemma write_sound value : sound (_write value).
Proof. unfold _write. solve_sound. Qed.
#[local] Hint Resolve write_sound : sound.

Lemma ensure_started_sound : sound _ensure_started.
Proof. unfold _ensure_started, finally. solve_sound. Qed.
#[local] Hint Resolve ensure_started_sound : sound.

Lemma kill_sound process : sound (kill process).
Proof. unfold kill, suppress. solve_sound. Qed.
#[local] Hint Resolve kill_sound : sound.

Lemma terminate_sound process : sound (terminate process).
Proof. unfold terminate. solve_sound. Qed.
#[local] Hint Resolve terminate_sound : sound.

Lemma send_keys_sound text keys delay settle : sound (linux_send_keys text keys delay settle).
Proof. unfold linux_send_keys, type_text, type_key. solve_sound. Qed.
#[local] Hint Resolve send_keys_sound : sound.

(** Every operation of the target keeps a stable predicate. *)
#[global] Instance stable_invariant : BackendInvariant P.
Proof.
  split; intros; cbn [get_status get_capabilities capture_screen capture_graphics send_keys download_file
    upload_file close linux_backend];
    unfold linux_get_status, linux_get_capabilities, linux_capture_screen, linux_capture_graphics,
      linux_download_file, linux_upload_file, linux_close; solve_sound.
Qed.

End Walk.

(** ** The invariants *)

(** The target is [c] columns by [r] rows, and its terminal is well formed. *)
Definition linux_ok {W} (c r : Z) (b : LinuxTerminalBackend W) : Prop :=
  columns b = c /\ rows b = r /\ Terminal.inv c r false (_terminal b).

#[global] Instance linux_ok_stable {W} c r : Stable (linux_ok (W:=W) c r).
Proof.
  split; try done. intros data b (Hc & Hr & Hb). split_and!; [done..|].
  by destruct (Terminal.feed_bytes_safe _ _ false data _ Hb ltac:(done)).
Qed.

(** What the target permits. *)
Definition policy {W} (read write : bool) (b : LinuxTerminalBackend W) : Prop :=
  allow_file_read b = read /\ allow_file_write b = write.

#[global] Instance policy_stable {W} read write : Stable (policy (W:=W) read write).
Proof. by split. Qed.

Section Linux.
Context {W : Type} `{Files W} `{Shell W} (c r : Z).
Implicit Types (b : LinuxTerminalBackend W).

(** ** The screens it captures *)
Lemma linux_screen b s b' :
  linux_capture_screen b = (Ok s, b') ->
  Terminal.snapshot (_terminal b') = Ok s.
Proof.
  unfold linux_capture_screen. intros Hr.
  apply bind_inv in Hr as [(e & _ & [=])|([] & b1 & _ & Hr)].
  apply bind_inv in Hr as [(e & _ & [=])|([] & b2 & _ & Hr)].
  apply bind_inv in Hr as [(e & _ & [=])|(t & b3 & [= <- <-] & Hr)].
  by injection Hr as Hs <-.
Qed.

Lemma linux_screens_fit : c * r <= 16377 -> small_screens_in (linux_ok (W:=W) c r).
Proof.
  intros Hsize b s b' Hb Hs. pose proof (keep_capture_screen b Hb) as Hb'.
  rewrite Hs in Hb'. cbn [snd] in Hb'. destruct Hb' as (_ & _ & [[Hg _] _]).
  apply linux_screen in Hs. unfold Terminal.snapshot, Models.new_text_screen in Hs. inv_ok. cbn.
  by destruct Hg as (_ & _ & -> & -> & _).
Qed.

#[global] Instance linux_laws : BackendLaws (LinuxTerminalBackend W).
Proof.
  split; [|done]. intros b s b' Hs%linux_screen. unfold Terminal.snapshot, Models.new_text_screen in Hs.
  inv_ok. by eapply Models.text_screen_check_Ok.
Qed.

(** ** A new target *)
Lemma new_linux_ok path sh fr fw (w : W) b w' :
  new_linux path sh c r fr fw w = (Ok b, w') -> linux_ok c r b.
Proof.
  unfold new_linux. intros Hn.
  repeat match goal with
  | H : (_ ≫= _) _ = (Ok _, _) |- _ => apply bind_inv in H as [(? & _ & [=])|(? & ? & ? & ?)]
  end.
  match goal with H : lift (Terminal.new_terminal _ _) _ = _ |- _ => injection H as Ht _ end.
  match goal with H : mret _ _ = _ |- _ => injection H as <- _ end.
  split_and!; [done..|]. by apply Terminal.new_terminal_ok.
Qed.

Lemma new_linux_policy path sh fr fw (w : W) b w' :
  new_linux path sh c r fr fw w = (Ok b, w') -> policy fr fw b.
Proof.
  unfold new_linux. intros Hn.
  repeat match goal with
  | H : (_ ≫= _) _ = (Ok _, _) |- _ => apply bind_inv in H as [(? & _ & [=])|(? & ? & ? & ?)]
  end.
  by match goal with H : mret _ _ = _ |- _ => injection H as <- _ end.
Qed.
End Linux.
