(* ===== verification/Simulator.v ===== *)
(** * The DOS-agent simulator ([simulator.py])

    The program that stands in for a DOS machine: a Linux target behind the agent's
    server.  [arguments] is what [argparse] makes of the command line, with its
    defaults filled in; signals, which only end the loop, and logging are left out. *)
From S2P Require Import Prelude PyText PyStr Crypto Constants State Backend AgentServer AgentInvariant AgentSafety AgentMap.
From S2P Require Import Files Linux LinuxInvariant SmallKernel.
From S2P Require LinuxFiles LinuxShell.

Record arguments := mkArguments {
  arg_bind : pystr;
  arg_key : option pystr;
  arg_password : option pystr;
  arg_root : path;
  arg_shell : pystr;
  arg_file_read : bool;
  arg_file_write : bool }.

(** The command line without options, in the directory [cwd]. *)
Definition default_arguments (cwd : path) : arguments :=
  mkArguments (py "127.0.0.1:" ++ py_int DEFAULT_PORT) None None cwd (py "/bin/sh") false false.

(** The kernel's [socket.bind]. *)
Class AgentSocket (W : Type) := bind_agent (address : Address) : stateful W unit.
#[global] Hint Mode AgentSocket ! : typeclass_instances.

Definition bind_address (bind : pystr) : result (pystr * pystr) :=
  match rpartition 58 bind with
  | Some (host, raw_port) => Ok (host, raw_port)
  | None => raise ValueError (py "not enough values to unpack (expected 2, got 1)")
  end.

Definition agent_key (args : arguments) : result bytes :=
  match arg_key args, arg_password args with
  | Some value, _ => parse_key value
  | None, Some password => derive_password_key password
  | None, None => Ok OPEN_MODE_KEY
  end.

Section Simulator.
Context {W : Type} `{Files W} `{Shell W} `{AgentSocket W}.
Local Abbreviation server := (UdpAgentServer (LinuxTerminalBackend W)).

(** [main] up to the [try]. *)
Definition start (args : arguments) (w : W) : result server :=
  ends ← bind_address (arg_bind args);
  let '(host, raw_port) := ends in
  b ← (new_linux (arg_root args) (arg_shell args) 80 25 (arg_file_read args) (arg_file_write args) w).1;
  k ← agent_key args;
  port ← int_of_str raw_port;
  s ← new_server b k false;
  let '(bound, b) := in_os (bind_agent (host, port)) b in
  bound;;
  Ok (AgentServer.set_backend b s).

(** The [try] statement: serve until stopped, and close whatever happens. *)
Definition run (waits : list wakeup) : stateful server unit := finally (serve_forever waits) close_server.

Definition main (args : arguments) (waits : list wakeup) (w : W) : result unit * option server :=
  match start args w with
  | Ok s => let '(r, s) := run waits s in (r, Some s)
  | Err e => (Err e, None)
  end.

(** Without options the simulator listens on the loopback address only, in open mode,
    and grants no access to files. *)
Lemma default_simulator cwd (w : W) s :
  start (default_arguments cwd) w = Ok s ->
  bind_address (arg_bind (default_arguments cwd)) = Ok (py "127.0.0.1", py "21300") /\
  key s = OPEN_MODE_KEY /\ allow_file_read (backend s) = false /\ allow_file_write (backend s) = false.
Proof.
  intros Hs. split; [by vm_compute|]. unfold start in Hs.
  change (bind_address _) with (Ok (py "127.0.0.1", py "21300")) in Hs. cbn [mbind result_bind] in Hs.
  destruct (new_linux _ _ _ _ _ _ w) as [[b|] w'] eqn:Eb; [|done]. apply new_linux_policy in Eb.
  change (agent_key _) with (Ok OPEN_MODE_KEY : result bytes) in Hs. cbn [fst mbind result_bind] in Hs.
  destruct (int_of_str _) as [port|]; [|done]. cbn [mbind result_bind] in Hs. unfold new_server in Hs.
  rewrite raise_if_false in Hs by done. cbn [mbind result_bind] in Hs.
  destruct (in_os _ b) as [r b1] eqn:Ei.
  pose proof (in_os_sound (policy false false) (bind_agent (py "127.0.0.1", port)) b Eb) as Hp. rewrite Ei in Hp.
  destruct r as [[]|]; [|done]. injection Hs as <-. by destruct Hp.
Qed.

Lemma simulator_start_ok args w s : start args w = Ok s -> server_ok s /\ linux_ok 80 25 (backend s).
Proof.
  unfold start. destruct (bind_address _) as [[host raw_port]|]; [|done]. cbn [mbind result_bind].
  destruct (new_linux _ _ _ _ _ _ w) as [[b|] w'] eqn:Eb; [|done]. cbn [fst mbind result_bind].
  apply new_linux_ok in Eb. intros Hs. inv_ok.
  destruct (in_os _ b) as [r b1] eqn:Ei. inv_ok.
  pose proof (in_os_sound (linux_ok 80 25) (bind_agent (host, v0)) b Eb) as Hb. rewrite Ei in Hb. split; [|exact Hb].
  match goal with Hn : new_server _ _ _ = Ok _ |- _ => apply new_server_ok in Hn; destruct Hn end. by split.
Qed.

(** C4. What the network sends does not stop the simulator.  Once it has started, with
    whatever arguments, it serves any sequence of datagrams from anyone, forged,
    corrupted, replayed or authentic, whatever the shell prints and whatever the kernel
    answers, and returns, but for three ends: waiting for a datagram fails while the
    server is open; the socket refuses to send an answer, and its [OSError] leaves the
    loop; or a call of the Linux target, in a state with the target's invariant, never
    returns, as [_write] to a terminal that nothing drains.  All the while the server's
    invariant holds and the terminal is well formed, of 80 columns and 25 rows.  [main]
    closes the server when the loop has ended, and ends with the closing's exception if
    it raises and otherwise as the loop ended; it hangs if the loop does. *)
Theorem simulator_survives args w s waits :
  start args w = Ok s -> Forall wait_ok waits ->
  exists r s', serve_forever waits s = (r, s') /\
    ended (hangs_in (linux_ok (W:=W) 80 25)) waits r /\ server_ok s' /\ linux_ok 80 25 (backend s') /\
    main args waits w =
      if ends_in r then
        let '(closing, s'') := close_server s' in
        (match closing with Ok _ => r | Err e => Err e end, Some s'')
      else (r, Some s').
Proof.
  intros Hs Hw. destruct (simulator_start_ok _ _ _ Hs) as [Hok Hb].
  destruct (serve_forever_keeps (linux_ok 80 25) waits s) as (r & s' & Hr & Hok' & Hb' & He); try done.
  { by apply linux_screens_fit. }
  exists r, s'. split_and!; try done. unfold main, run. rewrite Hs, finally_run, Hr.
  destruct (ends_in r); [|done]. by destruct (close_server s') as [[[]|e] s''].
Qed.
End Simulator.

(** ** A simulator on a small kernel *)
#[export] Instance small_socket : AgentSocket small_kernel := fun _ => mret tt.

Definition small_boot : small_kernel :=
  (LinuxFiles.mkFs (fun q => if decide (q = path_of (py "/bin/sh")) then Some [] else None)
     [path_of (py "/srv")] 0 false,
   LinuxShell.mkTty [] false [[x24; x20]] 9).

Definition small_arguments : arguments :=
  mkArguments (py "127.0.0.1:21300") (Some (py "000102030405060708090a0b0c0d0e0f")) None
    (path_of (py "/srv")) (py "/bin/sh") true false.

Definition small_waits : list wakeup :=
  [arriving sample_hello; Raised (Exn TimeoutError (py "timed out")) false; arriving [x00]].

Lemma simulator_survives_witness :
  match start small_arguments small_boot with
  | Ok s => exists r s', serve_forever small_waits s = (r, s') /\ r = Ok tt /\ linux_ok 80 25 (backend s')
  | Err _ => False
  end.
Proof.
  destruct (start small_arguments small_boot) as [s|e] eqn:E; [|vm_compute in E; discriminate E].
  assert (Hw : Forall wait_ok small_waits) by solve_waits.
  destruct (simulator_survives small_arguments small_boot s _ E Hw) as (r & s' & Hr & _ & _ & Hl & _).
  exists r, s'. split; [exact Hr|]. split; [|exact Hl].
  apply (f_equal fst) in Hr. cbn [fst] in Hr. rewrite <- Hr.
  assert (Es : Ok s = start small_arguments small_boot) by (symmetry; exact E).
  change (match Ok s with Ok s => (serve_forever small_waits s).1 = Ok tt | Err _ => False end).
  rewrite Es. vm_compute. reflexivity.
Defined.
