(* ===== verification/Runtime.v ===== *)
(** * Target selection ([runtime.py])

    The bridge's table of targets: configured from the environment, extended by
    discovery, resolved by selector or name.  A backend object belongs to one
    record, so a reference to it is the key of its record in the table. *)
From S2P Require Import Prelude PyFloat Dict PyText PyStr Json Crypto Constants State Value Backend.
From S2P Require Import Discovery Files.
From S2P Require UdpBackend Linux.

Abbreviation Address := (pystr * Z)%type.

(** What the process gets from its host: the environment, the resolver, sockets,
    random numbers, and the kernel a local target runs on. *)
Class Host (W N K : Type) := {
  host_clock :: Clock W;
  host_discovery :: DiscoverySocket W;
  environ : W -> pystr -> option pystr;
  getcwd : stateful W pystr;
  gethostbyname (host : pystr) : stateful W pystr;
  udp_socket : stateful W N;
  randbelow (n : Z) : W -> Z * W;
  kernel : W -> K }.
#[global] Hint Mode Host ! - - : typeclass_instances.

(** ** Backend objects *)
Inductive backend_object (I N K : Type) :=
| Injected (b : I)
| Udp (u : UdpBackend.UdpBackend N)
| Local (l : Linux.LinuxTerminalBackend K).
Arguments Injected {I N K} b.
Arguments Udp {I N K} u.
Arguments Local {I N K} l.

Section Object.
Context {I N K : Type} `{Backend I} `{UdpBackend.Network N} `{Files K} `{Linux.Shell K}.

(** A method call goes to the object's own class. *)
Definition dispatch {A} (op : forall B, Backend B -> stateful B A) :
    stateful (backend_object I N K) A := fun o =>
  match o with
  | Injected b => let '(r, b) := op I _ b in (r, Injected b)
  | Udp u => let '(r, u) := op (UdpBackend.UdpBackend N) _ u in (r, Udp u)
  | Local l => let '(r, l) := op (Linux.LinuxTerminalBackend K) _ l in (r, Local l)
  end.

#[export] Instance object_backend : Backend (backend_object I N K) := {|
  get_status := dispatch (fun B _ => get_status);
  get_capabilities := dispatch (fun B _ => get_capabilities);
  capture_screen := dispatch (fun B _ => capture_screen);
  capture_graphics := dispatch (fun B _ => capture_graphics);
  send_keys text keys delay settle := dispatch (fun B _ => send_keys text keys delay settle);
  download_file path := dispatch (fun B _ => download_file path);
  upload_file path data overwrite := dispatch (fun B _ => upload_file path data overwrite);
  close := dispatch (fun B _ => close) |}.
End Object.

(** ** Records *)
Record TargetRecord (B : Type) := mkRecord {
  selector : pystr;
  name : pystr;
  source : pystr;
  rec_address : option Address;
  backend : option B;
  metadata : option (sdict value);
  rec_last_seen : option spec_float }.
Arguments mkRecord {B}.
Arguments selector {B}.
Arguments name {B}.
Arguments source {B}.
Arguments rec_address {B}.
Arguments backend {B}.
Arguments metadata {B}.
Arguments rec_last_seen {B}.

Definition set_backend {B} (o : option B) (r : TargetRecord B) : TargetRecord B :=
  mkRecord (selector r) (name r) (source r) (rec_address r) o (metadata r) (rec_last_seen r).

(** [_TargetRecord.to_dict]; the clock is read only for a discovered target. *)
Definition record_to_dict {B W} `{Clock W} (r : TargetRecord B) : stateful W (sdict value) := fun w =>
  let value := [(py "selector", VStr (selector r)); (py "name", VStr (name r));
                (py "source", VStr (source r))] in
  let value := match rec_address r with
               | Some (host, port) =>
                   sdict_set (py "port") (VInt port) (sdict_set (py "host") (VStr host) value)
               | None => value
               end in
  let value := match metadata r with Some m => sdict_update value m | None => value end in
  let '(value, w) :=
    match rec_last_seen r with
    | Some seen =>
        let '(now, w) := monotonic w in
        (sdict_set (py "last_seen_seconds_ago") (VFloat (seconds_ago now seen)) value, w)
    | None => (value, w)
    end in
  (Ok (sdict_set (py "connected") (VBool (bool_decide (is_Some (backend r)))) value), w).

(** ** The runtime *)

(** [dropped] holds the objects no record refers to any more: an object outlives its
    record's reference, and so does the socket of a client that was not closed. *)
Record BackendRuntime (W B : Type) := mkRuntime {
  world : W;
  records : sdict (TargetRecord B);
  configured : bool;
  key : option bytes;
  runtime_file_read : bool;
  runtime_file_write : bool;
  discovery : option DiscoveryListener;
  dropped : list B }.
Arguments mkRuntime {W B}.
Arguments world {W B}.
Arguments records {W B}.
Arguments configured {W B}.
Arguments key {W B}.
Arguments runtime_file_read {W B}.
Arguments runtime_file_write {W B}.
Arguments discovery {W B}.
Arguments dropped {W B}.

Section Updates.
Context {W B : Type}.
Implicit Types (x : BackendRuntime W B).

Definition set_world (w : W) x : BackendRuntime W B := mkRuntime w (records x) (configured x) (key x) (runtime_file_read x)
  (runtime_file_write x) (discovery x) (dropped x).
Definition set_records (d : sdict (TargetRecord B)) x : BackendRuntime W B := mkRuntime (world x) d (configured x) (key x) (runtime_file_read x)
  (runtime_file_write x) (discovery x) (dropped x).
Definition set_configured x := mkRuntime (world x) (records x) true (key x) (runtime_file_read x)
  (runtime_file_write x) (discovery x) (dropped x).
Definition set_key k x := mkRuntime (world x) (records x) (configured x) k (runtime_file_read x)
  (runtime_file_write x) (discovery x) (dropped x).
Definition set_file_read b x := mkRuntime (world x) (records x) (configured x) (key x) b
  (runtime_file_write x) (discovery x) (dropped x).
Definition set_file_write b x := mkRuntime (world x) (records x) (configured x) (key x)
  (runtime_file_read x) b (discovery x) (dropped x).
Definition set_discovery l x := mkRuntime (world x) (records x) (configured x) (key x)
  (runtime_file_read x) (runtime_file_write x) l (dropped x).
Definition set_dropped os x := mkRuntime (world x) (records x) (configured x) (key x)
  (runtime_file_read x) (runtime_file_write x) (discovery x) os.
End Updates.

(** [BackendRuntime.__init__] *)
Definition new_runtime {W B} (w : W) (injected : option B) : BackendRuntime W B :=
  let records := match injected with
                 | Some b => [(py "default", mkRecord (py "default") (py "default") (py "injected")
                                None (Some b) None None)]
                 | None => []
                 end in
  mkRuntime w records (bool_decide (is_Some injected)) None false false None [].

(** ** Settings *)
Definition _parse_endpoint (value : pystr) : result Address :=
  let '(host, raw_port) := match rpartition 58 value with
                           | Some (host, raw_port) => (host, raw_port)
                           | None => (value, py_int DEFAULT_PORT)
                           end in
  raise_if (bool_decide (host = [])) RuntimeError (py "target host must not be empty");;
  port ← int_of_str raw_port;
  raise_if (negb ((1 <=? port) && (port <=? 0xFFFF))) RuntimeError
    (py "target port is outside 1-65535");;
  Ok (host, port).

(** [os.environ.get] of the settings, as a function. *)
Definition _enabled (env : pystr -> option pystr) (name : pystr) : result bool :=
  let value := default [] (env name) in
  raise_if (negb (bool_decide (value = [] \/ value = py "0" \/ value = py "1"))) RuntimeError
    (name ++ py " must be 0 or 1");;
  Ok (bool_decide (value = py "1")).

Definition _credential_key (env : pystr -> option pystr) : result bytes :=
  let key_value := env (py "DOS_MCP_KEY") in
  let password := env (py "DOS_MCP_PASSWORD") in
  raise_if (bool_decide (is_Some key_value) && bool_decide (is_Some password)) RuntimeError
    (py "set only one of DOS_MCP_KEY and DOS_MCP_PASSWORD");;
  match key_value, password with
  | Some key_value, _ => parse_key key_value
  | None, Some password => derive_password_key password
  | None, None => Ok OPEN_MODE_KEY
  end.

Section Runtime.
Context {W I N K : Type} `{Host W N K} `{Backend I} `{UdpBackend.Network N} `{Files K} `{Linux.Shell K}.
Local Abbreviation B := (backend_object I N K).
Local Abbreviation M := (stateful (BackendRuntime W B)).

Definition in_world {A} (m : stateful W A) : M A := fun x =>
  let '(r, w) := m (world x) in (r, set_world w x).

Definition env (x : BackendRuntime W B) (name : pystr) : option pystr := environ (world x) name.

(** A setting that is present and not empty. *)
Definition truthy (s : option pystr) : option pystr :=
  match s with Some [] => None | s => s end.

(** ** Configuration *)
Definition _add_static (name endpoint : pystr) : M unit :=
  address ← lift (_parse_endpoint endpoint);
  modify (fun x => set_records
    (sdict_set name (mkRecord name name (py "static") (Some address) None None None) (records x)) x).

Definition add_one_static (item : pystr * json) : M unit :=
  match item with
  | ((_ :: _) as name, JString endpoint) =>
      d ← gets records;
      lift (raise_if (bool_decide (is_Some (sdict_get name d))) RuntimeError
        (py "duplicate target selector " ++ repr name));;
      _add_static name endpoint
  | _ => fail (Exn RuntimeError (py "DOS_MCP_TARGETS maps names to host:port strings"))
  end.

(** [json.loads], its decoding errors converted. *)
Definition parse_targets (value : pystr) : result json :=
  match json_loads value with
  | Err e =>
      if bool_decide (exn_cls e = JSONDecodeError)
      then raise RuntimeError (py "DOS_MCP_TARGETS must be a JSON object") else Err e
  | r => r
  end.

Definition _add_static_targets (value : pystr) : M unit :=
  parsed ← lift (parse_targets value);
  match parsed with
  | JObject ((_ :: _) as items) => each add_one_static items
  | _ => fail (Exn RuntimeError (py "DOS_MCP_TARGETS must be a nonempty JSON object"))
  end.

(** [int(os.environ.get("DOS_MCP_DISCOVERY_PORT", DISCOVERY_PORT))] *)
Definition discovery_port (setting : option pystr) : result Z :=
  match setting with Some s => int_of_str s | None => Ok DISCOVERY_PORT end.

Definition start_discovery : M unit :=
  x ← get;
  port ← lift (discovery_port (env x (py "DOS_MCP_DISCOVERY_PORT")));
  listener ← in_world (new_listener port);
  modify (set_discovery (Some listener)).

(** The local target. *)
Definition add_local : M unit :=
  x ← get;
  cwd ← in_world getcwd;
  let root := path_of (default cwd (env x (py "DOS_MCP_ROOT"))) in
  let shell := default (py "/bin/sh") (env x (py "DOS_MCP_SHELL")) in
  local ← lift (Linux.new_linux root shell 80 25 (runtime_file_read x) (runtime_file_write x)
                  (kernel (world x))).1;
  modify (fun x => set_records
    (sdict_set (py "local") (mkRecord (py "local") (py "local") (py "linux") None (Some (Local local))
       None None) (records x)) x).

Definition _configure : M unit :=
  x ← get;
  if configured x then mret tt else
  modify set_configured;;
  read ← lift (_enabled (env x) (py "DOS_MCP_ALLOW_FILE_READ"));
  modify (set_file_read read);;
  write ← lift (_enabled (env x) (py "DOS_MCP_ALLOW_FILE_WRITE"));
  modify (set_file_write write);;
  let single := truthy (env x (py "DOS_MCP_TARGET")) in
  let multiple := truthy (env x (py "DOS_MCP_TARGETS")) in
  discover ← lift (_enabled (env x) (py "DOS_MCP_DISCOVERY"));
  lift (raise_if (bool_decide (is_Some single) && bool_decide (is_Some multiple)) RuntimeError
    (py "set only one of DOS_MCP_TARGET and DOS_MCP_TARGETS"));;
  if bool_decide (is_Some single) || bool_decide (is_Some multiple) || discover then
    key ← lift (_credential_key (env x));
    modify (set_key (Some key));;
    match single with Some endpoint => _add_static (py "dos") endpoint | None => mret tt end;;
    match multiple with Some value => _add_static_targets value | None => mret tt end;;
    if discover : bool then start_discovery else mret tt
  else add_local.

(** ** Discovery *)

(** [self._discovery.drain()] *)
Definition drain_announcements (l : DiscoveryListener) : M (list DiscoveredTarget) := fun x =>
  let '(r, (l, w)) := drain (l, world x) in (r, set_discovery (Some l) (set_world w x)).

(** What is kept of [DiscoveredTarget.to_dict]. *)
Definition discovered_metadata (t : DiscoveredTarget) (now : spec_float) : sdict value :=
  foldl (fun d k => sdict_pop k d) (discovered_to_dict t now)
    [py "selector"; py "name"; py "host"; py "port"; py "source"; py "last_seen_seconds_ago"].

(** [record.backend.close()] on the record at [sel]. *)
Definition close_backend (sel : pystr) : M unit := fun x =>
  match sdict_get sel (records x) with
  | Some r =>
      match backend r with
      | Some o =>
          let '(res, o) := close o in
          (res, set_records (sdict_set sel (set_backend (Some o) r) (records x)) x)
      | None => (Ok tt, x)
      end
  | None => (Ok tt, x)
  end.

Definition update_record (sel : pystr) (f : TargetRecord B -> TargetRecord B) : M unit :=
  modify (fun x =>
    match sdict_get sel (records x) with
    | Some r => set_records (sdict_set sel (f r) (records x)) x
    | None => x
    end).

(** [record.backend = None] on the record at [sel]. *)
Definition drop_backend (sel : pystr) : M unit :=
  modify (fun x =>
    match sdict_get sel (records x) with
    | Some r => set_records (sdict_set sel (set_backend None r) (records x))
                  (set_dropped (dropped x ++ option_list (backend r)) x)
    | None => x
    end).

Definition record_discovered (t : DiscoveredTarget) : M unit :=
  let ad := advertisement t in
  let sel := DiscoveryAdvertisement.selector ad in
  now ← in_world read_clock;
  let metadata := discovered_metadata t now in
  d ← gets records;
  match sdict_get sel d with
  | None =>
      modify (fun x => set_records
        (sdict_set sel (mkRecord sel (DiscoveryAdvertisement.name ad) (py "discovery")
           (Some (address t)) None (Some metadata) (Some (last_seen t))) (records x)) x)
  | Some existing =>
      (if negb (bool_decide (rec_address existing = Some (address t))) &&
          bool_decide (is_Some (backend existing))
       then close_backend sel;; drop_backend sel
       else mret tt);;
      update_record sel (fun r => mkRecord (selector r) (name r) (source r) (Some (address t))
        (backend r) (Some metadata) (Some (last_seen t)))
  end.

Definition _refresh_discovery : M unit :=
  l ← gets discovery;
  match l with
  | None => mret tt
  | Some l =>
      targets ← drain_announcements l;
      each record_discovered targets
  end.

(** ** Resolution *)
Definition same_name (target : pystr) (p : pystr * TargetRecord B) : bool :=
  bool_decide (casefold (name p.2) = casefold target).

(** [_resolve]: the key of the record. *)
Definition _resolve (d : sdict (TargetRecord B)) (target : option pystr) : result pystr :=
  match target with
  | None =>
      match d with
      | [(sel, _)] => Ok sel
      | [] => raise RuntimeError (py "no DOS targets are known; wait for discovery or configure one")
      | _ => raise RuntimeError (py "target is required when multiple DOS systems are known")
      end
  | Some target =>
      match sdict_get target d with
      | Some _ => Ok target
      | None =>
          match filter (fun p => same_name target p = true) d with
          | [(sel, _)] => Ok sel
          | [] => raise RuntimeError (py "unknown DOS target " ++ repr target)
          | _ => raise RuntimeError (py "target name " ++ repr target ++
                   py " is ambiguous; use its name@agent-id selector")
          end
      end
  end.

(** ** The operations of the runtime *)

(** [UdpBackend(target=..., key=..., ...)]: the resolver and the socket in the
    constructor's order. *)
Definition connect (address : Address) (key : bytes) (read write : bool) : M (UdpBackend.UdpBackend N) :=
  lift (UdpBackend.check_arguments key (int_div 7 20) 3);;
  ip ← in_world (gethostbyname address.1);
  n ← in_world udp_socket;
  first_id ← in_world (fun w => let '(id, w) := randbelow 0xFFFF w in (Ok id, w));
  lift (UdpBackend.new_udp n (ip, address.2) key (int_div 7 20) 3 read write first_id).

(** [get]: the key of the record whose backend it returns. *)
Definition runtime_get (target : option pystr) : M pystr :=
  _configure;;
  _refresh_discovery;;
  x ← get;
  sel ← lift (_resolve (records x) target);
  match sdict_get sel (records x) with
  | Some record =>
      match backend record with
      | Some _ => mret sel
      | None =>
          match rec_address record, key x with
          | Some address, Some key =>
              u ← connect address key (runtime_file_read x) (runtime_file_write x);
              update_record sel (set_backend (Some (Udp u)));;
              mret sel
          | _, _ => fail (Exn RuntimeError (py "target " ++ repr (selector record) ++ py " has no backend"))
          end
      end
  | None => fail (Exn KeyError sel)
  end.

Fixpoint records_to_dict (l : list (TargetRecord B)) : stateful W (list (sdict value)) :=
  match l with
  | [] => mret []
  | r :: l => d ← record_to_dict r; ds ← records_to_dict l; mret (d :: ds)
  end.

Definition list_targets : M (list (sdict value)) :=
  _configure;;
  _refresh_discovery;;
  d ← gets records;
  in_world (records_to_dict (snd <$> sorted_by (fun p => casefold p.1) d)).

Definition runtime_close : M unit :=
  d ← gets records;
  each close_backend d.*1;;
  modify (fun x => set_discovery (close_listener <$> discovery x) x).
End Runtime.
