(* ===== verification/Server.v ===== *)
(** * The MCP tools ([server.py])

    What each tool does with its arguments: selects a target, calls one operation
    of its backend and presents the result.  One lock serialises the calls, so a
    sequence of tool calls is a sequence of transitions of the runtime.  The MCP
    framework, which checks the arguments against the declared bounds ([accepts])
    before a tool runs and serialises what it returns, is not modelled. *)
From S2P Require Import Prelude PyText Base64 State Value Backend Files Runtime.
From S2P Require UdpBackend Linux.

(** ** The tools and their arguments *)
Inductive tool_call :=
| list_targets_tool
| get_status_tool (target : option pystr)
| get_capabilities_tool (target : option pystr)
| capture_screen_tool (target : option pystr)
| capture_graphics_tool (target : option pystr)
| send_keys_tool (text : pystr) (keys : option (list pystr)) (inter_key_delay_ms settle_ms : Z)
    (target : option pystr)
| download_file_tool (path : pystr) (target : option pystr)
| upload_file_tool (path content_base64 : pystr) (overwrite : bool) (target : option pystr).

(** The bounds the tools declare for their arguments. *)
Definition accepts (c : tool_call) : bool :=
  match c with
  | send_keys_tool _ keys delay settle _ =>
      (match keys with Some keys => len keys <=? 128 | None => true end) &&
      (0 <=? delay) && (delay <=? 1000) && (0 <=? settle) && (settle <=? 2000)
  | download_file_tool path _ => (1 <=? len path) && (len path <=? 80)
  | upload_file_tool path content _ _ =>
      (1 <=? len path) && (len path <=? 80) && (len content <=? 1398104)
  | _ => true
  end.

Section Server.
Context {W I N K : Type} `{Host W N K} `{Backend I} `{UdpBackend.Network N} `{Files K} `{Linux.Shell K}.
Local Abbreviation B := (backend_object I N K).
Local Abbreviation M := (stateful (BackendRuntime W B)).

(** A call on the backend of the record at [sel]. *)
Definition on_backend {A} (sel : pystr) (op : stateful B A) : M A := fun x =>
  match sdict_get sel (records x) with
  | Some r =>
      match backend r with
      | Some o =>
          let '(res, o) := op o in
          (res, set_records (sdict_set sel (set_backend (Some o) r) (records x)) x)
      | None => (raise KeyError sel, x)
      end
  | None => (raise KeyError sel, x)
  end.

(** [runtime.get(target).op().to_dict()] *)
Definition call_backend {A} (target : option pystr) (op : stateful B A) (to_dict : A -> sdict value) :
    M (sdict value) :=
  sel ← runtime_get target;
  a ← on_backend sel op;
  mret (to_dict a).

(** The argument of the upload, decoded. *)
Definition decode_content (content_base64 : pystr) : result bytes :=
  data ← match b64decode content_base64 with
         | Err e =>
             if is_value_error (exn_cls e)
             then raise ValueError (py "content_base64 is not valid base64") else Err e
         | r => r
         end;
  raise_if (1048576 <? len data) ValueError (py "decoded file exceeds 1048576 bytes");;
  Ok data.

Definition run_tool (c : tool_call) : M (sdict value) :=
  match c with
  | list_targets_tool =>
      targets ← list_targets;
      mret [(py "targets", VList (VDict <$> targets))]
  | get_status_tool target => call_backend target get_status machine_status_to_dict
  | get_capabilities_tool target => call_backend target get_capabilities capabilities_to_dict
  | capture_screen_tool target => call_backend target capture_screen text_screen_to_dict
  | capture_graphics_tool target => call_backend target capture_graphics graphics_screen_to_dict
  | send_keys_tool text keys delay settle target =>
      call_backend target (send_keys text (default [] keys) delay settle) key_receipt_to_dict
  | download_file_tool path target => call_backend target (download_file path) file_contents_to_dict
  | upload_file_tool path content overwrite target =>
      data ← lift (decode_content content);
      call_backend target (upload_file path data overwrite) file_receipt_to_dict
  end.
End Server.
