(* ===== verification/RuntimeSafety.v ===== *)
(** * What the runtime guarantees

    Targets are resolved to the one record the request can mean, and in every
    reachable state each client talks to the address its record shows, with the
    configured key and permissions. *)
From S2P Require Import Prelude PyFloat PyText PyStr Json Crypto State Value Backend Discovery Files.
From S2P Require Import UdpBackend Runtime Server.
From S2P Require Import AgentMap LinuxInvariant SmallKernel.
From S2P Require Linux LinuxFiles LinuxShell UdpSafety Constants.

(** ** Resolution *)
Section Resolve.
Context {I N K : Type}.
Local Abbreviation B := (backend_object I N K).
Implicit Types (d : sdict (TargetRecord B)).

Lemma filter_unique {A} (f : A -> bool) (l : list A) x :
  NoDup l -> filter (fun y => f y = true) l = [x] <->
  x ∈ l /\ f x = true /\ forall y, y ∈ l -> f y = true -> y = x.
Proof.
  intros Hl. split.
  - intros E. assert (Hx : x ∈ filter (fun y => f y = true) l) by (rewrite E; left).
    apply list_elem_of_filter in Hx as [Hf Hx]. split_and!; [done..|]. intros y Hy Hfy.
    assert (Hin : y ∈ filter (fun y => f y = true) l) by (by apply list_elem_of_filter).
    rewrite E in Hin. by apply list_elem_of_singleton in Hin.
  - intros (Hx & Hf & Hu). apply Permutation_singleton_r, NoDup_Permutation.
    + by apply NoDup_filter.
    + apply NoDup_singleton.
    + intros y. rewrite list_elem_of_filter, list_elem_of_singleton. naive_solver.
Qed.

(** [sel] is the key of the only record with the name [t], case aside. *)
Definition only_name d (t sel : pystr) : Prop :=
  exists r, (sel, r) ∈ d /\ casefold (name r) = casefold t /\
    forall sel' r', (sel', r') ∈ d -> casefold (name r') = casefold t -> sel' = sel /\ r' = r.

Lemma resolve_default d :
  (forall sel, (_resolve d None = Ok sel) <-> exists r, d = [(sel, r)]) /\
  (forall sel, _resolve d None = Ok sel -> sel ∈ d.*1) /\
  (forall e, _resolve d None = Err e -> exn_cls e = RuntimeError).
Proof.
  destruct d as [|[k r] [|p d]]; cbn [_resolve]; split_and!; try done.
  - by split; [|intros [? ?]].
  - by intros e [= <-].
  - intros sel. split; [intros [= <-]; by exists r|by intros [r' [= -> _]]].
  - intros sel [= <-]. left.
  - by split; [|intros [? ?]].
  - by intros e [= <-].
Qed.

(** No target has the selector or the name [t]. *)
Definition unmatched d (t : pystr) : Prop :=
  forall sel r, (sel, r) ∈ d -> sel <> t /\ casefold (name r) <> casefold t.

Lemma same_name_true t (p : pystr * TargetRecord B) :
  same_name t p = true <-> casefold (name p.2) = casefold t.
Proof. unfold same_name. by rewrite bool_decide_eq_true. Qed.

Lemma only_name_filter d t sel :
  NoDup d -> only_name d t sel <-> exists r, filter (fun p => same_name t p = true) d = [(sel, r)].
Proof.
  intros Hn. split.
  - intros (r & Hr & Hc & Hu). exists r. apply filter_unique; [done|].
    split_and!; [done|by apply same_name_true|]. intros [k' r'] Hy Hcy%same_name_true.
    by destruct (Hu k' r' Hy Hcy) as [-> ->].
  - intros [r (Hr & Hc & Hu)%filter_unique]; [|done]. exists r.
    split_and!; [done|by apply (same_name_true t (sel, r))|].
    intros k' r' Hr' Hc'. specialize (Hu (k', r') Hr' (proj2 (same_name_true t (k', r')) Hc')).
    by injection Hu as -> ->.
Qed.

Lemma filter_none d t :
  filter (fun p => same_name t p = true) d = [] -> sdict_get t d = None -> unmatched d t.
Proof.
  intros Ef Hg%sdict_get_None sel r Hr. split.
  - intros ->. apply Hg. by apply (list_elem_of_fmap_2 fst) in Hr.
  - intros Hc. assert (Hin : (sel, r) ∈ filter (fun p => same_name t p = true) d)
      by (apply list_elem_of_filter; split; [by apply (same_name_true t (sel, r))|done]).
    rewrite Ef in Hin. by apply not_elem_of_nil in Hin.
Qed.

Lemma filter_some d t p l : filter (fun p => same_name t p = true) d = p :: l -> ~ unmatched d t.
Proof.
  intros Ef Hall. assert (Hp : p ∈ filter (fun p => same_name t p = true) d) by (rewrite Ef; left).
  apply list_elem_of_filter in Hp as [Hc%same_name_true Hp]. destruct p as [k r].
  by destruct (Hall k r Hp).
Qed.

Lemma resolve_named d t :
  sdict_ok d -> sdict_get t d = None ->
  (forall sel, (_resolve d (Some t) = Ok sel) <-> only_name d t sel) /\
  (forall e, _resolve d (Some t) = Err e -> exn_cls e = RuntimeError) /\
  ((_resolve d (Some t) = raise RuntimeError (py "unknown DOS target " ++ repr t)) <-> unmatched d t).
Proof.
  intros Hd Hg. assert (Hn : NoDup d) by (by eapply NoDup_fmap_1).
  setoid_rewrite (only_name_filter d t _ Hn). cbn [_resolve]. rewrite Hg.
  destruct (filter _ d) as [|[k r] [|q l]] eqn:Ef; split_and!; try (by intros e [= <-]).
  - intros sel. by split; [|intros [? ?]].
  - split; [|done]. intros _. by apply filter_none.
  - intros sel. split; [intros [= <-]; by exists r|by intros [? [= -> _]]].
  - split; [done|]. by intros Hu%(filter_some d t (k, r) []).
  - intros sel. by split; [|intros [? ?]].
  - split.
    + intros E. apply (f_equal (fun r => match r with Err e => head (exn_msg e) | _ => None end)) in E.
      by vm_compute in E.
    + by intros Hu%(filter_some d t (k, r) (q :: l)).
Qed.

(** C12. Resolution finds the one target a request can mean, or raises [RuntimeError].
    Without a name there must be exactly one target.  A name that is a selector
    means that target, whatever other targets are called; otherwise it must be the
    name, case aside, of exactly one target.  The answer is always the selector of a
    known target, and "unknown" is said exactly when nothing matches. *)
Theorem resolve_exact d target :
  sdict_ok d ->
  (forall sel, (_resolve d target = Ok sel) <->
    match target with
    | None => exists r, d = [(sel, r)]
    | Some t => (sel = t /\ (t ∈ d.*1)) \/ ((t ∉ d.*1) /\ only_name d t sel)
    end) /\
  (forall sel, _resolve d target = Ok sel -> sel ∈ d.*1) /\
  (forall e, _resolve d target = Err e -> exn_cls e = RuntimeError) /\
  (forall t, target = Some t ->
    (_resolve d target = raise RuntimeError (py "unknown DOS target " ++ repr t)) <-> unmatched d t).
Proof.
  intros Hd. destruct target as [t|].
  2: { split_and!; [|by apply resolve_default|by apply resolve_default|done].
       intros sel. apply resolve_default. }
  destruct (sdict_get t d) as [r|] eqn:Eg.
  - apply sdict_get_Some in Eg as Ht. apply sdict_get_elem in Eg as Hin; [|done].
    cbn [_resolve]. rewrite (proj2 (sdict_get_elem t r d Hd) Hin). split_and!.
    + intros sel. split; [intros [= <-]; by left|]. by intros [[-> _]|[? _]].
    + by intros sel [= <-].
    + done.
    + intros t' [= <-]. split; [done|]. intros Hall. by destruct (Hall t r Hin).
  - destruct (resolve_named d t Hd Eg) as (Hok & Herr & Hun). apply sdict_get_None in Eg. split_and!.
    + intros sel. rewrite Hok. naive_solver.
    + intros sel (r & Hr & _)%Hok. by apply (list_elem_of_fmap_2 fst) in Hr.
    + done.
    + by intros t' [= <-].
Qed.
End Resolve.

(** ** A client keeps its address, key and permissions *)
Section Config.
Context {N : Type} `{Network N}.
Local Abbreviation U := (stateful (UdpBackend N)).

Definition same_config (u u' : UdpBackend N) : Prop :=
  UdpBackend.target u' = UdpBackend.target u /\ _base_key u' = _base_key u /\
  _allow_file_read u' = _allow_file_read u /\ _allow_file_write u' = _allow_file_write u.

#[local] Instance same_config_preorder : PreOrder same_config.
Proof.
  split; [by intros u|]. unfold same_config. intros u u' u'' (? & ? & ? & ?) (? & ? & ? & ?).
  split_and!; congruence.
Qed.

Local Abbreviation kept := (keeps same_config).

Lemma kept_modify f : (forall u, same_config u (f u)) -> kept (modify f).
Proof. by intros Hf u. Qed.

(** Goes through a computation of the client, operation by operation. *)
Ltac kept_step :=
  match goal with
  | |- kept (_ ≫= _) => apply keeps_bind; [apply _| |intros ?]
  | |- kept (mret _) => apply keeps_ret; apply _
  | |- kept (lift _) => apply keeps_lift; apply _
  | |- kept (fail _) => apply keeps_lift; apply _
  | |- kept (gets _) => apply keeps_gets; apply _
  | |- kept get => apply keeps_get; apply _
  | |- kept (modify _) => by apply kept_modify
  | |- kept (catch _ _) => apply keeps_catch; [apply _| |intros ?]
  | |- kept (each _ _) => apply keeps_each; [apply _|intros ?]
  | |- kept (if ?c then _ else _) => destruct c
  | |- kept (match ?x with _ => _ end) => destruct x
  | |- kept (let '(_, _) := ?x in _) => destruct x
  end.
Create HintDb kept discriminated.
Ltac solve_kept := repeat first [progress eauto with kept | kept_step].

Lemma sendto_kept d : kept (sendto d).
Proof. intros u. unfold sendto. by destruct (transmit d (network u)) as [[?|?] ?]. Qed.
Lemma randbits_kept : kept randbits.
Proof. intros u. unfold randbits. by destruct (randbits32 (network u)). Qed.
Lemma receive_kept key expected e : kept (receive key expected e).
Proof. intros u. unfold receive. by destruct (receive_loop _ _ _ _ _). Qed.
#[local] Hint Resolve sendto_kept randbits_kept receive_kept : kept.

Lemma attempts_kept n encoded key expected e : kept (attempts n encoded key expected e).
Proof. revert e. induction n as [|n IH]; intros e; cbn [attempts]; solve_kept. Qed.
#[local] Hint Resolve attempts_kept : kept.

Lemma exchange_kept ps key : kept (_exchange_with_packet ps key).
Proof. unfold _exchange_with_packet. solve_kept. Qed.
#[local] Hint Resolve exchange_kept : kept.

Lemma handshake_kept : kept _handshake.
Proof. unfold _handshake. solve_kept. Qed.
#[local] Hint Resolve handshake_kept : kept.

Lemma request_kept o data : kept (_request o data).
Proof. unfold _request, _ensure_open, _exchange. solve_kept. Qed.
#[local] Hint Resolve request_kept : kept.

Lemma abort_kept id : kept (_abort_transfer id).
Proof. unfold _abort_transfer. solve_kept. Qed.
#[local] Hint Resolve abort_kept : kept.

Lemma download_loop_kept fuel o id total output crc : kept (download_loop fuel o id total output crc).
Proof. revert output crc. induction fuel as [|fuel IH]; intros; cbn [download_loop]; cbv zeta; solve_kept. Qed.
#[local] Hint Resolve download_loop_kept : kept.

Lemma upload_loop_kept blocks id offset crc : kept (upload_loop blocks id offset crc).
Proof. revert offset crc. induction blocks as [|b blocks IH]; intros; cbn [upload_loop]; cbv zeta; solve_kept. Qed.
#[local] Hint Resolve upload_loop_kept : kept.

Lemma end_download_kept o id : kept (end_download o id).
Proof. unfold end_download. solve_kept. Qed.
#[local] Hint Resolve end_download_kept : kept.

Lemma download_kept o o' id total : kept (download o o' id total).
Proof. unfold download, or_abort, _download_blocks. solve_kept. Qed.
#[local] Hint Resolve download_kept : kept.

Lemma udp_operations_kept :
  kept (@get_status (UdpBackend N) _) /\ kept (@get_capabilities (UdpBackend N) _) /\
  kept (@capture_screen (UdpBackend N) _) /\ kept (@capture_graphics (UdpBackend N) _) /\
  (forall text keys delay settle, kept (@send_keys (UdpBackend N) _ text keys delay settle)) /\
  (forall path, kept (@download_file (UdpBackend N) _ path)) /\
  (forall path data overwrite, kept (@upload_file (UdpBackend N) _ path data overwrite)) /\
  kept (@close (UdpBackend N) _).
Proof.
  split_and!; intros;
    cbn [get_status get_capabilities capture_screen capture_graphics send_keys download_file upload_file
      close udp_backend];
    unfold udp_get_status, udp_get_capabilities, udp_capture_screen, udp_capture_graphics, udp_send_keys,
      udp_download_file, udp_upload_file, udp_close, or_abort; cbv zeta; solve_kept.
Qed.
End Config.

(** A local target keeps what it permits. *)
Section Policy.
Context {K : Type} `{Files K} `{Linux.Shell K}.

Definition same_policy (l l' : Linux.LinuxTerminalBackend K) : Prop :=
  policy (Linux.allow_file_read l) (Linux.allow_file_write l) l'.

Lemma policy_kept {A} (m : stateful (Linux.LinuxTerminalBackend K) A) :
  (forall read write, preserves (policy read write) m) -> keeps same_policy m.
Proof. intros Hm l. by apply Hm. Qed.

Lemma linux_operations_kept :
  keeps same_policy (@get_status (Linux.LinuxTerminalBackend K) _) /\
  keeps same_policy (@get_capabilities (Linux.LinuxTerminalBackend K) _) /\
  keeps same_policy (@capture_screen (Linux.LinuxTerminalBackend K) _) /\
  keeps same_policy (@capture_graphics (Linux.LinuxTerminalBackend K) _) /\
  (forall text keys delay settle,
    keeps same_policy (@send_keys (Linux.LinuxTerminalBackend K) _ text keys delay settle)) /\
  (forall path, keeps same_policy (@download_file (Linux.LinuxTerminalBackend K) _ path)) /\
  (forall path data overwrite,
    keeps same_policy (@upload_file (Linux.LinuxTerminalBackend K) _ path data overwrite)) /\
  keeps same_policy (@close (Linux.LinuxTerminalBackend K) _).
Proof.
  split_and!; intros; apply policy_kept; intros read write.
  - apply keep_get_status.
  - apply keep_get_capabilities.
  - apply keep_capture_screen.
  - apply keep_capture_graphics.
  - apply keep_send_keys.
  - apply keep_download_file.
  - apply keep_upload_file.
  - apply keep_close.
Qed.
End Policy.

(** ** The routing invariant *)
Lemma sdict_set_Forall {V} (P : pystr * V -> Prop) k v (d : sdict V) :
  Forall P d -> P (k, v) -> Forall P (sdict_set k v d).
Proof.
  intros Hd Hv. induction Hd as [|[k' v'] d Hk Hd IH]; cbn [sdict_set]; [by constructor|].
  case_decide; by constructor.
Qed.

Section Routing.
Context {W I N K : Type} `{Host W N K} `{Backend I} `{UdpBackend.Network N} `{Files K} `{Linux.Shell K}.
Context (resolves : pystr -> pystr -> Prop).
Context (Hresolves : forall host (w : W) ip w', gethostbyname host w = (Ok ip, w') -> resolves host ip).
Local Abbreviation B := (backend_object I N K).
Local Abbreviation M := (stateful (BackendRuntime W B)).
Implicit Types (x : BackendRuntime W B) (r : TargetRecord B).

(** A client of a record talks to the port the record shows, at an address the
    resolver gave for its host, with the runtime's key; it and a local target have the
    runtime's permissions. *)
Definition routed x r : Prop :=
  match backend r with
  | Some (Udp u) =>
      exists host, rec_address r = Some (host, (UdpBackend.target u).2) /\
        resolves host (UdpBackend.target u).1 /\ key x = Some (_base_key u) /\
        _allow_file_read u = runtime_file_read x /\ _allow_file_write u = runtime_file_write x
  | Some (Local l) => policy (runtime_file_read x) (runtime_file_write x) l
  | _ => True
  end.

Definition record_ok x (p : pystr * TargetRecord B) : Prop := selector p.2 = p.1 /\ routed x p.2.

(** While it is being configured the runtime has no clients and no local target yet. *)
Definition no_client r : Prop :=
  match backend r with Some (Udp _) | Some (Local _) => False | _ => True end.

Definition configuring x : Prop :=
  configured x = true /\ sdict_ok (records x) /\
  Forall (fun p => selector p.2 = p.1 /\ no_client p.2) (records x).

Definition ready x : Prop :=
  configured x = true /\ sdict_ok (records x) /\ Forall (record_ok x) (records x).

Definition runtime_ok x : Prop := (configured x = false /\ records x = []) \/ ready x.

Lemma no_client_routed x r : no_client r -> routed x r.
Proof. unfold no_client, routed. by destruct (backend r) as [[]|]. Qed.

Lemma configuring_ready x : configuring x -> ready x.
Proof.
  intros (Hc & Hd & Hf). split_and!; try done. eapply Forall_impl; [exact Hf|].
  intros p [Hs Hn]. split; [done|]. by apply no_client_routed.
Qed.

Lemma set_configuring sel r x :
  configuring x -> selector r = sel -> no_client r ->
  configuring (set_records (sdict_set sel r (records x)) x).
Proof.
  intros (Hc & Hd & Hf) Hs Hr. split; [done|]. split; [by apply sdict_set_ok|]. by apply sdict_set_Forall.
Qed.

Lemma set_ready sel r x :
  ready x -> selector r = sel -> routed x r -> ready (set_records (sdict_set sel r (records x)) x).
Proof.
  intros (Hc & Hd & Hf) Hs Hr. split; [done|]. split; [by apply sdict_set_ok|].
  by apply sdict_set_Forall.
Qed.

Lemma ready_get sel r x : ready x -> sdict_get sel (records x) = Some r -> selector r = sel /\ routed x r.
Proof.
  intros (_ & Hd & Hf) Hg. apply sdict_get_elem in Hg; [|done].
  rewrite Forall_forall in Hf. apply (Hf _ Hg).
Qed.

(** *** Configuration *)
Lemma in_world_preserves {A} (P : BackendRuntime W B -> Prop) (m : stateful W A) :
  (forall x w, P x -> P (set_world w x)) -> preserves P (in_world m).
Proof. intros HP x Hx. unfold in_world. destruct (m (world x)) as [r w]. by apply HP. Qed.

Lemma add_static_preserves name endpoint : preserves configuring (_add_static name endpoint).
Proof.
  unfold _add_static. apply preserves_bind_lift. intros address _ x Hx. by apply set_configuring.
Qed.

Lemma add_one_static_preserves item : preserves configuring (add_one_static item).
Proof.
  destruct item as [[|c name] j]; cbn [add_one_static]; [apply preserves_fail|].
  destruct j; try apply preserves_fail.
  apply preserves_bind; [apply preserves_gets|]. intros _ d _ _ _.
  apply preserves_bind_lift. intros _ _. apply add_static_preserves.
Qed.

Lemma add_static_targets_preserves value : preserves configuring (_add_static_targets value).
Proof.
  unfold _add_static_targets. apply preserves_bind_lift. intros parsed _.
  destruct parsed as [| | | | |[|item items]]; try apply preserves_fail.
  apply preserves_each. intros item' _. apply add_one_static_preserves.
Qed.

Lemma start_discovery_preserves : preserves configuring start_discovery.
Proof.
  unfold start_discovery. apply preserves_bind; [apply preserves_gets|]. intros _ x _ _ _.
  apply preserves_bind_lift. intros port _.
  apply preserves_bind; [by apply in_world_preserves|]. by intros _ l _ _ _ y Hy.
Qed.

Lemma add_local_ready x : configuring x -> ready (add_local x).2.
Proof.
  intros Hx. unfold add_local. rewrite bind_run. cbn [get]. rewrite bind_run. unfold in_world.
  destruct (getcwd (world x)) as [[cwd|e] w]; [|by apply configuring_ready]. cbv zeta. rewrite bind_run.
  destruct (Linux.new_linux _ _ _ _ _ _ _) as [[l|e] k] eqn:El; [|by apply configuring_ready].
  apply new_linux_policy in El. cbn [fst lift modify snd].
  apply (set_ready (py "local")); [by apply configuring_ready|done|exact El].
Qed.

(** Configuration steps up to the last one. *)
Lemma leads_bind {A C} (m : M A) (f : A -> M C) :
  preserves configuring m -> (forall a x, configuring x -> ready (f a x).2) ->
  forall x, configuring x -> ready ((m ≫= f) x).2.
Proof.
  intros Hm Hf x Hx. rewrite bind_run. pose proof (Hm x Hx) as Hx'.
  destruct (m x) as [[a|e] x']; [by apply Hf|by apply configuring_ready].
Qed.

Lemma leads_preserves {A} (m : M A) : preserves configuring m -> forall x, configuring x -> ready (m x).2.
Proof. intros Hm x Hx. by apply configuring_ready, Hm. Qed.

Lemma configure_ok x : runtime_ok x -> ready (_configure x).2.
Proof.
  intros Hx. unfold _configure. rewrite bind_run. cbn [get].
  destruct Hx as [[Hc Hr]|Hx]; [|destruct Hx as (Hc & Hd & Hf); by rewrite Hc].
  rewrite Hc, bind_run. cbn [modify].
  assert (Hx : configuring (set_configured x)) by (split_and!; [done|..]; cbn; rewrite Hr; constructor).
  revert Hx. generalize (set_configured x) as y. cbv zeta.
  apply leads_bind; [apply preserves_lift|]. intros read.
  apply leads_bind; [by intros y Hy|]. intros _. apply leads_bind; [apply preserves_lift|]. intros write.
  apply leads_bind; [by intros y Hy|]. intros _. apply leads_bind; [apply preserves_lift|]. intros discover.
  apply leads_bind; [apply preserves_lift|]. intros _. case_match; [|apply add_local_ready].
  apply leads_bind; [apply preserves_lift|]. intros k. apply leads_bind; [by intros y Hy|]. intros _.
  apply leads_bind.
  { case_match; [apply add_static_preserves|apply preserves_ret]. }
  intros _. apply leads_bind.
  { case_match; [apply add_static_targets_preserves|apply preserves_ret]. }
  intros _. apply leads_preserves. case_match; [apply start_discovery_preserves|apply preserves_ret].
Qed.

(** *** Discovery *)
Lemma set_world_ready x w : ready x -> ready (set_world w x).
Proof. done. Qed.

(** The configuration of a client inside a backend object. *)
Definition config_kept {A} (op : stateful B A) : Prop := forall u,
  exists u', (op (Udp u)).2 = Udp u' /\ same_config u u'.

Definition stays_local {A} (op : stateful B A) : Prop :=
  (forall b, exists b', (op (Injected b)).2 = Injected b') /\
  (forall l, exists l', (op (Local l)).2 = Local l' /\ same_policy l l').

Lemma dispatch_kept {A} (op : forall B, Backend B -> stateful B A) :
  keeps same_config (op (UdpBackend.UdpBackend N) _) ->
  keeps same_policy (op (Linux.LinuxTerminalBackend K) _) ->
  config_kept (dispatch op) /\ stays_local (dispatch op).
Proof.
  intros Hop Hlocal. split; [|split].
  - intros u. exists (op (UdpBackend.UdpBackend N) _ u).2. cbn [dispatch].
    pose proof (Hop u) as Hu. by destruct (op (UdpBackend.UdpBackend N) _ u).
  - intros b. cbn [dispatch]. destruct (op I _ b) as [? b']. by exists b'.
  - intros l. cbn [dispatch]. pose proof (Hlocal l) as Hl.
    destruct (op (Linux.LinuxTerminalBackend K) _ l) as [? l']. by exists l'.
Qed.

Lemma routed_op {A} (op : stateful B A) x r o :
  config_kept op -> stays_local op -> backend r = Some o -> routed x r ->
  routed x (set_backend (Some (op o).2) r).
Proof.
  intros Hk [Hi Hl] Ho Hr. unfold routed in *. rewrite Ho in Hr. cbn [set_backend backend rec_address].
  destruct o as [b|u|l].
  - by destruct (Hi b) as [b' ->].
  - destruct (Hk u) as (u' & -> & Ht & Hkey & Hfr & Hfw). rewrite Ht, Hkey, Hfr, Hfw. exact Hr.
  - destruct (Hl l) as (l' & -> & Hp). unfold same_policy in Hp. destruct Hr as [Hfr Hfw].
    by rewrite Hfr, Hfw in Hp.
Qed.

Lemma close_kept : config_kept close /\ stays_local close.
Proof. apply dispatch_kept; [apply udp_operations_kept|apply linux_operations_kept]. Qed.

Lemma close_backend_ready sel : preserves ready (close_backend sel).
Proof.
  intros x Hx. unfold close_backend. destruct (sdict_get sel (records x)) as [r|] eqn:Eg; [|done].
  destruct (ready_get _ _ _ Hx Eg) as [Hs Hr]. destruct (backend r) as [o|] eqn:Eb; [|done].
  destruct close_kept as [Hk Hl]. pose proof (routed_op close x r o Hk Hl Eb Hr) as Hr'.
  destruct (close o) as [res o']. by apply set_ready.
Qed.

Lemma update_record_ready sel f x :
  ready x -> (forall r, sdict_get sel (records x) = Some r -> selector (f r) = sel /\ routed x (f r)) ->
  ready (update_record sel f x).2.
Proof.
  intros Hx Hf. unfold update_record. cbn [modify snd].
  destruct (sdict_get sel (records x)) as [r|] eqn:Eg; [|done]. destruct (Hf r eq_refl). by apply set_ready.
Qed.

Lemma drop_backend_ready sel : preserves ready (drop_backend sel).
Proof.
  intros x Hx. unfold drop_backend. cbn [modify snd]. destruct (sdict_get sel (records x)) as [r|] eqn:Eg; [|done].
  destruct (ready_get _ _ _ Hx Eg) as [Hs _].
  by apply (set_ready sel (set_backend None r) (set_dropped (dropped x ++ option_list (backend r)) x)).
Qed.

(** After the stale client is dropped, no client of the record is at another address. *)
Lemma drop_stale_ready sel existing (a : Address) x :
  ready x -> sdict_get sel (records x) = Some existing ->
  let m : M unit :=
    if negb (bool_decide (rec_address existing = Some a)) && bool_decide (is_Some (backend existing))
    then close_backend sel;; drop_backend sel
    else mret tt in
  ready (m x).2 /\
  forall u r, (m x).1 = Ok u -> sdict_get sel (records (m x).2) = Some r ->
    selector r = sel /\ (backend r = None \/ (routed (m x).2 r /\ rec_address r = Some a)).
Proof.
  intros Hx Hg m. destruct (ready_get _ _ _ Hx Hg) as [Hs Hr]. unfold m. clear m.
  destruct (bool_decide (rec_address existing = Some a)) eqn:Ea; cbn [negb andb].
  { cbn. split; [done|]. intros _ r _ Hg'. rewrite Hg in Hg'. injection Hg' as <-. bool_to_prop. auto. }
  destruct (bool_decide (is_Some (backend existing))) eqn:Eb.
  2: { cbn. split; [done|]. intros _ r _ Hg'. rewrite Hg in Hg'. injection Hg' as <-. bool_to_prop.
       split; [done|]. left. by destruct (backend existing); [contradict Eb|]. }
  rewrite bind_run. pose proof (close_backend_ready sel x Hx) as Hc.
  destruct (close_backend sel x) as [[[]|e] x1]; cbn [snd] in Hc; [|done].
  split.
  - by apply drop_backend_ready.
  - intros u r _. unfold drop_backend. cbn [modify snd].
    destruct (sdict_get sel (records x1)) as [r1|] eqn:Eg1; [|by rewrite Eg1].
    cbn [records set_records]. rewrite sdict_get_set, decide_True by done. intros [= <-].
    destruct (ready_get _ _ _ Hc Eg1). by split; [|left].
Qed.

Lemma record_discovered_ready t : preserves ready (record_discovered t).
Proof.
  intros x Hx. unfold record_discovered. rewrite bind_run. unfold in_world, read_clock.
  destruct (monotonic (world x)) as [now w]. cbn [fst snd]. rewrite bind_run. cbn [gets].
  set (x1 := set_world w x). assert (Hx1 : ready x1) by done.
  set (sel := DiscoveryAdvertisement.selector _).
  destruct (sdict_get sel (records x1)) as [existing|] eqn:Eg.
  - rewrite bind_run. destruct (drop_stale_ready sel existing (address t) x1 Hx1 Eg) as [Hr Hu].
    lazymatch type of Hr with ready (?m x1).2 => destruct (m x1) as [[[]|e] x2] end;
      cbn [fst snd] in *; [|done].
    apply update_record_ready; [done|]. intros r Hg. destruct (Hu tt r eq_refl Hg) as [Hs Hb].
    split; [done|]. unfold routed in *. cbn [backend rec_address].
    destruct Hb as [-> |[Hb Ha]]; [done|]. by rewrite <- Ha.
  - cbn [modify snd]. by apply set_ready.
Qed.

Lemma refresh_ready : preserves ready _refresh_discovery.
Proof.
  unfold _refresh_discovery. apply preserves_bind; [apply preserves_gets|]. intros _ l _ _ _.
  destruct l as [l|]; [|apply preserves_ret]. apply preserves_bind.
  - intros x Hx. unfold drain_announcements. by destruct (drain (l, world x)) as [r [l' w]].
  - intros _ ts _ _ _. apply preserves_each. intros t _. apply record_discovered_ready.
Qed.

(** *** Clients *)
Lemma connect_routed address k read write x res x' :
  connect address k read write x = (res, x') ->
  records x' = records x /\ configured x' = configured x /\ key x' = key x /\
  runtime_file_read x' = runtime_file_read x /\ runtime_file_write x' = runtime_file_write x /\
  forall u, res = Ok u -> (UdpBackend.target u).2 = address.2 /\
    resolves address.1 (UdpBackend.target u).1 /\ _base_key u = k /\
    _allow_file_read u = read /\ _allow_file_write u = write.
Proof.
  unfold connect. rewrite bind_run. cbn [lift]. destruct (check_arguments _ _ _) as [[]|e];
    [|by intros [= <- <-]].
  rewrite bind_run. unfold in_world at 1. cbv beta.
  destruct (gethostbyname address.1 (world x)) as [[ip|e] w] eqn:Eh; [|by intros [= <- <-]].
  apply Hresolves in Eh. rewrite bind_run. unfold in_world at 1. cbv beta.
  destruct (udp_socket _) as [[n|e] w1]; [|by intros [= <- <-]].
  rewrite bind_run. unfold in_world. cbv beta. destruct (randbelow 0xFFFF _) as [id w2]. unfold lift.
  intros [= <- <-]. split_and!; try done. intros u (_ & _ & ->)%new_udp_Ok. done.
Qed.

Lemma runtime_get_ready target x :
  runtime_ok x -> ready (runtime_get target x).2.
Proof.
  intros Hx. unfold runtime_get. rewrite bind_run. pose proof (configure_ok x Hx) as Hc.
  destruct (_configure x) as [[[]|e] x1]; [|done]. rewrite bind_run.
  pose proof (refresh_ready x1 Hc) as Hr. destruct (_refresh_discovery x1) as [[[]|e] x2]; [|done].
  cbn [snd] in Hr. rewrite bind_run. cbn [get]. rewrite bind_run.
  destruct (_resolve (records x2) target) as [sel|e]; cbn [lift]; [|done].
  destruct (sdict_get sel (records x2)) as [r|] eqn:Eg; [|done].
  destruct (backend r) as [o|]; [done|].
  destruct (rec_address r) as [a|] eqn:Ea; [|done]. destruct (key x2) as [k|] eqn:Ek; [|done].
  rewrite bind_run. destruct (connect a k _ _ x2) as [ru x3] eqn:Ec.
  destruct (connect_routed _ _ _ _ _ _ _ Ec) as (Hrec & Hcf & Hk & Hfr & Hfw & Hu).
  assert (Hx3 : ready x3).
  { destruct Hr as (H1' & H2' & H3'). split_and!; [by rewrite Hcf|by rewrite Hrec|].
    rewrite Hrec. eapply Forall_impl; [exact H3'|]. intros p [Hs Hp]. split; [done|].
    unfold routed in *. by rewrite Hk, Hfr, Hfw. }
  destruct ru as [u|e]; [|done]. destruct (Hu u eq_refl) as (Hp & Hi & Hb & Hfr' & Hfw').
  rewrite bind_run. apply update_record_ready; [done|]. intros r' Hg'. rewrite Hrec, Eg in Hg'.
  injection Hg' as <-. destruct (ready_get _ _ _ Hr Eg) as [Hs _]. split; [done|].
  unfold routed. cbn [set_backend backend rec_address]. exists a.1. destruct a as [h p]. cbn [fst snd] in *.
  rewrite Ea, Hk, Ek, Hp, Hb, Hfr, Hfw. done.
Qed.

(** *** Tools *)
Lemma on_backend_ready {A} sel (op : stateful B A) :
  config_kept op -> stays_local op -> preserves ready (on_backend sel op).
Proof.
  intros Hk Hl x Hx. unfold on_backend. destruct (sdict_get sel (records x)) as [r|] eqn:Eg; [|done].
  destruct (ready_get _ _ _ Hx Eg) as [Hs Hr]. destruct (backend r) as [o|] eqn:Eb; [|done].
  pose proof (routed_op op x r o Hk Hl Eb Hr) as Hr'. destruct (op o) as [res o']. by apply set_ready.
Qed.

Lemma call_backend_ready {A} target (op : forall B, Backend B -> stateful B A) to_dict x :
  keeps same_config (op (UdpBackend.UdpBackend N) _) ->
  keeps same_policy (op (Linux.LinuxTerminalBackend K) _) ->
  runtime_ok x -> ready (call_backend target (dispatch op) to_dict x).2.
Proof.
  intros Hop Hlocal Hx. unfold call_backend. rewrite bind_run.
  pose proof (runtime_get_ready target x Hx) as Hg. destruct (runtime_get target x) as [[sel|e] x1]; [|done].
  destruct (dispatch_kept op Hop Hlocal) as [Hk Hl]. pose proof (on_backend_ready sel (dispatch op) Hk Hl x1 Hg) as Hb.
  rewrite bind_run. by destruct (on_backend sel (dispatch op) x1) as [[a|e] x2].
Qed.

Lemma list_targets_ready x : runtime_ok x -> ready (list_targets x).2.
Proof.
  intros Hx. unfold list_targets. rewrite bind_run. pose proof (configure_ok x Hx) as Hc.
  destruct (_configure x) as [[[]|e] x1]; [|done]. rewrite bind_run.
  pose proof (refresh_ready x1 Hc) as Hr. destruct (_refresh_discovery x1) as [[[]|e] x2]; [|done].
  rewrite bind_run. cbn [gets]. by apply in_world_preserves.
Qed.

Lemma run_tool_ready c x : runtime_ok x -> runtime_ok (run_tool c x).2.
Proof.
  intros Hx. destruct (udp_operations_kept (N:=N)) as (? & ? & ? & ? & ? & ? & ? & _).
  destruct (linux_operations_kept (K:=K)) as (? & ? & ? & ? & ? & ? & ? & _).
  destruct c; cbn [run_tool].
  1: { rewrite bind_run. pose proof (list_targets_ready x Hx) as Hl. right.
       by destruct (list_targets x) as [[ds|e] x1]. }
  7: { rewrite bind_run. destruct (decode_content content_base64) as [data|e]; cbn [lift]; [|done].
       right. by apply call_backend_ready. }
  all: right; by apply call_backend_ready.
Qed.

(** What happens to the runtime: tool calls, and the closing at exit. *)
Inductive event := called (c : tool_call) | closing.

Definition run_event (e : event) (x : BackendRuntime W B) : BackendRuntime W B :=
  match e with called c => (run_tool c x).2 | closing => (runtime_close x).2 end.

Lemma close_all_ready sels : preserves runtime_ok (each close_backend sels).
Proof.
  apply preserves_each. intros sel _ x [[Hc Hr]|Hx].
  - unfold close_backend. rewrite Hr. by left.
  - right. by apply close_backend_ready.
Qed.

Lemma run_event_ok e x : runtime_ok x -> runtime_ok (run_event e x).
Proof.
  intros Hx. destruct e as [c|]; [by apply run_tool_ready|]. cbn [run_event]. unfold runtime_close.
  rewrite bind_run. cbn [gets]. rewrite bind_run. pose proof (close_all_ready (records x).*1 x Hx) as Hc.
  by destruct (each close_backend _ x) as [[[]|e] x1].
Qed.

Lemma run_events_ok events x : runtime_ok x -> runtime_ok (foldl (fun x e => run_event e x) x events).
Proof.
  revert x. induction events as [|e events IH]; intros x Hx; cbn [foldl]; [done|]. by apply IH, run_event_ok.
Qed.

Lemma new_runtime_ok (w : W) (injected : option I) :
  runtime_ok (new_runtime w (Injected <$> injected)).
Proof.
  unfold new_runtime. destruct injected as [b|]; [right|by left]. split_and!; [done| |].
  - apply NoDup_singleton.
  - by repeat constructor.
Qed.

(** C9. Clients follow their records.  After any sequence of tool calls, failures
    included and whatever discovery announced in between, every target in the table
    is filed under its own selector, no selector twice, and a UDP client exists only
    for a record with an address: it talks to the port the record shows now, at an
    address the resolver gave for the host the record shows now, with the key of the
    runtime and exactly its file permissions.  So when an agent moves, no request goes
    to its old address.  The local target has the runtime's permissions too. *)
Theorem clients_follow_records (w : W) (injected : option I) events :
  let x := foldl (fun x e => run_event e x) (new_runtime w (Injected <$> injected)) events in
  NoDup (records x).*1 /\
  forall sel r, sdict_get sel (records x) = Some r -> selector r = sel /\
    (forall u, backend r = Some (Udp u) ->
      exists host ip port, rec_address r = Some (host, port) /\ UdpBackend.target u = (ip, port) /\
        resolves host ip /\ key x = Some (_base_key u) /\
        _allow_file_read u = runtime_file_read x /\ _allow_file_write u = runtime_file_write x) /\
    (forall l, backend r = Some (Local l) -> policy (runtime_file_read x) (runtime_file_write x) l).
Proof.
  intros x. pose proof (run_events_ok events _ (new_runtime_ok w injected)) as Hx. fold x in Hx.
  destruct Hx as [[_ Hr]|Hx].
  { rewrite Hr. by split; [apply NoDup_nil_2|]. }
  split; [apply Hx|]. intros sel r Hg. destruct (ready_get _ _ _ Hx Hg) as [Hs Hr]. split; [done|].
  unfold routed in Hr. split; [|by intros l Hl; rewrite Hl in Hr].
  intros u Hu. rewrite Hu in Hr. destruct Hr as (host & Ha & Hrest).
  destruct (UdpBackend.target u) as [ip port]. by exists host, ip, port.
Qed.
End Routing.

(** ** A small host

    An environment, the datagrams of each drain of the discovery socket, a resolver
    that knows numeric addresses only, and a kernel made of the small file system
    and the small terminal. *)
Record small_host := mkHost {
  host_env : list (pystr * pystr);
  host_arrivals : list (list (result (bytes * Source)));
  host_ticks : Z }.

#[export] Instance small_host_ops : Host small_host UdpSafety.script small_kernel := {|
  host_clock := fun w => (float_of_int (host_ticks w), mkHost (host_env w) (host_arrivals w) (host_ticks w + 1));
  host_discovery := {|
    bind_discovery _ := mret tt;
    arrivals w := (default [] (head (host_arrivals w)),
                   mkHost (host_env w) (List.tl (host_arrivals w)) (host_ticks w)) |};
  environ w name := sdict_get name (host_env w);
  getcwd := mret (py "/srv");
  gethostbyname host := mret host;
  udp_socket := mret [];
  randbelow _ w := (41, w);
  kernel w := (Linux.os (LinuxFiles.small_target false), LinuxShell.mkTty [] false [] 9) |}.

(** Two machines with the same name, and one whose name is another's selector. *)
Definition named_records : sdict (TargetRecord (backend_object unit unit unit)) :=
  let row sel n := (py sel, mkRecord (py sel) (py n) (py "discovery") None None None None) in
  [row "LAB@01" "LAB"; row "LAB@02" "Lab"; row "DESK" "LAB@01"].

Lemma resolve_exact_witness :
  _resolve named_records (Some (py "lab@01")) = Ok (py "DESK") /\
  _resolve named_records (Some (py "LAB@01")) = Ok (py "LAB@01") /\
  (forall sel, _resolve named_records (Some (py "lab")) <> Ok sel).
Proof.
  assert (Hd : sdict_ok named_records) by (apply (bool_decide_eq_true_1 (NoDup _)); vm_compute; reflexivity).
  assert (Hnot : forall t, bool_decide (t ∈ named_records.*1) = false -> t ∉ named_records.*1)
    by (intros t Ht; exact (bool_decide_eq_false_1 _ Ht)).
  split; [|split].
  - apply (resolve_exact named_records (Some (py "lab@01")) Hd). right.
    split; [apply Hnot; vm_compute; reflexivity|].
    eexists. split; [right; right; left|]. split; [vm_compute; reflexivity|].
    intros sel' r' Hin Hc. unfold named_records in Hin. cbv zeta beta in Hin.
    rewrite !elem_of_cons in Hin. destruct Hin as [E|[E|[E|E]]]; [..|by apply not_elem_of_nil in E];
      injection E as -> ->; vm_compute in Hc; try discriminate Hc. split; reflexivity.
  - apply (resolve_exact named_records (Some (py "LAB@01")) Hd). left.
    split; [reflexivity|]. left.
  - intros sel Hs. apply (resolve_exact named_records (Some (py "lab")) Hd) in Hs as [[-> Hin]|[_ Hon]].
    + revert Hin. apply Hnot. vm_compute. reflexivity.
    + destruct Hon as (r & _ & _ & Hu).
      destruct (Hu (py "LAB@01") _ (list_elem_of_here _ _) eq_refl) as [E1 _].
      destruct (Hu (py "LAB@02") _ (list_elem_of_further _ _ _ (list_elem_of_here _ _)) eq_refl) as [E2 _].
      rewrite <- E1 in E2. discriminate E2.
Defined.

(** An agent announces itself, and after the first call again from another address. *)
Definition moving_host : small_host :=
  let at_ ip := [Ok (Codec.BOX_DATAGRAM, (py ip, 40000))] in
  mkHost [(py "DOS_MCP_DISCOVERY", py "1"); (py "DOS_MCP_ALLOW_FILE_READ", py "1")]
    [at_ "10.0.0.7"; at_ "10.0.0.9"] 0.

(** Two status requests, each after an announcement. *)
Definition moving_events : list event := [called (get_status_tool None); called (get_status_tool None)].

Lemma small_resolver host (w : small_host) ip w' : gethostbyname host w = (Ok ip, w') -> host = ip.
Proof. by intros [= -> _]. Qed.

Lemma clients_follow_records_witness :
  let x : BackendRuntime small_host (backend_object (UdpBackend.UdpBackend UdpSafety.script)
            UdpSafety.script small_kernel) :=
    foldl (fun x e => run_event e x) (new_runtime moving_host (Injected <$> None)) moving_events in
  let sel := py "DOSBOX@020000000007" in
  NoDup (records x).*1 /\
  exists r u, sdict_get sel (records x) = Some r /\ backend r = Some (Udp u) /\
    rec_address r = Some (py "10.0.0.9", 21300) /\ UdpBackend.target u = (py "10.0.0.9", 21300) /\
    _allow_file_read u = true /\ _allow_file_write u = false.
Proof.
  intros x sel.
  destruct (clients_follow_records (W:=small_host) (N:=UdpSafety.script) (K:=small_kernel) eq
    small_resolver moving_host
    (None : option (UdpBackend.UdpBackend UdpSafety.script)) moving_events) as [Hn Hall].
  split; [exact Hn|].
  destruct (sdict_get sel (records x)) as [r|] eqn:Eg; [|vm_compute in Eg; discriminate Eg].
  destruct (Hall sel r Eg) as (_ & Hu & _).
  destruct (backend r) as [[b|u|l]|] eqn:Eb; [exfalso; vm_compute in Eg; injection Eg as <-; discriminate Eb| |
    exfalso; vm_compute in Eg; injection Eg as <-; discriminate Eb..].
  destruct (Hu u eq_refl) as (host & ip & port & Ha & Ht & <- & _ & Hr & Hw).
  assert (Ha' : rec_address r = Some (py "10.0.0.9", 21300)).
  { clear -Eg. vm_compute in Eg. injection Eg as <-. vm_compute. reflexivity. }
  exists r, u. split; [reflexivity|]. split; [exact Eb|]. split; [exact Ha'|].
  rewrite Ha' in Ha. injection Ha as <- <-. split; [exact Ht|]. rewrite Hr, Hw. split; vm_compute; reflexivity.
Defined.
