(* ===== verification/ServerSafety.v ===== *)
(** * What the tools guarantee

    A tool call reaches exactly the selected target and reports exactly what the
    target's operation returned; through a client in touch with an agent, the file
    tools move files between the caller and the agent's machine unchanged. *)
From S2P Require Import Prelude PyFloat Crc Crypto PyText PyStr Base64 Messages State Value Models Backend Discovery Files.
From S2P Require Import UdpBackend UdpSafety Link Exchange ReliableLink Remote Runtime Server RuntimeSafety.
From S2P Require Import SmallKernel.
From S2P Require Linux LinuxFiles LinuxShell MemoryBackend.

Section Tools.
Context {W I N K : Type} `{Host W N K} `{Backend I} `{UdpBackend.Network N} `{Files K} `{Linux.Shell K}.
Local Abbreviation B := (backend_object I N K).
Local Abbreviation M := (stateful (BackendRuntime W B)).
Implicit Types (x : BackendRuntime W B) (r : TargetRecord B).

(** What every tool does first: configure once, then take in the announcements. *)
Definition prepare : M unit := _configure;; _refresh_discovery.

Lemma runtime_get_run target x x1 sel r :
  prepare x = (Ok tt, x1) -> _resolve (records x1) target = Ok sel ->
  sdict_get sel (records x1) = Some r ->
  runtime_get target x =
    match backend r with
    | Some _ => (Ok sel, x1)
    | None =>
        match rec_address r, key x1 with
        | Some a, Some k =>
            (u ← connect a k (runtime_file_read x1) (runtime_file_write x1);
             update_record sel (set_backend (Some (Udp u)));; mret sel) x1
        | _, _ => (Err (Exn RuntimeError (py "target " ++ repr (selector r) ++ py " has no backend")), x1)
        end
    end.
Proof.
  intros Hp Hr Hg. unfold prepare in Hp. rewrite bind_run in Hp. unfold runtime_get. rewrite bind_run.
  destruct (_configure x) as [[[]|e] x0]; [|done]. rewrite bind_run, Hp, bind_run. cbn [get].
  rewrite bind_run, Hr. cbn [lift]. rewrite Hg. destruct (backend r); [done|].
  destruct (rec_address r); [|done]. by destruct (key x1).
Qed.

(** A record with a client already. *)
Lemma call_backend_run {A} target (op : stateful B A) to_dict x x1 sel r o res o' :
  prepare x = (Ok tt, x1) -> _resolve (records x1) target = Ok sel ->
  sdict_get sel (records x1) = Some r -> backend r = Some o -> op o = (res, o') ->
  call_backend target op to_dict x =
    (to_dict <$> res, set_records (sdict_set sel (set_backend (Some o') r) (records x1)) x1).
Proof.
  intros Hp Hr Hg Ho Hop. unfold call_backend. rewrite bind_run, (runtime_get_run _ _ _ _ _ Hp Hr Hg), Ho.
  rewrite bind_run. unfold on_backend. rewrite Hg, Ho, Hop. by destruct res.
Qed.

(** C11. A tool call reaches the selected target and nothing else.  Once the runtime
    is prepared and the request resolved, the operation runs exactly once, on the
    client the record has or, if it has none, on a new one at the record's address
    (a record without address or key raises [RuntimeError], a failing connection its
    own error); the tool returns what that operation returned, as a dictionary, or
    raises what it raised, and the state the operation left is kept for the next
    call.  The record of every other target is untouched. *)
Theorem tool_reaches_selected_target {A} (op : stateful B A) to_dict target x x1 sel r :
  prepare x = (Ok tt, x1) -> _resolve (records x1) target = Ok sel ->
  sdict_get sel (records x1) = Some r ->
  let '(res, x') := call_backend target op to_dict x in
  (forall other, other <> sel -> sdict_get other (records x') = sdict_get other (records x1)) /\
  match backend r, rec_address r, key x1 with
  | Some o, _, _ =>
      res = to_dict <$> (op o).1 /\ sdict_get sel (records x') = Some (set_backend (Some (op o).2) r)
  | None, Some a, Some k =>
      match connect a k (runtime_file_read x1) (runtime_file_write x1) x1 with
      | (Ok u, _) =>
          res = to_dict <$> (op (Udp u)).1 /\
          sdict_get sel (records x') = Some (set_backend (Some (op (Udp u)).2) r)
      | (Err e, x2) => res = Err e /\ x' = x2
      end
  | None, _, _ =>
      res = Err (Exn RuntimeError (py "target " ++ repr (selector r) ++ py " has no backend")) /\ x' = x1
  end.
Proof.
  intros Hp Hr Hg. destruct (backend r) as [o|] eqn:Ho.
  - destruct (op o) as [res o'] eqn:Hop. rewrite (call_backend_run _ _ _ _ _ _ _ _ _ _ Hp Hr Hg Ho Hop).
    cbn [records set_records fst snd]. split; [intros other Hne; by rewrite sdict_get_set, decide_False|].
    by rewrite sdict_get_set, decide_True.
  - unfold call_backend. rewrite bind_run, (runtime_get_run _ _ _ _ _ Hp Hr Hg), Ho.
    destruct (rec_address r) as [a|]; [|done]. destruct (key x1) as [k|]; [|done].
    rewrite bind_run. destruct (connect a k _ _ x1) as [ru x2] eqn:Ec.
    destruct (connect_routed (fun _ _ => True) (fun _ _ _ _ _ => Logic.I) _ _ _ _ _ _ _ Ec) as (Hrec & _).
    destruct ru as [u|e]; [|by rewrite Hrec]. rewrite bind_run. unfold update_record. cbn [modify].
    rewrite Hrec, Hg. cbn [mret stateful_ret]. rewrite bind_run. unfold on_backend. cbn [records set_records].
    rewrite sdict_get_set, decide_True by done. cbn [backend set_backend].
    destruct (op (Udp u)) as [[res|e] o']; cbn [fst snd mret stateful_ret records set_records];
      (split; [intros other Hne; by rewrite !sdict_get_set, !decide_False|]);
      by rewrite sdict_get_set, decide_True.
Qed.
End Tools.

(** ** File contents as tool arguments and results *)
Section Contents.
Context {W I N K : Type} `{Host W N K} `{Backend I} `{UdpBackend.Network N} `{Files K} `{Linux.Shell K}.
Implicit Types (x : BackendRuntime W (backend_object I N K)).

Lemma decode_content_raises s e : decode_content s = Err e -> exn_cls e = ValueError.
Proof.
  unfold decode_content. pose proof (b64decode_raises s) as Hr.
  destruct (b64decode s) as [data|e0]; cbn in Hr |- *.
  - intros H'. destruct (1048576 <? len data); [by injection H' as <-|done].
  - rewrite Hr. cbn. by intros [= <-].
Qed.

Lemma decode_content_encode data : len data <= 1048576 -> decode_content (b64encode data) = Ok data.
Proof.
  intros Hl. unfold decode_content. rewrite b64decode_b64encode. cbn [mbind result_bind].
  by rewrite raise_if_false by lia.
Qed.

(** What both file tools carry. *)
Definition transferable (data : bytes) : Prop := len data <= 1048576.

(** C20. What a download reports can be uploaded back unchanged.  When the file is within
    the limit of both tools, the Base64 text in the result of the download tool is
    within the bound the upload tool declares and decodes to exactly the bytes of the
    file; when it is not, the text is refused with [ValueError].  A text that is not Base64, or holds too much, raises [ValueError] before
    any target is looked up: the runtime is not touched, not even configured. *)
Theorem contents_round_trip :
  (forall f s, sdict_get (py "content_base64") (file_contents_to_dict f) = Some (VStr s) ->
     (transferable (contents_data f) -> decode_content s = Ok (contents_data f) /\ len s <= 1398104) /\
     (~ transferable (contents_data f) ->
      decode_content s = raise ValueError (py "decoded file exceeds 1048576 bytes"))) /\
  (forall path s overwrite target x e, decode_content s = Err e ->
     run_tool (upload_file_tool path s overwrite target) x = (Err e, x) /\ exn_cls e = ValueError).
Proof.
  split.
  - intros f s Hs. assert (Hs' : Some (VStr (b64encode (contents_data f))) = Some (VStr s)).
    { rewrite <- Hs. unfold file_contents_to_dict. cbn [sdict_get].
      repeat match goal with |- context [decide (?a = ?b)] =>
        first [rewrite (decide_False (P := a = b)) by (vm_compute; discriminate)
              | rewrite (decide_True (P := a = b)) by reflexivity] end. done. }
    injection Hs' as <-. unfold transferable. split.
    + intros Hl. split; [by apply decode_content_encode|]. rewrite len_b64encode.
      pose proof (len_nonneg (contents_data f)). Z.to_euclidean_division_equations. lia.
    + intros Hl. unfold decode_content. rewrite b64decode_b64encode. cbn [mbind result_bind].
      by rewrite raise_if_true by lia.
  - intros path s overwrite target x e Hd. cbn [run_tool]. rewrite bind_run, Hd. cbn [lift].
    split; [done|]. by apply decode_content_raises in Hd.
Qed.
End Contents.

(** ** Through a client in touch with an agent *)
Section Agent.
Context {W I K D : Type} `{Host W (Link D) K} `{Backend I} `{Backend D} `{Files K} `{Linux.Shell K}.
Context (Hsmall : AgentTransfer.small_screens (B:=D)).
Implicit Types (x : BackendRuntime W (backend_object I (Link D) K)).

(** The request resolves to a record whose client is [u]. *)
Definition selects x target x1 sel r (u : UdpBackend.UdpBackend (Link D)) : Prop :=
  prepare x = (Ok tt, x1) /\ _resolve (records x1) target = Ok sel /\
  sdict_get sel (records x1) = Some r /\ backend r = Some (Udp u).

Lemma call_selected {A} x target x1 sel r u (op : forall B, Backend B -> stateful B A) to_dict res u' :
  selects x target x1 sel r u -> op _ _ u = (res, u') ->
  call_backend target (dispatch op) to_dict x =
    (to_dict <$> res, set_records (sdict_set sel (set_backend (Some (Udp u')) r) (records x1)) x1).
Proof.
  intros (Hp & Hr & Hg & Hb) Hop. apply (call_backend_run _ _ _ _ _ _ _ _ _ _ Hp Hr Hg Hb).
  cbn [dispatch]. by rewrite Hop.
Qed.

(** The download tool delivers the file.  On a target in touch with an agent, over a
    link that delivers, once the machine's [download_file] ends the tool returns the path, the size, the CRC-32 and, in Base64,
    the very bytes that [download_file] of the agent's machine returned for that path,
    called once, or an error carrying the machine's error; the machine ends as that one
    call left it and the client stays in touch, ready for the next call. *)
Lemma download_through_agent path x target x1 sel r u b encoded res b' :
  selects x target x1 sel r u -> in_touch u b None -> _allow_file_read u = true ->
  cp437_encode path = Ok encoded -> dos_path encoded ->
  download_file path b = (res, b') -> ends_in res = true ->
  (forall c, res = Ok c -> len (contents_data c) <= MAX_FILE_SIZE) ->
  exists u', in_touch u' b' None /\ same_settings u u' /\
    run_tool (download_file_tool path target) x =
      (match res with
       | Ok c =>
           Ok [(py "path", VStr path); (py "size", VInt (len (contents_data c)));
               (py "crc32", VStr (hex08 (Crc.crc32 (contents_data c))));
               (py "content_base64", VStr (b64encode (contents_data c)))]
       | Err e => Err (remote_error e)
       end, set_records (sdict_set sel (set_backend (Some (Udp u')) r) (records x1)) x1).
Proof.
  intros Hs Hu Hallow Henc Hpath Hrun Hends Hsize.
  destruct (remote_download_file Hsmall path u b encoded res b' Hu Hallow Henc Hpath Hrun Hends Hsize)
    as (u' & Hu' & Hset & Hop).
  exists u'. split; [done|]. split; [done|]. cbn [run_tool].
  etrans; [eapply (call_selected x target x1 sel r u (fun B _ => download_file path)); [exact Hs|exact Hop]|].
  by destruct res.
Qed.

(** The upload tool stores the file.  On a target in touch with an agent, over a link
    that delivers, Base64 text that decodes to at most a mebibyte makes exactly one
    [upload_file] on the agent's machine, with the path, the decoded bytes and the
    flag as given; the tool returns the receipt for those bytes, or an error carrying the
    machine's error, and the machine ends as that one call left it. *)
Lemma upload_through_agent path text overwrite content x target x1 sel r u b encoded res b' :
  selects x target x1 sel r u -> in_touch u b None -> _allow_file_write u = true ->
  cp437_encode path = Ok encoded -> dos_path encoded ->
  decode_content text = Ok content -> upload_file path content overwrite b = (res, b') ->
  ends_in res = true ->
  (forall receipt, res = Ok receipt -> receipt_size receipt = len content /\ receipt_crc32 receipt = Crc.crc32 content) ->
  exists u', in_touch u' b' None /\ same_settings u u' /\
    run_tool (upload_file_tool path text overwrite target) x =
      (match res with
       | Ok _ =>
           Ok [(py "path", VStr path); (py "size", VInt (len content)); (py "crc32", VStr (hex08 (Crc.crc32 content)))]
       | Err e => Err (remote_error e)
       end, set_records (sdict_set sel (set_backend (Some (Udp u')) r) (records x1)) x1).
Proof.
  intros Hs Hu Hallow Henc Hpath Htext Hrun Hends Hhonest.
  assert (Hsize : len content <= MAX_FILE_SIZE).
  { unfold decode_content in Htext. inv_ok. unfold MAX_FILE_SIZE. lia. }
  destruct (remote_upload_file Hsmall path content overwrite u b encoded res b' Hu Hallow Henc Hpath Hsize
    Hrun Hends Hhonest) as (u' & Hu' & Hset & Hop).
  exists u'. split; [done|]. split; [done|]. cbn [run_tool]. rewrite bind_run, Htext. cbn [lift].
  etrans; [eapply (call_selected x target x1 sel r u (fun B _ => upload_file path content overwrite));
    [exact Hs|exact Hop]|].
  by destruct res.
Qed.
End Agent.

(** ** A bridge with one desk on its network *)
Import MemoryBackend UdpSafety(agent_at).
Record lan := mkLan { plugged : MemoryBackend.desk; sockets : nat }.

#[export] Instance lan_host : Host lan (Link desk) small_kernel := {|
  host_clock := fun l => (float_of_int 7, l);
  host_discovery := {| bind_discovery _ := mret tt; arrivals l := ([], l) |};
  environ _ _ := None;
  getcwd := mret (py "/srv");
  gethostbyname _ := mret agent_at.1;
  udp_socket := fun l => (Ok (network (desk_client (plugged l))), mkLan (plugged l) (S (sockets l)));
  randbelow _ l := (41, l);
  kernel _ := (Linux.os (LinuxFiles.small_target false), LinuxShell.mkTty [] false [] 9) |}.

Local Abbreviation lan_backend := (backend_object desk (Link desk) small_kernel).
Local Abbreviation lan_runtime := (BackendRuntime lan lan_backend).

(** The runtime knows the desk by its address only and an injected target by its backend. *)
Definition two_targets : lan_runtime :=
  let desk_record := mkRecord (py "dos") (py "Dos") (py "static") (Some (py "desk.lan", agent_at.2)) None None None in
  let other := mkRecord (py "default") (py "default") (py "injected") None (Some (Injected empty_desk)) None None in
  mkRuntime (mkLan stocked 0) [(py "default", other); (py "dos", desk_record)] true (Some TEST_KEY) true true None [].

Lemma tool_reaches_selected_target_witness :
  let '(res, x') := call_backend (Some (py "DOS")) get_capabilities capabilities_to_dict two_targets in
  (exists d, res = Ok d) /\
  sdict_get (py "default") (records x') = sdict_get (py "default") (records two_targets) /\
  exists r u, sdict_get (py "dos") (records x') = Some r /\ backend r = Some (Udp u) /\
    UdpBackend.target u = agent_at.
Proof.
  destruct (sdict_get (py "dos") (records two_targets)) as [r|] eqn:Hg; [|vm_compute in Hg; discriminate Hg].
  pose proof (tool_reaches_selected_target (W:=lan) get_capabilities capabilities_to_dict (Some (py "DOS"))
    two_targets two_targets (py "dos") r eq_refl ltac:(vm_compute; reflexivity) Hg) as Ht.
  cbn in Hg. injection Hg as <-.
  destruct (call_backend _ _ _ two_targets) as [res x']. destruct Ht as [Hother Ht].
  cbn [backend rec_address Runtime.key two_targets] in Ht.
  destruct (connect _ _ _ _ two_targets) as [[u|e] x2] eqn:Ec; [|vm_compute in Ec; discriminate Ec].
  destruct Ht as [Hres Hrec]. rewrite Hres. split; [|split].
  - destruct (get_capabilities (Udp u)) as [[c|e] o] eqn:Eo; [eexists; reflexivity|].
    exfalso. clear -Ec Eo. vm_compute in Ec. injection Ec as <- _. vm_compute in Eo. discriminate Eo.
  - apply Hother. intros E. discriminate E.
  - destruct (get_capabilities (Udp u)) as [q o] eqn:Eo. cbn [fst snd] in Hrec.
    destruct o as [b|u'|l].
    + exfalso. cbn in Eo. destruct (udp_get_capabilities u) as [q' u']. discriminate Eo.
    + eexists _, u'. split; [exact Hrec|]. split; [reflexivity|].
      clear -Ec Eo. vm_compute in Ec. injection Ec as <- _. vm_compute in Eo. injection Eo as _ <-.
      vm_compute. reflexivity.
    + exfalso. cbn in Eo. destruct (udp_get_capabilities u) as [q' u']. discriminate Eo.
Defined.

Lemma contents_round_trip_witness :
  decode_content (py "YWI=") = Ok [x61; x62] /\
  run_tool (upload_file_tool (py "A.TXT") (py "YW") true None) two_targets =
    (raise ValueError (py "content_base64 is not valid base64"), two_targets).
Proof.
  destruct (contents_round_trip (W:=lan) (I:=desk) (N:=Link desk) (K:=small_kernel)) as [Hdown Hup].
  split.
  - refine (proj1 (proj1 (Hdown (mkFileContents (py "A.TXT") [x61; x62] 0) (py "YWI=") _) _));
      [vm_compute; reflexivity|discriminate].
  - refine (proj1 (Hup (py "A.TXT") (py "YW") true None two_targets
      (Exn ValueError (py "content_base64 is not valid base64")) _)). vm_compute. reflexivity.
Defined.
