(* ===== verification/EndToEnd.v ===== *)
(** * From the tools to the files of a simulated machine

    The whole path of a file: a tool call of the bridge, its target's client, the
    link, the agent's server, the Linux target behind it and the files of that
    machine's kernel. *)
From S2P Require Import Prelude PyFloat Crc Crypto PyText PyStr Base64 Messages State Value Models Backend Discovery Files.
From S2P Require Import UdpBackend UdpSafety Link Exchange ReliableLink Remote Runtime Server ServerSafety.
From S2P Require Import AgentMap LinuxFiles LinuxInvariant SmallKernel.
From S2P Require Linux Simulator.

(** The machine behind a simulator: a Linux target in one of its reachable states. *)
Definition simulated (O : Type) : Type := Restricted (linux_ok (W:=O) 80 25).

Section EndToEnd.
Context {W I K O : Type} `{FilesLaws O} `{Linux.Shell O}.
Local Abbreviation machine := (Restricted (linux_ok (W:=O) 80 25)).
Context `{Host W (Link machine) K} `{Backend I} `{Files K} `{Linux.Shell K}.
Implicit Types (x : BackendRuntime W (backend_object I (Link machine) K)) (b : machine).

Lemma simulated_small : AgentTransfer.small_screens (B:=machine).
Proof. apply restricted_small. by apply linux_screens_fit. Qed.

(** The files of the machine. *)
Definition files_of b : O := Linux.os (raw b).

(** C1. A file uploaded with the tool is on the machine's disk.  For a target that is a
    simulated machine, with a client in touch with its agent over a link that delivers
    every datagram and every answer: when the tool returns, it reports the size and the CRC-32 of the decoded content, the machine
    permits uploads, and exactly one file of the machine has changed: one below the
    configured root, which now holds exactly that content (and did not exist, without
    [overwrite]).  When the tool raises, every file of the machine still has its
    contents.  The client stays in touch either way.  (Over a link that loses answers a
    tool can raise [TimeoutError] after the machine has stored the file.) *)
Theorem uploaded_file_is_on_disk path text overwrite content x target x1 sel r u b encoded :
  selects x target x1 sel r u -> in_touch u b None -> _allow_file_write u = true ->
  cp437_encode path = Ok encoded -> dos_path encoded -> decode_content text = Ok content ->
  exists u' b' res, in_touch u' b' None /\
    run_tool (upload_file_tool path text overwrite target) x =
      (res, set_records (sdict_set sel (set_backend (Some (Udp u')) r) (records x1)) x1) /\
    match res with
    | Ok report =>
        report = [(py "path", VStr path); (py "size", VInt (len content)); (py "crc32", VStr (hex08 (Crc.crc32 content)))] /\
        Linux.allow_file_write (raw b) = true /\
        exists file, is_relative_to file (Linux.root (raw b)) = true /\
          (overwrite = false -> contents (files_of b) file = None) /\
          stored_at file content (files_of b) (files_of b')
    | Err _ => files_kept (files_of b) (files_of b')
    end.
Proof.
  intros Hs Hu Hallow Henc Hpath Htext.
  destruct (upload_file path content overwrite b) as [res b'] eqn:Hrun.
  assert (Hraw : Linux.linux_upload_file path content overwrite (raw b) = (res, raw b')).
  { by injection Hrun as <- <-; rewrite <- surjective_pairing. }
  apply linux_upload_cases in Hraw as Hcases.
  pose proof (linux_upload_returns path content overwrite (raw b)) as Hends. rewrite Hraw in Hends.
  destruct (upload_through_agent simulated_small path text overwrite content x target x1 sel r u b encoded res b')
    as (u' & Hu' & _ & Hop); try done.
  { intros receipt ->. by destruct Hcases as (_ & _ & -> & _). }
  exists u', b'. eexists. split; [done|]. split; [exact Hop|].
  destruct res as [receipt|e]; [|exact Hcases].
  destruct Hcases as (Hw & _ & _ & Hfile). split; [done|]. by split.
Qed.

(** C2. A file downloaded with the tool is the file on the machine's disk.  For a target
    that is a simulated machine, with a client in touch with its agent over a link that
    delivers every datagram and every answer: when the tool returns, the Base64 text it reports decodes, for the upload tool too, to the
    contents of the file that the path, joined to the root, resolves to, which lies
    below the root, byte for byte, with their size and CRC-32.  Whether it returns or
    raises, no file of the machine changes, and a machine that does not permit downloads
    is not touched at all. *)
Theorem downloaded_file_is_from_disk path x target x1 sel r u b encoded :
  selects x target x1 sel r u -> in_touch u b None -> _allow_file_read u = true ->
  cp437_encode path = Ok encoded -> dos_path encoded ->
  exists u' b' res, in_touch u' b' None /\
    run_tool (download_file_tool path target) x =
      (res, set_records (sdict_set sel (set_backend (Some (Udp u')) r) (records x1)) x1) /\
    files_same (files_of b) (files_of b') /\
    (Linux.allow_file_read (raw b) = false -> raw b' = raw b /\ exists e, res = Err e) /\
    forall report, res = Ok report ->
      exists file data text, resolves_to (Linux.root (raw b)) path (files_of b) file /\
        is_relative_to file (Linux.root (raw b)) = true /\ contents (files_of b) file = Some data /\ decode_content text = Ok data /\
        report = [(py "path", VStr path); (py "size", VInt (len data)); (py "crc32", VStr (hex08 (Crc.crc32 data)));
                  (py "content_base64", VStr text)].
Proof.
  intros Hs Hu Hallow Henc Hpath.
  destruct (download_file path b) as [res b'] eqn:Hrun.
  assert (Hraw : Linux.linux_download_file path (raw b) = (res, raw b')).
  { by injection Hrun as <- <-; rewrite <- surjective_pairing. }
  pose proof (linux_download_returns path (raw b)) as Hends. rewrite Hraw in Hends.
  destruct (linux_download_cases _ _ _ _ Hraw) as (Hsame & Hdenied & Hdata).
  destruct (download_through_agent simulated_small path x target x1 sel r u b encoded res b')
    as (u' & Hu' & _ & Hop); try done.
  { intros c ->. by destruct (Hdata c eq_refl) as (_ & data & _ & _ & _ & Hl & ->). }
  exists u', b'. eexists. split; [done|]. split; [exact Hop|]. split; [exact Hsame|]. split.
  - intros [Hb ->]%Hdenied. split; [done|]. by eexists.
  - intros report Hreport. destruct res as [c|]; [|done]. injection Hreport as <-.
    destruct (Hdata c eq_refl) as (file & data & Hres & Hrel & Hc & Hl & ->).
    exists file, data, (b64encode data). split_and!; try done. by apply decode_content_encode.
Qed.
End EndToEnd.

(** ** A bridge with one simulated machine on its network *)
Import AgentServer AgentInvariant AgentSafety.

Definition box_terminal : Terminal.TerminalBuffer :=
  match Terminal.new_terminal 80 25 with Ok t => t | Err _ => Terminal.sample_terminal end.

Definition box_target : Linux.LinuxTerminalBackend small_kernel :=
  Linux.mkLinux (LinuxFiles.mkFs (fun q => if decide (q = path_of (py "/srv/A.TXT")) then Some [x61; x62] else None)
      [srv] 0 false, LinuxShell.mkTty [] false [] 9)
    srv (py "/bin/sh") 80 25 true true box_terminal None None float_zero false.

Lemma box_ok : linux_ok 80 25 box_target.
Proof. split; [done|]. split; [done|]. by apply Terminal.new_terminal_ok. Qed.

Definition box : Restricted (linux_ok (W:=small_kernel) 80 25) := restricted box_target box_ok.

Definition box_client : UdpBackend (Link (Restricted (linux_ok (W:=small_kernel) 80 25))) :=
  mkUdp (mkLink (mkServer box TEST_KEY None false false None false []) true bridge agent_at
      (fun _ => [mkDelivery sample_entropy (seq 0 32)]) (fun _ => 7) 0)
    [] agent_at TEST_KEY 3 true true 0 None 1 false.

Lemma box_in_touch : in_touch box_client box None.
Proof.
  apply (new_in_touch (network box_client) box TEST_KEY (S754_finite false 1 0) 3 true true 0); try done.
  intros i. exists sample_entropy. by split.
Qed.

Record lab := mkLab { plugged : Restricted (linux_ok (W:=small_kernel) 80 25) }.

#[export] Instance lab_host : Host lab (Link (Restricted (linux_ok (W:=small_kernel) 80 25))) small_kernel := {|
  host_clock := fun l => (float_of_int 7, l);
  host_discovery := {| bind_discovery _ := mret tt; arrivals l := ([], l) |};
  environ _ _ := None;
  getcwd := mret (py "/srv");
  gethostbyname _ := mret agent_at.1;
  udp_socket := mret (network box_client);
  randbelow _ l := (41, l);
  kernel _ := Linux.os box_target |}.

Definition box_runtime : BackendRuntime lab (backend_object (Restricted (linux_ok (W:=small_kernel) 80 25))
    (Link (Restricted (linux_ok (W:=small_kernel) 80 25))) small_kernel) :=
  let record := mkRecord (py "dos") (py "Dos") (py "static") (Some (py "box.lan", agent_at.2))
                  (Some (Udp box_client)) None None in
  mkRuntime (mkLab box) [(py "dos", record)] true (Some TEST_KEY) true true None [].

Lemma box_selects : exists r, selects box_runtime (Some (py "dos")) box_runtime (py "dos") r box_client.
Proof. by eexists. Qed.

Lemma uploaded_file_is_on_disk_witness :
  exists u' b', in_touch u' b' None /\
    (run_tool (upload_file_tool (py "B") (py "YWJj") true (Some (py "dos"))) box_runtime).1 =
      Ok [(py "path", VStr (py "B")); (py "size", VInt 3); (py "crc32", VStr (py "352441c2"))] /\
    exists file, is_relative_to file srv = true /\ contents (W:=small_kernel) (files_of b') file = Some [x61; x62; x63].
Proof.
  destruct box_selects as [r Hr].
  destruct (uploaded_file_is_on_disk (py "B") (py "YWJj") true [x61; x62; x63] box_runtime (Some (py "dos"))
    box_runtime (py "dos") r box_client box [x42] Hr box_in_touch eq_refl)
    as (u' & b' & res & Hu' & Hop & Hres).
  - vm_compute. reflexivity.
  - split; [vm_compute; split; congruence|]. apply (bool_decide_eq_true_1 (x00 ∉ _)). vm_compute. reflexivity.
  - vm_compute. reflexivity.
  - assert (E : (run_tool (upload_file_tool (py "B") (py "YWJj") true (Some (py "dos"))) box_runtime).1 =
      Ok [(py "path", VStr (py "B")); (py "size", VInt 3); (py "crc32", VStr (py "352441c2"))])
      by (vm_compute; reflexivity).
    exists u', b'. split; [exact Hu'|]. split; [exact E|].
    rewrite Hop in E. cbn [fst] in E. subst res.
    destruct Hres as (_ & _ & file & Hrel & _ & Hst). exists file. split; [exact Hrel|].
    rewrite (Hst file), decide_True by reflexivity. reflexivity.
Defined.

Lemma downloaded_file_is_from_disk_witness :
  (run_tool (download_file_tool (py "a.txt/../A.TXT") (Some (py "dos"))) box_runtime).1 =
    Ok [(py "path", VStr (py "a.txt/../A.TXT")); (py "size", VInt 2); (py "crc32", VStr (py "9e83486d"));
        (py "content_base64", VStr (py "YWI="))] /\
  exists file, is_relative_to file srv = true /\
    contents (W:=small_kernel) (files_of box) file = Some [x61; x62].
Proof.
  assert (E : (run_tool (download_file_tool (py "a.txt/../A.TXT") (Some (py "dos"))) box_runtime).1 =
    Ok [(py "path", VStr (py "a.txt/../A.TXT")); (py "size", VInt 2); (py "crc32", VStr (py "9e83486d"));
        (py "content_base64", VStr (py "YWI="))]) by (vm_compute; reflexivity).
  split; [exact E|]. destruct box_selects as [r Hr].
  destruct (downloaded_file_is_from_disk (py "a.txt/../A.TXT") box_runtime (Some (py "dos"))
    box_runtime (py "dos") r box_client box (z2b <$> py "a.txt/../A.TXT") Hr box_in_touch eq_refl)
    as (u' & b' & res & _ & Hop & _ & _ & Hres).
  - vm_compute. reflexivity.
  - split; [vm_compute; split; congruence|]. apply (bool_decide_eq_true_1 (x00 ∉ _)). vm_compute. reflexivity.
  - rewrite Hop in E. cbn [fst] in E.
    destruct (Hres _ E) as (file & data & text & _ & Hrel & Hc & Ht & Hrep).
    exists file. split; [exact Hrel|]. injection Hrep as _ _ <-.
    replace data with [x61; x62] in Hc; [exact Hc|].
    apply (f_equal (fun r => match r with Ok d => d | Err _ => [] end)) in Ht. rewrite <- Ht.
    vm_compute. reflexivity.
Defined.
