(* ===== verification/Transferred.v ===== *)
(** * A file sent is the file fetched

    An upload followed by a download of the same path, first on the Linux target and
    then with the tools of the bridge, through its client, the link and the agent.
    The file system is one whose links nobody moves meanwhile ([SettledFiles]). *)
From S2P Require Import Prelude PyFloat Crc Crypto PyText PyStr Base64 Messages State Value Models Backend Discovery Files.
From S2P Require Import UdpBackend UdpSafety Link Exchange ReliableLink Remote Runtime Server RuntimeSafety ServerSafety.
From S2P Require Import AgentMap LinuxFiles SettledFiles LinuxInvariant SmallKernel EndToEnd.
From S2P Require Linux Simulator.

(** ** Resolution does not look at clients *)
Section Resolution.
Context {I N K : Type}.
Local Abbreviation B := (backend_object I N K).
Implicit Types (d : sdict (TargetRecord B)).

Lemma same_name_keys t sel (o : option B) r d :
  sdict_get sel d = Some r ->
  (filter (fun p => same_name t p = true) (sdict_set sel (set_backend o r) d)).*1 =
  (filter (fun p => same_name t p = true) d).*1.
Proof.
  induction d as [|[k v] d IH]; cbn [sdict_get sdict_set]; [done|]. case_decide as Hk.
  - intros [= ->]. rewrite !filter_cons.
    change (same_name t (sel, set_backend o r)) with (same_name t (sel, r)). subst k. by case_decide.
  - intros Hg. rewrite !filter_cons. case_decide; cbn [fmap list_fmap fst]; by rewrite IH.
Qed.

Lemma resolve_set_client d target sel (o : option B) r s :
  sdict_get sel d = Some r -> _resolve d target = Ok s -> _resolve (sdict_set sel (set_backend o r) d) target = Ok s.
Proof.
  intros Hg. unfold _resolve. destruct target as [t|].
  - rewrite sdict_get_set. case_decide as Ht.
    + subst t. by rewrite Hg.
    + destruct (sdict_get t d); [done|]. pose proof (same_name_keys t sel o r d Hg) as Hf. revert Hf.
      destruct (filter _ (sdict_set _ _ _)) as [|[k1 v1] [|p1 l1]], (filter _ d) as [|[k2 v2] [|p2 l2]];
        intros Hf Hr; simplify_eq/=; done.
  - destruct d as [|[k v] [|p d]]; cbn [sdict_set sdict_get] in *; [done| |done]. case_decide; by simplify_eq/=.
Qed.
End Resolution.

Section Transferred.
Context {W I K O : Type} `{SettledFiles O} `{Linux.Shell O}.
Local Abbreviation machine := (Restricted (linux_ok (W:=O) 80 25)).
Context `{Host W (Link machine) K} `{Backend I} `{Files K} `{Linux.Shell K}.
Implicit Types (x : BackendRuntime W (backend_object I (Link machine) K)) (b : machine).

(** A runtime that is configured and listens to no announcements is prepared. *)
Lemma prepared x : configured x = true -> discovery x = None -> prepare x = (Ok tt, x).
Proof.
  intros Hc Hd. unfold prepare, _configure, _refresh_discovery. rewrite !bind_run. cbn [get].
  rewrite Hc. cbn [mret stateful_ret]. rewrite bind_run. cbn [gets]. by rewrite Hd.
Qed.

(** The selection after a call: the record keeps its place, with the client the call left. *)
Lemma selects_again x target x1 sel r u u' :
  selects x target x1 sel r u -> configured x1 = true -> discovery x1 = None ->
  let r' := set_backend (Some (Udp u')) r in
  let x2 := set_records (sdict_set sel r' (records x1)) x1 in
  selects x2 target x2 sel r' u'.
Proof.
  intros (_ & Hr & Hg & _) Hc Hd r' x2. split; [by apply prepared|]. split; [by apply resolve_set_client|].
  split; [|done]. cbn [records x2 set_records]. by rewrite sdict_get_set, decide_True.
Qed.

(** An upload and then a download of the same path. *)
Definition send_and_fetch path text overwrite target :
    stateful (BackendRuntime W (backend_object I (Link machine) K)) (sdict value * sdict value) :=
  sent ← run_tool (upload_file_tool path text overwrite target);
  fetched ← run_tool (download_file_tool path target);
  mret (sent, fetched).

(** C3. What is uploaded with the tools is downloaded with the tools.  For a target that
    is a simulated machine in touch, over a link that delivers, with both file
    transfers permitted at both ends and no discovery under way: once the upload tool
    has returned, the download tool given the same path and target returns too, and
    reports the same path, size and CRC-32 and, as Base64, exactly the uploaded
    content, in a form the upload tool would accept again. *)
Theorem uploaded_file_comes_back path text overwrite content x target x1 sel r u b encoded report :
  selects x target x1 sel r u -> configured x1 = true -> discovery x1 = None -> in_touch u b None ->
  _allow_file_write u = true -> _allow_file_read u = true -> Linux.allow_file_read (raw b) = true ->
  cp437_encode path = Ok encoded -> dos_path encoded -> decode_content text = Ok content ->
  (run_tool (upload_file_tool path text overwrite target) x).1 = Ok report ->
  (send_and_fetch path text overwrite target x).1 =
    Ok (report, report ++ [(py "content_base64", VStr (b64encode content))]) /\
  decode_content (b64encode content) = Ok content.
Proof.
  intros Hs Hconf Hdisc Hu Hw Hr Hmr Henc Hpath Htext Hup.
  assert (Hsize : len content <= 1048576).
  { unfold decode_content in Htext. by inv_ok; lia. }
  split; [|by apply decode_content_encode].
  destruct (upload_file path content overwrite b) as [res b'] eqn:Hrun.
  assert (Hraw : Linux.linux_upload_file path content overwrite (raw b) = (res, raw b')).
  { by injection Hrun as <- <-; rewrite <- surjective_pairing. }
  apply linux_upload_cases in Hraw as Hcases.
  pose proof (linux_upload_returns path content overwrite (raw b)) as Hends. rewrite Hraw in Hends.
  destruct (upload_through_agent simulated_small path text overwrite content x target x1 sel r u b encoded res b')
    as (u' & Hu' & (_ & _ & _ & Hset & _) & Hop); try done.
  { intros receipt ->. by destruct Hcases as (_ & _ & -> & _). }
  unfold send_and_fetch. rewrite bind_run, Hop. rewrite Hop in Hup.
  destruct res as [receipt|e]; [|done]. cbn [fst] in Hup. injection Hup as <-.
  destruct (linux_round_trip _ _ _ _ _ _ Hraw Hmr) as [b2 Hback].
  destruct (download_file path b') as [res b3] eqn:Hrun2.
  assert (Hres : res = Ok (mkFileContents path content (Crc.crc32 content))).
  { injection Hrun2 as <- _. by rewrite Hback. }
  subst res.
  destruct (download_through_agent simulated_small path _ target _ sel _ u' b' encoded (Ok (mkFileContents path content (Crc.crc32 content))) b3
    (selects_again _ _ _ _ _ _ u' Hs Hconf Hdisc) Hu') as (u'' & _ & _ & Hdown); try done.
  - by rewrite Hset.
  - intros c [= <-]. cbn. unfold MAX_FILE_SIZE. lia.
  - rewrite bind_run. by rewrite Hdown.
Qed.
End Transferred.

(** ** On the small machine of [EndToEnd.v] *)
#[local] Existing Instance LinuxFiles.small_files_laws.
#[export] Instance kernel_settled : SettledFiles small_kernel.
Proof.
  refine {| whereabouts (k : small_kernel) p := whereabouts k.1 p |};
    cbn [resolve is_dir is_file exists_ read_bytes named_temporary_file write_synced close_temporary replace
      kernel_files]; unfold on_files.
  - intros p k. pose proof (resolve_where p k.1) as E. by destruct (resolve p k.1).
  - intros k. apply whereabouts_resolved.
  - intros p k q. pose proof (resolve_settled p k.1 q) as E. by destruct (resolve p k.1).
  - intros p k q. pose proof (is_dir_settled p k.1 q) as E. by destruct (is_dir p k.1).
  - intros p k q. pose proof (is_file_settled p k.1 q) as E. by destruct (is_file p k.1).
  - intros p k q. pose proof (exists_settled p k.1 q) as E. by destruct (exists_ p k.1).
  - intros d k q. pose proof (temporary_settled d k.1 q) as E. by destruct (named_temporary_file d k.1).
  - intros t data k q. pose proof (write_synced_settled t data k.1 q) as E. by destruct (write_synced t data k.1).
  - intros t k q. pose proof (close_temporary_settled t k.1 q) as E. by destruct (close_temporary t k.1).
  - intros a t k q Ht. pose proof (replace_settled a t k.1 q Ht) as E. by destruct (replace a t k.1).
  - intros p k data Hc. pose proof (file_there p k.1 data Hc) as E. by destruct (is_file p k.1).
  - intros p k data Hc. pose proof (file_readable p k.1 data Hc) as E. by destruct (read_bytes p k.1).
Defined.

Lemma uploaded_file_comes_back_witness :
  let report := [(py "path", VStr (py "d/../B")); (py "size", VInt 3); (py "crc32", VStr (py "352441c2"))] in
  (send_and_fetch (py "d/../B") (py "YWJj") false (Some (py "DOS")) box_runtime).1 =
    Ok (report, report ++ [(py "content_base64", VStr (b64encode [x61; x62; x63]))]).
Proof.
  assert (Hs : exists r, selects box_runtime (Some (py "DOS")) box_runtime (py "dos") r box_client)
    by (eexists; split; [reflexivity|split; [vm_compute; reflexivity|split; reflexivity]]).
  destruct Hs as [r Hr]. intros report.
  refine (proj1 (uploaded_file_comes_back (py "d/../B") (py "YWJj") false [x61; x62; x63] box_runtime
    (Some (py "DOS")) box_runtime (py "dos") r box_client box (z2b <$> py "d/../B") report
    Hr eq_refl eq_refl box_in_touch eq_refl eq_refl eq_refl _ _ _ _)).
  - vm_compute. reflexivity.
  - split; [vm_compute; split; congruence|]. apply (bool_decide_eq_true_1 (x00 ∉ _)). vm_compute. reflexivity.
  - vm_compute. reflexivity.
  - vm_compute. reflexivity.
Defined.
