(* ===== verification/Permissions.v ===== *)
(** * File transfers need the user's permission

    Files are read and written only when the environment says so: without
    [DOS_MCP_ALLOW_FILE_READ=1] the download tool, and without
    [DOS_MCP_ALLOW_FILE_WRITE=1] the upload tool, raises in every state the bridge can
    reach, and disturbs no target. *)
From S2P Require Import Prelude PyFloat PyText PyStr Json Crypto Base64 State Value Backend Discovery Files.
From S2P Require Import UdpBackend AgentMap LinuxInvariant SmallKernel Runtime Server RuntimeSafety ServerSafety.
From S2P Require Linux UdpSafety.

(** The environment of a process does not change under it. *)
Class HostLaws (W N K : Type) `{Host W N K} : Prop := {
  clock_environ (w : W) name : environ (monotonic w).2 name = environ w name;
  bind_environ port (w : W) name : environ (bind_discovery port w).2 name = environ w name;
  arrivals_environ (w : W) name : environ (arrivals w).2 name = environ w name;
  getcwd_environ (w : W) name : environ (getcwd w).2 name = environ w name;
  resolver_environ host (w : W) name : environ (gethostbyname host w).2 name = environ w name;
  socket_environ (w : W) name : environ (udp_socket w).2 name = environ w name;
  random_environ n (w : W) name : environ (randbelow n w).2 name = environ w name }.
#[global] Hint Mode HostLaws ! - - - : typeclass_instances.

Definition READ : pystr := py "DOS_MCP_ALLOW_FILE_READ".
Definition WRITE : pystr := py "DOS_MCP_ALLOW_FILE_WRITE".

(** The setting a tool needs. *)
Definition needs (c : tool_call) : option pystr :=
  match c with
  | download_file_tool _ _ => Some READ
  | upload_file_tool _ _ _ _ => Some WRITE
  | _ => None
  end.

Section Permissions.
Context {W I N K : Type} `{HostLaws W N K} `{Backend I} `{UdpBackend.Network N} `{Files K} `{Linux.Shell K}.
Local Abbreviation B := (backend_object I N K).
Local Abbreviation M := (stateful (BackendRuntime W B)).
Implicit Types (x : BackendRuntime W B) (r : TargetRecord B).

(** ** The permissions are those of the environment *)
Section Granted.
Context (E : pystr -> option pystr).

(** The environment is [E], and what the runtime permits is set in it. *)
Definition granted x : Prop :=
  (forall name, environ (world x) name = E name) /\
  (runtime_file_read x = true -> E READ = Some (py "1")) /\
  (runtime_file_write x = true -> E WRITE = Some (py "1")).

Local Abbreviation keeps_granted := (preserves granted).

Lemma enabled_true f name : _enabled f name = Ok true -> f name = Some (py "1").
Proof.
  unfold _enabled. intros He. inv_ok. bool_to_prop. destruct (f name); cbn in *; [by subst|done].
Qed.

Lemma in_world_granted {A} (m : stateful W A) :
  (forall w name, environ (m w).2 name = environ w name) -> keeps_granted (in_world m).
Proof.
  intros Hm x (He & Hp). unfold in_world. specialize (Hm (world x)).
  destruct (m (world x)) as [a w]. split; [|exact Hp]. intros name. cbn. by rewrite <- He, <- Hm.
Qed.

Lemma modify_granted f :
  (forall x, world (f x) = world x /\ runtime_file_read (f x) = runtime_file_read x /\
             runtime_file_write (f x) = runtime_file_write x) -> keeps_granted (modify f).
Proof. intros Hf x Hx. cbn. unfold granted. by destruct (Hf x) as (-> & -> & ->). Qed.

Lemma read_clock_environ (w : W) name : environ (read_clock w).2 name = environ w name.
Proof. unfold read_clock. rewrite <- (clock_environ w name). by destruct (monotonic w). Qed.

Lemma new_listener_environ port (w : W) name : environ (new_listener port w).2 name = environ w name.
Proof.
  unfold new_listener. rewrite bind_run. cbn [lift]. destruct (raise_if _ _ _); [|done].
  rewrite bind_run, <- (bind_environ port w name). by destruct (bind_discovery port w) as [[]].
Qed.

Lemma drain_loop_environ reads targets (w : W) name :
  environ (drain_loop reads targets w).2.2 name = environ w name.
Proof.
  revert targets w. induction reads as [|[[d src]|e] reads IH]; intros targets w; cbn [drain_loop]; try done.
  destruct (DiscoveryAdvertisement.decode _) as [ad|e]; [|by destruct (is_value_error _)].
  rewrite <- (clock_environ w name). by destruct (monotonic w).
Qed.

Lemma records_to_dict_environ (l : list (TargetRecord B)) (w : W) name :
  environ (records_to_dict l w).2 name = environ w name.
Proof.
  revert w. induction l as [|r l IH]; intros w; cbn [records_to_dict]; [done|].
  assert (Hr : environ (record_to_dict r w).2 name = environ w name).
  { unfold record_to_dict. cbv zeta. destruct (rec_last_seen r); [|done].
    rewrite <- (clock_environ w name). by destruct (monotonic w). }
  rewrite bind_run. destruct (record_to_dict r w) as [[d|e] w1]; [|done]. rewrite bind_run. cbn [snd] in Hr.
  rewrite <- Hr, <- (IH w1). by destruct (records_to_dict l w1) as [[ds|e] w2].
Qed.

Create HintDb granted discriminated.

(** Goes through a method of the runtime, statement by statement. *)
Ltac granted_step :=
  match goal with
  | |- keeps_granted (_ ≫= _) => apply preserves_bind; [|intros _ ? _ _ _]
  | |- keeps_granted (mret _) => apply preserves_ret
  | |- keeps_granted (lift _) => apply preserves_lift
  | |- keeps_granted (fail _) => apply preserves_fail
  | |- keeps_granted (gets _) => apply preserves_gets
  | |- keeps_granted get => by intros ?
  | |- keeps_granted (modify _) => apply modify_granted; intros ?; by repeat case_match
  | |- keeps_granted (each _ _) => apply preserves_each; intros ? _
  | |- keeps_granted (if ?c then _ else _) => destruct c
  | |- keeps_granted (match ?x with _ => _ end) => destruct x
  end.
Ltac solve_granted := cbv zeta; repeat first [progress eauto with granted | granted_step].

Lemma clock_granted : keeps_granted (in_world read_clock).
Proof. apply in_world_granted, read_clock_environ. Qed.
Lemma listener_granted port : keeps_granted (in_world (new_listener port)).
Proof. apply in_world_granted. intros. apply new_listener_environ. Qed.
Lemma cwd_granted : keeps_granted (in_world getcwd).
Proof. apply in_world_granted, getcwd_environ. Qed.
Lemma resolver_granted host : keeps_granted (in_world (gethostbyname host)).
Proof. apply in_world_granted, resolver_environ. Qed.
Lemma socket_granted : keeps_granted (in_world udp_socket).
Proof. apply in_world_granted, socket_environ. Qed.
Lemma random_granted n : keeps_granted (in_world (fun w => let '(id, w) := randbelow n w in (Ok id, w))).
Proof.
  apply in_world_granted. intros w name. rewrite <- (random_environ n w name). by destruct (randbelow n w).
Qed.
Lemma report_granted (l : list (TargetRecord B)) : keeps_granted (in_world (records_to_dict l)).
Proof. apply in_world_granted. intros. apply records_to_dict_environ. Qed.
#[local] Hint Resolve clock_granted listener_granted cwd_granted resolver_granted socket_granted
  random_granted report_granted : granted.

Lemma drain_granted l : keeps_granted (drain_announcements l).
Proof.
  intros x (He & Hp). unfold drain_announcements. destruct (drain (l, world x)) as [res [l' w]] eqn:Ed.
  split; [|exact Hp]. intros name. cbn. rewrite <- He. unfold drain in Ed.
  destruct (listener_closed l); [by injection Ed as _ _ <-|].
  rewrite <- (arrivals_environ (world x) name). destruct (arrivals (world x)) as [arrived w1]. cbn [snd].
  rewrite <- (drain_loop_environ (listener_inbox l ++ arrived) [] w1 name).
  destruct (drain_loop _ _ w1) as [q [unread w2]]. by injection Ed as _ _ <-.
Qed.

Lemma close_backend_granted sel : keeps_granted (close_backend sel).
Proof.
  intros x Hx. unfold close_backend. destruct (sdict_get sel (records x)) as [r|]; [|done].
  destruct (backend r) as [o|]; [|done]. by destruct (close o).
Qed.

Lemma update_granted sel f : keeps_granted (update_record sel f).
Proof. unfold update_record. solve_granted. Qed.
Lemma drop_granted sel : keeps_granted (drop_backend sel).
Proof. unfold drop_backend. solve_granted. Qed.
#[local] Hint Resolve drain_granted close_backend_granted drop_granted update_granted : granted.

Lemma refresh_granted : keeps_granted _refresh_discovery.
Proof. unfold _refresh_discovery, record_discovered. solve_granted. Qed.

Lemma start_discovery_granted : keeps_granted start_discovery.
Proof. unfold start_discovery. solve_granted. Qed.

Lemma add_local_granted : keeps_granted add_local.
Proof. unfold add_local. solve_granted. Qed.

Lemma add_static_granted name endpoint : keeps_granted (_add_static name endpoint).
Proof. unfold _add_static. solve_granted. Qed.
#[local] Hint Resolve refresh_granted start_discovery_granted add_local_granted add_static_granted : granted.

Lemma add_static_targets_granted value : keeps_granted (_add_static_targets value).
Proof. unfold _add_static_targets, add_one_static. solve_granted. Qed.
#[local] Hint Resolve add_static_targets_granted : granted.

Lemma configure_granted : keeps_granted _configure.
Proof.
  intros x Hx. pose proof Hx as (He & _). unfold _configure. rewrite bind_run. cbn [get].
  destruct (configured x); [exact Hx|]. revert Hx.
  match goal with |- granted x -> granted (?m x).2 => enough (Hm : keeps_granted m) by exact (Hm x) end.
  apply preserves_bind; [by granted_step|]. intros _ _ _ _ _.
  apply preserves_bind_lift. intros read Hread. apply preserves_bind.
  { intros y (Hy & _ & Hw). split; [exact Hy|]. split; [|exact Hw]. cbn. intros ->.
    rewrite <- He. by apply enabled_true. }
  intros _ _ _ _ _. apply preserves_bind_lift. intros write Hwrite. apply preserves_bind.
  { intros y (Hy & Hr & _). split; [exact Hy|]. split; [exact Hr|]. cbn. intros ->.
    rewrite <- He. by apply enabled_true. }
  intros _ _ _ _ _. solve_granted.
Qed.
#[local] Hint Resolve configure_granted : granted.

Lemma prepare_granted : keeps_granted prepare.
Proof. unfold prepare. solve_granted. Qed.

Lemma runtime_get_granted target : keeps_granted (runtime_get target).
Proof. unfold runtime_get, connect. solve_granted. Qed.

Lemma on_backend_granted {A} sel (op : stateful B A) : keeps_granted (on_backend sel op).
Proof.
  intros x Hx. unfold on_backend. destruct (sdict_get sel (records x)) as [r|]; [|done].
  destruct (backend r) as [o|]; [|done]. by destruct (op o).
Qed.
#[local] Hint Resolve runtime_get_granted on_backend_granted : granted.

Lemma run_tool_granted c : keeps_granted (run_tool c).
Proof. destruct c; cbn [run_tool]; unfold call_backend, list_targets; solve_granted. Qed.

Lemma run_event_granted e x : granted x -> granted (run_event e x).
Proof.
  destruct e as [c|]; cbn [run_event]; [apply run_tool_granted|].
  enough (Hc : keeps_granted runtime_close) by apply Hc. unfold runtime_close. solve_granted.
Qed.

Lemma run_events_granted events x : granted x -> granted (foldl (fun x e => run_event e x) x events).
Proof.
  revert x. induction events as [|e events IH]; intros x Hx; cbn [foldl]; [done|]. by apply IH, run_event_granted.
Qed.
End Granted.

(** ** A tool without its permission *)

(** Every client in the records of [x'] is the client the record had in [x1], in the very
    same state, or has just been connected and has not been used.  (In [prepare], which
    comes before [x1], the client of an agent that has moved may have been closed.) *)
Definition undisturbed x1 x' : Prop :=
  forall sel r', sdict_get sel (records x') = Some r' ->
    exists r, sdict_get sel (records x1) = Some r /\
      (backend r' = backend r \/
       backend r = None /\ exists a k u x2,
         connect a k (runtime_file_read x1) (runtime_file_write x1) x1 = (Ok u, x2) /\
         backend r' = Some (Udp u)).

Definition anywhere (_ _ : pystr) : Prop := True.

Lemma resolves_anywhere host (w : W) ip w' : gethostbyname host w = (Ok ip, w') -> anywhere host ip.
Proof. done. Qed.

Lemma undisturbed_refl x : undisturbed x x.
Proof. intros sel r Hr. exists r. auto. Qed.

Lemma undisturbed_same x1 x2 x' sel r r' :
  undisturbed x1 x2 -> sdict_get sel (records x2) = Some r -> backend r' = backend r ->
  records x' = sdict_set sel r' (records x2) -> undisturbed x1 x'.
Proof.
  intros Hu Hr Hb Hrec sel' r2 Hg. rewrite Hrec, sdict_get_set in Hg. case_decide as Hs; [|by apply Hu].
  injection Hg as <-. subst sel'. rewrite Hb. by apply Hu.
Qed.

Lemma get_undisturbed target x : undisturbed (prepare x).2 (runtime_get target x).2.
Proof.
  unfold runtime_get, prepare. rewrite !bind_run.
  destruct (_configure x) as [[[]|e] x0]; [|apply undisturbed_refl]. rewrite bind_run.
  destruct (_refresh_discovery x0) as [[[]|e] x1]; [|apply undisturbed_refl].
  rewrite bind_run. cbn [get]. rewrite bind_run.
  destruct (_resolve (records x1) target) as [sel|e]; cbn [lift]; [|apply undisturbed_refl].
  destruct (sdict_get sel (records x1)) as [r|] eqn:Hg; [|apply undisturbed_refl].
  destruct (backend r) as [o|] eqn:Hb; [apply undisturbed_refl|].
  destruct (rec_address r) as [a|]; [|apply undisturbed_refl].
  destruct (key x1) as [k|]; [|apply undisturbed_refl].
  rewrite bind_run. cbn [snd]. destruct (connect a k _ _ x1) as [ru x2] eqn:Ec.
  destruct (connect_routed anywhere resolves_anywhere _ _ _ _ _ _ _ Ec) as (Hrec & _).
  intros sel' r' Hg'. destruct ru as [u|e].
  2: { cbn in Hg'. rewrite Hrec in Hg'. exists r'. auto. }
  rewrite bind_run in Hg'. unfold update_record in Hg'. cbn in Hg'. rewrite Hrec, Hg in Hg'. cbn in Hg'.
  rewrite sdict_get_set in Hg'. case_decide as Hs; [|exists r'; auto].
  injection Hg' as <-. subst sel'. exists r. split; [done|]. right. split; [done|]. by exists a, k, u, x2.
Qed.

Section Denied.
Context (uninjected : I -> False).
Context (E : pystr -> option pystr).

(** [op] is refused by every client that has the runtime's permissions. *)
Definition refused {A} (op : stateful B A) : Prop :=
  forall x r o, granted E x -> routed anywhere x r -> backend r = Some o -> exists e, op o = (Err e, o).

Lemma call_refused {A} target (op : stateful B A) to_dict x :
  refused op -> runtime_ok anywhere x -> granted E x ->
  let '(res, x') := call_backend target op to_dict x in
  (exists e, res = Err e) /\ undisturbed (prepare x).2 x'.
Proof.
  intros Hop Hx Hgx. unfold call_backend. rewrite bind_run.
  pose proof (runtime_get_ready anywhere resolves_anywhere target x Hx) as Hready.
  pose proof (runtime_get_granted E target x Hgx) as Hgranted. pose proof (get_undisturbed target x) as Hu.
  destruct (runtime_get target x) as [[sel|e] x2]; [|by split; [eexists|]].
  cbn [snd] in Hready, Hgranted, Hu. rewrite bind_run. unfold on_backend.
  destruct (sdict_get sel (records x2)) as [r|] eqn:Hg; [|by split; [eexists|]].
  destruct (ready_get anywhere _ _ _ Hready Hg) as [_ Hr].
  destruct (backend r) as [o|] eqn:Hb; [|by split; [eexists|]].
  destruct (Hop x2 r o Hgranted Hr Hb) as [e ->]. split; [by eexists|].
  eapply undisturbed_same; [exact Hu|exact Hg| |reflexivity]. by rewrite Hb.
Qed.

Lemma upload_refused path data overwrite :
  E WRITE <> Some (py "1") -> refused (upload_file path data overwrite).
Proof.
  intros He x r o (_ & _ & Hw) Hr Hb. unfold routed in Hr. rewrite Hb in Hr.
  assert (Hoff : runtime_file_write x = false) by (destruct (runtime_file_write x); [|done]; by contradict He; auto).
  destruct o as [b|u|l]; [by destruct (uninjected b)|..].
  - destruct Hr as (_ & _ & _ & _ & _ & Hflag). rewrite Hoff in Hflag. eexists.
    cbn [upload_file object_backend dispatch udp_backend]. unfold udp_upload_file. rewrite bind_run.
    cbn [gets]. by rewrite Hflag.
  - destruct Hr as [_ Hflag]. rewrite Hoff in Hflag. eexists.
    cbn [upload_file object_backend dispatch Linux.linux_backend]. unfold Linux.linux_upload_file.
    rewrite bind_run. cbn [get]. by rewrite bind_run, Hflag.
Qed.

Lemma download_refused path : E READ <> Some (py "1") -> refused (download_file path).
Proof.
  intros He x r o (_ & Hrd & _) Hr Hb. unfold routed in Hr. rewrite Hb in Hr.
  assert (Hoff : runtime_file_read x = false) by (destruct (runtime_file_read x); [|done]; by contradict He; auto).
  destruct o as [b|u|l]; [by destruct (uninjected b)|..].
  - destruct Hr as (_ & _ & _ & _ & Hflag & _). rewrite Hoff in Hflag. eexists.
    cbn [download_file object_backend dispatch udp_backend]. unfold udp_download_file. rewrite bind_run.
    cbn [gets]. by rewrite Hflag.
  - destruct Hr as [Hflag _]. rewrite Hoff in Hflag. eexists.
    cbn [download_file object_backend dispatch Linux.linux_backend]. unfold Linux.linux_download_file.
    rewrite bind_run. cbn [get]. by rewrite bind_run, Hflag.
Qed.
End Denied.

(** C6. No file is moved without the user's permission.  Start the bridge in an
    environment where [DOS_MCP_ALLOW_FILE_WRITE] is anything but 1 (for downloads,
    [DOS_MCP_ALLOW_FILE_READ]), with the targets the environment and the network
    provide.  After any sequence of tool calls, an upload (a download) of anything, to
    any target, raises, and disturbs nothing: once the announcements have been taken in,
    as every call does first (which closes the client of an agent that has moved), every
    client in the records stays in the very same state, so no datagram was sent to an
    agent and no file of the host was touched; at most a socket has been opened for a
    target that had none. *)
Theorem file_tools_need_permission (w : W) events c setting :
  (I -> False) -> needs c = Some setting -> environ w setting <> Some (py "1") ->
  let x := foldl (fun x e => run_event e x) (new_runtime w None) events in
  let '(res, x') := run_tool c x in
  (exists e, res = Err e) /\ (undisturbed x x' \/ undisturbed (prepare x).2 x').
Proof.
  intros uninjected Hc Henv x.
  assert (Hok : runtime_ok anywhere x).
  { apply (run_events_ok anywhere resolves_anywhere), (new_runtime_ok anywhere w None). }
  assert (Hg : granted (environ w) x) by (apply run_events_granted; by split).
  destruct c as [| | | | | |path target|path text overwrite target]; try done; injection Hc as <-; cbn [run_tool].
  - pose proof (call_refused (environ w) target (download_file path) file_contents_to_dict x
      (download_refused uninjected _ path Henv) Hok Hg) as Hcall.
    destruct (call_backend _ _ _ x) as [res x']. destruct Hcall. auto.
  - rewrite bind_run. destruct (decode_content text) as [data|e]; cbn [lift].
    2: { split; [by eexists|left; apply undisturbed_refl]. }
    pose proof (call_refused (environ w) target (upload_file path data overwrite) file_receipt_to_dict x
      (upload_refused uninjected _ path data overwrite Henv) Hok Hg) as Hcall.
    destruct (call_backend _ _ _ x) as [res x']. destruct Hcall. auto.
Qed.
End Permissions.

(** ** On the small host *)
#[export] Instance small_host_laws : HostLaws small_host UdpSafety.script small_kernel.
Proof. by split. Qed.

(** A process that injects no backend. *)
Definition nothing {A} : stateful Empty_set A := fun b => match b with end.

#[export] Instance no_backend : Backend Empty_set := {|
  get_status := nothing; get_capabilities := nothing; capture_screen := nothing;
  capture_graphics := nothing; send_keys _ _ _ _ := nothing; download_file _ := nothing;
  upload_file _ _ _ := nothing; close := nothing |}.

(** Downloads are permitted on [moving_host], uploads are not. *)
Lemma file_tools_need_permission_witness :
  let x : BackendRuntime small_host (backend_object Empty_set UdpSafety.script small_kernel) :=
    foldl (fun x e => run_event e x) (new_runtime moving_host None) moving_events in
  let '(res, x') := run_tool (upload_file_tool (py "A.TXT") (py "YWI=") true None) x in
  res = raise PermissionError (py "DOS file uploads are disabled by bridge policy") /\
  (undisturbed x x' \/ undisturbed (prepare x).2 x').
Proof.
  intros x.
  assert (Henv : environ moving_host WRITE <> Some (py "1")) by (vm_compute; discriminate).
  pose proof (file_tools_need_permission (N:=UdpSafety.script) (K:=small_kernel) moving_host moving_events
    (upload_file_tool (py "A.TXT") (py "YWI=") true None) WRITE
    (fun b : Empty_set => match b with end) eq_refl Henv) as Ht.
  fold x in Ht. cbv zeta in Ht.
  assert (Hres : (run_tool (upload_file_tool (py "A.TXT") (py "YWI=") true None) x).1 =
    raise PermissionError (py "DOS file uploads are disabled by bridge policy")) by (vm_compute; reflexivity).
  destruct (run_tool _ x) as [res x']. split; [exact Hres|exact (proj2 Ht)].
Defined.
