(* ===== verification/Configured.v ===== *)
(** * The table of targets a configuration means

    A table of names and endpoints, written as a JSON object, comes back from
    [json.loads] and ends up in the runtime as it was: the targets a bridge knows
    are those of its environment, no more and no others. *)
From Stdlib Require Import Floats.SpecFloat.
From S2P Require Import Prelude PyFloat PyText PyStr Json JsonFuel Crypto State Value Backend Discovery Files Runtime SmallKernel RuntimeSafety.
From S2P Require UdpBackend Linux UdpSafety.

(** ** Writing a table *)
Definition json_char (c : Z) : pystr :=
  if c =? 34 then [92; 34] else if c =? 92 then [92; 92]
  else if c <? 0x20 then py "\u00" ++ hex_digits 2 c else [c].
Definition json_quote (s : pystr) : pystr := 34 :: concat (json_char <$> s) ++ [34].

Definition endpoint (a : Address) : pystr := a.1 ++ 58 :: py_int a.2.
Definition member_text (m : pystr * pystr) : pystr := json_quote m.1 ++ 58 :: 32 :: json_quote m.2.
Definition members_text (l : list (pystr * pystr)) : pystr := join (py ", ") (member_text <$> l).
Definition object_text (l : list (pystr * pystr)) : pystr := 123 :: members_text l ++ [125].

(** Any string of code points, the strings of a table with distinct names. *)
Definition characters (s : pystr) : Prop := Forall (fun c => 0 <= c) s.

(** ** Reading it back *)
Lemma control_char c : 0 <= c < 0x20 -> exists a b,
  hex_digits 2 c = [a; b] /\ forall rest, read_unicode (48 :: 48 :: a :: b :: rest) = Some (c, rest).
Proof.
  intros Hc. assert (Hin : c ∈ seqZ 0 32) by (apply elem_of_seqZ; lia).
  vm_compute in Hin. repeat (apply elem_of_cons in Hin as [->|Hin]; [do 2 eexists; split; [reflexivity|done]|]).
  by apply elem_of_nil in Hin.
Qed.

Lemma scan_plain fuel c s :
  c <> 34 -> c <> 92 -> 0x20 <= c ->
  scan_string (S fuel) (c :: s) = (r ← scan_string fuel s; Ok (c :: r.1, r.2)).
Proof.
  intros H1 H2 H3. cbn [scan_string]. apply Z.eqb_neq in H1 as ->, H2 as ->.
  by replace (c <=? 0x1F) with false by lia.
Qed.

Lemma scan_unicode fuel s :
  scan_string (S fuel) (92 :: 117 :: s) =
    match read_unicode s with
    | None => json_error "Invalid \uXXXX escape"
    | Some (u, s) => r ← scan_string fuel s; Ok (u :: r.1, r.2)
    end.
Proof. done. Qed.

Lemma scan_quoted s rest fuel :
  characters s -> (length (concat (json_char <$> s)) < fuel)%nat ->
  scan_string fuel (concat (json_char <$> s) ++ 34 :: rest) = Ok (s, rest).
Proof.
  intros Hs. revert fuel. induction Hs as [|c s Hc _ IH]; intros [|fuel] Hf; [lia|done|lia|].
  rewrite fmap_cons in *. cbn [concat] in *. rewrite length_app in Hf.
  rewrite <- app_assoc. unfold json_char at 1. unfold json_char in Hf at 1.
  destruct (Z.eqb_spec c 34) as [->|H34].
  { cbn in Hf. cbn. by rewrite IH by lia. }
  destruct (Z.eqb_spec c 92) as [->|H92].
  { cbn in Hf. cbn. by rewrite IH by lia. }
  destruct (Z.ltb_spec c 0x20) as [Hlt|Hge].
  - destruct (control_char c) as (a & b & E & Hu); [lia|]. rewrite E in *.
    change (py "\u00" ++ [a; b]) with [92; 117; 48; 48; a; b] in *. cbn [app length] in *.
    rewrite scan_unicode, Hu. by rewrite IH by lia.
  - cbn in Hf. cbn [app]. rewrite scan_plain by lia. by rewrite IH by lia.
Qed.

Lemma scan_key s rest :
  characters s ->
  exists t, expect 34 (json_quote s ++ rest) = Some t /\ scan_string (length t) t = Ok (s, rest).
Proof.
  intros Hs. exists (concat (json_char <$> s) ++ 34 :: rest). split.
  - apply expect_Some. unfold json_quote. cbn [app]. by rewrite <- app_assoc.
  - apply scan_quoted; [done|]. rewrite length_app. cbn [length]. lia.
Qed.

Lemma scan_quoted_value fuel s rest :
  characters s -> scan_value (S fuel) (json_quote s ++ rest) = Ok (JString s, rest).
Proof.
  intros Hs. destruct (scan_key s rest Hs) as (t & Ht & Hscan).
  by rewrite scan_value_step, Ht, Hscan.
Qed.

Lemma object_set_new k v d : k ∉ d.*1 -> object_set k v d = d ++ [(k, v)].
Proof.
  induction d as [|[k' v'] d IH]; csimpl; [done|]. intros [Hne Hn]%not_elem_of_cons.
  rewrite decide_False by congruence. by rewrite IH.
Qed.

Lemma skip_space s : skip_ws (32 :: s) = skip_ws s.
Proof. done. Qed.
Lemma skip_quote s rest : skip_ws (json_quote s ++ rest) = json_quote s ++ rest.
Proof. done. Qed.

Definition strings_ok (l : list (pystr * pystr)) : Prop :=
  Forall (fun m => characters m.1 /\ characters m.2) l /\ NoDup l.*1.
Definition members_value (l : list (pystr * pystr)) : list (pystr * json) :=
  (fun m => (m.1, JString m.2)) <$> l.

Lemma members_text_one m : members_text [m] = json_quote m.1 ++ [58; 32] ++ json_quote m.2.
Proof. done. Qed.
Lemma members_text_cons m m' l :
  members_text (m :: m' :: l) =
    (json_quote m.1 ++ [58; 32] ++ json_quote m.2) ++ [44; 32] ++ members_text (m' :: l).
Proof. done. Qed.
(** The text of a member opens with a quote. *)
Lemma members_text_start m l s : exists t, members_text (m :: l) ++ s = 34 :: t.
Proof. destruct l; [rewrite members_text_one|rewrite members_text_cons]; eexists; reflexivity. Qed.

Lemma scan_members_text l : forall fuel d rest,
  l <> [] -> (length l < fuel)%nat -> Forall (fun m => characters m.1 /\ characters m.2) l ->
  NoDup (d.*1 ++ l.*1) ->
  scan_members fuel (members_text l ++ 125 :: rest) d = Ok (JObject (d ++ members_value l), rest).
Proof.
  induction l as [|m l IH]; intros fuel d rest Hne Hf Hc Hd; [done|].
  destruct fuel as [|[|fuel]]; cbn [length] in Hf; [lia|lia|].
  apply Forall_cons in Hc as [[Hk Hv] Hc].
  set (tail := match l with [] => 125 :: rest | _ => 44 :: 32 :: members_text l ++ 125 :: rest end).
  assert (E : members_text (m :: l) ++ 125 :: rest = json_quote m.1 ++ 58 :: 32 :: json_quote m.2 ++ tail).
  { subst tail. destruct l; [rewrite members_text_one|rewrite members_text_cons]; cbn [app]; by rewrite <- !app_assoc. }
  rewrite E, scan_members_step. destruct (scan_key m.1 (58 :: 32 :: json_quote m.2 ++ tail) Hk) as (t & -> & ->).
  cbn [mbind result_bind fst snd]. rewrite (proj2 (expect_Some 58 _ (32 :: json_quote m.2 ++ tail))) by done.
  rewrite skip_space, skip_quote, scan_quoted_value by done. cbn [mbind result_bind fst snd].
  rewrite object_set_new; [|intros Hin; apply NoDup_app in Hd as (_ & Hn & _); apply (Hn _ Hin); left].
  subst tail. destruct l as [|m' l]; [done|].
  replace (d ++ members_value (m :: m' :: l))
    with ((d ++ [(m.1, JString m.2)]) ++ members_value (m' :: l)) by by rewrite <- (assoc_L (++)).
  change (expect 125 (skip_ws (44 :: 32 :: members_text (m' :: l) ++ 125 :: rest))) with (@None pystr).
  change (expect 44 (skip_ws (44 :: 32 :: members_text (m' :: l) ++ 125 :: rest)))
    with (Some (32 :: members_text (m' :: l) ++ 125 :: rest)). cbv iota.
  replace (skip_ws (32 :: members_text (m' :: l) ++ 125 :: rest)) with (members_text (m' :: l) ++ 125 :: rest)
    by by destruct (members_text_start m' l (125 :: rest)) as [t1 ->].
  apply IH; [done|cbn in *; lia|done|].
  rewrite fmap_app. cbn. rewrite <- (assoc_L (++)). exact Hd.
Qed.

Lemma length_members_text l : (length l <= length (members_text l))%nat.
Proof.
  induction l as [|m [|m' l] IH]; [cbn; lia|rewrite members_text_one|rewrite members_text_cons];
    unfold json_quote; rewrite !length_app; cbn [length] in *; lia.
Qed.

(** A table written as an object is read back. *)
Lemma json_table_text l :
  strings_ok l -> json_loads (object_text l) = Ok (JObject (members_value l)).
Proof.
  intros [Hc Hd]. unfold json_loads, object_text. rewrite raise_if_false by done. cbn [mbind result_bind].
  change (skip_ws (123 :: members_text l ++ [125])) with (123 :: members_text l ++ [125]).
  rewrite Nat.add_comm. cbn [Nat.add]. rewrite scan_value_step.
  change (expect 34 (123 :: members_text l ++ [125])) with (@None pystr).
  change (expect 123 (123 :: members_text l ++ [125])) with (Some (members_text l ++ [125])). cbv iota.
  destruct l as [|m l]; [done|].
  assert (Hskip : skip_ws (members_text (m :: l) ++ [125]) = members_text (m :: l) ++ [125]).
  { by destruct (members_text_start m l [125]) as [t ->]. }
  assert (He : expect 125 (members_text (m :: l) ++ [125]) = None).
  { by destruct (members_text_start m l [125]) as [t ->]. }
  rewrite Hskip, He, scan_members_text; [done|done| |done|by rewrite fmap_nil].
  pose proof (length_members_text (m :: l)). cbn [length]. rewrite length_app. cbn [length] in *. lia.
Qed.

(** ** Endpoints *)

(** A host that is not empty and a port of the wire. *)
Definition address_ok (a : Address) : Prop := a.1 <> [] /\ 1 <= a.2 <= 0xFFFF.

Lemma port_text p :
  1 <= p <= 0xFFFF -> int_of_str (py_int p) = Ok p /\ (58 ∉ py_int p) /\ characters (py_int p).
Proof.
  intros Hp. split; [apply int_of_py_int; lia|].
  destruct (py_int_digits 9 p) as (ds & -> & Hd & _); [lia|done|]. split.
  - intros Hin. rewrite Forall_forall in Hd. apply Hd in Hin. unfold ascii_digit in Hin. lia.
  - eapply Forall_impl; [exact Hd|]. unfold ascii_digit. lia.
Qed.

(** An endpoint is read back as it was written: the host may hold colons itself. *)
Lemma parse_endpoint_text a : address_ok a -> _parse_endpoint (endpoint a) = Ok a.
Proof.
  destruct a as [host port]. intros [Hh Hp]. cbn [fst snd] in *. destruct (port_text port Hp) as (Hint & Hcolon & _).
  unfold _parse_endpoint, endpoint. cbn [fst snd].
  rewrite (proj2 (rpartition_Some 58 _ host (py_int port))) by done.
  rewrite raise_if_false by by apply bool_decide_eq_false_2. cbn [mbind result_bind]. rewrite Hint. cbn [mbind result_bind].
  rewrite raise_if_false; [done|]. apply negb_false_iff, andb_true_iff. split; apply Z.leb_le; lia.
Qed.

(** ** The runtime after its configuration *)

(** A table of targets: every name once and not empty, every endpoint well formed. *)
Definition table := list (pystr * Address).
Definition table_ok (t : table) : Prop :=
  NoDup t.*1 /\ Forall (fun m => m.1 <> [] /\ characters m.1 /\ characters m.2.1 /\ address_ok m.2) t.
Definition table_text (t : table) : pystr := object_text (prod_map id endpoint <$> t).

Lemma table_strings_ok t : table_ok t -> strings_ok (prod_map id endpoint <$> t).
Proof.
  intros [Hd Ht]. split.
  - apply Forall_fmap. eapply Forall_impl; [exact Ht|]. intros [n [h p]] (_ & Hn & Hh & _ & Hp). cbn in *.
    split; [done|]. apply Forall_app. split; [done|]. constructor; [lia|]. by apply port_text.
  - rewrite <- list_fmap_compose. exact Hd.
Qed.

Section Configured.
Context {W I N K : Type} `{Host W N K} `{Backend I} `{UdpBackend.Network N} `{Files K} `{Linux.Shell K}.
Local Abbreviation B := (backend_object I N K).
Local Abbreviation R := (BackendRuntime W B).

(** The record of a target of the table, not connected yet. *)
Definition static_record (name : pystr) (a : Address) : TargetRecord B :=
  mkRecord name name (py "static") (Some a) None None None.
Definition static_records (t : table) : sdict (TargetRecord B) :=
  (fun m => (m.1, static_record m.1 m.2)) <$> t.

Lemma add_static_run name a (x : R) :
  address_ok a ->
  _add_static name (endpoint a) x = (Ok tt, set_records (sdict_set name (static_record name a) (records x)) x).
Proof. intros Ha. unfold _add_static. rewrite bind_run, parse_endpoint_text by done. done. Qed.

Lemma static_records_names t : (static_records t).*1 = t.*1.
Proof. unfold static_records. by rewrite <- list_fmap_compose. Qed.

Lemma add_table t : forall (x : R),
  Forall (fun m => m.1 <> [] /\ characters m.1 /\ characters m.2.1 /\ address_ok m.2) t ->
  NoDup ((records x).*1 ++ t.*1) ->
  each add_one_static (members_value (prod_map id endpoint <$> t)) x
  = (Ok tt, set_records (records x ++ static_records t) x).
Proof.
  induction t as [|[name a] t IH]; intros x Ht Hd.
  { cbn. rewrite app_nil_r. by destruct x. }
  apply Forall_cons in Ht as [(Hn & _ & _ & Ha) Ht]. cbn [fst snd] in *.
  assert (Hnew : name ∉ (records x).*1).
  { apply NoDup_app in Hd as (_ & Hd & _). intros Hin. apply (Hd _ Hin). left. }
  assert (E : add_one_static (name, JString (endpoint a)) x
              = (Ok tt, set_records (records x ++ [(name, static_record name a)]) x)).
  { destruct name as [|c name]; [done|]. cbn [add_one_static]. rewrite bind_run. cbn [gets].
    rewrite bind_run. apply sdict_get_None in Hnew as Hg. rewrite Hg. cbn [lift raise_if bool_decide].
    rewrite raise_if_false by by apply bool_decide_eq_false_2; intros [? [=]].
    rewrite add_static_run by done. by rewrite sdict_set_new by done. }
  change (members_value (prod_map id endpoint <$> ((name, a) :: t)))
    with ((name, JString (endpoint a)) :: members_value (prod_map id endpoint <$> t)).
  cbn [each]. rewrite bind_run, E, IH; [|done|].
  - cbn [records set_records]. by rewrite <- (assoc_L (++)).
  - cbn [records set_records]. rewrite fmap_app, <- (assoc_L (++)). exact Hd.
Qed.

(** C8. The targets of a new bridge are those of its environment: when
    [DOS_MCP_TARGETS] is the text of a table and no single target or discovery is
    asked for, configuring succeeds and leaves exactly one static, unconnected record
    for each name of the table, in its order and with its address, next to the key
    and the two permissions of the environment. *)
Theorem configured_table (w : W) t k read write :
  environ w (py "DOS_MCP_TARGETS") = Some (table_text t) -> t <> [] -> table_ok t ->
  truthy (environ w (py "DOS_MCP_TARGET")) = None ->
  _enabled (environ w) (py "DOS_MCP_ALLOW_FILE_READ") = Ok read ->
  _enabled (environ w) (py "DOS_MCP_ALLOW_FILE_WRITE") = Ok write ->
  _enabled (environ w) (py "DOS_MCP_DISCOVERY") = Ok false ->
  _credential_key (environ w) = Ok k ->
  _configure (new_runtime w None : R)
  = (Ok tt, mkRuntime w (static_records t) true (Some k) read write None []).
Proof.
  intros Ht Hne Hok Hs Hr Hw Hdisc Hk.
  assert (Hj : parse_targets (table_text t) = Ok (JObject (members_value (prod_map id endpoint <$> t)))).
  { unfold parse_targets, table_text. by rewrite json_table_text by by apply table_strings_ok. }
  assert (Htext : truthy (Some (table_text t)) = Some (table_text t)) by done.
  unfold _configure, env. rewrite bind_run. cbn [get configured new_runtime world].
  rewrite bool_decide_eq_false_2 by by intros [? ?].
  change (fun name : pystr => environ w name) with (environ w).
  rewrite Hs, Ht, Htext, Hr, Hw, Hdisc, Hk. cbv zeta.
  rewrite !(bool_decide_eq_false_2 (is_Some None)) by by intros [? ?].
  rewrite !(bool_decide_eq_true_2 (is_Some (Some _))) by done. cbn [andb orb].
  do 9 (rewrite bind_run; cbn [modify lift raise_if mret stateful_ret]).
  unfold _add_static_targets. rewrite ret_bind_run, !bind_run, Hj. cbn [lift].
  destruct Hok as [Hd Hok]. destruct t as [|m t]; [done|].
  change (members_value (prod_map id endpoint <$> (m :: t)))
    with ((m.1, JString (endpoint m.2)) :: members_value (prod_map id endpoint <$> t)). cbv iota.
  change ((m.1, JString (endpoint m.2)) :: members_value (prod_map id endpoint <$> t))
    with (members_value (prod_map id endpoint <$> (m :: t))).
  rewrite add_table by done. done.
Qed.
End Configured.

(** ** Two machines, one with a quote in its name and colons in its host *)
Definition two_machines : table :=
  [(py "LAB", (py "10.0.0.7", 21331)); (py "desk " ++ [34; 92; 10], (py "fe80::1", 65535))].
Definition two_machines_host : small_host :=
  mkHost [(py "DOS_MCP_TARGETS", table_text two_machines); (py "DOS_MCP_TARGET", []);
          (py "DOS_MCP_PASSWORD", py "secret"); (py "DOS_MCP_ALLOW_FILE_READ", py "1")] [] 0.

Lemma configured_table_witness : exists k,
  _configure (new_runtime two_machines_host None
    : BackendRuntime small_host (backend_object (UdpBackend.UdpBackend UdpSafety.script) UdpSafety.script small_kernel))
  = (Ok tt, mkRuntime two_machines_host (static_records two_machines) true (Some k) true false None []).
Proof.
  destruct (_credential_key (environ two_machines_host)) as [k|e] eqn:Hk; [|vm_compute in Hk; discriminate Hk].
  exists k. apply (configured_table two_machines_host two_machines k true false).
  - vm_compute. reflexivity.
  - discriminate.
  - split; [apply (bool_decide_eq_true_1 (NoDup _)); vm_compute; reflexivity|].
    repeat constructor; cbn; solve [discriminate | lia].
  - vm_compute. reflexivity.
  - vm_compute. reflexivity.
  - vm_compute. reflexivity.
  - vm_compute. reflexivity.
  - exact Hk.
Defined.
