(* ===== verification/Session.v ===== *)
(** * The life of the bridge's server

    [create_server] with the calls it is given, and the closing at exit.  A runtime
    owns either one backend in this process (injected, or the local terminal) and
    nothing else, or clients of agents and perhaps a discovery socket.  A client whose
    agent has moved is closed before its record lets go of it, so the closing at exit,
    which stops at the first backend that raises, leaves no client's socket open. *)
From Stdlib Require Import Floats.SpecFloat.
From S2P Require Import Prelude PyFloat PyText PyStr Json Crypto Base64 State Value Backend Discovery Files.
From S2P Require Import UdpBackend SmallKernel Runtime Server RuntimeSafety Configured.
From S2P Require Linux LinuxFiles LinuxShell UdpSafety.

Section Session.
Context {W I N K : Type} `{Host W N K} `{Backend I} `{UdpBackend.Network N} `{Files K} `{Linux.Shell K}.
Local Abbreviation B := (backend_object I N K).
Local Abbreviation M := (stateful (BackendRuntime W B)).
Implicit Types (x : BackendRuntime W B) (r : TargetRecord B).

(** [create_server]: the runtime, around an injected backend if one is given. *)
Definition create_server (w : W) (backend : option I) : BackendRuntime W B :=
  new_runtime w (Injected <$> backend).

(** The calls, one after another: what each returned or raised.  A call that never ends
    is the last. *)
Fixpoint serve_calls (calls : list tool_call) x : list (result (sdict value)) * BackendRuntime W B :=
  match calls with
  | [] => ([], x)
  | c :: calls =>
      let '(r, x) := run_tool c x in
      if ends_in r then
        let '(rs, x) := serve_calls calls x in
        (r :: rs, x)
      else ([r], x)
  end.

(** The calls and then [runtime.close], registered to run at exit; without an exit,
    there is no closing. *)
Definition session (calls : list tool_call) x :
    list (result (sdict value)) * option (result unit) * BackendRuntime W B :=
  let '(rs, x) := serve_calls calls x in
  if forallb ends_in rs then
    let '(r, x) := runtime_close x in
    (rs, Some r, x)
  else (rs, None, x).

(** ** What a runtime owns *)
Definition is_client (o : option B) : bool :=
  match o with None | Some (Udp _) => true | _ => false end.

Definition clients_only (d : sdict (TargetRecord B)) : Prop := Forall (fun p => is_client (backend p.2) = true) d.

(** A client with its socket closed. *)
Definition closed_object (o : B) : Prop := exists u, o = Udp u /\ _closed u = true.

(** No object was let go of with an open socket. *)
Definition tidy x : Prop := Forall closed_object (dropped x).

(** Clients of agents only. *)
Definition networked x : Prop := clients_only (records x) /\ configured x = true /\ tidy x.

(** One backend of this process, and nothing to listen to. *)
Definition single x : Prop :=
  configured x = true /\ discovery x = None /\ dropped x = [] /\
  exists sel r, records x = [(sel, r)] /\ is_client (backend r) = false.

(** Before the first call of a bridge without a backend. *)
Definition unused x : Prop := configured x = false /\ records x = [] /\ discovery x = None /\ dropped x = [].

Lemma set_clients sel r d : clients_only d -> is_client (backend r) = true -> clients_only (sdict_set sel r d).
Proof.
  intros Hd Hr. induction Hd as [|[k v] d Hv Hd IH]; cbn [sdict_set]; [by repeat constructor|].
  case_decide; by constructor.
Qed.

Lemma get_client sel r d : clients_only d -> sdict_get sel d = Some r -> is_client (backend r) = true.
Proof.
  induction 1 as [|[k v] d Hv Hd IH]; cbn [sdict_get]; [done|]. case_decide; [by intros [= <-]|done].
Qed.

Lemma dispatch_client {A} (op : forall B, Backend B -> stateful B A) (o : B) :
  is_client (Some (dispatch op o).2) = is_client (Some o).
Proof. destruct o; cbn [dispatch]; by destruct (op _ _ _). Qed.

(** *** Clients stay clients *)
Local Abbreviation keeps_clients := (preserves networked).
Create HintDb clients discriminated.

Lemma modify_clients f :
  (forall x, records (f x) = records x /\ (configured x = true -> configured (f x) = true) /\ dropped (f x) = dropped x) ->
  keeps_clients (modify f).
Proof.
  intros Hf x (Hx & Hc & Ht). destruct (Hf x) as (Hr & Hc' & Hd). unfold networked, tidy. cbn.
  rewrite Hr, Hd. split_and!; auto.
Qed.

Lemma modify_set_clients sel (f : BackendRuntime W B -> TargetRecord B) :
  (forall x, is_client (backend (f x)) = true) ->
  keeps_clients (modify (fun x => set_records (sdict_set sel (f x) (records x)) x)).
Proof. intros Hf x [Hx Hc]. split; [|exact Hc]. by apply set_clients. Qed.

Lemma in_world_clients {A} (m : stateful W A) : keeps_clients (in_world m).
Proof. intros x Hx. unfold in_world. by destruct (m (world x)). Qed.

Lemma drain_clients l : keeps_clients (drain_announcements l).
Proof. intros x Hx. unfold drain_announcements. by destruct (drain (l, world x)) as [? [? ?]]. Qed.

Lemma update_clients sel f :
  (forall r, is_client (backend r) = true -> is_client (backend (f r)) = true) -> keeps_clients (update_record sel f).
Proof.
  intros Hf x [Hx Hc]. unfold update_record, modify. cbn [snd].
  destruct (sdict_get sel (records x)) as [r|] eqn:Eg; [|done].
  split; [|exact Hc]. apply set_clients; [done|]. by eapply Hf, get_client.
Qed.

Lemma on_object_clients {A} sel (op : forall B, Backend B -> stateful B A) : keeps_clients (on_backend sel (dispatch op)).
Proof.
  intros x Hx. unfold on_backend. destruct (sdict_get sel (records x)) as [r|] eqn:Eg; [|done].
  destruct (backend r) as [o|] eqn:Eb; [|done]. pose proof (dispatch_client op o) as Ho.
  destruct (dispatch op o) as [res o']. cbn [snd] in *. destruct Hx as [Hx Hc]. split; [|exact Hc].
  apply set_clients; [done|]. cbn [set_backend backend]. rewrite Ho, <- Eb. by eapply get_client.
Qed.

(** *** Closing a client *)
Definition closed_client r : Prop := forall u, backend r = Some (Udp u) -> _closed u = true.

Lemma close_client sel x : networked x -> exists d,
  close_backend sel x = (Ok tt, set_records d x) /\ clients_only d /\
  forall s r, sdict_get s d = Some r -> (s = sel -> closed_client r) /\ (s <> sel -> sdict_get s (records x) = Some r).
Proof.
  intros (Hx & Hc & _). unfold close_backend. assert (Hsame : x = set_records (records x) x) by by destruct x.
  destruct (sdict_get sel (records x)) as [r|] eqn:Eg.
  2: { exists (records x). split; [by rewrite <- Hsame|]. split; [done|]. intros s r' Hg. split; [|done].
       intros ->. by rewrite Eg in Hg. }
  pose proof (get_client _ _ _ Hx Eg) as Hr. destruct (backend r) as [o|] eqn:Eb.
  2: { exists (records x). split; [by rewrite <- Hsame|]. split; [done|]. intros s r' Hg. split; [|done].
       intros -> u Hu. rewrite Eg in Hg. injection Hg as <-. by rewrite Eb in Hu. }
  destruct o as [b|u|l]; [done| |done]. cbn [close object_backend dispatch].
  assert (Hclose : exists u', close u = (Ok tt, u') /\ _closed u' = true).
  { cbn [close udp_backend]. unfold udp_close. rewrite bind_run. cbn [gets].
    destruct (_closed u) eqn:Ec; by eexists. }
  destruct Hclose as (u' & -> & Hu'). eexists. split; [done|]. split; [by apply set_clients|].
  intros s r' Hg. rewrite sdict_get_set in Hg. case_decide as Hs.
  - injection Hg as <-. split; [|by intros []]. intros _ v Hv. cbn in Hv. by injection Hv as <-.
  - by split.
Qed.

(** A record lets go of a client only after closing it. *)
Lemma close_drop_clients sel : keeps_clients (close_backend sel;; drop_backend sel).
Proof.
  intros x Hx. rewrite bind_run. destruct (close_client sel x Hx) as (d & E & Hd & Hall). rewrite E.
  destruct Hx as (_ & Hc & Ht). unfold drop_backend. cbn [modify snd records set_records].
  destruct (sdict_get sel d) as [r|] eqn:Eg; [|done].
  split_and!; [by apply set_clients|done|]. unfold tidy. cbn. apply Forall_app. split; [done|].
  pose proof (proj1 (Hall sel r Eg) eq_refl) as Hclosed. pose proof (get_client sel r d Hd Eg) as Hk.
  destruct (backend r) as [o|] eqn:Eb; cbn; [|done]. apply Forall_singleton.
  destruct o as [o|u|o]; [done| |done]. exists u. split; [done|]. by apply Hclosed.
Qed.

Lemma close_clients sel : keeps_clients (close_backend sel).
Proof.
  intros x Hx. pose proof (on_object_clients sel (fun B _ => close) x Hx) as Hc. revert Hc.
  unfold on_backend, close_backend. destruct (sdict_get sel (records x)) as [r|]; [|done].
  destruct (backend r) as [o|]; [|done].
  change (close o) with (dispatch (fun B _ => close) o). by destruct (dispatch _ o).
Qed.
#[local] Hint Resolve in_world_clients drain_clients close_clients close_drop_clients on_object_clients : clients.

Ltac clients_step :=
  match goal with
  | |- keeps_clients (_ ≫= _) => apply preserves_bind; [|intros _ ? _ _ _]
  | |- keeps_clients (mret _) => apply preserves_ret
  | |- keeps_clients (lift _) => apply preserves_lift
  | |- keeps_clients (fail _) => apply preserves_fail
  | |- keeps_clients (gets _) => apply preserves_gets
  | |- keeps_clients get => by intros ?
  | |- keeps_clients (modify _) => first [apply modify_set_clients; by intros ? | apply modify_clients; intros ?; split_and!; done]
  | |- keeps_clients (update_record _ _) => apply update_clients; intros ? ?; cbn [backend set_backend]; done
  | |- keeps_clients (each _ _) => apply preserves_each; intros ? _
  | |- keeps_clients (if ?c then _ else _) => destruct c
  | |- keeps_clients (match ?x with _ => _ end) => destruct x
  end.
Ltac solve_clients := cbv zeta; repeat first [progress eauto with clients | clients_step].

Lemma refresh_clients : keeps_clients _refresh_discovery.
Proof. unfold _refresh_discovery, record_discovered. solve_clients. Qed.
Lemma connect_clients a k read write : keeps_clients (connect a k read write).
Proof. unfold connect. solve_clients. Qed.
Lemma add_static_clients name endpoint : keeps_clients (_add_static name endpoint).
Proof. unfold _add_static. solve_clients. Qed.
#[local] Hint Resolve refresh_clients connect_clients add_static_clients : clients.
Lemma add_targets_clients value : keeps_clients (_add_static_targets value).
Proof. unfold _add_static_targets, add_one_static. solve_clients. Qed.
Lemma start_discovery_clients : keeps_clients start_discovery.
Proof. unfold start_discovery. solve_clients. Qed.
#[local] Hint Resolve add_targets_clients start_discovery_clients : clients.

Lemma configured_idle x : configured x = true -> _configure x = (Ok tt, x).
Proof. intros Hc. unfold _configure. rewrite bind_run. cbn [get]. by rewrite Hc. Qed.

Lemma configure_clients : keeps_clients _configure.
Proof. intros x Hx. by rewrite configured_idle by apply Hx. Qed.
#[local] Hint Resolve configure_clients : clients.

Lemma runtime_get_clients target : keeps_clients (runtime_get target).
Proof. unfold runtime_get. solve_clients. Qed.
#[local] Hint Resolve runtime_get_clients : clients.

Lemma call_backend_clients {A} target (op : forall B, Backend B -> stateful B A) to_dict :
  keeps_clients (call_backend target (dispatch op) to_dict).
Proof. unfold call_backend. solve_clients. Qed.

Lemma run_tool_clients c : keeps_clients (run_tool c).
Proof.
  destruct c; cbn [run_tool]; try apply call_backend_clients; [unfold list_targets; solve_clients|].
  apply preserves_bind_lift. intros data _. apply call_backend_clients.
Qed.

(** *** The first configuration *)
Definition settled x : Prop := single x \/ networked x.

(** While the settings are read, nothing is known yet. *)
Definition empty x : Prop := configured x = true /\ records x = [] /\ discovery x = None /\ dropped x = [].

Lemma empty_networked x : empty x -> networked x.
Proof. intros (Hc & Hr & _ & Hd). split_and!; [rewrite Hr; constructor|done|unfold tidy; rewrite Hd; constructor]. Qed.

Lemma empty_settled x : empty x -> settled x.
Proof. intros Hx. right. by apply empty_networked. Qed.

Lemma empty_bind {A C} (m : M A) (f : A -> M C) x :
  empty x -> empty (m x).2 -> (forall a y, empty y -> settled (f a y).2) -> settled ((m ≫= f) x).2.
Proof.
  intros Hx Hm Hf. rewrite bind_run. destruct (m x) as [[a|e] y]; [by apply Hf|by apply empty_settled].
Qed.

Lemma add_local_single x : empty x -> settled (add_local x).2.
Proof.
  intros Hx. pose proof Hx as (Hc & Hr & Hd & Ht). unfold add_local. rewrite bind_run. cbn [get]. rewrite bind_run. unfold in_world.
  destruct (getcwd (world x)) as [[cwd|e] w]; [|apply empty_settled; by split_and!].
  rewrite bind_run. cbn [lift]. destruct (Linux.new_linux _ _ _ _ _ _ _).1 as [l|e];
    [|apply empty_settled; by split_and!].
  left. split_and!; [done..|]. do 2 eexists. cbn. rewrite Hr. split; reflexivity.
Qed.

Lemma configure_settled x : unused x -> settled (_configure x).2.
Proof.
  intros (Hc & Hr & Hd & Ht). unfold _configure. rewrite bind_run. cbn [get]. rewrite Hc, bind_run. cbn [modify].
  assert (Hx : empty (set_configured x)) by done. revert Hx. generalize (set_configured x) as y. intros y Hy. cbv zeta.
  apply empty_bind; [done..|]. intros read y1 Hy1. apply empty_bind; [done..|]. intros _ y2 Hy2.
  apply empty_bind; [done..|]. intros write y3 Hy3. apply empty_bind; [done..|]. intros _ y4 Hy4.
  apply empty_bind; [done..|]. intros discover y5 Hy5. apply empty_bind; [done..|]. intros _ y6 Hy6.
  case_match; [|by apply add_local_single].
  assert (Hn : networked y6) by by apply empty_networked.
  right. revert y6 Hy6 Hn.
  match goal with |- forall y, _ -> _ -> networked (?m y).2 =>
    enough (Hm : keeps_clients m) by (intros y6 _ Hn; exact (Hm y6 Hn)) end.
  solve_clients.
Qed.

(** *** One backend stays one backend *)
Lemma single_on_object {A} sel (op : forall B, Backend B -> stateful B A) x :
  single x -> single (on_backend sel (dispatch op) x).2.
Proof.
  intros Hx. pose proof Hx as (Hc & Hd & Ht & s & r & Hr & Ho). unfold on_backend. rewrite Hr. cbn [sdict_get].
  case_decide as Hs; [|done]. subst s. destruct (backend r) as [o|] eqn:Eb; [|done].
  pose proof (dispatch_client op o) as Hk. destruct (dispatch op o) as [res o']. cbn [snd] in *.
  split_and!; [done..|]. exists sel, (set_backend (Some o') r). cbn [records set_records sdict_set].
  rewrite decide_True by done. split; [done|]. cbn [set_backend backend]. by rewrite Hk.
Qed.

Lemma single_get target x : single x -> (runtime_get target x).2 = x.
Proof.
  intros Hx. pose proof Hx as (Hc & Hd & Ht & s & r & Hr & Ho).
  unfold runtime_get. rewrite bind_run, configured_idle by done. rewrite bind_run.
  assert (Hf : _refresh_discovery x = (Ok tt, x)) by (unfold _refresh_discovery; rewrite bind_run; cbn [gets]; by rewrite Hd).
  rewrite Hf, bind_run. cbn [get]. rewrite bind_run. destruct (_resolve (records x) target) as [sel|e]; [|done]. cbn [lift].
  rewrite Hr. cbn [sdict_get]. case_decide; [|done]. by destruct (backend r).
Qed.

Lemma call_backend_single {A} target (op : forall B, Backend B -> stateful B A) to_dict x :
  single x -> single (call_backend target (dispatch op) to_dict x).2.
Proof.
  intros Hx. unfold call_backend. rewrite bind_run. pose proof (single_get target x Hx) as Hg.
  destruct (runtime_get target x) as [[sel|e] x1]; cbn [snd] in Hg; subst x1; [|done].
  rewrite bind_run. pose proof (single_on_object sel op x Hx) as Ho.
  by destruct (on_backend sel (dispatch op) x) as [[a|e] x2].
Qed.

Lemma list_targets_single x : single x -> single (list_targets x).2.
Proof.
  intros Hx. pose proof Hx as (Hc & Hd & _). unfold list_targets. rewrite bind_run, configured_idle by done.
  assert (Hf : _refresh_discovery x = (Ok tt, x)) by (unfold _refresh_discovery; rewrite bind_run; cbn [gets]; by rewrite Hd).
  rewrite bind_run, Hf, bind_run. cbn [gets]. unfold in_world. by destruct (records_to_dict _ _).
Qed.

Lemma run_tool_single c x : single x -> single (run_tool c x).2.
Proof.
  intros Hx. destruct c; cbn [run_tool]; try by apply call_backend_single.
  - rewrite bind_run. pose proof (list_targets_single x Hx) as Hl. by destruct (list_targets x) as [[ds|e] x1].
  - rewrite bind_run. destruct (decode_content content_base64) as [data|e]; cbn [lift]; [|done].
    by apply call_backend_single.
Qed.

(** *** Every state of a server *)
Definition reachable x : Prop := unused x \/ settled x.

Lemma settled_configured x : settled x -> configured x = true.
Proof. by intros [(Hc & _)|(_ & Hc & _)]. Qed.

(** The first call that needs the runtime configures it; a failure is its failure. *)
Lemma runtime_get_configures target x y : _configure x = (Ok tt, y) -> configured y = true ->
  runtime_get target x = runtime_get target y.
Proof. intros E Hy. unfold runtime_get. rewrite !(bind_run _configure), E. by rewrite configured_idle. Qed.

Lemma run_tool_reachable c x : reachable x -> reachable (run_tool c x).2.
Proof.
  intros [Hu|[Hs|Hn]]; [|by right; left; apply run_tool_single|by right; right; apply run_tool_clients].
  assert (Hdone : forall y, settled y -> settled (run_tool c y).2).
  { intros y [Hy|Hy]; [by left; apply run_tool_single|by right; apply run_tool_clients]. }
  pose proof (configure_settled x Hu) as Hy. destruct (_configure x) as [[[]|e] y] eqn:E; cbn [snd] in Hy.
  - pose proof (settled_configured y Hy) as Hc. specialize (Hdone y Hy).
    assert (Hcall : forall A t (op : stateful B A) f, call_backend t op f x = call_backend t op f y).
    { intros A t op f. unfold call_backend. by rewrite !(bind_run (runtime_get t)), (runtime_get_configures t x y). }
    destruct c; cbn [run_tool] in *; rewrite ?Hcall; try by right.
    + right. revert Hdone. unfold list_targets. rewrite !(bind_run (_configure ≫= _)), !(bind_run _configure), E.
      by rewrite configured_idle.
    + rewrite bind_run in Hdone |- *. destruct (decode_content content_base64) as [data|e]; [|by left].
      cbn [lift] in *. rewrite Hcall. by right.
  - assert (Hget : forall t, runtime_get t x = (Err e, y)) by (intros t; unfold runtime_get; by rewrite bind_run, E).
    assert (Hcall : forall A t (op : stateful B A) f, call_backend t op f x = (Err e, y)).
    { intros A t op f. unfold call_backend. by rewrite bind_run, Hget. }
    destruct c; cbn [run_tool]; rewrite ?Hcall; try by right.
    + rewrite bind_run. unfold list_targets. rewrite bind_run, E. by right.
    + rewrite bind_run. destruct (decode_content content_base64) as [data|e']; [|by left].
      cbn [lift]. rewrite Hcall. by right.
Qed.

Lemma serve_calls_reachable calls x :
  reachable x ->
  let '(rs, x') := serve_calls calls x in
  reachable x' /\
  if forallb ends_in rs then length rs = length calls
  else exists answered last, rs = answered ++ [last] /\ forallb ends_in answered = true /\ ends_in last = false.
Proof.
  revert x. induction calls as [|c calls IH]; intros x Hx; cbn [serve_calls]; [done|].
  pose proof (run_tool_reachable c x Hx) as Hx1. destruct (run_tool c x) as [r x1]. cbn [snd] in Hx1.
  destruct (ends_in r) eqn:Er.
  - specialize (IH x1 Hx1). destruct (serve_calls calls x1) as [rs x2]. destruct IH as [Hx2 Hrs].
    split; [done|]. cbn [forallb]. rewrite Er. cbn [andb]. destruct (forallb ends_in rs); [by cbn; rewrite Hrs|].
    destruct Hrs as (past & q & -> & Hpast & Hq). exists (r :: past), q. cbn. by rewrite Er.
  - split; [done|]. cbn [forallb]. rewrite Er. cbn [andb]. by exists [], r.
Qed.

Lemma create_server_reachable w (injected : option I) : reachable (create_server w injected).
Proof. destruct injected as [b|]; [right; left; by repeat eexists|by left]. Qed.

(** ** Closing *)
Lemma close_clients_each sels : forall x, networked x -> exists d,
  each close_backend sels x = (Ok tt, set_records d x) /\ clients_only d /\
  forall s r, sdict_get s d = Some r -> (s ∈ sels -> closed_client r) /\ (s ∉ sels -> sdict_get s (records x) = Some r).
Proof.
  induction sels as [|sel sels IH]; intros x Hx; cbn [each].
  { exists (records x). split; [by destruct x|]. split; [apply Hx|]. intros s r Hg. split; [|done].
    by intros Hin%elem_of_nil. }
  destruct (close_client sel x Hx) as (d & E & Hd & Hsel). rewrite bind_run, E.
  destruct (IH (set_records d x)) as (d' & E' & Hd' & Hall); [split; [done|apply Hx]|].
  exists d'. split; [by rewrite E'|]. split; [done|]. intros s r Hg. destruct (Hall s r Hg) as [Hin Hout].
  cbn [records set_records] in Hout. rewrite elem_of_cons. split.
  - intros Hs. destruct (decide (s ∈ sels)) as [Hi|Hi]; [by apply Hin|]. destruct Hs as [->|Hs]; [|done].
    by apply (Hsel sel r (Hout Hi)).
  - intros Hs. assert (Hi : s ∉ sels) by tauto. apply (Hsel s r (Hout Hi)). tauto.
Qed.

Lemma listener_closed_close (l : DiscoveryListener) : listener_closed (close_listener l) = true.
Proof. unfold close_listener. by destruct (listener_closed l) eqn:E. Qed.

(** The backend of this process, if the runtime has one. *)
Definition own_backend x : option (pystr * TargetRecord B) :=
  List.find (fun p => negb (is_client (backend p.2))) (records x).

Lemma clients_own x : clients_only (records x) -> own_backend x = None.
Proof.
  unfold own_backend. induction 1 as [|p d Hp _ IH]; [done|]. cbn [List.find]. by rewrite Hp.
Qed.

(** C10. The bridge closes the clients it opened.  Whatever calls a server gets, and
    whatever they return or raise, each is answered, and after the closing at exit every
    client the server ever made has closed its socket: the clients in its records, and
    those it let go of earlier because their agent had moved.  No discovery listener is
    open either.  [runtime.close], which stops at the first backend that raises, never
    skips one, because a runtime never has a backend of this process (an injected one,
    or the local terminal) beside any other.  Such a backend has been closed once, last
    of all, and what its [close] raised is all that the closing can raise.  Without an
    exit there is no closing: a call that never returns is the last one served. *)
Theorem session_closes (w : W) (injected : option I) calls :
  let '(results, closed_at_exit, x) := session calls (create_server w injected) in
  match closed_at_exit with
  | Some r =>
      length results = length calls /\ forallb ends_in results = true /\
      (forall l, discovery x = Some l -> listener_closed l = true) /\
      (forall sel record, sdict_get sel (records x) = Some record -> closed_client record) /\
      Forall closed_object (dropped x) /\
      match own_backend x with
      | None => r = Ok tt
      | Some (sel, record) => records x = [(sel, record)] /\
          exists o o', backend record = Some o' /\ close o = (r, o')
      end
  | None => exists answered last, results = answered ++ [last] /\ forallb ends_in answered = true /\ ends_in last = false
  end.
Proof.
  unfold session. pose proof (serve_calls_reachable calls _ (create_server_reachable w injected)) as Hrun.
  destruct (serve_calls calls _) as [rs x]. destruct Hrun as [Hx Hlen].
  destruct (forallb ends_in rs) eqn:Hends; [|exact Hlen].
  unfold runtime_close. rewrite bind_run. cbn [gets].
  rewrite bind_run. destruct Hx as [(Hc & Hr & Hd & Ht)|[(Hc & Hd & Ht & sel & rec & Hr & Ho)|Hn]].
  - rewrite Hr. cbn [fmap list_fmap each mret stateful_ret modify]. cbn. rewrite Hd, Hr, Ht. by split_and!.
  - rewrite Hr. cbn [fmap list_fmap each fst]. rewrite bind_run. unfold close_backend. rewrite Hr.
    cbn [sdict_get]. rewrite decide_True by done. destruct (backend rec) as [o|] eqn:Eb; [|done].
    pose proof (dispatch_client (fun B _ => close) o) as Hk. change (dispatch _ o) with (close o) in Hk.
    destruct (close o) as [res o'] eqn:Eo. cbn [snd] in Hk. rewrite Ho in Hk.
    assert (Hrec : records (set_records (sdict_set sel (set_backend (Some o') rec) [(sel, rec)]) x)
                   = [(sel, set_backend (Some o') rec)]) by (cbn; by rewrite decide_True).
    assert (Hafter : forall (q : result unit) (y : BackendRuntime W B), records y = [(sel, set_backend (Some o') rec)] -> discovery y = None -> dropped y = [] -> q = res ->
      length rs = length calls /\ forallb ends_in rs = true /\ (forall l, discovery y = Some l -> listener_closed l = true) /\
      (forall s record, sdict_get s (records y) = Some record -> closed_client record) /\
      Forall closed_object (dropped y) /\
      match own_backend y with
      | None => q = Ok tt
      | Some (s, record) => records y = [(s, record)] /\ exists o o', backend record = Some o' /\ close o = (q, o')
      end).
    { intros q y Hy Hdy Hty ->. rewrite Hdy, Hty. unfold own_backend. rewrite Hy. cbn [List.find backend set_backend snd].
      rewrite Hk. cbn [negb]. split_and!; [done|done|done| |constructor|done|by eexists _, _].
      intros s record. cbn [sdict_get]. case_decide; [|done]. intros [= <-] u [= ->]. done. }
    destruct res as [[]|e]; cbn [mret stateful_ret modify]; apply Hafter; try done.
    cbn [discovery set_discovery set_records]. by rewrite Hd.
  - destruct (close_clients_each (records x).*1 x Hn) as (d & E & Hd & Hall). rewrite E. cbn [modify].
    split; [done|]. split; [done|]. cbn [discovery records dropped set_discovery set_records]. split_and!.
    + intros l Hl. destruct (discovery x); [|done]. injection Hl as <-. apply listener_closed_close.
    + intros s r Hg. apply (Hall s r Hg). destruct (decide (s ∈ (records x).*1)) as [Hi|Hi]; [done|].
      apply (Hall s r Hg) in Hi as Hg'. by apply sdict_get_Some in Hg'.
    + apply Hn.
    + by rewrite clients_own.
Qed.
End Session.

(** ** A server whose agent moves

    It connects to an agent it hears, hears it again from another address, connects to it
    there and is closed. *)
Definition heard_calls : list tool_call := [get_status_tool None; get_status_tool None; list_targets_tool].
Definition heard_server : BackendRuntime small_host
    (backend_object (UdpBackend.UdpBackend UdpSafety.script) UdpSafety.script small_kernel) :=
  create_server moving_host None.

Definition connected_to sel (x : BackendRuntime small_host
    (backend_object (UdpBackend.UdpBackend UdpSafety.script) UdpSafety.script small_kernel)) : bool :=
  match sdict_get sel (records x) with
  | Some record => match backend record with Some (Udp _) => true | _ => false end
  | None => false
  end.

Lemma session_closes_witness :
  let '(results, closed_at_exit, x) := session heard_calls heard_server in
  closed_at_exit = Some (Ok tt) /\ length results = 3%nat /\
  (exists l, discovery x = Some l /\ listener_closed l = true) /\
  (length (dropped x) = 1%nat /\ Forall closed_object (dropped x)) /\
  exists sel record u, sdict_get sel (records x) = Some record /\ backend record = Some (Udp u) /\ _closed u = true.
Proof.
  pose proof (session_closes (I:=UdpBackend.UdpBackend UdpSafety.script) (N:=UdpSafety.script) (K:=small_kernel)
    moving_host None heard_calls) as Hs. unfold heard_server.
  assert (Hr : bool_decide ((session heard_calls heard_server).1.2 = Some (Ok tt)) = true) by (vm_compute; reflexivity).
  assert (Ho : own_backend (session heard_calls heard_server).2 = None) by (vm_compute; reflexivity).
  assert (Hd : bool_decide (is_Some (discovery (session heard_calls heard_server).2)) = true)
    by (vm_compute; reflexivity).
  assert (Hm : length (dropped (session heard_calls heard_server).2) = 1%nat) by (vm_compute; reflexivity).
  assert (Hu : connected_to (py "DOSBOX@020000000007") (session heard_calls heard_server).2 = true)
    by (vm_compute; reflexivity).
  unfold heard_server in *. apply bool_decide_eq_true_1 in Hr. apply bool_decide_eq_true_1 in Hd as [l El].
  destruct (session heard_calls _) as [[results r] x]. cbn [fst snd] in *. subst r.
  destruct Hs as (Hlen & _ & Hl & Hc & Hdropped & _). split; [reflexivity|]. split; [exact Hlen|].
  split; [exists l; split; [exact El|by apply Hl]|]. split; [exact (conj Hm Hdropped)|].
  unfold connected_to in Hu. destruct (sdict_get _ (records x)) as [record|] eqn:Hg; [|discriminate Hu].
  destruct (backend record) as [[b|u|k]|] eqn:Hb; try discriminate Hu.
  eexists _, record, u. split; [exact Hg|]. split; [exact Hb|]. by apply (Hc _ record Hg).
Defined.
