(* ===== verification/RepositoryTests.v ===== *)
(** * The repository's tests, on the model

    The assertions of the files of src/tests, evaluated on the definitions of this
    development: checks of the model against the values the code's authors expect of
    it, each under the name of its test.  The backends are those of the tests, with a
    smaller framebuffer and shorter files.  Left out are the round trips and refusals
    of test_messages.py and test_models.py, which the theorems of [Messages.v] and
    [Value.v] state for every value, the vectors [Crc.v], [Crypto.v] and [Packet.v]
    check, and the test that needs a real shell's output. *)
From Stdlib Require Import Floats.SpecFloat.
From S2P Require Import Prelude PyFloat Crc Crypto PyText PyStr Constants Messages State Models Value.
From S2P Require Import Base64 Discovery Backend Server Terminal Files Link AgentServer UdpBackend Runtime SmallKernel RuntimeSafety Configured.
From S2P Require Packet Linux LinuxFiles LinuxShell UdpSafety.

(** Whether a call raised an exception of the class with a message that holds [text]. *)
Fixpoint holds (text s : pystr) : bool :=
  bool_decide (take (length text) s = text) || match s with [] => false | _ :: s => holds text s end.
Definition raises {A} (cls : exn_class) (text : pystr) (r : result A) : bool :=
  match r with Ok _ => false | Err e => bool_decide (exn_cls e = cls) && holds text (exn_msg e) end.

(** ** [tests/test_terminal.py] *)
Import Models.
Definition screen_after (c r : Z) (inputs : list pystr) : result (list pystr * list (list Z) * Z * Z) :=
  t ← new_terminal c r;
  s ← snapshot (each feed inputs t).2;
  Ok (text s, attributes s, cursor_row (cursor s), cursor_column (cursor s)).
Definition line (s : string) (width : nat) : pystr :=
  py s ++ replicate (width - length (py s)) 32.
Definition escape (s : string) : pystr := 27 :: py s.
Definition crlf : pystr := [13; 10].

Example test_terminal_tracks_text_and_cursor : exists attrs,
  screen_after 10 3 [py "Hello" ++ crlf ++ py "DOS"]
  = Ok ([line "Hello" 10; line "DOS" 10; line "" 10], attrs, 1, 3).
Proof. eexists. vm_compute. reflexivity. Qed.

Example test_terminal_scrolls_without_changing_dimensions : exists attrs,
  screen_after 8 2 [py "first" ++ crlf ++ py "second" ++ crlf ++ py "third"]
  = Ok ([line "second" 8; line "third" 8], attrs, 1, 5).
Proof. eexists. vm_compute. reflexivity. Qed.

Example test_terminal_applies_basic_ansi_color_and_erase :
  let colours := escape "[31mR" ++ escape "[0mX" in
  screen_after 8 2 [colours] = Ok ([line "RX" 8; line "" 8], [4 :: replicate 7 7; replicate 8 7], 0, 2) /\
  screen_after 8 2 [colours; escape "[2J" ++ escape "[H"]
  = Ok ([line "" 8; line "" 8], [replicate 8 7; replicate 8 7], 0, 0).
Proof. vm_compute. split; reflexivity. Qed.

Example test_terminal_ignores_oversized_escape_sequence : exists attrs r c,
  screen_after 8 2 [escape "[" ++ replicate 80 49 ++ py "Z"] = Ok ([line "" 8; line "" 8], attrs, r, c).
Proof. do 3 eexists. vm_compute. reflexivity. Qed.

(** ** [tests/test_runtime.py] *)
Definition tested : Type :=
  BackendRuntime small_host (backend_object (UdpBackend.UdpBackend UdpSafety.script) UdpSafety.script small_kernel).
Definition runtime_with (env : list (string * pystr)) (heard : list (result (bytes * Source))) : tested :=
  new_runtime (mkHost ((fun p => (py p.1, p.2)) <$> env) [heard] 0) None.

(** The arguments of the constructor a client of the target was made with. *)
Definition created (sel : string) (x : tested) : option (Address * bytes * bool * bool) :=
  match sdict_get (py sel) (records x) with
  | Some r =>
      match Runtime.backend r with
      | Some (Udp u) => Some (target u, _base_key u, _allow_file_read u, _allow_file_write u)
      | _ => None
      end
  | None => None
  end.

Definition one_target : string * pystr := ("DOS_MCP_TARGET"%string, py "192.0.2.10:21301").
Definition password (s : string) : string * pystr := ("DOS_MCP_PASSWORD"%string, py s).

Example test_runtime_derives_key_from_password :
  derive_password_key (py "a much easier credential") =
    match created "dos" (runtime_get None (runtime_with [one_target; password "a much easier credential"] [])).2 with
    | Some (address, key, false, false) =>
        if bool_decide (address = (py "192.0.2.10", 21301)) then Ok key else raise KeyError []
    | _ => raise KeyError []
    end.
Proof. vm_compute. reflexivity. Qed.

Example test_runtime_allows_explicit_open_mode :
  created "dos" (runtime_get None (runtime_with [one_target] [])).2
  = Some (py "192.0.2.10", 21301, OPEN_MODE_KEY, false, false).
Proof. vm_compute. reflexivity. Qed.

Example test_runtime_rejects_key_and_password_together :
  raises RuntimeError (py "only one") (runtime_get None (runtime_with
    [one_target; ("DOS_MCP_KEY"%string, py "00112233445566778899AABBCCDDEEFF"); password "password"] [])).1 = true.
Proof. vm_compute. reflexivity. Qed.

Example test_runtime_rejects_explicit_empty_password :
  raises ValueError (py "must not be empty") (runtime_get None (runtime_with [one_target; password ""] [])).1 = true.
Proof. vm_compute. reflexivity. Qed.

Definition two_targets : tested :=
  runtime_with [("DOS_MCP_TARGETS"%string,
    table_text [(py "desk8088", (py "192.0.2.8", 21300)); (py "lab386", (py "192.0.2.38", 22300))]);
    password "shared test password"] [].

(** What a listing says of each target under [keys]. *)
Definition fields (keys : list string) (r : result (list (sdict value))) : result (list (list (option value))) :=
  match r with
  | Ok l => Ok ((fun d => (fun k => sdict_get (py k) d) <$> keys) <$> l)
  | Err e => Err e
  end.

Example test_runtime_routes_multiple_named_targets :
  let '(targets, x) := list_targets two_targets in
  let '(unnamed, x) := runtime_get None x in
  let '(_, x) := runtime_get (Some (py "lab386")) x in
  fields ["selector"%string] targets = Ok [[Some (VStr (py "desk8088"))]; [Some (VStr (py "lab386"))]] /\
  raises RuntimeError (py "target is required") unnamed = true /\
  (fun c => c.1.1.1) <$> created "lab386" x = Some (py "192.0.2.38", 22300).
Proof. vm_compute. split_and!; reflexivity. Qed.

Definition workbench (name : string) : Advertisement :=
  DiscoveryAdvertisement.mk (py name) 21300 3 [xac; xde; x48; x44; x4d; x02] false VERSION.
Definition workbench_heard : list (result (bytes * Source)) :=
  match DiscoveryAdvertisement.encode (workbench "WORKBENCH") with
  | Ok d => [Ok (d, (py "192.0.2.86", 40000))]
  | Err _ => []
  end.

Example test_runtime_routes_a_named_discovered_target :
  let x := runtime_with [("DOS_MCP_DISCOVERY"%string, py "1"); password "discovery test password"] workbench_heard in
  let '(targets, x) := list_targets x in
  let '(_, x) := runtime_get (Some (py "WORKBENCH")) x in
  fields ["selector"; "agent_id"]%string targets = Ok [[Some (VStr (py "WORKBENCH@acde48444d02")); Some (VStr (py "acde48444d02"))]] /\
  (fun c => c.1.1.1) <$> created "WORKBENCH@acde48444d02" x = Some (py "192.0.2.86", 21300).
Proof. vm_compute. split; reflexivity. Qed.

(** ** [tests/protocol/test_discovery.py] *)
Example test_discovery_advertisement_round_trip :
  let ad := workbench "WORKBENCH-386" in
  (d ← DiscoveryAdvertisement.encode ad; DiscoveryAdvertisement.decode d) = Ok ad /\
  DiscoveryAdvertisement.selector ad = py "WORKBENCH-386@acde48444d02".
Proof. vm_compute. split; reflexivity. Qed.

(** The advertisement with byte [i] changed, its checksum corrected or not. *)
Definition altered (i : nat) (f : Z -> Z) (sealed : bool) (d : bytes) : bytes :=
  let d := alter (fun b => z2b (f (b2z b))) i d in
  let body := take (length d - 2) d in
  if sealed then body ++ [z2b (crc16_ccitt body); z2b (crc16_ccitt body / 256)] else d.
Definition decoded_altered (i : nat) (f : Z -> Z) (sealed : bool) : result Advertisement :=
  d ← DiscoveryAdvertisement.encode (DiscoveryAdvertisement.mk (py "DOS-PC") 21300 1 (ascii_bytes "ABCDEF") false VERSION);
  DiscoveryAdvertisement.decode (altered i f sealed d).

Example test_discovery_rejects_corruption_and_unbounded_names :
  raises ValueError (py "CRC") (decoded_altered 27 (Z.lxor 1) false) = true /\
  raises ValueError (py "1-31") (DiscoveryAdvertisement.new
    (DiscoveryAdvertisement.mk (replicate 32 120) 21300 1 (ascii_bytes "ABCDEF") false VERSION)) = true.
Proof. vm_compute. split; reflexivity. Qed.

Example test_discovery_rejects_incompatible_protocol_and_unknown_capability :
  raises ValueError (py "protocol version") (decoded_altered 5 (fun _ => 99) true) = true /\
  raises ValueError (py "capability") (decoded_altered 13 (Z.lor 0x80) true) = true.
Proof. vm_compute. split; reflexivity. Qed.

(** ** [tests/test_udp.py] *)
Import Models.
Record FakeBackend := mkFake {
  key_calls : list (pystr * list pystr * Z * Z);
  files : list (pystr * bytes);
  upload_calls : list (pystr * bytes * bool) }.

Definition fake_screen : TextScreen :=
  mkTextScreen 80 25 (line "C:\>DIR" 80 :: replicate 24 (line "" 80)) (replicate 25 (replicate 80 7))
    (mkCursor 0 7 true (Some 6) (Some 7)) 3 (py "CGA") (Some 3) 0 (py "CP437") true.
Definition fake_graphics : GraphicsScreen :=
  let data := (fun i => z2b (Z.lxor i (Z.shiftr i 8))) <$> seqZ 0 1100 in
  mkGraphicsScreen (py "VGA") 0x13 (py "packed-8bpp") 44 25 1 1100 data (crc32_from 0 data).

#[export] Instance fake_backend : Backend FakeBackend := {|
  get_status := mret (mkMachineStatus true (py "observe_ready") (py "fake") (py "memory") (py "fake-dos")
    (py "DOS 6.22") (py "8088") (py "0.1") (float_of_int 10));
  get_capabilities := mret (mkCapabilities (py "fake") (py "memory") true true [py "VGA"]
    (Some (py "bios-queue")) 80 25 4096 15 true true false false false false false false);
  capture_screen := fun b => (new_text_screen fake_screen, b);
  capture_graphics := fun b => (new_graphics_screen fake_graphics, b);
  send_keys text keys delay settle := fun b =>
    (encoded ← cp437_encode text; Ok (mkKeyReceipt (len encoded) (len keys) keys 4),
     mkFake (key_calls b ++ [(text, keys, delay, settle)]) (files b) (upload_calls b));
  download_file path := fun b =>
    (match sdict_get path (files b) with
     | Some data => Ok (mkFileContents path data (crc32_from 0 data))
     | None => raise KeyError (repr path)
     end, b);
  upload_file path data overwrite := fun b =>
    (Ok (mkFileReceipt path (len data) (crc32_from 0 data)),
     mkFake (key_calls b) (sdict_set path data (files b)) (upload_calls b ++ [(path, data, overwrite)]));
  close := mret tt |}.

Definition every_byte : bytes := z2b <$> seqZ 0 256.
Definition source : bytes := concat (replicate 5 every_byte).
Definition KEY : bytes :=
  [x00; x11; x22; x33; x44; x55; x66; x77; x88; x99; xaa; xbb; xcc; xdd; xee; xff].

(** A client whose datagrams all arrive at a fresh server, as do the answers. *)
Definition client_of (server_key client_key : bytes) (drop_first read write : bool) (retries : Z) :
    UdpBackend (Link FakeBackend) :=
  let here : Address := (py "127.0.0.1", 40000) in
  let there : Address := (py "127.0.0.1", 40001) in
  mkUdp (mkLink (mkServer (mkFake [] [(py "SOURCE.BIN", source)] []) server_key None drop_first false None false [])
      true here there (fun _ => [mkDelivery (mkEntropy 0x12345678 41 (fun _ _ _ => None)) (seq 0 32)]) (fun _ => 0x9ABCDEF0) 0)
    [] there client_key retries read write 0 None 1 false.
Definition fake_of (u : UdpBackend (Link FakeBackend)) : FakeBackend := AgentServer.backend (agent (network u)).

Example test_udp_backend_status_capabilities_and_fragmented_screen :
  match (status ← get_status; capabilities ← get_capabilities; screen ← capture_screen;
         mret (status, capabilities, screen)) (client_of KEY KEY false false false 3) with
  | (Ok (status, capabilities, screen), _) =>
      connected status = true /\ status_transport status = py "packet-driver-udp" /\
      text_capture capabilities = true /\ keyboard_injection capabilities = Some (py "bios-queue") /\
      take 7 <$> head (text screen) = Some (py "C:\>DIR") /\ cursor_column (cursor screen) = 7 /\
      screen_adapter screen = py "CGA"
  | _ => False
  end.
Proof. vm_compute. split_and!; reflexivity. Qed.

Example test_udp_backend_operates_with_public_open_mode_key :
  connected <$> (get_status (client_of OPEN_MODE_KEY OPEN_MODE_KEY false false false 3)).1 = Ok true.
Proof. vm_compute. reflexivity. Qed.

Definition upload : bytes := concat (replicate 221 (x00 :: xff :: ascii_bytes "DOS")).

Example test_udp_backend_graphics_and_binary_file_transfers :
  match (picture ← capture_graphics; downloaded ← download_file (py "SOURCE.BIN");
         receipt ← upload_file (py "TARGET.BIN") upload true;
         mret (picture, downloaded, receipt)) (client_of KEY KEY false true true 3) with
  | (Ok (picture, downloaded, receipt), u) =>
      video_mode picture = 0x13 /\ layout picture = py "packed-8bpp" /\ len (data picture) = 1100 /\
      contents_data downloaded = source /\ receipt_size receipt = len upload /\
      sdict_get (py "TARGET.BIN") (files (fake_of u)) = Some upload /\
      upload_calls (fake_of u) = [(py "TARGET.BIN", upload, true)]
  | _ => False
  end.
Proof. vm_compute. split_and!; reflexivity. Qed.

Example test_udp_retry_does_not_repeat_keyboard_mutation :
  let '(receipt, u) := send_keys (py "DIR") [py "ENTER"] 5 100 (client_of KEY KEY true false false 2) in
  accepted_text_bytes <$> receipt = Ok 3 /\ key_calls (fake_of u) = [(py "DIR", [py "ENTER"], 5, 100)].
Proof. vm_compute. split; reflexivity. Qed.

Example test_udp_backend_with_wrong_key_times_out :
  raises TimeoutError (py "HELLO") (get_status (client_of KEY (rev KEY) false false false 0)).1 = true.
Proof. vm_compute. reflexivity. Qed.

(** ** [tests/test_linux_backend.py]: the tests that do not depend on the shell's output *)
Definition srv : Files.path := path_of (py "/srv").
Definition empty_disk : small_kernel :=
  (LinuxFiles.mkFs (fun q => if decide (q = path_of (py "/bin/sh")) then Some [] else None)
    [path_of (py "/"); srv] 0 false, LinuxShell.mkTty [] false [] 9).

(** A test on a backend with the directory as its root. *)
Definition on_linux {A} (read write : bool) (m : stateful (Linux.LinuxTerminalBackend small_kernel) A) : result A :=
  match Linux.new_linux srv (py "/bin/sh") 80 25 read write empty_disk with
  | (Ok b, _) => (m b).1
  | (Err e, _) => Err e
  end.

Example test_linux_backend_rejects_unknown_key :
  raises ValueError (py "unsupported keys") (on_linux false false (Linux.linux_send_keys [] [py "POWER"] 0 0)) = true.
Proof. vm_compute. reflexivity. Qed.

Example test_linux_backend_bounds_total_input_delay :
  raises ValueError (py "total inter-key delay")
    (on_linux false false (Linux.linux_send_keys (replicate 31 120) [] 1000 0)) = true.
Proof. vm_compute. reflexivity. Qed.

Example test_linux_backend_close_is_idempotent :
  raises RuntimeError (py "closed") (on_linux false false
    (Linux.linux_get_status;; Linux.linux_close;; Linux.linux_close;; Linux.linux_capture_screen)) = true.
Proof. vm_compute. reflexivity. Qed.

Example test_linux_backend_file_policy_and_atomic_round_trip :
  let content := x00 :: xff :: ascii_bytes "DOS-MCP" in
  let name := py "ROUNDTRP.BIN" in
  on_linux true true (
    receipt ← Linux.linux_upload_file name content false;
    downloaded ← Linux.linux_download_file name;
    again ← catch (Linux.linux_upload_file name (ascii_bytes "replacement") false;; mret None)
      (fun e => mret (Some (exn_cls e)));
    mret (receipt_size receipt, contents_data downloaded, again))
  = Ok (len content, content, Some FileExistsError).
Proof. vm_compute. reflexivity. Qed.

Example test_linux_backend_file_paths_cannot_escape_root :
  raises ValueError (py "escapes") (on_linux true true (Linux.linux_download_file (py "../outside"))) = true /\
  raises ValueError (py "relative")
    (on_linux true true (Linux.linux_upload_file (py "/tmp/outside") (ascii_bytes "x") false)) = true.
Proof. vm_compute. split; reflexivity. Qed.

(** ** [tests/test_server.py]: the tools on an injected backend *)
Inductive called := Sent_keys (text : pystr) (keys : list pystr) (delay settle : Z)
                  | Uploaded (path : pystr) (data : bytes) (overwrite : bool).
Record RecordingBackend := mkRecording { calls : list called }.
Definition small_screen : TextScreen :=
  mkTextScreen 4 2 [py "C:\>"; py "    "] [[7; 7; 7; 7]; [7; 7; 7; 7]] (mkCursor 0 3 true None None) 1
    (py "CGA") (Some 3) 0 (py "CP437") true.

#[export] Instance recording_backend : Backend RecordingBackend := {|
  get_status := mret (mkMachineStatus true (py "agent_shell_ready") (py "fake") (py "memory") (py "test")
    (py "DOS 6.22") (py "8088") (py "0.1.0") (float_of_int 1));
  get_capabilities := mret (mkCapabilities (py "fake") (py "memory") true true [] (Some (py "bios-queue"))
    80 25 4096 128 false false false false false false false false);
  capture_screen := fun b => (new_text_screen small_screen, b);
  capture_graphics := fail (Exn NotImplementedError []);
  send_keys text keys delay settle := fun b =>
    (encoded ← utf8_encode text; Ok (mkKeyReceipt (len encoded) (len keys) keys 2),
     mkRecording (calls b ++ [Sent_keys text keys delay settle]));
  download_file path := mret (mkFileContents path (ascii_bytes "DOS") 0xEE);
  upload_file path data overwrite := fun b =>
    (Ok (mkFileReceipt path (len data) 0xAA), mkRecording (calls b ++ [Uploaded path data overwrite]));
  close := mret tt |}.

Definition served : Type :=
  BackendRuntime small_host (backend_object RecordingBackend UdpSafety.script small_kernel).
Definition server : served := new_runtime (mkHost [] [] 0) (Some (Injected (mkRecording []))).
Definition calls_of (x : served) : list called :=
  match sdict_get (py "default") (records x) with
  | Some r => match Runtime.backend r with Some (Injected b) => calls b | _ => [] end
  | None => []
  end.
(** A field of a tool's result. *)
Definition field (k : string) (r : result (sdict value)) : option value :=
  match r with Ok d => sdict_get (py k) d | Err _ => None end.

Example test_server_accepts_explicit_target_selector :
  fields ["selector"%string] (list_targets server).1 = Ok [[Some (VStr (py "default"))]] /\
  field "connected" (run_tool (get_status_tool (Some (py "default"))) server).1 = Some (VBool true).
Proof. vm_compute. split; reflexivity. Qed.

Example test_capture_screen_returns_structured_cells :
  let r := (run_tool (capture_screen_tool None) server).1 in
  field "text" r = Some (VList [VStr (py "C:\>"); VStr (py "    ")]) /\
  match field "cursor" r with Some (VDict d) => sdict_get (py "column") d = Some (VInt 3) | _ => False end.
Proof. vm_compute. split; reflexivity. Qed.

Example test_send_keys_preserves_order_and_parameters :
  calls_of (run_tool (send_keys_tool (py "DIR") (Some [py "ENTER"]) 5 25 None) server).2
  = [Sent_keys (py "DIR") [py "ENTER"] 5 25].
Proof. vm_compute. reflexivity. Qed.

Example test_file_tools_encode_and_decode_binary_data :
  let '(downloaded, x) := run_tool (download_file_tool (py "RESULT.BIN") None) server in
  let '(uploaded, x) := run_tool (upload_file_tool (py "INPUT.BIN") (b64encode [x00; xff]) true None) x in
  field "content_base64" downloaded = Some (VStr (py "RE9T")) /\ field "size" uploaded = Some (VInt 2) /\
  last (calls_of x) = Some (Uploaded (py "INPUT.BIN") [x00; xff] true).
Proof. vm_compute. split_and!; reflexivity. Qed.

(** ** [tests/protocol/test_packet.py] *)
Definition ping (payload : bytes) : Packet.Packet :=
  Packet.mkPacket MessageKind.REQUEST Opcode.PING 1 2 0 1 payload 0.
Definition decoded (payload pad : bytes) (f : bytes -> bytes) : result Packet.Packet :=
  d ← Packet.encode (ping payload) TEST_KEY; Packet.decode (f d ++ pad) TEST_KEY.

Example test_packet_rejects_corruption :
  raises PacketError (py "CRC") (decoded (ascii_bytes "hello") []
    (fun d => alter (fun b => z2b (Z.lxor 1 (b2z b))) (length d - 1)%nat d)) = true.
Proof. vm_compute. reflexivity. Qed.

Example test_packet_rejects_unknown_flags :
  raises ValueError (py "no packet flags")
    (Packet.new_packet (Packet.mkPacket MessageKind.REQUEST Opcode.PING 1 2 0 1 [] 1)) = true.
Proof. vm_compute. reflexivity. Qed.

Example test_packet_transport_padding :
  decoded (ascii_bytes "odd") [x00] id = Ok (ping (ascii_bytes "odd")) /\
  raises PacketError (py "length") (decoded [] [x01] id) = true /\
  raises PacketError (py "length") (decoded [] [x00; x00] id) = true.
Proof. vm_compute. split_and!; reflexivity. Qed.

Example test_packet_rejects_every_truncated_header :
  forallb (fun n => raises PacketError (py "truncated") (Packet.decode (replicate n x00) TEST_KEY))
    (seq 0 Packet.HEADER_SIZE) = true.
Proof. vm_compute. reflexivity. Qed.

Definition fragments (payload : bytes) : result (list Packet.Packet) :=
  Packet.fragment_message MessageKind.RESPONSE Opcode.CAPTURE_TEXT_SCREEN 3 9 payload 0.

Example test_fragmentation_round_trip_out_of_order :
  let payload := concat (replicate 12 every_byte) in
  (ps ← fragments payload; d ← Packet.reassemble_packets (rev ps); Ok (length ps, d)) = Ok (3%nat, payload).
Proof. vm_compute. reflexivity. Qed.

Example test_reassembly_rejects_missing_fragment :
  raises PacketError (py "missing")
    (ps ← fragments (replicate 2000 x78); Packet.reassemble_packets (take 1 ps)) = true.
Proof. vm_compute. reflexivity. Qed.

(** ** [tests/protocol/test_crypto.py] *)
Definition raw_key : pystr := py "00112233445566778899AABBCCDDEEFF".

Example test_credential_accepts_explicit_and_backward_compatible_forms :
  credential_key (Some raw_key) = Ok KEY /\ credential_key (Some (py "key:" ++ raw_key)) = Ok KEY /\
  credential_key (Some (py "pass:" ++ raw_key)) = derive_password_key raw_key /\
  credential_key (Some (py "a password of arbitrary length")) = derive_password_key (py "a password of arbitrary length").
Proof. vm_compute. split_and!; reflexivity. Qed.

Example test_missing_credential_selects_public_open_mode_key :
  credential_key None = Ok OPEN_MODE_KEY /\ credential_key (Some (py "-")) = Ok OPEN_MODE_KEY.
Proof. vm_compute. split; reflexivity. Qed.

Example test_empty_password_is_rejected :
  forallb (fun s => raises ValueError [] (credential_key (Some s))) [[]; py "pass:"] = true.
Proof. vm_compute. reflexivity. Qed.

Example test_parse_key_rejects_invalid_keys :
  forallb (fun s => raises ValueError [] (parse_key s))
    [concat (replicate 16 (py "00")); py "ab"; py "not-hex"; concat (replicate 16 (py "00 "));
     py "0x" ++ concat (replicate 15 (py "12"))] = true.
Proof. vm_compute. reflexivity. Qed.
