(* ===== verification/E2e.v ===== *)
(** * End-to-end checks: what the two DOSBox scripts share

    [tools/dosbox_e2e.py] and [tools/dosbox_tsr_e2e.py] drive an agent through the
    UDP backend: they wait for it, run their checks and close the backend.  The
    script's world, with its clock, its output and the network of its one socket at
    a time, is the class [Bench]; while a backend exists the world is its network. *)
From Stdlib Require Import Floats.SpecFloat.
From S2P Require Import MemoryBackend AgentServer AgentInvariant Link.
From S2P Require Import Prelude PyFloat Dict PyText PyStr Crypto Packet Messages State Backend UdpBackend UdpSafety.
From S2P Require Models.

(** [ready_rounds] bounds the rounds of the wait for the agent (see [BenchLaws]). *)
Class Bench (W : Type) := {
  bench_clock :: Clock W;
  bench_network :: Network W;
  host_address (host : pystr) : stateful W pystr;
  udp_socket : stateful W unit;
  randbelow (n : Z) : W -> Z * W;
  sleep (seconds : spec_float) : stateful W unit;
  print_line (s : pystr) : stateful W unit;
  (* a further socket, for one datagram *)
  raw_socket : stateful W Z;
  raw_sendto (fd : Z) (datagram : bytes) (to : Address) : stateful W unit;
  raw_close (fd : Z) : stateful W unit;
  ready_rounds : spec_float -> W -> nat }.
#[global] Hint Mode Bench ! : typeclass_instances.

(** [if not ok: raise AssertionError(message)] *)
Definition check {S} (ok : bool) (message : pystr) : stateful S unit :=
  lift (raise_if (negb ok) AssertionError message).

(** [needle in s], and [any(needle in row for row in rows)] *)
Fixpoint contains (needle s : pystr) : bool :=
  bool_decide (take (length needle) s = needle) || match s with [] => false | _ :: s => contains needle s end.
Definition shows (needle : string) (rows : list pystr) : bool := existsb (contains (py needle)) rows.

(** What waiting for the agent comes to: a backend; an exception that leaves the last
    backend open; or one with no backend open. *)
Inductive connected (W : Type) :=
| Connected (u : UdpBackend W)
| Left_open (e : exn) (u : UdpBackend W)
| Refused (e : exn) (w : W).
Arguments Connected {W} u.
Arguments Left_open {W} e u.
Arguments Refused {W} e w.

Section Bench.
Context {W : Type} `{Bench W}.

(** The world acts while the backend is there. *)
Definition in_world {A} (m : stateful W A) : stateful (UdpBackend W) A := fun u =>
  let '(r, w) := m (network u) in (r, set_network w (inbox u) u).

Definition draw (n : Z) : stateful W Z := fun w => let '(id, w) := randbelow n w in (Ok id, w).

(** [UdpBackend(...)]: the resolver and the socket in the constructor's order. *)
Definition open_backend (to : Address) (key : bytes) (timeout : spec_float) (retries : Z)
    (read write : bool) : stateful W (UdpBackend W) :=
  lift (check_arguments key timeout retries);;
  ip ← host_address to.1;
  udp_socket;;
  first_id ← draw 0xFFFF;
  w ← get;
  lift (new_udp w (ip, to.2) key timeout retries read write first_id).

(** The loop of [connect]: a new backend for every try. *)
Fixpoint connect_loop (fuel : nat) (make : stateful W (UdpBackend W)) (deadline : spec_float)
    (not_ready : pystr) (w : W) : connected W :=
  match fuel with
  | O => Refused (Exn RuntimeError not_ready) w
  | S fuel =>
      let '(now, w) := monotonic w in
      if negb (SFltb now deadline) then Refused (Exn RuntimeError not_ready) w else
      match make w with
      | (Err e, w) => Refused e w
      | (Ok u, _) =>
          match udp_get_status u with
          | (Ok _, u) => Connected u
          | (Err e, u) =>
              if is_os_error (exn_cls e) then
                match (udp_close;; in_world (sleep (int_div 1 10))) u with
                | (Ok _, u) => connect_loop fuel make deadline not_ready (network u)
                | (Err e, u) => Refused e (network u)
                end
              else Left_open e u
          end
      end
  end.

Definition connect_until (make : stateful W (UdpBackend W)) (deadline : spec_float)
    (not_ready : pystr) (w : W) : connected W :=
  connect_loop (S (ready_rounds deadline w)) make deadline not_ready w.

(** A script: the wait, for [seconds], then the checks, and the backend is closed. *)
Definition script (make : stateful W (UdpBackend W)) (seconds : Z) (not_ready : pystr)
    (checks : stateful (UdpBackend W) unit) (w : W) : result unit * connected W :=
  let '(start, w) := monotonic w in
  match connect_until make (float_add start (float_of_int seconds)) not_ready w with
  | Connected u => let '(r, u) := finally checks udp_close u in (r, Connected u)
  | Left_open e u => (Err e, Left_open e u)
  | Refused e w => (Err e, Refused e w)
  end.
End Bench.

(** ** What the backend's operations do to the world

    Along a preorder that [transmit] and [randbits32] follow, and without touching
    the backend's settings. *)
Section Along.
Context {N : Type} `{Network N} (R : N -> N -> Prop) `{!PreOrder R}.
Context (Htransmit : forall d n, R n (transmit d n).2) (Hrandbits : forall n, R n (randbits32 n).2).
Implicit Types (u : UdpBackend N).

Definition settings u : Address * bytes * Z * (bool * bool) * bool :=
  (target u, _base_key u, _retries u, (_allow_file_read u, _allow_file_write u), _closed u).

Definition along u u' : Prop := R (network u) (network u') /\ settings u' = settings u.

#[local] Instance along_preorder : PreOrder along.
Proof.
  split; [by intros u|]. intros u u' u'' [H1 E1] [H2 E2]. split; [by etrans|by rewrite E2].
Qed.

Lemma along_sendto d : keeps along (sendto d).
Proof using All.
  intros u. unfold sendto. pose proof (Htransmit d (network u)) as Ht.
  destruct (transmit d (network u)) as [[a|e] n]; by split.
Qed.

Lemma along_receive k p e : keeps along (receive k p e).
Proof using All. intros u. unfold receive. destruct (receive_loop _ _ _ _ _). by split. Qed.

Ltac along_step :=
  lazymatch goal with
  | |- keeps _ (_ ≫= _) => apply keeps_bind; [apply _| |intros ?]
  | |- keeps _ (lift _) => apply keeps_lift; apply _
  | |- keeps _ (gets _) => apply keeps_gets; apply _
  | |- keeps _ get => apply keeps_get; apply _
  | |- keeps _ (mret _) => apply keeps_ret; apply _
  | |- keeps _ (fail _) => apply keeps_lift; apply _
  | |- keeps _ (each _ _) => apply keeps_each; [apply _|intros ?; apply along_sendto]
  | |- keeps _ (receive _ _ _) => apply along_receive
  | |- keeps _ (modify _) => intros ?; by split
  | |- keeps _ (if ?b then _ else _) => destruct b
  | |- keeps _ (match ?x with _ => _ end) => destruct x
  | |- keeps _ (let '_ := ?x in _) => destruct x
  end.

Lemma along_attempts n ds k p e : keeps along (attempts n ds k p e).
Proof using All.
  revert e. induction n as [|n IH]; intros e; cbn [attempts]; repeat (along_step || apply IH).
Qed.

Lemma along_exchange ps k : keeps along (_exchange_with_packet ps k).
Proof using All. unfold _exchange_with_packet. repeat (along_step || apply along_attempts). Qed.

Lemma along_randbits : keeps along randbits.
Proof using All.
  intros u. unfold randbits. pose proof (Hrandbits (network u)) as Hr.
  destruct (randbits32 (network u)). by split.
Qed.

Lemma along_request o data : keeps along (_request o data).
Proof using All.
  unfold _request, _handshake, _ensure_open, _exchange.
  repeat (along_step || apply along_exchange || apply along_randbits).
Qed.

Lemma along_status : keeps along udp_get_status.
Proof using All. unfold udp_get_status. repeat (along_step || apply along_request). Qed.
End Along.

(** ** The wait for the agent *)

(** [ready_rounds] falls with every clock reading before the deadline (the clock
    advances), and nothing the script does puts time back. *)
Class BenchLaws (W : Type) `{Bench W} := {
  bench_network_laws :: NetworkLaws W;
  randbelow_range n (w : W) : 0 < n -> 0 <= (randbelow n w).1 < n;
  ready_clock d (w : W) : SFltb (monotonic w).1 d = true ->
    (ready_rounds d (monotonic w).2 < ready_rounds d w)%nat;
  ready_host d h (w : W) : (ready_rounds d (host_address h w).2 <= ready_rounds d w)%nat;
  ready_socket d (w : W) : (ready_rounds d (udp_socket w).2 <= ready_rounds d w)%nat;
  ready_randbelow d n (w : W) : (ready_rounds d (randbelow n w).2 <= ready_rounds d w)%nat;
  ready_transmit d m (w : W) : (ready_rounds d (transmit m w).2 <= ready_rounds d w)%nat;
  ready_randbits d (w : W) : (ready_rounds d (randbits32 w).2 <= ready_rounds d w)%nat;
  ready_sleep d t (w : W) : (ready_rounds d (sleep t w).2 <= ready_rounds d w)%nat }.
#[global] Hint Mode BenchLaws ! - : typeclass_instances.

Section Wait.
Context {W : Type} `{BenchLaws W}.
Context (to : Address) (key : bytes) (timeout : spec_float) (retries : Z) (read write : bool).
Context (deadline : spec_float).
Local Abbreviation make := (open_backend to key timeout retries read write).
Local Abbreviation left w := (ready_rounds deadline w).

Definition later (w w' : W) : Prop := (left w' <= left w)%nat.

#[local] Instance later_preorder : PreOrder later.
Proof using. unfold later. split; [by intros w|]. intros w w' w'' ? ?. lia. Qed.

(** A client with the script's settings. *)
Definition made (u : UdpBackend W) : Prop :=
  client_ok u /\ _closed u = false /\ _base_key u = key /\ _retries u = retries /\
  _allow_file_read u = read /\ _allow_file_write u = write /\ (target u).2 = to.2.

Lemma open_backend_later : keeps later make.
Proof using H0.
  unfold open_backend. repeat (apply keeps_bind; [apply _| |intros ?]).
  - apply keeps_lift; apply _.
  - intros w. apply ready_host.
  - intros w. apply ready_socket.
  - intros w. unfold draw. pose proof (ready_randbelow deadline 0xFFFF w) as Hr. by destruct (randbelow 0xFFFF w).
  - apply keeps_get; apply _.
  - apply keeps_lift; apply _.
Qed.

Lemma open_backend_made w u w' :
  make w = (Ok u, w') -> made u /\ _session_key u = None /\ later w (network u).
Proof using H0.
  intros Hrun. pose proof (open_backend_later w) as Hl. rewrite Hrun in Hl. cbn [snd] in Hl.
  unfold open_backend in Hrun.
  apply bind_Ok_inv in Hrun as (_ & w1 & _ & Hrun). apply bind_Ok_inv in Hrun as (ip & w2 & _ & Hrun).
  apply bind_Ok_inv in Hrun as (_ & w3 & _ & Hrun). apply bind_Ok_inv in Hrun as (id & w4 & Hid & Hrun).
  apply bind_Ok_inv in Hrun as (w5 & w6 & [= <- <-] & [= Hnew <-]).
  assert (Hr : 0 <= id < 0xFFFF).
  { unfold draw in Hid. pose proof (randbelow_range 0xFFFF w3 ltac:(lia)) as Hb.
    destruct (randbelow 0xFFFF w3). by injection Hid as <- _. }
  pose proof (new_udp_ok _ _ _ _ _ _ _ _ _ Hr Hnew) as Hok. apply new_udp_Ok in Hnew as (_ & _ & ->).
  by split_and!.
Qed.

(** The client has settings [made] gives it and is in session. *)
Definition in_session (u : UdpBackend W) : Prop := made u /\ is_Some (_session_key u).

Lemma status_made u r u' :
  made u -> udp_get_status u = (r, u') ->
  made u' /\ later (network u) (network u') /\
  match r with Ok _ => is_Some (_session_key u') | Err e => exchange_error (exn_cls e) end.
Proof using H0.
  intros (Hok & Hc & Hs) Hrun. pose proof (udp_status_safe u Hok) as [Hok' Hr].
  destruct (along_status later (ready_transmit deadline) (ready_randbits deadline) u) as [Hl He].
  rewrite Hrun in Hok', Hr, Hl, He. cbn [fst snd] in *. unfold settings in He. injection He as E1 E2 E3 E4 E5 E6.
  split; [unfold made; by rewrite E1, E2, E3, E4, E5, E6|]. split; [done|].
  destruct r as [status|e]; [|exact Hr]. apply bind_Ok_inv in Hrun as (payload & u1 & Hreq & Hrun).
  destruct (request_returns _ _ _ _ _ Hok Hreq) as (k & Hk).
  apply bind_Ok_inv in Hrun as (m & u2 & [= _ <-] & Hrun). apply bind_Ok_inv in Hrun as (t & u3 & [= _ <-] & [= _ <-]).
  by exists k.
Qed.

(** What the wait can come to, and its rounds. *)
Definition wait_ends (c : connected W) : Prop :=
  match c with
  | Connected u => in_session u
  | Left_open e u => made u /\ exchange_error (exn_cls e) /\ is_os_error (exn_cls e) = false
  | Refused _ _ => True
  end.

Lemma connect_loop_exact msg f : forall g w,
  (left w < f)%nat -> (left w < g)%nat ->
  connect_loop f make deadline msg w = connect_loop g make deadline msg w /\
  wait_ends (connect_loop f make deadline msg w).
Proof using H0.
  induction f as [|f IH]; intros [|g] w Hf Hg; [lia..|]. cbn [connect_loop].
  pose proof (ready_clock deadline w) as Hclock. destruct (monotonic w) as [now w1]. cbn [fst snd] in Hclock.
  destruct (SFltb now deadline); cbn [negb]; [|done]. specialize (Hclock eq_refl).
  pose proof (open_backend_later w1) as Hl. destruct (make w1) as [[u|e] w2] eqn:Em; [|done].
  destruct (open_backend_made _ _ _ Em) as (Hu & _ & Hlu).
  destruct (udp_get_status u) as [[status|e] u1] eqn:Es;
    destruct (status_made _ _ _ Hu Es) as (Hu1 & Hl1 & Hr); [by split|].
  destruct (is_os_error (exn_cls e)) eqn:Eo; [|by split; [|split_and!]].
  destruct ((udp_close;; in_world (sleep (int_div 1 10))) u1) as [[v|e'] u2] eqn:Ec; [|done].
  assert (Hl2 : later (network u1) (network u2)).
  { assert (Hkeep : forall u', network u' = network u1 -> in_world (sleep (int_div 1 10)) u' = (Ok v, u2) ->
      later (network u1) (network u2)).
    { unfold in_world. intros u' E. pose proof (ready_sleep deadline (int_div 1 10) (network u')) as Hs.
      destruct (sleep (int_div 1 10) (network u')) as [r w']. cbn in Hs. rewrite E in Hs.
      by intros [= _ <-]. }
    apply bind_Ok_inv in Ec as ([] & u1' & Ec & Ew). apply (Hkeep u1'); [|done].
    unfold udp_close in Ec. rewrite bind_run in Ec. cbn [gets] in Ec.
    destruct (_closed u1); by injection Ec as <-. }
  unfold later in *. apply IH; lia.
Qed.
End Wait.

Section Scripts.
Context {W : Type} `{BenchLaws W}.

Lemma udp_close_run (u : UdpBackend W) : exists u', udp_close u = (Ok tt, u') /\ _closed u' = true.
Proof using.
  unfold udp_close. rewrite bind_run. cbn [gets]. destruct (_closed u) eqn:E; [by exists u|]. by eexists.
Qed.

(** C37. A script leaves no backend open behind its checks.  The wait ends by the clock,
    the rounds of the model being enough; a backend it returns has answered: it has
    the script's credentials and settings and is in a session with the agent.  The
    checks run on it once, their outcome is the script's, and whichever way they end
    the backend is closed (checks that never end are never followed by the closing).  A backend can be left open only by the wait, by an answer
    that is an error rather than a missing one ([ValueError] or [RuntimeError]). *)
Theorem script_closes to key timeout retries read write seconds msg checks (w : W) :
  let make := open_backend to key timeout retries read write in
  let deadline := float_add (monotonic w).1 (float_of_int seconds) in
  let start := (monotonic w).2 in
  (forall rounds, (ready_rounds deadline start < rounds)%nat ->
     connect_loop rounds make deadline msg start = connect_until make deadline msg start) /\
  let '(r, c) := script make seconds msg checks w in
  match c with
  | Connected u' => exists u, connect_until make deadline msg start = Connected u /\
      in_session to key retries read write u /\
      checks u = (r, (checks u).2) /\
      if ends_in r then udp_close (checks u).2 = (Ok tt, u') /\ _closed u' = true else u' = (checks u).2
  | Left_open e u => r = Err e /\ made to key retries read write u /\
      (is_value_error (exn_cls e) = true \/ is_runtime_error (exn_cls e) = true)
  | Refused e _ => r = Err e
  end.
Proof.
  intros make deadline start. unfold script.
  assert (Hloop := fun f => connect_loop_exact to key timeout retries read write deadline msg f (S (ready_rounds deadline start)) start).
  fold make in Hloop. split; [intros rounds Hr; by apply Hloop; [|lia]|].
  destruct (Hloop (S (ready_rounds deadline start))) as [_ Hends]; [lia..|]. clear Hloop.
  subst deadline start. destruct (monotonic w) as [now w1]. cbn [fst snd] in *.
  unfold connect_until in *. destruct (connect_loop _ make _ msg w1) as [u|e u|e w2]; cbn [wait_ends] in Hends.
  - rewrite finally_run. destruct (checks u) as [r u1] eqn:Ec. destruct (udp_close_run u1) as (u2 & E2 & Hc). rewrite E2.
    destruct (ends_in r) eqn:Er; exists u; by rewrite Ec, ?Er.
  - destruct Hends as (Hm & He & Ho). split; [done|]. split; [done|]. unfold exchange_error in He. rewrite Ho in He.
    destruct He as [?|[?|?]]; [by left|by right|done].
  - done.
Qed.
End Scripts.

(** ** A bench with an agent on a link, and a clock that runs out *)
Record small_bench := mkBench {
  bench_link : Link desk;
  ticks : list spec_float;
  printed : list pystr }.

Definition on_bench_link {A} (m : stateful (Link desk) A) : stateful small_bench A := fun w =>
  let '(r, l) := m (bench_link w) in (r, mkBench l (ticks w) (printed w)).

#[export] Instance small_bench_network : Network small_bench := {|
  transmit d := on_bench_link (transmit d);
  randbits32 w := (7, w) |}.

#[export] Instance small_bench_clock : Clock small_bench := fun w =>
  match ticks w with
  | t :: ts => (t, mkBench (bench_link w) ts (printed w))
  | [] => (S754_infinity false, w)
  end.

#[export] Instance small_bench_bench : Bench small_bench := {|
  host_address host := mret (py "192.168.1.9");
  udp_socket := mret tt;
  randbelow n w := (Z.max 0 (Z.min 4 (n - 1)), w);
  sleep t := mret tt;
  print_line s := modify (fun w => mkBench (bench_link w) (ticks w) (printed w ++ [s]));
  raw_socket := mret 7;
  raw_sendto fd d to := mret tt;
  raw_close fd := mret tt;
  ready_rounds d w := length (ticks w) |}.

Lemma transmit_on_bench d (w : small_bench) : ticks (transmit d w).2 = ticks w.
Proof. unfold transmit, small_bench_network, on_bench_link. by destruct (transmit d (bench_link w)). Qed.

#[export] Instance small_bench_laws : BenchLaws small_bench.
Proof.
  split; try (intros; cbn; lia).
  - split; [|done]. intros d w. cbn [transmit small_bench_bench bench_network small_bench_network].
    unfold on_bench_link. cbn [transmit link_network]. destruct (negb (alive _)); [done|].
    by destruct (deliver_all _ _ _ _) as [[up s] arrived].
  - intros d [l [|t ts] out]; cbn; [|intros; lia].
    by destruct d as [| [] | |[] ? ?].
  - intros d m w. cbn [ready_rounds small_bench_bench]. by rewrite transmit_on_bench.
Qed.

(** The agent of the desk, on a bench whose clock shows 0, 1, 2 and then stops being
    before any deadline. *)
Definition desk_bench : small_bench :=
  mkBench (mkLink (mkServer empty_desk TEST_KEY None false false None false []) true bridge agent_at
      (fun _ => [mkDelivery sample_entropy (seq 0 32)]) (fun _ => 7) 0)
    (float_of_int <$> [0; 1; 2]) [].

Lemma script_closes_witness :
  exists u : UdpBackend small_bench,
    script (open_backend (py "desk", 21300) TEST_KEY (int_div 1 2) 1 false false) 10 (py "not ready")
      (mret tt) desk_bench = (Ok tt, Connected u) /\ _closed u = true.
Proof.
  pose proof (script_closes (py "desk", 21300) TEST_KEY (int_div 1 2) 1 false false 10 (py "not ready")
    (mret tt) desk_bench) as [_ Hs].
  assert (Er : (script (open_backend (py "desk", 21300) TEST_KEY (int_div 1 2) 1 false false) 10 (py "not ready")
    (mret tt) desk_bench).1 = Ok tt) by (vm_compute; reflexivity).
  destruct (script _ _ _ _ desk_bench) as [r c]. cbn [fst] in Er. subst r. destruct c as [u'|e u|e w].
  - destruct Hs as (u & _ & _ & _ & _ & Hcl). by exists u'.
  - by destruct Hs.
  - done.
Defined.
