(* ===== verification/DosboxE2e.v ===== *)
(** * The foreground agent's end-to-end check ([tools/dosbox_e2e.py])

    [arguments] is what [argparse] makes of the command line. *)
From Stdlib Require Import Floats.SpecFloat.
From S2P Require Import Prelude PyFloat PyText PyStr Crypto State Backend UdpBackend E2e.
From S2P Require Models.

Record arguments := mkArguments {
  arg_host : pystr;
  arg_port : Z;
  arg_key : option pystr;
  arg_password : option pystr }.

(** The defaults of the parser. *)
Definition default_arguments : arguments :=
  mkArguments (py "127.0.0.1") 21300 None (Some (py "dosbox-test")).

Definition agent_key (args : arguments) : result bytes :=
  match arg_key args, arg_password args with
  | Some value, _ => parse_key value
  | None, Some password => derive_password_key password
  | None, None => Ok OPEN_MODE_KEY
  end.

(** [repr] of a tuple of strings and of a [KeyReceipt]. *)
Definition repr_tuple (l : list pystr) : pystr :=
  py "(" ++ match l with [x] => repr x ++ py "," | _ => join (py ", ") (repr <$> l) end ++ py ")".
Definition repr_receipt (r : Models.KeyReceipt) : pystr :=
  py "KeyReceipt(accepted_text_bytes=" ++ py_int (Models.accepted_text_bytes r) ++
  py ", accepted_keys=" ++ py_int (Models.accepted_keys r) ++
  py ", keys=" ++ repr_tuple (Models.receipt_keys r) ++
  py ", screen_generation=" ++ py_int (Models.screen_generation r) ++ py ")".

Section Script.
Context {W : Type} `{Bench W}.
Local Abbreviation M := (stateful (UdpBackend W)).

(** [connect], up to the deadline. *)
Definition connect (target : Address) (key : bytes) : stateful W (UdpBackend W) :=
  open_backend target key (int_div 1 2) 1 false false.

(** The [try] block of [main]. *)
Definition checks : M unit :=
  status ← get_status;
  capabilities ← get_capabilities;
  before ← capture_screen;
  check (shows "RAGENT>" (Models.text before)) (py "foreground agent prompt was not captured");;
  receipt ← send_keys (py "VER") [py "ENTER"] 5 500;
  after ← capture_screen;
  check ((Models.accepted_text_bytes receipt =? 3) && (Models.accepted_keys receipt =? 1))
    (py "incomplete BIOS key receipt: " ++ repr_receipt receipt);;
  check (shows "Reported DOS version" (Models.text after)) (py "VER output was not captured");;
  check (bool_decide (Models.screen_adapter after = py "VGA"))
    (py "expected DOSBox VGA adapter, got " ++ Models.screen_adapter after);;
  check (negb (SFltb (float_of_int 30) (Models.uptime_seconds status)))
    (py "agent uptime is not relative to agent start");;
  in_world (print_line (py "PASS: password-derived authentication, status, capabilities, " ++
    py "fragmented VGA text capture, BIOS keys, and VER output"));;
  in_world (print_line (py "DOS=" ++ Models.operating_system status ++
    py " adapter=" ++ Models.screen_adapter after ++
    py " screen=" ++ py_int (Models.columns after) ++ py "x" ++ py_int (Models.rows after) ++
    py " keyboard=" ++ default (py "None") (Models.keyboard_injection capabilities))).

Definition main (args : arguments) (w : W) : result unit * connected W :=
  match agent_key args with
  | Err e => (Err e, Refused e w)
  | Ok key =>
      script (connect (arg_host args, arg_port args) key) 10 (py "DOS agent did not become ready") checks w
  end.
End Script.
