(* ===== verification/TsrE2e.v ===== *)
(** * The resident agent's end-to-end check ([tools/dosbox_tsr_e2e.py])

    The script against RA-TSR: typing through a keyboard queue that may be full,
    the resident diagnostics, the captures and a file's round trip.  The
    longer timeout it sets ([backend._timeout = 5.0]) is no part of the client's
    state: the exchange refines the one used here for every timeout
    ([UdpDeadline.timed_exchange_refines]). *)
From Stdlib Require Import Floats.SpecFloat.
From S2P Require Import Prelude PyFloat PyText PyStr Crypto Constants Packet Messages State Backend UdpBackend.
From S2P Require Import MemoryBackend UdpSafety AgentServer AgentInvariant AgentSafety AgentTransfer Link Exchange ReliableLink Remote E2e.
From S2P Require Models.

(** [s[k:]] *)
Definition slice_from {A} (k : Z) (s : list A) : list A :=
  if 0 <=? k then drop (Z.to_nat k) s else drop (length s - Z.to_nat (- k)) s.

(** ** [type_all], on any target; every round types a character or is one of at most
    ten in a row that type none. *)
Section TypeAll.
Context {B : Type} `{Backend B} (pause : spec_float -> stateful B unit).

Fixpoint type_loop (fuel : nat) (remaining : pystr) (stalled : Z) : stateful B unit :=
  match fuel, remaining with
  | _, [] => mret tt
  | O, _ => fail (Exn OtherError (py "out of rounds"))
  | S fuel, _ =>
      receipt ← send_keys remaining [] 0 100;
      if Models.accepted_text_bytes receipt =? 0 then
        let stalled := stalled + 1 in
        if stalled =? 10
        then fail (Exn AssertionError (py "BIOS keyboard queue did not accept input"))
        else pause (int_div 1 10);; type_loop fuel remaining stalled
      else type_loop fuel (slice_from (Models.accepted_text_bytes receipt) remaining) 0
  end.

Definition type_all (text : pystr) (enter : bool) : stateful B unit :=
  type_loop (10 * length text) text 0;;
  if enter then send_keys [] [py "ENTER"] 0 500;; mret tt else mret tt.

(** A target that types: while [I] holds, sending one of the texts [P] types a prefix
    of it, of the length the receipt says; [typed] is what has been typed. *)
Record Typist (P : pystr -> Prop) (I : B -> Prop) (typed : B -> pystr) : Prop := mkTypist {
  typist_rest n text : P text -> P (drop n text);
  typist_send text b r b' :
    I b -> P text -> send_keys text [] 0 100 b = (r, b') ->
    exists n, (n <= length text)%nat /\ typed b' = typed b ++ take n text /\
      match r with
      | Ok receipt => Models.accepted_text_bytes receipt = Z.of_nat n /\ I b'
      | Err _ => True
      end;
  typist_pause t b r b' :
    I b -> pause t b = (r, b') -> typed b' = typed b /\ match r with Ok _ => I b' | Err _ => True end }.

Context (P : pystr -> Prop) (I : B -> Prop) (typed : B -> pystr) (Ht : Typist P I typed).

Lemma type_loop_types fuel text stalled b r b' :
  I b -> P text -> type_loop fuel text stalled b = (r, b') ->
  exists n, (n <= length text)%nat /\ typed b' = typed b ++ take n text /\
    match r with Ok _ => n = length text /\ I b' | Err _ => True end.
Proof using Ht.
  revert text stalled b. induction fuel as [|fuel IH]; intros [|c text] stalled b Hb Hp; cbn [type_loop].
  1, 3: intros [= <- <-]; exists 0%nat; rewrite app_nil_r; split_and!; done || (cbn; lia).
  { intros [= <- <-]. exists 0%nat. rewrite app_nil_r. split_and!; done || (cbn; lia). }
  set (s := c :: text) in *. intros Hrun.
  apply bind_inv in Hrun as [(e & Hs & ->)|(receipt & b1 & Hs & Hrun)];
    destruct (typist_send _ _ _ Ht _ _ _ _ Hb Hp Hs) as (n & Hn & Hty & Hr); [by exists n|].
  destruct Hr as [Ha Hb1]. destruct (Z.eqb_spec (Models.accepted_text_bytes receipt) 0) as [E|E].
  - assert (n = 0)%nat as -> by lia. rewrite app_nil_r in Hty. rewrite <- Hty.
    destruct (stalled + 1 =? 10).
    { injection Hrun as <- <-. exists 0%nat. rewrite app_nil_r. split_and!; done || lia. }
    apply bind_inv in Hrun as [(e & Hs' & ->)|(v & b2 & Hs' & Hrun)];
      destruct (typist_pause _ _ _ Ht _ _ _ _ Hb1 Hs') as [Hty2 Hb2].
    + exists 0%nat. rewrite app_nil_r. split_and!; done || lia.
    + rewrite <- Hty2. by eapply IH.
  - unfold slice_from in Hrun. rewrite Ha in Hrun. replace (0 <=? Z.of_nat n) with true in Hrun by lia.
    rewrite Nat2Z.id in Hrun. apply IH in Hrun as (m & Hm & Hty2 & Hr); [|done|by apply (typist_rest _ _ _ Ht)].
    rewrite length_drop in *. exists (n + m)%nat. split; [lia|]. rewrite Hty2, Hty, <- app_assoc.
    split; [by rewrite take_take_drop|]. destruct r; [|done]. destruct Hr. split; [lia|done].
Qed.

(** More rounds than ten for each character change nothing. *)
Lemma type_loop_rounds f g text stalled b :
  I b -> P text -> 0 <= stalled < 10 ->
  10 * len text - stalled <= Z.of_nat f -> 10 * len text - stalled <= Z.of_nat g ->
  type_loop f text stalled b = type_loop g text stalled b.
Proof using Ht.
  revert g text stalled b. induction f as [|f IH]; intros [|g] [|c text] stalled b Hb Hp Hs Hf Hg;
    cbn [type_loop]; try done; try (unfold len in *; cbn [length] in *; lia).
  set (s := c :: text) in *. rewrite !bind_run. destruct (send_keys s [] 0 100 b) as [[receipt|e] b1] eqn:E1; [|done].
  destruct (typist_send _ _ _ Ht _ _ _ _ Hb Hp E1) as (n & Hn & _ & Ha & Hb1). rewrite Ha.
  destruct (Z.eqb_spec (Z.of_nat n) 0) as [E|E].
  - destruct (Z.eqb_spec (stalled + 1) 10); [done|]. rewrite !bind_run.
    destruct (pause (int_div 1 10) b1) as [[v|e] b2] eqn:E2; [|done].
    destruct (typist_pause _ _ _ Ht _ _ _ _ Hb1 E2) as [_ Hb2]. apply IH; lia || done.
  - unfold slice_from. replace (0 <=? Z.of_nat n) with true by lia. rewrite Nat2Z.id.
    apply IH; [done|by apply (typist_rest _ _ _ Ht)|lia|..]; unfold len in *; rewrite length_drop; lia.
Qed.
End TypeAll.

Section Script.
Context {W : Type} `{Bench W}.
Local Abbreviation M := (stateful (UdpBackend W)).

Definition TARGET : Address := (py "127.0.0.1", 21300).

(** [connect], up to the deadline. *)
Definition connect : stateful W (UdpBackend W) :=
  key ← lift (derive_password_key (py "dosbox-test"));
  open_backend TARGET key (float_of_int 1) 3 true true.

Definition pause (seconds : spec_float) : M unit := in_world (sleep seconds).
Definition say (s : pystr) : M unit := in_world (print_line s).

Definition type_line (text : string) : M unit := type_all pause (py text) true.

Definition check_memory (label : string) : M unit :=
  diagnostics ← get_resident_diagnostics;
  if ResidentDiagnosticsMessage.version diagnostics =? 1
  then say (py "MEM " ++ py label ++ py ": legacy diagnostics")
  else
    check (ResidentDiagnosticsMessage.version diagnostics =? 2)
      (py "unsupported resident memory diagnostics");;
    say (py "MEM " ++ py label ++ py ": " ++
      py_int (ResidentDiagnosticsMessage.resident_paragraphs diagnostics * 16) ++
      py " bytes resident, stack " ++ py_int (ResidentDiagnosticsMessage.stack_used diagnostics) ++
      py "/" ++ py_int (ResidentDiagnosticsMessage.stack_size diagnostics) ++
      py ", workspace " ++ py_int (ResidentDiagnosticsMessage.workspace_size diagnostics)).

(** A request under a key of zeros. *)
Definition send_invalid_deferred_packet : M unit :=
  packet ← lift (new_packet (mkPacket MessageKind.REQUEST Opcode.FILE_WRITE_BLOCK 1 1 0 1 [] 0));
  datagram ← lift (Packet.encode packet (replicate 16 x00));
  fd ← in_world raw_socket;
  to ← gets target;
  finally (in_world (raw_sendto fd datagram to)) (in_world (raw_close fd));;
  pause (int_div 1 10).

(** [backend._request(Opcode.PING, data) != data] *)
Definition check_ping (data : bytes) (message : string) : M unit :=
  answer ← _request Opcode.PING data;
  check (bool_decide (answer = data)) (py message).

Definition ascii (s : string) : bytes := z2b <$> py s.

Definition owns (flag flags : Z) : bool := negb (Z.land flags flag =? 0).

Definition expected_vectors : Z :=
  Z.lor (Z.lor (Z.lor ResidentDiagnosticFlag.OWNS_INT08 ResidentDiagnosticFlag.OWNS_INT1C)
    ResidentDiagnosticFlag.OWNS_INT28) ResidentDiagnosticFlag.OWNS_INT2F.

(** *** The parts of [main]'s [try] block, in order *)
Definition check_startup : M unit :=
  status ← get_status;
  capabilities ← get_capabilities;
  check (bool_decide (Models.phase status = py "observe_ready"))
    (py "unexpected TSR phase: " ++ Models.phase status);;
  check (Models.filesystem_read capabilities && Models.filesystem_write capabilities)
    (py "TSR file capabilities were not advertised");;
  check (negb (bool_decide (Models.graphics_capture capabilities = [])))
    (py "TSR graphics capability was not advertised");;
  diagnostics ← get_resident_diagnostics;
  check (Z.land (ResidentDiagnosticsMessage.flags diagnostics) expected_vectors =? expected_vectors)
    (py "TSR does not own all installed interrupt vectors");;
  check_memory "startup".

Definition check_requests : M unit :=
  send_invalid_deferred_packet;;
  check_ping (ascii "after-invalid") "invalid file packet occupied the receive slot";;
  send_keys [] [] 0 0;;
  check_ping (replicate 32 x78) "32-byte TSR response failed";;
  check_ping (replicate 256 x79) "256-byte TSR response failed".

Definition check_screen : M unit :=
  before ← capture_screen;
  check (shows "TSRHOST>" (Models.text before)) (py "foreground TSR test host was not captured");;
  type_line "VER";;
  after ← capture_screen;
  check (shows "DOS version" (Models.text after)) (py "VER output was not captured through the TSR");;
  type_line "BADC";;
  hidden ← capture_screen;
  let cursor := Models.cursor hidden in
  check (negb (Models.cursor_visible cursor || negb (Models.cursor_row cursor =? 0) ||
               negb (Models.cursor_column cursor =? 0)))
    (py "off-screen DOS cursor was not normalized");;
  type_line "GOODC".

Definition check_watchdog : M unit :=
  type_line "CUT1C";;
  cut_before ← get_resident_diagnostics;
  pause (int_div 1 4);;
  check_ping (ascii "watchdog") "INT 08h watchdog did not service a request";;
  cut_after ← get_resident_diagnostics;
  check (negb (owns ResidentDiagnosticFlag.OWNS_INT1C (ResidentDiagnosticsMessage.flags cut_after)))
    (py "INT 1Ch suppression fixture did not take ownership");;
  check (owns ResidentDiagnosticFlag.OWNS_INT08 (ResidentDiagnosticsMessage.flags cut_after))
    (py "RA-TSR lost INT 08h during watchdog test");;
  check (ResidentDiagnosticsMessage.int1c_entries cut_after =? ResidentDiagnosticsMessage.int1c_entries cut_before)
    (py "suppressed INT 1Ch unexpectedly continued");;
  check (ResidentDiagnosticsMessage.fallback_runs cut_before <? ResidentDiagnosticsMessage.fallback_runs cut_after)
    (py "INT 08h watchdog fallback did not run");;
  type_line "REST1C";;
  restored ← get_resident_diagnostics;
  check (owns ResidentDiagnosticFlag.OWNS_INT1C (ResidentDiagnosticsMessage.flags restored))
    (py "INT 1Ch was not restored after watchdog test");;
  check_memory "watchdog".

Definition expected_graphics : bytes :=
  (fun index => z2b (Z.land (Z.lxor index (Z.shiftr index 8)) 0xFF)) <$> seqZ 0 64000.

Definition check_graphics : M unit :=
  type_line "NO28";;
  type_line "GFX13";;
  pause (int_div 1 5);;
  begun ← (payload ← _request Opcode.GRAPHICS_BEGIN []; lift (GraphicsBeginResponse.decode payload));
  request ← lift (TransferEndRequest.encode (TransferEndRequest.mk (GraphicsBeginResponse.transfer_id begun)));
  aborted ← _request Opcode.FILE_ABORT request;
  check (bool_decide (aborted = [])) (py "graphics abort returned an unexpected payload");;
  check_ping (ascii "after-abort") "graphics abort wedged the receive queue";;
  graphics ← capture_graphics;
  check ((Models.video_mode graphics =? 0x13) && bool_decide (Models.layout graphics = py "packed-8bpp") &&
         (Models.width graphics =? 320) && (Models.height graphics =? 200) &&
         bool_decide (Models.data graphics = expected_graphics))
    (py "VGA mode 13h framebuffer capture failed");;
  type_line "TEXT";;
  type_line "YES28";;
  pause (int_div 1 5);;
  check_memory "graphics".

(** A download that must fail with [AgentOperationError]. *)
Definition check_relative_path : M unit := fun u =>
  match download_file (py "ROUNDTRP.BIN") u with
  | (Ok _, u) => (raise AssertionError (py "ALL mode accepted a relative DOS path"), u)
  | (Err e, u) => if bool_decide (exn_cls e = AgentOperationError) then (Ok tt, u) else (Err e, u)
  end.

Definition check_files : M unit :=
  let content := ascii "small-transfer" in
  check_relative_path;;
  let path := py "C:\REMOTE\ROUNDTRP.BIN" in
  receipt ← catch (upload_file path content true)
    (fun e =>
       if bool_decide (exn_cls e = TimeoutError) then
         catch (check_memory "file-transfer-timeout")
           (fun diagnostic_error => say (py "MEM file-transfer-timeout: unavailable (" ++
              exn_msg diagnostic_error ++ py ")"));;
         fail e
       else fail e);
  downloaded ← download_file path;
  check ((Models.receipt_size receipt =? len content) && bool_decide (Models.contents_data downloaded = content))
    (py "TSR binary file round trip failed");;
  check_memory "file-transfer".

Definition check_unload : M unit :=
  type_all pause (py "EXIT") false;;
  (* [with suppress(TimeoutError)] *)
  catch (send_keys [] [py "ENTER"] 0 0;; mret tt)
    (fun e => if bool_decide (exn_cls e = TimeoutError) then mret tt else fail e);;
  say (py "PASS: resident status, INT08 watchdog, text/VGA capture, BIOS keys, " ++
    py "binary upload/download, and unload").

Definition checks : M unit :=
  check_startup;; check_requests;; check_screen;; check_watchdog;; check_graphics;; check_files;;
  check_unload.

Definition main (w : W) : result unit * connected W :=
  script connect 30 (py "RA-TSR did not become ready") checks w.
End Script.

(** ** Typing through the backend *)
Section RemoteTyping.
Context {M : Type} `{Backend M}.
Context (Hsmall : small_screens (B:=M)).
Context (P : pystr -> Prop) (J : M -> Prop) (typed : M -> pystr).
Context (Hm : Typist (fun _ => mret tt) P J typed).
Context (Hfits : forall text b receipt b', J b -> P text ->
  send_keys text [] 0 100 b = (Ok receipt, b') -> 0 <= Models.accepted_keys receipt < 256).
Context (Hreturns : forall text b r b', J b -> P text -> send_keys text [] 0 100 b = (r, b') -> ends_in r = true).
Context (pause : spec_float -> stateful (UdpBackend (Link M)) unit).
Context (Hpause : forall t u b tr, in_touch u b tr -> in_touch (pause t u).2 b tr).

(** A text the client can send at once. *)
Definition sendable (text : pystr) : Prop :=
  P text /\ exists encoded, cp437_encode text = Ok encoded /\ len encoded <= 4096.

(** The client is in touch with a machine in its good states; what is typed is typed
    on that machine. *)
Definition at_machine (u : UdpBackend (Link M)) : Prop := exists b t, in_touch u b t /\ J b.
Definition typed_there (u : UdpBackend (Link M)) : pystr := typed (AgentServer.backend (agent (network u))).

Lemma in_touch_machine (u : UdpBackend (Link M)) b t : in_touch u b t -> AgentServer.backend (agent (network u)) = b.
Proof using.
  intros (s & <- & [(_ & Hl & _)|(_ & x & Hs)]); [by rewrite (linked_agent _ _ Hl)|].
  by rewrite (joined_agent _ _ _ (synced_joined _ _ _ Hs)).
Qed.

Lemma sendable_rest n text : sendable text -> sendable (drop n text).
Proof using Hm.
  intros (Hp & encoded & He & Hl). split; [by apply (typist_rest _ _ _ _ Hm)|]. exists (drop n encoded).
  unfold cp437_encode in *. rewrite map_result_Ok in *. split; [by apply Forall2_drop|].
  unfold len in *. rewrite length_drop. lia.
Qed.

Lemma remote_typist : Typist pause sendable at_machine typed_there.
Proof using Hsmall Hm Hfits Hreturns Hpause.
  split; [apply sendable_rest| |].
  - intros text u r u' (b & t & Hu & Hb) (Hp & encoded & He & Hl) Hrun.
    destruct (send_keys text [] 0 100 b) as [rb b'] eqn:Eb.
    destruct (typist_send _ _ _ _ Hm _ _ _ _ Hb Hp Eb) as (n & Hn & Hty & Hr).
    destruct (remote_send_keys Hsmall text [] 0 100 u b t encoded [] rb b' Hu He) as (u1 & Hu1 & _ & Hrun1);
      try done; try lia; [exact (Hreturns _ _ _ _ Hb Hp Eb)| |].
    { intros receipt ->. destruct Hr as [Ha _]. pose proof (Hfits _ _ _ _ Hb Hp Eb).
      assert (length text = length encoded) by (unfold cp437_encode in He; apply map_result_Ok, Forall2_length in He; done).
      unfold len in Hl. pose proof (land_mask16_range (Models.screen_generation receipt)).
      unfold KeyResponse.valid. repeat split; cbn; lia. }
    rewrite Hrun1 in Hrun. injection Hrun as <- <-. unfold typed_there.
    rewrite (in_touch_machine _ _ _ Hu1), (in_touch_machine _ _ _ Hu). exists n. split; [done|]. split; [done|].
    destruct rb as [receipt|e]; [|done]. destruct Hr as [Ha Hb']. split; [done|]. by exists b', t.
  - intros t u r u' (b & tr & Hu & Hb) Hrun. pose proof (Hpause t u b tr Hu) as Hu'. rewrite Hrun in Hu'.
    unfold typed_there. cbn [snd] in Hu'.
    rewrite (in_touch_machine _ _ _ Hu'), (in_touch_machine _ _ _ Hu). split; [done|].
    destruct r; [|done]. by exists b, tr.
Qed.

(** C35. [type_all] types its text, or says that it did not.  Over the link, on a machine
    that takes a prefix of what it is sent (nothing at all when its keyboard queue is
    full) and says how much, what has been typed afterwards is a prefix of the text,
    nothing twice and nothing out of order, and it is the whole text whenever
    [type_all] returns; it ends by its own conditions, after ten fruitless tries in a
    row at the latest, within ten rounds for each character. *)
Theorem type_all_types text (u : UdpBackend (Link M)) b t :
  in_touch u b t -> J b -> sendable text ->
  let '(r, u') := type_all pause text false u in
  (exists n, (n <= length text)%nat /\ typed_there u' = typed b ++ take n text /\
     (r = Ok tt -> n = length text)) /\
  forall rounds, (10 * length text <= rounds)%nat ->
    type_loop pause rounds text 0 u = type_loop pause (10 * length text) text 0 u.
Proof using Hsmall Hm Hfits Hreturns Hpause.
  intros Hu Hb Hs. assert (Hat : at_machine u) by by exists b, t.
  destruct (type_all pause text false u) as [r u'] eqn:E. split.
  - apply bind_inv in E as [(e & E & ->)|([] & u1 & E & [= <- <-])];
      destruct (type_loop_types _ _ _ _ remote_typist _ _ _ _ _ _ Hat Hs E) as (n & Hn & Hty & Hr);
      unfold typed_there in Hty at 2; rewrite (in_touch_machine _ _ _ Hu) in Hty; exists n.
    + by split_and!.
    + destruct Hr as [Hr _]. by split_and!.
  - intros rounds Hr. eapply (type_loop_rounds _ _ _ _ remote_typist); try done; unfold len; lia.
Qed.
End RemoteTyping.

(** ** A slow keyboard: every other call takes one character, the others none *)
Record keyboard := mkKeyboard { took : pystr; full : bool }.

#[export] Instance keyboard_backend : Backend keyboard := {|
  get_status := mret memory_status;
  get_capabilities := mret memory_capabilities;
  capture_screen := mret memory_screen;
  capture_graphics := mret memory_graphics;
  send_keys text keys delay settle := fun k =>
    if full k then (Ok (Models.mkKeyReceipt 0 0 [] 0), mkKeyboard (took k) false)
    else (Ok (Models.mkKeyReceipt (len (take 1 text)) 0 [] 0), mkKeyboard (took k ++ take 1 text) true);
  download_file path := fail (Exn ValueError []);
  upload_file path data overwrite := fail (Exn ValueError []);
  close := mret tt |}.

Lemma keyboard_small : small_screens (B:=keyboard).
Proof. by intros b screen b' [= <- _]. Qed.

Lemma keyboard_typist : Typist (B:=keyboard) (fun _ => mret tt) (fun _ => True) (fun _ => True) took.
Proof.
  split; [done| |by intros t b r b' _ [= <- <-]].
  intros text [k []] r b' _ _; cbn; intros [= <- <-].
  - exists 0%nat. cbn. rewrite app_nil_r. split_and!; [lia|done..].
  - exists (length (take 1 text)). split_and!; [rewrite length_take; lia| |done..].
    cbn. by destruct text.
Qed.

Definition keyboard_client : UdpBackend (Link keyboard) :=
  mkUdp (mkLink (mkServer (mkKeyboard [] true) TEST_KEY None false false None false []) true bridge agent_at
      (fun _ => [mkDelivery sample_entropy (seq 0 32)]) (fun _ => 7) 0)
    [] agent_at TEST_KEY 3 true true 0 None 1 false.

Lemma type_all_types_witness :
  exists u' : UdpBackend (Link keyboard),
    type_all (fun _ => mret tt) (py "VER") false keyboard_client = (Ok tt, u') /\
    exists n, (n <= 3)%nat /\ typed_there took u' = take n (py "VER") /\ n = 3%nat.
Proof.
  assert (Hu : in_touch keyboard_client (mkKeyboard [] true) None).
  { apply (new_in_touch (network keyboard_client) (mkKeyboard [] true) TEST_KEY (S754_finite false 1 0) 3 true true 0); try done.
    intros i. exists sample_entropy. by split. }
  assert (Hs : sendable (fun _ => True) (py "VER")).
  { split; [done|]. exists [x56; x45; x52]. split; [vm_compute; reflexivity|]. vm_compute. discriminate. }
  pose proof (type_all_types keyboard_small (fun _ => True) (fun _ => True) took keyboard_typist
    ltac:(intros text [k []] receipt b' _ _ [= <- _]; cbn; lia)
    ltac:(intros text [k []] r b' _ _ [= <- _]; reflexivity) (fun _ => mret tt)
    (fun _ _ _ _ Hu => Hu) (py "VER") keyboard_client _ None Hu Logic.I Hs) as Ht.
  destruct (type_all _ _ _ _) as [r u'] eqn:E. destruct Ht as [(n & Hn & Hty & Hr) _].
  exists u'. assert (Er : r = Ok tt) by (apply (f_equal fst) in E; vm_compute in E; by symmetry).
  split; [by rewrite Er|]. exists n. split; [done|]. split; [done|by apply Hr].
Defined.
