(* ===== verification/CheckDocs.v ===== *)
(** * The check of the documentation's links ([tools/check_docs.py])

    The tool that looks for broken links in the repository's Markdown files: the
    regular expression of a link with [finditer], the local target of a link, and
    [main] on a file system.  Walking the tree ([Path.rglob]) is the file system's. *)
From S2P Require Import Prelude PyText PyStr State Files.

(** ** More of Python's [str] *)

(** [s.split(c, 1)] of an [s] with a [c]: before and after the first one. *)
Fixpoint until (stop : Z) (s : pystr) : option (pystr * pystr) :=
  match s with
  | [] => None
  | c :: s =>
      if c =? stop then Some ([], s)
      else match until stop s with Some (before, after) => Some (c :: before, after) | None => None end
  end.

(** [s.lstrip()] and [s.strip()] of the characters that satisfy [p]. *)
Fixpoint lstrip (p : Z -> bool) (s : pystr) : pystr :=
  match s with c :: s' => if p c then lstrip p s' else s | [] => [] end.
Definition strip (p : Z -> bool) (s : pystr) : pystr := reverse (lstrip p (reverse (lstrip p s))).

(** The characters at the front that do not satisfy [p]. *)
Fixpoint take_word (p : Z -> bool) (s : pystr) : pystr :=
  match s with c :: s => if p c then [] else c :: take_word p s | [] => [] end.

(** [s.split(maxsplit=1)] *)
Definition split_once (s : pystr) : list pystr :=
  match lstrip char_isspace s with
  | [] => []
  | s =>
      let word := take_word char_isspace s in
      match lstrip char_isspace (drop (length word) s) with [] => [word] | rest => [word; rest] end
  end.

(** [bytes.decode("utf-8", "replace")]: what the decoder still holds at the end is
    replaced, both bytes of a surrogate's beginning on their own. *)
Definition utf8_flush (pending : list Z) : pystr :=
  match pending with [] => [] | _ => if surrogate_start pending then [0xFFFD; 0xFFFD] else [0xFFFD] end.
Definition utf8_decode_replace (data : bytes) : pystr :=
  let '(out, pending) := utf8_decode [] data in out ++ utf8_flush pending.

(** [bytes.decode("utf-8")]: bytes are valid exactly when nothing had to be replaced,
    that is, when the text encodes to them. *)
Definition utf8_decode_strict (data : bytes) : result pystr :=
  let s := utf8_decode_replace data in
  if bool_decide (utf8_encode s = Ok data) then Ok s
  else raise UnicodeError (py "'utf-8' codec can't decode byte").

(** Universal newlines. *)
Fixpoint newlines (s : pystr) : pystr :=
  match s with
  | 13 :: 10 :: s => 10 :: newlines s
  | 13 :: s => 10 :: newlines s
  | c :: s => c :: newlines s
  | [] => []
  end.

(** [urllib.parse.unquote]: within every run of ASCII characters the escapes are
    turned into bytes, which are decoded together. *)
Fixpoint unquote_to_bytes (s : pystr) : bytes :=
  match s with
  | [] => []
  | c :: s' =>
      match c =? 37, s' with
      | true, a :: b :: rest =>
          match hex_value a, hex_value b with
          | Some x, Some y => z2b (x * 16 + y) :: unquote_to_bytes rest
          | _, _ => z2b c :: unquote_to_bytes s'
          end
      | _, _ => z2b c :: unquote_to_bytes s'
      end
  end.

(** The string cut into its runs of ASCII and of other characters. *)
Fixpoint ascii_runs (s : pystr) : list (bool * pystr) :=
  match s with
  | [] => []
  | c :: s =>
      let ascii := c <? 128 in
      match ascii_runs s with
      | (ascii', run) :: runs =>
          if Bool.eqb ascii ascii' then (ascii, c :: run) :: runs else (ascii, [c]) :: (ascii', run) :: runs
      | [] => [(ascii, [c])]
      end
  end.

Definition unquote (s : pystr) : pystr :=
  concat ((fun r : bool * pystr => if r.1 then utf8_decode_replace (unquote_to_bytes r.2) else r.2)
    <$> ascii_runs s).

Example unquote_examples :
  unquote (py "a%20b%") = py "a b%" /\ unquote (py "%C3%A9%4") = 0xE9 :: py "%4" /\
  unquote (py "%C3" ++ [0xE9] ++ py "%a9%%41") = [0xFFFD; 0xE9; 0xFFFD] ++ py "%A" /\
  unquote (py "%ed%a0%zz") = [0xFFFD; 0xFFFD] ++ py "%zz" /\ unquote (py "%ed%a0") = [0xFFFD; 0xFFFD].
Proof. by vm_compute. Qed.

(** ** [LINK]: a label in brackets, then a target in parentheses *)

(** [LINK.match]: the target and what follows the link. *)
Definition match_link (s : pystr) : option (pystr * pystr) :=
  s ← expect 91 s;
  labelled ← until 93 s;
  s ← expect 40 labelled.2;
  targeted ← until 41 s;
  let '(target, s) := targeted in
  if bool_decide (target = []) then None else Some (target, s).

(** [LINK.finditer]: the targets of the links, from left to right.  Every round
    reads a character. *)
Fixpoint find_links (rounds : nat) (s : pystr) : list pystr :=
  match rounds, s with
  | S rounds, c :: s' =>
      match match_link s with
      | Some (target, rest) => target :: find_links rounds rest
      | None => find_links rounds s'
      end
  | _, _ => []
  end.
Definition finditer (s : pystr) : list pystr := find_links (length s) s.

(** ** [local_target]: the text of the path a link leads to, none for a link out of
    the repository *)
Definition angle (c : Z) : bool := (c =? 60) || (c =? 62).

Definition target_path (raw_target : pystr) : result (option path) :=
  word ← getitem (split_once (strip char_isspace raw_target)) 0;
  let target := strip angle word in
  if bool_decide (target = []) ||
     existsb (fun prefix => bool_decide (take (length prefix) target = prefix))
       [py "#"; py "http://"; py "https://"; py "mailto:"]
  then Ok None
  else
    let path_text := unquote (match until 35 target with Some (before, _) => before | None => target end) in
    Ok (Some (path_of path_text)).

(** A blank target raises before the test for an empty one; [<>] is ignored. *)
Example target_path_blank :
  target_path (py "  ") = raise IndexError (py "list index out of range") /\ target_path (py "<> x") = Ok None.
Proof. vm_compute. split; reflexivity. Qed.

(** ** The program *)
Class Docs (W : Type) := {
  docs_files :: Files W;
  rglob (root : path) (pattern : pystr) : stateful W (list path);
  print_out (s : pystr) : stateful W unit;
  print_err (s : pystr) : stateful W unit }.
#[global] Hint Mode Docs ! : typeclass_instances.

Definition SKIP_PARTS : list pystr := [py ".git"; py ".venv"; py ".pytest_cache"; py ".ruff_cache"].

Definition skipped (p : path) : bool := existsb (fun part => bool_decide (part ∈ SKIP_PARTS)) (parts p).

(** Paths are ordered by their parts: as strings, with a separator below every
    character. *)
Definition path_key (p : path) : pystr := join [-1] (split_slashes (path_str p)).

(** [p.parents[1]] *)
Definition parents_1 (p : path) : result path :=
  raise_if (Nat.ltb (length (parts p)) 2) IndexError (py "1");; Ok (parent (parent p)).

Section Program.
Context {W : Type} `{Docs W}.
Local Abbreviation M := (stateful W).

Definition read_text (p : path) : M pystr :=
  data ← read_bytes p;
  s ← lift (utf8_decode_strict data);
  mret (newlines s).

Definition markdown_files (root : path) : M (list path) :=
  found ← rglob root (py "*.md");
  mret (sorted_by path_key (filter (fun p => skipped p = false) found)).

Definition local_target (source : path) (raw_target : pystr) : M (option path) :=
  target ← lift (target_path raw_target);
  match target with
  | None => mret None
  | Some target => t ← resolve (joinpath (parent source) target); mret (Some t)
  end.

(** The inner loop: the failures of one file's links. *)
Fixpoint check_links (root source : path) (targets failures : list pystr) : M (list pystr) :=
  match targets with
  | [] => mret failures
  | raw :: targets =>
      target ← local_target source raw;
      present ← match target with Some t => exists_ t | None => mret true end;
      if present : bool then check_links root source targets failures
      else
        relative_source ← lift (relative_to source root);
        check_links root source targets
          (failures ++ [path_str relative_source ++ py ": missing target " ++ repr raw])
  end.

Fixpoint check_files (root : path) (files : list path) (failures : list pystr) : M (list pystr) :=
  match files with
  | [] => mret failures
  | source :: files =>
      content ← read_text source;
      failures ← check_links root source (finditer content) failures;
      check_files root files failures
  end.

(** [main], with the path of the script. *)
Definition check_docs (file : path) : M Z :=
  script ← resolve file;
  root ← lift (parents_1 script);
  files ← markdown_files root;
  failures ← check_files root files [];
  match failures with
  | [] =>
      print_out (py "PASS: " ++ py_int (len files) ++ py " Markdown files have valid local links");;
      mret 0
  | _ => print_err (join [10] failures);; mret 1
  end.
End Program.

(** ** What a link is

    The language of the regular expression, and the order of [finditer]: from left
    to right, a link where one starts, its text read once. *)
Definition link (label target : pystr) : pystr := [91] ++ label ++ [93; 40] ++ target ++ [41].
Definition is_link (label target : pystr) : Prop :=
  (93 ∉ label) /\ (41 ∉ target) /\ target <> [].

Inductive Links : pystr -> list pystr -> Prop :=
| links_end : Links [] []
| links_hit label target rest l :
    is_link label target -> Links rest l -> Links (link label target ++ rest) (target :: l)
| links_miss c s l :
    (forall label target rest, is_link label target -> c :: s <> link label target ++ rest) ->
    Links s l -> Links (c :: s) l.

Lemma until_Some stop s a b : until stop s = Some (a, b) <-> s = a ++ stop :: b /\ stop ∉ a.
Proof.
  revert a. induction s as [|c s IH]; intros a; cbn [until]; [split; [done|]; intros [E _]; by destruct a|].
  destruct (Z.eqb_spec c stop) as [->|Hne].
  - split; [intros [= <- <-]; split; [done|apply not_elem_of_nil]|]. intros [E Hn].
    destruct a as [|d a]; [by injection E as ->|]. injection E as <- ->. destruct Hn. left.
  - destruct (until stop s) as [[a' b']|] eqn:E.
    + split; [intros [= <- <-]; destruct (proj1 (IH a') eq_refl) as [-> Hn]|].
      { split; [done|]. rewrite not_elem_of_cons. auto. }
      intros [Es Hn]. destruct a as [|d a]; [by injection Es|]. injection Es as <- Es.
      apply not_elem_of_cons in Hn as [_ Hn]. by pose proof (proj2 (IH a) (conj Es Hn)) as [= -> ->].
    + split; [done|]. intros [Es Hn]. destruct a as [|d a]; [by injection Es|]. injection Es as <- Es.
      apply not_elem_of_cons in Hn as [_ Hn]. by pose proof (proj2 (IH a) (conj Es Hn)).
Qed.

Lemma link_app label target rest :
  link label target ++ rest = 91 :: label ++ 93 :: 40 :: target ++ 41 :: rest.
Proof. unfold link. cbn. rewrite <- app_assoc. cbn. by rewrite <- app_assoc. Qed.

Lemma match_link_Some s target rest :
  match_link s = Some (target, rest) <->
  (exists label, is_link label target /\ s = link label target ++ rest).
Proof.
  unfold match_link, is_link. split.
  - intros (s1 & ->%expect_Some & H)%bind_Some. apply bind_Some in H as ([label s2] & [-> Hl]%until_Some & H).
    cbn [snd] in H. apply bind_Some in H as (s3 & ->%expect_Some & H).
    apply bind_Some in H as ([t s4] & [-> Ht]%until_Some & H).
    case_bool_decide as Hne; [done|]. injection H as -> ->. exists label.
    by rewrite link_app.
  - intros (label & (Hl & Ht & Hne) & ->). rewrite link_app. cbn.
    rewrite (proj2 (until_Some 93 _ label (40 :: target ++ 41 :: rest))) by done. cbn.
    rewrite (proj2 (until_Some 41 _ target rest)) by done. cbn. by rewrite bool_decide_false.
Qed.

Lemma match_link_None s :
  match_link s = None <->
  (forall label target rest, is_link label target -> s <> link label target ++ rest).
Proof.
  split.
  - intros E label target rest Hl ->. assert (match_link (link label target ++ rest) = Some (target, rest)); [|congruence].
    apply match_link_Some. eauto.
  - intros Hn. destruct (match_link s) as [[t rest]|] eqn:E; [|done].
    apply match_link_Some in E as (label & Hl & ->). by destruct (Hn label t rest Hl).
Qed.

Lemma find_links_exact rounds s l :
  (length s <= rounds)%nat -> Links s l <-> find_links rounds s = l.
Proof.
  revert s l. induction rounds as [|rounds IH]; intros [|c s] l Hr; cbn [find_links]; try (cbn in Hr; lia).
  1, 2: split; [by inversion 1|intros <-; constructor].
  destruct (match_link (c :: s)) as [[t rest]|] eqn:E.
  - pose proof E as Hm. apply match_link_Some in E as (label & Hl & E).
    assert (Hlen : (length rest <= rounds)%nat).
    { apply (f_equal length) in E. unfold link in E. rewrite !length_app in E. cbn in E, Hr. lia. }
    split.
    + clear Hr. revert Hm E. generalize (c :: s). intros u Hu E HL.
      destruct HL as [|label' t' rest' l' Hl' HL'|c' s' l' Hn]; [done| |by destruct (Hn label t rest Hl)].
      rewrite E in Hu. rewrite (proj2 (match_link_Some _ t' rest')) in Hu by eauto.
      injection Hu as -> ->. f_equal. by apply IH.
    + intros <-. rewrite E. constructor; [done|]. by apply IH.
  - pose proof (proj1 (match_link_None _) E) as Hn. cbn in Hr. split.
    + inversion 1 as [|label' t' rest' l' Hl' HL Eq|]; subst; [by destruct (Hn label' t' rest' Hl')|].
      apply IH; [lia|done].
    + intros Hl. constructor; [done|]. apply IH; [lia|done].
Qed.

Lemma finditer_links s l : Links s l <-> finditer s = l.
Proof. by apply find_links_exact. Qed.

(** [finditer] finds the links and nothing else: it returns exactly the targets of
    the leftmost links of the text, in their order, each searched for after the end
    of the one before; the rounds of the model are enough for every text. *)
Theorem finditer_exact s l : Links s l <-> finditer s = l.
Proof. apply finditer_links. Qed.

(** ** A tree that stays as it is

    [answers m a]: in every world [m] returns [a] and prints nothing. *)
Definition answers {W A} (printed : W -> pystr * pystr) (m : stateful W A) (a : A) : Prop :=
  forall w, (m w).1 = Ok a /\ printed (m w).2 = printed w.

(** A tree of files: the Markdown files below a directory, what a file holds, where
    a path leads and whether something is there. *)
Record Tree := mkTree {
  tree : path -> list path;
  data_at : path -> option bytes;
  resolved : path -> option path;
  present : path -> bool }.

(** The operations tell of the tree [T], which nobody changes. *)
Class DocsLaws (W : Type) `{Docs W} (T : Tree) := {
  printed : W -> pystr * pystr;
  tree_below root p : p ∈ tree T root -> is_relative_to p root = true;
  rglob_answers root : answers printed (rglob root (py "*.md")) (tree T root);
  read_answers p d : data_at T p = Some d -> answers printed (read_bytes p) d;
  resolve_answers p t : resolved T p = Some t -> answers printed (resolve p) t;
  exists_answers p : answers printed (exists_ p) (present T p);
  print_out_Ok s w : exists w', print_out s w = (Ok tt, w') /\
    printed w' = ((printed w).1 ++ s ++ [10], (printed w).2);
  print_err_Ok s w : exists w', print_err s w = (Ok tt, w') /\
    printed w' = ((printed w).1, (printed w).2 ++ s ++ [10]) }.
#[global] Hint Mode DocsLaws ! - - : typeclass_instances.

Section Verdict.
Context (T : Tree).

(** The text of a Markdown file, and the targets of its links. *)
Definition text_of (p : path) (s : pystr) : Prop :=
  exists d u, data_at T p = Some d /\ utf8_decode_strict d = Ok u /\ s = newlines u.
Definition has_link (p : path) (raw : pystr) : Prop :=
  exists s l, text_of p s /\ Links s l /\ raw ∈ l.

(** Where a link of the file [p] leads within the repository. *)
Definition leads_to (p : path) (raw : pystr) (t : path) : Prop :=
  exists q, target_path raw = Ok (Some q) /\ resolved T (joinpath (parent p) q) = Some t.

(** A file the tool can read to its end: text, with links whose targets are not
    blank and can be resolved T. *)
Definition checkable (p : path) : Prop :=
  (exists s, text_of p s) /\
  forall raw, has_link p raw ->
    target_path raw = Ok None \/ exists t, leads_to p raw t.

Definition missing (p : path) (raw : pystr) : bool :=
  match target_path raw with
  | Ok (Some q) => match resolved T (joinpath (parent p) q) with Some t => negb (present T t) | None => false end
  | _ => false
  end.

Definition failure_line (root : path) (f : path * pystr) : pystr :=
  match relative_to f.1 root with
  | Ok r => path_str r ++ py ": missing target " ++ repr f.2
  | Err _ => []
  end.

Lemma missing_true p raw : missing p raw = true <-> exists t, leads_to p raw t /\ present T t = false.
Proof.
  unfold missing, leads_to. split.
  - destruct (target_path raw) as [[q|]|] eqn:Et; [|done..]. destruct (resolved T _) as [t|] eqn:Er; [|done].
    intros Hp%negb_true_iff. eauto 6.
  - intros (t & (q & -> & ->) & ->). done.
Qed.

(** The broken links of the files, in their order. *)
Definition broken (files : list path) : list (path * pystr) :=
  files ≫= fun p =>
    match data_at T p ≫= fun d => match utf8_decode_strict d with Ok u => Some u | Err _ => None end with
    | Some u => (fun raw => (p, raw)) <$> List.filter (missing p) (finditer (newlines u))
    | None => []
    end.

Lemma broken_spec files p raw :
  (p, raw) ∈ broken files <->
  p ∈ files /\ has_link p raw /\ exists t, leads_to p raw t /\ present T t = false.
Proof.
  unfold broken. rewrite list_elem_of_bind. setoid_rewrite <- missing_true. split.
  - intros (q & Hin & Hq). destruct (data_at T q) as [d|] eqn:Ed; cbn in Hin; [|by apply elem_of_nil in Hin].
    destruct (utf8_decode_strict d) as [u|] eqn:Eu; [|by apply elem_of_nil in Hin].
    apply list_elem_of_fmap in Hin as (raw' & [= -> ->] & Hin%list_elem_of_In%List.filter_In).
    destruct Hin as [Hin Hm]. split_and!; [done| |done].
    exists (newlines u), (finditer (newlines u)). split_and!; [by exists d, u|by apply finditer_links|].
    by apply list_elem_of_In.
  - intros (Hp & (s & l & (d & u & Ed & Eu & ->) & Hl & Hin) & Hm). exists p. split; [|done].
    rewrite Ed. cbn. rewrite Eu. apply list_elem_of_fmap. exists raw. split; [done|].
    apply list_elem_of_In, List.filter_In. split; [|done]. apply list_elem_of_In.
    by rewrite (proj1 (finditer_links _ _) Hl).
Qed.

Section Run.
Context {W : Type} `{DocsLaws W T}.
Local Abbreviation answers := (answers (W:=W) (printed (W:=W) (T:=T))).

Lemma answers_ret {A} (a : A) : answers (mret a : stateful W A) a.
Proof. done. Qed.
Lemma answers_lift {A} (r : result A) a : r = Ok a -> answers (lift r : stateful W A) a.
Proof. by intros ->. Qed.
Lemma answers_bind {A C} (m : stateful W A) a (f : A -> stateful W C) c :
  answers m a -> answers (f a) c -> answers (m ≫= f) c.
Proof.
  intros Hm Hf w. rewrite bind_run. destruct (Hm w) as [Hr Hp], (m w) as [r w']. cbn in Hr, Hp. subst r.
  rewrite <- Hp. apply Hf.
Qed.

Lemma check_links_answers root p targets failures :
  is_relative_to p root = true ->
  Forall (fun raw => target_path raw = Ok None \/ exists t, leads_to p raw t) targets ->
  answers (check_links root p targets failures)
    (failures ++ (failure_line root <$> ((fun raw => (p, raw)) <$> List.filter (missing p) targets))).
Proof.
  intros Hroot Hl. revert failures. induction Hl as [|raw targets Hraw _ IH]; intros failures; cbn [check_links].
  { rewrite app_nil_r. apply answers_ret. }
  unfold local_target. cbn [List.filter]. unfold missing at 1.
  destruct Hraw as [E|(t & q & E & Er)]; rewrite E.
  - eapply answers_bind; [eapply answers_bind; [by apply answers_lift|apply answers_ret]|].
    eapply answers_bind; [apply answers_ret|]. apply IH.
  - rewrite Er. eapply answers_bind.
    { eapply answers_bind; [by apply answers_lift|]. eapply answers_bind; [by apply resolve_answers|apply answers_ret]. }
    eapply answers_bind; [apply exists_answers|]. destruct (present T t); cbn [negb].
    + apply IH.
    + unfold relative_to. rewrite Hroot. eapply answers_bind; [by apply answers_lift|].
      assert (Hline : failure_line root (p, raw) =
        path_str (mkPath [] (drop (length (parts root)) (parts p))) ++ py ": missing target " ++ repr raw).
      { unfold failure_line, relative_to. cbn [fst snd]. by rewrite Hroot. }
      rewrite <- Hline. specialize (IH (failures ++ [failure_line root (p, raw)])).
      by rewrite <- app_assoc in IH.
Qed.

Lemma check_files_answers root files failures :
  Forall (fun p => checkable p /\ is_relative_to p root = true) files ->
  answers (check_files root files failures) (failures ++ (failure_line root <$> broken files)).
Proof.
  intros Hf. revert failures. induction Hf as [|p files [[(s & d & u & Ed & Eu & ->) Hc] Hr] _ IH];
    intros failures; cbn [check_files].
  { rewrite app_nil_r. apply answers_ret. }
  eapply answers_bind.
  { eapply answers_bind; [by apply read_answers|]. eapply answers_bind; [by apply answers_lift|apply answers_ret]. }
  eapply answers_bind.
  { apply check_links_answers; [done|]. apply Forall_forall. intros raw Hraw. apply Hc.
    exists (newlines u), (finditer (newlines u)). split_and!; [by exists d, u|by apply finditer_links|done]. }
  unfold broken. rewrite bind_cons, Ed. cbn. rewrite Eu, fmap_app, (assoc_L (++)). apply IH.
Qed.

Lemma answers_inv {A} (m : stateful W A) a w :
  answers m a -> exists w', printed (T:=T) w' = printed w /\ m w = (Ok a, w').
Proof. intros Hm. destruct (Hm w) as [Hr Hp]. exists (m w).2. split; [done|]. by rewrite <- Hr, <- surjective_pairing. Qed.

(** C36. The tool finds every broken link and only broken links.  On a tree that stays as
    it is, whose Markdown files can be read, it always returns; its failures are
    exactly the links of the Markdown files outside the skipped directories that lead
    to a place of the repository where nothing is; without one it returns 0 and says
    so on the standard output, with any it returns 1 and prints one line for each, in
    the order of the files and of their text, on the error output. *)
Theorem check_docs_exact file script (w : W) :
  resolved T file = Some script -> (2 <= length (parts script))%nat ->
  let root := parent (parent script) in
  (forall p, p ∈ tree T root -> skipped p = false -> checkable p) ->
  exists code failures w',
    check_docs file w = (Ok code, w') /\
    (forall p raw, (p, raw) ∈ failures <->
       (p ∈ tree T root /\ skipped p = false) /\ has_link p raw /\
       exists t, leads_to p raw t /\ present T t = false) /\
    if bool_decide (failures = [])
    then code = 0 /\ printed (T:=T) w' = ((printed (T:=T) w).1 ++ py "PASS: " ++
      py_int (len (filter (fun p => skipped p = false) (tree T root))) ++
      py " Markdown files have valid local links" ++ [10], (printed (T:=T) w).2)
    else code = 1 /\ printed (T:=T) w' = ((printed (T:=T) w).1,
      (printed (T:=T) w).2 ++ join [10] (failure_line root <$> failures) ++ [10]).
Proof.
  intros Hs Hn root Hc. set (found := filter _ (tree T root)). set (files := sorted_by path_key found).
  assert (Hperm : files ≡ₚ found) by apply sorted_by_perm.
  assert (Hin : forall p, p ∈ files <-> p ∈ tree T root /\ skipped p = false).
  { intros p. rewrite Hperm. unfold found. rewrite list_elem_of_filter. tauto. }
  assert (Hfiles : answers (markdown_files root) files).
  { eapply answers_bind; [apply rglob_answers|apply answers_ret]. }
  assert (Hall : Forall (fun p => checkable p /\ is_relative_to p root = true) files).
  { apply Forall_forall. intros p [Ht Hk]%Hin. split; [by apply Hc|by apply (tree_below (W:=W) (T:=T))]. }
  unfold check_docs. destruct (answers_inv (resolve file) script w) as (w1 & <- & E1); [by apply resolve_answers|].
  assert (E2 : parents_1 script = Ok root).
  { unfold parents_1. by rewrite (proj2 (Nat.ltb_ge _ _)). }
  destruct (answers_inv _ _ w1 Hfiles) as (w3 & <- & E3).
  destruct (answers_inv _ _ w3 (check_files_answers root files [] Hall)) as (w4 & <- & E4).
  rewrite bind_run, E1, bind_run. cbn [lift]. rewrite E2, bind_run, E3, bind_run, E4.
  assert (Hspec : forall p raw, (p, raw) ∈ broken files <->
    (p ∈ tree T root /\ skipped p = false) /\ has_link p raw /\ exists t, leads_to p raw t /\ present T t = false).
  { intros p raw. by rewrite broken_spec, Hin. }
  assert (Hlen : len files = len found) by (unfold len; by rewrite Hperm).
  cbn [app]. rewrite Hlen. destruct (broken files) as [|f fs] eqn:Eb.
  - destruct (print_out_Ok (T:=T) (py "PASS: " ++ py_int (len found) ++ py " Markdown files have valid local links") w4)
      as (w5 & Ep & Ew). exists 0, [], w5. rewrite bool_decide_true by done. cbn [fmap list_fmap].
    rewrite bind_run, Ep, Ew. split_and!; [done..|]. by rewrite <- !(assoc_L (++)).
  - destruct (print_err_Ok (T:=T) (join [10] (failure_line root <$> f :: fs)) w4) as (w5 & Ep & Ew).
    exists 1, (f :: fs), w5. rewrite bool_decide_false by done. rewrite <- Ew. split_and!; [|done..].
    rewrite fmap_cons in Ep |- *. by rewrite bind_run, Ep.
Qed.
End Run.
End Verdict.

(** ** A small repository

    A world of what was printed, over a given tree. *)
Section SmallTree.
Context (T : Tree).
Local Abbreviation W := (pystr * pystr)%type.

Definition or_os_error {A} (o : option A) : stateful W A :=
  match o with Some a => mret a | None => fail (Exn OSError (py "no such file")) end.

Definition tree_files : Files W := {|
  expanduser p := mret p;
  resolve p := or_os_error (resolved T p);
  is_dir p := mret false;
  is_file p := mret (bool_decide (is_Some (data_at T p)));
  exists_ p := mret (present T p);
  read_bytes p := or_os_error (data_at T p);
  named_temporary_file dir := or_os_error None;
  write_synced p d := mret tt;
  close_temporary p := mret tt;
  replace p q := mret tt;
  unlink p := mret tt |}.

Definition tree_docs : Docs W := {|
  docs_files := tree_files;
  rglob root pattern := mret (tree T root);
  print_out s w := (Ok tt, (w.1 ++ s ++ [10], w.2));
  print_err s w := (Ok tt, (w.1, w.2 ++ s ++ [10])) |}.

Lemma tree_laws :
  (forall root p, p ∈ tree T root -> is_relative_to p root = true) -> @DocsLaws W tree_docs T.
Proof.
  intros Hb. refine (@Build_DocsLaws W tree_docs T id Hb _ _ _ _ _ _).
  - done.
  - intros p d Hd w. cbn. by rewrite Hd.
  - intros p t Ht w. cbn. by rewrite Ht.
  - done.
  - intros s w. eauto.
  - intros s w. eauto.
Qed.
End SmallTree.

Definition small_tree : Tree :=
  let readme := path_of (py "/repo/README.md") in
  let page := path_of (py "/repo/docs/a b.md") in
  mkTree (fun root => if decide (root = path_of (py "/repo")) then [readme; page] else [])
    (fun p => if decide (p = readme)
              then Some (z2b <$> py "[web](https://dos.example) [a](docs/a%20b.md#top 'title') [[x](<gone.md>)")
              else if decide (p = page) then Some [] else None)
    Some (fun p => bool_decide (p = readme) || bool_decide (p = page)).

Lemma small_tree_below root p : p ∈ tree small_tree root -> is_relative_to p root = true.
Proof.
  cbn. destruct (decide _) as [->|]; [|by intros ?%elem_of_nil]. rewrite !elem_of_cons.
  intros [->|[->|?%elem_of_nil]]; vm_compute; done.
Qed.

Lemma text_of_found T p d s raw :
  data_at T p = Some d -> newlines <$> utf8_decode_strict d = Ok s ->
  has_link T p raw -> raw ∈ finditer s.
Proof.
  intros Hd Hs (s' & l & (d' & u & Hd' & Hu & ->) & Hl%finditer_links & Hin). rewrite Hd in Hd'.
  injection Hd' as <-. rewrite Hu in Hs. injection Hs as <-. by rewrite Hl.
Qed.

Lemma small_tree_checkable p :
  p ∈ tree small_tree (path_of (py "/repo")) -> checkable small_tree p.
Proof.
  intros Hp. change (p ∈ [path_of (py "/repo/README.md"); path_of (py "/repo/docs/a b.md")]) in Hp.
  apply elem_of_cons in Hp as [->|Hp%list_elem_of_singleton]; [|subst p]; split.
  - do 3 eexists. split_and!; [vm_compute; reflexivity..|done].
  - intros raw Hraw. eapply text_of_found in Hraw; [|reflexivity|vm_compute; reflexivity].
    set (l := finditer _) in Hraw. vm_compute in l. subst l.
    repeat (apply elem_of_cons in Hraw as [->|Hraw]); [| | |by apply elem_of_nil in Hraw].
    + left. vm_compute. reflexivity.
    + right. do 2 eexists. split; [vm_compute|]; reflexivity.
    + right. do 2 eexists. split; [vm_compute|]; reflexivity.
  - exists [], [], []. done.
  - intros raw Hraw. eapply text_of_found in Hraw; [|reflexivity|vm_compute; reflexivity].
    by apply elem_of_nil in Hraw.
Qed.

Lemma check_docs_exact_witness :
  exists (failures : list (path * pystr)) w',
    check_docs (H:=tree_docs small_tree) (path_of (py "/repo/tools/check_docs.py")) ([], []) = (Ok 1, w') /\
    (path_of (py "/repo/README.md"), py "<gone.md>") ∈ failures /\
    w' = ([], py "README.md: missing target '<gone.md>'" ++ [10]).
Proof.
  destruct (check_docs_exact small_tree (H0:=tree_laws small_tree small_tree_below)
    (path_of (py "/repo/tools/check_docs.py")) (path_of (py "/repo/tools/check_docs.py")) ([], []))
    as (code & failures & w' & Hrun & Hf & _).
  - done.
  - vm_compute. lia.
  - intros p Hp _. by apply small_tree_checkable.
  - vm_compute in Hrun. injection Hrun as <- <-. eexists failures, _. split; [vm_compute; reflexivity|].
    split; [|vm_compute; reflexivity]. apply Hf. clear Hf.
    split; [split; [apply (bool_decide_eq_true_1 _)|]; vm_compute; reflexivity|]. split.
    + do 2 eexists. split; [do 2 eexists; split_and!; [vm_compute; reflexivity..|reflexivity]|].
      split; [apply finditer_links; reflexivity|]. apply (bool_decide_eq_true_1 _). vm_compute. reflexivity.
    + eexists. split; [eexists; split; [vm_compute; reflexivity|reflexivity]|vm_compute; reflexivity].
Defined.
